(* ===== verification/_CoqProject ===== *)
-Q . S2P
Prelude.v
GoStrings.v
Utf8.v
FilePath.v
Regexp.v
Fcgi.v
Os.v
Upsun.v
Envs.v
Docker.v
Dotenv.v
Remote.v
Pid.v
Proxy.v
LocalEnv.v
ProjectConfig.v
Runner.v
Http.v
PhpExecutor.v
PhpServer.v
Reexec.v
Templating.v
Humanlog.v
Updater.v
UpsunCli.v
ServerCommands.v
Git.v
Book.v
Tailer.v
PidWait.v
UpsunCommands.v
UpsunTables.v
Generator.v
CloudCommands.v
Console.v
Commands.v
Pages.v
PhpStart.v
Toolbar.v
Router.v
FcgiForms.v
Platform.v
WriterProxy.v
TemplateCache.v
Styles.v
Tools.v
PidNames.v
EndToEnd.v
