(* ===== verification/Prelude.v ===== *)
(** * The Symfony CLI: a verification library

    The Symfony CLI is the local web server and tool box for Symfony projects.
    Its core is: finding the services of a project (Docker containers, a cloud
    environment, a tunnel) and exporting them as environment variables; a local
    web server that serves static files and talks FastCGI to PHP; a local proxy
    that gives each project a domain; and the pid files, configuration files,
    runner and background process that hold this together.  Around it are the
    commands that create projects, follow logs, keep programs up to date and call
    git.  This library models these parts and proves what makes them correct.

    ** Parts and files

    - [Prelude]: outcomes of Go code (a panic is a value), results with an
      error, loops whose body may panic, the tactic [ret_walk] and the hint
      database [ret] for showing that code returns.
    - [GoStrings], [FilePath], [Regexp], [Os]: the parts of Go's standard library
      that the code uses ([strings], [strconv], [sort.Strings],
      [net.SplitHostPort], [path/filepath] on Unix, [regexp], environment and
      file system), with their lemmas.  [FilePath.walk_up] is the loop that looks
      for the nearest ancestor with a file, shared by several components.
    - [Utf8]: runes and their encoding, and the lower case of a text with a table
      of Unicode as the class [Unicode].  Elsewhere [strings.ToLower] is that of
      ASCII.
    - [Fcgi] ([local/fcgi_client/fcgiclient.go]): the FastCGI client.  Records
      are bytes, integers have their width (lengths wrap as [uint16] and
      [uint32]); the connection is the class [Conn]; [FcgiForms]: forms and files,
      with the two encodings of bodies and their readers.
    - [Envs] ([envs/envs.go]): relationships to environment variables.  The Go
      interface [Environment] is the class [Environment]; its instances are in
      [Remote] and [LocalEnv].  Unchecked type assertions panic; endpoints are
      changed in place and the changed ones are returned.
    - [Docker] ([envs/docker.go]): containers of the Compose project to
      relationships.
    - [Dotenv] ([envs/dotenv.go]): dotenv files and their precedence.
    - [Remote] ([envs/remote.go], [envs/url.go]): the cloud environment, routes
      decoded in the order of the JSON document.
    - [LocalEnv] ([envs/local.go], [envs/local_tunnel.go]): the local
      environment, tunnels and look-ups of services.
    - [Upsun] ([local/upsun/]): detection of cloud projects, services and
      database versions; [UpsunCli]: the applications of a project, the program
      of the cloud, its installation and the commands passed on to it;
      [UpsunCommands], [UpsunTables]: the generated tables of commands, PHP
      extensions and services, entry by entry; [Generator] ([generator/],
      [symfony/cli.go], [commands/generator/]): the programs that write them.
    - [CloudCommands] ([local/upsun/cli.go], [commands/platformsh_hooks.go],
      [cloud_env_debug.go] and others): the commands of the cloud with their
      hooks, the check of the database version, debug mode.
    - [Console] ([main.go], [commands/root.go], [wrappers.go],
      [completion_posix.go], [util/homedir.go]): what the program runs for its
      arguments, and the declarations of all the commands.
    - [Commands] ([commands/]): the actions of the other local commands: the
      proxy and its domains, the certificate authority, lists and status,
      openers, checks, [project:init].
    - [Pid] ([local/pid/pidfile.go], [local/projects/configured.go]): pid files
      over a store of files and live processes; [PidWait]: waiting for files and
      processes, the log of a process; [PidNames] ([local/sum.go]): the paths of
      pid files from the hash of names.
    - [Proxy] ([local/proxy/]): configuration of the proxy (changes,
      persistence, reload), domain look-up, the decisions of the handlers;
      [Pages] ([local/html/], [local/proxy/cert_store.go]): the pages and the PAC
      file of the proxy, its certificates, its tunnels; [Styles]: the text of the
      pages.
    - [ProjectConfig] ([local/project/], [local/process/listener.go]):
      configuration files, flags and workers, document root, listener.
    - [Runner] ([local/runner.go] and the hooks of
      [commands/local_server_start.go] and [commands/local_run.go]): the restart
      loop as a state machine, with the goroutines blocked on its channels in
      the state; [Runner.step] gives the rules, [Runner.next] executes them.
    - [Http] ([local/http/]): the handlers of the web server, pushed resources,
      CORS, the recording writer; [WriterProxy]: that writer in front of the one of
      [net/http].
    - [PhpExecutor] ([local/php/executor.go], [composer.go], [symfony.go] and
      others): how a PHP process is found and with which environment and
      arguments it runs; the download of Composer; [Tools]: Composer and PIE run to
      their results, with the answers of the network.
    - [PhpServer] ([local/php/envs.go], [php_server.go], [cgi.go], [toolbar.go],
      [xsendfile.go], [fpm.go]): a request on its way to PHP and back;
      [PhpStart]: starting PHP and the hook of its runner; [Toolbar]: the block
      of the CLI in the web debug toolbar; [Router]: the PHP script through which
      the built-in server passes every request.
    - [Reexec] ([reexec/]): going to the background and restarting, as state
      machines of the parent, the child and their channels.  Module [Handshake]
      is the abstract protocol.
    - [Templating] ([commands/init_templating.go], [init_templating_php.go],
      [local_new.go], [project_init.go]): new projects and the files of a cloud
      project; [TemplateCache]: the repository of the templates and the functions
      they may call.
    - [Platform] ([local/pid/pidfile_other.go], [local/process/], [inotify/], the
      files for Windows): signals and process groups over a table of processes
      (module [Posix]), started processes ([Child]), file watching ([Inotify]) and
      [Windows].  The class [Processes] states what pid files need of a system;
      both systems are instances.
    - [Humanlog] ([humanlog/]): log lines recognised and printed in columns;
      [Tailer] ([local/logs/tailer.go]): the log files that are followed, with
      the goroutines over their shared map and the channels between them.
    - [Updater] ([updater/updater.go]): the announcement of new versions.
    - [ServerCommands] ([commands/local_server_start.go],
      [local_server_stop.go]): starting and stopping the server, as stages with
      effects in the monad [stage]; its workers as a state machine with the
      goroutines, the wait group of Docker Compose and the error channel.
    - [Git] ([git/]): calls of git and the writer that indents its output;
      [Book] ([book/]): the companion of the book, as programs over the history
      of what was done (the monad [prog]).

    They meet as in the code: [Docker] and the tunnel feed [LocalEnv], which like
    [Remote] implements [Envs.Environment]; [Proxy] asks [Pid] which server runs;
    [Runner] writes and removes its pid file through [Pid]; [Http.Start] takes
    its port from [ProjectConfig.CreateListener]; [PhpExecutor] and [PhpServer]
    take their variables from [Envs.Environment]; the child of [server:start]
    reports to the loop of [Reexec.Background]; [Tailer] follows the pid files of
    [Pid]; [Platform] is what [Pid.IsRunning] and [Pid.Stop] stand on; [Router] reads
    what [PhpServer.Serve] writes; [TemplateCache] calls [Git] and feeds
    [Templating]; [PhpStart] is an instance of [Runner.Hooks]; [CloudCommands] and
    [Generator] meet in the table of [UpsunCommands]; [Console] puts this table and
    the local commands into one name space; [Commands] works on the stores of
    [Pid] and [Proxy]; [EndToEnd] puts [Proxy], [Http] and [PhpServer] one behind the
    other, from the browser to the script.

    ** What the theorems show

    - Round trips: what the FastCGI client sends is what a responder decodes and
      what it answers is delivered whole ([Do_roundtrip],
      [streamReader_delivers]), and so are forms and files ([PostForm_roundtrip],
      [PostFile_roundtrip]); the variables handed to the built-in server are
      those PHP reads ([envContent_roundtrip]); a line of Symfony's log and a
      [Link] header are read back ([convertSymfonyLog_roundtrip],
      [parseLinkHeader_print]); routes are decoded in order
      ([UnmarshalJSON_order]); a change of the TLD is what is loaded next
      ([proxyTLD_saved]); a generated entry leads back to the command of the cloud
      program ([entry_roundtrip]), and the whole table to all the commands that are
      kept, with their flags and aliases ([table_leads_back]).
    - Refinement: the loop of [Background] implements the handshake step by step
      and justifies each verdict ([Background_refines]), and ends
      ([Background_liveness]); a daemon that
      reports success serves ([daemon_serves]); a script behind the built-in server
      sees what the CLI computed ([router_runs_front_controller]); the page texts
      are those that are put together ([WrapHTML_text]).
    - No panic: on well-formed relationships ([extract_rels_returns]), which
      those made from Docker are ([docker_relationships_extract]).
    - Independence: of Go's map iteration order, which is an argument of the
      definitions ([GetDir_longest], [NormalizeDomain_deterministic],
      [dockerServiceToRelationship_order], [GetConfiguredAndRunning_merge],
      [joinKVs_deterministic], [extensions_deterministic],
      [parsePHPExtensions_deterministic]); of how a stream is
      cut into pieces ([Write_stream]); the toolbar and the status command agree
      ([toolbar_agrees]), and so do the access log and the client but for an early
      informational status ([recorded_is_sent]), requirements and template functions ([Check_by_name]).
    - No lost events: a wait for a file ends if there is no symbolic link in its
      path ([wait_finds]), announced logs are followed however the goroutines
      interleave ([Watch_follows]), workers wait for Docker Compose and for nothing
      else ([start_workers_spec]).
    - Invariants: one command at a time and a pid file that tells the truth
      ([Run_one_command], [attached_pid_file]), exclusive pid files
      ([Write_exclusive]) of one owner ([pid_path_unique]) that tell whether a
      process lives ([IsRunning_truth]), log files followed once ([tails_once]), certificates
      of the right domain ([getCertificate_named]), the pid file of the proxy
      ([proxy_start_pid]), one command per name but for [pie]
      ([app_names_unique]), declared
      options ([options_declared]).
    - Safety: files served and scripts run stay in the document root
      ([Handler_confined], [script_split_confined]); nothing is overwritten or
      thrown away without consent ([createRequiredFilesProject_safe],
      [Checkout_confirmed]); Composer is installed only after its hash was
      verified, though a failed write is not noticed ([downloadComposer_verified]); the server is told before its workers are
      stopped ([stop_project_order]) and signals stay in the group of a command
      ([kill_confined]); the cache of templates is all that its update touches
      ([update_cache_calls]); production is never switched to debug mode,
      but [--off] has no such guard ([cloudEnvDebug_production]); tunnels close what they open
      ([hijack_closes]).
    - Bounds: connection attempts, network traffic, widths of columns
      ([RoundTrip_bounded], [Install_throttled], [Prettify_columns]).
    - Precedences and functional behaviour: configuration
      ([NewConfigFromContext_precedence], [mergeWithFileConfig_workers]),
      variables ([AsMap_precedence], [Execute_env], [generateEnv_spec],
      [LoadDotEnv_spec], [lookupDotEnv_precedence]), URLs ([extract_sql_url],
      [extractProjectDefaultUrl_best]), listener ([CreateListener_first_free]),
      pushes ([servePreloadLinks_spec]), applications
      ([findAppConfigFiles_iff]), domains
      ([attached_domain_reaches_server], [AddDirDomains_attaches],
      [attach_command_reaches]), what PHP is told of a request
      ([request_reaches_script]), database versions ([checkDoctrine_passes]),
      renewed authorities ([ca_install_renewed]), the list of servers
      ([server_rows_spec]), the latest versions ([ServiceLastVersion_latest]).
    - Behaviour that differs from what a comment, a message or the purpose of the
      code says is stated as it is: [mysql_creds_order],
      [ReplaceDirDomains_error], [reload_without_domains],
      [reloaded_TLD_ignored], [preferred_port_ignored], [loop_mode_runs_once],
      [writePairs_long_name_panics], [parse_link_reversed], [Restart_exit_code],
      [silence_renewed], [tweakToolbar_spec], [install_update],
      [tweakHTTPLog_spec], [start_workers_spec], [Checkout_containers],
      [CheckRequirements_min], [git_missing], [app_race], [wait_dropped],
      [wait_symlink], [script_split_shifted], [early_hint_hides],
      [context_swallowed], [debug_unnamed],
      [hooks_without_flags], [set_variable_command], [deploy_option],
      [tls_key_log_unread], [security_text], [ca_renew_stuck],
      [CreateTerminal_percent], [php_pid_args], [toolbar_dollar],
      [write_table_lost], [PostFile_read_error], [Getppid_spec],
      [scoop_home_ignored], [Stop_keeps_file_watch], [pie_download_sticks],
      [host_not_exposed], [parse_semicolon_format].

    ** Bounds and fuel

    Recursion is structural where the code iterates over data.  Fuel is used
    where it is not and is always enough: [walk_up] ([walk_fuel], by
    [walk_up_terminates]: [Dir] shortens the path), the skipping of a JSON value
    (the number of tokens), the loops of the FastCGI writers (the length of the
    data, [S (S (length p))] for the buffered writer, by the lemmas before
    [Do_sends]), repetition in [Regexp] (the length of the text: a repeated
    expression is never empty), the reader of the PHP file of variables (the
    number of assignments), [Git.scan] ([scan_fuel], by [scan_feed]: each turn
    shortens the buffer), the expansion of the toolbar (the length of the text, by
    [expand_lacks]), the retry of the renewal (two turns, by [ca_loop_enough] and
    [ca_loop_no_fuel]), the header of a part of a form (its length, by
    [read_header_lines]), and the search for a free port, which the code itself
    bounds by 50 turns.  The wait for a process in [Reexec] has no bound in the
    code; its fuel is an argument.

    ** What is a parameter

    Code outside the repository: the Docker client, JSON, YAML and base64
    decoding, [net/url], [godotenv], [text/template], [go-version], the console
    and certificate libraries, the security checker, the PHP store, [inotify] with the
    real path it reports, git and other programs that are run, the connection, the
    network, the user, SHA-1, the table of Unicode, the boundary of a form, the path
    functions of Windows and whether files can be written.
    Theorems that need something of them state it as a hypothesis with a concrete
    instance in the witness.

    ** What is not modelled

    Input and output proper (the terminal, the pictures of pages, TLS, gzip), what
    the console library does with the help texts, the lazy loading of the system
    library on Windows, and PHP's own part of the router ([auto_prepend_file]).
    Sessions are not part of [Posix.pstep]: a process may join any group.  Constants of the FastCGI protocol that nothing reads are left
    out. *)

From stdpp Require Import base tactics option list gmap strings pretty.
From Stdlib Require Import ZArith Lia Ascii.

(** ** Outcomes of Go code

    A Go function either returns or panics (failed type assertion, index or
    slice bounds out of range, write to a nil map).  A returned [error] is
    part of the returned value and is modelled by [gores]. *)

Inductive outcome (A : Type) : Type :=
| Ret (a : A)
| Panic.
Arguments Ret {A} _.
Arguments Panic {A}.

#[export] Instance outcome_ret : MRet outcome := λ A a, Ret a.
#[export] Instance outcome_bind : MBind outcome := λ A B f m,
  match m with Ret a => f a | Panic => Panic end.
#[export] Instance outcome_fmap : FMap outcome := λ A B f m,
  match m with Ret a => Ret (f a) | Panic => Panic end.

Definition returns {A} (m : outcome A) : Prop := ∃ a, m = Ret a.

(** A pair [(value, error)] of Go: either a value or an error. *)
Inductive gores (E A : Type) : Type :=
| Val (a : A)
| Err (e : E).
Arguments Val {E A} _.
Arguments Err {E A} _.

#[export] Instance gores_ret {E} : MRet (gores E) := λ A a, Val a.
#[export] Instance gores_bind {E} : MBind (gores E) := λ A B f m,
  match m with Val a => f a | Err e => Err e end.

(** Lifting an optional value: [None] is a panic. *)
Definition oget {A} (o : option A) : outcome A :=
  match o with Some a => Ret a | None => Panic end.

(** A left fold whose body may panic: the shape of a Go [for range] loop that
    updates local variables. *)
Fixpoint foldM {A B} (f : B → A → outcome B) (b : B) (l : list A) : outcome B :=
  match l with
  | [] => Ret b
  | a :: l => b' ← f b a; foldM f b' l
  end.

Lemma bind_inv {A B} (m : outcome A) (f : A → outcome B) b :
  m ≫= f = Ret b → ∃ a, m = Ret a ∧ f a = Ret b.
Proof. destruct m; [eauto|done]. Qed.

Lemma Ret_inj {A} (a b : A) : Ret a = Ret b → a = b.
Proof. congruence. Qed.

(** ** Showing that code returns *)

Lemma returns_bind {A B} (x : outcome A) (f : A → outcome B) :
  returns x → (∀ a, x = Ret a → returns (f a)) → returns (x ≫= f).
Proof. intros [a ->] H. by apply H. Qed.

Lemma bind_Ret {A B} (a : A) (f : A → outcome B) : Ret a ≫= f = f a.
Proof. done. Qed.

Lemma returns_Ret {A} (a : A) : returns (Ret a).
Proof. by exists a. Qed.

Lemma bind_assoc {A B C} (m : outcome A) (f : A → outcome B) (g : B → outcome C) :
  (m ≫= f) ≫= g = m ≫= (λ a, f a ≫= g).
Proof. by destruct m. Qed.

Lemma returns_not_Panic {A} (m : outcome A) : returns m ↔ m ≠ Panic.
Proof. unfold returns. destruct m; split; try done; [eauto|]. by intros [? [=]]. Qed.

Lemma foldM_app {A B} (f : B → A → outcome B) b l k :
  foldM f b (l ++ k) = foldM f b l ≫= λ b', foldM f b' k.
Proof. revert b. induction l as [|a l IH]; intros b; simpl; [done|]. destruct (f b a); simpl; auto. Qed.

(** A loop whose body never panics while an invariant holds returns with it. *)
Lemma foldM_inv {A B} (P : B → Prop) (f : B → A → outcome B) l b :
  P b → (∀ b a, P b → a ∈ l → ∃ b', f b a = Ret b' ∧ P b') →
  ∃ b', foldM f b l = Ret b' ∧ P b'.
Proof.
  revert b. induction l as [|a l IH]; intros b Hb Hf; simpl; [eauto|].
  destruct (Hf b a Hb) as (b1 & -> & Hb1); [by left|]. simpl. apply IH; [done|].
  intros b2 a2 ? ?. apply Hf; [done|by right].
Qed.

Create HintDb ret.
#[export] Hint Resolve returns_Ret : ret.

(** Walks through the binds and case distinctions of a body that returns. *)
Ltac ret_walk :=
  repeat first
    [ match goal with
      | |- returns (mbind _ _) => apply returns_bind; [|intros ? ?]
      | |- returns (if ?b then _ else _) => destruct b eqn:?
      | |- returns (match ?b with _ => _ end) => destruct b eqn:?
      end
    | solve [eauto with ret] ].
