(* ===== verification/GoStrings.v ===== *)
(** * Go's [strings], [strconv] and [bytes] functions used by the program

    A Go string is a sequence of bytes: here a [string] (a sequence of 8-bit
    [ascii] characters).  Argument orders follow the Go functions.  Case
    mapping and white-space trimming are those of the ASCII range, which is
    what Go does on ASCII input; multi-byte runes are left unchanged. *)

From stdpp Require Import base tactics option list gmap strings pretty sorting.
From Stdlib Require Import ZArith Lia Ascii.
From S2P Require Import Prelude.

Abbreviation slen := String.length.

(** [s[n:]] and [s[:n]] (with [n] within bounds; see [slice] for the checked
    form). *)
Fixpoint sdrop (n : nat) (s : string) : string :=
  match n, s with
  | O, _ => s
  | S n, String _ s => sdrop n s
  | S _, EmptyString => ""
  end.

Fixpoint stake (n : nat) (s : string) : string :=
  match n, s with
  | O, _ => ""
  | S n, String c s => String c (stake n s)
  | S _, EmptyString => ""
  end.

(** [s[lo:hi]] with Go's run-time check [0 <= lo <= hi <= len(s)]. *)
Definition slice (s : string) (lo hi : Z) : outcome string :=
  if bool_decide (0 ≤ lo ∧ lo ≤ hi ∧ hi ≤ Z.of_nat (slen s))%Z
  then Ret (stake (Z.to_nat (hi - lo)) (sdrop (Z.to_nat lo) s))
  else Panic.

Fixpoint HasPrefix (s prefix : string) {struct prefix} : bool :=
  match prefix, s with
  | EmptyString, _ => true
  | String p prefix, String c s => Ascii.eqb p c && HasPrefix s prefix
  | String _ _, EmptyString => false
  end.

Definition HasSuffix (s suffix : string) : bool :=
  (slen suffix <=? slen s) && String.eqb (sdrop (slen s - slen suffix) s) suffix.

(** [strings.Index]: [None] stands for -1. *)
Fixpoint Index (s sub : string) : option nat :=
  if HasPrefix s sub then Some 0
  else match s with
       | EmptyString => None
       | String _ s => S <$> Index s sub
       end.

Definition Contains (s sub : string) : bool := bool_decide (is_Some (Index s sub)).

(** [strings.ReplaceAll] for a non-empty [old]; [skip] counts the bytes of the
    current match still to be dropped. *)
Fixpoint replace_aux (skip : nat) (s old new : string) : string :=
  match s with
  | EmptyString => ""
  | String c s' =>
    match skip with
    | S k => replace_aux k s' old new
    | O => if HasPrefix s old then new +:+ replace_aux (slen old - 1) s' old new
           else String c (replace_aux 0 s' old new)
    end
  end.
Definition ReplaceAll (s old new : string) : string := replace_aux 0 s old new.

(** [strings.Split] for a non-empty [sep]. *)
Fixpoint split_aux (skip : nat) (cur s sep : string) : list string :=
  match s with
  | EmptyString => [cur]
  | String c s' =>
    match skip with
    | S k => split_aux k cur s' sep
    | O => if HasPrefix s sep then cur :: split_aux (slen sep - 1) "" s' sep
           else split_aux 0 (cur +:+ String c "") s' sep
    end
  end.
Definition Split (s sep : string) : list string := split_aux 0 "" s sep.

(** [strings.SplitN(s, sep, 2)]. *)
Definition SplitN2 (s sep : string) : list string :=
  match Index s sep with
  | None => [s]
  | Some i => [stake i s; sdrop (i + slen sep) s]
  end.

Fixpoint Join (l : list string) (sep : string) : string :=
  match l with
  | [] => ""
  | [s] => s
  | s :: l => s +:+ sep +:+ Join l sep
  end.

Definition TrimPrefix (s prefix : string) : string :=
  if HasPrefix s prefix then sdrop (slen prefix) s else s.
Definition TrimSuffix (s suffix : string) : string :=
  if HasSuffix s suffix then stake (slen s - slen suffix) s else s.

Fixpoint smap (f : ascii → ascii) (s : string) : string :=
  match s with EmptyString => "" | String c s => String (f c) (smap f s) end.
Fixpoint sfilter (f : ascii → bool) (s : string) : string :=
  match s with
  | EmptyString => ""
  | String c s => if f c then String c (sfilter f s) else sfilter f s
  end.
Fixpoint sforall (f : ascii → bool) (s : string) : bool :=
  match s with EmptyString => true | String c s => f c && sforall f s end.

Definition between (lo hi : nat) (c : ascii) : bool :=
  (lo <=? nat_of_ascii c) && (nat_of_ascii c <=? hi).
Definition is_lower (c : ascii) : bool := between 97 122 c.
Definition is_upper (c : ascii) : bool := between 65 90 c.
Definition is_digit (c : ascii) : bool := between 48 57 c.
Definition upper (c : ascii) : ascii :=
  if is_lower c then ascii_of_nat (nat_of_ascii c - 32) else c.
Definition lower (c : ascii) : ascii :=
  if is_upper c then ascii_of_nat (nat_of_ascii c + 32) else c.
Definition ToUpper (s : string) : string := smap upper s.
Definition ToLower (s : string) : string := smap lower s.

(** [strings.TrimSpace] and [strings.TrimRight(s, c)], [strings.Trim(s, c)] for
    a one-byte cut set. *)
Fixpoint drop_while (f : ascii → bool) (s : string) : string :=
  match s with
  | EmptyString => ""
  | String c s' => if f c then drop_while f s' else s
  end.
Fixpoint drop_while_end (f : ascii → bool) (s : string) : string :=
  match s with
  | EmptyString => ""
  | String c s' =>
    match drop_while_end f s' with
    | EmptyString => if f c then "" else String c ""
    | r => String c r
    end
  end.
Definition TrimSpace (s : string) : string :=
  drop_while_end Ascii.is_space (drop_while Ascii.is_space s).
Definition TrimRight (s : string) (cut : ascii) : string :=
  drop_while_end (Ascii.eqb cut) s.
Definition Trim (s : string) (cut : ascii) : string :=
  drop_while_end (Ascii.eqb cut) (drop_while (Ascii.eqb cut) s).

(** [strconv.Itoa] / [strconv.FormatInt(i, 10)] and [%d]. *)
Definition Itoa (z : Z) : string := pretty z.

(** [strconv.ParseBool]: [None] is the error. *)
Definition ParseBool (s : string) : option bool :=
  if bool_decide (s ∈ ["1"; "t"; "T"; "TRUE"; "true"; "True"]) then Some true
  else if bool_decide (s ∈ ["0"; "f"; "F"; "FALSE"; "false"; "False"]) then Some false
  else None.

(** [strconv.ParseInt(s, 10, 64)]: a syntax error yields 0, a range error the
    nearest bound; the flag says whether there was an error. *)
Definition digit_val (c : ascii) : Z := Z.of_nat (nat_of_ascii c) - 48.
Fixpoint parse_digits (acc : Z) (s : string) : option Z :=
  match s with
  | EmptyString => Some acc
  | String c s => if is_digit c then parse_digits (10 * acc + digit_val c) s else None
  end.
Definition int64_max : Z := 9223372036854775807.
Definition ParseInt (s : string) : Z * bool :=
  let '(neg, digits) :=
    match s with
    | String "-" r => (true, r)
    | String "+" r => (false, r)
    | _ => (false, s)
    end in
  match digits with
  | EmptyString => (0, true)
  | _ =>
    match parse_digits 0 digits with
    | None => (0, true)
    | Some v =>
      if neg then if bool_decide (v ≤ int64_max + 1) then (- v, false) else (- int64_max - 1, true)
      else if bool_decide (v ≤ int64_max) then (v, false) else (int64_max, true)
    end
  end%Z.

Definition newline : string := String "010" "".

(** [net.SplitHostPort]; [None] is the error. *)
Fixpoint last_colon (s : string) : option nat :=
  match s with
  | EmptyString => None
  | String ch s =>
    match last_colon s with
    | Some i => Some (S i)
    | None => if Ascii.eqb ch ":" then Some 0 else None
    end
  end.
Definition SplitHostPort (hostport : string) : option (string * string) :=
  match last_colon hostport with
  | None => None
  | Some i =>
    let port := sdrop (i + 1) hostport in
    if HasPrefix hostport "[" then
      match Index hostport "]" with
      | None => None
      | Some e =>
        if bool_decide (e + 1 = i) then
          if Contains (sdrop 1 hostport) "[" || Contains (sdrop (e + 1) hostport) "]" then None
          else Some (stake (e - 1) (sdrop 1 hostport), port)
        else None
      end
    else
      let host := stake i hostport in
      if Contains host ":" || Contains hostport "[" || Contains hostport "]" then None
      else Some (host, port)
  end.

(** [net.JoinHostPort]. *)
Definition JoinHostPort (host port : string) : string :=
  if Contains host ":" then "[" +:+ host +:+ "]:" +:+ port else host +:+ ":" +:+ port.

(** ** Lemmas *)

Lemma sapp_nil_l s : "" +:+ s = s.
Proof. done. Qed.

Lemma sapp_cons c s t : String c s +:+ t = String c (s +:+ t).
Proof. done. Qed.

Lemma sapp_nil_r s : s +:+ "" = s.
Proof. induction s; [done|]. rewrite sapp_cons. by f_equal. Qed.

Lemma sapp_assoc s t u : (s +:+ t) +:+ u = s +:+ (t +:+ u).
Proof. induction s; [done|]. rewrite !sapp_cons. by f_equal. Qed.

Lemma slen_app s t : slen (s +:+ t) = slen s + slen t.
Proof. induction s; [done|]. rewrite sapp_cons. simpl. by f_equal. Qed.

Lemma sapp_inj_l s t u : s +:+ t = s +:+ u → t = u.
Proof. induction s; [done|]. rewrite !sapp_cons. intros [=]. auto. Qed.

Lemma sapp_inj_r s t u : s +:+ u = t +:+ u → s = t.
Proof.
  revert t. induction s as [|c s IH]; intros [|d t] H; [done| | |].
  - apply (f_equal slen) in H. rewrite sapp_nil_l, slen_app in H. simpl in H. lia.
  - apply (f_equal slen) in H. rewrite sapp_nil_l, slen_app in H. simpl in H. lia.
  - rewrite !sapp_cons in H. injection H as -> H. f_equal. auto.
Qed.

Lemma sdrop_app s t : sdrop (slen s) (s +:+ t) = t.
Proof. induction s; [done|]. rewrite sapp_cons. simpl. auto. Qed.

Lemma stake_app s t : stake (slen s) (s +:+ t) = s.
Proof. induction s; [done|]. rewrite sapp_cons. simpl. by f_equal. Qed.

Lemma stake_sdrop n s : stake n s +:+ sdrop n s = s.
Proof.
  revert s. induction n as [|n IH]; intros [|c s]; simpl; try done.
  rewrite sapp_cons. by f_equal.
Qed.

Lemma slen_sdrop n s : slen (sdrop n s) = slen s - n.
Proof. revert s. induction n; intros [|c s]; simpl; auto. Qed.

Lemma slen_stake n s : slen (stake n s) = n `min` slen s.
Proof. revert s. induction n; intros [|c s]; simpl; auto. Qed.

Lemma HasPrefix_spec s p : HasPrefix s p = true ↔ ∃ r, s = p +:+ r.
Proof.
  revert s. induction p as [|a p IH]; intros s; simpl.
  { split; [intros _; by exists s | done]. }
  destruct s as [|c s].
  { split; [done|]. by intros [r [=]]. }
  rewrite andb_true_iff, Ascii.eqb_eq, IH. split.
  - intros [-> [r ->]]. by exists r.
  - intros [r H]. rewrite sapp_cons in H. injection H as -> ->. eauto.
Qed.

Lemma HasPrefix_app p r : HasPrefix (p +:+ r) p = true.
Proof. apply HasPrefix_spec. by exists r. Qed.

Lemma HasSuffix_spec s p : HasSuffix s p = true ↔ ∃ r, s = r +:+ p.
Proof.
  unfold HasSuffix. rewrite andb_true_iff, Nat.leb_le, String.eqb_eq. split.
  - intros [Hle H]. exists (stake (slen s - slen p) s).
    rewrite <-(stake_sdrop (slen s - slen p) s) at 1. by rewrite H.
  - intros [r ->]. rewrite slen_app. split; [lia|].
    replace (slen r + slen p - slen p) with (slen r) by lia. apply sdrop_app.
Qed.

Lemma HasSuffix_app r p : HasSuffix (r +:+ p) p = true.
Proof. apply HasSuffix_spec. by exists r. Qed.

Lemma stake_app_suffix r p : stake (slen (r +:+ p) - slen p) (r +:+ p) = r.
Proof.
  rewrite slen_app. replace (slen r + slen p - slen p) with (slen r) by lia.
  apply stake_app.
Qed.

Lemma TrimSuffix_app r p : TrimSuffix (r +:+ p) p = r.
Proof. unfold TrimSuffix. by rewrite HasSuffix_app, stake_app_suffix. Qed.

Lemma Index_Some s sub i :
  Index s sub = Some i → ∃ r, s = stake i s +:+ sub +:+ r ∧ i + slen sub ≤ slen s.
Proof.
  revert i. induction s as [|c s IH]; intros i; simpl; destruct (HasPrefix _ sub) eqn:E.
  - intros [= <-]. apply HasPrefix_spec in E as [r E]. exists r. split; [by rewrite E|].
    apply (f_equal slen) in E. rewrite slen_app in E. simpl in *. lia.
  - done.
  - intros [= <-]. apply HasPrefix_spec in E as [r E]. exists r. rewrite E. split; [done|].
    apply (f_equal slen) in E. rewrite slen_app in E. simpl in *. lia.
  - destruct (Index s sub) as [j|] eqn:Ej; simpl; [|done]. intros [= <-].
    destruct (IH j eq_refl) as (r & Hs & Hl). exists r. simpl. rewrite sapp_cons.
    split; [by f_equal | lia].
Qed.

Lemma Index_unfold s sub :
  Index s sub = if HasPrefix s sub then Some 0
                else match s with EmptyString => None | String _ s' => S <$> Index s' sub end.
Proof. by destruct s. Qed.

Lemma Index_app_Some a sub r : is_Some (Index (a +:+ sub +:+ r) sub).
Proof.
  induction a as [|c a [i IH]]; rewrite Index_unfold.
  - rewrite sapp_nil_l, HasPrefix_app. eauto.
  - rewrite sapp_cons. destruct (HasPrefix _ sub); [by eauto|]. rewrite IH. simpl. eauto.
Qed.

Lemma Contains_spec s sub : Contains s sub = true ↔ ∃ a r, s = a +:+ sub +:+ r.
Proof.
  unfold Contains. rewrite bool_decide_eq_true. split.
  - intros [i Hi]. apply Index_Some in Hi as (r & -> & _). eauto.
  - intros (a & r & ->). apply Index_app_Some.
Qed.

Lemma pretty_N_char_digit r :
  (r < 10)%N → is_digit (pretty_N_char r) = true ∧ digit_val (pretty_N_char r) = Z.of_N r.
Proof.
  intros Hr.
  assert (r = 0 ∨ r = 1 ∨ r = 2 ∨ r = 3 ∨ r = 4 ∨ r = 5 ∨ r = 6 ∨ r = 7 ∨ r = 8 ∨ r = 9)%N as Hc
    by lia.
  by destruct Hc as [->|[->|[->|[->|[->|[->|[->|[->|[->| ->]]]]]]]]].
Qed.

(** [ParseInt] reads back what [Itoa] prints. *)
Lemma parse_digits_go x : ∃ k, (0 ≤ k)%Z ∧ ∀ s acc,
  parse_digits acc (pretty_N_go x s) = parse_digits (acc * 10 ^ k + Z.of_N x) s.
Proof.
  induction (N.lt_wf_0 x) as [x _ IH]. destruct (decide (x = 0)%N) as [->|Hx].
  { exists 0%Z. split; [lia|]. intros s acc. rewrite pretty_N_go_0. f_equal. lia. }
  destruct (IH (x `div` 10)%N) as (k & Hk & H); [apply N.div_lt; lia|].
  exists (k + 1)%Z. split; [lia|]. intros s acc. rewrite pretty_N_go_step by lia. rewrite H.
  set (r := (x `mod` 10)%N). assert (Hr : (r < 10)%N) by (apply N.mod_lt; lia).
  pose proof (pretty_N_char_digit r Hr) as Hd.
  destruct Hd as [Hd Hv]. simpl. rewrite Hd, Hv. f_equal.
  rewrite Z.pow_add_r by lia. change (10 ^ 1)%Z with 10%Z.
  pose proof (N.div_mod x 10 ltac:(lia)) as Hdm. fold r in Hdm.
  assert (Z.of_N x = 10 * Z.of_N (x `div` 10) + Z.of_N r)%Z by lia. lia.
Qed.

Lemma pretty_N_go_head x s : (0 < x)%N → ∃ c t, pretty_N_go x s = String c t ∧ is_digit c = true.
Proof.
  revert s. induction (N.lt_wf_0 x) as [x _ IH]; intros s Hx. rewrite pretty_N_go_step by done.
  destruct (decide (x `div` 10 = 0)%N) as [->|Hd].
  - rewrite pretty_N_go_0. do 2 eexists. split; [done|].
    unfold pretty_N_char. by repeat case_match.
  - apply IH; [by apply N.div_lt | by apply N.neq_0_lt_0].
Qed.

Lemma digit_not_sign c : is_digit c = true → c ≠ "-"%char ∧ c ≠ "+"%char.
Proof. intros H. split; intros ->; done. Qed.

Lemma ParseInt_digits c t z :
  is_digit c = true → parse_digits 0 (String c t) = Some z → (z ≤ int64_max)%Z →
  ParseInt (String c t) = (z, false).
Proof.
  intros Hd Hp Hz. unfold ParseInt.
  assert ((match String c t with
           | String "-" r => (true, r) | String "+" r => (false, r) | _ => (false, String c t)
           end) = (false, String c t)) as ->.
  { apply digit_not_sign in Hd as [H1 H2].
    destruct c as [[][][][][][][][]]; try done; exfalso; by (apply H1 || apply H2). }
  rewrite Hp. by rewrite bool_decide_true.
Qed.

Lemma ParseInt_Itoa n : (0 ≤ n ≤ int64_max)%Z → ParseInt (Itoa n) = (n, false).
Proof.
  intros Hn. destruct n as [|p|p]; [done| |lia].
  change (Itoa (Z.pos p)) with (pretty_N_go (N.pos p) "").
  destruct (pretty_N_go_head (N.pos p) "") as (c & t & E & Hc); [done|].
  destruct (parse_digits_go (N.pos p)) as (k & Hk & H). specialize (H "" 0%Z).
  rewrite E in H |- *. apply ParseInt_digits; [done| |lia]. rewrite H. simpl. f_equal; lia.
Qed.

Lemma Itoa_inj a b : Itoa a = Itoa b → a = b.
Proof. apply (inj pretty). Qed.

(** ** One-byte separators *)

Definition lacks (c : ascii) (s : string) : bool := sforall (λ x, negb (Ascii.eqb c x)) s.

Lemma HasPrefix_char c x s : HasPrefix (String x s) (String c "") = Ascii.eqb c x.
Proof. simpl. apply andb_true_r. Qed.

Lemma split_char_step c x s cur :
  split_aux 0 cur (String x s) (String c "")
  = if Ascii.eqb c x then cur :: split_aux 0 "" s (String c "")
    else split_aux 0 (cur +:+ String x "") s (String c "").
Proof. cbn [split_aux]. rewrite HasPrefix_char. by destruct (Ascii.eqb c x). Qed.

Lemma split_char_app c a b cur :
  split_aux 0 cur (a +:+ String c b) (String c "")
  = split_aux 0 cur a (String c "") ++ split_aux 0 "" b (String c "").
Proof.
  revert cur. induction a as [|x a IH]; intros cur; rewrite ?sapp_nil_l, ?sapp_cons, !split_char_step.
  - by rewrite Ascii.eqb_refl.
  - destruct (Ascii.eqb c x); [|apply IH]. by rewrite IH.
Qed.

Lemma split_char_lacks c s cur :
  lacks c s = true → split_aux 0 cur s (String c "") = [cur +:+ s].
Proof.
  revert cur. induction s as [|x s IH]; intros cur; [by rewrite sapp_nil_r|].
  unfold lacks. cbn [sforall]. rewrite andb_true_iff, negb_true_iff. intros [Hx Hs].
  rewrite split_char_step, Hx, IH by done. by rewrite sapp_assoc.
Qed.

Lemma Split_Join c l :
  l ≠ [] → Forall (λ s, lacks c s = true) l → Split (Join l (String c "")) (String c "") = l.
Proof.
  intros Hl H. unfold Split. induction H as [|s l Hs H IH]; [done|].
  destruct l as [|t l]; [apply (split_char_lacks c s ""); done|].
  change (Join (s :: t :: l) (String c "")) with (s +:+ String c (Join (t :: l) (String c ""))).
  rewrite split_char_app, split_char_lacks, IH by done. done.
Qed.

Lemma split_char_pieces c s cur :
  lacks c cur = true → Forall (λ x, lacks c x = true) (split_aux 0 cur s (String c "")).
Proof.
  revert cur. induction s as [|x s IH]; intros cur Hc; [by repeat constructor|].
  rewrite split_char_step. destruct (Ascii.eqb c x) eqn:Hx.
  - constructor; [done|]. by apply IH.
  - apply IH. unfold lacks in *. revert Hc. clear -Hx.
    induction cur as [|y cur IH]; [by simpl; rewrite Hx|]. cbn [sforall].
    rewrite sapp_cons. cbn [sforall]. rewrite !andb_true_iff. naive_solver.
Qed.

Lemma lacks_app c a b : lacks c (a +:+ b) = lacks c a && lacks c b.
Proof. induction a as [|x a IH]; [done|]. unfold lacks in *. rewrite sapp_cons. simpl. by rewrite IH, andb_assoc. Qed.

Lemma Index_char c a b : lacks c a = true → Index (a +:+ String c b) (String c "") = Some (slen a).
Proof.
  induction a as [|x a IH]; rewrite Index_unfold, ?sapp_nil_l, ?sapp_cons, HasPrefix_char.
  - by rewrite Ascii.eqb_refl.
  - unfold lacks. cbn [sforall]. rewrite andb_true_iff, negb_true_iff. intros [-> Ha].
    by rewrite IH.
Qed.

Lemma Index_lacks c s : lacks c s = true → Index s (String c "") = None.
Proof.
  induction s as [|x s IH]; rewrite Index_unfold, ?HasPrefix_char; [done|].
  unfold lacks. cbn [sforall]. rewrite andb_true_iff, negb_true_iff. intros [-> Hs]. by rewrite IH.
Qed.

Lemma sforall_app f a b : sforall f (a +:+ b) = sforall f a && sforall f b.
Proof. induction a as [|c a IH]; [done|]. rewrite sapp_cons. simpl. by rewrite IH, andb_assoc. Qed.

Lemma sforall_impl (p q : ascii → bool) s :
  (∀ c, p c = true → q c = true) → sforall p s = true → sforall q s = true.
Proof. intros H. induction s as [|c s IH]; cbn; [done|]. rewrite !andb_true_iff. naive_solver. Qed.

(** ** Trimming *)

Definition trimmed (s : string) : bool :=
  bool_decide (drop_while Ascii.is_space s = s) && bool_decide (drop_while_end Ascii.is_space s = s).

Lemma TrimSpace_trimmed s : trimmed s = true → TrimSpace s = s.
Proof. unfold trimmed, TrimSpace. rewrite andb_true_iff, !bool_decide_eq_true. by intros [-> ->]. Qed.

Lemma drop_while_length f s : slen (drop_while f s) ≤ slen s.
Proof. induction s as [|c s IH]; simpl; [done|]. destruct (f c); simpl; lia. Qed.

Lemma drop_while_app f a b : a ≠ "" → drop_while f a = a → drop_while f (a +:+ b) = a +:+ b.
Proof.
  destruct a as [|c a]; [done|]. intros _ Ha. rewrite sapp_cons. simpl in *. destruct (f c); [|done].
  pose proof (drop_while_length f a) as Hl. rewrite Ha in Hl. simpl in Hl. lia.
Qed.

Lemma drop_while_end_app f a b :
  drop_while_end f b ≠ "" → drop_while_end f (a +:+ b) = a +:+ drop_while_end f b.
Proof.
  intros Hb. induction a as [|c a IH]; [done|]. rewrite !sapp_cons. cbn [drop_while_end]. rewrite IH.
  destruct a as [|d a]; [|done]. rewrite sapp_nil_l. by destruct (drop_while_end f b).
Qed.

(** ** [sort.Strings] *)

Definition SortStrings (l : list string) : list string := merge_sort String.le l.

Lemma SortStrings_perm l : SortStrings l ≡ₚ l.
Proof. apply merge_sort_Permutation. Qed.

Lemma SortStrings_sorted l : Sorted String.le (SortStrings l).
Proof. apply Sorted_merge_sort; apply _. Qed.

(** The result depends only on the elements, not on their order. *)
#[export] Instance SortStrings_proper : Proper ((≡ₚ) ==> (=)) SortStrings.
Proof.
  intros l k H. apply (StronglySorted_unique String.le).
  - apply Sorted_StronglySorted, SortStrings_sorted; apply _.
  - apply Sorted_StronglySorted, SortStrings_sorted; apply _.
  - by rewrite !SortStrings_perm.
Qed.
