(* ===== verification/Utf8.v ===== *)
(** * Text as runes ([unicode/utf8], [strings.ToLower])

    Go decodes a string into runes and lowers them one by one; a byte that belongs
    to no rune becomes the replacement character, which has three bytes, and some
    runes change their length.  The table of [unicode.To] for runes above ASCII is
    the class [Unicode]. *)

From stdpp Require Import base tactics option list strings.
From Stdlib Require Import ZArith Lia Ascii.
From S2P Require Import Prelude GoStrings.

(** [unicode.To(unicode.LowerCase, r)] *)
Class Unicode := lower_table : Z → Z.

Definition RuneError : Z := 65533.
Definition byte_of (c : ascii) : Z := Z.of_nat (nat_of_ascii c).
Definition char_of (b : Z) : ascii := ascii_of_nat (Z.to_nat b).
Definition is_ascii (c : ascii) : bool := bool_decide (byte_of c < 128)%Z.
Definition ascii_only (s : string) : bool := sforall is_ascii s.

(** The bytes that may follow the first one: how many, and the range of the next. *)
Definition lead (b : Z) : option (nat * Z * Z) :=
  if bool_decide (194 ≤ b ≤ 223)%Z then Some (1, 128%Z, 191%Z)
  else if bool_decide (b = 224)%Z then Some (2, 160%Z, 191%Z)
  else if bool_decide (b = 237)%Z then Some (2, 128%Z, 159%Z)
  else if bool_decide (225 ≤ b ≤ 239)%Z then Some (2, 128%Z, 191%Z)
  else if bool_decide (b = 240)%Z then Some (3, 144%Z, 191%Z)
  else if bool_decide (241 ≤ b ≤ 243)%Z then Some (3, 128%Z, 191%Z)
  else if bool_decide (b = 244)%Z then Some (3, 128%Z, 143%Z)
  else None.

(** Continuation bytes: [n] of them, the first one between [lo] and [hi]. *)
Fixpoint continuation (n : nat) (lo hi acc : Z) (s : string) : option Z :=
  match n, s with
  | O, _ => Some acc
  | S n, String c s =>
    let b := byte_of c in
    if bool_decide (lo ≤ b ≤ hi)%Z then continuation n 128 191 (acc * 64 + (b - 128))%Z s else None
  | S _, EmptyString => None
  end.
(** The bits of the first byte of a rune of [n] more bytes. *)
Definition lead_bits (n : nat) (b : Z) : Z :=
  (match n with 1%nat => b - 192 | 2%nat => b - 224 | _ => b - 240 end)%Z.

(** [utf8.DecodeRuneInString] of the text [c s]: the rune and its width. *)
Definition DecodeRune (c : ascii) (s : string) : Z * nat :=
  let b := byte_of c in
  if is_ascii c then (b, 1) else
  match lead b with
  | None => (RuneError, 1)
  | Some (n, lo, hi) =>
    match continuation n lo hi (lead_bits n b) s with
    | Some r => (r, S n)
    | None => (RuneError, 1)
    end
  end.

(** [utf8.AppendRune] *)
Definition EncodeRune (r : Z) : string :=
  let r := if bool_decide (r < 0 ∨ 1114111 < r ∨ 55296 ≤ r ≤ 57343)%Z then RuneError else r in
  let tail x := char_of (128 + x mod 64)%Z in
  if bool_decide (r < 128)%Z then String (char_of r) ""
  else if bool_decide (r < 2048)%Z then String (char_of (192 + r / 64)%Z) (String (tail r) "")
  else if bool_decide (r < 65536)%Z then
    String (char_of (224 + r / 4096)%Z) (String (tail (r / 64)%Z) (String (tail r) ""))
  else String (char_of (240 + r / 262144)%Z) (String (tail (r / 4096)%Z) (String (tail (r / 64)%Z) (String (tail r) ""))).

(** [strings.Map]: [skip] bytes belong to the rune before. *)
Fixpoint map_runes (f : Z → Z) (skip : nat) (s : string) : string :=
  match s with
  | EmptyString => ""
  | String c s =>
    match skip with
    | S skip => map_runes f skip s
    | O => let '(r, width) := DecodeRune c s in EncodeRune (f r) +:+ map_runes f (width - 1) s
    end
  end.

Section lower.
Context `{!Unicode}.
(** [unicode.ToLower] *)
Definition rune_lower (r : Z) : Z :=
  if bool_decide (r < 128)%Z then if bool_decide (65 ≤ r ≤ 90)%Z then (r + 32)%Z else r else lower_table r.
(** [strings.ToLower] *)
Definition ToLowerRunes (s : string) : string :=
  if ascii_only s then ToLower s else map_runes rune_lower 0 s.

Lemma ToLowerRunes_ascii s : ascii_only s = true → ToLowerRunes s = ToLower s.
Proof. intros Hs. unfold ToLowerRunes. by rewrite Hs. Qed.
End lower.

(** ASCII and the runes above it: an accented letter, one whose lower case is
    longer, a byte that is no rune. *)
Definition sample_unicode : Unicode := λ r,
  if bool_decide (r = 201)%Z then 233%Z else if bool_decide (r = 570)%Z then 11365%Z else r.
Definition bytes (l : list nat) : string := String.string_of_list_ascii (ascii_of_nat <$> l).
Example ToLowerRunes_ex :
  let lower := @ToLowerRunes sample_unicode in
  lower "/Blog.PHP" = "/blog.php" ∧
  lower (bytes [195; 137; 65]) = bytes [195; 169; 97] ∧
  lower (bytes [200; 186]) = bytes [226; 177; 165] ∧
  lower (bytes [255; 65]) = bytes [239; 191; 189; 97] ∧
  lower (bytes [240; 159; 152; 128]) = bytes [240; 159; 152; 128].
Proof. vm_compute. done. Qed.
