(* ===== verification/FilePath.v ===== *)
(** * Go's [path/filepath] on Unix, and the "walk up the tree" loops

    [Clean], [Join], [Dir], [Base] and [IsAbs] of [path/filepath] for the
    separator [/].  Several components (Docker Compose directory, [.env]
    directory, repository root, [php.ini] directory, running web server) look
    for the nearest ancestor of a directory that satisfies a test, with the
    same loop; [walk_up] is that loop and the lemmas say that it always
    terminates and which directory it finds. *)

From stdpp Require Import base tactics option list gmap strings pretty.
From Stdlib Require Import ZArith Lia Ascii.
From S2P Require Import Prelude GoStrings.

Definition sep : string := "/".

Definition IsAbs (p : string) : bool := HasPrefix p sep.

(** The component stack of [filepath.Clean], most recent component first. *)
Fixpoint clean_comps (rooted : bool) (stack comps : list string) : list string :=
  match comps with
  | [] => reverse stack
  | c :: comps =>
    if bool_decide (c = "" ∨ c = ".") then clean_comps rooted stack comps
    else if bool_decide (c = "..") then
      match stack with
      | [] => clean_comps rooted (if rooted then [] else [".."]) comps
      | t :: stack' => if bool_decide (t = "..") then clean_comps rooted (".." :: stack) comps
                       else clean_comps rooted stack' comps
      end
    else clean_comps rooted (c :: stack) comps
  end.

Definition Clean (p : string) : string :=
  if bool_decide (p = "") then "." else
  let out := Join (clean_comps (IsAbs p) [] (Split p sep)) sep in
  if IsAbs p then sep +:+ out
  else if bool_decide (out = "") then "." else out.

(** [filepath.Join]: leading empty elements are ignored. *)
Fixpoint fjoin (elems : list string) : string :=
  match elems with
  | [] => ""
  | e :: rest => if bool_decide (e = "") then fjoin rest else Clean (Join elems sep)
  end.

(** The prefix of [p] up to and including its last separator. *)
Fixpoint dir_prefix (p : string) : string :=
  match p with
  | EmptyString => ""
  | String c p' =>
    match dir_prefix p' with
    | EmptyString => if Ascii.eqb c "/" then sep else ""
    | r => String c r
    end
  end.

Definition Dir (p : string) : string := Clean (dir_prefix p).

Definition Base (p : string) : string :=
  if bool_decide (p = "") then "." else
  let p := TrimRight p "/" in
  let b := sdrop (slen (dir_prefix p)) p in
  if bool_decide (b = "") then sep else b.

(** [filepath.Ext]: the suffix from the last dot of the last element. *)
Fixpoint ext_aux (p : string) : option string :=
  match p with
  | EmptyString => None
  | String c p' =>
    match ext_aux p' with
    | Some e => Some e
    | None => if Ascii.eqb c "." then Some p
              else None
    end
  end.
Definition Ext (p : string) : string :=
  default "" (ext_aux (sdrop (slen (dir_prefix p)) p)).

(** ** The loop

    <<
    for {
        if <found dir> { return ... }
        upDir := filepath.Dir(dir)
        if upDir == dir || upDir == "." { return <not found> }   // [stop_dot]
        dir = upDir
    }
    >>
    [None]: out of fuel; [Some None]: not found. *)
Fixpoint walk_up {A} (stop_dot : bool) (found : string → option A) (fuel : nat) (dir : string)
  : option (option A) :=
  match fuel with
  | O => None
  | S fuel =>
    match found dir with
    | Some a => Some (Some a)
    | None =>
      let upDir := Dir dir in
      if bool_decide (upDir = dir) || stop_dot && bool_decide (upDir = ".") then Some None
      else walk_up stop_dot found fuel upDir
    end
  end.

(** The fuel that is always enough (see [walk_up_terminates]). *)
Definition walk_fuel (dir : string) : nat := slen dir + 3.

(** ** Length bounds: [Dir] climbs *)

(** The length of the components, each with its separator. *)
Definition tot (l : list string) : nat := sum_list_with (λ s, S (slen s)) l.
#[local] Arguments tot : simpl never.

Lemma tot_nil : tot [] = 0.
Proof. done. Qed.

Lemma tot_cons s l : tot (s :: l) = S (slen s) + tot l.
Proof. done. Qed.

Lemma tot_app l k : tot (l ++ k) = tot l + tot k.
Proof. apply sum_list_with_app. Qed.

Lemma tot_reverse l : tot (reverse l) = tot l.
Proof. apply sum_list_with_reverse. Qed.

Lemma Join_cons2 a b l s : Join (a :: b :: l) s = a +:+ s +:+ Join (b :: l) s.
Proof. done. Qed.

Lemma slen_Join l : slen (Join l sep) = tot l - 1.
Proof.
  induction l as [|a [|b l] IH]; [done| |].
  - rewrite tot_cons, tot_nil. simpl. lia.
  - rewrite Join_cons2, !slen_app, IH, !tot_cons. simpl. lia.
Qed.

Lemma split_aux_tot s cur : tot (split_aux 0 cur s sep) = S (slen cur + slen s).
Proof.
  revert cur. induction s as [|c s IH]; intros cur; [simpl; rewrite tot_cons, tot_nil; lia|].
  change (split_aux 0 cur (String c s) sep) with
    (if HasPrefix (String c s) sep then cur :: split_aux 0 "" s sep
     else split_aux 0 (cur +:+ String c "") s sep).
  destruct (HasPrefix _ _).
  - rewrite tot_cons, IH. simpl. lia.
  - rewrite IH, slen_app. simpl. lia.
Qed.

(** A string that ends with a separator splits with a last empty component. *)
Lemma split_aux_snoc s cur : ∃ l, split_aux 0 cur (s +:+ sep) sep = l ++ [""].
Proof.
  revert cur. induction s as [|c s IH]; intros cur; [by exists [cur]|].
  rewrite sapp_cons.
  change (split_aux 0 cur (String c (s +:+ sep)) sep) with
    (if HasPrefix (String c (s +:+ sep)) sep then cur :: split_aux 0 "" (s +:+ sep) sep
     else split_aux 0 (cur +:+ String c "") (s +:+ sep) sep).
  destruct (HasPrefix _ _).
  - destruct (IH "") as [l ->]. by exists (cur :: l).
  - apply IH.
Qed.

Lemma clean_comps_tot r stack comps :
  tot (clean_comps r stack comps) ≤ tot stack + tot comps.
Proof.
  revert stack. induction comps as [|c comps IH]; intros stack; simpl.
  { rewrite tot_reverse, tot_nil. lia. }
  rewrite tot_cons. repeat case_bool_decide; subst.
  - specialize (IH stack). lia.
  - destruct stack as [|t stack].
    + destruct r; [specialize (IH []) | specialize (IH [".."])];
        rewrite ?tot_cons in *; simpl in *; lia.
    + case_bool_decide; [specialize (IH (".." :: t :: stack)) | specialize (IH stack)];
        rewrite ?tot_cons in *; simpl in *; lia.
  - specialize (IH (c :: stack)). rewrite tot_cons in IH. lia.
Qed.

Lemma clean_comps_skip_last r stack l :
  clean_comps r stack (l ++ [""]) = clean_comps r stack l.
Proof.
  revert stack. induction l as [|c l IH]; intros stack; simpl; [done|].
  repeat case_bool_decide; auto.
  destruct stack as [|t stack]; [auto|]. case_bool_decide; auto.
Qed.

Lemma dir_prefix_cases p : dir_prefix p = "" ∨ ∃ q, dir_prefix p = q +:+ sep.
Proof.
  induction p as [|c p IH]; simpl; [by left|].
  destruct (dir_prefix p) as [|d r] eqn:E.
  - destruct (Ascii.eqb c "/"); [right; by exists "" | by left].
  - right. destruct IH as [?|[q Hq]]; [done|]. exists (String c q). by rewrite Hq.
Qed.

Lemma slen_dir_prefix p : slen (dir_prefix p) ≤ slen p.
Proof.
  induction p as [|c p IH]; simpl; [done|].
  destruct (dir_prefix p); [|simpl in *; lia].
  destruct (Ascii.eqb _ _); simpl; lia.
Qed.

Lemma IsAbs_inv p : IsAbs p = true → ∃ r, p = sep +:+ r.
Proof. apply HasPrefix_spec. Qed.

(** [Clean] of a string that ends with a separator is strictly shorter, unless
    it is the root, or the result is ["."]. *)
Lemma Clean_trailing q :
  Clean (q +:+ sep) = "." ∨ q = "" ∨ slen (Clean (q +:+ sep)) < slen (q +:+ sep).
Proof.
  destruct (decide (q = "")) as [|Hq]; [by right; left|].
  unfold Clean. rewrite bool_decide_false.
  2:{ intros H%(f_equal slen). rewrite slen_app in H. simpl in H. lia. }
  destruct (split_aux_snoc q "") as [l Hl]. unfold Split. rewrite Hl, clean_comps_skip_last.
  pose proof (split_aux_tot (q +:+ sep) "") as Ht. rewrite Hl, tot_app in Ht.
  rewrite tot_cons, tot_nil in Ht. simpl in Ht.
  set (n := slen (q +:+ sep)) in *.
  assert (Hn : n = S (slen q)) by (unfold n; rewrite slen_app; simpl; lia).
  destruct (IsAbs _) eqn:Ha.
  - right; right. rewrite slen_app, slen_Join. apply IsAbs_inv in Ha as [r Hr].
    destruct q as [|c q]; [done|]. rewrite sapp_cons in Hr. injection Hr as -> Hr.
    assert (∃ l', l = "" :: l') as [l' ->].
    { unfold sep in Hl. rewrite sapp_cons in Hl. simpl in Hl.
      destruct l as [|x l]; [|injection Hl as <- _; eauto].
      injection Hl as Hl. apply (f_equal length) in Hl. simpl in Hl.
      pose proof (split_aux_tot (q +:+ "/") "") as Ht'. destruct (split_aux _ _ _ _); [|done].
      rewrite tot_nil in Ht'. lia. }
    change (clean_comps true [] ("" :: l')) with (clean_comps true [] l').
    pose proof (clean_comps_tot true [] l') as Hc. rewrite tot_cons in Ht.
    rewrite tot_nil in Hc. simpl in *. lia.
  - case_bool_decide as Ho; [by left|]. right; right.
    pose proof (clean_comps_tot false [] l) as Hc. rewrite tot_nil in Hc.
    rewrite slen_Join. simpl in *. lia.
Qed.

Lemma Dir_climbs p : Dir p = "." ∨ Dir p = p ∨ slen (Dir p) < slen p.
Proof.
  unfold Dir. pose proof (slen_dir_prefix p) as Hl.
  destruct (dir_prefix_cases p) as [H|[q H]]; [left; by rewrite H|].
  rewrite H in *. destruct (Clean_trailing q) as [?|[->|?]]; [by left| |right; right; lia].
  rewrite sapp_nil_l in *. right. change (Clean sep) with sep.
  destruct p as [|c [|d p]]; [simpl in Hl; lia| |right; simpl; lia].
  left. simpl in H. destruct (Ascii.eqb_spec c "/"); [by subst | done].
Qed.

Lemma Dir_dot : Dir "." = ".".
Proof. done. Qed.

(** The number of steps that are left, an upper bound. *)
Definition climb (dir : string) : nat := if bool_decide (dir = ".") then 1 else slen dir + 2.

Lemma climb_Dir dir : Dir dir = dir ∨ climb (Dir dir) < climb dir.
Proof.
  unfold climb. destruct (Dir_climbs dir) as [H|[H|H]]; [|by left|];
    repeat case_bool_decide; subst; rewrite ?Dir_dot in *; try (by left); right; simpl in *; lia.
Qed.

Section walk.
Context {A : Type} (stop_dot : bool) (found : string → option A).

Lemma walk_up_terminates_climb fuel dir :
  climb dir ≤ fuel → walk_up stop_dot found fuel dir ≠ None.
Proof.
  revert dir. induction fuel as [|fuel IH]; intros dir Hf; simpl.
  { unfold climb in Hf. case_bool_decide; lia. }
  destruct (found dir); [done|]. case_bool_decide as Hd; simpl; [done|].
  destruct (stop_dot && _); [done|]. apply IH.
  destruct (climb_Dir dir); [done|lia].
Qed.

(** The loop terminates from every directory name. *)
Lemma walk_up_terminates dir : walk_up stop_dot found (walk_fuel dir) dir ≠ None.
Proof.
  apply walk_up_terminates_climb. unfold climb, walk_fuel. case_bool_decide; lia.
Qed.

(** What it finds: the nearest ancestor. *)
Lemma walk_up_found fuel dir a :
  walk_up stop_dot found fuel dir = Some (Some a) →
  ∃ n, found (Nat.iter n Dir dir) = Some a ∧ ∀ m, m < n → found (Nat.iter m Dir dir) = None.
Proof.
  revert dir. induction fuel as [|fuel IH]; intros dir; simpl; [done|].
  destruct (found dir) as [b|] eqn:E.
  { intros [= ->]. exists 0. split; [done|lia]. }
  destruct (_ || _); [done|]. intros (n & Hn & Hm)%IH. exists (S n).
  rewrite Nat.iter_succ_r. split; [done|]. intros [|m] ?; [done|].
  rewrite Nat.iter_succ_r. apply Hm. lia.
Qed.

Lemma iter_fixpoint n dir : Dir dir = dir → Nat.iter n Dir dir = dir.
Proof. intros H. induction n; simpl; congruence. Qed.

(** When it finds nothing, no ancestor satisfies the test, except that a walk
    that stops at ["."] does not test it. *)
Lemma walk_up_not_found fuel dir :
  walk_up stop_dot found fuel dir = Some None →
  ∀ n, found (Nat.iter n Dir dir) = None
       ∨ stop_dot = true ∧ n ≠ 0 ∧ Nat.iter n Dir dir = ".".
Proof.
  revert dir. induction fuel as [|fuel IH]; intros dir; simpl; [done|].
  destruct (found dir) as [b|] eqn:E; [done|].
  case_bool_decide as Hd; simpl.
  { intros _ n. left. by rewrite iter_fixpoint. }
  destruct (stop_dot && _) eqn:Es.
  - apply andb_true_iff in Es as [-> Es%bool_decide_eq_true]. intros _ [|n]; [by left|].
    right. split_and!; [done|done|]. rewrite Nat.iter_succ_r, Es. by apply iter_fixpoint.
  - intros Hw [|n]; [by left|]. pose proof (IH _ Hw n) as H. rewrite Nat.iter_succ_r.
    destruct H as [?|(-> & ? & ?)]; [by left|right; auto].
Qed.
End walk.

(** The result of the walk with enough fuel. *)
Definition walkUp {A} (stop_dot : bool) (found : string → option A) (dir : string) : option A :=
  default None (walk_up stop_dot found (walk_fuel dir) dir).

Lemma walkUp_Some {A} sd (found : string → option A) dir a :
  walkUp sd found dir = Some a →
  ∃ n, found (Nat.iter n Dir dir) = Some a ∧ ∀ m, m < n → found (Nat.iter m Dir dir) = None.
Proof.
  unfold walkUp. destruct (walk_up _ _ _ _) as [[?|]|] eqn:E; simpl; [|done..].
  intros [= ->]. by eapply walk_up_found.
Qed.

Lemma walkUp_None {A} sd (found : string → option A) dir :
  walkUp sd found dir = None →
  ∀ n, found (Nat.iter n Dir dir) = None ∨ sd = true ∧ n ≠ 0 ∧ Nat.iter n Dir dir = ".".
Proof.
  unfold walkUp. destruct (walk_up _ _ _ _) as [[?|]|] eqn:E; simpl; [done| |].
  - intros _. by eapply walk_up_not_found.
  - by apply walk_up_terminates in E.
Qed.

(** ** Joining below a directory *)

Definition real_comp (c : string) : bool := negb (bool_decide (c = "" ∨ c = ".")).

Lemma clean_comps_nodots r stack comps :
  ".." ∉ comps → clean_comps r stack comps = reverse stack ++ List.filter real_comp comps.
Proof.
  revert stack. induction comps as [|c comps IH]; intros stack; [by rewrite app_nil_r|].
  rewrite not_elem_of_cons. intros [Hc H]. cbn [clean_comps List.filter]. unfold real_comp at 1.
  destruct (bool_decide (c = "" ∨ c = ".")); simpl; [by apply IH|].
  rewrite bool_decide_eq_false_2 by congruence. rewrite IH by done. by rewrite reverse_cons, <-app_assoc.
Qed.

Lemma clean_comps_app r stack l k :
  ".." ∉ k → clean_comps r stack (l ++ k) = clean_comps r stack l ++ List.filter real_comp k.
Proof.
  intros Hk. revert stack. induction l as [|c l IH]; intros stack; [by apply clean_comps_nodots|].
  cbn [app clean_comps]. destruct (bool_decide (c = "" ∨ c = ".")); [apply IH|].
  destruct (bool_decide (c = "..")); [|apply IH]. destruct stack as [|t stack]; [apply IH|].
  destruct (bool_decide (t = "..")); apply IH.
Qed.

(** The components of a rooted path after [Clean]. *)
Definition clean_ok (c : string) : Prop := real_comp c = true ∧ c ≠ ".." ∧ lacks "/" c = true.

Lemma clean_comps_ok stack comps :
  Forall clean_ok stack → Forall (λ c, lacks "/" c = true) comps →
  Forall clean_ok (clean_comps true stack comps).
Proof.
  intros Hs H. revert stack Hs. induction H as [|c comps Hc H IH]; intros stack Hs; cbn [clean_comps].
  { by apply Forall_reverse. }
  destruct (bool_decide (c = "" ∨ c = ".")) eqn:E1; [by apply IH|].
  destruct (bool_decide (c = "..")) eqn:E2; [apply bool_decide_eq_true in E2|apply bool_decide_eq_false in E2].
  - destruct Hs as [|t stack Ht Hs]; [by apply IH|].
    rewrite bool_decide_eq_false_2; [by apply IH|]. by destruct Ht as (_ & ? & _).
  - apply IH. constructor; [|done]. split_and!; try done. unfold real_comp. by rewrite E1.
Qed.

Lemma Split_sep_pieces s : Forall (λ c, lacks "/" c = true) (Split s sep).
Proof. by apply split_char_pieces. Qed.

Lemma Split_rooted l : Forall clean_ok l → Split (sep +:+ Join l sep) sep = "" :: match l with [] => [""] | _ => l end.
Proof.
  intros Hl. unfold Split, sep.
  change ("/" +:+ Join l "/") with ("" +:+ String "/" (Join l "/")).
  rewrite split_char_app. cbn [split_aux app]. f_equal. destruct l as [|c l]; [done|].
  apply (Split_Join "/"); [done|]. eapply Forall_impl; [exact Hl|]. by intros x (_ & _ & ?).
Qed.

Lemma filter_real l : Forall clean_ok l → List.filter real_comp l = l.
Proof.
  induction 1 as [|c l (Hc & _) Hl IH]; [done|]. cbn [List.filter]. by rewrite Hc, IH.
Qed.

Lemma clean_no_dots l : Forall clean_ok l → ".." ∉ l.
Proof. intros Hl Hin. rewrite Forall_forall in Hl. by destruct (Hl _ Hin) as (_ & ? & _). Qed.

(** [Clean] leaves a clean rooted path alone. *)
Lemma Clean_rooted l : Forall clean_ok l → Clean (sep +:+ Join l sep) = sep +:+ Join l sep.
Proof.
  intros Hl. unfold Clean. rewrite bool_decide_eq_false_2 by done.
  assert (Ha : IsAbs (sep +:+ Join l sep) = true) by apply HasPrefix_app. rewrite Ha, Split_rooted by done.
  do 2 f_equal. rewrite clean_comps_nodots.
  - destruct l as [|c l]; [done|].
    change (List.filter real_comp (c :: l) = c :: l). by apply filter_real.
  - rewrite not_elem_of_cons. split; [done|]. destruct l as [|c l]; [|by apply clean_no_dots].
    by rewrite list_elem_of_singleton.
Qed.

(** The path is the directory or below it. *)
Definition below (root p : string) : bool :=
  bool_decide (p = root) || HasPrefix p (if bool_decide (root = sep) then sep else root +:+ sep).

Lemma Join_app l k s : l ≠ [] → k ≠ [] → Join (l ++ k) s = Join l s +:+ s +:+ Join k s.
Proof.
  intros Hl Hk. induction l as [|a [|b l] IH]; [done| |].
  - by destruct k.
  - change ((a :: b :: l) ++ k) with (a :: b :: (l ++ k)). rewrite !Join_cons2.
    change (b :: l ++ k) with ((b :: l) ++ k). rewrite IH by done. by rewrite !sapp_assoc.
Qed.

(** [Clean] of a rooted path: its components, and it is idempotent. *)
Lemma Clean_abs p : IsAbs p = true →
  ∃ l, Forall clean_ok l ∧ Clean p = sep +:+ Join l sep.
Proof.
  intros Ha. exists (clean_comps true [] (Split p sep)).
  split; [apply clean_comps_ok; [constructor|apply Split_sep_pieces]|].
  unfold Clean. rewrite bool_decide_eq_false_2 by (by intros ->). by rewrite Ha.
Qed.

Lemma Clean_idem p : IsAbs p = true → Clean (Clean p) = Clean p.
Proof. intros (l & Hl & ->)%Clean_abs. by apply Clean_rooted. Qed.

Lemma Clean_no_dots p : IsAbs p = true → ".." ∉ Split (Clean p) sep.
Proof.
  intros (l & Hl & ->)%Clean_abs. rewrite Split_rooted, not_elem_of_cons by done. split; [done|].
  destruct l; [by rewrite list_elem_of_singleton|by apply clean_no_dots].
Qed.

Lemma fjoin_abs root p : IsAbs root = true → IsAbs (fjoin [root; p]) = true ∧ Clean (fjoin [root; p]) = fjoin [root; p].
Proof.
  intros Ha. assert (Hne : root ≠ "") by (by intros ->). cbn [fjoin]. rewrite bool_decide_eq_false_2 by done.
  assert (Hj : IsAbs (Join [root; p] sep) = true).
  { apply IsAbs_inv in Ha as [r ->]. change (Join [sep +:+ r; p] sep) with ((sep +:+ r) +:+ sep +:+ p).
    rewrite sapp_assoc. apply HasPrefix_app. }
  split; [|by apply Clean_idem]. destruct (Clean_abs _ Hj) as (l & _ & ->). apply HasPrefix_app.
Qed.

(** Joining a path without [..] to a clean rooted directory stays below it. *)
Lemma fjoin_below root p :
  IsAbs root = true → Clean root = root → ".." ∉ Split p sep → below root (Clean (fjoin [root; p])) = true.
Proof.
  intros Ha Hc Hp.
  assert (Hne : root ≠ "") by (intros ->; done).
  set (comps := clean_comps true [] (Split root sep)).
  assert (Hroot : root = sep +:+ Join comps sep).
  { rewrite <-Hc at 1. unfold Clean. by rewrite bool_decide_eq_false_2, Ha by done. }
  assert (Hok : Forall clean_ok comps) by (apply clean_comps_ok; [constructor|apply Split_sep_pieces]).
  assert (Hok' : Forall clean_ok (List.filter real_comp (Split p sep))).
  { pose proof (Split_sep_pieces p) as Hs. rewrite Forall_forall in Hs. apply Forall_forall.
    intros c. rewrite list_elem_of_In, filter_In, <-list_elem_of_In. intros [Hin Hr].
    split_and!; [done|congruence|auto]. }
  assert (Hj : fjoin [root; p] = sep +:+ Join (comps ++ List.filter real_comp (Split p sep)) sep).
  { cbn [fjoin]. rewrite bool_decide_eq_false_2 by done. unfold Clean.
    change (Join [root; p] sep) with (root +:+ String "/" p).
    assert (Ha' : IsAbs (root +:+ String "/" p) = true).
    { rewrite Hroot. rewrite sapp_assoc. apply HasPrefix_app. }
    rewrite Ha'. rewrite bool_decide_eq_false_2 by (destruct root; done).
    do 2 f_equal. unfold Split at 1. unfold sep at 1. rewrite (split_char_app "/").
    by apply clean_comps_app. }
  rewrite Hj, Clean_rooted by (by apply Forall_app). unfold below. rewrite orb_true_iff.
  destruct (List.filter real_comp (Split p sep)) as [|d ds].
  { left. rewrite app_nil_r. by apply bool_decide_eq_true_2. }
  right. case_bool_decide as Hs; [apply HasPrefix_app|].
  destruct comps as [|c cs]; [by rewrite Hroot in Hs|].
  rewrite Join_app, Hroot, <-!sapp_assoc by done. apply HasPrefix_app.
Qed.

Example Clean_ex : Clean "/a/./b//../c/" = "/a/c".
Proof. reflexivity. Qed.
Example Clean_ex_rel : Clean "a/../../b" = "../b".
Proof. reflexivity. Qed.
Example Dir_ex : Dir "/srv/app/src" = "/srv/app".
Proof. reflexivity. Qed.
Example fjoin_ex : fjoin [""; "/srv"; "../x"; ".env"] = "/x/.env".
Proof. reflexivity. Qed.
Example Ext_ex : Ext "/a.b/c.tar.gz~" = ".gz~".
Proof. reflexivity. Qed.
