(* ===== verification/Regexp.v ===== *)
(** * Regular expressions as Go's [regexp] matches them

    The expressions of the program are anchored at both ends and use classes,
    groups, alternatives and greedy or lazy repetition.  The match that Go
    returns is the one a backtracking search finds first; [rmatch] is that
    search, in continuation style.  Text is bytes: the classes of the program
    that go beyond ASCII are complements of ASCII classes, for which a match on
    bytes is a match on characters.  The repeated expressions are never empty. *)

From stdpp Require Import base tactics option list gmap strings pretty.
From Stdlib Require Import ZArith Lia Ascii.
From S2P Require Import Prelude GoStrings.

Inductive regex :=
| RChr (p : ascii → bool)
| REps
| RCat (r1 r2 : regex)
| RAlt (r1 r2 : regex)
| RStar (greedy : bool) (r : regex)
| RCap (n : nat) (r : regex)
| REnd.

(** The groups that matched, the last one first. *)
Abbreviation groups := (list (nat * string)).
Definition group (g : groups) (n : nat) : string :=
  match list_find (λ x, x.1 = n) g with Some (_, (_, s)) => s | None => "" end.

(** The part of [s] before its suffix [t]. *)
Definition before (s t : string) : string := stake (slen s - slen t) s.

Fixpoint rmatch {A} (r : regex) (s : string) (g : groups) (k : string → groups → option A) : option A :=
  match r with
  | RChr p => match s with String c s => if p c then k s g else None | EmptyString => None end
  | REps => k s g
  | RCat r1 r2 => rmatch r1 s g (λ s g, rmatch r2 s g k)
  | RAlt r1 r2 => match rmatch r1 s g k with Some x => Some x | None => rmatch r2 s g k end
  | RStar greedy r =>
    (fix loop (fuel : nat) (s : string) (g : groups) : option A :=
       match fuel with
       | O => k s g
       | S fuel =>
         if greedy then
           match rmatch r s g (λ s' g, if slen s' <? slen s then loop fuel s' g else None) with
           | Some x => Some x
           | None => k s g
           end
         else
           match k s g with
           | Some x => Some x
           | None => rmatch r s g (λ s' g, if slen s' <? slen s then loop fuel s' g else None)
           end
       end) (slen s) s g
  | RCap n r => rmatch r s g (λ s' g, k s' ((n, before s s') :: g))
  | REnd => match s with EmptyString => k s g | _ => None end
  end.

(** [FindSubmatch] of an expression anchored at the beginning. *)
Definition find_anchored (r : regex) (s : string) : option groups := rmatch r s [] (λ _ g, Some g).

(** ** Building expressions *)

Definition RPlus (greedy : bool) (r : regex) : regex := RCat r (RStar greedy r).
Fixpoint RCats (rs : list regex) : regex :=
  match rs with [] => REps | [r] => r | r :: rs => RCat r (RCats rs) end.
Fixpoint RAlts (rs : list regex) : regex :=
  match rs with [] => REps | [r] => r | r :: rs => RAlt r (RAlts rs) end.
Fixpoint RSeq (ps : list (ascii → bool)) : regex :=
  match ps with [] => REps | p :: ps => RCat (RChr p) (RSeq ps) end.
Definition is_char (c : ascii) : ascii → bool := Ascii.eqb c.
Definition RStr (s : string) : regex := RSeq (is_char <$> String.list_ascii_of_string s).
Definition any (c : ascii) : bool := negb (Ascii.eqb c "010").
Definition not_char (c x : ascii) : bool := negb (Ascii.eqb c x).
(** [\s] *)
Definition is_space (c : ascii) : bool :=
  existsb (Ascii.eqb c) ["009"; "010"; "012"; "013"; " "]%char.
Definition digits (n : nat) : list (ascii → bool) := replicate n is_digit.

(** ** Lemmas *)

Section lemmas.
Context {A : Type}.
Implicit Types (k : string → groups → option A) (s t a : string) (g : groups).

(** The loop over a class of characters. *)
Fixpoint star_chr (greedy : bool) (p : ascii → bool) s g k : option A :=
  match s with
  | EmptyString => k "" g
  | String c s' =>
    if greedy then
      match (if p c then star_chr greedy p s' g k else None) with Some x => Some x | None => k s g end
    else
      match k s g with Some x => Some x | None => if p c then star_chr greedy p s' g k else None end
  end.

Lemma rmatch_star_chr greedy p s g k : rmatch (RStar greedy (RChr p)) s g k = star_chr greedy p s g k.
Proof.
  cbn [rmatch]. induction s as [|c s IH]; [done|]. cbn [String.length rmatch].
  assert (Hlt : slen s <? S (slen s) = true) by (apply Nat.ltb_lt; lia).
  destruct greedy; cbn [star_chr]; rewrite Hlt; destruct (p c); rewrite ?IH; done.
Qed.

Lemma rmatch_seq ps a s g k :
  Forall2 (λ p c, p c = true) ps (String.list_ascii_of_string a) → rmatch (RSeq ps) (a +:+ s) g k = k s g.
Proof.
  revert a. induction ps as [|p ps IH]; intros a Hf.
  - apply Forall2_nil_inv_l in Hf. destruct a; [done|]. done.
  - destruct a as [|c a]; [by apply Forall2_nil_inv_r in Hf|]. apply Forall2_cons in Hf as [Hp Hf].
    rewrite sapp_cons. cbn [RSeq rmatch]. rewrite Hp. by apply IH.
Qed.

Lemma rmatch_str a s g k : rmatch (RStr a) (a +:+ s) g k = k s g.
Proof.
  apply rmatch_seq. induction a as [|c a IH]; constructor; [apply Ascii.eqb_refl|exact IH].
Qed.

(** A greedy loop takes the longest text after which the rest matches. *)
Lemma star_greedy_app p a s g k x :
  sforall p a = true → star_chr true p s g k = Some x → star_chr true p (a +:+ s) g k = Some x.
Proof.
  intros Ha Hs. induction a as [|c a IH]; [done|]. cbn [sforall] in Ha. apply andb_true_iff in Ha as [Hc Ha].
  rewrite sapp_cons. cbn [star_chr]. by rewrite Hc, (IH Ha).
Qed.

Lemma star_greedy_stop p c s g k : p c = false → star_chr true p (String c s) g k = k (String c s) g.
Proof. intros Hc. cbn [star_chr]. by rewrite Hc. Qed.

(** A loop that cannot be left anywhere in [a] goes on to [s]. *)
Lemma star_greedy_none p a s g k :
  (∀ b c, (∃ d, a = d +:+ String c b) → k (String c b +:+ s) g = None) →
  star_chr true p s g k = None → star_chr true p (a +:+ s) g k = None.
Proof.
  intros Hk Hs. induction a as [|c a IH]; [done|]. rewrite sapp_cons. cbn [star_chr].
  assert (Hc : k (String c (a +:+ s)) g = None).
  { rewrite <-sapp_cons. apply Hk. by exists "". }
  rewrite Hc. destruct (p c); [|done]. rewrite IH; [done|].
  intros b c' [d ->]. apply Hk. by exists (String c d).
Qed.

Lemma star_lazy_first p s g k x : k s g = Some x → star_chr false p s g k = Some x.
Proof. intros H. destruct s; cbn [star_chr]; by rewrite H. Qed.

(** A lazy loop stops at the first place where the rest matches. *)
Lemma star_lazy_app p a s g k x :
  sforall p a = true → k s g = Some x →
  (∀ b c, (∃ d, a = d +:+ String c b) → k (String c b +:+ s) g = None) →
  star_chr false p (a +:+ s) g k = Some x.
Proof.
  intros Ha Hs Hk. induction a as [|c a IH]; [by apply star_lazy_first|]. cbn [sforall] in Ha.
  apply andb_true_iff in Ha as [Hc Ha]. rewrite sapp_cons. cbn [star_chr].
  rewrite <-sapp_cons, Hk by by exists "". rewrite Hc. apply IH; [done|].
  intros b c' [d ->]. apply Hk. by exists (String c d).
Qed.

Lemma star_lazy_none p s g k :
  (∀ b, (∃ d, s = d +:+ b) → k b g = None) → star_chr false p s g k = None.
Proof.
  intros Hk. induction s as [|c s IH]; cbn [star_chr]; (rewrite Hk; [|by exists ""]); [done|].
  destruct (p c); [|done]. apply IH. intros b [d ->]. apply Hk. by exists (String c d).
Qed.

Lemma before_app a s : before (a +:+ s) s = a.
Proof. unfold before. rewrite slen_app. replace (slen a + slen s - slen s) with (slen a) by lia. apply stake_app. Qed.
End lemmas.

Lemma rmatch_cats {A} r r2 rs s g (k : string → groups → option A) :
  rmatch (RCats (r :: r2 :: rs)) s g k = rmatch r s g (λ s g, rmatch (RCats (r2 :: rs)) s g k).
Proof. done. Qed.
Lemma rmatch_cap {A} n r s g (k : string → groups → option A) :
  rmatch (RCap n r) s g k = rmatch r s g (λ s' g, k s' ((n, before s s') :: g)).
Proof. done. Qed.

(** A non-empty text of a class, taken whole when the rest matches there and it
    cannot be longer. *)
Lemma rmatch_plus_app {A} p a s g (k : string → groups → option A) x :
  a ≠ "" → sforall p a = true → star_chr true p s g k = Some x →
  rmatch (RPlus true (RChr p)) (a +:+ s) g k = Some x.
Proof.
  intros Hne Ha Hs. destruct a as [|c a]; [done|]. cbn [sforall] in Ha. apply andb_true_iff in Ha as [Hc Ha].
  rewrite sapp_cons.
  change (rmatch (RPlus true (RChr p)) (String c (a +:+ s)) g k)
    with (if p c then rmatch (RStar true (RChr p)) (a +:+ s) g k else None).
  rewrite Hc, rmatch_star_chr.
  by apply star_greedy_app.
Qed.

Lemma rmatch_char {A} c s g (k : string → groups → option A) :
  rmatch (RStr (String c "")) s g k =
    match s with String d s => if Ascii.eqb c d then k s g else None | EmptyString => None end.
Proof. done. Qed.

(** The same when the next character is not of the class. *)
Lemma rmatch_plus_stop {A} p a c b s g (k : string → groups → option A) x :
  a ≠ "" → sforall p a = true → p c = false → k (String c b +:+ s) g = Some x →
  rmatch (RPlus true (RChr p)) (a +:+ String c b +:+ s) g k = Some x.
Proof.
  intros Hne Ha Hc Hk. apply rmatch_plus_app; [done..|]. rewrite sapp_cons, star_greedy_stop by done.
  by rewrite <-sapp_cons.
Qed.
