(* ===== verification/Fcgi.v ===== *)
(** * The FastCGI client ([local/fcgi_client/fcgiclient.go])

    Bytes are integers modulo 256, [uint8] / [uint16] / [uint32] fields are kept
    at their width.  The connection ([io.ReadWriteCloser]) is an interface,
    [Conn]; what the client relies on is stated by [ReliableConn].  The mutex
    of [writeRecord] makes each record one atomic append to the connection. *)

From stdpp Require Import base tactics option list gmap strings pretty.
From Stdlib Require Import ZArith Lia Ascii.
From S2P Require Import Prelude GoStrings.

Local Open Scope Z_scope.

Abbreviation bytes := (list Z).
Definition blen (b : bytes) : Z := Z.of_nat (length b).

Inductive goerr := EOF | ErrUnexpectedEOF | ErrShortWrite | ErrMsg (msg : string).

(** The connection: one [Write] call, with its error. *)
Class Conn (C : Type) := conn_write : C → bytes → C * option goerr.

Definition FCGI_BEGIN_REQUEST : Z := 1.
Definition FCGI_END_REQUEST : Z := 3.
Definition FCGI_PARAMS : Z := 4.
Definition FCGI_STDIN : Z := 5.
Definition FCGI_STDOUT : Z := 6.
Definition FCGI_STDERR : Z := 7.
Definition FCGI_RESPONDER : Z := 1.
Definition maxWrite : Z := 65500.

Record header := mkHeader {
  Version : Z; Type_ : Z; Id : Z; ContentLength : Z; PaddingLength : Z; Reserved : Z }.

(** [func (h *header) init]: the conversions [uint16(_)] and [uint8(_)] wrap. *)
Definition header_init (h : header) (recType reqId contentLength : Z) : header :=
  {| Version := 1; Type_ := recType; Id := reqId;
     ContentLength := contentLength mod 65536;
     PaddingLength := Z.land (- contentLength) 7 mod 256;
     Reserved := Reserved h |}.

(** [binary.Write(_, binary.BigEndian, h)] and [binary.Read]. *)
Definition put16 (x : Z) : bytes := [Z.shiftr x 8 mod 256; x mod 256].
Definition put32 (x : Z) : bytes :=
  [Z.shiftr x 24 mod 256; Z.shiftr x 16 mod 256; Z.shiftr x 8 mod 256; x mod 256].
Definition encode_header (h : header) : bytes :=
  [Version h; Type_ h] ++ put16 (Id h) ++ put16 (ContentLength h)
  ++ [PaddingLength h; Reserved h].
Definition decode_header (b : bytes) : header :=
  match b with
  | [v; t; i1; i0; c1; c0; p; r] => mkHeader v t (256 * i1 + i0) (256 * c1 + c0) p r
  | _ => mkHeader 0 0 0 0 0 0
  end.

(** [io.ReadFull] on the bytes the peer sends before it closes. *)
Definition readFull (n : Z) (inp : bytes) : bytes * gores goerr bytes :=
  if bool_decide (n = 0) then (inp, Val [])
  else if bool_decide (inp = []) then ([], Err EOF)
  else if bool_decide (blen inp < n) then ([], Err ErrUnexpectedEOF)
  else (drop (Z.to_nat n) inp, Val (take (Z.to_nat n) inp)).

(** [func (rec *record) read]: the bytes left, the header read, the content. *)
Definition record_read (inp : bytes) : bytes * gores goerr (header * bytes) :=
  match readFull 8 inp with
  | (inp, Err e) => (inp, Err e)
  | (inp, Val hb) =>
    let h := decode_header hb in
    if bool_decide (Version h ≠ 1) then (inp, Err (ErrMsg "fcgi: invalid header version"))
    else if bool_decide (Type_ h = FCGI_END_REQUEST) then (inp, Err EOF)
    else
      match readFull (ContentLength h + PaddingLength h) inp with
      | (inp, Err e) => (inp, Err e)
      | (inp, Val rbuf) => (inp, Val (h, take (Z.to_nat (ContentLength h)) rbuf))
      end
  end.

Section client.
Context {C : Type} `{!Conn C}.

Record FCGIClient := mkClient { rwc : C; hdr : header; reqId : Z }.

(** [Dial] once the connection is established. *)
Definition new_client (c : C) : FCGIClient :=
  {| rwc := c; hdr := mkHeader 0 0 0 0 0 0; reqId := 1 |}.

Definition writeRecord (f : FCGIClient) (recType : Z) (content : bytes)
  : FCGIClient * option goerr :=
  let h := header_init (hdr f) recType (reqId f) (blen content) in
  let buf := encode_header h ++ content ++ replicate (Z.to_nat (PaddingLength h)) 0 in
  let '(c, err) := conn_write (rwc f) buf in
  ({| rwc := c; hdr := h; reqId := reqId f |}, err).

Definition writeBeginRequest (f : FCGIClient) (role flags : Z) : FCGIClient * option goerr :=
  writeRecord f FCGI_BEGIN_REQUEST
    [Z.shiftr role 8 mod 256; role mod 256; flags; 0; 0; 0; 0; 0].

(** [func (w *streamWriter) Write]: records of at most [maxWrite] bytes.
    The count is the number of bytes written; one byte at least leaves [p]
    at each turn, so that [length p] turns are enough. *)
Fixpoint stream_write_loop (fuel : nat) (f : FCGIClient) (recType : Z) (nn : Z) (p : bytes)
  : FCGIClient * (Z * option goerr) :=
  match fuel with
  | O => (f, (nn, None))
  | S fuel =>
    if bool_decide (p = []) then (f, (nn, None)) else
    let n := Z.min (blen p) maxWrite in
    match writeRecord f recType (take (Z.to_nat n) p) with
    | (f, Some e) => (f, (nn, Some e))
    | (f, None) => stream_write_loop fuel f recType (nn + n) (drop (Z.to_nat n) p)
    end
  end.
Definition streamWriter_Write f recType p := stream_write_loop (length p) f recType 0 p.

Definition streamWriter_Close f recType := writeRecord f recType [].

(** [bufio.Writer] of size [maxWrite] above a [streamWriter] ([newWriter]):
    the bytes buffered and the sticky error. *)
Record bufWriter := mkBuf { wtype : Z; wbuf : bytes; werr : option goerr }.
Definition newWriter (recType : Z) : bufWriter := {| wtype := recType; wbuf := []; werr := None |}.
Definition set_buf (w : bufWriter) (b : bytes) : bufWriter :=
  {| wtype := wtype w; wbuf := b; werr := werr w |}.
Definition Available (w : bufWriter) : Z := maxWrite - blen (wbuf w).

Definition Flush (f : FCGIClient) (w : bufWriter) : FCGIClient * bufWriter * option goerr :=
  match werr w with
  | Some e => (f, w, Some e)
  | None =>
    if bool_decide (wbuf w = []) then (f, w, None) else
    let '(f, (n, err)) := streamWriter_Write f (wtype w) (wbuf w) in
    let err := match err with
               | None => if bool_decide (n < blen (wbuf w)) then Some ErrShortWrite else None
               | e => e
               end in
    match err with
    | Some e => (f, {| wtype := wtype w; wbuf := drop (Z.to_nat n) (wbuf w); werr := Some e |}, Some e)
    | None => (f, set_buf w [], None)
    end
  end.

(** [bufio.Writer.Write] and [WriteString] ([direct]: a large write on an
    empty buffer goes straight to the stream; [WriteString] never does, since
    [streamWriter] is not an [io.StringWriter]).  The loop runs while [p]
    does not fit; [S (S (length p))] turns are enough. *)
Fixpoint buf_write_loop (direct : bool) (fuel : nat) (f : FCGIClient) (w : bufWriter) (p : bytes)
  : FCGIClient * bufWriter * option goerr :=
  match fuel with
  | O => (f, w, werr w)
  | S fuel =>
    match werr w with
    | Some e => (f, w, Some e)
    | None =>
      if bool_decide (blen p ≤ Available w) then (f, set_buf w (wbuf w ++ p), None)
      else if direct && bool_decide (wbuf w = []) then
        let '(f, (n, err)) := streamWriter_Write f (wtype w) p in
        buf_write_loop direct fuel f {| wtype := wtype w; wbuf := []; werr := err |}
          (drop (Z.to_nat n) p)
      else
        let n := Z.to_nat (Z.min (Available w) (blen p)) in
        let '(f, w, _) := Flush f (set_buf w (wbuf w ++ take n p)) in
        buf_write_loop direct fuel f w (drop n p)
    end
  end.
Definition bufio_Write f w p := buf_write_loop true (S (S (length p))) f w p.
Definition bufio_WriteString f w p := buf_write_loop false (S (S (length p))) f w p.

(** [func (w *bufWriter) Close]. *)
Definition bufWriter_Close (f : FCGIClient) (w : bufWriter) : FCGIClient * option goerr :=
  match Flush f w with
  | (f, _, Some e) => let '(f, _) := streamWriter_Close f (wtype w) in (f, Some e)
  | (f, _, None) => streamWriter_Close f (wtype w)
  end.

Definition encodeSize (size : Z) : bytes :=
  if bool_decide (127 < size) then put32 (Z.lor size (Z.shiftl 1 31)) else [size mod 256].
Definition uint32 (x : Z) : Z := x mod 4294967296.

(** The slice expression [v[:vl]]. *)
Definition bslice (v : bytes) (vl : Z) : outcome bytes :=
  if bool_decide (0 ≤ vl ≤ blen v) then Ret (take (Z.to_nat vl) v) else Panic.

(** [func (f *FCGIClient) writePairs]: the pairs in the order in which the
    map is iterated. *)
Fixpoint writePairs_loop (f : FCGIClient) (w : bufWriter) (nn : Z) (pairs : list (bytes * bytes))
  : outcome (FCGIClient * option goerr) :=
  match pairs with
  | [] => let '(f, _) := bufWriter_Close f w in Ret (f, None)
  | (k, v) :: pairs =>
    v ← (if bool_decide (maxWrite < 8 + blen k + blen v)
         then bslice v (maxWrite - 8 - blen k) else Ret v);
    let b := encodeSize (uint32 (blen k)) ++ encodeSize (uint32 (blen v)) in
    let m := blen b + blen k + blen v in
    let '(f, w, nn) :=
      if bool_decide (maxWrite < nn + m)
      then let '(f, w, _) := Flush f w in (f, w, 0) else (f, w, nn) in
    let nn := nn + m in
    match bufio_Write f w b with
    | (f, _, Some e) => Ret (f, Some e)
    | (f, w, None) =>
      match bufio_WriteString f w k with
      | (f, _, Some e) => Ret (f, Some e)
      | (f, w, None) =>
        match bufio_WriteString f w v with
        | (f, _, Some e) => Ret (f, Some e)
        | (f, w, None) => writePairs_loop f w nn pairs
        end
      end
    end
  end.
Definition writePairs f recType pairs := writePairs_loop f (newWriter recType) 0 pairs.

(** [io.Copy(body, req)]: the chunks the reader delivers; it stops at the
    first write error. *)
Fixpoint io_copy (f : FCGIClient) (w : bufWriter) (chunks : list bytes) : FCGIClient * bufWriter :=
  match chunks with
  | [] => (f, w)
  | p :: chunks =>
    match bufio_Write f w p with
    | (f, w, Some _) => (f, w)
    | (f, w, None) => io_copy f w chunks
    end
  end.

(** [func (f *FCGIClient) Do]: what is sent; a [nil] request body is [None]. *)
Definition Do (f : FCGIClient) (p : list (bytes * bytes)) (req : option (list bytes))
  : outcome (FCGIClient * option goerr) :=
  match writeBeginRequest f FCGI_RESPONDER 0 with
  | (f, Some e) => Ret (f, Some e)
  | (f, None) =>
    r ← writePairs f FCGI_PARAMS p;
    match r with
    | (f, Some e) => Ret (f, Some e)
    | (f, None) =>
      let '(f, body) := io_copy f (newWriter FCGI_STDIN) (default [] req) in
      let '(f, _) := bufWriter_Close f body in
      Ret (f, None)
    end
  end.
End client.
Arguments FCGIClient C : clear implicits.

(** [streamReader]: the bytes still to come from the peer and the current
    record's content.  [Read] is called with a slice of length [n]. *)
Record streamReader := mkReader { sr_in : bytes; sr_buf : bytes }.

Definition streamReader_Read (w : streamReader) (n : nat)
  : streamReader * (bytes * option goerr) :=
  if bool_decide (n = 0%nat) then (w, ([], None)) else
  match (if bool_decide (sr_buf w = []) then
           match record_read (sr_in w) with
           | (inp, Val (_, c)) => (mkReader inp c, None)
           | (inp, Err e) => (mkReader inp [], Some e)
           end
         else (w, None)) with
  | (w, Some e) => (w, ([], Some e))
  | (w, None) => (mkReader (sr_in w) (drop n (sr_buf w)), (take n (sr_buf w), None))
  end.

(** ** Records on the wire *)

(** The bytes [writeRecord] sends. *)
Definition record_bytes (rsv id recType : Z) (content : bytes) : bytes :=
  let h := header_init (mkHeader 0 0 0 0 0 rsv) recType id (blen content) in
  encode_header h ++ content ++ replicate (Z.to_nat (PaddingLength h)) 0.

#[local] Arguments record_bytes : simpl never.
#[local] Arguments record_read : simpl never.

Definition uint16_ok (x : Z) : Prop := 0 ≤ x < 65536.

Lemma blen_nonneg b : 0 ≤ blen b.
Proof. unfold blen. lia. Qed.

Lemma blen_app a b : blen (a ++ b) = blen a + blen b.
Proof. unfold blen. rewrite length_app. lia. Qed.

Lemma blen_cons x b : blen (x :: b) = 1 + blen b.
Proof. unfold blen. simpl. lia. Qed.

Lemma blen_take n b : 0 ≤ n ≤ blen b → blen (take (Z.to_nat n) b) = n.
Proof. unfold blen. intros. rewrite length_take. lia. Qed.

Lemma blen_drop n b : 0 ≤ n ≤ blen b → blen (drop (Z.to_nat n) b) = blen b - n.
Proof. unfold blen. intros. rewrite length_drop. lia. Qed.

Lemma blen_nil_inv b : blen b = 0 → b = [].
Proof. unfold blen. destruct b; [done|simpl; lia]. Qed.

Lemma take_blen_app a b : take (Z.to_nat (blen a)) (a ++ b) = a.
Proof. unfold blen. rewrite Nat2Z.id. apply take_app_length. Qed.

Lemma drop_blen_app a b : drop (Z.to_nat (blen a)) (a ++ b) = b.
Proof. unfold blen. rewrite Nat2Z.id. apply drop_app_length. Qed.


Lemma padding_spec n : Z.land (- n) 7 mod 256 = (- n) mod 8.
Proof.
  change 7 with (Z.ones 3). rewrite Z.land_ones by lia. change (2 ^ 3) with 8.
  rewrite Z.mod_small; [done|]. pose proof (Z.mod_pos_bound (- n) 8). lia.
Qed.

Lemma put16_roundtrip x : uint16_ok x → 256 * (Z.shiftr x 8 mod 256) + x mod 256 = x.
Proof.
  intros Hx. unfold uint16_ok in Hx. rewrite Z.shiftr_div_pow2 by lia. change (2 ^ 8) with 256.
  rewrite (Z.mod_small (x / 256)).
  - pose proof (Z.div_mod x 256). lia.
  - split; [apply Z.div_pos; lia | apply Z.div_lt_upper_bound; lia].
Qed.

Lemma decode_encode_header h :
  uint16_ok (Id h) → uint16_ok (ContentLength h) → decode_header (encode_header h) = h.
Proof.
  intros Hi Hc. unfold encode_header, put16. simpl. rewrite !put16_roundtrip by done.
  by destruct h.
Qed.

Lemma readFull_app a b : readFull (blen a) (a ++ b) = (b, Val a).
Proof.
  unfold readFull. case_bool_decide as H0.
  { apply blen_nil_inv in H0. by subst. }
  rewrite bool_decide_false, bool_decide_false.
  - by rewrite take_blen_app, drop_blen_app.
  - rewrite blen_app. pose proof (blen_nonneg b). lia.
  - intros [-> _]%app_nil. done.
Qed.

Lemma readFull_app' n a b : n = blen a → readFull n (a ++ b) = (b, Val a).
Proof. intros ->. apply readFull_app. Qed.

(** Reading back a record gives its content, whatever follows it. *)
Lemma record_read_bytes rsv id t c rest :
  uint16_ok id → t ≠ FCGI_END_REQUEST → blen c < 65536 →
  record_read (record_bytes rsv id t c ++ rest)
  = (rest, Val (header_init (mkHeader 0 0 0 0 0 rsv) t id (blen c), c)).
Proof.
  intros Hid Ht Hc. unfold record_read, record_bytes.
  set (h := header_init _ _ _ _). rewrite <-!(assoc_L (++)).
  assert (Hcl : ContentLength h = blen c).
  { simpl. apply Z.mod_small. pose proof (blen_nonneg c). lia. }
  rewrite (readFull_app' 8) by done.
  rewrite decode_encode_header.
  2: done. 2:{ rewrite Hcl. unfold uint16_ok. pose proof (blen_nonneg c). lia. }
  rewrite bool_decide_false by (simpl; lia). rewrite bool_decide_false by done.
  rewrite (assoc_L (++)), (readFull_app' (ContentLength h + PaddingLength h)).
  - rewrite Hcl, take_blen_app. done.
  - rewrite Hcl, blen_app. f_equal. unfold blen. rewrite length_replicate, Z2Nat.id; [done|].
    simpl. rewrite padding_spec. apply Z.mod_pos_bound. lia.
Qed.

(** Every record is a multiple of 8 bytes. *)
Lemma record_bytes_aligned rsv id t c : blen (record_bytes rsv id t c) mod 8 = 0.
Proof.
  unfold record_bytes. set (h := header_init _ _ _ _).
  rewrite !blen_app. change (blen (encode_header h)) with 8.
  assert (blen (replicate (Z.to_nat (PaddingLength h)) 0) = (- blen c) mod 8) as ->.
  { unfold blen. rewrite length_replicate. simpl. rewrite padding_spec.
    rewrite Z2Nat.id; [done|]. apply Z.mod_pos_bound. lia. }
  rewrite Z.add_assoc, Z.add_mod_idemp_r by lia.
  replace (8 + blen c + - blen c) with (1 * 8) by lia. apply Z.mod_mul. lia.
Qed.

(** ** Reference decoder: what a FastCGI responder sees *)

(** The records of a byte stream, as (type, content). *)
Fixpoint demux (fuel : nat) (inp : bytes) : option (list (Z * bytes)) :=
  match fuel with
  | O => None
  | S fuel =>
    if bool_decide (inp = []) then Some [] else
    match record_read inp with
    | (rest, Val (h, c)) => rs ← demux fuel rest; Some ((Type_ h, c) :: rs)
    | (_, Err _) => None
    end
  end.

Definition wire (rsv id : Z) (rs : list (Z * bytes)) : bytes :=
  concat ((λ r, record_bytes rsv id r.1 r.2) <$> rs).

Definition record_ok (r : Z * bytes) : Prop := r.1 ≠ FCGI_END_REQUEST ∧ blen r.2 < 65536.

Lemma record_bytes_ne rsv id t c : record_bytes rsv id t c ≠ [].
Proof. done. Qed.

Lemma wire_cons rsv id t c rs :
  wire rsv id ((t, c) :: rs) = record_bytes rsv id t c ++ wire rsv id rs.
Proof. done. Qed.

Lemma wire_app rsv id rs rs' : wire rsv id (rs ++ rs') = wire rsv id rs ++ wire rsv id rs'.
Proof. unfold wire. by rewrite fmap_app, concat_app. Qed.

Lemma demux_S fuel inp :
  demux (S fuel) inp =
    if bool_decide (inp = []) then Some [] else
    match record_read inp with
    | (rest, Val (h, c)) => rs ← demux fuel rest; Some ((Type_ h, c) :: rs)
    | (_, Err _) => None
    end.
Proof. done. Qed.

Lemma demux_wire rsv id rs fuel :
  uint16_ok id → Forall record_ok rs → (length rs < fuel)%nat →
  demux fuel (wire rsv id rs) = Some rs.
Proof.
  intros Hid Hok. revert fuel. induction Hok as [|[t c] rs [Ht Hc] Hok IH]; intros fuel Hf.
  { destruct fuel; [lia|done]. }
  destruct fuel as [|fuel]; [lia|]. rewrite wire_cons, demux_S.
  rewrite bool_decide_false by (intros [? _]%app_nil; by eapply record_bytes_ne).
  rewrite record_read_bytes by done. rewrite IH by (simpl in Hf; lia). done.
Qed.

(** Sizes: one byte up to 127, four bytes with the high bit set above. *)
Definition decodeSize (b : bytes) : option (Z * bytes) :=
  match b with
  | [] => None
  | b0 :: b' =>
    if bool_decide (b0 < 128) then Some (b0, b')
    else match b' with
         | b1 :: b2 :: b3 :: b'' =>
           Some (Z.land b0 127 * 16777216 + b1 * 65536 + b2 * 256 + b3, b'')
         | _ => None
         end
  end.

Lemma encodeSize_small x rest : 0 ≤ x ≤ 127 → decodeSize (encodeSize x ++ rest) = Some (x, rest).
Proof.
  intros Hx. unfold encodeSize. rewrite bool_decide_false by lia. simpl.
  rewrite Z.mod_small by lia. by rewrite bool_decide_true by lia.
Qed.

Lemma land_high x : 0 ≤ x < 2147483648 → Z.land x 2147483648 = 0.
Proof.
  intros Hx. apply Z.bits_inj'. intros i Hi. rewrite Z.land_spec, Z.bits_0.
  destruct (decide (i = 31)) as [->|Hne].
  - rewrite (proj2 (Z.testbit_false x 31 ltac:(lia))); [done|].
    change (2 ^ 31) with 2147483648. by rewrite (Z.div_small x).
  - change 2147483648 with (2 ^ 31). rewrite (Z.pow2_bits_false 31 i) by lia. apply andb_false_r.
Qed.

Lemma lor_high x : 0 ≤ x < 2147483648 → Z.lor x (Z.shiftl 1 31) = x + 2147483648.
Proof.
  intros Hx. change (Z.shiftl 1 31) with 2147483648.
  by rewrite <-Z.lxor_lor, <-Z.add_nocarry_lxor by (by apply land_high).
Qed.

Lemma encodeSize_large x rest :
  127 < x < 2147483648 → decodeSize (encodeSize x ++ rest) = Some (x, rest).
Proof.
  intros Hx. unfold encodeSize. rewrite bool_decide_true by lia.
  rewrite lor_high by lia. unfold put32, decodeSize. cbn [app]. rewrite !Z.shiftr_div_pow2 by lia.
  change (2 ^ 24) with 16777216. change (2 ^ 16) with 65536. change (2 ^ 8) with 256.
  set (y := x + 2147483648).
  assert (Hq : 128 ≤ y / 16777216 < 256).
  { split; [apply Z.div_le_lower_bound; unfold y; lia | apply Z.div_lt_upper_bound; unfold y; lia]. }
  rewrite (Z.mod_small (y / 16777216)) by lia. rewrite bool_decide_false by lia.
  change 127 with (Z.ones 7). rewrite Z.land_ones by lia. change (2 ^ 7) with 128.
  do 2 f_equal.
  assert (y / 16777216 mod 128 = y / 16777216 - 128) as ->.
  { symmetry. apply (Z.mod_unique _ _ 1); lia. }
  unfold y in *. clear y. Z.div_mod_to_equations. lia.
Qed.

(** The encoding of a length is read back, for every length below 2^31. *)
Lemma encodeSize_roundtrip x rest :
  0 ≤ x < 2147483648 → decodeSize (encodeSize x ++ rest) = Some (x, rest).
Proof.
  intros. destruct (decide (x ≤ 127)); [apply encodeSize_small | apply encodeSize_large]; lia.
Qed.

(** ** A reliable connection

    What the client needs of [io.ReadWriteCloser]: a write without error has
    appended all its bytes to what the peer will read. *)
Class ReliableConn (C : Type) `{!Conn C} := {
  clog : C → bytes;
  conn_write_ok : ∀ c b, ∃ c', conn_write c b = (c', None) ∧ clog c' = clog c ++ b }.

(** An in-memory connection ([bytes.Buffer]) is one. *)
#[export] Instance buffer_conn : Conn bytes := λ c b, (c ++ b, None).
#[export] Program Instance buffer_reliable : ReliableConn bytes := {| clog := id |}.
Next Obligation. intros c b. by exists (c ++ b). Qed.

Section reliable.
Context {C : Type} `{!Conn C, !ReliableConn C}.
Implicit Types (f : FCGIClient C) (w : bufWriter).

(** [f'] is [f] after the records [rs] were sent. *)
Definition sends f f' (rs : list (Z * bytes)) : Prop :=
  clog (rwc f') = clog (rwc f) ++ wire (Reserved (hdr f)) (reqId f) rs
  ∧ reqId f' = reqId f ∧ Reserved (hdr f') = Reserved (hdr f).

Lemma sends_refl f : sends f f [].
Proof. unfold sends, wire. simpl. by rewrite app_nil_r. Qed.

Lemma sends_trans f1 f2 f3 rs rs' : sends f1 f2 rs → sends f2 f3 rs' → sends f1 f3 (rs ++ rs').
Proof.
  intros (H1 & H2 & H3) (H1' & H2' & H3'). unfold sends.
  rewrite H1', H1, H2, H3, H2', H3', wire_app, (assoc_L (++)). auto.
Qed.

Lemma writeRecord_sends f t c : ∃ f', writeRecord f t c = (f', None) ∧ sends f f' [(t, c)].
Proof.
  unfold writeRecord.
  destruct (conn_write_ok (rwc f) (encode_header (header_init (hdr f) t (reqId f) (blen c))
    ++ c ++ replicate (Z.to_nat (PaddingLength (header_init (hdr f) t (reqId f) (blen c)))) 0))
    as (c' & -> & Hl).
  eexists. split; [done|]. unfold sends, wire. simpl. rewrite Hl, app_nil_r. auto.
Qed.

Definition chunks_ok (cs : list bytes) : Prop := Forall (λ c, 0 < blen c ≤ maxWrite) cs.

Lemma stream_write_sends fuel f t nn p :
  (length p ≤ fuel)%nat →
  ∃ f' cs, stream_write_loop fuel f t nn p = (f', (nn + blen p, None))
           ∧ sends f f' (pair t <$> cs) ∧ concat cs = p ∧ chunks_ok cs.
Proof.
  revert f nn p. induction fuel as [|fuel IH]; intros f nn p Hp; cbn [stream_write_loop].
  { destruct p; [|simpl in Hp; lia]. exists f, []. split_and!; [|apply sends_refl|done|constructor].
    change (blen []) with 0. by rewrite Z.add_0_r. }
  case_bool_decide as Hn.
  { subst. exists f, []. split_and!; [|apply sends_refl|done|constructor].
    change (blen []) with 0. by rewrite Z.add_0_r. }
  set (n := Z.min (blen p) maxWrite).
  assert (Hpos : 0 < blen p) by (destruct p; [done|rewrite blen_cons; pose proof (blen_nonneg p); lia]).
  assert (Hb : 0 < n ≤ blen p) by (unfold n, maxWrite; lia).
  destruct (writeRecord_sends f t (take (Z.to_nat n) p)) as (f1 & -> & Hs1).
  destruct (IH f1 (nn + n) (drop (Z.to_nat n) p)) as (f2 & cs & -> & Hs2 & Hc & Hok).
  { rewrite length_drop. unfold blen in *. lia. }
  exists f2, (take (Z.to_nat n) p :: cs). split_and!.
  - rewrite blen_drop by lia. do 2 f_equal. lia.
  - by apply (sends_trans f f1 f2 [(t, take (Z.to_nat n) p)]).
  - simpl. rewrite Hc. apply take_drop.
  - constructor; [|done]. rewrite blen_take by lia. unfold n. lia.
Qed.

(** The single record of a buffer, if it is not empty. *)
Definition bufrec (b : bytes) : list bytes := if bool_decide (b = []) then [] else [b].

Lemma bufrec_concat b : concat (bufrec b) = b.
Proof. unfold bufrec. case_bool_decide; subst; [done|]. simpl. apply app_nil_r. Qed.

Lemma bufrec_ok b : blen b ≤ maxWrite → chunks_ok (bufrec b).
Proof.
  intros. unfold bufrec. case_bool_decide; [constructor|]. constructor; [|constructor].
  split; [|done]. destruct b; [done|]. rewrite blen_cons. pose proof (blen_nonneg b). lia.
Qed.

Lemma Flush_sends f w :
  werr w = None → blen (wbuf w) ≤ maxWrite →
  ∃ f', Flush f w = (f', set_buf w [], None) ∧ sends f f' (pair (wtype w) <$> bufrec (wbuf w)).
Proof.
  intros He Hl. unfold Flush, bufrec. rewrite He. case_bool_decide as Hn.
  { exists f. split; [|apply sends_refl]. destruct w. simpl in *. by subst. }
  unfold streamWriter_Write. destruct (wbuf w) as [|x b] eqn:Eb; [done|].
  cbn [length stream_write_loop]. rewrite bool_decide_false by done.
  rewrite Z.min_l by done.
  replace (take (Z.to_nat (blen (x :: b))) (x :: b)) with (x :: b)
    by (unfold blen; by rewrite Nat2Z.id, firstn_all).
  destruct (writeRecord_sends f (wtype w) (x :: b)) as (f1 & -> & Hs).
  replace (drop (Z.to_nat (blen (x :: b))) (x :: b)) with (@nil Z)
    by (unfold blen; by rewrite Nat2Z.id, drop_all).
  exists f1. split; [|done].
  assert (stream_write_loop (length b) f1 (wtype w) (0 + blen (x :: b)) [] =
          (f1, (0 + blen (x :: b), None))) as -> by (by destruct (length b)).
  rewrite bool_decide_false by lia. done.
Qed.

Lemma buf_write_fits d fuel f w p :
  werr w = None → blen p ≤ Available w →
  buf_write_loop d (S fuel) f w p = (f, set_buf w (wbuf w ++ p), None).
Proof. intros He Hp. cbn [buf_write_loop]. rewrite He. by rewrite bool_decide_true. Qed.

(** What [bufio.Writer.Write] does in general: some records are sent, and the
    bytes sent and still buffered are the bytes given. *)
Definition buffers f w p f' w' : Prop :=
  ∃ cs, sends f f' (pair (wtype w) <$> cs) ∧ chunks_ok cs
        ∧ concat cs ++ wbuf w' = wbuf w ++ p
        ∧ wtype w' = wtype w ∧ werr w' = None ∧ blen (wbuf w') ≤ maxWrite.

Lemma Available_spec w p : blen p ≤ Available w ↔ blen (wbuf w ++ p) ≤ maxWrite.
Proof. unfold Available. rewrite blen_app. lia. Qed.

Lemma buf_write_empty fuel f w p :
  werr w = None → wbuf w = [] →
  ∃ f' w', buf_write_loop true (S (S fuel)) f w p = (f', w', None) ∧ buffers f w p f' w'.
Proof.
  intros He Hb. destruct (decide (blen p ≤ Available w)) as [Hfit|Hfit].
  { rewrite buf_write_fits by done. do 2 eexists. split; [done|]. exists [].
    split_and!; [apply sends_refl|constructor|done..|]. by apply Available_spec. }
  cbn [buf_write_loop]. rewrite He. rewrite bool_decide_false by done.
  rewrite bool_decide_true by done. cbn [andb].
  destruct (stream_write_sends (length p) f (wtype w) 0 p) as (f1 & cs & Hw & Hs & Hc & Hok); [done|].
  unfold streamWriter_Write. rewrite Hw. cbn [werr].
  replace (drop (Z.to_nat (0 + blen p)) p) with (@nil Z)
    by (unfold blen; rewrite Z.add_0_l, Nat2Z.id; by rewrite drop_all).
  do 2 eexists. split; [reflexivity|]. exists cs. cbn [wtype wbuf werr app]. rewrite app_nil_r, Hb.
  by split_and!.
Qed.

Lemma bufio_Write_buffers f w p :
  werr w = None → blen (wbuf w) ≤ maxWrite →
  ∃ f' w', bufio_Write f w p = (f', w', None) ∧ buffers f w p f' w'.
Proof.
  intros He Hl. unfold bufio_Write.
  destruct (decide (wbuf w = [])) as [Hb|Hb]; [by apply buf_write_empty|].
  destruct (decide (blen p ≤ Available w)) as [Hfit|Hfit].
  { rewrite buf_write_fits by done. do 2 eexists. split; [done|]. exists [].
    split_and!; [apply sends_refl|constructor|done..|]. by apply Available_spec. }
  set (n := Z.to_nat (Z.min (Available w) (blen p))).
  assert (Hn : n = Z.to_nat (Available w)) by (unfold n; lia).
  assert (Hpos : (1 ≤ length p)%nat).
  { destruct p; simpl; [|lia]. change (blen []) with 0 in Hfit. unfold Available in Hfit. lia. }
  destruct (length p) as [|len] eqn:El; [lia|].
  remember (S (S len)) as len1 eqn:Elen. cbn [buf_write_loop]. rewrite He, bool_decide_false by done.
  rewrite (bool_decide_false (wbuf w = [])) by done. cbn [andb].
  destruct (Flush_sends f (set_buf w (wbuf w ++ take n p))) as (f1 & HF & Hs1); [done|..].
  { cbn [wbuf set_buf]. rewrite Hn, blen_app, blen_take; unfold Available in *; lia. }
  fold n. rewrite HF.
  destruct (buf_write_empty len f1 (set_buf w []) (drop n p)) as (f2 & w2 & Hw & cs & Hs2 & Hok & Hc & Ht & He2 & Hl2); [done|done|].
  subst len1. unfold set_buf in *. cbn [wtype wbuf werr] in *. rewrite Hw.
  do 2 eexists. split; [done|]. exists (bufrec (wbuf w ++ take n p) ++ cs).
  cbn [wtype wbuf set_buf] in *. split_and!; [| | |done..].
  - rewrite fmap_app. by eapply sends_trans.
  - apply Forall_app. split; [|done]. apply bufrec_ok.
    rewrite Hn, blen_app, blen_take; unfold Available in *; lia.
  - rewrite concat_app, bufrec_concat, <-!(assoc_L (++)), Hc. f_equal. simpl. apply take_drop.
Qed.

Lemma Close_sends f w :
  werr w = None → blen (wbuf w) ≤ maxWrite →
  ∃ f', bufWriter_Close f w = (f', None)
        ∧ sends f f' ((pair (wtype w) <$> bufrec (wbuf w)) ++ [(wtype w, [])]).
Proof.
  intros He Hl. unfold bufWriter_Close. destruct (Flush_sends f w) as (f1 & -> & Hs); [done..|].
  unfold streamWriter_Close. destruct (writeRecord_sends f1 (wtype w) []) as (f2 & -> & Hs2).
  exists f2. split; [done|]. by eapply sends_trans.
Qed.

(** A whole body: [io.Copy] then [Close]. *)
Lemma io_copy_buffers f w chunks :
  werr w = None → blen (wbuf w) ≤ maxWrite →
  ∃ f' w', io_copy f w chunks = (f', w') ∧ buffers f w (concat chunks) f' w'.
Proof.
  revert f w. induction chunks as [|p chunks IH]; intros f w He Hl; simpl.
  { exists f, w. split; [done|]. exists [].
    split_and!; [apply sends_refl|constructor|by rewrite app_nil_r|done..]. }
  destruct (bufio_Write_buffers f w p He Hl) as (f1 & w1 & -> & cs & Hs & Hok & Hc & Ht & He1 & Hl1).
  destruct (IH f1 w1 He1 Hl1) as (f2 & w2 & -> & cs2 & Hs2 & Hok2 & Hc2 & Ht2 & He2 & Hl2).
  do 2 eexists. split; [done|]. exists (cs ++ cs2). rewrite Ht in *. split_and!; [| | |congruence|done..].
  - rewrite fmap_app. by eapply sends_trans.
  - by apply Forall_app.
  - by rewrite concat_app, <-(assoc_L (++)), Hc2, (assoc_L (++)), Hc, (assoc_L (++)).
Qed.
End reliable.

(** ** Name-value pairs *)

Definition enc_pair (kv : bytes * bytes) : bytes :=
  encodeSize (uint32 (blen kv.1)) ++ encodeSize (uint32 (blen kv.2)) ++ kv.1 ++ kv.2.
Definition payload (g : list (bytes * bytes)) : bytes := concat (enc_pair <$> g).

(** The value of a pair that does not fit a record is cut. *)
Definition trunc_pair (kv : bytes * bytes) : bytes * bytes :=
  (kv.1, if bool_decide (maxWrite < 8 + blen kv.1 + blen kv.2)
         then take (Z.to_nat (maxWrite - 8 - blen kv.1)) kv.2 else kv.2).
Definition key_ok (kv : bytes * bytes) : Prop := blen kv.1 ≤ maxWrite - 8.
Definition fits (kv : bytes * bytes) : Prop := 8 + blen kv.1 + blen kv.2 ≤ maxWrite.

Fixpoint decode_pairs (fuel : nat) (b : bytes) : option (list (bytes * bytes)) :=
  match fuel with
  | O => None
  | S fuel =>
    if bool_decide (b = []) then Some [] else
    '(lk, b) ← decodeSize b;
    '(lv, b) ← decodeSize b;
    if bool_decide (lk + lv ≤ blen b) then
      let k := take (Z.to_nat lk) b in
      let b := drop (Z.to_nat lk) b in
      rest ← decode_pairs fuel (drop (Z.to_nat lv) b);
      Some ((k, take (Z.to_nat lv) b) :: rest)
    else None
  end.

Lemma blen_encodeSize x : blen (encodeSize x) = 1 ∨ blen (encodeSize x) = 4.
Proof. unfold encodeSize. case_bool_decide; [by right|by left]. Qed.

Lemma trunc_fits kv : key_ok kv → fits (trunc_pair kv).
Proof.
  unfold key_ok, fits, trunc_pair. destruct kv as [k v]. cbn [fst snd]. intros Hk.
  case_bool_decide; [|lia]. rewrite blen_take; lia.
Qed.

Lemma blen_enc_pair kv : fits kv → blen (enc_pair kv) ≤ maxWrite.
Proof.
  unfold fits, enc_pair. intros. rewrite !blen_app.
  destruct (blen_encodeSize (uint32 (blen kv.1))), (blen_encodeSize (uint32 (blen kv.2))); lia.
Qed.

Lemma enc_pair_pos kv : 0 < blen (enc_pair kv).
Proof.
  unfold enc_pair. rewrite !blen_app. pose proof (blen_nonneg kv.1). pose proof (blen_nonneg kv.2).
  destruct (blen_encodeSize (uint32 (blen kv.1))), (blen_encodeSize (uint32 (blen kv.2))); lia.
Qed.

Lemma payload_app g g' : payload (g ++ g') = payload g ++ payload g'.
Proof. unfold payload. by rewrite fmap_app, concat_app. Qed.

Lemma payload_nil_inv g : payload g = [] → g = [].
Proof.
  destruct g as [|kv g]; [done|]. unfold payload. simpl. intros [H _]%app_nil.
  pose proof (enc_pair_pos kv) as Hp. rewrite H in Hp. done.
Qed.

Lemma fits_uint32 kv : fits kv →
  (0 ≤ uint32 (blen kv.1) < 2147483648 ∧ uint32 (blen kv.1) = blen kv.1)
  ∧ (0 ≤ uint32 (blen kv.2) < 2147483648 ∧ uint32 (blen kv.2) = blen kv.2).
Proof.
  unfold fits, uint32, maxWrite. intros Hf.
  pose proof (blen_nonneg kv.1). pose proof (blen_nonneg kv.2).
  rewrite !Z.mod_small by lia. lia.
Qed.

Lemma decode_pairs_S fuel b :
  decode_pairs (S fuel) b =
    if bool_decide (b = []) then Some [] else
    '(lk, b) ← decodeSize b;
    '(lv, b) ← decodeSize b;
    if bool_decide (lk + lv ≤ blen b) then
      let k := take (Z.to_nat lk) b in
      let b := drop (Z.to_nat lk) b in
      rest ← decode_pairs fuel (drop (Z.to_nat lv) b);
      Some ((k, take (Z.to_nat lv) b) :: rest)
    else None.
Proof. done. Qed.

(** The responder's decoder recovers the pairs. *)
Lemma decode_payload g fuel :
  Forall fits g → (length g < fuel)%nat → decode_pairs fuel (payload g) = Some g.
Proof.
  intros Hg. revert fuel. induction Hg as [|[k v] g Hf Hg IH]; intros fuel Hfu.
  { destruct fuel; [lia|done]. }
  destruct fuel as [|fuel]; [lia|]. rewrite decode_pairs_S, bool_decide_false.
  2:{ intros ?%payload_nil_inv. done. }
  change (payload ((k, v) :: g)) with (enc_pair (k, v) ++ payload g). unfold enc_pair.
  destruct (fits_uint32 _ Hf) as [[H1 E1] [H2 E2]]. cbn [fst snd] in *. rewrite <-!(assoc_L (++)).
  rewrite encodeSize_roundtrip by done. cbn [mbind option_bind].
  rewrite encodeSize_roundtrip by done. cbn [mbind option_bind]. rewrite E1, E2.
  rewrite bool_decide_true.
  2:{ rewrite !blen_app. pose proof (blen_nonneg (payload g)). lia. }
  rewrite take_blen_app, drop_blen_app, take_blen_app, drop_blen_app, IH by (simpl in Hfu; lia).
  done.
Qed.

Section pairs.
Context {C : Type} `{!Conn C, !ReliableConn C}.
Implicit Types (f : FCGIClient C) (w : bufWriter).

(** The groups of pairs sent as one record each. *)
Definition group_ok (g : list (bytes * bytes)) : Prop :=
  g ≠ [] ∧ Forall fits g ∧ blen (payload g) ≤ maxWrite.
Definition group_of (g : list (bytes * bytes)) := if bool_decide (g = []) then [] else [g].

Lemma bufrec_payload g : bufrec (payload g) = payload <$> group_of g.
Proof.
  unfold bufrec, group_of. repeat case_bool_decide; subst; try done.
  by destruct (payload_nil_inv g).
Qed.

Lemma group_of_ok g : Forall fits g → blen (payload g) ≤ maxWrite → Forall group_ok (group_of g).
Proof. intros. unfold group_of. case_bool_decide; repeat constructor; auto. Qed.

Lemma concat_group_of g : concat (group_of g) = g.
Proof. unfold group_of. case_bool_decide; subst; [done|]. simpl. apply app_nil_r. Qed.

(** The three writes of one pair, when they fit the buffer. *)
Lemma write_pair_fits f w kv :
  werr w = None → blen (wbuf w) + blen (enc_pair kv) ≤ maxWrite →
  ∃ w1 w2, bufio_Write f w (encodeSize (uint32 (blen kv.1)) ++ encodeSize (uint32 (blen kv.2)))
             = (f, w1, None)
           ∧ bufio_WriteString f w1 kv.1 = (f, w2, None)
           ∧ bufio_WriteString f w2 kv.2 = (f, set_buf w (wbuf w ++ enc_pair kv), None).
Proof.
  intros He Hl. unfold enc_pair in *. rewrite !blen_app in Hl.
  pose proof (blen_nonneg kv.1). pose proof (blen_nonneg kv.2).
  unfold bufio_Write, bufio_WriteString. do 2 eexists. split_and!.
  - rewrite buf_write_fits; [done|done|]. apply Available_spec. rewrite !blen_app. lia.
  - rewrite buf_write_fits; [done|done|]. apply Available_spec. cbn [wbuf set_buf].
    rewrite !blen_app. lia.
  - rewrite buf_write_fits; [|done|].
    + unfold set_buf. simpl. by rewrite !(assoc_L (++)).
    + apply Available_spec. cbn [wbuf set_buf]. rewrite !blen_app. lia.
Qed.

Lemma trunc_run kv :
  key_ok kv →
  (if bool_decide (maxWrite < 8 + blen kv.1 + blen kv.2)
   then bslice kv.2 (maxWrite - 8 - blen kv.1) else Ret kv.2) = Ret (trunc_pair kv).2.
Proof.
  unfold key_ok, trunc_pair, bslice. intros. cbn [snd]. case_bool_decide; [|done].
  rewrite bool_decide_true by lia. done.
Qed.

Lemma writePairs_cons f w nn k v pairs :
  key_ok (k, v) →
  writePairs_loop f w nn ((k, v) :: pairs) =
    let v := (trunc_pair (k, v)).2 in
    let b := encodeSize (uint32 (blen k)) ++ encodeSize (uint32 (blen v)) in
    let m := blen (enc_pair (k, v)) in
    let '(f, w, nn) :=
      if bool_decide (maxWrite < nn + m)
      then let '(f, w, _) := Flush f w in (f, w, 0) else (f, w, nn) in
    match bufio_Write f w b with
    | (f, _, Some e) => Ret (f, Some e)
    | (f, w, None) =>
      match bufio_WriteString f w k with
      | (f, _, Some e) => Ret (f, Some e)
      | (f, w, None) =>
        match bufio_WriteString f w v with
        | (f, _, Some e) => Ret (f, Some e)
        | (f, w, None) => writePairs_loop f w (nn + m) pairs
        end
      end
    end.
Proof.
  intros Hk. cbn [writePairs_loop]. pose proof (trunc_run _ Hk) as Ht. cbn [fst snd] in Ht.
  rewrite Ht. unfold enc_pair. cbn [mbind outcome_bind fst snd]. rewrite !blen_app, !Z.add_assoc.
  done.
Qed.

Lemma writePairs_sends_loop f w cur pairs :
  werr w = None → wbuf w = payload cur → blen (payload cur) ≤ maxWrite →
  Forall fits cur → Forall key_ok pairs →
  ∃ f' gs, writePairs_loop f w (blen (wbuf w)) pairs = Ret (f', None)
           ∧ sends f f' ((pair (wtype w) <$> (payload <$> gs)) ++ [(wtype w, [])])
           ∧ concat gs = cur ++ (trunc_pair <$> pairs) ∧ Forall group_ok gs.
Proof.
  intros He Hb Hl Hcur Hp. revert f w cur He Hb Hl Hcur.
  induction Hp as [|[k v] pairs Hk Hp IH]; intros f w cur He Hb Hl Hcur.
  { simpl. destruct (Close_sends f w) as (f1 & -> & Hs); [done|by rewrite Hb|].
    exists f1, (group_of cur). rewrite Hb, bufrec_payload in Hs.
    rewrite app_nil_r, concat_group_of. auto using group_of_ok. }
  rewrite writePairs_cons by done. cbn zeta.
  set (kv := (k, (trunc_pair (k, v)).2)). set (m := blen (enc_pair kv)).
  assert (Hkv : kv = trunc_pair (k, v)) by done.
  assert (Hfit : fits kv) by (rewrite Hkv; by apply trunc_fits).
  assert (Hm : 0 < m ≤ maxWrite) by (split; [apply enc_pair_pos | by apply blen_enc_pair]).
  case_bool_decide as Hfl.
  - destruct (Flush_sends f w) as (f1 & -> & Hs1); [done|by rewrite Hb|].
    destruct (write_pair_fits f1 (set_buf w []) kv) as (w1 & w2 & H1 & H2 & H3);
      [done|cbn [wbuf set_buf]; change (blen []) with 0; fold m; lia|].
    change (kv.1) with k in *. change (kv.2) with ((trunc_pair (k, v)).2) in *. rewrite H1, H2, H3.
    edestruct (IH f1 (set_buf (set_buf w []) ([] ++ enc_pair kv)) [kv])
      as (f2 & gs & Hw & Hs2 & Hc & Hok); [done| | | |].
    { unfold payload. simpl. by rewrite app_nil_r. }
    { unfold payload. cbn [fmap list_fmap concat]. rewrite app_nil_r. fold m. lia. }
    { by repeat constructor. }
    exists f2, (group_of cur ++ gs). rewrite Hb, bufrec_payload in Hs1. split_and!.
    + exact Hw.
    + rewrite !fmap_app, <-(assoc_L (++)). by eapply sends_trans.
    + rewrite concat_app, concat_group_of, Hc. done.
    + apply Forall_app. split; [by apply group_of_ok | done].
  - destruct (write_pair_fits f w kv) as (w1 & w2 & H1 & H2 & H3); [done|fold m; lia|].
    change (kv.1) with k in *. change (kv.2) with ((trunc_pair (k, v)).2) in *. rewrite H1, H2, H3.
    assert (Hpay : payload (cur ++ [kv]) = wbuf w ++ enc_pair kv).
    { rewrite payload_app, Hb. unfold payload at 2. simpl. by rewrite app_nil_r. }
    edestruct (IH f (set_buf w (wbuf w ++ enc_pair kv)) (cur ++ [kv]))
      as (f2 & gs & Hw & Hs2 & Hc & Hok); [done|done| | |].
    { rewrite Hpay, blen_app. fold m. lia. }
    { apply Forall_app. by repeat constructor. }
    exists f2, gs. split_and!; [|done| |done].
    + cbn [wbuf set_buf] in Hw. rewrite blen_app in Hw. exact Hw.
    + rewrite Hc, <-(assoc_L (++)). done.
Qed.

Lemma writePairs_sends f t pairs :
  Forall key_ok pairs →
  ∃ f' gs, writePairs f t pairs = Ret (f', None)
           ∧ sends f f' ((pair t <$> (payload <$> gs)) ++ [(t, [])])
           ∧ concat gs = trunc_pair <$> pairs ∧ Forall group_ok gs.
Proof. intros. by apply (writePairs_sends_loop f (newWriter t) [] pairs). Qed.

(** A stream body. *)
Lemma body_sends f t chunks :
  ∃ f' cs, (let '(f1, w) := io_copy f (newWriter t) chunks in bufWriter_Close f1 w) = (f', None)
           ∧ sends f f' ((pair t <$> cs) ++ [(t, [])]) ∧ concat cs = concat chunks ∧ chunks_ok cs.
Proof.
  destruct (io_copy_buffers f (newWriter t) chunks) as (f1 & w1 & -> & cs & Hs & Hok & Hc & Ht & He & Hl); [done|done|].
  destruct (Close_sends f1 w1 He Hl) as (f2 & -> & Hs2). rewrite Ht in Hs2. cbn [wtype newWriter wbuf app] in *.
  exists f2, (cs ++ bufrec (wbuf w1)). split_and!; [done| | |].
  - rewrite fmap_app, <-(assoc_L (++)). by eapply sends_trans.
  - by rewrite concat_app, bufrec_concat, Hc.
  - apply Forall_app. split; [done|by apply bufrec_ok].
Qed.
End pairs.

(** ** Reading a response *)

(** A record sent by the responder: any type, any padding. *)
Record srv_record := mkSrv { s_type : Z; s_id : Z; s_content : bytes; s_pad : bytes; s_rsv : Z }.
Definition srv_header (r : srv_record) : header :=
  mkHeader 1 (s_type r) (s_id r) (blen (s_content r)) (blen (s_pad r)) (s_rsv r).
Definition srv_bytes (r : srv_record) : bytes :=
  encode_header (srv_header r) ++ s_content r ++ s_pad r.
Definition srv_ok (r : srv_record) : Prop := uint16_ok (s_id r) ∧ blen (s_content r) < 65536.

#[local] Arguments srv_bytes : simpl never.

Lemma record_read_srv r rest :
  srv_ok r → s_type r ≠ FCGI_END_REQUEST →
  record_read (srv_bytes r ++ rest) = (rest, Val (srv_header r, s_content r)).
Proof.
  intros [Hid Hc] Ht. unfold record_read, srv_bytes. rewrite <-!(assoc_L (++)).
  rewrite (readFull_app' 8) by done.
  rewrite decode_encode_header; [|done|].
  2:{ unfold uint16_ok. simpl. pose proof (blen_nonneg (s_content r)). lia. }
  rewrite bool_decide_false by (simpl; lia). rewrite bool_decide_false by done.
  rewrite (assoc_L (++)), readFull_app' by (by rewrite blen_app).
  cbn [ContentLength srv_header]. by rewrite take_blen_app.
Qed.

Lemma record_read_end r rest :
  srv_ok r → s_type r = FCGI_END_REQUEST → (record_read (srv_bytes r ++ rest)).2 = Err EOF.
Proof.
  intros [Hid Hc] Ht. unfold record_read, srv_bytes. rewrite <-!(assoc_L (++)).
  rewrite (readFull_app' 8) by done.
  rewrite decode_encode_header; [|done|].
  2:{ unfold uint16_ok. simpl. pose proof (blen_nonneg (s_content r)). lia. }
  rewrite bool_decide_false by (simpl; lia). by rewrite bool_decide_true.
Qed.

(** Successive calls of [Read], with slices of the given sizes, until an error. *)
Fixpoint drain (sizes : list nat) (w : streamReader) : bytes * option goerr :=
  match sizes with
  | [] => ([], None)
  | n :: sizes =>
    match streamReader_Read w n with
    | (_, (b, Some e)) => (b, Some e)
    | (w, (b, None)) => let '(b', e) := drain sizes w in (b ++ b', e)
    end
  end.

Definition reads_needed (b : bytes) (rs : list srv_record) : nat :=
  length b + sum_list_with (λ r, S (length (s_content r))) rs.

Lemma drain_srv sizes b rs last rest :
  Forall (λ n, n ≠ 0%nat) sizes → Forall srv_ok rs → srv_ok last →
  Forall (λ r, s_type r ≠ FCGI_END_REQUEST) rs → s_type last = FCGI_END_REQUEST →
  (reads_needed b rs < length sizes)%nat →
  drain sizes (mkReader (concat (srv_bytes <$> rs) ++ srv_bytes last ++ rest) b)
  = (b ++ concat (s_content <$> rs), Some EOF).
Proof.
  intros Hn Hok Hlast Ht Hend. revert b rs Hok Ht.
  induction Hn as [|n sizes Hn0 Hn IH]; intros b rs Hok Ht Hlen; [simpl in Hlen; lia|].
  cbn [drain]. unfold streamReader_Read. rewrite bool_decide_false by done. cbn [sr_buf sr_in].
  case_bool_decide as Hb.
  - subst. destruct rs as [|r rs].
    + simpl. pose proof (record_read_end last rest Hlast Hend) as He.
      destruct (record_read _) as [inp res]. simpl in He. by subst.
    + apply Forall_cons in Hok as [Hr Hok]. apply Forall_cons in Ht as [Htr Ht].
      cbn [fmap list_fmap concat]. rewrite <-(assoc_L (++)), record_read_srv by done.
      cbn [sr_buf sr_in]. rewrite IH; [|done|done|].
      * by rewrite (assoc_L (++)), take_drop.
      * unfold reads_needed in *. rewrite length_drop. simpl in *. lia.
  - cbn [sr_buf sr_in]. rewrite IH; [|done|done|].
    + by rewrite (assoc_L (++)), take_drop.
    + unfold reads_needed in *. rewrite length_drop. destruct b; [done|]. simpl in *. lia.
Qed.

(** ** The HTTP response ([Request], [extractStatus], [Get], [Post]) *)

(** [http.Header]: canonical name to values. *)
Abbreviation Header := (gmap string (list string)).
Definition Header_Get (h : Header) (k : string) : string :=
  match h !! k with Some (v :: _) => v | _ => "" end.

Record Response := mkResponse {
  Status : string; StatusCode : Z; RespHeader : Header;
  RespContentLength : Z; TransferEncoding : list string; RespChunked : bool }.

(** [func extractStatus]; the flag says whether an error is returned. *)
Definition extractStatus (resp : Response) : Response * bool :=
  let status := Header_Get (RespHeader resp) "Status" in
  let h := delete "Status" (RespHeader resp) in
  let resp s c := mkResponse s c h (RespContentLength resp) (TransferEncoding resp)
                    (RespChunked resp) in
  if bool_decide (status = "") then (resp "" 200, false) else
  let '(s, err) := match Index status " " with
                   | None => ParseInt status
                   | Some i => ParseInt (stake i status)
                   end in
  if err : bool then (resp "500 Error parsing FCGI status header" 500, true)
  else (resp status s, false).

Definition chunked (te : list string) : bool :=
  match te with t :: _ => bool_decide (t = "chunked") | [] => false end.

(** [func (f *FCGIClient) Request] after [Do]: [mime] is the result of
    [textproto.Reader.ReadMIMEHeader] on the response stream. *)
Definition Request (mime : gores goerr Header) : gores goerr Response :=
  match mime with
  | Err EOF => Err ErrUnexpectedEOF
  | Err e => Err e
  | Val h =>
    let te := default [] (h !! "Transfer-Encoding") in
    let cl := Header_Get h "Content-Length" in
    let len := if bool_decide (cl = "") then -1 else fst (ParseInt cl) in
    match extractStatus (mkResponse "" 0 h len te false) with
    | (_, true) => Err (ErrMsg "strconv.ParseInt")
    | (r, false) => Val (mkResponse (Status r) (StatusCode r) (RespHeader r)
                           (RespContentLength r) (TransferEncoding r) (chunked te))
    end
  end.

(** The parameters [Get] and [Post] pass to [Request]. *)
Definition Get (p : gmap string string) : gmap string string :=
  <["CONTENT_LENGTH" := "0"]> (<["REQUEST_METHOD" := "GET"]> p).
Definition Post (p : gmap string string) (bodyType : string) (l : Z) : gmap string string :=
  let p := if bool_decide (default "" (p !! "REQUEST_METHOD") = "")
              || bool_decide (default "" (p !! "REQUEST_METHOD") = "GET")
           then <["REQUEST_METHOD" := "POST"]> p else p in
  let p := <["CONTENT_LENGTH" := Itoa l]> p in
  <["CONTENT_TYPE" := if bool_decide (bodyType = "") then "application/x-www-form-urlencoded"
                      else bodyType]> p.

Lemma Index_digits_space c t text z :
  parse_digits z (String c t) ≠ None → Index (String c t +:+ " " +:+ text) " " = Some (slen (String c t)).
Proof.
  intros H. remember (String c t) as s eqn:E. clear c t E. revert z H.
  induction s as [|c s IH]; intros z H; [done|]. rewrite sapp_cons, Index_unfold.
  simpl in H. destruct (is_digit c) eqn:Hd; [|done].
  destruct (HasPrefix _ _) eqn:Hp.
  { apply HasPrefix_spec in Hp as [r Hp]. rewrite sapp_cons in Hp. injection Hp as -> _. done. }
  rewrite (IH _ H). done.
Qed.

Lemma Index_digits_none s z : parse_digits z s ≠ None → Index s " " = None.
Proof.
  revert z. induction s as [|c s IH]; intros z H; [done|]. rewrite Index_unfold.
  simpl in H. destruct (is_digit c) eqn:Hd; [|done].
  destruct (HasPrefix _ _) eqn:Hp; [|by rewrite (IH _ H)].
  apply HasPrefix_spec in Hp as [r Hp]. rewrite sapp_cons in Hp. by injection Hp as -> _.
Qed.

Lemma Itoa_parse n : 0 ≤ n → ∃ c t, Itoa n = String c t ∧ parse_digits 0 (Itoa n) ≠ None.
Proof.
  intros Hn. destruct n as [|p|p]; [by exists "0"%char, ""| |lia].
  change (Itoa (Z.pos p)) with (pretty_N_go (N.pos p) "").
  destruct (pretty_N_go_head (N.pos p) "") as (c & t & E & _); [done|].
  destruct (parse_digits_go (N.pos p)) as (k & _ & H). exists c, t. split; [done|].
  by rewrite (H "" 0).
Qed.

(** ** Properties of the client *)

Lemma wire_length rsv id rs : (length rs ≤ length (wire rsv id rs))%nat.
Proof.
  induction rs as [|[t c] rs IH]; [simpl; lia|]. rewrite wire_cons, length_app.
  pose proof (record_bytes_ne rsv id t c). destruct (record_bytes _ _ _ _); [done|]. simpl in *. lia.
Qed.

Lemma payload_length g : (length g ≤ length (payload g))%nat.
Proof.
  induction g as [|kv g IH]; [simpl; lia|]. change (payload (kv :: g)) with (enc_pair kv ++ payload g).
  rewrite length_app. pose proof (enc_pair_pos kv). unfold blen in *. simpl. lia.
Qed.

Lemma decode_payload_full g :
  Forall fits g → decode_pairs (S (length (payload g))) (payload g) = Some g.
Proof. intros. apply decode_payload; [done|]. pose proof (payload_length g). lia. Qed.

Lemma chunk_record_ok t cs :
  t ≠ FCGI_END_REQUEST → Forall (λ c, blen c ≤ maxWrite) cs → Forall record_ok (pair t <$> cs).
Proof.
  intros Ht Hc. apply Forall_fmap. eapply Forall_impl; [exact Hc|]. intros c Hb.
  split; [done|]. simpl. unfold maxWrite in *. lia.
Qed.

Lemma concat_groups gs : concat (payload <$> gs) = payload (concat gs).
Proof.
  induction gs as [|g gs IH]; [done|].
  change (concat (payload <$> g :: gs)) with (payload g ++ concat (payload <$> gs)).
  rewrite IH. simpl. by rewrite payload_app.
Qed.

Lemma Do_sends {C} `{!Conn C, !ReliableConn C} (f : FCGIClient C) pairs req :
  Forall key_ok pairs →
  ∃ f' gs cs, Do f pairs req = Ret (f', None)
    ∧ sends f f' ([(FCGI_BEGIN_REQUEST, [0; 1; 0; 0; 0; 0; 0; 0])]
                  ++ ((pair FCGI_PARAMS <$> (payload <$> gs)) ++ [(FCGI_PARAMS, [])])
                  ++ ((pair FCGI_STDIN <$> cs) ++ [(FCGI_STDIN, [])]))
    ∧ concat gs = trunc_pair <$> pairs ∧ Forall group_ok gs
    ∧ concat cs = concat (default [] req) ∧ chunks_ok cs.
Proof.
  intros Hk. unfold Do, writeBeginRequest.
  destruct (writeRecord_sends f FCGI_BEGIN_REQUEST [0; 1; 0; 0; 0; 0; 0; 0]) as (f1 & H1 & Hs1).
  change [Z.shiftr FCGI_RESPONDER 8 mod 256; FCGI_RESPONDER mod 256; 0; 0; 0; 0; 0; 0]
    with [0; 1; 0; 0; 0; 0; 0; 0]. rewrite H1.
  destruct (writePairs_sends f1 FCGI_PARAMS pairs Hk) as (f2 & gs & -> & Hs2 & Hg & Hgok).
  destruct (body_sends f2 FCGI_STDIN (default [] req)) as (f3 & cs & H3 & Hs3 & Hc & Hcok).
  cbn [mbind outcome_bind]. destruct (io_copy _ _ _) as [fa wa]. rewrite H3.
  exists f3, gs, cs. split_and!; try done.
  eapply sends_trans; [exact Hs1|]. by eapply sends_trans.
Qed.

Lemma Do_decoded {C} `{!Conn C, !ReliableConn C} (f : FCGIClient C) pairs req :
  uint16_ok (reqId f) → Forall key_ok pairs →
  ∃ f' sent params stdin, Do f pairs req = Ret (f', None)
    ∧ clog (rwc f') = clog (rwc f) ++ sent
    ∧ demux (S (length sent)) sent
      = Some ([(FCGI_BEGIN_REQUEST, [0; 1; 0; 0; 0; 0; 0; 0])]
              ++ ((pair FCGI_PARAMS <$> params) ++ [(FCGI_PARAMS, [])])
              ++ ((pair FCGI_STDIN <$> stdin) ++ [(FCGI_STDIN, [])]))
    ∧ decode_pairs (S (length (concat params))) (concat params) = Some (trunc_pair <$> pairs)
    ∧ concat stdin = concat (default [] req)
    ∧ Forall (λ c, 0 < blen c ≤ maxWrite) (params ++ stdin).
Proof.
  intros Hid Hk. destruct (Do_sends f pairs req Hk) as (f' & gs & cs & HD & (Hl & _) & Hg & Hgok & Hc & Hcok).
  assert (Hfits : Forall fits (concat gs)).
  { rewrite Hg. apply Forall_fmap. eapply Forall_impl; [exact Hk|]. intros kv. apply trunc_fits. }
  assert (Hsz : Forall (λ c, 0 < blen c ≤ maxWrite) (payload <$> gs)).
  { apply Forall_fmap. eapply Forall_impl; [exact Hgok|]. intros g (Hne & _ & Hle). split; [|done].
    destruct (payload g) as [|x b] eqn:E; [by apply payload_nil_inv in E|].
    rewrite blen_cons. pose proof (blen_nonneg b). lia. }
  eexists f', _, (payload <$> gs), cs. split_and!; [exact HD|exact Hl| | |exact Hc|by apply Forall_app].
  - apply demux_wire; [done| |apply Nat.lt_succ_r, wire_length].
    assert (Hw : ∀ l, Forall (λ c, 0 < blen c ≤ maxWrite) l → Forall (λ c, blen c ≤ maxWrite) l)
      by (intros l Hl'; eapply Forall_impl; [exact Hl'|]; simpl; lia).
    repeat apply Forall_app_2; try (apply chunk_record_ok; [done|by apply Hw]);
      (repeat constructor; done).
  - rewrite concat_groups, <-Hg. by apply decode_payload_full.
Qed.

(** C1: a request is understood by the responder: the bytes [Do] sends decode
    to one BEGIN_REQUEST record (role responder, no keep-alive), PARAMS
    records closed by an empty one, STDIN records closed by an empty one; the
    concatenated PARAMS decode to the parameters (values cut to what a record
    holds), and the concatenated STDIN is the request body.  No record carries
    more than 65500 bytes. *)
Theorem Do_roundtrip {C} `{!Conn C, !ReliableConn C} (f : FCGIClient C) pairs req :
  uint16_ok (reqId f) → Forall key_ok pairs →
  ∃ f' sent params stdin, Do f pairs req = Ret (f', None)
    ∧ clog (rwc f') = clog (rwc f) ++ sent
    ∧ demux (S (length sent)) sent
      = Some ([(FCGI_BEGIN_REQUEST, [0; 1; 0; 0; 0; 0; 0; 0])]
              ++ ((pair FCGI_PARAMS <$> params) ++ [(FCGI_PARAMS, [])])
              ++ ((pair FCGI_STDIN <$> stdin) ++ [(FCGI_STDIN, [])]))
    ∧ decode_pairs (S (length (concat params))) (concat params) = Some (trunc_pair <$> pairs)
    ∧ concat stdin = concat (default [] req)
    ∧ Forall (λ c, 0 < blen c ≤ maxWrite) (params ++ stdin).
Proof. apply Do_decoded. Qed.

Definition ex_pairs : list (bytes * bytes) := [([65; 66], [67]); ([68], replicate 200 69)].

Lemma Do_roundtrip_witness :
  ∃ f' sent params stdin, Do (new_client ([] : bytes)) ex_pairs (Some [[1; 2]; [3]]) = Ret (f', None)
    ∧ clog (rwc f') = clog (rwc (new_client ([] : bytes))) ++ sent
    ∧ demux (S (length sent)) sent
      = Some ([(FCGI_BEGIN_REQUEST, [0; 1; 0; 0; 0; 0; 0; 0])]
              ++ ((pair FCGI_PARAMS <$> params) ++ [(FCGI_PARAMS, [])])
              ++ ((pair FCGI_STDIN <$> stdin) ++ [(FCGI_STDIN, [])]))
    ∧ decode_pairs (S (length (concat params))) (concat params) = Some (trunc_pair <$> ex_pairs)
    ∧ concat stdin = concat [[1; 2]; [3]]
    ∧ Forall (λ c, 0 < blen c ≤ maxWrite) (params ++ stdin).
Proof.
  apply (Do_roundtrip (new_client ([] : bytes)) ex_pairs (Some [[1; 2]; [3]])).
  - done.
  - by repeat constructor.
Defined.

(** A name-value pair never straddles two records: each PARAMS record that
    [writePairs] sends decodes on its own to consecutive parameters, in order,
    and is followed by the empty record that closes the stream. *)
Theorem writePairs_whole_pairs {C} `{!Conn C, !ReliableConn C} (f : FCGIClient C) t pairs :
  Forall key_ok pairs →
  ∃ f' groups params, writePairs f t pairs = Ret (f', None)
    ∧ sends f f' ((pair t <$> params) ++ [(t, [])])
    ∧ Forall2 (λ g c, decode_pairs (S (length c)) c = Some g) groups params
    ∧ concat groups = trunc_pair <$> pairs.
Proof.
  intros Hk. destruct (writePairs_sends f t pairs Hk) as (f' & gs & Hw & Hs & Hg & Hok).
  exists f', gs, (payload <$> gs). split_and!; [done..| |done].
  apply Forall2_fmap_r, Forall_Forall2_diag. eapply Forall_impl; [exact Hok|].
  intros g (_ & Hf & _). by apply decode_payload_full.
Qed.

Lemma writePairs_whole_pairs_witness :
  ∃ f' groups params, writePairs (new_client ([] : bytes)) FCGI_PARAMS ex_pairs = Ret (f', None)
    ∧ sends (new_client ([] : bytes)) f' ((pair FCGI_PARAMS <$> params) ++ [(FCGI_PARAMS, [])])
    ∧ Forall2 (λ g c, decode_pairs (S (length c)) c = Some g) groups params
    ∧ concat groups = trunc_pair <$> ex_pairs.
Proof.
  apply (writePairs_whole_pairs (new_client ([] : bytes)) FCGI_PARAMS ex_pairs).
  by repeat constructor.
Defined.

(** A response is delivered whole: whatever the sizes of the successive
    [Read] calls (none zero) and whatever the padding, types and lengths of
    the responder's records, the bytes read before end of file are the
    contents of the records before END_REQUEST, in order.  STDERR records are
    not filtered out. *)
Theorem streamReader_delivers sizes rs last rest :
  Forall (λ n, n ≠ 0%nat) sizes → Forall srv_ok rs → srv_ok last →
  Forall (λ r, s_type r ≠ FCGI_END_REQUEST) rs → s_type last = FCGI_END_REQUEST →
  (reads_needed [] rs < length sizes)%nat →
  drain sizes (mkReader (concat (srv_bytes <$> rs) ++ srv_bytes last ++ rest) [])
  = (concat (s_content <$> rs), Some EOF).
Proof. intros. by apply (drain_srv sizes [] rs last rest). Qed.

Definition ex_out : srv_record := mkSrv FCGI_STDOUT 1 [72; 105] [0; 0] 0.
Definition ex_err : srv_record := mkSrv FCGI_STDERR 1 [33] [] 0.
Definition ex_end : srv_record := mkSrv FCGI_END_REQUEST 1 [0; 0; 0; 0; 0; 0; 0; 0] [] 0.

Lemma streamReader_delivers_witness :
  drain (replicate 6 1%nat)
    (mkReader (concat (srv_bytes <$> [ex_out; ex_err]) ++ srv_bytes ex_end ++ []) [])
  = (concat (s_content <$> [ex_out; ex_err]), Some EOF)
  ∧ concat (s_content <$> [ex_out; ex_err]) = [72; 105; 33].
Proof.
  split; [|reflexivity].
  apply (streamReader_delivers (replicate 6 1%nat) [ex_out; ex_err] ex_end []).
  all: first [by repeat constructor | simpl; lia | done].
Defined.

(** A parameter whose name is longer than a record allows makes
    [writePairs] panic (the slice [v[:vl]] has a negative bound), whatever the
    state of the connection and the other parameters before it fit. *)
Theorem writePairs_long_name_panics {C} `{!Conn C} (f : FCGIClient C) t k v pairs :
  maxWrite - 8 < blen k → writePairs f t ((k, v) :: pairs) = Panic.
Proof.
  intros Hk. unfold writePairs. cbn [writePairs_loop]. pose proof (blen_nonneg v).
  rewrite bool_decide_true by lia. unfold bslice. by rewrite bool_decide_false by lia.
Qed.

Lemma writePairs_long_name_panics_witness :
  maxWrite - 8 < blen (replicate (Z.to_nat 65493) 65)
  ∧ writePairs (new_client ([] : bytes)) FCGI_PARAMS [(replicate (Z.to_nat 65493) 65, [])] = Panic.
Proof.
  assert (maxWrite - 8 < blen (replicate (Z.to_nat 65493) 65)) as H.
  { unfold blen. rewrite length_replicate. unfold maxWrite. lia. }
  split; [exact H|].
  apply (writePairs_long_name_panics (new_client ([] : bytes)) FCGI_PARAMS
           (replicate (Z.to_nat 65493) 65) [] [] H).
Defined.

(** The status line of a response: the code printed in the [Status] header
    is the one reported, with or without a reason phrase, the header is
    removed, and a response without it is a 200. *)
Theorem extractStatus_spec resp code text :
  0 ≤ code ≤ int64_max →
  let with_status s := mkResponse "" 0 (<["Status" := [s]]> (RespHeader resp))
                         (RespContentLength resp) (TransferEncoding resp) (RespChunked resp) in
  let status s c := mkResponse s c (delete "Status" (RespHeader resp))
                      (RespContentLength resp) (TransferEncoding resp) (RespChunked resp) in
  extractStatus (with_status (Itoa code +:+ " " +:+ text))
    = (status (Itoa code +:+ " " +:+ text) code, false)
  ∧ extractStatus (with_status (Itoa code)) = (status (Itoa code) code, false)
  ∧ (RespHeader resp !! "Status" = None →
     extractStatus resp = (status "" 200, false)).
Proof.
  intros Hc. cbn zeta. unfold extractStatus, Header_Get.
  destruct (Itoa_parse code) as (c & t & E & Hp); [lia|]. split_and!.
  - cbn [RespHeader]. rewrite lookup_insert_eq, delete_insert_eq.
    rewrite bool_decide_false by (rewrite E; done).
    rewrite E in Hp |- *. rewrite (Index_digits_space c t text 0 Hp), stake_app, <-E.
    rewrite ParseInt_Itoa by done. done.
  - cbn [RespHeader]. rewrite lookup_insert_eq, delete_insert_eq.
    rewrite bool_decide_false by (by rewrite E).
    by rewrite (Index_digits_none _ 0 Hp), ParseInt_Itoa.
  - intros Hn. rewrite Hn. done.
Qed.

Lemma extractStatus_spec_witness :
  extractStatus (mkResponse "" 0 (<["Status" := ["404 Not Found"]]> ∅) (-1) [] false)
  = (mkResponse "404 Not Found" 404 (delete "Status" ∅) (-1) [] false, false).
Proof.
  apply (extractStatus_spec (mkResponse "" 0 ∅ (-1) [] false) 404 "Not Found").
  unfold int64_max. lia.
Defined.
