(* ===== verification/Os.v ===== *)
(** * The operating system as the program sees it

    Environment variables, the file system seen through [os.Stat] and
    [os.ReadFile], the working directory ([os.Getwd]) and the CLI's home
    directory ([util.GetHomeDir]).  A theorem quantified over [os] holds for
    every environment and every file system. *)

From stdpp Require Import base tactics option list gmap strings pretty.
From Stdlib Require Import ZArith Lia Ascii.
From S2P Require Import Prelude GoStrings FilePath.

Inductive stat_res := Found (isDir : bool) | NotExist | StatErr.

Record os := mkOS {
  environ : gmap string string;
  stat : string → stat_res;
  read_file : string → option string;
  getwd : option string;
  home_dir : string }.

Definition LookupEnv (w : os) (k : string) : option string := environ w !! k.
Definition Getenv (w : os) (k : string) : string := default "" (environ w !! k).

(** [_, err := os.Stat(p); err == nil]. *)
Definition exists_ (w : os) (p : string) : bool :=
  match stat w p with Found _ => true | _ => false end.
Definition is_dir (w : os) (p : string) : bool :=
  match stat w p with Found d => d | _ => false end.

(** [filepath.Abs]: [None] is the error of [os.Getwd]. *)
Definition Abs (w : os) (p : string) : option string :=
  if IsAbs p then Some (Clean p) else wd ← getwd w; Some (fjoin [wd; p]).

(** [util.InCloud] ([util/cloud.go]). *)
Definition InCloud (w : os) : bool := bool_decide (Getenv w "PLATFORM_PROJECT_ENTROPY" ≠ "").

(** A file system given by a finite table, for concrete runs: directories are
    the entries without contents. *)
Definition table_os (env : gmap string string) (fs : gmap string (option string)) (wd home : string)
  : os :=
  {| environ := env;
     stat p := match fs !! p with
               | Some (Some _) => Found false | Some None => Found true | None => NotExist
               end;
     read_file p := mjoin (fs !! p);
     getwd := Some wd; home_dir := home |}.
