(* ===== verification/Upsun.v ===== *)
(** * Upsun / Platform.sh project detection ([local/upsun])

    Products, the project root and identifier, the application a directory
    belongs to, service and extension tables look-ups, and the database
    versions found in configuration files.  YAML decoding
    ([gopkg.in/yaml.v2]), [.env] parsing ([godotenv]) and Git are parameters. *)

From stdpp Require Import base tactics option list gmap strings pretty.
From Stdlib Require Import ZArith Lia Ascii.
From S2P Require Import Prelude GoStrings FilePath Os.

(** ** Products ([product.go]) *)

Record CloudProduct := mkProduct {
  Name : string; ProjectConfigPath : string; CommandPrefix : string; CLIConfigPath : string;
  CLIPrefix : string; GitRemoteName : string; BinName : string }.

#[export] Instance CloudProduct_eq_dec : EqDecision CloudProduct.
Proof. solve_decision. Defined.

Definition Flex : CloudProduct := {|
  Name := "Upsun Flex"; ProjectConfigPath := ".upsun"; CLIConfigPath := ".upsun-cli";
  CLIPrefix := "UPSUN_CLI_"; CommandPrefix := "upsun:"; GitRemoteName := "upsun";
  BinName := "upsun" |}.
Definition Fixed : CloudProduct := {|
  Name := "Upsun Fixed"; ProjectConfigPath := ".platform"; CLIConfigPath := ".platformsh";
  CLIPrefix := "PLATFORMSH_CLI_"; CommandPrefix := "cloud:"; GitRemoteName := "platform";
  BinName := "platform" |}.
Definition NoProduct : CloudProduct := {|
  Name := ""; ProjectConfigPath := ""; CLIConfigPath := ".platformsh";
  CLIPrefix := "PLATFORMSH_CLI_"; CommandPrefix := "cloud:"; GitRemoteName := "";
  BinName := "platform" |}.

Definition BinaryPath (b : CloudProduct) : string := fjoin [CLIConfigPath b; "bin"; BinName b].

(** The first of [products] whose configuration directory exists. *)
Definition GuessProductFromDirectory (w : os) (dir : string) : CloudProduct :=
  default NoProduct
    (list_find (λ p, Is_true (exists_ w (fjoin [dir; ProjectConfigPath p]))) [Flex; Fixed]
     ≫= λ x, Some x.2).

Definition GuessProductFromCommandName (w : os) (name : string) : CloudProduct :=
  if HasPrefix name "upsun:" then Flex
  else match getwd w with
       | Some dir => GuessProductFromDirectory w dir
       | None => Fixed
       end.

(** ** Service and extension tables ([services.go], [php.go]) *)

Record serviceVersions := { Deprecated : list string; Supported : list string }.
Record service := { Type_ : string; Versions : serviceVersions }.

(** [ServiceLastVersion]; the generated table is an argument. *)
Fixpoint ServiceLastVersion (availableServices : list service) (name : string) : string :=
  match availableServices with
  | [] => ""
  | s :: rest =>
    if bool_decide (Type_ s = name) then
      let versions := if bool_decide (Supported (Versions s) = []) then Deprecated (Versions s)
                      else Supported (Versions s) in
      match last versions with
      | Some v => v
      | None => ServiceLastVersion rest name
      end
    else ServiceLastVersion rest name
  end.

Definition IsPhpExtensionAvailable (availablePHPExts : gmap string (list string))
    (ext phpVersion : string) : bool :=
  match availablePHPExts !! ToLower ext with
  | None => false
  | Some versions => bool_decide (phpVersion ∈ versions)
  end.

(** ** Database versions ([db_versions.go]) *)

Definition is_db_type (t : string) : bool :=
  HasPrefix t "mysql" || HasPrefix t "mariadb" || HasPrefix t "postgresql".

(** [extractCloudDatabaseType]: the types of the services in iteration order.
    The error of the Go function is always [nil]; [parts[1]] is out of range
    when the type has no colon. *)
Fixpoint extract_db (dbName dbVersion : string) (types : list string) : outcome (string * string) :=
  match types with
  | [] => Ret (dbName, dbVersion)
  | t :: types =>
    if is_db_type t then
      if bool_decide (dbName ≠ "") then Ret ("", "")
      else match Split t ":" with
           | name :: version :: _ => extract_db name version types
           | _ => Panic
           end
    else extract_db dbName dbVersion types
  end.
Definition extractCloudDatabaseType (types : list string) : outcome (string * string) :=
  extract_db "" "" types.

Section files.
(** [yaml.Unmarshal] of a services file, as the service types in iteration
    order: at the top level, or under [services:]. *)
Context (yaml_services yaml_upsun_services : string → option (list string)).
(** [os.ReadDir], sorted by name. *)
Context (read_dir : string → option (list string)).
(** The [server_version]s of [doctrine.yaml]: default connection, then root. *)
Context (yaml_doctrine : string → option (string * string)).
(** [godotenv.Read] and [url.Parse(u).Query().Get("serverVersion")]. *)
Context (godotenv : string → option (gmap string string))
        (url_server_version : string → option string).

(** The loop over the files of [.upsun]. *)
Fixpoint upsun_files (w : os) (projectDir : string) (files : list string)
  : outcome (string * string * string) :=
  match files with
  | [] => Ret ("", "", "")
  | f :: files =>
    let configFile := fjoin [".upsun"; f] in
    match read_file w (fjoin [projectDir; configFile]) ≫= yaml_upsun_services with
    | Some types =>
      '(dbName, dbVersion) ← extractCloudDatabaseType types;
      Ret (configFile, dbName, dbVersion)
    | None => upsun_files w projectDir files
    end
  end.

Definition ReadDBVersionFromPlatformServiceYAML (w : os) (projectDir : string)
  : outcome (string * string * string) :=
  let configFile := fjoin [".platform"; "services.yaml"] in
  match read_file w (fjoin [projectDir; configFile]) ≫= yaml_services with
  | Some types =>
    '(dbName, dbVersion) ← extractCloudDatabaseType types;
    Ret (configFile, dbName, dbVersion)
  | None =>
    let upsunDir := fjoin [projectDir; ".upsun"] in
    if exists_ w upsunDir then
      match read_dir upsunDir with
      | Some files => upsun_files w projectDir files
      | None => Ret ("", "", "")
      end
    else Ret ("", "", "")
  end.

(** [None] is an error. *)
Definition ReadDBVersionFromDotEnv (w : os) (projectDir : string) : option string :=
  let path := fjoin [projectDir; ".env"] in
  match stat w path with
  | NotExist => Some ""
  | _ =>
    vars ← godotenv path;
    match vars !! "DATABASE_URL" with
    | None => Some ""
    | Some databaseURL =>
      if Contains databaseURL "serverVersion=" then url_server_version databaseURL else Some ""
    end
  end.

Definition is_param (version : string) : bool :=
  HasPrefix version "%" && HasSuffix version "%".

Definition ReadDBVersionFromDoctrineConfigYAML (w : os) (projectDir : string) : option string :=
  let path := fjoin [projectDir; "config"; "packages"; "doctrine.yaml"] in
  match stat w path with
  | NotExist => Some ""
  | _ =>
    content ← read_file w path;
    '(default_conn, root) ← yaml_doctrine content;
    let version := if bool_decide (default_conn = "") then root else default_conn in
    if bool_decide (version = "") then Some ""
    else if is_param version then Some "" else Some version
  end.
End files.

(** [strings.Replace(providedVersion, "mariadb-", "", 1)]. *)
Definition replace_first (s old new : string) : string :=
  match Index s old with
  | None => s
  | Some i => stake i s +:+ new +:+ sdrop (i + slen old) s
  end.
Definition DatabaseVersiondUnsynced (providedVersion dbVersion : string) : bool :=
  let providedVersion := replace_first providedVersion "mariadb-" "" in
  bool_decide (providedVersion ≠ "") && negb (HasPrefix providedVersion dbVersion).

(** ** Applications and projects ([applications.go], [project.go]) *)

Record LocalApplication := { AppName : string; AppType : string; LocalRootDir : string }.

(** [filepath.Rel(base, directory)] succeeds and does not start with [..]: both
    paths are absolute (or both relative) and the components of [base] are the
    first ones of [directory]; a next component that starts with [..] is
    refused too, as the source tests a string prefix. *)
Definition under (base directory : string) : bool :=
  let b := clean_comps (IsAbs base) [] (Split base sep) in
  let d := clean_comps (IsAbs base) [] (Split directory sep) in
  Bool.eqb (IsAbs base) (IsAbs directory)
  && bool_decide (take (length b) d = b)
  && negb (match drop (length b) d with c :: _ => HasPrefix c ".." | [] => false end).

Definition GuessSelectedAppByDirectory (evalSymlinks : string → string) (directory : string)
    (apps : list LocalApplication) : option LocalApplication :=
  match apps with
  | [app] => Some app
  | _ =>
    let directory := evalSymlinks directory in
    snd <$> list_find (λ app, Is_true (under (LocalRootDir app) directory)) apps
  end.

Definition GuessSelectedAppByWd (w : os) (evalSymlinks : string → string)
    (apps : list LocalApplication) : option LocalApplication :=
  match getwd w with
  | None => None
  | Some wd => if bool_decide (wd = "") then None
               else GuessSelectedAppByDirectory evalSymlinks wd apps
  end.

(** [repositoryRootDir]: the nearest ancestor with a [.git] directory. *)
Definition repositoryRootDir (w : os) (currentDir : string) : string :=
  default "" (walkUp true (λ d, if is_dir w (fjoin [d; ".git"]) then Some d else None) currentDir).

Definition GetProjectRoot (w : os) : option string :=
  currentDir ← getwd w;
  let projectRoot := repositoryRootDir w currentDir in
  if bool_decide (projectRoot = "") then None else Some projectRoot.

(** [regexp.MustCompile("^([a-z0-9]{12,})@git\.")]: at least twelve lower-case
    letters or digits, then [@git.]; the class excludes [@], so the greedy run
    is the only candidate. *)
Fixpoint span (f : ascii → bool) (s : string) : string * string :=
  match s with
  | EmptyString => ("", "")
  | String c s' => if f c then let '(a, b) := span f s' in (String c a, b) else ("", s)
  end.
Definition match_project_id (url : string) : option string :=
  let '(id, rest) := span (λ c, is_lower c || is_digit c) url in
  if (12 <=? slen id) && HasPrefix rest "@git." then Some id else None.

Record Project := { ID : string; App : string; Env : string }.

Section project.
(** [git config --get remote.<name>.url], [git symbolic-ref --short HEAD]
    (both empty on error), the [id] of [local/project.yaml], the
    applications found under a root, and [filepath.EvalSymlinks]. *)
Context (GetRemoteURL : string → string → string) (GetCurrentBranch : string → string)
        (yaml_project_id : string → option string)
        (FindLocalApplications : string → list LocalApplication)
        (evalSymlinks : string → string).

Definition getProjectIDFromConfigFile (w : os) (product : CloudProduct) (projectRoot : string)
  : string :=
  default "" (read_file w (fjoin [projectRoot; ProjectConfigPath product; "local"; "project.yaml"])
              ≫= yaml_project_id).

Definition getProjectIDFromGitConfig (product : CloudProduct) (projectRoot : string) : string :=
  default "" (head (omap (λ remote, match_project_id (GetRemoteURL projectRoot remote))
                      [GitRemoteName product; "origin"])).

Definition getProjectID (w : os) (projectRoot : string) : string :=
  let product := GuessProductFromDirectory w projectRoot in
  if bool_decide (product = NoProduct) then "" else
  let id := getProjectIDFromConfigFile w product projectRoot in
  if bool_decide (id ≠ "") then id else getProjectIDFromGitConfig product projectRoot.

(** [None] is an error. *)
Definition ProjectFromDir (w : os) (dir : string) : option Project :=
  let projectRoot := repositoryRootDir w dir in
  if bool_decide (projectRoot = "") then None else
  let projectID := getProjectID w projectRoot in
  if bool_decide (projectID = "") then None else
  let envID := GetCurrentBranch projectRoot in
  if bool_decide (envID = "") then None else
  app ← GuessSelectedAppByDirectory evalSymlinks dir (FindLocalApplications projectRoot);
  Some {| ID := projectID; App := AppName app; Env := envID |}.
End project.
