(* ===== verification/Docker.v ===== *)
(** * Services of a local Docker Compose project ([envs/docker.go])

    The containers of the project become relationships: the lowest exposed
    private port tells which service a container runs, its environment the
    credentials.  The Docker client, [url.Parse], the YAML decoder and the file
    names of the Compose library are parameters. *)

From stdpp Require Import base tactics option list gmap strings pretty sorting.
From Stdlib Require Import ZArith Lia Ascii.
From S2P Require Import Prelude GoStrings FilePath Os Upsun Envs.

(** The receiver of all the methods of [envs/local.go], [envs/docker.go] and
    [envs/local_tunnel.go]. *)
Record Local := mkLocal {
  l_Dir : string; l_Debug : bool; l_Tunnel : string; l_TunnelEnv : bool; l_DockerEnv : bool }.

(** [container.Port] and [container.Summary], the fields that are read; ports
    are [uint16]. *)
Record Port := mkPort { PrivatePort : Z; PublicPort : Z }.
#[global] Instance Port_eq_dec : EqDecision Port.
Proof. solve_decision. Defined.
Record Container := mkContainer {
  ID : string; Names : list string; Image : string; Labels : gmap string string;
  Ports : list Port }.

(** The Docker client: the host [docker.FromEnv] selects ([None]: error),
    whether [docker.WithHost] accepts a host, then the two calls on a client
    connected to a host. *)
Record docker_api := mkApi {
  from_env : option string;
  with_host : string → bool;
  ContainerList : string → option (list Container);
  ContainerInspect : string → string → option (list string) }.

(** [sort.Sort] only promises a sorted permutation: equal private ports may come
    out in any order. *)
Definition port_le (p q : Port) : Prop := (PrivatePort p ≤ PrivatePort q)%Z.
#[global] Instance port_le_dec : RelDecision port_le.
Proof. intros p q. unfold port_le. apply _. Defined.
Class PortSort := {
  sort_ports : list Port → list Port;
  sort_ports_perm l : sort_ports l ≡ₚ l;
  sort_ports_sorted l : Sorted port_le (sort_ports l) }.

Definition DefaultDockerHost : string := "unix:///var/run/docker.sock".

(** ** Names *)

Definition is_name_char (c : ascii) : bool :=
  Ascii.eqb c "-" || Ascii.eqb c "_" || is_lower c || is_digit c.
Definition is_legacy_name_char (c : ascii) : bool := is_lower c || is_digit c.

Definition normalizeDockerComposeProjectName (projectName : string) : string :=
  sfilter is_name_char (ToLower projectName).
Definition normalizeDockerComposeProjectNameLegacy (projectName : string) : string :=
  sfilter is_legacy_name_char (ToLower projectName).

Definition formatDockerPort (port : Z) : string := Itoa port.

Definition getEnvValue (env key : string) : outcome string :=
  if bool_decide (slen key = slen env) then Ret ""
  else slice env (Z.of_nat (slen key) + 1) (Z.of_nat (slen env)).

(** ** Credentials in the environment of a container *)

Record creds := mkCreds { username : string; password : string; path : string; version : string }.
Definition no_creds : creds := mkCreds "" "" "" "".
Definition set_username (s : creds) (v : string) : creds := mkCreds v (password s) (path s) (version s).
Definition set_password (s : creds) (v : string) : creds := mkCreds (username s) v (path s) (version s).
Definition set_path (s : creds) (v : string) : creds := mkCreds (username s) (password s) v (version s).
Definition set_version (s : creds) (v : string) : creds := mkCreds (username s) (password s) (path s) v.

(** [else if strings.HasPrefix(env, key) { field = getEnvValue(env, key) }]: the
    first key that is a prefix of the variable. *)
Fixpoint env_chain (fields : list (string * (creds → string → creds))) (s : creds) (env : string)
  : outcome creds :=
  match fields with
  | [] => Ret s
  | (key, set) :: fields =>
    if HasPrefix env key then v ← getEnvValue env key; Ret (set s v) else env_chain fields s env
  end.

Definition mysql_step (prefix : string) (s : creds) (env : string) : outcome creds :=
  if HasPrefix env (prefix +:+ "_ROOT_PASSWORD") && bool_decide (password s = "") then
    password ← getEnvValue env (prefix +:+ "_ROOT_PASSWORD");
    Ret (set_username (set_password s password) "root")
  else env_chain [(prefix +:+ "_USER", set_username); (prefix +:+ "_PASSWORD", set_password);
                  (prefix +:+ "_DATABASE", set_path); (prefix +:+ "_VERSION", set_version)] s env.

(** [if path == "" { path = username }] *)
Definition default_path (s : creds) : creds :=
  if bool_decide (path s = "") then set_path s (username s) else s.

Definition mysql_creds (env : list string) : outcome creds :=
  s ← foldM (λ s prefix, foldM (mysql_step prefix) s env) no_creds ["MYSQL"; "MARIADB"];
  Ret (default_path s).

Definition pgsql_creds (env : list string) : outcome creds :=
  s ← foldM (env_chain [("POSTGRES_USER", set_username); ("POSTGRES_PASSWORD", set_password);
                        ("POSTGRES_DB", set_path); ("PG_VERSION", set_version)]) no_creds env;
  Ret (default_path s).

Definition rabbitmq_creds (env : list string) : outcome creds :=
  foldM (env_chain [("RABBITMQ_DEFAULT_USER", set_username); ("RABBITMQ_DEFAULT_PASS", set_password)])
    (mkCreds "guest" "guest" "" "") env.

Definition mongodb_creds (env : list string) : outcome creds :=
  foldM (env_chain [("MONGO_DATABASE", set_path); ("MONGO_INITDB_DATABASE", set_path);
                    ("MONGO_INITDB_ROOT_USERNAME", set_username);
                    ("MONGO_INITDB_ROOT_PASSWORD", set_password)]) no_creds env.

(** ** From a container to its endpoints *)

(** [map[string]interface{}{"host": host, "ip": host, "port": ..., "rel": ...,
    "scheme": ...}] with further fields. *)
Definition service (host : string) (p : Port) (rel scheme : string) (more : list (string * gval))
  : endpoint :=
  list_to_map ([("host", VString host); ("ip", VString host);
                ("port", VString (formatDockerPort (PublicPort p)));
                ("rel", VString rel); ("scheme", VString scheme)] ++ more).

Definition database (host : string) (p : Port) (kind : string) (s : creds) : endpoint :=
  service host p kind kind
    [("username", VString (username s)); ("password", VString (password s));
     ("path", VString (path s)); ("version", VString (version s));
     ("query", VMapBool [("is_master", true)])].

(** A mail catcher has an SMTP port and a web port. *)
Definition mailer (host : string) (p : Port) (web : list Z) (exposedPorts : list Port)
  : option (list (string * endpoint)) :=
  match filter (λ pw, PrivatePort pw ∈ web) exposedPorts with
  | pw :: _ => Some [("-web", service host pw "mailer" "http" []); ("", service host p "mailer" "smtp" [])]
  | [] => None
  end.

(** Any other service: the scheme is guessed from the port. *)
Definition simple (host : string) (p : Port) : list (string * endpoint) :=
  let scheme := if bool_decide (PrivatePort p ∈ [80; 8008; 8080; 8081]%Z) then "http"
                else if bool_decide (PrivatePort p ∈ [443; 8443]%Z) then "https"
                else "tcp" in
  [("", service host p "simple" scheme [])].

(** The end of the long [if]/[else if]: message brokers, search, MongoDB, Mercure. *)
Definition other_service (image host : string) (env : list string) (p : Port)
    (exposedPorts : list Port) : outcome (list (string * endpoint)) :=
  let pp := PrivatePort p in
  let one (rel scheme : string) (more : list (string * gval)) :=
    Ret [("", service host p rel scheme more)] in
  if bool_decide (pp = 5672)%Z then
    s ← rabbitmq_creds env;
    let amqp := service host p "amqp" "amqp" [("username", VString (username s));
                                              ("password", VString (password s))] in
    Ret (("", amqp) ::
         match filter (λ pw, PrivatePort pw = 15672%Z) exposedPorts with
         | pw :: _ => [("-management", service host pw "amqp" "http" [])]
         | [] => []
         end)
  else if bool_decide (pp = 9200)%Z then one "elasticsearch" "http" [("path", VString "/")]
  else if bool_decide (pp = 5601)%Z then one "kibana" "http" [("path", VString "/")]
  else if bool_decide (pp = 27017 ∨ pp = 27018 ∨ pp = 27019)%Z then
    s ← mongodb_creds env;
    one "mongodb" "mongodb" [("username", VString (username s)); ("password", VString (password s));
                             ("path", VString (path s))]
  else if bool_decide (pp = 9092)%Z then one "kafka" "kafka" []
  else if bool_decide (pp = 80)%Z && Contains image "dunglas/mercure" then one "mercure" "http" []
  else Ret (simple host p).

(** The long [if]/[else if] on the lowest private port, [p]. *)
Definition service_of_port (image host : string) (env : list string) (p : Port)
    (exposedPorts : list Port) : outcome (list (string * endpoint)) :=
  let pp := PrivatePort p in
  let one (rel scheme : string) (more : list (string * gval)) :=
    Ret [("", service host p rel scheme more)] in
  if bool_decide (pp = 1025)%Z then
    Ret (default (simple host p) (mailer host p [1080; 8025]%Z exposedPorts))
  else if bool_decide (pp = 25)%Z then
    Ret (default (simple host p) (mailer host p [80]%Z exposedPorts))
  else if bool_decide (pp = 8707 ∨ pp = 8307)%Z then one "blackfire" "tcp" []
  else if bool_decide (pp = 3306)%Z then s ← mysql_creds env; Ret [("", database host p "mysql" s)]
  else if bool_decide (pp = 5432)%Z then s ← pgsql_creds env; Ret [("", database host p "pgsql" s)]
  else if bool_decide (pp = 6379)%Z then one "redis" "redis" []
  else if bool_decide (pp = 11211)%Z then one "memcached" "memcached" []
  else other_service image host env p exposedPorts.

Section docker.
(** [url.Parse(host)] then [Hostname()]; [compose.DefaultFileNames] and
    [compose.DefaultOverrideFileNames]; the [name] of a Compose file
    ([None]: the YAML is invalid); the user's home directory. *)
Context (url_hostname : string → option string)
        (DefaultFileNames DefaultOverrideFileNames : list string)
        (yaml_name : string → option string)
        (user_home : option string).
Context `{!PortSort}.

(** [container.Names[0][1:]], only read for debug messages. *)
Definition debug_name (c : Container) : outcome string :=
  name ← oget (head (Names c)); slice name 1 (Z.of_nat (slen name)).

Definition docker_host (w : os) : string :=
  let host := Getenv w "DOCKER_HOST" in
  if bool_decide (host = "") || HasPrefix host "unix://" then "127.0.0.1"
  else default "127.0.0.1" (url_hostname host).

Definition dockerServiceToRelationship (w : os) (l : Local) (inspect : string → option (list string))
    (container : Container) : outcome (list (string * endpoint)) :=
  if bool_decide (ParseBool (default "" (Labels container !! "com.symfony.server.service-ignore"))
                  = Some true) then Ret []
  else
    let exposedPorts := filter (λ p, PublicPort p ≠ 0%Z) (Ports container) in
    match exposedPorts with
    | [] =>
      if l_Debug l && bool_decide (Ports container ≠ []) then _ ← debug_name container; Ret [] else Ret []
    | _ =>
      match inspect (ID container) with
      | None => if l_Debug l then _ ← debug_name container; Ret [] else Ret []
      | Some env =>
        let exposedPorts := sort_ports exposedPorts in
        match exposedPorts with
        | [] => Panic
        | p :: _ => service_of_port (Image container) (docker_host w) env p exposedPorts
        end
      end
    end.

(** The option of the client: the host to use, or [None] for an error. *)
Definition dockerUseDesktopSocketIfAvailable (api : docker_api) (w : os) (daemonHost : string)
  : option string :=
  if bool_decide (daemonHost ≠ DefaultDockerHost) then Some daemonHost else
  homeDir ← user_home;
  let socketPath := fjoin [homeDir; ".docker/run/docker.sock"] in
  if exists_ w socketPath then
    let host := "unix://" +:+ socketPath in
    if with_host api host then Some host else None
  else Some daemonHost.

(** ** The Compose project *)

Definition compose_dir_test (w : os) (dir : string) : option string :=
  if existsb (λ filename, exists_ w (fjoin [dir; filename])) DefaultFileNames then Some dir else None.

(** The empty string when there is none. *)
Definition getComposeDir (w : os) (l : Local) : string :=
  if bool_decide (Getenv w "COMPOSE_FILE" ≠ "") then l_Dir l
  else default "" (walkUp true (compose_dir_test w) (l_Dir l)).

(** The first line [COMPOSE_PROJECT_NAME=...] of a [.env] file. *)
Fixpoint project_line (lines : list string) : option string :=
  match lines with
  | [] => None
  | line :: lines =>
    if HasPrefix line "COMPOSE_PROJECT_NAME=" then Some (sdrop 21 line) else project_line lines
  end.

Definition compose_file_name (w : os) (dir filename : string) : option string :=
  match read_file w (fjoin [dir; filename]) ≫= yaml_name with
  | Some (String a n) => Some (String a n)
  | _ => None
  end.

Fixpoint compose_files_name (w : os) (dir : string) (index : nat) (files : list string)
  : outcome (option string) :=
  match files with
  | [] => Ret None
  | filename :: files =>
    if exists_ w (fjoin [dir; filename]) then
      override ← oget (DefaultOverrideFileNames !! index);
      match compose_file_name w dir override, compose_file_name w dir filename with
      | Some n, _ => Ret (Some n)
      | None, Some n => Ret (Some n)
      | None, None => compose_files_name w dir (S index) files
      end
    else compose_files_name w dir (S index) files
  end.

Definition getComposeProjectName (w : os) (l : Local) : outcome string :=
  let project := Getenv w "COMPOSE_PROJECT_NAME" in
  if bool_decide (project ≠ "") then Ret project else
  let composeDir := getComposeDir w l in
  if bool_decide (composeDir = "") then Ret "" else
  let envFile := fjoin [composeDir; ".env"] in
  let line := if exists_ w envFile then
                contents ← read_file w envFile; project_line (Split contents newline)
              else None in
  match line with
  | Some name => Ret name
  | None =>
    name ← compose_files_name w composeDir 0 DefaultFileNames;
    Ret (default (Base composeDir) name)
  end.

(** [relationships[name] = append(relationships[name], relationship)]; a new
    name comes last in the list. *)
Fixpoint rel_append (name : string) (e : endpoint) (rels : Relationships) : Relationships :=
  match rels with
  | [] => [(name, [e])]
  | (n, es) :: rels =>
    if bool_decide (n = name) then (n, es ++ [e]) :: rels else (n, es) :: rel_append name e rels
  end.

(** The service name of a container: [None] when it has none. *)
Definition service_name (c : Container) : option string :=
  match Labels c !! "com.symfony.server.service-prefix" with
  | Some name => Some name
  | None => Labels c !! "com.docker.compose.service"
  end.

Definition in_project (project : string) (c : Container) : bool :=
  match Labels c !! "com.docker.compose.project" with
  | None => false
  | Some p => bool_decide (p = normalizeDockerComposeProjectName project
                           ∨ p = normalizeDockerComposeProjectNameLegacy project)
  end.

Definition add_container (w : os) (l : Local) (inspect : string → option (list string))
    (project : string) (relationships : Relationships) (container : Container)
  : outcome Relationships :=
  if in_project project container then
    services ← dockerServiceToRelationship w l inspect container;
    Ret (foldl (λ rels s, match service_name container with
                          | Some name => rel_append (name +:+ s.1) s.2 rels
                          | None => rels
                          end) relationships services)
  else Ret relationships.

Definition RelationshipsFromDocker (api : docker_api) (w : os) (l : Local)
  : outcome (Local * Relationships) :=
  project ← getComposeProjectName w l;
  if bool_decide (project = "") then Ret (l, []) else
  match from_env api ≫= dockerUseDesktopSocketIfAvailable api w with
  | None => Ret (l, [])
  | Some host =>
    match ContainerList api host with
    | None => Ret (l, [])
    | Some containers =>
      relationships ← foldM (add_container w l (ContainerInspect api host) project) [] containers;
      let l := if bool_decide (relationships ≠ []) then
                 mkLocal (l_Dir l) (l_Debug l) (l_Tunnel l) (l_TunnelEnv l) true else l in
      Ret (l, relationships)
    end
  end.
End docker.

(** A merge sort, as one possible [sort.Sort]. *)
#[export] Instance merge_PortSort : PortSort.
Proof.
  refine {| sort_ports := merge_sort port_le |}.
  - intros l. apply merge_sort_Permutation.
  - intros l. apply Sorted_merge_sort. intros p q. unfold port_le. lia.
Defined.

(** ** A container never makes the CLI panic *)

Lemma getEnvValue_spec env key :
  HasPrefix env key = true → getEnvValue env key = Ret (sdrop (slen key + 1) env).
Proof.
  intros [r ->]%HasPrefix_spec. unfold getEnvValue, slice. rewrite slen_app.
  case_bool_decide as H.
  - destruct r; simpl in H; [|lia]. rewrite sapp_nil_r. f_equal. symmetry.
    destruct (sdrop _ _) eqn:E; [done|].
    pose proof (slen_sdrop (slen key + 1) key) as Hl. rewrite E in Hl. simpl in Hl. lia.
  - rewrite bool_decide_eq_true_2 by lia. f_equal.
    replace (Z.to_nat (Z.of_nat (slen key) + 1)) with (slen key + 1) by lia.
    replace (Z.to_nat _) with (slen (sdrop (slen key + 1) (key +:+ r))).
    + rewrite <-(sapp_nil_r (sdrop _ _)) at 2. apply stake_app.
    + rewrite slen_sdrop, slen_app. lia.
Qed.

Lemma env_chain_returns fields s env : returns (env_chain fields s env).
Proof.
  induction fields as [|[key set] fields IH]; simpl; [auto with ret|].
  destruct (HasPrefix env key) eqn:E; [|done]. rewrite getEnvValue_spec by done. eexists. reflexivity.
Qed.

Lemma mysql_step_returns prefix s env : returns (mysql_step prefix s env).
Proof.
  unfold mysql_step. destruct (HasPrefix _ _ && _) eqn:E; [|apply env_chain_returns].
  apply andb_true_iff in E as [E _]. rewrite getEnvValue_spec by done. eexists. reflexivity.
Qed.

Lemma foldM_returns {A B} (f : B → A → outcome B) b l : (∀ b a, returns (f b a)) → returns (foldM f b l).
Proof.
  intros H. destruct (foldM_inv (λ _, True) f l b) as (b' & -> & _); [done| |auto with ret].
  intros b1 a _ _. destruct (H b1 a) as [b2 ->]. eauto.
Qed.

#[export] Hint Resolve foldM_returns env_chain_returns mysql_step_returns : ret.

Lemma creds_return env :
  returns (mysql_creds env) ∧ returns (pgsql_creds env) ∧ returns (rabbitmq_creds env)
  ∧ returns (mongodb_creds env).
Proof. split_and!; unfold mysql_creds, pgsql_creds, rabbitmq_creds, mongodb_creds; ret_walk. Qed.

Lemma service_of_port_returns image host env p ps : returns (service_of_port image host env p ps).
Proof.
  destruct (creds_return env) as (? & ? & ? & ?). unfold service_of_port, other_service. ret_walk.
Qed.

(** ** The endpoints have the fields the extraction needs *)

Section endpoints_ok.
Context (url_parse : string → option (string * string)) (c : ectx) (host : string).
Hypothesis Hhost : is_Some (url_parse host).
Let ok (s : string * endpoint) : Prop := endpoint_ok url_parse c s.2 = true.

(** Evaluates [endpoint_ok] on a service whose fields are variables. *)
Ltac eval_ok :=
  unfold ok, database, service; cbn [snd];
  match goal with |- context [formatDockerPort ?n] => generalize (formatDockerPort n) end; intros;
  let u := fresh "u" in let Hu := fresh "Hu" in
  destruct Hhost as [u Hu]; vm_compute; rewrite ?Hu; try reflexivity.

Lemma service_ok suffix p rel scheme more :
  scheme ∈ ["http"; "https"; "smtp"; "tcp"; "redis"; "memcached"; "kafka"] → more = [] →
  ok (suffix, service host p rel scheme more).
Proof.
  intros Hs ->. set_unfold in Hs. destruct_or! Hs; subst; eval_ok.
Qed.

Lemma path_ok p rel v : ok ("", service host p rel "http" [("path", VString v)]).
Proof. eval_ok. Qed.

Lemma database_ok p kind s : kind ∈ ["mysql"; "pgsql"] → ok ("", database host p kind s).
Proof.
  destruct s as [u pw pa v]. unfold database. cbn [username password path version].
  intros Hs. set_unfold in Hs. destruct_or! Hs; subst; eval_ok; by destruct c as [? [] ? ?].
Qed.

Lemma amqp_ok p u pw :
  ok ("", service host p "amqp" "amqp" [("username", VString u); ("password", VString pw)]).
Proof. eval_ok. Qed.

Lemma mongodb_ok p u pw pa :
  ok ("", service host p "mongodb" "mongodb"
            [("username", VString u); ("password", VString pw); ("path", VString pa)]).
Proof.
  eval_ok.
Qed.

Lemma simple_ok p : Forall ok (simple host p).
Proof.
  unfold simple. apply Forall_singleton, service_ok; [|done].
  destruct (bool_decide _); [set_solver|]. destruct (bool_decide _); set_solver.
Qed.

Lemma mailer_ok p web ps : Forall ok (default (simple host p) (mailer host p web ps)).
Proof.
  unfold mailer. destruct (filter _ ps) as [|pw ?]; [apply simple_ok|].
  repeat constructor; apply service_ok; set_solver.
Qed.

#[local] Opaque service database simple mailer endpoint_ok.

Lemma one_ok p rel scheme :
  scheme ∈ ["http"; "https"; "smtp"; "tcp"; "redis"; "memcached"; "kafka"] →
  Forall ok [("", service host p rel scheme [])].
Proof. intros. by apply Forall_singleton, service_ok. Qed.

Lemma service_of_port_ok image env p ps ss :
  service_of_port image host env p ps = Ret ss → Forall ok ss.
Proof.
  unfold service_of_port, other_service. cbn zeta. intros H.
  repeat match type of H with
         | (if ?b then _ else _) = _ => destruct b
         | mbind _ _ = _ => apply bind_inv in H as (s & _ & H)
         end; injection H as <-;
    first [apply mailer_ok | apply simple_ok | apply one_ok; set_solver
          | apply Forall_singleton;
            first [apply path_ok | apply mongodb_ok | apply database_ok; set_solver] | idtac].
  apply Forall_cons. split; [apply amqp_ok|]. destruct (filter _ ps) as [|pw ?]; [done|].
  apply Forall_singleton, service_ok; set_solver.
Qed.

Definition rels_ok (rels : Relationships) : Prop :=
  Forall (λ r : string * list endpoint, Forall (λ e, endpoint_ok url_parse c e = true) r.2) rels.

Lemma rel_append_ok name e rels :
  endpoint_ok url_parse c e = true → rels_ok rels → rels_ok (rel_append name e rels).
Proof.
  intros He H. unfold rels_ok in *. induction H as [|[n es] rels Hes H IH]; simpl.
  { by repeat constructor. }
  case_bool_decide; constructor; [simpl|done|done|done].
  apply Forall_app. split; [done|]. by apply Forall_singleton.
Qed.
End endpoints_ok.


Lemma sort_ports_cons `{!PortSort} p l : ∃ q k, sort_ports (p :: l) = q :: k.
Proof.
  destruct (sort_ports (p :: l)) as [|q k] eqn:E; [|eauto].
  pose proof (sort_ports_perm (p :: l)) as Hp. rewrite E in Hp. by apply Permutation_nil_cons in Hp.
Qed.

Section docker_facts.
Context (url_hostname : string → option string)
        (DefaultFileNames DefaultOverrideFileNames : list string)
        (yaml_name : string → option string) (user_home : option string) `{!PortSort}.
Let service_rels := dockerServiceToRelationship url_hostname.
Let docker_rels := RelationshipsFromDocker url_hostname DefaultFileNames DefaultOverrideFileNames
                     yaml_name user_home.

(** Docker gives every container a name that starts with a slash. *)
Definition named (ct : Container) : Prop := ∃ c name names, Names ct = String c name :: names.
Lemma debug_name_named ct : named ct → returns (debug_name ct).
Proof.
  intros (c & name & names & E). unfold debug_name. rewrite E. cbn [head oget].
  rewrite bind_Ret. unfold slice. cbn [slen]. case_bool_decide; [auto with ret|]. exfalso. lia.
Qed.

Lemma service_rels_returns w l inspect ct :
  (l_Debug l = true → named ct) →
  service_rels w l inspect ct = Ret [] ∨
  ∃ env p ps, service_rels w l inspect ct
              = service_of_port (Image ct) (docker_host url_hostname w) env p ps.
Proof.
  intros Hd. unfold service_rels, dockerServiceToRelationship.
  assert (Hname : ∀ b : bool, (if l_Debug l && b then _ ← debug_name ct; Ret [] else Ret [])
                     = Ret ([] : list (string * endpoint))).
  { intros b. destruct (l_Debug l), b; try done. by destruct (debug_name_named ct (Hd eq_refl)) as [? ->]. }
  case_bool_decide; [by left|]. destruct (filter _ _) as [|p l']; [by left; rewrite Hname|].
  destruct (inspect _) as [env|]; [|left; rewrite <-(Hname true) at 2; by rewrite andb_true_r].
  destruct (sort_ports_cons p l') as (q & k & ->). eauto.
Qed.

Lemma compose_files_name_returns w dir files index :
  index + length files ≤ length DefaultOverrideFileNames →
  returns (compose_files_name DefaultOverrideFileNames yaml_name w dir index files).
Proof.
  revert index. induction files as [|f files IH]; intros index Hn; simpl in *; [auto with ret|].
  destruct (exists_ _ _); [|apply IH; lia].
  destruct (lookup_lt_is_Some_2 DefaultOverrideFileNames index) as [o ->]; [lia|]. simpl.
  destruct (compose_file_name _ w dir o); [auto with ret|].
  destruct (compose_file_name _ w dir f); [auto with ret|]. apply IH. lia.
Qed.

Lemma getComposeProjectName_returns w l :
  length DefaultFileNames ≤ length DefaultOverrideFileNames →
  returns (getComposeProjectName DefaultFileNames DefaultOverrideFileNames yaml_name w l).
Proof.
  intros Hn. unfold getComposeProjectName. cbn zeta. ret_walk. by apply compose_files_name_returns.
Qed.

Lemma add_container_ok url_parse c w l inspect project rels ct :
  (l_Debug l = true → named ct) → is_Some (url_parse (docker_host url_hostname w)) →
  rels_ok url_parse c rels →
  ∃ rels', add_container url_hostname w l inspect project rels ct = Ret rels' ∧ rels_ok url_parse c rels'.
Proof.
  intros Hd Hu Hr. unfold add_container. destruct (in_project _ _); [|eauto].
  assert (∃ ss, service_rels w l inspect ct = Ret ss
                ∧ Forall (λ s, endpoint_ok url_parse c s.2 = true) ss) as (ss & Hss & Hok).
  { destruct (service_rels_returns w l inspect ct Hd) as [E|(env & p & ps & E)]; [by eauto|].
    rewrite E. destruct (service_of_port_returns (Image ct) (docker_host url_hostname w) env p ps)
      as [ss Hss]. exists ss. split; [done|]. by eapply service_of_port_ok. }
  unfold service_rels in Hss. rewrite Hss. cbn [mbind outcome_bind]. eexists. split; [done|].
  clear Hss. revert rels Hr. induction Hok as [|s ss Hs Hok IH]; intros rels Hr; simpl; [done|].
  apply IH. destruct (service_name ct); [|done]. by apply rel_append_ok.
Qed.

(** Only [DockerEnv] may change, and it tells whether services were found. *)
Lemma docker_rels_local api w l l' rels :
  docker_rels api w l = Ret (l', rels) →
  l' = mkLocal (l_Dir l) (l_Debug l) (l_Tunnel l) (l_TunnelEnv l)
         (l_DockerEnv l || bool_decide (rels ≠ [])).
Proof.
  assert (Hnil : l = mkLocal (l_Dir l) (l_Debug l) (l_Tunnel l) (l_TunnelEnv l)
                       (l_DockerEnv l || bool_decide (([] : Relationships) ≠ []))).
  { rewrite bool_decide_eq_false_2 by tauto. rewrite orb_false_r. by destruct l. }
  unfold docker_rels, RelationshipsFromDocker. intros (project & _ & Hr)%bind_inv.
  destruct (bool_decide (project = "")); [by injection Hr as <- <-|].
  destruct (_ ≫= _) as [host|]; [|by injection Hr as <- <-].
  destruct (ContainerList api host) as [cs|]; [|by injection Hr as <- <-].
  apply bind_inv in Hr as (r & _ & Hr). injection Hr as <- <-.
  destruct (bool_decide (r ≠ [])); rewrite ?orb_true_r, ?orb_false_r; [done|by destruct l].
Qed.

(** C5: collecting the Docker services does not panic when the Compose library
    names as many override files as files and, for the debug messages, the
    containers have names; the receiver records whether there are any, and, when
    the host of Docker can be read as a URL, the endpoints, visited in any order,
    are extracted without a panic whatever the language. *)
Theorem docker_relationships_extract api w l url_parse url_build fmt_s c :
  length DefaultFileNames ≤ length DefaultOverrideFileNames →
  (l_Debug l = true → ∀ host cs, ContainerList api host = Some cs → Forall named cs) →
  is_Some (url_parse (docker_host url_hostname w)) →
  ∃ rels, docker_rels api w l
          = Ret (mkLocal (l_Dir l) (l_Debug l) (l_Tunnel l) (l_TunnelEnv l)
                   (l_DockerEnv l || bool_decide (rels ≠ [])), rels) ∧
    ∀ rels', rels' ≡ₚ rels → returns (extract_rels url_parse url_build fmt_s c rels' ∅).
Proof.
  intros Hn Hd Hu. unfold docker_rels, RelationshipsFromDocker.
  assert (Hnil : l = mkLocal (l_Dir l) (l_Debug l) (l_Tunnel l) (l_TunnelEnv l)
                       (l_DockerEnv l || bool_decide (([] : Relationships) ≠ []))).
  { rewrite bool_decide_eq_false_2 by tauto. rewrite orb_false_r. by destruct l. }
  assert (Hex : ∀ rels : Relationships, rels_ok url_parse c rels → ∀ rels', rels' ≡ₚ rels →
            returns (extract_rels url_parse url_build fmt_s c rels' ∅)).
  { intros rels Hr rels' Hp. apply extract_rels_ok. unfold rels_ok in Hr. by rewrite Hp. }
  destruct (getComposeProjectName_returns w l Hn) as [project ->]. rewrite bind_Ret.
  destruct (bool_decide (project = ""));
    [exists []; rewrite <-Hnil; split; [done|by apply Hex, Forall_nil]|].
  destruct (_ ≫= _) as [host|]; [|exists []; rewrite <-Hnil; split; [done|by apply Hex, Forall_nil]].
  destruct (ContainerList api host) as [cs|] eqn:Ecs;
    [|exists []; rewrite <-Hnil; split; [done|by apply Hex, Forall_nil]].
  destruct (foldM_inv (rels_ok url_parse c)
              (add_container url_hostname w l (ContainerInspect api host) project) cs [])
    as (rels & -> & Hr); [by apply Forall_nil| |].
  { intros rels ct Hr Hct. apply add_container_ok; [|done..]. intros Hdb. specialize (Hd Hdb _ _ Ecs).
    rewrite Forall_forall in Hd. by apply Hd. }
  rewrite bind_Ret. exists rels. split; [|by apply Hex].
  destruct (bool_decide (rels ≠ [])); cbn [orb]; rewrite ?orb_true_r, ?orb_false_r; [done|by destruct l].
Qed.

(** ** Which port names the service *)

Lemma sort_ports_unique (PS1 PS2 : PortSort) l1 l2 :
  (∀ p q, p ∈ l1 → q ∈ l1 → PrivatePort p = PrivatePort q → p = q) → l1 ≡ₚ l2 →
  @sort_ports PS1 l1 = @sort_ports PS2 l2.
Proof.
  intros Hu Hp.
  apply (StronglySorted_unique_strong port_le).
  - intros p q Hpi Hqi Hpq Hqp. rewrite (@sort_ports_perm PS1) in Hpi. rewrite (@sort_ports_perm PS2), <-Hp in Hqi.
    apply Hu; [done..|]. unfold port_le in *. lia.
  - apply Sorted_StronglySorted, sort_ports_sorted. intros p q r. unfold port_le. lia.
  - apply Sorted_StronglySorted, sort_ports_sorted. intros p q r. unfold port_le. lia.
  - by rewrite (@sort_ports_perm PS1), (@sort_ports_perm PS2).
Qed.

(** Which services a container exposes depends neither on the order in
    which Docker lists its ports nor on how [sort.Sort] orders equal
    elements, as long as exposed ports with the same private port agree (as
    the IPv4 and IPv6 bindings of a port do). *)
Theorem dockerServiceToRelationship_order (PS1 PS2 : PortSort) w l inspect ct ports :
  Ports ct ≡ₚ ports →
  (∀ p q, p ∈ Ports ct → q ∈ Ports ct → PublicPort p ≠ 0%Z → PublicPort q ≠ 0%Z →
          PrivatePort p = PrivatePort q → p = q) →
  @dockerServiceToRelationship url_hostname PS1 w l inspect ct
  = @dockerServiceToRelationship url_hostname PS2 w l inspect
      (mkContainer (ID ct) (Names ct) (Image ct) (Labels ct) ports).
Proof.
  intros Hp Hu. unfold dockerServiceToRelationship. cbn [ID Names Image Labels Ports].
  destruct (bool_decide (ParseBool _ = _)); [done|].
  set (f := λ p, PublicPort p ≠ 0%Z).
  assert (Hf : filter f (Ports ct) ≡ₚ filter f ports) by (by rewrite Hp).
  assert (Hs : @sort_ports PS1 (filter f (Ports ct)) = @sort_ports PS2 (filter f ports)).
  { apply sort_ports_unique; [|done]. intros p q [??]%list_elem_of_filter [??]%list_elem_of_filter.
    by apply Hu. }
  assert (Hb : bool_decide (Ports ct ≠ []) = bool_decide (ports ≠ [])).
  { apply bool_decide_ext. split; intros Hx Hy; apply Hx; rewrite Hy in Hp;
      [by apply Permutation_nil_r|by apply Permutation_nil_r]. }
  rewrite Hb. destruct (filter f (Ports ct)) as [|p1 l1] eqn:E1, (filter f ports) as [|p2 l2] eqn:E2.
  - done.
  - by apply Permutation_nil_cons in Hf.
  - by symmetry in Hf; apply Permutation_nil_cons in Hf.
  - destruct (inspect (ID ct)); [|done]. by rewrite Hs.
Qed.

(** ** The Compose directory *)

(** C40: without [COMPOSE_FILE], the Compose directory is the nearest
    ancestor of the project directory (itself included) that has a Compose
    file; the search always ends, and when it yields nothing no ancestor has
    one (the walk of a relative path stops before ["."]). *)
Theorem getComposeDir_nearest w l :
  Getenv w "COMPOSE_FILE" = "" →
  let has dir := existsb (λ f, exists_ w (fjoin [dir; f])) DefaultFileNames in
  (∃ n, getComposeDir DefaultFileNames w l = Nat.iter n Dir (l_Dir l) ∧
        has (Nat.iter n Dir (l_Dir l)) = true ∧ ∀ m, m < n → has (Nat.iter m Dir (l_Dir l)) = false) ∨
  (getComposeDir DefaultFileNames w l = "" ∧
   ∀ n, has (Nat.iter n Dir (l_Dir l)) = false ∨ n ≠ 0 ∧ Nat.iter n Dir (l_Dir l) = ".").
Proof.
  intros He has. unfold getComposeDir. rewrite He, bool_decide_eq_false_2 by auto.
  assert (Htest : ∀ d, compose_dir_test DefaultFileNames w d = if has d then Some d else None) by done.
  destruct (walkUp true (compose_dir_test DefaultFileNames w) (l_Dir l)) as [d|] eqn:E; simpl.
  - left. apply walkUp_Some in E as (n & Hn & Hm). rewrite Htest in Hn.
    destruct (has (Nat.iter n Dir (l_Dir l))) eqn:Eh; [|done]. injection Hn as <-.
    exists n. split_and!; [done|done|]. intros m Hlt. specialize (Hm m Hlt). rewrite Htest in Hm.
    by destruct (has (Nat.iter m Dir (l_Dir l))).
  - right. split; [done|]. intros n. destruct (walkUp_None _ _ _ E n) as [Hn|(_ & ? & ?)]; [|by right].
    rewrite Htest in Hn. left. by destruct (has (Nat.iter n Dir (l_Dir l))).
Qed.
End docker_facts.

(** ** Credentials of a MySQL container *)

Lemma getEnvValue_eq key v : getEnvValue (key +:+ "=" +:+ v) key = Ret v.
Proof.
  rewrite getEnvValue_spec by apply HasPrefix_app. f_equal.
  change ("=" +:+ v) with (String "=" "" +:+ v). rewrite <-sapp_assoc.
  replace (slen key + 1) with (slen (key +:+ "=")) by (rewrite slen_app; done). apply sdrop_app.
Qed.

Lemma mysql_root_step s r :
  password s = "" →
  mysql_step "MYSQL" s ("MYSQL_ROOT_PASSWORD=" +:+ r) = Ret (set_username (set_password s r) "root").
Proof.
  intros Hp. unfold mysql_step. rewrite Hp.
  change ("MYSQL_ROOT_PASSWORD=" +:+ r) with (("MYSQL" +:+ "_ROOT_PASSWORD") +:+ "=" +:+ r).
  by rewrite HasPrefix_app, getEnvValue_eq.
Qed.

Lemma mysql_user_step s u : mysql_step "MYSQL" s ("MYSQL_USER=" +:+ u) = Ret (set_username s u).
Proof.
  pose proof (getEnvValue_eq "MYSQL_USER" u) as Hv. unfold mysql_step.
  change ("MYSQL" +:+ "_USER") with "MYSQL_USER".
  change ("MYSQL_USER=" +:+ u) with ("MYSQL_USER" +:+ "=" +:+ u).
  cbn -[getEnvValue String.append]. by rewrite Hv.
Qed.

Lemma mysql_password_step s p : mysql_step "MYSQL" s ("MYSQL_PASSWORD=" +:+ p) = Ret (set_password s p).
Proof.
  pose proof (getEnvValue_eq "MYSQL_PASSWORD" p) as Hv. unfold mysql_step.
  change ("MYSQL" +:+ "_PASSWORD") with "MYSQL_PASSWORD".
  change ("MYSQL_PASSWORD=" +:+ p) with ("MYSQL_PASSWORD" +:+ "=" +:+ p).
  cbn -[getEnvValue String.append]. by rewrite Hv.
Qed.

Lemma mariadb_step s k v : HasPrefix k "MYSQL_" = true → mysql_step "MARIADB" s (k +:+ v) = Ret s.
Proof. intros [r ->]%HasPrefix_spec. rewrite sapp_assoc. reflexivity. Qed.

(** The user name of a MySQL container depends on the order of its
    variables.  With the root password first, the ordinary user is found with
    its own password; with the user name before the root password, [root] is
    paired with the password of the ordinary user. *)
Theorem mysql_creds_order u r p :
  mysql_creds ["MYSQL_ROOT_PASSWORD=" +:+ r; "MYSQL_USER=" +:+ u; "MYSQL_PASSWORD=" +:+ p]
    = Ret (mkCreds u p u "") ∧
  mysql_creds ["MYSQL_USER=" +:+ u; "MYSQL_ROOT_PASSWORD=" +:+ r; "MYSQL_PASSWORD=" +:+ p]
    = Ret (mkCreds "root" p "root" "").
Proof.
  unfold mysql_creds. split; cbn [foldM].
  - rewrite mysql_root_step, bind_Ret, mysql_user_step, bind_Ret, mysql_password_step, !bind_Ret by done.
    by rewrite !mariadb_step by done.
  - rewrite mysql_user_step, bind_Ret, mysql_root_step, bind_Ret, mysql_password_step, !bind_Ret by done.
    by rewrite !mariadb_step by done.
Qed.

(** ** A concrete project *)

Definition ex_files : list string :=
  ["compose.yaml"; "compose.yml"; "docker-compose.yml"; "docker-compose.yaml"].
Definition ex_overrides : list string :=
  ["compose.override.yml"; "compose.override.yaml"; "docker-compose.override.yml";
   "docker-compose.override.yaml"].
Definition ex_container : Container :=
  mkContainer "c1" ["/app-db-1"] "postgres:15"
    (list_to_map [("com.docker.compose.project", "app"); ("com.docker.compose.service", "database")])
    [mkPort 8080 0; mkPort 9000 40001; mkPort 5432 40000; mkPort 5432 40000].
Definition ex_api : docker_api :=
  {| from_env := Some "tcp://docker:2375"; with_host _ := true;
     ContainerList _ := Some [ex_container];
     ContainerInspect _ _ := Some ["POSTGRES_USER=main"; "POSTGRES_PASSWORD=secret"; "PG_VERSION=15.2"] |}.
Definition ex_docker_os : os :=
  table_os (list_to_map [("DOCKER_HOST", "tcp://docker:2375")])
    (list_to_map [("/srv/app/compose.yaml", Some "")]) "/srv/app" "/root/.symfony5".
Definition ex_local : Local := mkLocal "/srv/app/src" true "" false false.

Lemma docker_relationships_extract_witness :
  ∃ rels, RelationshipsFromDocker (λ _, Some "docker") ex_files ex_overrides (λ _, None) (Some "/root")
            ex_api ex_docker_os ex_local
          = Ret (mkLocal "/srv/app/src" true "" false (bool_decide (rels ≠ [])), rels) ∧
    ∀ rels', rels' ≡ₚ rels → returns (extract_rels no_url_parse no_url_build no_fmt ex_ctx rels' ∅).
Proof.
  apply (docker_relationships_extract (λ _, Some "docker") ex_files ex_overrides (λ _, None)
           (Some "/root") ex_api ex_docker_os ex_local no_url_parse no_url_build no_fmt ex_ctx).
  - simpl. lia.
  - intros _ host cs [= <-]. constructor; [|constructor]. by exists "/"%char, "app-db-1", [].
  - eexists. reflexivity.
Defined.

(** Without a name the debug message about a container panics. *)
Example debug_unnamed :
  dockerServiceToRelationship (λ _, Some "docker") ex_docker_os ex_local (λ _, None)
    (mkContainer "c1" [] "postgres:15" ∅ [mkPort 5432 0]) = Panic.
Proof. vm_compute. reflexivity. Qed.

(** The service [database] of the project [app] of the parent directory. *)
Example ex_docker_rels :
  RelationshipsFromDocker (λ _, Some "docker") ex_files ex_overrides (λ _, None) (Some "/root")
    ex_api ex_docker_os ex_local
  = Ret (mkLocal "/srv/app/src" true "" false true,
         [("database", [database "docker" (mkPort 5432 40000) "pgsql"
                          (mkCreds "main" "secret" "main" "15.2")])]).
Proof. vm_compute. reflexivity. Qed.

Lemma dockerServiceToRelationship_order_witness :
  @dockerServiceToRelationship (λ _, Some "docker") merge_PortSort ex_docker_os ex_local
    (λ _, Some []) ex_container
  = @dockerServiceToRelationship (λ _, Some "docker") merge_PortSort ex_docker_os ex_local
      (λ _, Some []) (mkContainer (ID ex_container) (Names ex_container) (Image ex_container)
                        (Labels ex_container)
                        [mkPort 5432 40000; mkPort 9000 40001; mkPort 8080 0; mkPort 5432 40000]).
Proof.
  apply (dockerServiceToRelationship_order (λ _, Some "docker") merge_PortSort merge_PortSort).
  - apply (bool_decide_unpack _). by vm_compute.
  - intros p q Hp Hq. cbn in Hp, Hq. set_unfold in Hp. set_unfold in Hq.
    destruct_or! Hp; destruct_or! Hq; subst; cbn; intros; done.
Defined.

Lemma getComposeDir_nearest_witness :
  getComposeDir ex_files ex_docker_os ex_local = "/srv/app".
Proof.
  destruct (getComposeDir_nearest ex_files ex_docker_os ex_local eq_refl)
    as [(n & -> & Hn & Hm)|[_ Hno]].
  - destruct n as [|[|n]]; [by vm_compute in Hn|reflexivity|].
    specialize (Hm 1 ltac:(lia)). by vm_compute in Hm.
  - destruct (Hno 1) as [H|[_ H]]; by vm_compute in H.
Defined.
