(* ===== verification/Dotenv.v ===== *)
(** * Dotenv files ([envs/dotenv.go])

    [godotenv.Read] is a parameter: the variables of a file, or an error. *)

From stdpp Require Import base tactics option list gmap strings pretty.
From Stdlib Require Import ZArith Lia Ascii.
From S2P Require Import Prelude GoStrings FilePath Os.

Abbreviation vars_map := (gmap string string).

(** [for k, v := range m]: every entry once, in an order Go does not specify. *)
Class RangeOrder := {
  range : vars_map → list (string * string);
  range_perm m : range m ≡ₚ map_to_list m }.
#[export] Instance sorted_range : RangeOrder := {| range := map_to_list; range_perm _ := reflexivity _ |}.

Section dotenv.
Context (godotenv : string → option vars_map).

Definition mergeDovEnvFile (w : os) (vars : vars_map) (path : string) : vars_map :=
  if exists_ w path then
    match godotenv path with
    | Some locals => vars ∪ locals
    | None => vars
    end
  else vars.

(** The variables of [.env], or of [.env.dist] when there is no [.env]; [None]
    is the early [return nil]. *)
Definition dotenv_base (w : os) (dir : string) : option vars_map :=
  match stat w (fjoin [dir; ".env"]) with
  | Found _ => godotenv (fjoin [dir; ".env"])
  | NotExist =>
    if exists_ w (fjoin [dir; ".env.dist"]) then godotenv (fjoin [dir; ".env.dist"]) else Some ∅
  | StatErr => Some ∅
  end.

Definition dotenv_APP_ENV (w : os) (vars : vars_map) : string :=
  let env := Getenv w "APP_ENV" in
  let env := if bool_decide (env = "") then default "" (vars !! "APP_ENV") else env in
  if bool_decide (env = "") then "dev" else env.

(** A nil map reads as an empty one. *)
Definition lookupDotEnv (w : os) (dir : string) : vars_map :=
  match dotenv_base w dir with
  | None => ∅
  | Some vars =>
    let vars := <["APP_ENV" := dotenv_APP_ENV w vars]> vars in
    let vars := if bool_decide (vars !! "APP_ENV" = Some "test") then vars
                else mergeDovEnvFile w vars (fjoin [dir; ".env.local"]) in
    let vars := mergeDovEnvFile w vars
                  (fjoin [dir; ".env." +:+ default "" (vars !! "APP_ENV")]) in
    mergeDovEnvFile w vars
      (fjoin [dir; ".env." +:+ default "" (vars !! "APP_ENV") +:+ ".local"])
  end.

Definition LookupEnv (w : os) (dotEnvDir key : string) : option string :=
  match Os.LookupEnv w key with
  | Some value => Some value
  | None => lookupDotEnv w dotEnvDir !! key
  end.

Definition findDotEnvDir (w : os) (dir : string) : string :=
  default "" (walkUp false (λ d, if exists_ w (fjoin [d; ".env"]) then Some d
                                 else if exists_ w (fjoin [d; ".env.dist"]) then Some d
                                 else None) dir).

Definition load_step (vars : vars_map) (kv : string * string) : vars_map :=
  let '(k, v) := kv in
  match vars !! k with
  | Some _ => vars
  | None =>
    let vars := <[k := v]> vars in
    if bool_decide (k ≠ "APP_ENV") then
      let cur := default "" (vars !! "SYMFONY_DOTENV_VARS") in
      let cur := if bool_decide (cur ≠ "") then cur +:+ "," else cur in
      <["SYMFONY_DOTENV_VARS" := cur +:+ k]> vars
    else vars
  end.

Definition LoadDotEnv `{!RangeOrder} (w : os) (vars : vars_map) (scriptDir : string) : vars_map :=
  let dotEnvDir := findDotEnvDir w scriptDir in
  let vars := <["SYMFONY_DOTENV_VARS" := Getenv w "SYMFONY_DOTENV_VARS"]> vars in
  foldl load_step vars (range (lookupDotEnv w dotEnvDir)).
End dotenv.

(** ** Which file a variable comes from *)

Section precedence.
Context (godotenv : string → option vars_map) (w : os).

(** What a file that may be missing or invalid defines. *)
Definition file_vars (path : string) : vars_map :=
  if exists_ w path then default ∅ (godotenv path) else ∅.

Lemma mergeDovEnvFile_union vars path :
  mergeDovEnvFile godotenv w vars path = vars ∪ file_vars path.
Proof.
  unfold mergeDovEnvFile, file_vars. destruct (exists_ w path); [destruct (godotenv path)|];
    simpl; by rewrite ?(right_id ∅ (∪)).
Qed.

(** The files in the order in which they are read. *)
Definition dotenv_files (dir env : string) : list vars_map :=
  (if bool_decide (env = "test") then [] else [file_vars (fjoin [dir; ".env.local"])])
  ++ [file_vars (fjoin [dir; ".env." +:+ env]); file_vars (fjoin [dir; ".env." +:+ env +:+ ".local"])].

Fixpoint first_of (k : string) (ms : list vars_map) : option string :=
  match ms with
  | [] => None
  | m :: ms => match m !! k with Some v => Some v | None => first_of k ms end
  end.

Lemma lookup_union_first (m : vars_map) ms k :
  foldl (∪) m ms !! k = first_of k (m :: ms).
Proof.
  revert m. induction ms as [|m' ms IH]; intros m; simpl; [by destruct (m !! k)|].
  rewrite IH. simpl. rewrite lookup_union. by destruct (m !! k), (m' !! k).
Qed.

(** [.env] (or [.env.dist]) comes first, then [.env.local] unless the
    environment is [test], then [.env.$APP_ENV], then
    [.env.$APP_ENV.local]: a variable keeps the value of the first of these
    files that defines it, and [APP_ENV] is that of the process, of [.env],
    or [dev]; when [.env] cannot be read nothing is defined. *)
Theorem lookupDotEnv_precedence dir k :
  lookupDotEnv godotenv w dir !! k =
    match dotenv_base godotenv w dir with
    | None => None
    | Some vars =>
      let env := dotenv_APP_ENV w vars in
      if bool_decide (k = "APP_ENV") then Some env
      else first_of k (vars :: dotenv_files dir env)
    end.
Proof.
  unfold lookupDotEnv. destruct (dotenv_base godotenv w dir) as [vars|]; [|done]. cbn zeta.
  generalize (dotenv_APP_ENV w vars). intros env. rewrite !mergeDovEnvFile_union, lookup_insert_eq.
  set (v1 := if bool_decide (Some env = Some "test") then _ else _).
  assert (Hv1 : v1 !! "APP_ENV" = Some env).
  { unfold v1. destruct (bool_decide _); rewrite ?lookup_union, !lookup_insert_eq; [done|].
    by destruct (file_vars _ !! _). }
  assert (Hv2 : ∀ m : vars_map, (v1 ∪ m) !! "APP_ENV" = Some env).
  { intros m. rewrite lookup_union, Hv1. by destruct (m !! _). }
  rewrite Hv1, Hv2. unfold default, id.
  assert (Hfold : v1 ∪ file_vars (fjoin [dir; ".env." +:+ env])
                     ∪ file_vars (fjoin [dir; ".env." +:+ env +:+ ".local"])
                  = foldl (∪) (<["APP_ENV" := env]> vars) (dotenv_files dir env)).
  { unfold v1, dotenv_files. case_bool_decide; case_bool_decide; try congruence; done. }
  rewrite Hfold, lookup_union_first. cbn [first_of]. case_bool_decide as Hk.
  - subst k. by rewrite lookup_insert_eq.
  - by rewrite lookup_insert_ne.
Qed.
End precedence.

(** ** What is loaded *)

Lemma Join_snoc (l : list string) s sep :
  l ≠ [] → Join (l ++ [s]) sep = Join l sep +:+ sep +:+ s.
Proof.
  induction l as [|a l IH]; [done|]. intros _. destruct l as [|b l]; [done|].
  change ((a :: b :: l) ++ [s]) with (a :: b :: (l ++ [s])). rewrite !Join_cons2.
  change (b :: l ++ [s]) with ((b :: l) ++ [s]). by rewrite IH, !sapp_assoc by done.
Qed.

Lemma Join_nonempty (l : list string) sep : "" ∉ l → Join l sep = "" → l = [].
Proof.
  destruct l as [|[|c a] [|b l]]; [done|set_solver|set_solver| |]; by intros _ [=].
Qed.

Section load.
Abbreviation VARS := "SYMFONY_DOTENV_VARS".

(** The variables that are announced: the new ones but [APP_ENV]. *)
Definition announced (vars : vars_map) (k : string) : Prop :=
  k ≠ "APP_ENV" ∧ k ≠ VARS ∧ vars !! k = None.
#[global] Instance announced_dec vars k : Decision (announced vars k).
Proof. unfold announced. apply _. Defined.

Lemma load_step_spec vars0 vars k v ks :
  vars !! VARS = Some (Join ks ",") → "" ∉ ks → (k ≠ VARS → vars !! k = vars0 !! k) →
  let vars' := load_step vars (k, v) in
  vars' !! VARS = Some (Join (ks ++ (if bool_decide (announced vars0 k) then [k] else [])) ",") ∧
  ∀ k', k' ≠ VARS → vars' !! k' = match vars !! k' with
                                  | Some x => Some x
                                  | None => if bool_decide (k' = k) then Some v else None
                                  end.
Proof.
  intros Hks Hne Hk. cbn zeta. unfold load_step. destruct (decide (k = VARS)) as [->|Hkv].
  { rewrite Hks, bool_decide_eq_false_2, app_nil_r by (unfold announced; tauto).
    split; [done|]. intros k' Hk'. rewrite bool_decide_eq_false_2 by done. by destruct (vars !! k'). }
  specialize (Hk Hkv). destruct (vars !! k) as [x|] eqn:E.
  { rewrite bool_decide_eq_false_2, app_nil_r by (unfold announced; rewrite <-Hk; naive_solver).
    split; [done|]. intros k' Hk'. destruct (vars !! k') eqn:E'; [done|].
    by rewrite bool_decide_eq_false_2 by congruence. }
  assert (Hv : ∀ k', <[k:=v]> vars !! k' = match vars !! k' with
                     | Some x => Some x | None => if bool_decide (k' = k) then Some v else None end).
  { intros k'. case_bool_decide as Hd; [subst; by rewrite lookup_insert_eq, E|].
    rewrite lookup_insert_ne by done. by destruct (vars !! k'). }
  assert (Hvv : <[k:=v]> vars !! VARS = Some (Join ks ",")) by (by rewrite lookup_insert_ne).
  rewrite Hvv. destruct (decide (k = "APP_ENV")) as [->|Ha].
  { rewrite (bool_decide_eq_false_2 (announced _ _)), app_nil_r by (unfold announced; tauto).
    rewrite bool_decide_eq_false_2 by tauto. by split. }
  rewrite (bool_decide_eq_true_2 (k ≠ "APP_ENV")) by done.
  rewrite (bool_decide_eq_true_2 (announced _ _)) by done.
  rewrite lookup_insert_eq. split.
  - unfold default, id. f_equal. destruct ks as [|a ks]; [done|].
    rewrite Join_snoc by done. rewrite bool_decide_eq_true_2, sapp_assoc; [done|].
    intros Hj. by apply Join_nonempty in Hj.
  - intros k' Hk'. rewrite lookup_insert_ne by done. apply Hv.
Qed.

Lemma load_fold_spec vars0 l vars ks :
  vars !! VARS = Some (Join ks ",") → "" ∉ ks → "" ∉ l.*1 → NoDup l.*1 →
  (∀ k, k ∈ l.*1 → k ≠ VARS → vars !! k = vars0 !! k) →
  let vars' := foldl load_step vars l in
  vars' !! VARS = Some (Join (ks ++ filter (announced vars0) l.*1) ",") ∧
  ∀ k, k ≠ VARS → vars' !! k = match vars !! k with
                               | Some x => Some x
                               | None => (list_to_map l : vars_map) !! k
                               end.
Proof.
  revert vars ks. induction l as [|[k v] l IH]; intros vars ks Hks Hne Hl Hnd Hag; cbn zeta.
  { simpl. rewrite app_nil_r. split; [done|]. intros k _. by destruct (vars !! k). }
  cbn [fmap list_fmap fst] in Hl, Hnd, Hag. apply NoDup_cons in Hnd as [Hk Hnd].
  destruct (load_step_spec vars0 vars k v ks Hks Hne) as [H1 H2]; [apply Hag; by left|].
  destruct (IH (load_step vars (k, v)) _ H1) as [H3 H4]; [|set_solver|done| |].
  - case_bool_decide; set_solver.
  - intros k' Hk' Hv. rewrite H2, Hag by (set_solver || done). destruct (vars0 !! k') eqn:E; [done|].
    rewrite bool_decide_eq_false_2; [done|]. by intros ->.
  - cbn [foldl]. split.
    + rewrite H3. f_equal. f_equal. cbn [fmap list_fmap fst]. rewrite filter_cons, <-app_assoc.
      f_equal. clear. case_bool_decide; by case_decide.
    + intros k' Hk'. rewrite H4, H2 by done. destruct (vars !! k'); [done|].
      rewrite list_to_map_cons. destruct (decide (k' = k)) as [->|Hd].
      * by rewrite bool_decide_eq_true_2, lookup_insert_eq.
      * by rewrite bool_decide_eq_false_2, lookup_insert_ne.
Qed.

(** Loading the dotenv files keeps every variable that is already
    defined, adds the others, and [SYMFONY_DOTENV_VARS] lists, after what it
    held in the environment, the names of those that were added ([APP_ENV]
    excepted), each once. *)
Theorem LoadDotEnv_spec godotenv (R : RangeOrder) w vars dir :
  let dot := lookupDotEnv godotenv w (findDotEnvDir w dir) in
  let vars' := LoadDotEnv godotenv w vars dir in
  let prev := Getenv w VARS in
  dot !! "" = None →
  (∀ k, k ≠ VARS → vars' !! k = match vars !! k with Some v => Some v | None => dot !! k end) ∧
  ∃ ks, ks ≡ₚ filter (announced vars) (map_to_list dot).*1 ∧ NoDup ks ∧
        vars' !! VARS = Some (Join ((if bool_decide (prev = "") then [] else [prev]) ++ ks) ",").
Proof.
  intros dot vars' prev Hne. pose proof (range_perm dot) as Hp.
  assert (Hnd : NoDup (range dot).*1) by (rewrite Hp; apply NoDup_fst_map_to_list).
  set (pre := if bool_decide (prev = "") then [] else [prev]).
  destruct (load_fold_spec vars (range dot) (<[VARS := prev]> vars) pre) as [H1 H2].
  - rewrite lookup_insert_eq. unfold pre. case_bool_decide; [by f_equal|done].
  - unfold pre. case_bool_decide; set_solver.
  - rewrite Hp. intros ([k v] & Hk & Hin)%list_elem_of_fmap. simpl in Hk. subst k.
    apply elem_of_map_to_list in Hin. congruence.
  - done.
  - intros k _ Hk. by rewrite lookup_insert_ne.
  - split.
    + intros k Hk. unfold vars', LoadDotEnv. rewrite H2, lookup_insert_ne by done.
      rewrite (list_to_map_proper _ (map_to_list dot)), list_to_map_to_list by done. done.
    + exists (filter (announced vars) (range dot).*1). split_and!.
      * by rewrite Hp.
      * by apply NoDup_filter.
      * exact H1.
Qed.
End load.

(** ** A concrete project *)

Definition ex_dot_files : gmap string vars_map := list_to_map
  [("/app/.env", list_to_map [("APP_ENV", "dev"); ("DB", "one")]);
   ("/app/.env.local", list_to_map [("DB", "two"); ("KEY", "k")])].
Definition ex_dot_os : os :=
  table_os (list_to_map [("SYMFONY_DOTENV_VARS", "OLD")])
    ((λ _, Some "...") <$> ex_dot_files) "/app" "/root/.symfony5".

Lemma LoadDotEnv_spec_witness :
  LoadDotEnv (λ p, ex_dot_files !! p) ex_dot_os {[ "KEY" := "mine" ]} "/app/bin" !! "DB" = Some "one" ∧
  LoadDotEnv (λ p, ex_dot_files !! p) ex_dot_os {[ "KEY" := "mine" ]} "/app/bin" !! "KEY" = Some "mine" ∧
  LoadDotEnv (λ p, ex_dot_files !! p) ex_dot_os {[ "KEY" := "mine" ]} "/app/bin"
    !! "SYMFONY_DOTENV_VARS" = Some "OLD,DB".
Proof.
  destruct (LoadDotEnv_spec (λ p, ex_dot_files !! p) sorted_range ex_dot_os {[ "KEY" := "mine" ]} "/app/bin")
    as [H (ks & Hks & _ & Hv)]; [reflexivity|].
  split; [|split].
  - rewrite H by done. reflexivity.
  - rewrite H by done. reflexivity.
  - etrans; [exact Hv|]. assert (Hf : filter (announced {[ "KEY" := "mine" ]})
      (map_to_list (lookupDotEnv (λ p, ex_dot_files !! p) ex_dot_os
                      (findDotEnvDir ex_dot_os "/app/bin"))).*1 = ["DB"]) by (vm_compute; reflexivity).
    rewrite Hf in Hks. apply Permutation_singleton_r in Hks as ->. reflexivity.
Defined.
