(* ===== verification/Remote.v ===== *)
(** * The environment of a cloud container ([envs/remote.go], [envs/url.go])

    Everything is read from [PLATFORM_*] variables.  [encoding/base64], the
    JSON decoder and [net/url] are parameters; the JSON decoder is also used
    token by token, to recover the order of the routes. *)

From stdpp Require Import base tactics option list gmap strings pretty.
From Stdlib Require Import ZArith Lia Ascii.
From S2P Require Import Prelude GoStrings FilePath Os Upsun Envs.

(** ** [envs/url.go]: the routes in the order of the document *)

Record URL := mkURL { Key : string; Kind : string; To : string; Upstream : string; OriginalURL : string }.

(** [json.Token]: [Delim]s, strings, and the other scalars. *)
Inductive token :=
| TOpen (isObject : bool)
| TClose (isObject : bool)
| TString (s : string)
| TScalar.

(** [nil], the error [end], or the error of [d.Token()] (here: no token left). *)
Inductive skip_res :=
| SkipOk (d : list token)
| SkipEnd (d : list token)
| SkipErr.

(** [skipValue] and its inner [for] loop, [None] when out of fuel. *)
Fixpoint skipValue (fuel : nat) (d : list token) : option skip_res :=
  match fuel with
  | O => None
  | S fuel =>
    match d with
    | [] => Some SkipErr
    | TOpen _ :: d => skipLoop fuel d
    | TClose _ :: d => Some (SkipEnd d)
    | _ :: d => Some (SkipOk d)
    end
  end
with skipLoop (fuel : nat) (d : list token) : option skip_res :=
  match fuel with
  | O => None
  | S fuel =>
    match skipValue fuel d with
    | Some (SkipOk d) => skipLoop fuel d
    | Some (SkipEnd d) => Some (SkipOk d)
    | r => r
    end
  end.

(** Enough for any token stream. *)
Definition skip_fuel (d : list token) : nat := 2 * length d + 2.

(** The loop of [UnmarshalJSON] over the keys; [t.(string)] panics on another
    token, an error is [Ret None]. *)
Fixpoint url_keys (fuel : nat) (d : list token) : outcome (option (list string)) :=
  match fuel with
  | O => Panic
  | S fuel =>
    match d with
    | [] => Ret None
    | TClose true :: _ => Ret (Some [])
    | TString key :: d =>
      match skipValue (skip_fuel d) d with
      | Some (SkipOk d) => keys ← url_keys fuel d; Ret (option_map (cons key) keys)
      | _ => Ret None
      end
    | _ => Panic
    end
  end.

Definition set_Key (key : string) (u : URL) : URL :=
  mkURL key (Kind u) (To u) (Upstream u) (OriginalURL u).
Definition zero_URL : URL := mkURL "" "" "" "" "".

(** [v] is the document decoded as a map, [d] its tokens. *)
Definition UnmarshalJSON (v : option (gmap string URL)) (d : list token) : outcome (option (list URL)) :=
  match v with
  | None => Ret None
  | Some v =>
    match d with
    | TOpen true :: d =>
      keys ← url_keys (S (length d)) d;
      Ret (option_map (map (λ key, set_Key key (default zero_URL (v !! key)))) keys)
    | _ => Ret None
    end
  end.

(** ** [envs/remote.go] *)

(** [*url.URL]: the fields and methods that are read. *)
Record purl := mkPurl {
  u_Scheme : string; u_Host : string; u_Path : string; u_Port : string; u_String : string }.

Fixpoint rel_get (name : string) (rels : Relationships) : option (list endpoint) :=
  match rels with
  | [] => None
  | (n, es) :: rels => if bool_decide (n = name) then Some es else rel_get name rels
  end.
(** [res[name] = es] *)
Fixpoint rel_set (name : string) (es : list endpoint) (rels : Relationships) : Relationships :=
  match rels with
  | [] => [(name, es)]
  | (n, es') :: rels =>
    if bool_decide (n = name) then (n, es) :: rels else (n, es') :: rel_set name es rels
  end.

Definition is_amqp (e : endpoint) : bool := is_str (eget e "scheme") "amqp".
Definition companion (e : endpoint) : endpoint :=
  <["scheme" := VString "http"]> (<["port" := VString "15672"]> e).

(** The body of the inner loop of [Relationships], which changes [name]. *)
Definition amqp_step (st : string * Relationships) (e : endpoint) : string * Relationships :=
  let '(name, res) := st in
  if is_amqp e then
    let name := name +:+ "-management" in
    (name, rel_set name [companion e] res)
  else st.
Definition amqp_rel (res : Relationships) (name : string) : Relationships :=
  (foldl amqp_step (name, res) (default [] (rel_get name res))).2.

Section remote.
Context (base64 : string → option string)
        (json_rels : string → option Relationships)
        (json_routes : string → option (gmap string URL)) (json_tokens : string → list token)
        (parse_url : string → option purl)
        (json_type : string → option string).

(** [Remote], with the system it reads. *)
Record Remote := mkRemote { r_os : os; r_Debug : bool }.

Definition remote_Path (r : Remote) : string :=
  let dir := Getenv (r_os r) "PLATFORM_APP_DIR" in
  if bool_decide (dir ≠ "") then dir else "/app".

(** The decoded map, in the order of the iteration; the entries added on the
    way hold no AMQP endpoint, so that visiting them or not is the same. *)
Definition remote_Relationships (r : Remote) : Relationships :=
  match LookupEnv (r_os r) "PLATFORM_RELATIONSHIPS" with
  | None => []
  | Some relationships =>
    match base64 relationships ≫= json_rels with
    | None => []
    | Some res => foldl amqp_rel res res.*1
    end
  end.

Definition remote_Mailer (r : Remote) : Envs :=
  if isMailerDefined (r_os r) then {[ "MAILER_ENABLED" := "1" ]} else
  let v : Envs := list_to_map [("MAILER_ENABLED", "1"); ("MAILER_PORT", "25");
                               ("MAILER_TRANSPORT", "smtp"); ("MAILER_AUTH_MODE", "plain");
                               ("MAILER_USER", ""); ("MAILER_PASSWORD", "")] in
  let host := Getenv (r_os r) "PLATFORM_SMTP_HOST" in
  if bool_decide (host = "") then
    puts "MAILER_" [("ENABLED", "0"); ("URL", "null://localhost"); ("DSN", "null://localhost");
                    ("HOST", "localhost")] v
  else
    let host := TrimSuffix host (":" +:+ "25") in
    let url := "smtp://" +:+ host +:+ ":" +:+ "25" +:+ "?verify_peer=0" in
    puts "MAILER_" [("URL", url); ("DSN", url); ("HOST", host)] v.

(** The application, without the name of a worker. *)
Definition application_name (w : os) : string :=
  let application := Getenv w "PLATFORM_APPLICATION_NAME" in
  match Index application "--" with
  | Some index => stake index application
  | None => application
  end.

(** [PLATFORM_ROUTES], [Ret None] when it cannot be decoded. *)
Definition platform_routes (w : os) : outcome (option (list URL)) :=
  match base64 (Getenv w "PLATFORM_ROUTES") with
  | None => Ret None
  | Some data => UnmarshalJSON (json_routes data) (json_tokens data)
  end.

(** The filtering pass: upstream routes with a valid URL. *)
Definition possible_urls (keep : URL → bool) (urls : list URL) : list (URL * purl) :=
  omap (λ v, if bool_decide (Kind v = "upstream") && keep v then pair v <$> parse_url (Key v)
             else None) urls.

Definition route_matches : list string :=
  ["://{default}/"; "://{all}/"; "://www.{default}/"; "://www.{all}/"].

(** The nested loops: the first test that some route satisfies, and the first
    route that satisfies it. *)
Fixpoint first_match (tests : list (URL → bool)) (urls : list (URL * purl)) : option (URL * purl) :=
  match tests with
  | [] => None
  | t :: tests =>
    match List.find (λ v, t v.1) urls with
    | Some v => Some v
    | None => first_match tests urls
    end
  end.

Definition project_tests (application : string) : list (URL → bool) :=
  ((λ m v, HasSuffix (OriginalURL v) m) <$> route_matches)
  ++ ((λ m v, bool_decide (Upstream v = application) && Contains (OriginalURL v) m) <$> route_matches)
  ++ [(λ v, bool_decide (Upstream v = application))].
Definition application_tests : list (URL → bool) :=
  ((λ m v, HasSuffix (OriginalURL v) m) <$> route_matches)
  ++ ((λ m v, Contains (OriginalURL v) m) <$> route_matches).

(** [None] is [nil]. *)
Definition extractProjectDefaultUrl (r : Remote) : outcome (option purl) :=
  let application := application_name (r_os r) in
  urls ← platform_routes (r_os r);
  Ret (urls ← urls;
       let possibleUrls := possible_urls (λ _, true) urls in
       match first_match (project_tests application) possibleUrls with
       | Some v => Some v.2
       | None => snd <$> head possibleUrls
       end).

Definition extractApplicationDefaultUrl (r : Remote) : outcome (option purl) :=
  let application := application_name (r_os r) in
  urls ← platform_routes (r_os r);
  Ret (urls ← urls;
       let possibleUrls := possible_urls (λ v, bool_decide (Upstream v = application)) urls in
       match first_match application_tests possibleUrls with
       | Some v => Some v.2
       | None => snd <$> head possibleUrls
       end).

Definition route_vars (u : purl) : list (string * string) :=
  let port := if bool_decide (u_Port u = "") then
                if bool_decide (u_Scheme u = "https") then "443" else "80"
              else u_Port u in
  [("URL", u_String u); ("HOST", u_Host u); ("SCHEME", u_Scheme u); ("PATH", u_Path u); ("PORT", port)].

(** [APP_x] and [SYMFONY_x]: the one that is defined defines the other. *)
Definition app_var (w : os) (name dflt : string) (v : Envs) : Envs :=
  match LookupEnv w ("APP_" +:+ name), LookupEnv w ("SYMFONY_" +:+ name) with
  | Some x, _ => <["SYMFONY_" +:+ name := x]> v
  | None, Some x => <["APP_" +:+ name := x]> v
  | None, None => <["SYMFONY_" +:+ name := dflt]> (<["APP_" +:+ name := dflt]> v)
  end.

Definition mail_from (w : os) (v : Envs) : Envs :=
  match LookupEnv w "MAILFROM" with
  | Some _ => v
  | None =>
    let from := Getenv w "PLATFORM_PROJECT" in
    if bool_decide (from = "") then v else
    let branch := Getenv w "PLATFORM_BRANCH" in
    let env := Getenv w "PLATFORM_ENVIRONMENT" in
    let from := if bool_decide (branch ≠ "master") then from +:+ "+" +:+ branch
                else if negb (HasPrefix env "master-") then from +:+ "+" +:+ env
                else from in
    <["MAILFROM" := from +:+ "@cron.noreply.s5y.io"]> v
  end.

Definition remote_Extra (r : Remote) : outcome Envs :=
  let w := r_os r in
  let v := app_var w "DEBUG" "0" (app_var w "ENV" "prod" ∅) in
  let v := match LookupEnv w "APP_SECRET", LookupEnv w "PLATFORM_PROJECT_ENTROPY" with
           | None, Some entropy => <["APP_SECRET" := entropy]> v
           | _, _ => v
           end in
  project ← extractProjectDefaultUrl r;
  let v := match project with
           | Some u =>
             <["DEFAULT_URI" := u_String u]>
               (puts "SYMFONY_DEFAULT_ROUTE_" (route_vars u)
                  (puts "SYMFONY_PROJECT_DEFAULT_ROUTE_" (route_vars u) v))
           | None => v
           end in
  app ← extractApplicationDefaultUrl r;
  let v := match app with
           | Some u => puts "SYMFONY_APPLICATION_DEFAULT_ROUTE_" (route_vars u) v
           | None => v
           end in
  let v := match LookupEnv w "PLATFORM_APPLICATION_NAME" with
           | Some application =>
             <["SYMFONY_IS_WORKER" := if Contains application "--" then "1" else "0"]> v
           | None => v
           end in
  Ret (mail_from w v).

Definition remote_Language (r : Remote) : string :=
  match base64 (Getenv (r_os r) "PLATFORM_APPLICATION") ≫= json_type with
  | None => "php"
  | Some ty => default "" (head (Split ty ":"))
  end.

#[local] Instance remote_environment : Environment Remote := {
  env_Path := remote_Path; env_Mailer := remote_Mailer; env_Language := remote_Language;
  env_Relationships r := Ret (r, remote_Relationships r); env_Extra := remote_Extra;
  env_Local _ := false }.
End remote.

(** ** The order of the routes *)

(** JSON documents and their tokens. *)
#[warning="-register-all"]
Inductive json :=
| JScalar
| JString (s : string)
| JArray (l : list json)
| JObject (l : list (string * json)).

Fixpoint tokens (j : json) : list token :=
  match j with
  | JScalar => [TScalar]
  | JString s => [TString s]
  | JArray l => TOpen false :: flat_map tokens l ++ [TClose false]
  | JObject l => TOpen true :: flat_map (λ kv, TString kv.1 :: tokens kv.2) l ++ [TClose true]
  end.

Section json_ind.
Context (P : json → Prop)
        (Hscalar : P JScalar) (Hstring : ∀ s, P (JString s))
        (Harray : ∀ l, Forall P l → P (JArray l))
        (Hobject : ∀ l, Forall (λ kv : string * json, P kv.2) l → P (JObject l)).

Fixpoint json_ind' (j : json) : P j :=
  match j with
  | JScalar => Hscalar
  | JString s => Hstring s
  | JArray l => Harray l ((fix go l := match l return Forall P l with
                                       | [] => List.Forall_nil _
                                       | j :: l => List.Forall_cons _ _ _ (json_ind' j) (go l)
                                       end) l)
  | JObject l => Hobject l ((fix go l := match l return Forall (λ kv, P kv.2) l with
                                         | [] => List.Forall_nil _
                                         | kv :: l => List.Forall_cons _ _ _ (json_ind' kv.2) (go l)
                                         end) l)
  end.
End json_ind.

(** More fuel does not change the result. *)
Lemma skip_mono fuel :
  (∀ fuel' d r, fuel ≤ fuel' → skipValue fuel d = Some r → skipValue fuel' d = Some r) ∧
  (∀ fuel' d r, fuel ≤ fuel' → skipLoop fuel d = Some r → skipLoop fuel' d = Some r).
Proof.
  induction fuel as [|fuel [IHv IHl]]; split; intros fuel' d r Hle; try done;
    (destruct fuel' as [|fuel']; [lia|]); cbn [skipValue skipLoop].
  - destruct d as [|[] d]; try done. apply IHl. lia.
  - destruct (skipValue fuel d) as [[d'|d'|]|] eqn:E; try done;
      rewrite (IHv fuel' d _ ltac:(lia) E); try done. apply IHl. lia.
Qed.

(** Skipping consumes at least one token, and the fuel is enough. *)
Lemma skip_total n :
  (∀ d fuel, length d ≤ n → 2 * length d + 1 ≤ fuel →
     ∃ r, skipValue fuel d = Some r ∧
          match r with SkipOk d' | SkipEnd d' => length d' < length d | SkipErr => True end) ∧
  (∀ d fuel, length d ≤ n → 2 * length d + 2 ≤ fuel →
     ∃ r, skipLoop fuel d = Some r ∧
          match r with SkipOk d' => length d' < length d | SkipEnd _ => False | SkipErr => True end).
Proof.
  induction n as [|n [IHv IHl]].
  { split; intros [|t d] fuel Hn Hf; simpl in Hn; try lia.
    - destruct fuel; simpl in *; [lia|by eexists].
    - destruct fuel as [|[|fuel]]; simpl in *; [lia..|by eexists]. }
  assert (Hv : ∀ d fuel, length d ≤ S n → 2 * length d + 1 ≤ fuel →
     ∃ r, skipValue fuel d = Some r ∧
          match r with SkipOk d' | SkipEnd d' => length d' < length d | SkipErr => True end).
  { intros [|t d] [|fuel] Hn Hf; simpl in *; try lia; [by eexists|].
    destruct t; [|eexists; split; [done|simpl; lia]..].
    destruct (IHl d fuel) as (r & -> & Hr); [lia..|]. exists r. split; [done|]. destruct r; lia || done. }
  split; [done|]. intros d [|fuel] Hn Hf; [lia|]. cbn [skipLoop].
  destruct (Hv d fuel) as (r & -> & Hr); [lia..|]. destruct r as [d'|d'|]; [|by eexists..].
  destruct (IHl d' fuel) as (r & -> & Hr'); [lia..|]. exists r. split; [done|]. destruct r; lia || done.
Qed.

Lemma skipValue_fuel fuel d r : skipValue fuel d = Some r → skipValue (skip_fuel d) d = Some r.
Proof.
  intros H. destruct (proj1 (skip_total (length d)) d (skip_fuel d)) as (r' & Hr' & _);
    [done|unfold skip_fuel; lia|].
  destruct (decide (fuel ≤ skip_fuel d)) as [Hle|Hle].
  - by apply (proj1 (skip_mono fuel) _ _ _ Hle).
  - rewrite Hr', <-H. symmetry. apply (proj1 (skip_mono (skip_fuel d))); [lia|done].
Qed.

(** [ts] is skipped as one value. *)
Definition skips (ts : list token) : Prop :=
  ∀ rest, ∃ fuel, skipValue fuel (ts ++ rest) = Some (SkipOk rest).

Lemma skipLoop_pieces b tss rest :
  Forall skips tss → ∃ fuel, skipLoop fuel (concat tss ++ TClose b :: rest) = Some (SkipOk rest).
Proof.
  induction 1 as [|ts tss Hts H [f2 IH]]; simpl; [by exists 2|].
  destruct (Hts (concat tss ++ TClose b :: rest)) as [f1 Hf1]. rewrite <-app_assoc.
  exists (S (f1 `max` f2)). cbn [skipLoop].
  rewrite (proj1 (skip_mono f1) _ _ _ (Nat.le_max_l f1 f2) Hf1).
  apply (proj2 (skip_mono f2)); [lia|done].
Qed.

Lemma skips_open b b' tss : Forall skips tss → skips (TOpen b :: concat tss ++ [TClose b']).
Proof.
  intros H rest. rewrite <-app_comm_cons, <-app_assoc.
  destruct (skipLoop_pieces b' tss rest H) as [f Hf]. by exists (S f).
Qed.

Lemma flat_map_concat {A} (f : A → list token) l : flat_map f l = concat (f <$> l).
Proof. induction l as [|a l IH]; [done|]. cbn [flat_map]. by rewrite IH. Qed.

Lemma flat_map_pairs (l : list (string * json)) :
  flat_map (λ kv, TString kv.1 :: tokens kv.2) l
  = concat (flat_map (λ kv, [[TString kv.1]; tokens kv.2]) l).
Proof. induction l as [|kv l IH]; simpl; [done|]. by rewrite IH. Qed.

Lemma tokens_skips j : skips (tokens j).
Proof.
  induction j as [|s|l IH|l IH] using json_ind'.
  - intros rest. by exists 1.
  - intros rest. by exists 1.
  - cbn [tokens]. rewrite flat_map_concat. apply skips_open, Forall_fmap. done.
  - cbn [tokens]. rewrite flat_map_pairs. apply skips_open.
    induction IH as [|kv l Hkv IH]; simpl; [done|]. repeat constructor; [|done|done].
    intros rest. by exists 1.
Qed.

Lemma url_keys_object (l : list (string * json)) rest fuel :
  length l < fuel →
  url_keys fuel (flat_map (λ kv, TString kv.1 :: tokens kv.2) l ++ TClose true :: rest)
  = Ret (Some l.*1).
Proof.
  revert fuel. induction l as [|[k v] l IH]; intros [|fuel] Hf; simpl in Hf; try lia; [done|].
  cbn [flat_map fst snd]. rewrite <-app_assoc, <-app_comm_cons. cbn [url_keys].
  destruct (tokens_skips v (flat_map (λ kv, TString kv.1 :: tokens kv.2) l ++ TClose true :: rest))
    as [f Hs%skipValue_fuel]. rewrite Hs, IH by lia. done.
Qed.

(** The routes are decoded in the order in which the document lists them,
    each under its own key, however deeply nested their values are; in
    particular [skipValue] always ends. *)
Theorem UnmarshalJSON_order (v : gmap string URL) (l : list (string * json)) :
  UnmarshalJSON (Some v) (tokens (JObject l))
  = Ret (Some ((λ kv, set_Key kv.1 (default zero_URL (v !! kv.1))) <$> l)).
Proof.
  cbn [tokens UnmarshalJSON]. rewrite url_keys_object.
  - cbn [mbind outcome_bind option_map]. do 2 f_equal. apply List.map_map.
  - rewrite length_app. simpl. induction l as [|kv l IH]; simpl; [lia|]. rewrite length_app. lia.
Qed.

(** ** The default route *)

(** How good a route is: the first test it satisfies. *)
Fixpoint rank (tests : list (URL → bool)) (v : URL) : nat :=
  match tests with
  | [] => 0
  | t :: tests => if t v then 0 else S (rank tests v)
  end.

(** The route at index [i] is the best one, and the first of the best. *)
Definition best (tests : list (URL → bool)) (urls : list (URL * purl)) (i : nat) (v : URL * purl) : Prop :=
  urls !! i = Some v ∧
  ∀ j w, urls !! j = Some w → rank tests v.1 ≤ rank tests w.1 ∧ (rank tests w.1 = rank tests v.1 → i ≤ j).

Lemma find_first {A} (f : A → bool) l x :
  List.find f l = Some x → ∃ i, l !! i = Some x ∧ f x = true ∧ ∀ j y, l !! j = Some y → j < i → f y = false.
Proof.
  induction l as [|a l IH]; simpl; [done|]. destruct (f a) eqn:E.
  - intros [= ->]. exists 0. split_and!; [done..|]. lia.
  - intros (i & Hi & Hf & Hj)%IH. exists (S i). split_and!; [done..|].
    intros [|j] y Hy Hlt; simplify_eq/=; [done|]. apply (Hj j); [done|lia].
Qed.

Lemma first_match_best tests urls v :
  match first_match tests urls with Some v => Some v | None => head urls end = Some v →
  ∃ i, best tests urls i v.
Proof.
  induction tests as [|t tests IH]; cbn [first_match].
  { destruct urls as [|u urls]; [done|]. intros [= ->]. exists 0. split; [done|]. simpl. lia. }
  destruct (List.find _ urls) as [u|] eqn:E.
  - intros [= ->]. apply find_first in E as (i & Hi & Ht & Hj). exists i. split; [done|].
    intros j w Hw. simpl. rewrite Ht. split; [lia|]. intros Hr. destruct (decide (i ≤ j)); [done|].
    rewrite (Hj j w) in Hr; [lia|done|lia].
  - intros (i & Hi & Hbest)%IH. exists i. split; [done|]. intros j w Hw. simpl.
    assert (Hnot : ∀ k x, urls !! k = Some x → t x.1 = false).
    { intros k x Hx%list_elem_of_lookup_2. apply (List.find_none _ _ E x). by apply list_elem_of_In. }
    rewrite (Hnot i v Hi), (Hnot j w Hw). destruct (Hbest j w Hw). split; [lia|]. intros. lia.
Qed.

Lemma first_match_some tests (u : URL * purl) urls :
  ∃ v, match first_match tests (u :: urls) with Some v => Some v | None => head (u :: urls) end = Some v.
Proof. destruct (first_match _ _); eauto. Qed.

Section default_url.
Context (base64 : string → option string)
        (json_routes : string → option (gmap string URL)) (json_tokens : string → list token)
        (parse_url : string → option purl).
Let project_url := extractProjectDefaultUrl base64 json_routes json_tokens parse_url.
Let application_url := extractApplicationDefaultUrl base64 json_routes json_tokens parse_url.

(** When the routes can be decoded, the default URL of the project is
    that of the best upstream route with a valid URL: a main route
    ([{default}], [{all}] and their [www.] variants, in this order), then a
    sub-path of such a route served by the application, then any route of
    the application, then any route; among equally good routes the first one
    of the document.  There is none only when no upstream route is valid. *)
Theorem extractProjectDefaultUrl_best r urls :
  platform_routes base64 json_routes json_tokens (r_os r) = Ret (Some urls) →
  let possible := possible_urls parse_url (λ _, true) urls in
  let tests := project_tests (application_name (r_os r)) in
  (possible = [] ∧ project_url r = Ret None) ∨
  ∃ i v, best tests possible i v ∧ project_url r = Ret (Some v.2).
Proof.
  intros Hr possible tests. unfold project_url, extractProjectDefaultUrl. rewrite Hr.
  cbn [mbind outcome_bind option_bind]. fold possible tests.
  clearbody possible. destruct possible as [|u urls']; [left|right].
  { split; [done|]. destruct (first_match tests []) eqn:E; [|done].
    exfalso. clear -E. revert E. by induction tests. }
  destruct (first_match_some tests u urls') as [v Hv].
  destruct (first_match_best _ _ _ Hv) as [i Hi]. exists i, v. split; [done|]. f_equal.
  destruct (first_match tests (u :: urls')); simpl in *; congruence.
Qed.
End default_url.

(** ** Management interfaces of AMQP services *)

Definition mgmt (k : nat) (name : string) : string := Nat.iter k (λ n, n +:+ "-management") name.

Lemma rel_get_set name es rels x :
  rel_get x (rel_set name es rels) = if bool_decide (x = name) then Some es else rel_get x rels.
Proof.
  induction rels as [|[n es'] rels IH]; simpl.
  - repeat case_bool_decide; congruence.
  - destruct (bool_decide (n = name)) eqn:E1; simpl; rewrite ?IH;
      apply bool_decide_eq_true in E1 || apply bool_decide_eq_false in E1; repeat case_bool_decide; congruence.
Qed.

Definition not_management (name : string) : Prop := HasSuffix name "-management" = false.

Lemma mgmt_suffix k name : not_management name → mgmt k name = name ∧ k = 0 ∨ ¬ not_management (mgmt k name) ∧ k ≠ 0.
Proof.
  intros H. destruct k as [|k]; [by left|right]. split; [|done].
  unfold not_management, mgmt. simpl. rewrite HasSuffix_app. done.
Qed.

Lemma mgmt_inj k1 k2 n1 n2 :
  not_management n1 → not_management n2 → mgmt k1 n1 = mgmt k2 n2 → n1 = n2 ∧ k1 = k2.
Proof.
  intros H1 H2. revert k2. induction k1 as [|k1 IH]; intros [|k2] He.
  - done.
  - destruct (mgmt_suffix (S k2) n2 H2) as [[_ ?]|[Hn _]]; [done|]. by rewrite <-He in Hn.
  - destruct (mgmt_suffix (S k1) n1 H1) as [[_ ?]|[Hn _]]; [done|]. by rewrite He in Hn.
  - apply sapp_inj_r in He. destruct (IH k2 He) as [-> ->]. done.
Qed.

(** The inner loop: the [i]-th AMQP endpoint goes under the [i+1]-th name, and
    nothing else changes. *)
Lemma amqp_fold_get name es k rels x :
  not_management name →
  let st := foldl amqp_step (mgmt k name, rels) es in
  (∀ i e, filter (λ e, is_amqp e = true) es !! i = Some e →
     rel_get (mgmt (S (k + i)) name) st.2 = Some [companion e]) ∧
  ((∀ i, i < length (filter (λ e, is_amqp e = true) es) → x ≠ mgmt (S (k + i)) name) →
     rel_get x st.2 = rel_get x rels).
Proof.
  intros Hn. revert k rels x. induction es as [|e es IH]; intros k rels x; cbn zeta; cbn [foldl]; [done|].
  rewrite filter_cons. unfold amqp_step at 2 4. destruct (is_amqp e) eqn:Ea.
  - rewrite decide_True by done. change (mgmt k name +:+ "-management") with (mgmt (S k) name).
    split.
    + intros [|i] e' He.
      * simpl in He. injection He as ->. rewrite Nat.add_0_r.
        destruct (IH (S k) (rel_set (mgmt (S k) name) [companion e'] rels) (mgmt (S k) name)) as [_ ->].
        -- by rewrite rel_get_set, bool_decide_eq_true_2.
        -- intros i _ [_ ?]%mgmt_inj; [lia|done|done].
      * destruct (IH (S k) (rel_set (mgmt (S k) name) [companion e] rels) x) as [H _].
        replace (S (k + S i)) with (S (S k + i)) by lia. by apply H.
    + intros Hx. destruct (IH (S k) (rel_set (mgmt (S k) name) [companion e] rels) x) as [_ ->].
      * rewrite rel_get_set, bool_decide_eq_false_2; [done|]. specialize (Hx 0). rewrite Nat.add_0_r in Hx.
        apply Hx. simpl. lia.
      * intros i Hi. replace (S (S k + i)) with (S (k + S i)) by lia. apply Hx. simpl. lia.
  - rewrite decide_False by congruence. apply IH.
Qed.

Lemma rel_get_In (rels : Relationships) name es :
  NoDup rels.*1 → (name, es) ∈ rels → rel_get name rels = Some es.
Proof.
  induction rels as [|[n es'] rels IH]; simpl; [by intros _ ?%elem_of_nil|].
  intros [Hn Hnd]%NoDup_cons [[= -> ->]|Hin]%elem_of_cons; [by rewrite bool_decide_eq_true_2|].
  rewrite bool_decide_eq_false_2; [by apply IH|]. intros <-. apply Hn.
  apply list_elem_of_fmap. by exists (n, es).
Qed.

(** One turn of the outer loop. *)
Lemma amqp_rel_get name rels x :
  not_management name →
  (∀ i e, filter (λ e, is_amqp e = true) (default [] (rel_get name rels)) !! i = Some e →
     rel_get (mgmt (S i) name) (amqp_rel rels name) = Some [companion e]) ∧
  ((∀ i, x ≠ mgmt (S i) name) → rel_get x (amqp_rel rels name) = rel_get x rels).
Proof.
  intros Hn. destruct (amqp_fold_get name (default [] (rel_get name rels)) 0 rels x Hn) as [H1 H2].
  split; [exact H1|]. intros Hx. apply H2. auto.
Qed.

Lemma amqp_names_get ns rels :
  NoDup ns → Forall not_management ns →
  (∀ x, (∀ n i, n ∈ ns → x ≠ mgmt (S i) n) → rel_get x (foldl amqp_rel rels ns) = rel_get x rels) ∧
  (∀ n i e, n ∈ ns → filter (λ e, is_amqp e = true) (default [] (rel_get n rels)) !! i = Some e →
     rel_get (mgmt (S i) n) (foldl amqp_rel rels ns) = Some [companion e]).
Proof.
  intros Hnd Hf. revert rels. induction Hf as [|n ns Hn Hf IH]; intros rels; cbn [foldl].
  { split; [done|]. by intros ??? ?%elem_of_nil. }
  apply NoDup_cons in Hnd as [Hni Hnd]. destruct (IH Hnd (amqp_rel rels n)) as [IH1 IH2].
  rewrite Forall_forall in Hf. split.
  - intros x Hx. rewrite IH1 by (intros; apply Hx; by right).
    apply (amqp_rel_get n rels x Hn). intros i. apply Hx. by left.
  - intros n' i e [->|Hin]%elem_of_cons He.
    + rewrite IH1; [by apply amqp_rel_get|]. intros n2 j Hn2 [-> _]%mgmt_inj; [done|done|auto].
    + apply IH2; [done|]. destruct (amqp_rel_get n rels n' Hn) as [_ ->]; [done|].
      intros j Heq. apply (mgmt_inj 0) in Heq as [_ ?]; [done|auto|done].
Qed.

Section remote_rels.
Context (base64 : string → option string) (json_rels : string → option Relationships).

(** The relationships of the cloud are kept as they are, and each AMQP
    endpoint gets a companion, on HTTP port 15672, under the name of its
    relationship followed by ["-management"] (once more for each further AMQP
    endpoint of the same relationship), whatever the order of the
    iteration.  Names are distinct and do not end in ["-management"]. *)
Theorem remote_Relationships_management r data res name es :
  LookupEnv (r_os r) "PLATFORM_RELATIONSHIPS" = Some data →
  base64 data ≫= json_rels = Some res →
  NoDup res.*1 → Forall not_management res.*1 → (name, es) ∈ res →
  rel_get name (remote_Relationships base64 json_rels r) = Some es ∧
  ∀ i e, filter (λ e, is_amqp e = true) es !! i = Some e →
    rel_get (mgmt (S i) name) (remote_Relationships base64 json_rels r) = Some [companion e].
Proof.
  intros Hd Hres Hnd Hf Hin. unfold remote_Relationships. rewrite Hd, Hres.
  destruct (amqp_names_get res.*1 res Hnd Hf) as [H1 H2].
  pose proof (rel_get_In res name es Hnd Hin) as Hget.
  assert (Hname : name ∈ res.*1) by (apply list_elem_of_fmap; by exists (name, es)).
  rewrite Forall_forall in Hf. split.
  - rewrite H1; [done|]. intros n i Hn Heq. apply (mgmt_inj 0) in Heq as [_ ?]; [done|auto|auto].
  - intros i e He. apply H2; [done|]. by rewrite Hget.
Qed.
End remote_rels.

(** ** Concrete runs *)

Definition ex_amqp : endpoint := list_to_map
  [("scheme", VString "amqp"); ("host", VString "rabbit.internal"); ("port", VFloat 5672 0);
   ("rel", VString "rabbitmq"); ("username", VString "guest"); ("password", VString "guest")].
Definition ex_remote : Remote :=
  mkRemote (table_os (list_to_map [("PLATFORM_RELATIONSHIPS", "..."); ("PLATFORM_ROUTES", "...");
                                   ("PLATFORM_APPLICATION_NAME", "app--worker")]) ∅ "/app" "/app") false.

Lemma remote_Relationships_management_witness :
  rel_get "queue" (remote_Relationships Some (λ _, Some [("queue", [ex_redis; ex_amqp])]) ex_remote)
    = Some [ex_redis; ex_amqp] ∧
  rel_get "queue-management" (remote_Relationships Some (λ _, Some [("queue", [ex_redis; ex_amqp])]) ex_remote)
    = Some [companion ex_amqp].
Proof.
  destruct (remote_Relationships_management Some (λ _, Some [("queue", [ex_redis; ex_amqp])]) ex_remote
              "..." [("queue", [ex_redis; ex_amqp])] "queue" [ex_redis; ex_amqp]) as [H1 H2].
  - reflexivity.
  - reflexivity.
  - apply NoDup_singleton.
  - by apply Forall_singleton.
  - by left.
  - split; [exact H1|]. exact (H2 0 ex_amqp eq_refl).
Defined.

Definition ex_route (original upstream : string) : URL := mkURL "" "upstream" "" upstream original.
Definition ex_routes : gmap string URL := list_to_map
  [("https://a/", ex_route "https://admin.{all}/" "app"); ("https://b/", ex_route "https://{all}/" "api");
   ("http://b/", mkURL "" "redirect" "https://b/" "" "http://{default}/")].
Definition ex_tokens : list token :=
  tokens (JObject [("https://a/", JObject [("type", JString "upstream")]); ("http://b/", JObject []);
                   ("https://b/", JObject [("cache", JArray [JScalar])])]).
Definition ex_parse (s : string) : option purl := Some (mkPurl "https" s "/" "" s).

Lemma extractProjectDefaultUrl_best_witness :
  extractProjectDefaultUrl Some (λ _, Some ex_routes) (λ _, ex_tokens) ex_parse ex_remote
    = Ret (ex_parse "https://b/").
Proof.
  edestruct (extractProjectDefaultUrl_best Some (λ _, Some ex_routes) (λ _, ex_tokens) ex_parse ex_remote)
    as [[H _]|(i & v & [Hi Hb] & ->)]; [vm_compute; reflexivity|by vm_compute in H|].
  destruct i as [|[|i]].
  - destruct (Hb 1 _ eq_refl) as [Hr _]. vm_compute in Hi. injection Hi as <-. vm_compute in Hr. lia.
  - vm_compute in Hi. by injection Hi as <-.
  - by vm_compute in Hi.
Defined.
