(* ===== verification/Pid.v ===== *)
(** * Pid files ([local/pid/pidfile.go], [local/pid/pidfile_other.go]) and the
    list of projects ([local/projects/configured.go])

    A pid file records the process that serves a directory (no arguments) or
    one of its workers.  The store is the part of the file system under the
    CLI's home directory that holds pid and log files, with the JSON of a pid
    file already decoded.  [name] (the hexadecimal SHA-1 of a string), which
    processes run and whether a signal can be sent are parameters. *)

From stdpp Require Import base tactics option list gmap strings pretty.
From Stdlib Require Import ZArith Lia Ascii.
From S2P Require Import Prelude GoStrings FilePath Os.

(** [p_Args] is [None] for a nil slice: the server or the proxy itself. *)
Record PidFile := mkPid {
  p_Dir : string; p_Watched : list string; p_Pid : Z; p_Port : Z; p_Scheme : string;
  p_Args : option (list string); p_CustomName : string; p_path : string }.

(** What a file holds: a pid file, [null], something that is not the JSON of a
    pid file (a log for instance). *)
Inductive contents :=
| CPid (p : PidFile)
| CNull
| COther.

Record store := mkStore { files : gmap string contents; alive : Z → bool }.
Definition set_files (s : store) (f : gmap string contents) : store := mkStore f (alive s).

Definition with_path (path : string) (p : PidFile) : PidFile :=
  mkPid (p_Dir p) (p_Watched p) (p_Pid p) (p_Port p) (p_Scheme p) (p_Args p) (p_CustomName p) path.

(** [isRunning] is [alive]; the pid 0 is that of no process. *)
Definition IsRunning (s : store) (p : PidFile) : bool :=
  if bool_decide (p_Pid p = 0%Z) then false else alive s (p_Pid p).

(** [None]: the error; the assignment to [p.path] panics when the file holds
    [null]. *)
Definition Load (s : store) (path : string) : outcome (option PidFile) :=
  match files s !! path with
  | Some (CPid p) => Ret (Some (with_path path p))
  | Some CNull => Panic
  | _ => Ret None
  end.

Definition WebServerName : string := "Web Server".
Definition Command (p : PidFile) : string := Join (default [] (p_Args p)) " ".
Definition PidFile_String (p : PidFile) : string :=
  if bool_decide (p_CustomName p ≠ "") then p_CustomName p
  else match p_Args p with None => WebServerName | Some _ => Command p end.
Definition ShortName (p : PidFile) : string :=
  if bool_decide (p_CustomName p ≠ "") then p_CustomName p
  else match p_Args p with
       | None | Some [] => WebServerName
       | Some (a :: _) => "Worker " +:+ a
       end.
Definition Binary (p : PidFile) : string :=
  match p_Args p with None | Some [] => "" | Some (a :: _) => a end.

(** [os.WriteFile] empties the file before it writes: it is refused when the
    directory cannot be made or the file not opened, or cut short. *)
Inductive write_result := WriteDone | WriteRefused | WriteCut.

Section pid.
(** [util.GetHomeDir()], [name], whether [kill] and [os.Remove] succeed, and what
    comes of [MkdirAll] and [WriteFile]. *)
Context (home : string) (name : string → string)
        (kill : Z → bool) (can_write : string → write_result) (can_remove : string → bool).

Definition pid_path (dir : string) (args : option (list string)) : string :=
  match args with
  | None => fjoin [home; "var"; name dir +:+ ".pid"]
  | Some args => fjoin [home; "var"; name dir; name (Join args " ") +:+ ".pid"]
  end.

Definition New (s : store) (dir : string) (args : option (list string)) : outcome PidFile :=
  let path := pid_path dir args in
  p ← Load s path;
  Ret (default (mkPid dir [] 0 0 "" args "" path) p).

Definition WorkerLogDir (p : PidFile) : string := fjoin [home; "log"; name (p_Dir p)].
Definition WorkerPidDir (p : PidFile) : string := fjoin [home; "var"; name (p_Dir p)].
Definition TempDirectory (p : PidFile) : string := fjoin [home; "php"; name (p_Dir p)].
Definition LogFile (p : PidFile) : string :=
  match p_Args p with
  | None => fjoin [home; "log"; name (p_Dir p) +:+ ".log"]
  | Some _ =>
    if bool_decide (p_CustomName p ≠ "") then fjoin [WorkerLogDir p; name (p_CustomName p) +:+ ".log"]
    else fjoin [WorkerLogDir p; name (Command p) +:+ ".log"]
  end.

(** [os.Remove] that may fail: [true] is no error, or a missing file. *)
Definition os_remove (s : store) (path : string) : store * bool :=
  match files s !! path with
  | None => (s, true)
  | Some _ => if can_remove path then (set_files s (delete path (files s)), true) else (s, false)
  end.
Definition RemovePidFile (s : store) (p : PidFile) : store * bool := os_remove s (p_path p).

(** [filepath.Glob(WorkerLogDir/*.log)] *)
Definition worker_logs (s : store) (p : PidFile) : list string :=
  filter (λ f, Dir f = WorkerLogDir p ∧ HasSuffix f ".log" = true) (map_to_list (files s)).*1.

Definition Remove (s : store) (p : PidFile) : store * bool :=
  let '(s, ok) := RemovePidFile s p in
  if ok then
    let s := (os_remove s (LogFile p)).1 in
    (foldl (λ s f, (os_remove s f).1) s (worker_logs s p), true)
  else (s, false).

(** Errors of [Write]. *)
Inductive write_err := AlreadyRunning (pid : Z) | CannotWrite | CutShort.

(** The file holds [p] without its path; what is cut short does not decode. *)
Definition write_file (s : store) (p : PidFile) : store * option write_err :=
  match can_write (p_path p) with
  | WriteDone => (set_files s (<[p_path p := CPid (with_path "" p)]> (files s)), None)
  | WriteRefused => (s, Some CannotWrite)
  | WriteCut => (set_files s (<[p_path p := COther]> (files s)), Some CutShort)
  end.
(** [p] is changed in place. *)
Definition Write (s : store) (p : PidFile) (pid port : Z) (scheme : string)
  : outcome (store * PidFile * option write_err) :=
  oldPid ← Load s (p_path p);
  match oldPid with
  | Some old =>
    if IsRunning s old then Ret (s, p, Some (AlreadyRunning (p_Pid old)))
    else
      let p := mkPid (p_Dir p) (p_Watched p) pid port scheme (p_Args p) (p_CustomName p) (p_path p) in
      let '(s, err) := write_file s p in Ret (s, p, err)
  | None =>
    let p := mkPid (p_Dir p) (p_Watched p) pid port scheme (p_Args p) (p_CustomName p) (p_path p) in
    let '(s, err) := write_file s p in Ret (s, p, err)
  end.

(** [true]: no error.  The pid file is removed in both cases. *)
Definition Stop (s : store) (p : PidFile) : store * bool :=
  if bool_decide (p_Pid p = 0%Z) then (s, true)
  else ((RemovePidFile s p).1, kill (p_Pid p)).

(** The callback of [filepath.Walk] on a file of the directory: pid files of
    dead processes are removed on the way. *)
Definition walk_step (st : store * list PidFile) (path : string) : outcome (store * list PidFile) :=
  let '(s, pidFiles) := st in
  if negb (HasSuffix path ".pid") then Ret st else
  match files s !! path with
  | Some (CPid p) =>
    if Contains (p_Dir p) "__proxy__" then Ret st else
    let p := with_path path p in
    if IsRunning s p then Ret (s, pidFiles ++ [p]) else Ret ((RemovePidFile s p).1, pidFiles)
  | Some CNull => Panic
  | _ => Ret st
  end.

(** The files one level below [dir]. *)
Definition entries (s : store) (dir : string) : list string :=
  filter (λ f, Dir f = dir) (map_to_list (files s)).*1.

Definition doAll (s : store) (dir : string) : outcome (store * list PidFile) :=
  foldM walk_step (s, []) (entries s dir).
Definition AllWorkers (s : store) (dir : string) : outcome (store * list PidFile) :=
  doAll s (fjoin [home; "var"; name dir]).

(** ** Configured and running projects *)

Record ConfiguredProject := mkConfigured { cp_Port : Z; cp_Scheme : string; cp_Domains : list string }.

(** [~] instead of the home directory of the user. *)
Definition short_dir (userHomeDir dir : string) : string :=
  if HasPrefix dir userHomeDir then "~" +:+ sdrop (slen userHomeDir) dir else dir.

Definition ToConfiguredProjects (userHomeDir : string) (s : store) (shortenHomeDir : bool)
  : outcome (store * gmap string ConfiguredProject) :=
  '(s, pids) ← doAll s (fjoin [home; "var"]);
  Ret (s, foldl (λ ps p, if IsRunning s p then
                           let shortDir := if shortenHomeDir then short_dir userHomeDir (p_Dir p)
                                           else p_Dir p in
                           <[shortDir := mkConfigured (p_Port p) (p_Scheme p) []]> ps
                         else ps) ∅ pids).

(** The loop of [GetConfiguredAndRunning], over the running projects in some
    order. *)
Definition configured_step (projects : gmap string ConfiguredProject) (kv : string * ConfiguredProject)
  : gmap string ConfiguredProject :=
  let '(dir, project) := kv in
  match projects !! dir with
  | Some p => <[dir := mkConfigured (cp_Port project) (cp_Scheme project) (cp_Domains p)]> projects
  | None => <[dir := mkConfigured (cp_Port project) (cp_Scheme project) []]> projects
  end.
Definition GetConfiguredAndRunning (proxyProjects : gmap string ConfiguredProject)
    (runningProjects : list (string * ConfiguredProject)) : gmap string ConfiguredProject :=
  foldl configured_step proxyProjects runningProjects.
End pid.

(** ** Writing a pid file *)

Section pid_facts.
Context (can_write : string → write_result).
Let Write := Write can_write.

(** C38: a pid file is written only when it does not record a live process.
    On success loading it gives back what was written and no other file
    changes; when a process is alive the error names it and nothing changes
    at all, as when the file cannot be opened; a write that is cut short leaves a
    file that does not load, and changes no other. *)
Theorem Write_exclusive s p pid port scheme s' p' err :
  Write s p pid port scheme = Ret (s', p', err) →
  match err with
  | None =>
    (∀ old, files s !! p_path p = Some (CPid old) → IsRunning s old = false) ∧
    Load s' (p_path p) = Ret (Some p') ∧
    p' = mkPid (p_Dir p) (p_Watched p) pid port scheme (p_Args p) (p_CustomName p) (p_path p) ∧
    ∀ path, path ≠ p_path p → files s' !! path = files s !! path
  | Some (AlreadyRunning n) =>
    s' = s ∧ p' = p ∧ n ≠ 0%Z ∧ alive s n = true ∧
    ∃ old, files s !! p_path p = Some (CPid old) ∧ p_Pid old = n
  | Some CannotWrite => s' = s ∧ can_write (p_path p) = WriteRefused
  | Some CutShort =>
    (∀ old, files s !! p_path p = Some (CPid old) → IsRunning s old = false) ∧
    can_write (p_path p) = WriteCut ∧ Load s' (p_path p) = Ret None ∧
    ∀ path, path ≠ p_path p → files s' !! path = files s !! path
  end.
Proof.
  unfold Write, Pid.Write, write_file, Load.
  assert (Hok : ∀ q, p_path q = p_path p → Load (set_files s (<[p_path p := CPid (with_path "" q)]> (files s)))
                                    (p_path p) = Ret (Some q)).
  { intros q Hq. unfold Load, set_files. cbn [files]. rewrite lookup_insert_eq. unfold with_path.
    rewrite <-Hq. by destruct q. }
  destruct (files s !! p_path p) as [[old| |]|] eqn:E; cbn [mbind outcome_bind]; [|done|..].
  1: unfold IsRunning; cbn [with_path p_Pid];
     destruct (bool_decide (p_Pid old = 0%Z)) eqn:Ez; [|destruct (alive s (p_Pid old)) eqn:Ea].
  2: { intros [= <- <- <-]. apply bool_decide_eq_false in Ez. eauto 10. }
  all: cbn [p_path]; destruct (can_write (p_path p)) eqn:Ew; intros [= <- <- <-]; [|by split|].
  all: split_and!; try done; try (intros path Hp; by apply lookup_insert_ne); cbn [set_files files].
  all: try (apply (Hok (mkPid _ _ _ _ _ _ _ _)); done); try (by rewrite lookup_insert_eq).
  all: intros old'; try done; intros [= <-]; unfold IsRunning; by rewrite Ez, ?Ea.
Qed.
End pid_facts.

(** ** Collecting the pid files of a directory *)

Section collect.
Context (can_remove : string → bool).

(** The files [doAll] drops: those of dead processes. *)
Definition dead (s : store) (path : string) : bool :=
  HasSuffix path ".pid" &&
  match files s !! path with
  | Some (CPid p) => negb (Contains (p_Dir p) "__proxy__") && negb (IsRunning s p) && can_remove path
  | _ => false
  end.
(** The entry [doAll] reports for a file. *)
Definition live (s : store) (path : string) : option PidFile :=
  if HasSuffix path ".pid" then
    match files s !! path with
    | Some (CPid p) =>
      if Contains (p_Dir p) "__proxy__" then None
      else if IsRunning s p then Some (with_path path p) else None
    | _ => None
    end
  else None.

Lemma walk_step_spec s ps path st :
  walk_step can_remove (s, ps) path = Ret st →
  st = (set_files s (if dead s path then delete path (files s) else files s),
        ps ++ option_list (live s path)).
Proof.
  unfold walk_step, dead, live. destruct s as [f al]. cbn [files set_files alive].
  destruct (HasSuffix path ".pid"); cbn [negb andb];
    [|intros [= <-]; by rewrite app_nil_r].
  destruct (f !! path) as [[p| |]|] eqn:E; [|done|intros [= <-]; by rewrite app_nil_r..].
  destruct (Contains _ _); cbn [negb andb]; [intros [= <-]; by rewrite app_nil_r|].
  change (IsRunning _ (with_path path p)) with (IsRunning (mkStore f al) p).
  destruct (IsRunning _ p); cbn [negb andb]; [by intros [= <-]|].
  unfold RemovePidFile, os_remove. cbn [with_path p_path files]. rewrite E.
  destruct (can_remove path); intros [= <-]; by rewrite app_nil_r.
Qed.

(** [doAll] removes exactly the (removable) pid files of the directory
    whose process is dead, keeps every other file, and returns the live
    ones in the order of the walk; the pid file of the proxy is left
    alone. *)
Theorem doAll_collects s dir s' ps :
  doAll can_remove s dir = Ret (s', ps) →
  alive s' = alive s ∧
  ps = omap (live s) (entries s dir) ∧
  ∀ path, files s' !! path =
    if bool_decide (path ∈ entries s dir) && dead s path then None else files s !! path.
Proof.
  unfold doAll. set (l := entries s dir).
  assert (Hnd : NoDup l).
  { apply NoDup_filter, NoDup_fst_map_to_list. }
  assert (Hgen : ∀ s0 ps0, alive s0 = alive s → (∀ path, path ∈ l → files s0 !! path = files s !! path) →
    foldM (walk_step can_remove) (s0, ps0) l = Ret (s', ps) →
    alive s' = alive s ∧ ps = ps0 ++ omap (live s) l ∧
    ∀ path, files s' !! path = if bool_decide (path ∈ l) && dead s path then None else files s0 !! path).
  { clearbody l. induction Hnd as [|path l Hp Hnd IH]; intros s0 ps0 Hal Hag; cbn [foldM].
    { intros [= <- <-]. rewrite app_nil_r. done. }
    intros (st & Hst%walk_step_spec & H)%bind_inv. subst st.
    assert (live s0 path = live s path ∧ dead s0 path = dead s path) as [Hl Hd].
    { unfold live, dead, IsRunning. rewrite Hag, Hal by (by left). done. }
    rewrite Hl, Hd in H. apply IH in H as (H1 & H2 & H3); [|done|].
    - split; [done|]. split.
      + rewrite H2. simpl. destruct (live s path); simpl; by rewrite <-?app_assoc.
      + intros q. rewrite H3. cbn [files set_files]. destruct (decide (q = path)) as [->|Hq].
        * rewrite (bool_decide_eq_false_2 (path ∈ l)), (bool_decide_eq_true_2 (path ∈ path :: l)) by
            (done || by left). cbn [andb]. destruct (dead s path); [apply lookup_delete_eq|done].
        * assert (bool_decide (q ∈ path :: l) = bool_decide (q ∈ l)) as ->.
          { apply bool_decide_ext. rewrite elem_of_cons. naive_solver. }
          destruct (dead s path); [|done]. by rewrite lookup_delete_ne.
    - intros q Hq. cbn [files set_files]. rewrite <-Hag by (by right).
      destruct (dead s path); [|done]. rewrite lookup_delete_ne; [done|]. by intros <-. }
  intros H. apply (Hgen s []) in H; [done|done|done].
Qed.
End collect.

(** ** Configured and running projects *)

(** The projects shown by the proxy are those configured or running, in
    whichever order the running ones are merged: a running project has its
    port and scheme, and the domains it is configured with, if any. *)
Theorem GetConfiguredAndRunning_merge proxy running l dir :
  l ≡ₚ map_to_list running →
  GetConfiguredAndRunning proxy l !! dir =
    match proxy !! dir, running !! dir with
    | p, Some r => Some (mkConfigured (cp_Port r) (cp_Scheme r) (default [] (cp_Domains <$> p)))
    | p, None => p
    end.
Proof.
  intros Hl. assert (Hnd : NoDup l.*1) by (rewrite Hl; apply NoDup_fst_map_to_list).
  assert (Hrun : running = list_to_map l).
  { rewrite <-(list_to_map_to_list running). symmetry. by apply list_to_map_proper. }
  subst running. clear Hl. revert proxy.
  induction l as [|[d r] l IH]; intros proxy; [simpl; rewrite lookup_empty; by destruct (proxy !! dir)|].
  cbn [fmap list_fmap fst] in Hnd. apply NoDup_cons in Hnd as [Hd Hnd].
  unfold GetConfiguredAndRunning in *. cbn [foldl]. rewrite IH by done. rewrite list_to_map_cons.
  unfold configured_step. destruct (decide (dir = d)) as [->|Hne].
  - rewrite lookup_insert_eq, (not_elem_of_list_to_map_1 l d) by done.
    destruct (proxy !! d) as [p|]; by rewrite lookup_insert_eq.
  - rewrite (lookup_insert_ne _ d dir) by done.
    destruct (proxy !! d) as [p|]; by rewrite lookup_insert_ne.
Qed.

(** ** Concrete stores *)

Definition ex_pid (dir : string) (pid : Z) : PidFile := mkPid dir [] pid 8000 "https" None "" "".
Definition ex_store : store :=
  mkStore (list_to_map [("/h/var/a.pid", CPid (ex_pid "/srv/a" 10)); ("/h/var/b.pid", CPid (ex_pid "/srv/b" 11));
                        ("/h/var/p.pid", CPid (ex_pid "__proxy__" 12)); ("/h/log/a.log", COther)])
          (λ n, bool_decide (n = 10%Z)).

Lemma Write_exclusive_witness :
  ∃ s' p', Write (λ _, WriteDone) ex_store (with_path "/h/var/b.pid" (ex_pid "/srv/b" 11)) 20 8001 "http"
           = Ret (s', p', None) ∧ Load s' "/h/var/b.pid" = Ret (Some p').
Proof.
  do 2 eexists. split; [reflexivity|].
  apply (Write_exclusive (λ _, WriteDone) ex_store (with_path "/h/var/b.pid" (ex_pid "/srv/b" 11)) 20 8001
           "http" _ _ None). reflexivity.
Defined.

Lemma doAll_collects_witness :
  ∃ s' ps, doAll (λ _, true) ex_store "/h/var" = Ret (s', ps) ∧
    ps = [with_path "/h/var/a.pid" (ex_pid "/srv/a" 10)] ∧
    files s' !! "/h/var/b.pid" = None ∧ files s' !! "/h/var/p.pid" ≠ None.
Proof.
  assert (H : doAll (λ _, true) ex_store "/h/var" ≫= (λ _, Ret ()) = Ret ()) by (vm_compute; reflexivity).
  destruct (bind_inv _ _ _ H) as ([s' ps] & E & _). exists s', ps.
  destruct (doAll_collects (λ _, true) ex_store "/h/var" s' ps E) as (_ & Hps & Hf).
  split; [exact E|]. split; [rewrite Hps; vm_compute; reflexivity|].
  split; rewrite Hf; vm_compute; [reflexivity|discriminate].
Defined.

Lemma GetConfiguredAndRunning_merge_witness :
  GetConfiguredAndRunning {[ "~/app" := mkConfigured 0 "https" ["app.wip"] ]}
    (map_to_list {[ "~/app" := mkConfigured 8000 "http" [] ]}) !! "~/app"
  = Some (mkConfigured 8000 "http" ["app.wip"]).
Proof.
  rewrite (GetConfiguredAndRunning_merge _ {[ "~/app" := mkConfigured 8000 "http" [] ]}).
  - reflexivity.
  - reflexivity.
Defined.
