(* ===== verification/Proxy.v ===== *)
(** * The local proxy ([local/proxy/config.go], [local/proxy/proxy.go])

    The configuration maps domains (without the TLD, possibly with a wildcard)
    to project directories.  It is read from and saved to [proxy.json]; [Watch]
    reloads it.  The file is modelled by what the JSON decoder makes of it.
    The handlers answer a request from the configuration and the pid files;
    [goproxy] itself, TLS and the HTML pages are not modelled: a handler yields
    a decision. *)

From stdpp Require Import base tactics option list gmap strings pretty.
From Stdlib Require Import ZArith Lia Ascii.
From S2P Require Import Prelude GoStrings FilePath Os Pid.

(** [domains] is [None] for a nil map: reading it finds nothing, assigning to it
    panics.  [TmpDomains] is the field through which [domains] is encoded and
    decoded; it holds nothing else. *)
Record Config := mkConfig { TLD : string; Host : string; CPort : Z; domains : option (gmap string string) }.

(** What [proxy.json] holds. *)
Inductive proxy_file :=
| FMissing
| FUnreadable
| FInvalid
| FNull
| FConf (tld host : string) (port : Z) (doms : option (gmap string string)).

Record disk := mkDisk { proxy_json : proxy_file; writable : bool }.

Inductive proxy_err := LoadErr | TLDErr (d : string) | SaveErr.

Definition DefaultConfig : proxy_file := FConf "wip" "localhost" 7080 (Some ∅).

(** [json.Unmarshal] of [null] leaves the pointer nil: [config.Host] panics. *)
Definition Load (dk : disk) : outcome (disk * gores proxy_err Config) :=
  let dk' := match proxy_json dk with
             | FMissing => if writable dk then Some (mkDisk DefaultConfig (writable dk)) else None
             | _ => Some dk
             end in
  match dk' with
  | None => Ret (dk, Err LoadErr)
  | Some dk =>
    match proxy_json dk with
    | FMissing | FUnreadable | FInvalid => Ret (dk, Err LoadErr)
    | FNull => Panic
    | FConf tld host port doms =>
      let host := if bool_decide (host = "") then "localhost" else host in
      Ret (dk, Val (mkConfig tld host port (Some (default ∅ doms))))
    end
  end.

Definition SetDomains (c : Config) (doms : option (gmap string string)) : Config :=
  mkConfig (TLD c) (Host c) (CPort c) doms.

Definition dom_map (c : Config) : gmap string string := default ∅ (domains c).

Definition Save (c : Config) (dk : disk) : disk * option proxy_err :=
  if writable dk then (mkDisk (FConf (TLD c) (Host c) (CPort c) (domains c)) (writable dk), None)
  else (dk, Some SaveErr).

(** [null] leaves the zero [Config]. *)
Definition reload (c : Config) (dk : disk) : Config :=
  match proxy_json dk with
  | FMissing | FUnreadable | FInvalid => c
  | FNull => mkConfig "" (Host c) (CPort c) None
  | FConf tld _ _ doms => mkConfig tld (Host c) (CPort c) doms
  end.

(** ** Names *)

Definition domainWithoutTLD (c : Config) (domain : string) : string :=
  if HasSuffix domain ("." +:+ TLD c) then stake (slen domain - slen (TLD c) - 1) domain else domain.

Definition is_wildcard (d : string) : bool := Contains d "*".
(** [strings.HasSuffix(domain, strings.ReplaceAll(d, "*.", "."))] *)
Definition glob_match (d domain : string) : bool := HasSuffix domain (ReplaceAll d "*." ".").

Definition match_step (c : Config) (domain best d : string) : string :=
  if is_wildcard d && glob_match d domain then
    let m := d +:+ "." +:+ TLD c in
    if slen best <? slen m then m else best
  else best.

(** [keys]: the domains in the order of the iteration. *)
Definition doNormalizeDomain (keys : list string) (c : Config) (domain : string) : string :=
  let domain := domainWithoutTLD c domain in
  let fqdn := domain +:+ "." +:+ TLD c in
  match dom_map c !! domain with
  | Some _ => fqdn
  | None =>
    let found := foldl (match_step c domain) "" keys in
    if bool_decide (found ≠ "") then found else fqdn
  end.

Definition NormalizeDomain := doNormalizeDomain.

(** The empty string when no project has the domain. *)
Definition GetDir (keys : list string) (c : Config) (domain : string) : string :=
  default "" (dom_map c !! domainWithoutTLD c (doNormalizeDomain keys c domain)).

(** In the order of [map_to_list]; Go's order is unspecified. *)
Definition GetDomains (c : Config) (dir : string) : list string :=
  (λ kv, kv.1 +:+ "." +:+ TLD c) <$> filter (λ kv, kv.2 = dir) (map_to_list (dom_map c)).
Definition GetReachableDomains (c : Config) (dir : string) : list string :=
  (λ kv, kv.1 +:+ "." +:+ TLD c)
    <$> filter (λ kv, is_wildcard kv.1 = false ∧ kv.2 = dir) (map_to_list (dom_map c)).
(** [dirs[dir] = append(dirs[dir], domain)] *)
Definition dirs_step (dirs : gmap string (list string)) (kv : string * string) : gmap string (list string) :=
  <[kv.2 := default [] (dirs !! kv.2) ++ [kv.1]]> dirs.
Definition Dirs (c : Config) : gmap string (list string) :=
  foldl dirs_step ∅ (map_to_list (dom_map c)).

(** ** Changes *)

(** The loop [for _, d := range domains { if HasSuffix ...; c.domains[d] = dir }]:
    the error returns at once and leaves what was done. *)
Fixpoint attach (c : Config) (dir : string) (ds : list string) : outcome (Config * option proxy_err) :=
  match ds with
  | [] => Ret (c, None)
  | d :: ds =>
    if HasSuffix d (TLD c) then Ret (c, Some (TLDErr d))
    else match domains c with
         | None => Panic
         | Some m => attach (SetDomains c (Some (<[d := dir]> m))) dir ds
         end
  end.

Fixpoint detach (c : Config) (ds : list string) : Config * option proxy_err :=
  match ds with
  | [] => (c, None)
  | d :: ds =>
    if HasSuffix d (TLD c) then (c, Some (TLDErr d))
    else detach (SetDomains c (delete d <$> domains c)) ds
  end.

Definition save_unless (r : Config * option proxy_err) (dk : disk) : Config * disk * option proxy_err :=
  match r with
  | (c, Some e) => (c, dk, Some e)
  | (c, None) => let '(dk, e) := Save c dk in (c, dk, e)
  end.

Definition AddDirDomains (c : Config) (dk : disk) (dir : string) (ds : list string)
  : outcome (Config * disk * option proxy_err) :=
  r ← attach c dir ds; Ret (save_unless r dk).

Definition RemoveDirDomains (c : Config) (dk : disk) (ds : list string)
  : Config * disk * option proxy_err :=
  save_unless (detach c ds) dk.

Definition ReplaceDirDomains (c : Config) (dk : disk) (dir : string) (ds : list string)
  : outcome (Config * disk * option proxy_err) :=
  let c := SetDomains c (filter (λ kv, kv.2 ≠ dir) <$> domains c) in
  r ← attach c dir ds; Ret (save_unless r dk).

(** ** Requests *)

(** [re.MatchString] for [\.TLD(\:\d+)?$], when the TLD has no special
    character. *)
Definition strip_port (host : string) : string :=
  match last_colon host with
  | Some i => let port := sdrop (i + 1) host in
              if negb (bool_decide (port = "")) && sforall is_digit port then stake i host else host
  | None => host
  end.
Definition tldMatches (tld host : string) : bool :=
  HasSuffix host ("." +:+ tld) || HasSuffix (strip_port host) ("." +:+ tld).

(** The regular expression is compiled once, from the TLD at that time. *)
Record Proxy := mkProxy { px_config : Config; px_tld : string; px_tls : bool }.
Definition New (c : Config) (tls : bool) : Proxy := mkProxy c (TLD c) tls.
Definition Watch_event (p : Proxy) (dk : disk) : Proxy :=
  mkProxy (reload (px_config p) dk) (px_tld p) (px_tls p).

Record request := mkRequest { rq_Scheme : string; rq_Host : string; rq_ForwardedPort : string }.

(** What the handler of plain requests does. *)
Inductive reply :=
| NotForUs
| WrongPort (port used host : string)
| NotLinked (host short : string)
| NotStarted (host dir : string)
| ToBackend (url_host : string) (forwarded_port : string).

(** What the handler of [CONNECT] does, with the address to connect to. *)
Inductive connect_action := NotHandled | Mitm | OkConnect | Hijack (localPort : Z) | RejectConnect.

Section handlers.
(** The port of the web server that runs for a directory: [pid.New(dir, nil)],
    [IsRunning()] and [Port]. *)
Context (running : string → option Z).

(** Host name and port of a request; the port of the scheme by default. *)
Definition host_port (scheme host fallback : string) : string * string :=
  match SplitHostPort host with
  | Some hp => hp
  | None => (fallback, if bool_decide (scheme = "https") then "443" else "80")
  end.

Definition wrong_port (scheme port : string) : bool :=
  bool_decide (scheme = "https") && negb (bool_decide (port = "443"))
  || bool_decide (scheme = "http") && negb (bool_decide (port = "80")).

Definition handle (keys : list string) (p : Proxy) (r : request) : reply :=
  if negb (tldMatches (px_tld p) (rq_Host r)) then NotForUs else
  let c := px_config p in
  let '(hostName, hostPort) := host_port (rq_Scheme r) (rq_Host r) (rq_Host r) in
  if wrong_port (rq_Scheme r) hostPort then
    WrongPort (if bool_decide (rq_Scheme r = "https") then "443" else "80") hostPort hostName
  else
    let projectDir := GetDir keys c hostName in
    if bool_decide (projectDir = "") then
      NotLinked hostName (TrimPrefix (TrimSuffix hostName ("." +:+ TLD c)) "www.")
    else match running projectDir with
         | None => NotStarted hostName projectDir
         | Some port =>
           ToBackend ("127.0.0.1:" +:+ Itoa port)
             (if bool_decide (rq_ForwardedPort r = "") then hostPort else rq_ForwardedPort r)
         end.

Definition handle_connect (keys : list string) (p : Proxy) (host : string) (r : request)
  : connect_action * string :=
  if negb (tldMatches (px_tld p) (rq_Host r)) then (NotHandled, "") else
  let c := px_config p in
  let '(hostName, hostPort) := host_port (rq_Scheme r) host (rq_Host r) in
  if wrong_port (rq_Scheme r) hostPort then (Mitm, host) else
  let projectDir := GetDir keys c hostName in
  if bool_decide (projectDir = "") then (Mitm, host) else
  match running projectDir with
  | None => (Mitm, host)
  | Some port =>
    let backend := "127.0.0.1:" +:+ Itoa port in
    if negb (bool_decide (hostPort = "443")) then (OkConnect, backend)
    else if px_tls p then (Hijack port, backend)
    else (RejectConnect, backend)
  end.
End handlers.

(** Requests to the proxy itself, by path. *)
Inductive page := NoHost | PacFile (tld host : string) | IndexPage | IndexJSON | NotFound.
Definition NonproxyHandler (p : Proxy) (host path : string) : page :=
  if bool_decide (host = "") then NoHost
  else if bool_decide (path = "/proxy.pac") then PacFile (TLD (px_config p)) host
  else if bool_decide (path = "/") then IndexPage
  else if bool_decide (path = "/index.json") then IndexJSON
  else NotFound.

(** [pid.New(projectDir, nil)] and [IsRunning]. *)
Definition running_pid (home : string) (name : string → string) (s : store) (dir : string) : option Z :=
  match Pid.New home name s dir None with
  | Ret p => if IsRunning s p then Some (p_Port p) else None
  | Panic => None
  end.

(** The configured projects ([ToConfiguredProjects] of the proxy). *)
Definition proxy_projects (userHomeDir : string) (c : Config) : gmap string ConfiguredProject :=
  list_to_map ((λ kv, (short_dir userHomeDir kv.1, mkConfigured 0 "https" (GetDomains c kv.1)))
                 <$> map_to_list (Dirs c)).

(** ** Which project serves a domain *)

(** The iteration visits every domain. *)
Definition all_keys (c : Config) (keys : list string) : Prop :=
  ∀ d, d ∈ keys ↔ is_Some (dom_map c !! d).

Lemma domainWithoutTLD_app c x : domainWithoutTLD c (x +:+ "." +:+ TLD c) = x.
Proof.
  unfold domainWithoutTLD. rewrite HasSuffix_app.
  replace (slen _ - slen (TLD c) - 1) with (slen (x +:+ ("." +:+ TLD c)) - slen ("." +:+ TLD c)).
  - apply stake_app_suffix.
  - rewrite !slen_app. simpl. lia.
Qed.

Definition candidate (domain d : string) : Prop := is_wildcard d = true ∧ glob_match d domain = true.

Lemma match_fold c domain keys best :
  let m := foldl (match_step c domain) best keys in
  (m = best ∧ ∀ d, d ∈ keys → candidate domain d → slen (d +:+ "." +:+ TLD c) ≤ slen best) ∨
  (∃ d, d ∈ keys ∧ candidate domain d ∧ m = d +:+ "." +:+ TLD c ∧ slen best < slen m ∧
        ∀ d', d' ∈ keys → candidate domain d' → slen d' ≤ slen d).
Proof.
  revert best. induction keys as [|k keys IH]; intros best; cbn zeta; cbn [foldl].
  { left. split; [done|]. by intros d ?%elem_of_nil. }
  assert (Hstep : match_step c domain best k = best ∧
                    (candidate domain k → slen (k +:+ "." +:+ TLD c) ≤ slen best) ∨
                  candidate domain k ∧ match_step c domain best k = k +:+ "." +:+ TLD c ∧
                    slen best < slen (k +:+ "." +:+ TLD c)).
  { unfold match_step, candidate. destruct (is_wildcard k), (glob_match k domain); cbn [andb];
      try (left; split; [done|]; by intros [? ?]).
    destruct (Nat.ltb_spec (slen best) (slen (k +:+ "." +:+ TLD c))); [by right|left; auto]. }
  destruct (IH (match_step c domain best k)) as [[-> Hall]|(d & Hd & Hc & -> & Hlt & Hmax)].
  - destruct Hstep as [[Heq Hk]|(Hk & Heq & Hlt)]; rewrite Heq in *.
    + left. split; [done|]. intros d [->|Hd]%elem_of_cons Hc; auto.
    + right. exists k. split_and!; [by left|done..|]. intros d [->|Hd]%elem_of_cons Hc; [done|].
      pose proof (Hall d Hd Hc) as Hx. destruct Hk. rewrite !slen_app in Hx. lia.
  - right. exists d. split_and!; [by right|done|done| |].
    + destruct Hstep as [[Heq _]|(_ & Heq & Hlt')]; rewrite Heq in Hlt; lia.
    + intros d' [->|Hd']%elem_of_cons Hc'; [|auto].
      destruct Hstep as [[Heq Hk]|(_ & Heq & _)].
      * specialize (Hk Hc'). rewrite Heq, !slen_app in Hlt. rewrite !slen_app in Hk. lia.
      * rewrite Heq, !slen_app in Hlt. lia.
Qed.

Lemma app_nonempty d t : d +:+ "." +:+ t ≠ "".
Proof. destruct d; [done|]. rewrite sapp_cons. done. Qed.

(** What [doNormalizeDomain] finds. *)
Lemma normalize_cases keys c domain :
  all_keys c keys →
  let name := domainWithoutTLD c domain in
  (is_Some (dom_map c !! name) ∧ doNormalizeDomain keys c domain = name +:+ "." +:+ TLD c) ∨
  (dom_map c !! name = None ∧ (∀ d, is_Some (dom_map c !! d) → ¬ candidate name d) ∧
     doNormalizeDomain keys c domain = name +:+ "." +:+ TLD c) ∨
  (dom_map c !! name = None ∧
   ∃ d, is_Some (dom_map c !! d) ∧ candidate name d ∧
        (∀ d', is_Some (dom_map c !! d') → candidate name d' → slen d' ≤ slen d) ∧
        doNormalizeDomain keys c domain = d +:+ "." +:+ TLD c).
Proof.
  intros Hkeys name. unfold doNormalizeDomain. fold name.
  destruct (dom_map c !! name) as [dir|] eqn:E; [left; eauto|right].
  destruct (match_fold c name keys "") as [[-> Hall]|(d & Hd & Hc & -> & _ & Hmax)]; [left|right].
  - split_and!; [done| |done]. intros d Hd%Hkeys Hc. specialize (Hall d Hd Hc).
    rewrite !slen_app in Hall. simpl in Hall. lia.
  - split; [done|]. exists d. split_and!; [by apply Hkeys|done| |].
    + intros d' Hd'%Hkeys. by apply Hmax.
    + rewrite bool_decide_eq_true_2; [done|]. apply app_nonempty.
Qed.

(** C10: a domain leads to the project it is attached to; otherwise to the
    project of the longest wildcard domain that matches it; otherwise to
    none, in whichever order the domains are visited. *)
Theorem GetDir_longest keys c domain :
  all_keys c keys →
  let name := domainWithoutTLD c domain in
  match dom_map c !! name with
  | Some dir => GetDir keys c domain = dir
  | None =>
    (GetDir keys c domain = "" ∧ ∀ d, is_Some (dom_map c !! d) → ¬ candidate name d) ∨
    ∃ d, dom_map c !! d = Some (GetDir keys c domain) ∧ candidate name d ∧
         ∀ d', is_Some (dom_map c !! d') → candidate name d' → slen d' ≤ slen d
  end.
Proof.
  intros Hkeys name. unfold GetDir.
  destruct (normalize_cases keys c domain Hkeys) as [[H Hn]|[(H & Hno & Hn)|(H & d & Hd & Hc & Hmax & Hn)]];
    rewrite Hn, domainWithoutTLD_app; fold name in H |- *.
  - destruct H as [dir ->]. done.
  - rewrite H. left. done.
  - rewrite H. right. exists d. destruct Hd as [dir Hd]. rewrite Hd. by split_and!.
Qed.

(** A wildcard domain is [*.] followed by a name. *)
Definition proper_wildcards (c : Config) : Prop :=
  ∀ d, is_Some (dom_map c !! d) → is_wildcard d = true → ∃ r, d = "*." +:+ r ∧ is_wildcard r = false.

Lemma Contains_cons ch s x :
  Contains (String ch s) (String x "") = false → ch ≠ x ∧ Contains s (String x "") = false.
Proof.
  unfold Contains. rewrite Index_unfold. cbn [HasPrefix]. rewrite andb_true_r.
  destruct (Ascii.eqb_spec x ch) as [->|Hne]; [done|].
  intros H. split; [congruence|]. destruct (Index s _); [|done].
  apply bool_decide_eq_false in H. destruct H. simpl. eauto.
Qed.

Lemma replace_aux_id r new : is_wildcard r = false → replace_aux 0 r "*." new = r.
Proof.
  unfold is_wildcard. induction r as [|ch r IH]; [done|]. intros [Hc Hr]%Contains_cons.
  cbn [replace_aux HasPrefix]. destruct (Ascii.eqb_spec "*" ch) as [<-|_]; [done|].
  cbn [andb]. by rewrite IH.
Qed.

Lemma glob_match_wild r domain :
  is_wildcard r = false → glob_match ("*." +:+ r) domain = HasSuffix domain ("." +:+ r).
Proof.
  intros Hr. unfold glob_match, ReplaceAll. do 2 f_equal.
  change (replace_aux 0 ("*." +:+ r) "*." ".") with ("." +:+ replace_aux 0 r "*." ".").
  by rewrite replace_aux_id.
Qed.

Lemma longest_unique c name d1 d2 :
  proper_wildcards c → is_Some (dom_map c !! d1) → is_Some (dom_map c !! d2) →
  candidate name d1 → candidate name d2 → slen d1 = slen d2 → d1 = d2.
Proof.
  intros Hw H1 H2 [Hw1 Hg1] [Hw2 Hg2] Hlen.
  destruct (Hw d1 H1 Hw1) as (r1 & -> & Hr1). destruct (Hw d2 H2 Hw2) as (r2 & -> & Hr2).
  rewrite glob_match_wild in Hg1, Hg2 by done. rewrite !slen_app in Hlen.
  apply HasSuffix_spec in Hg1 as [a ->]. apply HasSuffix_spec in Hg2 as [b Hb].
  assert (Hab : slen a = slen b).
  { apply (f_equal slen) in Hb. rewrite !slen_app in Hb. simpl in *. lia. }
  assert (Hr : sdrop (slen a) (a +:+ "." +:+ r1) = sdrop (slen b) (b +:+ "." +:+ r2)).
  { by rewrite Hab, Hb. }
  rewrite !sdrop_app in Hr. apply sapp_inj_l in Hr. by subst.
Qed.

(** With wildcards of the form [*.name], the normalised domain does not
    depend on the order in which Go visits the map, and normalising it again
    changes nothing. *)
Theorem NormalizeDomain_deterministic keys1 keys2 c domain :
  all_keys c keys1 → all_keys c keys2 → proper_wildcards c →
  NormalizeDomain keys1 c domain = NormalizeDomain keys2 c domain ∧
  NormalizeDomain keys2 c (NormalizeDomain keys1 c domain) = NormalizeDomain keys1 c domain.
Proof.
  intros Hk1 Hk2 Hw. unfold NormalizeDomain.
  assert (Hidem : ∀ d, is_Some (dom_map c !! d) →
            doNormalizeDomain keys2 c (d +:+ "." +:+ TLD c) = d +:+ "." +:+ TLD c).
  { intros d [dir Hd]. unfold doNormalizeDomain. by rewrite domainWithoutTLD_app, Hd. }
  destruct (normalize_cases keys1 c domain Hk1) as [[H1 ->]|[(H1 & Hno1 & ->)|(H1 & d1 & Hd1 & Hc1 & Hm1 & ->)]];
  destruct (normalize_cases keys2 c domain Hk2) as [[H2 ->]|[(H2 & Hno2 & ->)|(H2 & d2 & Hd2 & Hc2 & Hm2 & ->)]].
  all: try (by destruct H1; congruence); try (by destruct H2; congruence).
  - split; [done|by apply Hidem].
  - split; [done|]. destruct (normalize_cases keys2 c (domainWithoutTLD c domain +:+ "." +:+ TLD c) Hk2)
      as [[_ ->]|[(_ & _ & ->)|(_ & d & Hd & Hc & _)]]; rewrite domainWithoutTLD_app in *; [done..|].
    by apply Hno1 in Hc.
  - by apply Hno1 in Hc2.
  - by apply Hno2 in Hc1.
  - assert (d1 = d2) as ->; [|split; [done|by apply Hidem]].
    apply (longest_unique c (domainWithoutTLD c domain)); [done..|].
    apply Nat.le_antisymm; auto.
Qed.

(** ** Attaching and detaching domains *)

Lemma attach_spec ds c dir m :
  domains c = Some m →
  (∃ c', attach c dir ds = Ret (c', None) ∧ Forall (λ d, HasSuffix d (TLD c) = false) ds ∧
          TLD c' = TLD c ∧ Host c' = Host c ∧ CPort c' = CPort c ∧ is_Some (domains c') ∧
          (∀ d, dom_map c' !! d = if bool_decide (d ∈ ds) then Some dir else m !! d))
   ∨ ∃ c' d, attach c dir ds = Ret (c', Some (TLDErr d)) ∧ d ∈ ds ∧ HasSuffix d (TLD c) = true ∧
          TLD c' = TLD c ∧ is_Some (domains c') ∧
          (∀ x, x ∉ ds → dom_map c' !! x = m !! x).
Proof.
  revert c m. induction ds as [|d ds IH]; intros c m Hm.
  { left. exists c. split_and!; [done..|by eexists|]. intros d.
    rewrite bool_decide_eq_false_2 by apply not_elem_of_nil. unfold dom_map. by rewrite Hm. }
  cbn [attach]. destruct (HasSuffix d (TLD c)) eqn:Hd.
  { right. exists c, d. split_and!; [done|by left|done|done|by eexists|]. intros x _.
    unfold dom_map. by rewrite Hm. }
  rewrite Hm. destruct (IH (SetDomains c (Some (<[d:=dir]> m))) (<[d:=dir]> m) eq_refl)
    as [(c' & Ha & Hf & Ht & Hh & Hp & Hs & Hl)|(c' & e & Ha & He & Hx & Ht & Hs & Hl)].
  - left. exists c'. split_and!; [done|by constructor|done..|]. intros x. rewrite Hl.
    destruct (decide (x = d)) as [->|Hne].
    + rewrite (bool_decide_eq_true_2 (d ∈ d :: ds)) by (by left). rewrite lookup_insert_eq.
      by destruct (bool_decide _).
    + rewrite lookup_insert_ne by done. assert (bool_decide (x ∈ d :: ds) = bool_decide (x ∈ ds)) as ->; [|done].
      apply bool_decide_ext. rewrite elem_of_cons. naive_solver.
  - right. exists c', e. split_and!; [done|by right|done..|]. intros x Hn.
    rewrite elem_of_cons in Hn. rewrite Hl by naive_solver. apply lookup_insert_ne. naive_solver.
Qed.

Lemma GetDir_attached keys c d dir :
  dom_map c !! d = Some dir → GetDir keys c (d +:+ "." +:+ TLD c) = dir.
Proof.
  intros Hd. unfold GetDir, doNormalizeDomain. by rewrite domainWithoutTLD_app, Hd, domainWithoutTLD_app, Hd.
Qed.

Definition valid_domains (c : Config) (ds : list string) : Prop :=
  Forall (λ d, HasSuffix d (TLD c) = false) ds.

(** Attaching domains that do not end in the TLD always succeeds when the
    file can be written: afterwards each of them leads to the directory (with
    the TLD or without), every other domain is attached as before, and a
    later [Load] reads back the same configuration. *)
Theorem AddDirDomains_attaches c dk dir ds m keys :
  domains c = Some m → writable dk = true → valid_domains c ds →
  ∃ c' dk', AddDirDomains c dk dir ds = Ret (c', dk', None) ∧ TLD c' = TLD c ∧
    (∀ d, dom_map c' !! d = if bool_decide (d ∈ ds) then Some dir else dom_map c !! d) ∧
    (∀ d, d ∈ ds → GetDir keys c' (d +:+ "." +:+ TLD c) = dir) ∧
    (∃ c'', Load dk' = Ret (dk', Val c'') ∧ TLD c'' = TLD c' ∧ CPort c'' = CPort c' ∧
            dom_map c'' = dom_map c').
Proof.
  intros Hm Hw Hv. unfold AddDirDomains.
  destruct (attach_spec ds c dir m Hm) as [(c' & -> & _ & Ht & Hh & Hp & [m' Hm'] & Hl)|(c' & d & _ & Hd & Hx & _)].
  2: { unfold valid_domains in Hv. rewrite Forall_forall in Hv. rewrite Hv in Hx by done. done. }
  cbn [mbind outcome_bind save_unless]. unfold Save. rewrite Hw. do 2 eexists. split; [done|].
  split; [done|]. split; [|split].
  - intros d. rewrite Hl. unfold dom_map. by rewrite Hm.
  - intros d Hd. rewrite <-Ht. apply GetDir_attached. by rewrite Hl, bool_decide_eq_true_2.
  - unfold Load. cbn [proxy_json]. eexists. split; [done|]. rewrite Hm'. split_and!; [done..|].
    unfold dom_map. by rewrite Hm'.
Qed.

(** When [ReplaceDirDomains] refuses a domain, the file keeps the old
    domains of the directory while the running configuration has lost them. *)
Theorem ReplaceDirDomains_error c dk dir ds c' dk' d :
  ReplaceDirDomains c dk dir ds = Ret (c', dk', Some (TLDErr d)) →
  dk' = dk ∧ d ∈ ds ∧ HasSuffix d (TLD c) = true ∧
  ∀ x, x ∉ ds → dom_map c' !! x = match dom_map c !! x with
                                  | Some dir' => if bool_decide (dir' = dir) then None else Some dir'
                                  | None => None
                                  end.
Proof.
  unfold ReplaceDirDomains. destruct (domains c) as [m|] eqn:Hm.
  - cbn [fmap option_fmap option_map].
    destruct (attach_spec ds (SetDomains c (Some (filter (λ kv, kv.2 ≠ dir) m))) dir _ eq_refl)
      as [(c1 & -> & _)|(c1 & e & -> & He & Hx & _ & _ & Hl)]; cbn [mbind outcome_bind save_unless].
    { unfold Save. by destruct (writable dk). }
    intros [= <- <- <-]. split_and!; [done..|]. intros x Hn. rewrite Hl by done.
    unfold dom_map. rewrite Hm. unfold default, id. destruct (m !! x) as [dir'|] eqn:E.
    + case_bool_decide as Hd.
      * apply map_lookup_filter_None_2. right. intros y Hy. simplify_eq. tauto.
      * by apply map_lookup_filter_Some_2.
    + by apply map_lookup_filter_None_2; left.
  - cbn [fmap option_fmap option_map]. destruct ds as [|e ds]; cbn [attach].
    { cbn [mbind outcome_bind save_unless]. unfold Save. by destruct (writable dk). }
    cbn [SetDomains TLD domains]. destruct (HasSuffix e (TLD c)) eqn:He; [|done].
    cbn [mbind outcome_bind save_unless]. intros [= <- <- <-].
    split_and!; [done|by left|done|]. intros x _. unfold dom_map. by rewrite Hm.
Qed.

(** A [proxy.json] without domains is fine for [Load], which starts from an
    empty map, but after [reload] the next attachment panics. *)
Theorem reload_without_domains c dk dk' tld host port d ds dir :
  proxy_json dk = FConf tld host port None → HasSuffix d tld = false →
  AddDirDomains (reload c dk) dk' dir (d :: ds) = Panic ∧
  ∃ c', Load dk = Ret (dk, Val c') ∧ domains c' = Some ∅.
Proof.
  intros Hdk Hd. split.
  - unfold AddDirDomains, reload. rewrite Hdk. cbn [attach TLD domains]. by rewrite Hd.
  - unfold Load. rewrite Hdk, Hdk. eauto.
Qed.

(** ** Requests *)

Lemma last_colon_None s : Contains s ":" = false → last_colon s = None.
Proof.
  induction s as [|ch s IH]; [done|]. intros [Hc Hs]%Contains_cons. simpl. rewrite IH by done.
  destruct (Ascii.eqb_spec ch ":") as [->|_]; done.
Qed.

(** A host name without the characters of ports and IPv6 addresses. *)
Definition plain_host (h : string) : bool := lacks ":" h && lacks "[" h && lacks "]" h.

Lemma Contains_lacks c s : Contains s (String c "") = negb (lacks c s).
Proof.
  destruct (Contains s (String c "")) eqn:E; symmetry.
  - apply Contains_spec in E as (a & r & ->). rewrite lacks_app, sapp_cons. unfold lacks at 2. cbn [sforall].
    by rewrite Ascii.eqb_refl, andb_false_r.
  - apply negb_false_iff. revert E. induction s as [|x s IH]; [done|]. intros [Hx Hs]%Contains_cons.
    unfold lacks. cbn [sforall]. destruct (Ascii.eqb_spec c x); [congruence|]. by apply IH.
Qed.

Lemma plain_host_spec h : plain_host h = true →
  Contains h ":" = false ∧ Contains h "[" = false ∧ Contains h "]" = false ∧ HasPrefix h "[" = false.
Proof.
  unfold plain_host. rewrite !andb_true_iff. intros [[H1 H2] H3]. rewrite !Contains_lacks, H1, H2, H3.
  split_and!; [done..|]. destruct h as [|c h]; [done|]. unfold lacks in H2. cbn [sforall] in H2.
  apply andb_true_iff in H2 as [H2%negb_true_iff _]. cbn [HasPrefix].
  by rewrite H2.
Qed.

Lemma last_colon_app h port : lacks ":" port = true → last_colon (h +:+ ":" +:+ port) = Some (slen h).
Proof.
  intros Hp. induction h as [|c h IH]; [|rewrite sapp_cons; cbn [last_colon]; by rewrite IH].
  rewrite sapp_nil_l, sapp_cons, sapp_nil_l. cbn [last_colon]. rewrite last_colon_None; [done|].
  by rewrite Contains_lacks, Hp.
Qed.

Lemma SplitHostPort_join h port : plain_host h = true → plain_host port = true →
  SplitHostPort (h +:+ ":" +:+ port) = Some (h, port).
Proof.
  intros Hh Hp. destruct (plain_host_spec h Hh) as (H1 & H2 & H3 & H4).
  unfold plain_host in Hh, Hp. rewrite !andb_true_iff in Hh, Hp. destruct Hh as [[Ha Hb] Hc], Hp as [[Ha' Hb'] Hc'].
  unfold SplitHostPort. rewrite last_colon_app by done.
  assert (Hpre : HasPrefix (h +:+ ":" +:+ port) "[" = false) by (by destruct h).
  rewrite Hpre, stake_app, H1, !Contains_lacks, !lacks_app, Hb, Hc, Hb', Hc'. cbn [lacks sforall andb negb orb].
  do 2 f_equal. rewrite <-sapp_assoc. replace (slen h + 1) with (slen (h +:+ ":")) by (rewrite slen_app; simpl; lia).
  by rewrite sdrop_app.
Qed.

Section attached.
Context (running : string → option Z) (keys : list string) (c : Config) (dk : disk) (tls : bool)
        (dir : string) (ds : list string) (d : string) (c' : Config) (dk' : disk) (e : option proxy_err) (port : Z).
(** A domain was attached to a directory whose web server runs. *)
Definition attached : Prop :=
  domains c ≠ None ∧ writable dk = true ∧ valid_domains c ds ∧ d ∈ ds ∧ dir ≠ "" ∧
  AddDirDomains c dk dir ds = Ret (c', dk', e) ∧ running dir = Some port ∧
  plain_host (d +:+ "." +:+ TLD c) = true.
Let host := d +:+ "." +:+ TLD c.

Lemma attached_dir : attached → TLD c' = TLD c ∧ GetDir keys c' host = dir.
Proof.
  intros (Hm & Hw & Hv & Hd & Hdir & Hadd & _). unfold host.
  destruct (domains c) as [m|] eqn:Em; [|done]. unfold AddDirDomains in Hadd.
  destruct (attach_spec ds c dir m Em) as [(c1 & Ha & _ & Ht & _ & _ & _ & Hl)|(c1 & x & _ & Hx & Hy & _)].
  - rewrite Ha in Hadd. cbn [mbind outcome_bind save_unless] in Hadd. unfold Save in Hadd.
    rewrite Hw in Hadd. injection Hadd as <- _ _. split; [done|].
    rewrite <-Ht. apply GetDir_attached. by rewrite Hl, bool_decide_eq_true_2.
  - unfold valid_domains in Hv. rewrite Forall_forall in Hv. by rewrite Hv in Hy.
Qed.

Lemma attached_http fwd : attached →
  handle running keys (New c' tls) (mkRequest "http" host fwd)
  = ToBackend ("127.0.0.1:" +:+ Itoa port) (if bool_decide (fwd = "") then "80" else fwd).
Proof.
  intros Hat. destruct (attached_dir Hat) as [Ht Hget].
  destruct Hat as (_ & _ & _ & _ & Hdir & _ & Hrun & Hplain). apply plain_host_spec in Hplain as (Hcol & _).
  unfold handle, New. cbn [px_config px_tld rq_Host rq_Scheme rq_ForwardedPort].
  unfold tldMatches. rewrite Ht. unfold host at 1. rewrite HasSuffix_app. cbn [orb negb].
  unfold host_port, SplitHostPort. rewrite last_colon_None by done. rewrite Hget.
  by rewrite (bool_decide_eq_false_2 (dir = "")), Hrun.
Qed.

(** A browser asks for a tunnel with the port in the host and without a scheme. *)
Lemma attached_connect hostPort fwd : attached → hostPort ≠ "" → sforall is_digit hostPort = true →
  handle_connect running keys (New c' tls) (host +:+ ":" +:+ hostPort) (mkRequest "" (host +:+ ":" +:+ hostPort) fwd)
  = (if negb (bool_decide (hostPort = "443")) then OkConnect else if tls then Hijack port else RejectConnect,
     "127.0.0.1:" +:+ Itoa port).
Proof.
  intros Hat Hne Hdig. destruct (attached_dir Hat) as [Ht Hget].
  destruct Hat as (_ & _ & _ & _ & Hdir & _ & Hrun & Hplain). fold host in Hplain.
  assert (Hp : plain_host hostPort = true).
  { unfold plain_host, lacks. rewrite !andb_true_iff. split_and!; revert Hdig; apply sforall_impl;
      intros x Hx; apply negb_true_iff; by destruct (Ascii.eqb_spec ":" x), (Ascii.eqb_spec "[" x), (Ascii.eqb_spec "]" x); subst. }
  unfold handle_connect, New. cbn [px_config px_tld px_tls rq_Host rq_Scheme].
  assert (Hm : tldMatches (TLD c') (host +:+ ":" +:+ hostPort) = true).
  { unfold tldMatches, strip_port. unfold plain_host in Hp. rewrite !andb_true_iff in Hp.
    rewrite last_colon_app by apply Hp. rewrite stake_app.
    replace (sdrop (slen host + 1) (host +:+ ":" +:+ hostPort)) with hostPort.
    - rewrite bool_decide_eq_false_2, Hdig by done. cbn [negb andb]. rewrite Ht. unfold host at 2.
      by rewrite HasSuffix_app, orb_true_r.
    - rewrite <-sapp_assoc. replace (slen host + 1) with (slen (host +:+ ":")) by (rewrite slen_app; simpl; lia).
      by rewrite sdrop_app. }
  rewrite Hm. cbn [negb]. unfold host_port. rewrite SplitHostPort_join by done. cbn [wrong_port].
  unfold wrong_port. rewrite !(bool_decide_eq_false_2 ("" = _)) by done. cbn [andb orb].
  rewrite Hget, (bool_decide_eq_false_2 (dir = "")), Hrun by done. by destruct (bool_decide _), tls.
Qed.
End attached.

(** C11: once a domain is attached to a directory whose web server runs, a plain
    HTTP request for it is sent to that server, with [X-Forwarded-Port] set to 80
    unless the client set it; and a tunnel to its port 443 ends at that server,
    through TLS, or is refused when the proxy has no certificate authority, while
    one to another port is passed on as it is. *)
Theorem attached_domain_reaches_server running keys c dk tls dir ds d c' dk' e port fwd hostPort :
  attached running c dk dir ds d c' dk' e port → hostPort ≠ "" → sforall is_digit hostPort = true →
  let host := d +:+ "." +:+ TLD c in
  let backend := "127.0.0.1:" +:+ Itoa port in
  handle running keys (New c' tls) (mkRequest "http" host fwd)
  = ToBackend backend (if bool_decide (fwd = "") then "80" else fwd) ∧
  handle_connect running keys (New c' tls) (host +:+ ":" +:+ hostPort)
    (mkRequest "" (host +:+ ":" +:+ hostPort) fwd)
  = (if negb (bool_decide (hostPort = "443")) then OkConnect else if tls then Hijack port else RejectConnect, backend).
Proof.
  intros Hat Hne Hdig host backend.
  split; [exact (attached_http _ _ _ _ _ _ _ _ _ _ _ _ _ Hat)|exact (attached_connect _ _ _ _ _ _ _ _ _ _ _ _ _ _ Hat Hne Hdig)].
Qed.

(** The proxy keeps the TLD it was started with for choosing the requests
    it handles: after [reload] changed the TLD, a host of the new TLD is
    found in the configuration, but its requests are not handled. *)
Theorem reloaded_TLD_ignored running keys c tls dk tld h port doms d dir scheme fwd :
  proxy_json dk = FConf tld h port (Some doms) → doms !! d = Some dir →
  tldMatches (TLD c) (d +:+ "." +:+ tld) = false →
  let p := Watch_event (New c tls) dk in
  GetDir keys (px_config p) (d +:+ "." +:+ tld) = dir ∧
  handle running keys p (mkRequest scheme (d +:+ "." +:+ tld) fwd) = NotForUs.
Proof.
  intros Hdk Hd Ht p. split.
  - unfold p, Watch_event, reload. rewrite Hdk. cbn [px_config].
    apply (GetDir_attached keys (mkConfig tld _ _ (Some doms))). done.
  - unfold handle, p, Watch_event, New. cbn [px_tld rq_Host]. by rewrite Ht.
Qed.

(** ** A concrete configuration *)

Definition ex_domains : gmap string string := list_to_map
  [("app", "/srv/app"); ("*.app", "/srv/sub"); ("*.api.app", "/srv/api")].
Definition ex_conf : Config := mkConfig "wip" "localhost" 7080 (Some ex_domains).
Definition ex_keys : list string := ["*.app"; "app"; "*.api.app"].
Definition ex_disk : disk := mkDisk (FConf "wip" "localhost" 7080 (Some ex_domains)) true.

Lemma ex_all_keys keys : keys ≡ₚ ex_keys → all_keys ex_conf keys.
Proof.
  intros Hk d. rewrite Hk. unfold dom_map, ex_conf, ex_domains. cbn [domains default].
  unfold default, id. rewrite <-elem_of_dom, dom_list_to_map_L. set_solver.
Qed.

Lemma GetDir_longest_witness : GetDir ex_keys ex_conf "v1.api.app.wip" = "/srv/api".
Proof.
  pose proof (GetDir_longest ex_keys ex_conf "v1.api.app.wip" (ex_all_keys ex_keys (reflexivity _))) as H.
  change (dom_map ex_conf !! domainWithoutTLD ex_conf "v1.api.app.wip") with (@None string) in H.
  destruct H as [[_ H]|(d & Hd & Hc & Hmax)].
  - destruct (H "*.app"); [by eexists|done].
  - assert (Hin : d ∈ ex_keys) by (apply (ex_all_keys ex_keys); [done|by eexists]).
    assert (Hlen : 9 ≤ slen d) by (apply (Hmax "*.api.app"); [by eexists|done]).
    unfold ex_keys in Hin. set_unfold in Hin. destruct_or! Hin; subst; simpl in Hlen; try lia.
    assert (Ha : dom_map ex_conf !! "*.api.app" = Some "/srv/api") by reflexivity. congruence.
Defined.

Lemma NormalizeDomain_deterministic_witness :
  NormalizeDomain (reverse ex_keys) ex_conf "v1.api.app" = NormalizeDomain ex_keys ex_conf "v1.api.app" ∧
  NormalizeDomain ex_keys ex_conf (NormalizeDomain (reverse ex_keys) ex_conf "v1.api.app")
    = NormalizeDomain (reverse ex_keys) ex_conf "v1.api.app".
Proof.
  apply NormalizeDomain_deterministic.
  - apply ex_all_keys. apply reverse_Permutation.
  - by apply ex_all_keys.
  - intros d Hd Hw. assert (Hin : d ∈ ex_keys) by (by apply (ex_all_keys ex_keys)).
    unfold ex_keys in Hin. set_unfold in Hin. destruct_or! Hin; subst.
    + by exists "app".
    + by vm_compute in Hw.
    + by exists "api.app".
Defined.

Lemma AddDirDomains_attaches_witness :
  ∃ c' dk', AddDirDomains ex_conf ex_disk "/srv/new" ["new"; "app"] = Ret (c', dk', None) ∧
    GetDir ex_keys c' "new.wip" = "/srv/new" ∧ GetDir ex_keys c' "app.wip" = "/srv/new".
Proof.
  destruct (AddDirDomains_attaches ex_conf ex_disk "/srv/new" ["new"; "app"] ex_domains ex_keys)
    as (c' & dk' & H & _ & _ & Hg & _); [reflexivity|reflexivity|by repeat constructor|].
  exists c', dk'. split; [exact H|]. split; [apply (Hg "new")|apply (Hg "app")]; set_solver.
Defined.

Lemma ReplaceDirDomains_error_witness :
  ∃ c', ReplaceDirDomains ex_conf ex_disk "/srv/app" ["new.wip"] = Ret (c', ex_disk, Some (TLDErr "new.wip")) ∧
    dom_map c' !! "app" = None ∧ proxy_json ex_disk = FConf "wip" "localhost" 7080 (domains ex_conf).
Proof.
  eexists. split; [reflexivity|]. split; [|reflexivity].
  edestruct (ReplaceDirDomains_error ex_conf ex_disk "/srv/app" ["new.wip"]) as (_ & _ & _ & H);
    [reflexivity|].
  rewrite H by set_solver. reflexivity.
Defined.

Lemma reload_without_domains_witness :
  AddDirDomains (reload ex_conf (mkDisk (FConf "wip" "" 0 None) true)) ex_disk "/srv/app" ["app"] = Panic.
Proof.
  apply (reload_without_domains ex_conf (mkDisk (FConf "wip" "" 0 None) true) ex_disk "wip" "" 0 "app" []
           "/srv/app"); reflexivity.
Defined.

Definition ex_running (dir : string) : option Z := if bool_decide (dir = "/srv/new") then Some 8000%Z else None.
Definition ex_added : Config := mkConfig "wip" "localhost" 7080 (Some (<["new" := "/srv/new"]> ex_domains)).
Definition ex_saved : disk := mkDisk (FConf "wip" "localhost" 7080 (Some (<["new" := "/srv/new"]> ex_domains))) true.
Lemma ex_attached : attached ex_running ex_conf ex_disk "/srv/new" ["new"] "new" ex_added ex_saved None 8000.
Proof. split_and!; try done; [by repeat constructor|by left]. Qed.

Lemma attached_domain_reaches_server_witness :
  handle ex_running [] (New ex_added true) (mkRequest "http" "new.wip" "") = ToBackend "127.0.0.1:8000" "80" ∧
  handle_connect ex_running [] (New ex_added true) "new.wip:443" (mkRequest "" "new.wip:443" "")
  = (Hijack 8000, "127.0.0.1:8000").
Proof.
  apply (attached_domain_reaches_server ex_running [] ex_conf ex_disk true "/srv/new" ["new"] "new" ex_added ex_saved
           None 8000 "" "443"); [exact ex_attached|discriminate|reflexivity].
Defined.

Lemma reloaded_TLD_ignored_witness :
  handle (λ _, Some 8000%Z) ex_keys
    (Watch_event (New ex_conf true) (mkDisk (FConf "test" "localhost" 7080 (Some ex_domains)) true))
    (mkRequest "https" "app.test" "") = NotForUs.
Proof.
  apply (reloaded_TLD_ignored (λ _, Some 8000%Z) ex_keys ex_conf true
           (mkDisk (FConf "test" "localhost" 7080 (Some ex_domains)) true) "test" "localhost" 7080 ex_domains
           "app" "/srv/app" "https" ""); reflexivity.
Defined.
