(* ===== verification/LocalEnv.v ===== *)
(** * The environment of a local project ([envs/local.go],
    [envs/local_tunnel.go])

    The relationships come from an exposed cloud tunnel, or from Docker; the
    routes from the local web server (its pid file) and the proxy
    configuration.  JSON decoding of the tunnel file, Git, YAML and Docker are
    parameters, as in the components used here. *)

From stdpp Require Import base tactics option list gmap strings pretty.
From Stdlib Require Import ZArith Lia Ascii.
From S2P Require Import Prelude GoStrings FilePath Os Upsun Envs Docker Pid Proxy.

(** [pshtunnel]; [Service] is [None] for a nil map. *)
Record pshtunnel := mkTunnelInfo {
  t_EnvironmentID : string; t_AppName : string; t_ProjectID : string; t_Relationship : string;
  t_LocalPort : Z; t_Service : option endpoint }.

(** ** Exposed tunnels *)

(** [[^a-zA-Z0-9-\.]+] replaced by a dash. *)
Definition is_path_char (c : ascii) : bool :=
  is_lower c || is_upper c || is_digit c || Ascii.eqb c "-" || Ascii.eqb c ".".
Fixpoint clean_runs (in_run : bool) (s : string) : string :=
  match s with
  | EmptyString => ""
  | String c s =>
    if is_path_char c then String c (clean_runs false s)
    else if in_run then clean_runs true s
    else String "-" (clean_runs true s)
  end.

Record Tunnel := mkTunnel { tn_Project : Project; tn_Worker : string }.

Definition tunnel_filename (t : Tunnel) : string :=
  Upsun.ID (tn_Project t) +:+ "-" +:+ Env (tn_Project t)
  +:+ (if bool_decide (App (tn_Project t) ≠ "") then "--" +:+ App (tn_Project t) else "")
  +:+ (if bool_decide (tn_Worker t ≠ "") then "--" +:+ tn_Worker t else "")
  +:+ "-expose.json".

Definition tunnel_path (w : os) (t : Tunnel) : string :=
  fjoin [fjoin [home_dir w; "tunnels"]; clean_runs false (Clean (tunnel_filename t))].

Definition IsExposed (w : os) (t : Tunnel) : bool := exists_ w (tunnel_path w t).

(** The file system with a file created or removed. *)
Definition with_stat (w : os) (p : string) (r : stat_res) : os :=
  {| environ := environ w; stat q := if bool_decide (q = p) then r else stat w q;
     read_file := read_file w; getwd := getwd w; home_dir := home_dir w |}.

(** [can_create]: [MkdirAll] and [Create] succeed; [false] is an error. *)
Definition Expose (can_create : string → bool) (w : os) (t : Tunnel) (expose : bool) : os * bool :=
  let path := tunnel_path w t in
  if expose then
    if can_create path then (with_stat w path (Found false), true) else (w, false)
  else (if is_dir w path then w else with_stat w path NotExist, true).

(** ** The local environment *)

(** What the methods read: the system, Docker, pid files and [proxy.json]. *)
Record world := mkWorld { wo_os : os; wo_docker : docker_api; wo_pids : store; wo_proxy : disk }.

Section local.
Context (url_hostname : string → option string)
        (DefaultFileNames DefaultOverrideFileNames : list string)
        (yaml_name : string → option string) (user_home : option string) `{!PortSort}.
Context (GetRemoteURL : string → string → string) (GetCurrentBranch : string → string)
        (yaml_project_id : string → option string)
        (FindLocalApplications : string → list LocalApplication)
        (evalSymlinks : string → string).
(** [tunnel-info.json] as an array, or as a map (in iteration order);
    [homedir.Dir()]; the name of a pid file. *)
Context (json_tunnels json_alttunnels : string → option (list pshtunnel))
        (homedir : option string) (name : string → string).

Let ProjectFromDir := ProjectFromDir GetRemoteURL GetCurrentBranch yaml_project_id
                        FindLocalApplications evalSymlinks.
Let docker_rels := RelationshipsFromDocker url_hostname DefaultFileNames DefaultOverrideFileNames
                     yaml_name user_home.

(** One turn of the loop over the tunnels; the endpoint is changed in place. *)
Definition tunnel_step (project : Project) (rels : Relationships) (config : pshtunnel)
  : outcome Relationships :=
  if bool_decide (t_ProjectID config = Upsun.ID project ∧ t_EnvironmentID config = Env project
                  ∧ t_AppName config = App project) then
    service ← oget (t_Service config);
    let service := <["ip" := VString "127.0.0.1"]> (<["host" := VString "127.0.0.1"]>
                     (<["port" := VString (Itoa (t_LocalPort config))]> service)) in
    Ret (rel_append (t_Relationship config) service rels)
  else Ret rels.

(** [Ret (l, None)] is [nil]. *)
Definition relationshipsFromTunnel (wo : world) (l : Local) : outcome (Local * option Relationships) :=
  let w := wo_os wo in
  let product := GuessProductFromDirectory w (l_Dir l) in
  match ProjectFromDir w (l_Dir l) with
  | None => Ret (l, None)
  | Some project =>
    let tunnelFile := fjoin [default "" homedir; CLIConfigPath product; "tunnel-info.json"] in
    match read_file w tunnelFile with
    | None => Ret (l, None)
    | Some data =>
      match (match json_tunnels data with Some t => Some t | None => json_alttunnels data end) with
      | None => Ret (l, None)
      | Some tunnels =>
        rels ← foldM (tunnel_step project) [] tunnels;
        if bool_decide (rels ≠ []) then
          Ret (mkLocal (l_Dir l) (l_Debug l) (Env project) true (l_DockerEnv l), Some rels)
        else Ret (l, None)
      end
    end
  end.

Definition local_Relationships (wo : world) (l : Local) : outcome (Local * Relationships) :=
  '(l, dockerRel) ← docker_rels (wo_docker wo) (wo_os wo) l;
  match ProjectFromDir (wo_os wo) (l_Dir l) with
  | None => Ret (l, dockerRel)
  | Some project =>
    if IsExposed (wo_os wo) (mkTunnel project "") then
      '(l, rels) ← relationshipsFromTunnel wo l;
      Ret (l, default dockerRel rels)
    else Ret (l, dockerRel)
  end.

(** The walk up to the directory whose web server runs. *)
Definition server_of (wo : world) (dir : string) : option (outcome PidFile) :=
  match Pid.New (home_dir (wo_os wo)) name (wo_pids wo) dir None with
  | Ret p => if IsRunning (wo_pids wo) p then Some (Ret p) else None
  | Panic => Some Panic
  end.

Definition route_prefixes : list string :=
  ["SYMFONY_APPLICATION_DEFAULT_ROUTE_"; "SYMFONY_PROJECT_DEFAULT_ROUTE_"; "SYMFONY_DEFAULT_ROUTE_"].

(** [None] is [nil].  When [proxy.json] is missing, [Load] also creates it. *)
Definition webServer (wo : world) (l : Local) : outcome (option Envs) :=
  match walkUp true (server_of wo) (l_Dir l) with
  | None => Ret None
  | Some pidFile =>
    pidFile ← pidFile;
    '(_, proxyConf) ← Proxy.Load (wo_proxy wo);
    let domains := match proxyConf with Val c => GetDomains c (l_Dir l) | Err _ => [] end in
    let '(host, port) :=
      match domains with
      | d :: _ => (d, if bool_decide (p_Scheme pidFile = "http") then "80" else "443")
      | [] => ("127.0.0.1:" +:+ Itoa (p_Port pidFile), Itoa (p_Port pidFile))
      end in
    let url := p_Scheme pidFile +:+ "://" +:+ host +:+ "/" in
    let env := foldl (λ env prefix, puts prefix [("SCHEME", p_Scheme pidFile); ("HOST", host);
                                                 ("PORT", port); ("URL", url); ("PATH", "/")] env)
                 ∅ route_prefixes in
    Ret (Some (<["DEFAULT_URI" := url]> env))
  end.

Definition local_Extra (wo : world) (l : Local) : outcome Envs :=
  let w := wo_os wo in
  let env : Envs := list_to_map
    [("SYMFONY_TUNNEL", l_Tunnel l); ("SYMFONY_TUNNEL_ENV", if l_TunnelEnv l then "1" else "");
     ("SYMFONY_TUNNEL_BRAND", Name (GuessProductFromDirectory w (l_Dir l)));
     ("SYMFONY_DOCKER_ENV", if l_DockerEnv l then "1" else "")] in
  let env := if exists_ w (fjoin [l_Dir l; ".prod"]) then
               puts "APP_" [("ENV", "prod"); ("DEBUG", "0")] env else env in
  server ← webServer wo l;
  Ret (default ∅ server ∪ env).

Definition local_Language (wo : world) : string :=
  let w := wo_os wo in
  let language := Getenv w "APP_LANGUAGE" in
  if bool_decide (language ≠ "") then language else
  match GetProjectRoot w with
  | None => "php"
  | Some projectRoot =>
    match GuessSelectedAppByWd w evalSymlinks (FindLocalApplications projectRoot) with
    | None => "php"
    | Some app => default "" (head (Split (AppType app) ":"))
    end
  end.

Record local_env := mkLocalEnv { lv_world : world; lv_local : Local }.
#[local] Instance local_environment : Environment local_env := {
  env_Path e := l_Dir (lv_local e); env_Mailer _ := ∅; env_Language e := local_Language (lv_world e);
  env_Relationships e :=
    '(l, rels) ← local_Relationships (lv_world e) (lv_local e); Ret (mkLocalEnv (lv_world e) l, rels);
  env_Extra e := local_Extra (lv_world e) (lv_local e);
  env_Local _ := true }.

(** ** Finding services *)

(** The first endpoint of a relationship with the scheme and the [rel]; an
    endpoint without a scheme is skipped, one whose [rel] is not a string
    panics. *)
Fixpoint find_prefix (frel fscheme key : string) (i : nat) (es : list endpoint) : outcome (option string) :=
  match es with
  | [] => Ret None
  | e :: es =>
    match e !! "scheme" with
    | None => find_prefix frel fscheme key (S i) es
    | Some _ =>
      scheme ← estr e "scheme"; rel ← estr e "rel";
      if bool_decide (scheme = fscheme ∧ rel = frel) then Ret (Some (rel_prefix key i))
      else find_prefix frel fscheme key (S i) es
    end
  end.
Fixpoint find_rel_prefix (frel fscheme : string) (rels : Relationships) : outcome string :=
  match rels with
  | [] => Ret ""
  | (key, es) :: rels =>
    r ← find_prefix frel fscheme key 0 es;
    match r with Some p => Ret p | None => find_rel_prefix frel fscheme rels end
  end.
Definition FindRelationshipPrefix (wo : world) (l : Local) (frel fscheme : string) : outcome string :=
  '(_, rels) ← local_Relationships wo l; find_rel_prefix frel fscheme rels.

Definition is_http (e : endpoint) : bool :=
  match asStringOk (eget e "scheme") with
  | Some s => bool_decide (s = "http" ∨ s = "https")
  | None => false
  end.

Definition http_services (rels : Relationships) : list string :=
  flat_map (λ r, (λ _, r.1) <$> filter (λ e, is_http e = true) r.2) rels.
Definition FindHttpServices (wo : world) (l : Local) : outcome (list string) :=
  '(_, rels) ← local_Relationships wo l; Ret (http_services rels).

(** [FindServiceUrl] builds its prefix from the key with dashes replaced. *)
Definition url_prefix (key : string) (i : nat) : string :=
  ReplaceAll (ToUpper key) "-" "_" +:+ "_" +:+ match i with O => "" | _ => Itoa (Z.of_nat i) +:+ "_" end.

Fixpoint service_url (env : Envs) (keep : endpoint → outcome bool) (key : string) (i : nat)
    (es : list endpoint) : outcome (option string) :=
  match es with
  | [] => Ret None
  | e :: es =>
    b ← keep e;
    match (if b && is_http e then env !! (url_prefix key i +:+ "URL") else None) with
    | Some url => Ret (Some url)
    | None => service_url env keep key (S i) es
    end
  end.
Fixpoint service_url_rels (env : Envs) (keep : endpoint → outcome bool) (rels : Relationships)
  : outcome (option string) :=
  match rels with
  | [] => Ret None
  | (key, es) :: rels =>
    r ← service_url env keep key 0 es;
    match r with Some u => Ret (Some u) | None => service_url_rels env keep rels end
  end.
(** By name first, then by [rel]; [env] is [AsMap(l)]. *)
Definition find_service_url (env : Envs) (rels : Relationships) (service : string)
  : outcome (option string) :=
  r ← match list_find (λ r, r.1 = service) rels with
      | Some (_, (_, es)) => service_url env (λ _, Ret true) service 0 es
      | None => Ret None
      end;
  match r with
  | Some u => Ret (Some u)
  | None => service_url_rels env (λ e, rel ← estr e "rel"; Ret (bool_decide (rel = service))) rels
  end.

Section url.
Context (url_parse : string → option (string * string))
        (url_build : string → string → string → string → string → string)
        (fmt_s : gval → string)
        (yaml_doctrine : string → option (string * string)) (json_id : string → option string).
Definition FindServiceUrl (wo : world) (l : Local) (service : string) : outcome (option string) :=
  '(l, rels) ← local_Relationships wo l;
  '(_, env) ← AsMap url_parse url_build fmt_s yaml_doctrine json_id (wo_os wo) (mkLocalEnv wo l);
  find_service_url env rels service.
End url.
End local.

(** ** Tunnel files *)

Lemma clean_runs_chars b s : sforall is_path_char (clean_runs b s) = true.
Proof.
  revert b. induction s as [|c s IH]; intros b; [done|]. simpl. destruct (is_path_char c) eqn:E; simpl.
  - by rewrite E, IH.
  - destruct b; simpl; apply IH.
Qed.

Lemma path_chars_no_sep s : sforall is_path_char s = true → Split s sep = [s].
Proof.
  unfold Split. rewrite <-(sapp_nil_l s) at 3. generalize "" as cur.
  induction s as [|c s IH]; intros cur H; [by rewrite sapp_nil_r|].
  unfold sep in *. cbn [split_aux HasPrefix sforall] in *. apply andb_true_iff in H as [Hc Hs]. destruct (Ascii.eqb_spec "/" c) as [<-|Hne]; [done|].
  cbn [andb]. rewrite IH, sapp_assoc by done. done.
Qed.

(** The file of a tunnel is named by a single path component made of
    letters, digits, dashes and dots, whatever the names of the project, the
    environment (a Git branch) and the application; exposing a tunnel makes
    exactly that file exist, and hiding it removes it. *)
Theorem tunnel_expose can_create w t b w' :
  Expose can_create w t b = (w', true) → is_dir w (tunnel_path w t) = false →
  IsExposed w' t = b ∧
  (∀ q, q ≠ tunnel_path w t → stat w' q = stat w q) ∧
  ∃ file, tunnel_path w t = fjoin [fjoin [home_dir w; "tunnels"]; file] ∧
          sforall is_path_char file = true ∧ Split file sep = [file].
Proof.
  intros He Hd. split_and!.
  - unfold Expose in He. rewrite Hd in He. unfold IsExposed, tunnel_path in *.
    destruct b; [destruct (can_create _); [|done]|]; injection He as <-; unfold exists_, with_stat;
      cbn [stat home_dir]; by rewrite bool_decide_eq_true_2.
  - intros q Hq. unfold Expose in He. rewrite Hd in He.
    destruct b; [destruct (can_create _); [|done]|]; injection He as <-; unfold with_stat;
      cbn [stat]; by rewrite bool_decide_eq_false_2.
  - exists (clean_runs false (Clean (tunnel_filename t))). split; [done|].
    pose proof (clean_runs_chars false (Clean (tunnel_filename t))) as H.
    split; [done|by apply path_chars_no_sep].
Qed.

(** ** The prefixes of the services *)

Lemma replace_dash_app a b : replace_aux 0 (a +:+ b) "-" "_" = replace_aux 0 a "-" "_" +:+ replace_aux 0 b "-" "_".
Proof.
  induction a as [|c a IH]; [done|]. rewrite sapp_cons. cbn [replace_aux HasPrefix].
  destruct (Ascii.eqb "-" c && true); cbn [slen Nat.sub].
  - rewrite IH, sapp_assoc. done.
  - by rewrite IH, sapp_cons.
Qed.

Lemma replace_dash_id s : Contains s "-" = false → replace_aux 0 s "-" "_" = s.
Proof.
  induction s as [|c s IH]; [done|]. intros [Hc Hs]%Contains_cons. cbn [replace_aux HasPrefix].
  destruct (Ascii.eqb_spec "-" c) as [<-|_]; [done|]. cbn [andb]. by rewrite IH.
Qed.

Lemma pretty_N_go_no_dash x s : Contains s "-" = false → Contains (pretty_N_go x s) "-" = false.
Proof.
  revert s. induction (N.lt_wf_0 x) as [x _ IH]; intros s Hs.
  destruct (decide (x = 0)%N) as [->|Hx]; [done|].
  rewrite pretty_N_go_step by lia. apply IH; [apply N.div_lt; lia|].
  destruct (pretty_N_char_digit (x `mod` 10)%N) as [Hd _]; [by apply N.mod_lt|].
  unfold Contains in *. rewrite Index_unfold. cbn [HasPrefix].
  destruct (Ascii.eqb_spec "-" (pretty_N_char (x `mod` 10))) as [He|_].
  - rewrite <-He in Hd. done.
  - cbn [andb]. apply bool_decide_eq_false in Hs. apply bool_decide_eq_false. intros [n Hn].
    apply Hs. destruct (Index s "-"); [by eexists|done].
Qed.

Lemma Itoa_no_dash n : Contains (Itoa (Z.of_nat n)) "-" = false.
Proof.
  unfold Itoa. destruct n as [|n]; [done|].
  change (pretty (Z.of_nat (S n))) with (pretty (N.pos (Pos.of_succ_nat n))).
  unfold pretty, pretty_N. rewrite decide_False by done. by apply pretty_N_go_no_dash.
Qed.

Lemma url_prefix_rel_prefix key i : url_prefix key i = rel_prefix key i.
Proof.
  unfold url_prefix, rel_prefix, ReplaceAll. destruct i as [|i].
  - rewrite replace_dash_app, sapp_nil_r. done.
  - rewrite replace_dash_app. f_equal. rewrite !replace_dash_app.
    by rewrite (replace_dash_id (Itoa _)) by apply Itoa_no_dash.
Qed.

Lemma find_prefix_spec frel fscheme key es i r :
  find_prefix frel fscheme key i es = Ret r →
  match r with
  | Some p => ∃ j e, es !! j = Some e ∧ p = url_prefix key (i + j) ∧
                eget e "scheme" = VString fscheme ∧ eget e "rel" = VString frel
  | None => ∀ e, e ∈ es → ¬ (eget e "scheme" = VString fscheme ∧ eget e "rel" = VString frel)
  end.
Proof.
  assert (Hstr : ∀ e k s, estr e k = Ret s ↔ eget e k = VString s).
  { intros e k s. unfold estr, asString, asStringOk. destruct (eget e k); naive_solver. }
  revert i. induction es as [|e es IH]; intros i; cbn [find_prefix].
  { intros [= <-]. by intros e ?%elem_of_nil. }
  assert (Hnext : find_prefix frel fscheme key (S i) es = Ret r →
    ¬ (eget e "scheme" = VString fscheme ∧ eget e "rel" = VString frel) →
    match r with
    | Some p => ∃ j e', (e :: es) !! j = Some e' ∧ p = url_prefix key (i + j) ∧
                  eget e' "scheme" = VString fscheme ∧ eget e' "rel" = VString frel
    | None => ∀ e', e' ∈ e :: es → ¬ (eget e' "scheme" = VString fscheme ∧ eget e' "rel" = VString frel)
    end).
  { intros H Hn. apply IH in H. destruct r as [p|].
    - destruct H as (j & e' & Hj & -> & He). exists (S j), e'. by rewrite Nat.add_succ_r.
    - intros e' [->|He']%elem_of_cons; auto. }
  destruct (e !! "scheme") as [v|] eqn:Es.
  - intros (scheme & Hs & (rel & Hr & H)%bind_inv)%bind_inv. apply Hstr in Hs, Hr.
    case_bool_decide as Hd.
    + injection H as <-. destruct Hd as [-> ->]. exists 0, e.
      by rewrite Nat.add_0_r, url_prefix_rel_prefix.
    + apply Hnext; [done|]. intros [H1 H2]. apply Hd. split; congruence.
  - intros H. apply Hnext; [done|]. unfold eget. rewrite Es. by intros [? _].
Qed.

(** The prefix found for a service is the one [FindServiceUrl] uses for its
    [URL], which is the one under which its variables are exported, and it
    belongs to an endpoint with the scheme and [rel] asked for; it is empty
    only when there is no such endpoint. *)
Theorem FindRelationshipPrefix_spec frel fscheme (rels : Relationships) p :
  find_rel_prefix frel fscheme rels = Ret p →
  (∃ key es i e, (key, es) ∈ rels ∧ es !! i = Some e ∧ p = rel_prefix key i ∧ p = url_prefix key i ∧
     eget e "scheme" = VString fscheme ∧ eget e "rel" = VString frel) ∨
  (p = "" ∧ ∀ key es e, (key, es) ∈ rels → e ∈ es →
     ¬ (eget e "scheme" = VString fscheme ∧ eget e "rel" = VString frel)).
Proof.
  revert p. induction rels as [|[key es] rels IH]; intros p; cbn [find_rel_prefix].
  { intros [= <-]. right. split; [done|]. by intros ??? ?%elem_of_nil. }
  intros (r & Hr%find_prefix_spec & H)%bind_inv. destruct r as [q|].
  - injection H as <-. destruct Hr as (j & e & Hj & -> & He). left. exists key, es, j, e.
    rewrite Nat.add_0_l. split_and!; [by left|done|apply url_prefix_rel_prefix|done|apply He|apply He].
  - destruct (IH p H) as [(k & es' & i & e & Hin & He)|[-> Hno]].
    + left. exists k, es', i, e. split; [by right|done].
    + right. split; [done|]. intros k es' e [[= -> ->]|Hin]%elem_of_cons He; [by apply Hr|by eapply Hno].
Qed.

(** ** Where the relationships come from *)

Section local_facts.
Context (url_hostname : string → option string)
        (DefaultFileNames DefaultOverrideFileNames : list string)
        (yaml_name : string → option string) (user_home : option string) `{!PortSort}.
Context (GetRemoteURL : string → string → string) (GetCurrentBranch : string → string)
        (yaml_project_id : string → option string)
        (FindLocalApplications : string → list LocalApplication)
        (evalSymlinks : string → string)
        (json_tunnels json_alttunnels : string → option (list pshtunnel))
        (homedir : option string) (name : string → string).
Let docker_rels := RelationshipsFromDocker url_hostname DefaultFileNames DefaultOverrideFileNames
                     yaml_name user_home.
Let tunnel_rels := relationshipsFromTunnel GetRemoteURL GetCurrentBranch yaml_project_id
                     FindLocalApplications evalSymlinks json_tunnels json_alttunnels homedir.
Let Relationships_ := local_Relationships url_hostname DefaultFileNames DefaultOverrideFileNames
                     yaml_name user_home GetRemoteURL GetCurrentBranch yaml_project_id
                     FindLocalApplications evalSymlinks json_tunnels json_alttunnels homedir.
Let Extra := local_Extra name.

Lemma tunnel_rels_local wo l l' r :
  tunnel_rels wo l = Ret (l', r) →
  l_Dir l' = l_Dir l ∧ l_DockerEnv l' = l_DockerEnv l ∧
  match r with
  | None => l' = l
  | Some rels => l_TunnelEnv l' = true ∧ rels ≠ []
  end.
Proof.
  unfold tunnel_rels, relationshipsFromTunnel. cbn zeta. intros Hr.
  destruct (ProjectFromDir _ _ _ _ _ _ _) as [project|]; [|by injection Hr as <- <-].
  destruct (read_file _ _) as [data|]; [|by injection Hr as <- <-].
  destruct (match json_tunnels data with Some _ => _ | None => _ end); [|by injection Hr as <- <-].
  apply bind_inv in Hr as (rels & _ & Hr). case_bool_decide; by injection Hr as <- <-.
Qed.

Lemma webServer_keys wo l env k :
  webServer name wo l = Ret (Some env) → k ≠ "DEFAULT_URI" →
  Forall (λ p, HasPrefix k p = false) route_prefixes → env !! k = None.
Proof.
  unfold webServer. destruct (walkUp _ _ _) as [pf|]; [|done].
  intros (p & _ & ([d c] & _ & Hw)%bind_inv)%bind_inv Hk Hp.
  destruct (match match c with Val _ => _ | Err _ => _ end with [] => _ | _ :: _ => _ end) as [host port].
  apply Ret_inj, Some_inj in Hw. subst env. rewrite lookup_insert_ne by done.
  unfold route_prefixes in *. cbn [foldl]. rewrite !Forall_cons in Hp. destruct Hp as (H1 & H2 & H3 & _).
  assert (Hne : ∀ q kvs (m : Envs), HasPrefix k q = false → puts q kvs m !! k = m !! k).
  { intros q kvs m Hq. apply lookup_puts_ne. apply Forall_forall. intros kv _ <-.
    by rewrite HasPrefix_app in Hq. }
  rewrite (Hne _ _ _ H3), (Hne _ _ _ H2), (Hne _ _ _ H1). apply lookup_empty.
Qed.

(** After the relationships were collected, [SYMFONY_DOCKER_ENV] is ["1"]
    exactly when Docker services were found (now or before) even if the
    tunnel's relationships are the ones used, which they are when there are
    any for an exposed tunnel; [SYMFONY_TUNNEL_ENV] is ["1"] when they are. *)
Theorem local_Extra_flags wo l l' rels env :
  Relationships_ wo l = Ret (l', rels) → Extra wo l' = Ret env →
  ∃ l1 dockerRel, docker_rels (wo_docker wo) (wo_os wo) l = Ret (l1, dockerRel) ∧
    env !! "SYMFONY_DOCKER_ENV"
      = Some (if l_DockerEnv l || bool_decide (dockerRel ≠ []) then "1" else "") ∧
    (rels = dockerRel ∧ env !! "SYMFONY_TUNNEL_ENV" = Some (if l_TunnelEnv l then "1" else "") ∨
     ∃ l2, tunnel_rels wo l1 = Ret (l2, Some rels) ∧ env !! "SYMFONY_TUNNEL_ENV" = Some "1").
Proof.
  intros Hr He. unfold Relationships_, local_Relationships in Hr.
  apply bind_inv in Hr as ([l1 dockerRel] & Hd & Hr). exists l1, dockerRel. split; [done|].
  pose proof (docker_rels_local _ _ _ _ _ _ _ _ _ _ Hd) as Hl1.
  assert (Henv : env !! "SYMFONY_DOCKER_ENV" = Some (if l_DockerEnv l' then "1" else "") ∧
                 env !! "SYMFONY_TUNNEL_ENV" = Some (if l_TunnelEnv l' then "1" else "")).
  { unfold Extra, local_Extra in He. cbn zeta in He. apply bind_inv in He as (server & Hs & He).
    apply Ret_inj in He. subst env.
    assert (Hnone : ∀ k, k ∈ ["SYMFONY_DOCKER_ENV"; "SYMFONY_TUNNEL_ENV"] →
                         (default ∅ server : Envs) !! k = None).
    { intros k Hk. destruct server as [e|]; [|done]. apply (webServer_keys wo l' e k Hs); set_unfold in Hk;
        destruct_or! Hk; subst; try done; by repeat constructor. }
    rewrite !lookup_union, !Hnone by set_solver. rewrite !(left_id None _).
    destruct (exists_ _ _); rewrite ?lookup_puts_ne by (by repeat constructor); done. }
  destruct Henv as [-> ->].
  destruct (ProjectFromDir _ _ _ _ _ _ _) as [project|];
    [|injection Hr as <- <-; subst l1; split; [done|by left]].
  destruct (IsExposed _ _); [|injection Hr as <- <-; subst l1; split; [done|by left]].
  apply bind_inv in Hr as ([l2 r] & Ht & Hr). injection Hr as <- <-.
  destruct (tunnel_rels_local _ _ _ _ Ht) as (_ & Hdk & Hcase). rewrite Hdk, Hl1. cbn [l_DockerEnv].
  split; [done|]. destruct r as [rels|].
  - right. destruct Hcase as [Hte _]. rewrite Hte, <-Hl1. by exists l2.
  - left. split; [done|]. by rewrite Hcase, Hl1.
Qed.
End local_facts.

(** ** Concrete runs *)

Definition ex_project : Project := {| Upsun.ID := "abcdefghijklm"; App := "app"; Env := "feature/x y" |}.

Lemma tunnel_expose_witness :
  IsExposed (Expose (λ _, true) ex_docker_os (mkTunnel ex_project "") true).1 (mkTunnel ex_project "") = true ∧
  tunnel_path ex_docker_os (mkTunnel ex_project "")
    = "/root/.symfony5/tunnels/abcdefghijklm-feature-x-y--app-expose.json".
Proof.
  split; [|vm_compute; reflexivity].
  apply (tunnel_expose (λ _, true) ex_docker_os (mkTunnel ex_project "") true); reflexivity.
Defined.

Lemma FindRelationshipPrefix_spec_witness :
  find_rel_prefix "redis" "redis" (reverse ex_rels) = Ret "MY_CACHE_" ∧
  ∃ key es i e, (key, es) ∈ reverse ex_rels ∧ es !! i = Some e ∧ "MY_CACHE_" = rel_prefix key i ∧
     "MY_CACHE_" = url_prefix key i ∧ eget e "scheme" = VString "redis" ∧ eget e "rel" = VString "redis".
Proof.
  split; [vm_compute; reflexivity|].
  destruct (FindRelationshipPrefix_spec "redis" "redis" (reverse ex_rels) "MY_CACHE_") as [H|[H _]];
    [vm_compute; reflexivity|exact H|discriminate].
Defined.

Definition ex_world : world :=
  mkWorld ex_docker_os ex_api (mkStore ∅ (λ _, false)) (mkDisk FMissing true).

Lemma local_Extra_flags_witness :
  ∃ l' rels env,
    local_Relationships (λ _, Some "docker") ex_files ex_overrides (λ _, None) (Some "/root")
      (λ _ _, "") (λ _, "") (λ _, None) (λ _, []) id (λ _, None) (λ _, None) None ex_world ex_local
      = Ret (l', rels) ∧
    local_Extra id ex_world l' = Ret env ∧ env !! "SYMFONY_DOCKER_ENV" = Some "1".
Proof.
  assert (H : local_Relationships (λ _, Some "docker") ex_files ex_overrides (λ _, None) (Some "/root")
      (λ _ _, "") (λ _, "") (λ _, None) (λ _, []) id (λ _, None) (λ _, None) None ex_world ex_local
      ≫= (λ r, local_Extra id ex_world r.1 ≫= λ _, Ret ()) = Ret ()) by (vm_compute; reflexivity).
  apply bind_inv in H as ([l' rels] & Hr & (env & He & _)%bind_inv).
  exists l', rels, env. split; [exact Hr|]. split; [exact He|].
  destruct (local_Extra_flags (λ _, Some "docker") ex_files ex_overrides (λ _, None) (Some "/root")
      (λ _ _, "") (λ _, "") (λ _, None) (λ _, []) id (λ _, None) (λ _, None) None id ex_world ex_local
      l' rels env Hr He) as (l1 & dockerRel & Hd & -> & _).
  assert (Hn : dockerRel ≠ []).
  { intros ->. pose proof ex_docker_rels as Hex.
    change (wo_docker ex_world) with ex_api in Hd. change (wo_os ex_world) with ex_docker_os in Hd.
    rewrite Hex in Hd. discriminate. }
  rewrite (bool_decide_eq_true_2 _ Hn). reflexivity.
Defined.

(** ** Choosing the environment ([envs/envs.go]) *)

(** [None]: the working directory cannot be determined. *)
Definition NewLocal (w : os) (path : string) (debug : bool) : option Local :=
  path ← Abs w path; Some (mkLocal path debug "" false false).

Inductive any_env := ARemote (debug : bool) | ALocal (l : Local).
Definition GetEnv (w : os) (dir : string) (debug : bool) : option any_env :=
  if InCloud w then Some (ARemote debug) else ALocal <$> NewLocal w dir debug.

(** The environment is that of the cloud exactly in the cloud; the local one has
    a clean absolute directory, and can be made from every absolute path. *)
Theorem GetEnv_spec w dir debug :
  (InCloud w = true ↔ GetEnv w dir debug = Some (ARemote debug))
  ∧ (∀ l, GetEnv w dir debug = Some (ALocal l) →
       (∀ wd, getwd w = Some wd → IsAbs wd = true) → IsAbs (l_Dir l) = true ∧ Clean (l_Dir l) = l_Dir l)
  ∧ (IsAbs dir = true → is_Some (GetEnv w dir debug)).
Proof.
  unfold GetEnv, NewLocal, Abs. split_and!.
  - destruct (InCloud w); split; try done. intros H. destruct (if IsAbs dir then _ else _); done.
  - intros l. destruct (InCloud w); [done|]. destruct (IsAbs dir) eqn:Ha;
      cbn [mbind option_bind fmap option_fmap option_map].
    + intros [= <-] _. cbn [l_Dir]. split; [|by apply Clean_idem].
      destruct (Clean_abs dir Ha) as (k & _ & ->). exact (HasPrefix_app sep (Join k sep)).
    + destruct (getwd w) as [wd|]; [|done]. cbn [mbind option_bind fmap option_fmap option_map].
      intros [= <-] Hwd. apply (fjoin_abs wd dir). by apply Hwd.
  - intros ->. destruct (InCloud w); cbn; eauto.
Qed.
