(* ===== verification/ProjectConfig.v ===== *)
(** * Configuration of the local web server ([local/project/config.go],
    [local/project/project.go], [local/process/listener.go])

    Settings come from [.symfony.local.dist.yaml], [.symfony.local.yaml] and
    [.symfony.local.override.yaml], in this order, then from the flags of the
    command.  YAML and JSON decoding and the network are parameters. *)

From stdpp Require Import base tactics option list gmap strings pretty.
From Stdlib Require Import ZArith Lia Ascii.
From S2P Require Import Prelude GoStrings FilePath Os Envs.

Record http_config := mkHttp {
  DocumentRoot : string; Passthru : string; Port : Z; PreferredPort : Z; ListenIp : string;
  AllowHTTP : bool; NoTLS : bool; PKCS12 : string; TlsKeyLogFile : string; UseGzip : bool;
  AllowCORS : bool }.
Record worker := mkWorker { Cmd : list string; WatchDirs : list string }.
Record config := mkConf {
  ProjectDir : string; NoWorkers : bool; Daemon : bool; HTTP : http_config;
  Workers : gmap string worker; Domains : list string }.

(** Pointers and nil slices or maps are options. *)
Record workerFileConfig := mkFileWorker { fw_Cmd : option (list string); fw_Watch : option (list string) }.
Record http_file := mkHttpFile {
  fh_DocumentRoot : option string; fh_Passthru : option string; fh_Port : option Z;
  fh_PreferredPort : option Z; fh_AllowHTTP : option bool; fh_NoTLS : option bool;
  fh_PKCS12 : option string; fh_TlsKeyLogFile : option string; fh_UseGzip : option bool;
  fh_AllowCORS : option bool; fh_Daemon : option bool; fh_NoWorkers : option bool }.
Record fileConfig := mkFile {
  fc_NoWorkers : option bool; fc_Daemon : option bool; fc_Domains : option (list string);
  fc_HTTP : option http_file; fc_Workers : option (gmap string (option workerFileConfig)) }.

(** The flags: [None] when not set; [--listen-ip] has a default value. *)
Record flags := mkFlags {
  fl_allow_all_ip : bool; fl_listen_ip : string; fl_document_root : option string;
  fl_passthru : option string; fl_port : option Z; fl_allow_cors : option bool;
  fl_allow_http : option bool; fl_p12 : option string; fl_no_tls : option bool;
  fl_tls_key_log_suffix : option string; fl_use_gzip : option bool; fl_daemon : option bool;
  fl_no_workers : option bool }.

(** ** Merging *)

Definition docker_compose_worker : workerFileConfig :=
  mkFileWorker (Some ["docker"; "compose"; "up"])
    (Some ["compose.yaml"; "compose.override.yaml"; "compose.yml"; "compose.override.yml";
           "docker-compose.yml"; "docker-compose.override.yml";
           "docker-compose.yaml"; "docker-compose.override.yaml"]).
Definition yarn_worker : workerFileConfig :=
  mkFileWorker (Some ["yarn"; "encore"; "dev"; "--watch"]) None.
Definition messenger_worker : workerFileConfig :=
  mkFileWorker (Some ["symfony"; "console"; "messenger:consume"; "async"])
    (Some ["config"; "src"; "templates"; "vendor/composer/installed.json"]).

(** [if v, ok := c.Workers[key]; ok && v == nil { c.Workers[key] = &w }] *)
Definition default_worker (key : string) (w : workerFileConfig)
    (ws : gmap string (option workerFileConfig)) : gmap string (option workerFileConfig) :=
  match ws !! key with Some None => <[key := Some w]> ws | _ => ws end.

Definition parseWorkers (f : fileConfig) : fileConfig :=
  mkFile (fc_NoWorkers f) (fc_Daemon f) (fc_Domains f) (fc_HTTP f)
    ((λ ws, default_worker "messenger_consume_async" messenger_worker
              (default_worker "yarn_encore_watch" yarn_worker
                 (default_worker "docker_compose" docker_compose_worker ws))) <$> fc_Workers f).

Definition no_worker : worker := mkWorker [] [].

(** One turn of the loop over the workers of a file. *)
Definition merge_worker (ws : gmap string worker) (kv : string * option workerFileConfig)
  : gmap string worker :=
  let '(workerName, fileWorker) := kv in
  match fileWorker with
  | None => delete workerName ws
  | Some fw =>
    let worker := default no_worker (ws !! workerName) in
    <[workerName := mkWorker (default (Cmd worker) (fw_Cmd fw)) (default (WatchDirs worker) (fw_Watch fw))]> ws
  end.

Definition merge_http (h : http_config) (f : http_file) : http_config :=
  mkHttp (default (DocumentRoot h) (fh_DocumentRoot f)) (default (Passthru h) (fh_Passthru f))
    (default (Port h) (fh_Port f)) (default (PreferredPort h) (fh_PreferredPort f)) (ListenIp h)
    (default (AllowHTTP h) (fh_AllowHTTP f)) (default (NoTLS h) (fh_NoTLS f))
    (default (PKCS12 h) (fh_PKCS12 f)) (default (TlsKeyLogFile h) (fh_TlsKeyLogFile f))
    (default (UseGzip h) (fh_UseGzip f)) (default (AllowCORS h) (fh_AllowCORS f)).

(** [http.daemon] and [http.no_workers] come after the root settings. *)
Definition mergeWithFileConfig (c : config) (f : fileConfig) : config :=
  mkConf (ProjectDir c)
    (default (default (NoWorkers c) (fc_NoWorkers f)) (fc_HTTP f ≫= fh_NoWorkers))
    (default (default (Daemon c) (fc_Daemon f)) (fc_HTTP f ≫= fh_Daemon))
    (match fc_HTTP f with Some h => merge_http (HTTP c) h | None => HTTP c end)
    (match fc_Workers f with
     | Some ws => foldl merge_worker (Workers c) (map_to_list ws)
     | None => Workers c
     end)
    (default (Domains c) (fc_Domains f)).

Definition mergeWithContext (fl : flags) (c : config) : config :=
  let h := HTTP c in
  let port := default (Port h) (fl_port fl) in
  mkConf (ProjectDir c) (default (NoWorkers c) (fl_no_workers fl)) (default (Daemon c) (fl_daemon fl))
    (mkHttp (default (DocumentRoot h) (fl_document_root fl)) (default (Passthru h) (fl_passthru fl)) port
       (if bool_decide (port = 0%Z) then 8000%Z else PreferredPort h)
       (if fl_allow_all_ip fl then "" else fl_listen_ip fl)
       (default (AllowHTTP h) (fl_allow_http fl)) (default (NoTLS h) (fl_no_tls fl))
       (default (PKCS12 h) (fl_p12 fl)) (default (TlsKeyLogFile h) (fl_tls_key_log_suffix fl))
       (default (UseGzip h) (fl_use_gzip fl)) (default (AllowCORS h) (fl_allow_cors fl)))
    (Workers c) (Domains c).

Inductive config_err := NotExistErr | FileErr | EmptyCmd (worker : string).

Definition empty_config (projectDir : string) : config :=
  mkConf projectDir false false (mkHttp "" "" 0 0 "" false false "" "" false false) ∅ [].

Definition config_suffixes : list string := [".dist.yaml"; ".yaml"; ".override.yaml"].

Section config.
Context (yaml_config : string → option fileConfig).

Definition newConfigFromFile (w : os) (configFile : string) : gores config_err fileConfig :=
  match stat w configFile with
  | NotExist => Err NotExistErr
  | StatErr => Err FileErr
  | Found _ =>
    match read_file w configFile ≫= yaml_config with
    | None => Err FileErr
    | Some f => Val (parseWorkers f)
    end
  end.

Fixpoint merge_files (w : os) (projectDir : string) (suffixes : list string) (c : config)
  : gores config_err config :=
  match suffixes with
  | [] => Val c
  | suffix :: suffixes =>
    match newConfigFromFile w (fjoin [projectDir; ".symfony.local" +:+ suffix]) with
    | Err NotExistErr => merge_files w projectDir suffixes c
    | Err e => Err e
    | Val f => merge_files w projectDir suffixes (mergeWithFileConfig c f)
    end
  end.

(** Some worker without a command, if any. *)
Definition empty_worker (c : config) : option string :=
  fst <$> head (filter (λ kw, Cmd kw.2 = []) (map_to_list (Workers c))).

Definition NewConfigFromDirectory (w : os) (projectDir : string) : gores config_err config :=
  c ← merge_files w projectDir config_suffixes (empty_config projectDir);
  match empty_worker c with
  | Some k => Err (EmptyCmd k)
  | None => Val c
  end.

Definition NewConfigFromContext (w : os) (projectDir : string) (fl : flags) : gores config_err config :=
  c ← NewConfigFromDirectory w projectDir; Val (mergeWithContext fl c).
End config.

(** ** The listener *)

(** The network while a port is looked for: whether [net.Listen] succeeds on an
    address, and the port the system gives for port 0. *)
Record network := mkNet { can_listen : string → Z → bool; free_port : string → Z }.

(** [net.Listen] on 127.0.0.1, then on the address that is asked for. *)
Definition try_listen (n : network) (listenIp : string) (port : Z) : bool :=
  can_listen n "127.0.0.1" port && can_listen n listenIp port.

(** The loop, [max] turns left; [None] is an error. *)
Fixpoint listen_loop (n : network) (listenIp : string) (port preferredPort : Z) (max : nat) (tryPort : Z)
  : option Z :=
  match max with
  | O => None
  | S max =>
    if try_listen n listenIp tryPort then Some tryPort
    else if bool_decide (port > 0)%Z then None
    else if bool_decide (preferredPort = 0)%Z then None
    else match max with
         | O => None
         | _ => listen_loop n listenIp port preferredPort max (tryPort + 1)
         end
  end.

Definition CreateListener (n : network) (listenIp : string) (port preferredPort : Z) : option Z :=
  let tryPort := if bool_decide (port > 0)%Z then port else preferredPort in
  let max := if bool_decide (port > 0)%Z then 1 else 50 in
  tryPort ← listen_loop n listenIp port preferredPort max tryPort;
  Some (if bool_decide (port = 0 ∧ preferredPort = 0)%Z then free_port n listenIp else tryPort).

(** ** The document root and the front controller ([project.go]) *)

Section project.
(** [json.Unmarshal] of [composer.json] into a map. *)
Context (json_object : string → option (gmap string gval)).

Definition first_existing (w : os) (path : string) (names : list string) : option string :=
  snd <$> list_find (λ n, Is_true (exists_ w (fjoin [path; n]))) names.

Definition docroot_fallback (w : os) (path : string) : string :=
  match first_existing w path ["public"; "web"; "docroot"] with
  | Some docroot => fjoin [path; docroot]
  | None => path
  end.

(** [f1.(map[string]interface{})] and [f2.(string)] are unchecked. *)
Definition guessDocumentRoot (w : os) (path : string) : outcome string :=
  match read_file w (fjoin [path; "composer.json"]) ≫= json_object with
  | None => Ret (docroot_fallback w path)
  | Some f =>
    match f !! "extra" with
    | None => Ret (docroot_fallback w path)
    | Some (VMap extra) =>
      match list_find (λ kv, kv.1 = "public-dir") extra with
      | Some (_, (_, VString dir)) => Ret (fjoin [path; dir])
      | Some _ => Panic
      | None => Ret (docroot_fallback w path)
      end
    | Some _ => Panic
    end
  end.

Definition guessPassthru (w : os) (path : string) : string :=
  default "index.php" (first_existing w path ["index_dev.php"; "index.php"; "app_dev.php"; "app.php"]).

Definition realDocumentRoot (w : os) (dir documentRoot : string) : outcome string :=
  root ← (if bool_decide (documentRoot = "") then guessDocumentRoot w dir
          else Ret (if IsAbs documentRoot then documentRoot else fjoin [dir; documentRoot]));
  Ret (TrimRight root "/" +:+ "/").

(** [None]: the script does not exist. *)
Definition realPassthru (w : os) (documentRoot passthru : string) : option string :=
  let passthru := if bool_decide (passthru = "") then guessPassthru w documentRoot else passthru in
  let passthru := "/" +:+ Trim passthru "/" in
  if exists_ w (fjoin [documentRoot; passthru]) then Some passthru else None.

(** What serves the requests. *)
Inductive callback := NoCallback | ServeIndex | ServePHP (documentRoot passthru : string).

(** [php_ok]: whether [php.NewServer] finds PHP; [Ret None] is its error. *)
Definition NewProject (php_ok : bool) (w : os) (c : config) : outcome (option (string * callback)) :=
  documentRoot ← realDocumentRoot w (ProjectDir c) (DocumentRoot (HTTP c));
  match realPassthru w documentRoot (Passthru (HTTP c)) with
  | None => Ret (Some (documentRoot, NoCallback))
  | Some passthru =>
    if bool_decide (Passthru (HTTP c) = "index.html") then Ret (Some (documentRoot, ServeIndex))
    else if php_ok then Ret (Some (documentRoot, ServePHP documentRoot passthru)) else Ret None
  end.
End project.

(** ** Workers *)

(** The commands behind the names that need no configuration. *)
Definition builtin_worker (k : string) : option workerFileConfig :=
  if bool_decide (k = "docker_compose") then Some docker_compose_worker
  else if bool_decide (k = "yarn_encore_watch") then Some yarn_worker
  else if bool_decide (k = "messenger_consume_async") then Some messenger_worker
  else None.

Definition override_worker (old : worker) (fw : workerFileConfig) : worker :=
  mkWorker (default (Cmd old) (fw_Cmd fw)) (default (WatchDirs old) (fw_Watch fw)).

Lemma default_worker_lookup key w ws k :
  default_worker key w ws !! k =
    match ws !! k with
    | Some None => Some (if bool_decide (k = key) then Some w else None)
    | r => r
    end.
Proof.
  unfold default_worker. destruct (ws !! key) as [[fw|]|] eqn:E.
  - case_bool_decide; [subst; by rewrite E|]. by destruct (ws !! k) as [[]|].
  - case_bool_decide; [subst; by rewrite E, lookup_insert_eq|].
    rewrite lookup_insert_ne by done. by destruct (ws !! k) as [[]|].
  - case_bool_decide; [subst; by rewrite E|]. by destruct (ws !! k) as [[]|].
Qed.

Lemma parseWorkers_lookup f ws k :
  fc_Workers f = Some ws →
  ∃ ws', fc_Workers (parseWorkers f) = Some ws' ∧
    ws' !! k = match ws !! k with Some None => Some (builtin_worker k) | r => r end.
Proof.
  intros Hw. unfold parseWorkers. cbn [fc_Workers]. rewrite Hw. eexists. split; [done|].
  rewrite !default_worker_lookup. unfold builtin_worker. destruct (ws !! k) as [[fw|]|]; [done| |done].
  repeat case_bool_decide; simplify_eq; done.
Qed.

Lemma merge_workers_lookup l ws k :
  NoDup l.*1 →
  foldl merge_worker ws l !! k =
    match (list_to_map l : gmap string (option workerFileConfig)) !! k with
    | None => ws !! k
    | Some None => None
    | Some (Some fw) => Some (override_worker (default no_worker (ws !! k)) fw)
    end.
Proof.
  revert ws. induction l as [|[n fw] l IH]; intros ws Hnd; [simpl; by rewrite lookup_empty|].
  cbn [fmap list_fmap fst] in Hnd. apply NoDup_cons in Hnd as [Hn Hnd]. cbn [foldl].
  rewrite IH by done. rewrite list_to_map_cons. unfold merge_worker.
  destruct (decide (k = n)) as [->|Hne].
  - rewrite lookup_insert_eq, (not_elem_of_list_to_map_1 l n) by done.
    destruct fw; [by rewrite lookup_insert_eq|by rewrite lookup_delete_eq].
  - rewrite (lookup_insert_ne _ n k) by done.
    destruct fw; [by rewrite lookup_insert_ne|by rewrite lookup_delete_ne].
Qed.

(** A file leaves alone the workers it does not mention, completes or
    overrides those it configures, removes those it sets to null, and
    starts the well-known ones ([docker_compose], [yarn_encore_watch],
    [messenger_consume_async]) with their own command when they are set to
    null. *)
Theorem mergeWithFileConfig_workers c f ws k :
  fc_Workers f = Some ws →
  Workers (mergeWithFileConfig c (parseWorkers f)) !! k =
    match ws !! k with
    | None => Workers c !! k
    | Some (Some fw) => Some (override_worker (default no_worker (Workers c !! k)) fw)
    | Some None => override_worker (default no_worker (Workers c !! k)) <$> builtin_worker k
    end.
Proof.
  intros Hw. destruct (parseWorkers_lookup f ws k Hw) as (ws' & Hp & Hk).
  unfold mergeWithFileConfig. cbn [Workers]. rewrite Hp.
  rewrite merge_workers_lookup by apply NoDup_fst_map_to_list. rewrite list_to_map_to_list, Hk.
  destruct (ws !! k) as [[fw|]|]; [done| |done]. by destruct (builtin_worker k).
Qed.

(** ** Precedence of the settings *)

(** The first value that is set. *)
Fixpoint first_of {A} (l : list (option A)) (d : A) : A :=
  match l with
  | [] => d
  | Some a :: _ => a
  | None :: l => first_of l d
  end.

Lemma first_of_cons {A} (o : option A) l d : first_of (o :: l) d = default (first_of l d) o.
Proof. by destruct o. Qed.

Section layers.
Context (yaml_config : string → option fileConfig) (w : os) (dir : string).

(** A configuration file, when it exists. *)
Definition layer (suffix : string) : option fileConfig :=
  match newConfigFromFile yaml_config w (fjoin [dir; ".symfony.local" +:+ suffix]) with
  | Val f => Some f
  | Err _ => None
  end.
Definition merge_layer (c : config) (f : option fileConfig) : config :=
  match f with Some f => mergeWithFileConfig c f | None => c end.

Lemma merge_files_layers suffixes c c' :
  merge_files yaml_config w dir suffixes c = Val c' → c' = foldl merge_layer c (layer <$> suffixes).
Proof.
  revert c. induction suffixes as [|s suffixes IH]; intros c; cbn [merge_files]; [by intros [= <-]|].
  cbn [fmap list_fmap foldl]. unfold layer at 1, merge_layer at 2.
  destruct (newConfigFromFile _ _ _) as [f|[]]; try done; apply IH.
Qed.

(** The files, from the one that wins. *)
Definition layers : list (option fileConfig) := [layer ".override.yaml"; layer ".yaml"; layer ".dist.yaml"].
Definition http_layers {A} (g : http_file → option A) : list (option A) :=
  map (λ f : option fileConfig, (f ≫= fc_HTTP) ≫= g) layers.
Definition root_layers (r : fileConfig → option bool) (g : http_file → option bool) : list (option bool) :=
  flat_map (λ f : option fileConfig, [(f ≫= fc_HTTP) ≫= g; f ≫= r]) layers.

(** A setting is that of the flag, else of the override file, else of
    [.symfony.local.yaml], else of [.symfony.local.dist.yaml]; the deprecated
    [http.daemon] and [http.no_workers] of a file win over its root
    settings; the address to listen on comes from the flags only. *)
Theorem NewConfigFromContext_precedence fl c :
  NewConfigFromContext yaml_config w dir fl = Val c →
  Port (HTTP c) = first_of (fl_port fl :: http_layers fh_Port) 0%Z ∧
  DocumentRoot (HTTP c) = first_of (fl_document_root fl :: http_layers fh_DocumentRoot) "" ∧
  Passthru (HTTP c) = first_of (fl_passthru fl :: http_layers fh_Passthru) "" ∧
  AllowHTTP (HTTP c) = first_of (fl_allow_http fl :: http_layers fh_AllowHTTP) false ∧
  Domains c = first_of (map (λ f : option fileConfig, f ≫= fc_Domains) layers) [] ∧
  Daemon c = first_of (fl_daemon fl :: root_layers fc_Daemon fh_Daemon) false ∧
  NoWorkers c = first_of (fl_no_workers fl :: root_layers fc_NoWorkers fh_NoWorkers) false ∧
  ListenIp (HTTP c) = if fl_allow_all_ip fl then "" else fl_listen_ip fl.
Proof.
  unfold NewConfigFromContext, NewConfigFromDirectory. intros Hc.
  destruct (merge_files _ _ _ _ _) as [c1|] eqn:E; [|done]. apply merge_files_layers in E.
  cbn [mbind gores_bind] in Hc. destruct (empty_worker c1); [done|]. cbn [mbind gores_bind] in Hc.
  injection Hc as <-. subst c1. cbn [config_suffixes fmap list_fmap foldl].
  unfold http_layers, root_layers, layers. cbn [map flat_map app].
  assert (Hport : ∀ c f, Port (HTTP (merge_layer c f)) = default (Port (HTTP c)) ((f ≫= fc_HTTP) ≫= fh_Port)).
  { by intros c [[? ? ? [] ?]|]. }
  assert (Hroot : ∀ c f, DocumentRoot (HTTP (merge_layer c f))
                         = default (DocumentRoot (HTTP c)) ((f ≫= fc_HTTP) ≫= fh_DocumentRoot)).
  { by intros c [[? ? ? [] ?]|]. }
  assert (Hpass : ∀ c f, Passthru (HTTP (merge_layer c f))
                         = default (Passthru (HTTP c)) ((f ≫= fc_HTTP) ≫= fh_Passthru)).
  { by intros c [[? ? ? [] ?]|]. }
  assert (Hhttp : ∀ c f, AllowHTTP (HTTP (merge_layer c f))
                         = default (AllowHTTP (HTTP c)) ((f ≫= fc_HTTP) ≫= fh_AllowHTTP)).
  { by intros c [[? ? ? [] ?]|]. }
  assert (Hdom : ∀ c f, Domains (merge_layer c f) = default (Domains c) (f ≫= fc_Domains)).
  { by intros c [[? ? ? [] ?]|]. }
  assert (Hdaemon : ∀ c f, Daemon (merge_layer c f)
            = default (default (Daemon c) (f ≫= fc_Daemon)) ((f ≫= fc_HTTP) ≫= fh_Daemon)).
  { by intros c [[? ? ? [] ?]|]. }
  assert (Hwork : ∀ c f, NoWorkers (merge_layer c f)
            = default (default (NoWorkers c) (f ≫= fc_NoWorkers)) ((f ≫= fc_HTTP) ≫= fh_NoWorkers)).
  { by intros c [[? ? ? [] ?]|]. }
  rewrite !first_of_cons. cbn [mergeWithContext HTTP Port DocumentRoot Passthru AllowHTTP ListenIp
                               Domains Daemon NoWorkers first_of].
  by rewrite !Hport, !Hroot, !Hpass, !Hhttp, !Hdom, !Hdaemon, !Hwork.
Qed.
End layers.

(** ** Ports *)

Lemma listen_loop_spec n ip port preferred max try :
  (port ≤ 0)%Z → preferred ≠ 0%Z → max ≠ 0 →
  match listen_loop n ip port preferred max try with
  | Some q => (try ≤ q < try + Z.of_nat max)%Z ∧ try_listen n ip q = true ∧
              ∀ r, (try ≤ r < q)%Z → try_listen n ip r = false
  | None => ∀ r, (try ≤ r < try + Z.of_nat max)%Z → try_listen n ip r = false
  end.
Proof.
  intros Hp Hpref. revert try. induction max as [|max IH]; intros try Hm; [done|]. cbn [listen_loop].
  destruct (try_listen n ip try) eqn:E; [split_and!; [lia|lia|done|lia]|].
  rewrite (bool_decide_eq_false_2 (port > 0)%Z), bool_decide_eq_false_2 by lia.
  destruct max as [|max].
  { intros r Hr. by replace r with try by lia. }
  specialize (IH (try + 1)%Z ltac:(done)).
  destruct (listen_loop _ _ _ _ (S max) _) as [q|].
  - destruct IH as (Hq & Hl & Hr). split_and!; [lia|lia|done|]. intros r Hr'.
    destruct (decide (r = try)) as [->|]; [done|]. apply Hr. lia.
  - intros r Hr'. destruct (decide (r = try)) as [->|]; [done|]. apply IH. lia.
Qed.

(** With a fixed port, that port or an error; with a preferred one, the
    first of the fifty ports from there on that is free both on 127.0.0.1 and
    on the address asked for, and an error only when none of them is. *)
Theorem CreateListener_first_free n ip port preferred :
  (0 ≤ port)%Z → (0 < preferred)%Z →
  match CreateListener n ip port preferred with
  | Some q =>
    try_listen n ip q = true ∧
    (q = port ∧ (0 < port)%Z ∨
     port = 0%Z ∧ (preferred ≤ q < preferred + 50)%Z ∧
     ∀ r, (preferred ≤ r < q)%Z → try_listen n ip r = false)
  | None =>
    if bool_decide (port = 0%Z) then ∀ r, (preferred ≤ r < preferred + 50)%Z → try_listen n ip r = false
    else try_listen n ip port = false
  end.
Proof.
  intros Hp Hpref. unfold CreateListener, mbind, option_bind.
  rewrite (bool_decide_eq_false_2 (port = 0 ∧ preferred = 0)%Z) by lia. case_bool_decide as Hpos.
  - cbn [listen_loop]. destruct (try_listen n ip port) eqn:E; [split; [done|left; lia]|].
    rewrite (bool_decide_eq_true_2 _ Hpos). by rewrite bool_decide_eq_false_2 by lia.
  - pose proof (listen_loop_spec n ip port preferred 50 preferred ltac:(lia) ltac:(lia) ltac:(done)) as H.
    destruct (listen_loop _ _ _ _ 50 _) as [q|].
    + destruct H as (Hq & Hl & Hr). split; [done|right]. split_and!; [lia|lia|lia|done].
    + rewrite bool_decide_eq_true_2 by lia. exact H.
Qed.

Lemma CreateListener_fixed n ip port p1 p2 :
  (0 < port)%Z → CreateListener n ip port p1 = CreateListener n ip port p2.
Proof.
  intros Hp. unfold CreateListener, mbind, option_bind.
  rewrite (bool_decide_eq_true_2 (port > 0)%Z) by lia. cbn [listen_loop].
  rewrite (bool_decide_eq_true_2 (port > 0)%Z) by lia.
  destruct (try_listen n ip port); [|done]. by rewrite !bool_decide_eq_false_2 by lia.
Qed.

Definition set_preferred (p : Z) (c : config) : config :=
  let h := HTTP c in
  mkConf (ProjectDir c) (NoWorkers c) (Daemon c)
    (mkHttp (DocumentRoot h) (Passthru h) (Port h) p (ListenIp h) (AllowHTTP h) (NoTLS h) (PKCS12 h)
       (TlsKeyLogFile h) (UseGzip h) (AllowCORS h)) (Workers c) (Domains c).

(** The port the server listens on. *)
Definition server_port (n : network) (fl : flags) (c : config) : option Z :=
  let h := HTTP (mergeWithContext fl c) in CreateListener n (ListenIp h) (Port h) (PreferredPort h).

(** The [preferred_port] of the configuration files never matters: without a
    port it is replaced by 8000, and with one it is not used. *)
Theorem preferred_port_ignored n fl c p :
  (0 ≤ default (Port (HTTP c)) (fl_port fl))%Z →
  server_port n fl (set_preferred p c) = server_port n fl c ∧
  (default (Port (HTTP c)) (fl_port fl) = 0%Z →
   server_port n fl c = CreateListener n (ListenIp (HTTP (mergeWithContext fl c))) 0 8000).
Proof.
  intros Hp. unfold server_port. cbn [mergeWithContext set_preferred HTTP Port PreferredPort ListenIp].
  case_bool_decide as H0.
  - rewrite H0. done.
  - split; [|done]. apply CreateListener_fixed. lia.
Qed.

(** ** The document root *)

Lemma TrimRight_end s c : HasSuffix (TrimRight s c) (String c "") = false.
Proof.
  apply not_true_iff_false. intros [r Hr]%HasSuffix_spec. revert r Hr. unfold TrimRight.
  induction s as [|a s IH]; intros r; cbn [drop_while_end].
  { intros H. by destruct r. }
  destruct (drop_while_end (Ascii.eqb c) s) as [|b t] eqn:E.
  - destruct (Ascii.eqb_spec c a) as [->|Hne]; intros H; destruct r as [|x r]; try done.
    + by injection H as ->.
    + rewrite sapp_cons in H. injection H as _ H. by destruct r.
  - intros H. destruct r as [|x r]; [done|]. rewrite sapp_cons in H. injection H as _ H. by eapply IH.
Qed.

(** The document root ends with exactly one slash.  It is computed unless
    [composer.json] has an [extra] that is not an object (PHP writes an empty
    one as an array), or a [public-dir] that is not a string: the unchecked
    type assertions then panic. *)
Theorem realDocumentRoot_spec json_object w dir documentRoot :
  match realDocumentRoot json_object w dir documentRoot with
  | Ret r => ∃ x, r = x +:+ "/" ∧ HasSuffix x "/" = false
  | Panic =>
    documentRoot = "" ∧ ∃ f v, read_file w (fjoin [dir; "composer.json"]) ≫= json_object = Some f ∧
      f !! "extra" = Some v ∧
      match v with
      | VMap extra => ∃ i k u, list_find (λ kv, kv.1 = "public-dir") extra = Some (i, (k, u))
                               ∧ asStringOk u = None
      | _ => True
      end
  end.
Proof.
  unfold realDocumentRoot. case_bool_decide as Hd.
  - unfold guessDocumentRoot. destruct (read_file w _ ≫= json_object) as [f|] eqn:Ef;
      [|cbn; eexists; split; [done|apply TrimRight_end]].
    destruct (f !! "extra") as [v|] eqn:Ev; [|cbn; eexists; split; [done|apply TrimRight_end]].
    destruct v; try (split; [done|]; exists f; eexists; split_and!; [done|exact Ev|done]).
    destruct (list_find _ l) as [[i [k u]]|] eqn:El; [|cbn; eexists; split; [done|apply TrimRight_end]].
    destruct u; try (cbn; eexists; split; [done|apply TrimRight_end]).
    all: split; [done|]; exists f; eexists; split_and!; [done|exact Ev|].
    all: do 3 eexists; split; [exact El|done].
  - eexists. split; [done|apply TrimRight_end].
Qed.

(** ** Concrete configurations *)

Definition no_http_file : http_file := mkHttpFile None None None None None None None None None None None None.
Definition ex_file (port : option Z) : fileConfig :=
  mkFile None None None
    (Some (mkHttpFile (Some "www") None port (Some 9000%Z) None None None None None None (Some true) None))
    (Some (list_to_map [("docker_compose", None); ("w", Some (mkFileWorker (Some ["run"]) None))])).
Definition no_flags : flags :=
  mkFlags false "127.0.0.1" None None None None None None None None None None None.
Definition ex_conf_os : os :=
  table_os ∅ (list_to_map [("/app/.symfony.local.yaml", Some "a"); ("/app/.symfony.local.override.yaml", Some "b");
                           ("/app/composer.json", Some "{}")]) "/app" "/h".
Definition ex_yaml (s : string) : option fileConfig :=
  Some (ex_file (if bool_decide (s = "a") then Some 8080%Z else None)).

Lemma mergeWithFileConfig_workers_witness :
  Workers (mergeWithFileConfig (empty_config "/app") (parseWorkers (ex_file None))) !! "docker_compose"
  = Some (mkWorker ["docker"; "compose"; "up"] (default [] (fw_Watch docker_compose_worker))).
Proof.
  rewrite (mergeWithFileConfig_workers (empty_config "/app") (ex_file None) _ "docker_compose" eq_refl).
  reflexivity.
Defined.

Lemma NewConfigFromContext_precedence_witness :
  ∃ c, NewConfigFromContext ex_yaml ex_conf_os "/app" no_flags = Val c ∧
    Port (HTTP c) = 8080%Z ∧ DocumentRoot (HTTP c) = "www" ∧ Daemon c = true.
Proof.
  eexists. split; [vm_compute; reflexivity|].
  edestruct (NewConfigFromContext_precedence ex_yaml ex_conf_os "/app" no_flags)
    as (Hp & Hd & _ & _ & _ & Hdm & _); [vm_compute; reflexivity|].
  rewrite Hp, Hd, Hdm. repeat split; vm_compute; reflexivity.
Defined.

Definition ex_net : network := mkNet (λ _ p, bool_decide (8002 ≤ p)%Z) (λ _, 49152%Z).

Lemma CreateListener_first_free_witness :
  CreateListener ex_net "" 0 8000 = Some 8002%Z ∧ try_listen ex_net "" 8001 = false.
Proof.
  split; [reflexivity|].
  destruct (CreateListener_first_free ex_net "" 0 8000 ltac:(lia) ltac:(lia)) as [_ [[_ H]|(_ & Hq & H)]];
    [lia|]. apply H. split; [done|]. reflexivity.
Defined.

Lemma preferred_port_ignored_witness :
  server_port ex_net no_flags (set_preferred 9000 (empty_config "/app"))
  = server_port ex_net no_flags (empty_config "/app") ∧
  server_port ex_net no_flags (set_preferred 9000 (empty_config "/app")) = Some 8002%Z.
Proof.
  destruct (preferred_port_ignored ex_net no_flags (empty_config "/app") 9000) as [H _];
    [simpl; lia|]. split; [exact H|]. reflexivity.
Defined.

(** A [composer.json] with ["extra": []]. *)
Example realDocumentRoot_extra_array :
  realDocumentRoot (λ _, Some {[ "extra" := VList [] ]}) ex_conf_os "/app" "" = Panic.
Proof. vm_compute. reflexivity. Qed.
