(* ===== verification/Runner.v ===== *)
(** * The runner of commands and workers ([local/runner.go],
    [local/runner_posix.go], the Docker Compose worker of
    [commands/local_server_start.go])

    [Run] starts a command, waits for it, for signals and for file events, and
    starts it again when it must.  It is a state machine: one step of the main
    goroutine between two blocking points is one transition, and the choices of
    the system (which channel is ready, which process ends) are the events.
    [cmdExitChan] is not buffered: the goroutines blocked on sending to it are
    part of the state, and so are the processes that [cmd.Wait] waits for.
    [restartChan] is not buffered and the sender does not block: an event that
    comes while the main goroutine does not receive is lost.  The pid file is
    written and removed by the operations of the pid file component.

    Not modelled: the messages logged, and what [Signal] does on Windows. *)

From stdpp Require Import base tactics option list gmap strings pretty.
From Stdlib Require Import ZArith Lia Ascii.
From S2P Require Import Prelude GoStrings FilePath Os Pid.

Inductive runnerMode := RunnerModeOnce | RunnerModeLoopAttached | RunnerModeLoopDetached.
#[export] Instance runnerMode_eq_dec : EqDecision runnerMode.
Proof. solve_decision. Defined.

(** [exec.Cmd]: its arguments start with the program; [c_std] says that it has
    the standard streams of the CLI instead of the log file. *)
Record Cmd := mkCmd {
  c_Path : string; c_Args : list string; c_Env : list string; c_Dir : string;
  c_Setpgid : bool; c_Foreground : bool; c_std : bool }.

(** The fields of [Runner] that its hooks change: [H] is what the hooks
    remember.  [build_hook] is [BuildCmdHook] ([None]: an error; no hook is the
    identity), [success_hook] is [SuccessHook] ([None]: no hook). *)
Class Hooks (H : Type) := {
  build_hook : H → Cmd → H * option Cmd;
  success_hook : H → option H;
  AlwaysRestartOnExit : H → bool }.

(** What [Run] returns besides [nil]; an exit status is [None] on success. *)
Inductive run_err :=
| LogErr | RunnerWentToBackground | StatusDirErr | BackgroundExit (code : Z) | NotifyErr
| WatchErr (path : string) | BuildErr | StartErr | FailedEarly (e : string)
| WritePidErr (e : write_err) | SignalErr (e : string) | CommandErr (e : string) | RemovePidErr.

(** What the outside world sees. *)
Inductive effect :=
| Started (pid : Z) (c : Cmd)
| Signalled (pid : Z) (sig : string)
| HookRan
| Notified (status : string)
| Remapped.

(** Where the main goroutine is: at the top of the loop, in the select of the
    first boot, after it, in the main select, waiting for the command that was
    told to stop, waiting before a restart, returned, panicking. *)
Inductive phase :=
| Top (firstBoot : bool)
| FirstWait (pid : Z)
| Boot (firstBoot : bool) (pid : Z)
| Select (pid : Z)
| Drain (pid : Z)
| Delay
| Done (r : option run_err)
| Crashed.

Record sys (H : Type) := mkSys {
  mode : runnerMode; binary : string; hk : H; pf : PidFile; st : store;
  live : list Z;                      (* started, [cmd.Wait] has not returned *)
  senders : list (option string);     (* blocked on [cmdExitChan <- status] *)
  pc : phase; log : list effect }.
Arguments mkSys {H}. Arguments mode {H}. Arguments binary {H}. Arguments hk {H}. Arguments pf {H}.
Arguments st {H}. Arguments live {H}. Arguments senders {H}. Arguments pc {H}. Arguments log {H}.

Inductive event :=
| BuildAndStart (interactive log_ok : bool) (pid : option Z)
| Continue
| CommandExits (pid : Z) (status : option string)
| ReceiveExit (status : option string)
| TimerFires
| SignalReceived (sig : string) (err : option string)
| FileEvent (path : string).

Definition set_alive (s : store) (p : Z) (b : bool) : store :=
  mkStore (files s) (λ q, if bool_decide (q = p) then b else alive s q).

(** One element less. *)
Fixpoint remove1 {A} `{!EqDecision A} (x : A) (l : list A) : list A :=
  match l with [] => [] | y :: l => if bool_decide (y = x) then l else y :: remove1 x l end.

Section runner.
Context {H : Type} `{!Hooks H}.
(** [os.Environ()] and [os.Getpid()]; whether the pid file can be written and
    removed. *)
Context (environ_list : list string) (getpid : Z)
        (can_write : string → write_result) (can_remove : string → bool).

Definition goto (s : sys H) (p : phase) : sys H :=
  mkSys (mode s) (binary s) (hk s) (pf s) (st s) (live s) (senders s) p (log s).
Definition emit (s : sys H) (e : list effect) : sys H :=
  mkSys (mode s) (binary s) (hk s) (pf s) (st s) (live s) (senders s) (pc s) (log s ++ e).
Definition set_hk (s : sys H) (h : H) : sys H :=
  mkSys (mode s) (binary s) h (pf s) (st s) (live s) (senders s) (pc s) (log s).
Definition set_store (s : sys H) (x : store) : sys H :=
  mkSys (mode s) (binary s) (hk s) (pf s) x (live s) (senders s) (pc s) (log s).
Definition set_pf (s : sys H) (p : PidFile) : sys H :=
  mkSys (mode s) (binary s) (hk s) p (st s) (live s) (senders s) (pc s) (log s).
Definition set_procs (s : sys H) (l : list Z) (w : list (option string)) : sys H :=
  mkSys (mode s) (binary s) (hk s) (pf s) (st s) l w (pc s) (log s).

(** [NewRunner]: [look_path] is [exec.LookPath]. *)
Definition NewRunner (look_path : string → option string) (h : H) (s : store) (p : PidFile)
    (m : runnerMode) : store * option (sys H) :=
  match look_path (Binary p) with
  | None => ((RemovePidFile can_remove s p).1, None)
  | Some b => (s, Some (mkSys m b h p s [] [] (Top false) []))
  end.

(** [buildCmd] of [runner_posix.go] and [Runner.buildCmd]; slicing empty
    arguments panics. *)
Definition buildCmd (s : sys H) (interactive log_ok : bool) : outcome (H * option Cmd) :=
  match p_Args (pf s) with
  | None | Some [] => Panic
  | Some (_ :: args) =>
    let once := bool_decide (mode s = RunnerModeOnce) in
    let cmd := mkCmd (binary s) (binary s :: args) environ_list (p_Dir (pf s)) true
                     (once && interactive) once in
    if negb once && negb log_ok then Ret (hk s, None) else Ret (build_hook (hk s) cmd)
  end.

(** The state [Run] needs before its loop: whether the process is the child of
    a [reexec], how [reexec.Background] ends, and so on. *)
Inductive bg_res := BgDone | BgExit (code : Z) | BgErr.
Record boot_env := mkBootEnv {
  b_log : bool; b_child : bool; b_mkdir : bool; b_background : bg_res; b_notify : bool;
  b_stat : string → stat_res; b_watch : string → bool }.

(** The loop over [pidFile.Watched]: the first path that cannot be watched. *)
Fixpoint watch_all (b : boot_env) (paths : list string) : option string :=
  match paths with
  | [] => None
  | path :: paths =>
    match b_stat b path with
    | Found isDir =>
      let watched := if isDir then fjoin [path; "..."] else path in
      if b_watch b watched then watch_all b paths else Some watched
    | _ => watch_all b paths
    end
  end.

Definition set_mode (s : sys H) (m : runnerMode) : sys H :=
  mkSys m (binary s) (hk s) (pf s) (st s) (live s) (senders s) (pc s) (log s).

(** What comes before the loop of [Run]: the mode may fall back to once. *)
Definition Run_prepare (b : boot_env) (s : sys H) : sys H :=
  if negb (b_log b) then goto s (Done (Some LogErr)) else
  let detach :=
    if bool_decide (mode s = RunnerModeLoopDetached) then
      if negb (b_child b) then
        if negb (b_mkdir b) then Err StatusDirErr else
        match b_background b with
        | BgDone => Err RunnerWentToBackground
        | BgExit code => Err (BackgroundExit code)
        | BgErr => Val (set_mode s RunnerModeOnce)
        end
      else if b_notify b then Val (emit s [Notified "boot"]) else Err NotifyErr
    else Val s in
  match detach with
  | Err e => goto s (Done (Some e))
  | Val s =>
    match watch_all b (p_Watched (pf s)) with
    | Some w => goto s (Done (Some (WatchErr w)))
    | None => goto s (Top (negb (bool_decide (mode s = RunnerModeOnce))))
    end
  end.

Definition looping (s : sys H) : bool :=
  negb (bool_decide (mode s = RunnerModeOnce)) || negb (bool_decide (p_Watched (pf s) = [])).

(** The command exited, in the main select. *)
Definition exit_received (s : sys H) (err : option string) : sys H :=
  let s := match err, success_hook (hk s) with
           | None, Some h => emit (set_hk s h) [HookRan]
           | _, _ => s
           end in
  if negb (looping s) then
    match err with
    | Some e => goto s (Done (Some (CommandErr e)))
    | None =>
      let '(x, ok) := RemovePidFile can_remove (st s) (pf s) in
      goto (set_store s x) (Done (if ok then None else Some RemovePidErr))
    end
  else if AlwaysRestartOnExit (hk s) then
    let s := set_store s (RemovePidFile can_remove (st s) (pf s)).1 in
    goto s (match err with Some _ => Delay | None => Top false end)
  else goto s (Done None).

(** After the first boot: the pid file. *)
Definition after_boot (s : sys H) (firstBoot : bool) (p : Z) : sys H :=
  let attached := bool_decide (mode s = RunnerModeLoopAttached) in
  let pid := if attached then p else getpid in
  let notify s :=
    if firstBoot && bool_decide (mode s = RunnerModeLoopDetached)
    then emit s [Remapped; Notified "up"] else s in
  if firstBoot || attached then
    match Write can_write (st s) (pf s) pid 0 "" with
    | Panic => goto s Crashed
    | Ret (x, q, Some e) => goto (set_pf (set_store s x) q) (Done (Some (WritePidErr e)))
    | Ret (x, q, None) => goto (notify (set_pf (set_store s x) q)) (Select p)
    end
  else goto (notify s) (Select p).

(** A temporary file of vim is ignored. *)
Definition restart_event (s : sys H) (path : string) : bool :=
  negb (bool_decide (p_Watched (pf s) = [])) && negb (HasSuffix (Ext path) "~").

(** The state once the command runs as process [p]. *)
Definition started (s : sys H) (firstBoot : bool) (h : H) (cmd : Cmd) (p : Z) : sys H :=
  let s := emit (set_store (set_procs (set_hk s h) (p :: live s) (senders s)) (set_alive (st s) p true))
                [Started p cmd] in
  if firstBoot then
    goto (if bool_decide (mode s = RunnerModeLoopDetached)
          then emit s [Notified "started"] else s) (FirstWait p)
  else goto s (Boot false p).

(** The transition for an event; [None] when it cannot happen. *)
Definition next (s : sys H) (e : event) : option (sys H) :=
  match e, pc s with
  | CommandExits p status, _ =>
    if bool_decide (p ∈ live s) then
      Some (set_store (set_procs s (remove1 p (live s)) (senders s ++ [status]))
              (set_alive (st s) p false))
    else None
  | BuildAndStart interactive log_ok pid, Top firstBoot =>
    match buildCmd s interactive log_ok with
    | Panic => Some (goto s Crashed)
    | Ret (h, None) => Some (goto (set_hk s h) (Done (Some BuildErr)))
    | Ret (h, Some cmd) =>
      match pid with
      | None => Some (goto (set_hk s h) (Done (Some StartErr)))
      | Some p =>
        if bool_decide (p = 0%Z) || alive (st s) p then None else Some (started s firstBoot h cmd p)
      end
    end
  | ReceiveExit err, FirstWait p =>
    if bool_decide (err ∈ senders s) then
      let rest := remove1 err (senders s) in
      match err with
      | Some e => Some (goto (set_procs s (live s) rest) (Done (Some (FailedEarly e))))
      | None => Some (goto (set_procs s (live s) (rest ++ [None])) (Boot true p))
      end
    else None
  | TimerFires, FirstWait p => Some (goto s (Boot true p))
  | Continue, Boot firstBoot p => Some (after_boot s firstBoot p)
  | SignalReceived sig err, Select p =>
    Some (goto (emit s [Signalled p sig]) (Done (SignalErr <$> err)))
  | FileEvent path, Select p =>
    if restart_event s path then Some (goto (emit s [Signalled p "terminated"]) (Drain p)) else Some s
  | ReceiveExit err, Select _ =>
    if bool_decide (err ∈ senders s) then
      Some (exit_received (set_procs s (live s) (remove1 err (senders s))) err)
    else None
  | ReceiveExit err, Drain _ =>
    if bool_decide (err ∈ senders s) then
      Some (goto (set_procs s (live s) (remove1 err (senders s))) (Top false))
    else None
  | SignalReceived _ _, Delay => Some (goto s (Done None))
  | FileEvent path, Delay => if restart_event s path then Some (goto s (Top false)) else Some s
  | TimerFires, Delay => Some (goto s (Top false))
  | FileEvent _, (Top _ | FirstWait _ | Boot _ _ | Drain _) => Some s
  | _, _ => None
  end.

(** The rules of the state machine, one for each way out of a blocking point. *)
Inductive step (s : sys H) : event → sys H → Prop :=
| step_exits p status : p ∈ live s →
  step s (CommandExits p status)
    (set_store (set_procs s (remove1 p (live s)) (senders s ++ [status])) (set_alive (st s) p false))
| step_build_panic i l pid fb : pc s = Top fb → buildCmd s i l = Panic →
  step s (BuildAndStart i l pid) (goto s Crashed)
| step_build_err i l pid fb h : pc s = Top fb → buildCmd s i l = Ret (h, None) →
  step s (BuildAndStart i l pid) (goto (set_hk s h) (Done (Some BuildErr)))
| step_start_err i l fb h cmd : pc s = Top fb → buildCmd s i l = Ret (h, Some cmd) →
  step s (BuildAndStart i l None) (goto (set_hk s h) (Done (Some StartErr)))
| step_start i l fb h cmd p : pc s = Top fb → buildCmd s i l = Ret (h, Some cmd) →
  p ≠ 0%Z → alive (st s) p = false →
  step s (BuildAndStart i l (Some p)) (started s fb h cmd p)
| step_failed_early e p : pc s = FirstWait p → Some e ∈ senders s →
  step s (ReceiveExit (Some e))
    (goto (set_procs s (live s) (remove1 (Some e) (senders s))) (Done (Some (FailedEarly e))))
| step_done_early p : pc s = FirstWait p → None ∈ senders s →
  step s (ReceiveExit None)
    (goto (set_procs s (live s) (remove1 None (senders s) ++ [None])) (Boot true p))
| step_relief p : pc s = FirstWait p → step s TimerFires (goto s (Boot true p))
| step_boot fb p : pc s = Boot fb p → step s Continue (after_boot s fb p)
| step_signal sig err p : pc s = Select p →
  step s (SignalReceived sig err) (goto (emit s [Signalled p sig]) (Done (SignalErr <$> err)))
| step_restart path p : pc s = Select p → restart_event s path = true →
  step s (FileEvent path) (goto (emit s [Signalled p "terminated"]) (Drain p))
| step_exit_received err p : pc s = Select p → err ∈ senders s →
  step s (ReceiveExit err) (exit_received (set_procs s (live s) (remove1 err (senders s))) err)
| step_drained err p : pc s = Drain p → err ∈ senders s →
  step s (ReceiveExit err) (goto (set_procs s (live s) (remove1 err (senders s))) (Top false))
| step_delay_signal sig err : pc s = Delay → step s (SignalReceived sig err) (goto s (Done None))
| step_delay_file path : pc s = Delay → restart_event s path = true →
  step s (FileEvent path) (goto s (Top false))
| step_delay_timer : pc s = Delay → step s TimerFires (goto s (Top false))
| step_ignored path :
  match pc s with
  | Select _ | Delay => restart_event s path = false
  | Done _ | Crashed => False
  | _ => True
  end → step s (FileEvent path) s.

(** The executable transition function implements exactly these rules. *)
Lemma next_step s e s' : next s e = Some s' ↔ step s e s'.
Proof.
  split.
  - intros Hn. unfold next in Hn. destruct e; destruct (pc s) eqn:Epc; try done.
    all: repeat match type of Hn with
         | match buildCmd ?s ?i ?l with _ => _ end = _ => destruct (buildCmd s i l) as [[h [cmd|]]|] eqn:?
         | match ?pid with None => _ | Some _ => _ end = _ => destruct pid
         | (if bool_decide ?P || ?b then _ else _) = _ =>
             destruct (bool_decide P) eqn:?; [done|]; destruct b eqn:?; [done|]; cbn [orb] in Hn
         | (if ?b then _ else _) = _ => destruct b eqn:?
         end; try done; apply Some_inj in Hn as <-.
    all: repeat match goal with
         | E : bool_decide _ = true |- _ => apply bool_decide_eq_true in E
         | E : bool_decide _ = false |- _ => apply bool_decide_eq_false in E
         end; try (econstructor; eauto; fail).
    all: apply step_ignored; by rewrite Epc.
  - intros Hs. destruct Hs; unfold next;
      repeat match goal with
      | E : pc s = _ |- _ => rewrite E
      | E : buildCmd _ _ _ = _ |- _ => rewrite E
      | E : restart_event _ _ = _ |- _ => rewrite E
      | E : _ ∈ _ |- _ => rewrite (bool_decide_eq_true_2 _ E)
      | E : _ ≠ 0%Z |- _ => rewrite (bool_decide_eq_false_2 _ E)
      | E : alive _ _ = false |- _ => rewrite E
      end; try done.
    destruct (pc s); try done; by rewrite H0.
Qed.

(** A run of the loop. *)
Inductive reachable (s0 : sys H) : sys H → Prop :=
| reach_refl : reachable s0 s0
| reach_step s e s' : reachable s0 s → next s e = Some s' → reachable s0 s'.

(** A concrete run. *)
Fixpoint run (evs : list event) (s : sys H) : option (sys H) :=
  match evs with [] => Some s | e :: evs => s' ← next s e; run evs s' end.

(** The states in which the loop of [Run] starts. *)
Definition initial (s : sys H) : Prop :=
  live s = [] ∧ senders s = [] ∧ pc s = Top (negb (bool_decide (mode s = RunnerModeOnce))).
End runner.

(** ** One command at a time *)

(** What holds of the processes in each phase: the command is running or its
    exit status waits to be received, and never both. *)
Definition one_of (l : list Z) (w : list (option string)) (p : Z) : Prop :=
  (l = [p] ∧ w = []) ∨ (l = [] ∧ ∃ e, w = [e]).

Definition procs_ok (p : phase) (l : list Z) (w : list (option string)) : Prop :=
  match p with
  | Top _ | Delay => l = [] ∧ w = []
  | FirstWait p | Boot _ p | Select p | Drain p => one_of l w p
  | Done _ | Crashed => length l + length w ≤ 1
  end.

(** A process is alive exactly while it has not been waited for. *)
Definition alive_ok (p : phase) (l : list Z) (x : store) : Prop :=
  match p with
  | FirstWait p | Boot _ p | Select p | Drain p => p ≠ 0%Z ∧ alive x p = bool_decide (p ∈ l)
  | _ => True
  end.

(** The commands started. *)
Definition starts (l : list effect) : list (Z * Cmd) :=
  omap (λ e, match e with Started p c => Some (p, c) | _ => None end) l.

Section runner_facts.
Context {H : Type} `{!Hooks H} (environ_list : list string) (getpid : Z)
        (can_write : string → write_result) (can_remove : string → bool).
Let next : sys H → event → option (sys H) := next environ_list getpid can_write can_remove.
Let reachable : sys H → sys H → Prop := reachable environ_list getpid can_write can_remove.

(** Invariants are proved by induction on the run. *)
Lemma reachable_inv (P : sys H → Prop) s0 s :
  P s0 → (∀ s e s', P s → next s e = Some s' → P s') → reachable s0 s → P s.
Proof. intros H0 Hs Hr. induction Hr; eauto. Qed.

Lemma run_reachable_from evs s0 s s' :
  reachable s0 s → run environ_list getpid can_write can_remove evs s = Some s' → reachable s0 s'.
Proof.
  revert s. induction evs as [|e evs IH]; intros s Hr; cbn [run]; [by intros [= <-]|].
  intros (s1 & Hn & He)%bind_Some. apply (IH s1); [|done]. by apply reach_step with s e.
Qed.

Lemma run_reachable evs s0 :
  bool_decide (is_Some (run environ_list getpid can_write can_remove evs s0)) = true →
  reachable s0 (default s0 (run environ_list getpid can_write can_remove evs s0)).
Proof.
  intros [s Hs]%bool_decide_eq_true. rewrite Hs. apply (run_reachable_from evs s0 s0); [constructor|done].
Qed.

Lemma Write_alive x q pid port scheme x' q' err :
  Write can_write x q pid port scheme = Ret (x', q', err) → alive x' = alive x.
Proof.
  unfold Write, write_file. intros (old & _ & Hw)%bind_inv. revert Hw.
  repeat case_match; simplify_eq; intros [= <- _ _]; done.
Qed.

Lemma one_of_exit l w p q (e : option string) : one_of l w p → q ∈ l →
  q = p ∧ remove1 q l = [] ∧ w ++ [e] = [e].
Proof.
  intros [[-> ->]|[-> _]] Hq; [|by apply elem_of_nil in Hq].
  apply list_elem_of_singleton in Hq as ->. simpl. by rewrite bool_decide_eq_true_2.
Qed.

Lemma one_of_receive l w p (e : option string) : one_of l w p → e ∈ w → l = [] ∧ remove1 e w = [].
Proof.
  intros [[_ ->]|[-> [e' ->]]] He; [by apply elem_of_nil in He|].
  apply list_elem_of_singleton in He as ->. simpl. by rewrite bool_decide_eq_true_2.
Qed.

Lemma exit_received_procs (s : sys H) err :
  live s = [] → senders s = [] →
  procs_ok (pc (exit_received can_remove s err)) (live (exit_received can_remove s err))
           (senders (exit_received can_remove s err)) ∧
  alive_ok (pc (exit_received can_remove s err)) (live (exit_received can_remove s err))
           (st (exit_received can_remove s err)).
Proof.
  intros Hl Hw. unfold exit_received. repeat case_match; simpl; rewrite ?Hl, ?Hw; simpl; auto.
Qed.

Lemma after_boot_procs (s : sys H) fb p :
  one_of (live s) (senders s) p → p ≠ 0%Z → alive (st s) p = bool_decide (p ∈ live s) →
  let s' := after_boot getpid can_write s fb p in
  procs_ok (pc s') (live s') (senders s') ∧ alive_ok (pc s') (live s') (st s').
Proof.
  intros Ho Hp Ha. unfold after_boot.
  assert (Hlen : length (live s) + length (senders s) ≤ 1).
  { destruct Ho as [[-> ->]|[-> [e ->]]]; done. }
  repeat case_match; simplify_eq/=; auto.
  all: match goal with E : Write _ _ _ _ _ _ = Ret _ |- _ => rewrite (Write_alive _ _ _ _ _ _ _ _ E) end; auto.
Qed.

Lemma remove1_length (p : Z) l : p ∈ l → S (length (remove1 p l)) = length l.
Proof.
  induction l as [|q l IH]; intros Hp; [by apply elem_of_nil in Hp|]. simpl.
  case_bool_decide as Hq; [done|]. simpl. f_equal. apply IH. by apply elem_of_cons in Hp as [->|?].
Qed.

Definition sys_ok (s : sys H) : Prop :=
  procs_ok (pc s) (live s) (senders s) ∧ alive_ok (pc s) (live s) (st s).

Lemma command_exits_ok s p status s' :
  sys_ok s → next s (CommandExits p status) = Some s' → sys_ok s'.
Proof.
  intros [Hp Ha] Hn. unfold next, Runner.next in Hn. case_bool_decide as Hin; [|done].
  apply Some_inj in Hn as <-. unfold sys_ok. simpl.
  assert (Hlive : ∀ p0, one_of (live s) (senders s) p0 → p0 ≠ 0%Z →
    one_of (remove1 p (live s)) (senders s ++ [status]) p0 ∧ p0 ≠ 0%Z ∧
    (if bool_decide (p0 = p) then false else alive (st s) p0) = bool_decide (p0 ∈ remove1 p (live s))).
  { intros p0 Ho Hz. destruct (one_of_exit _ _ _ _ status Ho Hin) as (-> & -> & ->).
    rewrite (bool_decide_eq_true_2 (p0 = p0)) by done.
    split_and!; [right; eauto|done|]. symmetry. apply bool_decide_eq_false_2, not_elem_of_nil. }
  destruct (pc s); simpl in *; try (by apply Hlive; tauto).
  all: try (destruct Hp as [Hl _]; rewrite Hl in Hin; by apply elem_of_nil in Hin).
  all: split; [|done]; rewrite length_app; simpl; pose proof (remove1_length _ _ Hin); lia.
Qed.

Lemma start_ok s i l pid s' :
  sys_ok s → next s (BuildAndStart i l pid) = Some s' → sys_ok s'.
Proof.
  intros [Hp Ha] Hn. unfold next, Runner.next in Hn. destruct (pc s) as [fb| | | | | | |]; try done.
  simpl in Hp. destruct Hp as [Hl Hw]. destruct (buildCmd _ _ _ _) as [[h [cmd|]]|].
  2,3: apply Some_inj in Hn as <-; unfold sys_ok; simpl; rewrite Hl, Hw; simpl; split; [lia|done].
  destruct pid as [p|]; [|apply Some_inj in Hn as <-; unfold sys_ok; simpl; rewrite Hl, Hw; simpl; split; [lia|done]].
  destruct (bool_decide (p = 0%Z)) eqn:Ez; [done|]. apply bool_decide_eq_false in Ez.
  destruct (alive (st s) p); [done|]. cbn [orb] in Hn. apply Some_inj in Hn as <-.
  assert (Hal : (if bool_decide (p = p) then true else alive (st s) p) = bool_decide (p ∈ [p])).
  { rewrite !bool_decide_eq_true_2; [done|by left|done]. }
  unfold sys_ok, started.
  destruct fb; cbn [goto pc mode emit set_store set_procs set_hk];
    [destruct (bool_decide (mode s = RunnerModeLoopDetached))|];
    simpl; rewrite Hl, Hw; (split; [by left|by split]).
Qed.

(** The processes and the phase agree, in every state that can be reached. *)
Lemma sys_ok_step s e s' : sys_ok s → next s e = Some s' → sys_ok s'.
Proof.
  destruct e as [i l pid| |p status|err| |sig err|path]; intros Hs Hn;
    [by eapply start_ok| |by eapply command_exits_ok|..];
    destruct Hs as [Hp Ha]; unfold next, Runner.next in Hn;
    destruct (pc s) as [fb|p0|fb p0|p0|p0| |r|] eqn:Epc; try done; simpl in Hp, Ha.
  all: try (destruct (bool_decide (err ∈ senders s)) eqn:Hin; [apply bool_decide_eq_true in Hin|done];
            destruct (one_of_receive _ _ _ _ Hp Hin) as [Hl Hr]; rewrite ?Hr in Hn).
  all: try (destruct (restart_event _ _)).
  all: try (apply Some_inj in Hn as <-).
  all: unfold sys_ok; try (simpl; rewrite ?Epc; simpl; tauto).
  - by apply after_boot_procs; tauto.
  - destruct err as [e|]; apply Some_inj in Hn as <-; simpl; rewrite Hl; simpl; [split; [lia|done]|].
    rewrite Hl in Ha. split; [right; eauto|done].
  - by apply exit_received_procs.
  - simpl. destruct Hp as [[-> ->]|[-> [e ->]]]; done.
  - simpl. destruct Hp as [-> ->]. simpl. split; [lia|done].
Qed.

Lemma reachable_ok s0 s : initial s0 → reachable s0 s → sys_ok s.
Proof.
  intros (Hl & Hw & Hp). apply reachable_inv; [|apply sys_ok_step].
  unfold sys_ok. rewrite Hl, Hw, Hp. by destruct (negb _).
Qed.

Lemma sys_ok_length s : sys_ok s → length (live s) + length (senders s) ≤ 1.
Proof.
  intros [Hp _]. destruct (pc s); simpl in Hp; try done.
  all: destruct Hp as [[-> ->]|[-> [e ->]]] || destruct Hp as [-> ->]; simpl; lia.
Qed.

(** C14: there is at most one command at a time, running or with an exit status
    that waits to be received.  A command is only started when the previous
    one has been waited for and its status received, and a restart is never
    stuck: once the command that was told to stop ends, the loop starts the
    next one. *)
Theorem Run_one_command s0 s :
  initial s0 → reachable s0 s →
  length (live s) + length (senders s) ≤ 1 ∧
  (∀ i l p s', next s (BuildAndStart i l (Some p)) = Some s' → live s = [] ∧ senders s = []) ∧
  (∀ p, pc s = Drain p →
     (live s = [p] ∧ ∀ status, ∃ s1 s2, next s (CommandExits p status) = Some s1 ∧
                     next s1 (ReceiveExit status) = Some s2 ∧ pc s2 = Top false)
     ∨ ∃ status s2, senders s = [status] ∧ next s (ReceiveExit status) = Some s2 ∧ pc s2 = Top false).
Proof.
  intros Hi Hr. pose proof (reachable_ok _ _ Hi Hr) as Hok. split_and!.
  - by apply sys_ok_length.
  - intros i l p s' Hn. unfold next, Runner.next in Hn. destruct Hok as [Hp _].
    by destruct (pc s).
  - intros p Epc. destruct Hok as [Hp _]. rewrite Epc in Hp. simpl in Hp.
    destruct Hp as [[Hl Hw]|[Hl [e Hw]]]; [left|right].
    + split; [done|]. intros status. unfold next, Runner.next. rewrite Hl, Hw.
      rewrite (bool_decide_eq_true_2 (p ∈ [p])) by (by left).
      eexists _, _. split; [done|]. cbn [pc set_store set_procs senders]. rewrite Epc.
      rewrite bool_decide_eq_true_2 by (by left). done.
    + exists e. unfold next, Runner.next. rewrite Epc, Hw, bool_decide_eq_true_2 by (by left).
      eexists. split_and!; done.
Qed.

(** ** The pid file *)

Lemma Write_pf x q pid port scheme x' q' err :
  Write can_write x q pid port scheme = Ret (x', q', err) →
  p_path q' = p_path q ∧ p_Watched q' = p_Watched q ∧
  (err = None → files x' !! p_path q = Some (CPid (with_path "" q')) ∧ p_Pid q' = pid).
Proof.
  unfold Write, write_file. intros (old & _ & Hw)%bind_inv. revert Hw.
  repeat case_match; simplify_eq; intros [= <- <- <-]; split_and!; try done.
  all: intros _; split; [apply lookup_insert_eq|done].
Qed.

(** What no transition changes. *)
Lemma next_frame s e s' : next s e = Some s' →
  mode s' = mode s ∧ p_path (pf s') = p_path (pf s) ∧ p_Watched (pf s') = p_Watched (pf s).
Proof.
  assert (Ha : ∀ fb p, let s' := after_boot getpid can_write s fb p in
    mode s' = mode s ∧ p_path (pf s') = p_path (pf s) ∧ p_Watched (pf s') = p_Watched (pf s)).
  { intros fb p. unfold after_boot. repeat case_match; simplify_eq/=; try done.
    all: match goal with E : Write _ _ _ _ _ _ = Ret _ |- _ => apply Write_pf in E; tauto end. }
  intros Hn%next_step. destruct Hn; try done; try apply Ha.
  all: unfold started, exit_received; repeat case_match; done.
Qed.

(** How the main select is reached. *)
Lemma exit_received_pc (s : sys H) err p : pc (exit_received can_remove s err) ≠ Select p.
Proof. unfold exit_received. repeat case_match; done. Qed.

Lemma after_boot_pc (s : sys H) fb p q : pc (after_boot getpid can_write s fb p) = Select q → q = p.
Proof. unfold after_boot. repeat case_match; by intros [= ->]. Qed.

Lemma next_Select s e s' p : next s e = Some s' → pc s' = Select p →
  (pc s = Select p ∧ files (st s') = files (st s) ∧ pf s' = pf s) ∨
  ∃ fb, pc s = Boot fb p ∧ s' = after_boot getpid can_write s fb p.
Proof.
  intros Hn%next_step Hp. destruct Hn; simpl in Hp; try done; [by left| | | |by left].
  - exfalso. revert Hp. unfold started. repeat case_match; done.
  - right. exists fb. by apply after_boot_pc in Hp as ->.
  - by apply exit_received_pc in Hp.
Qed.

Definition recorded (s : sys H) : Prop :=
  mode s = RunnerModeLoopAttached → ∀ p, pc s = Select p →
  ∃ q, files (st s) !! p_path (pf s) = Some (CPid q) ∧ p_Pid q = p.

Lemma recorded_step s e s' : recorded s → next s e = Some s' → recorded s'.
Proof.
  intros Hs Hn Hm p Hp. destruct (next_frame _ _ _ Hn) as (Em & Epf & _).
  destruct (next_Select _ _ _ _ Hn Hp) as [(Hp' & -> & ->)|(fb & _ & ->)].
  { apply Hs; [congruence|done]. }
  rewrite Epf. rewrite Hm in Em. revert Hp. unfold after_boot. rewrite <-Em.
  rewrite bool_decide_eq_true_2, orb_true_r by done.
  destruct (Write _ _ _ _ _ _) as [[[x q] [e'|]]|] eqn:E; try done.
  destruct (proj2 (proj2 (Write_pf _ _ _ _ _ _ _ _ E)) eq_refl) as [E1 E2].
  destruct (_ && _); intros _; cbn [st goto emit set_pf set_store]; eauto.
Qed.

(** In the attached mode, while the runner waits for a command, loading the
    pid file gives the pid of that command, so that it is seen as running
    exactly as long as it runs. *)
Theorem attached_pid_file s0 s p :
  initial s0 → mode s0 = RunnerModeLoopAttached → reachable s0 s → pc s = Select p →
  ∃ q, Load (st s) (p_path (pf s0)) = Ret (Some q) ∧ p_Pid q = p ∧
       IsRunning (st s) q = bool_decide (live s = [p]).
Proof.
  intros Hi Hm Hr Hp.
  assert (Hf : mode s = mode s0 ∧ p_path (pf s) = p_path (pf s0)).
  { apply (reachable_inv (λ s, mode s = mode s0 ∧ p_path (pf s) = p_path (pf s0)) s0); [done| |done].
    intros s1 e s2 [<- <-] Hn. apply next_frame in Hn. tauto. }
  destruct Hf as [Em Epf].
  assert (Hrec : recorded s).
  { apply (reachable_inv recorded s0); [|apply recorded_step|done].
    intros _ q Hq. destruct Hi as (_ & _ & Hi). congruence. }
  destruct (Hrec ltac:(congruence) p Hp) as (q & Hq & Hpid). rewrite Epf in Hq.
  exists (with_path (p_path (pf s0)) q). split_and!; [by unfold Load; rewrite Hq|done|].
  destruct (reachable_ok _ _ Hi Hr) as [Hone Hal]. rewrite Hp in Hone, Hal. simpl in Hone, Hal.
  destruct Hal as [Hz Hal]. unfold IsRunning. cbn [with_path p_Pid]. rewrite Hpid.
  rewrite (bool_decide_eq_false_2 (p = 0%Z)) by done. rewrite Hal.
  apply bool_decide_ext. destruct Hone as [[-> _]|[-> _]]; split; try done; [by left|].
  intros Hx. by apply elem_of_nil in Hx.
Qed.

(** ** First run and restarts *)

Lemma starts_app l k : starts (l ++ k) = starts l ++ starts k.
Proof. apply omap_app. Qed.

Definition early (s0 s : sys H) : Prop :=
  match pc s with
  | Top true => files (st s) = files (st s0) ∧ starts (log s) = starts (log s0)
  | FirstWait _ | Done (Some (FailedEarly _)) =>
    files (st s) = files (st s0) ∧ ∃ p, starts (log s) = starts (log s0) ++ [p]
  | _ => True
  end.

Lemma early_step s0 s e s' : early s0 s → next s e = Some s' → early s0 s'.
Proof.
  unfold early. intros Hs Hn%next_step. destruct Hn; simpl in *;
    repeat match goal with E : pc s = _ |- _ => rewrite E in Hs end; try done.
  - unfold started. destruct fb; [|done]. destruct Hs as [Hf Hl].
    simpl. case_bool_decide; simpl; rewrite ?starts_app, Hl; simpl; rewrite ?app_nil_r; eauto.
  - unfold after_boot. repeat case_match; done.
  - by destruct err.
  - unfold exit_received. repeat case_match; done.
Qed.

(** When the first command of a looping runner fails within the relief
    duration, the runner gives up: this command is the only one that was
    started and no pid file was written or removed. *)
Theorem Run_early_failure s0 s e :
  initial s0 → mode s0 ≠ RunnerModeOnce → reachable s0 s → pc s = Done (Some (FailedEarly e)) →
  files (st s) = files (st s0) ∧ ∃ p, starts (log s) = starts (log s0) ++ [p].
Proof.
  intros (_ & _ & Hi) Hm Hr Hp.
  assert (He : early s0 s); [|by unfold early in He; rewrite Hp in He].
  apply (reachable_inv (early s0) s0); [|apply early_step|done].
  unfold early. rewrite Hi, bool_decide_eq_false_2 by done. done.
Qed.

Definition no_restart (s0 s : sys H) : Prop :=
  p_Watched (pf s) = [] ∧
  match pc s with
  | Top _ => starts (log s) = starts (log s0)
  | Drain _ | Delay => False
  | _ => length (starts (log s)) ≤ S (length (starts (log s0)))
  end.

Lemma no_restart_step s0 s e s' :
  (∀ h : H, AlwaysRestartOnExit h = false) → no_restart s0 s → next s e = Some s' → no_restart s0 s'.
Proof.
  intros Hno [Hw Hs] Hn. split; [by apply next_frame in Hn as (_ & _ & ->)|].
  apply next_step in Hn. destruct Hn; simpl in *;
    repeat match goal with E : pc s = _ |- _ => rewrite E in Hs end; try done.
  all: try (rewrite Hs; lia); try (rewrite starts_app; simpl; rewrite app_nil_r; done).
  - unfold started. destruct fb; simpl; [case_bool_decide|]; simpl;
      rewrite ?starts_app, ?Hs, ?length_app; simpl; lia.
  - unfold after_boot. repeat case_match; simpl; rewrite ?starts_app; simpl; rewrite ?app_nil_r; done.
  - exfalso. revert H1. unfold restart_event. by rewrite Hw.
  - unfold exit_received. destruct err; [|destruct (success_hook _)]; destruct (looping _); simpl;
      rewrite ?Hno; simpl; rewrite ?starts_app; simpl; rewrite ?app_nil_r; try done.
    all: destruct (RemovePidFile _ _ _); simpl; rewrite ?starts_app, ?app_nil_r; done.
Qed.

(** A looping runner whose [AlwaysRestartOnExit] is false and that watches
    nothing never starts its command twice, whatever the exit status. *)
Theorem loop_mode_runs_once s0 s :
  (∀ h : H, AlwaysRestartOnExit h = false) → initial s0 → p_Watched (pf s0) = [] →
  reachable s0 s → length (starts (log s)) ≤ S (length (starts (log s0))).
Proof.
  intros Hno (_ & _ & Hi) Hw Hr.
  assert (Hs : no_restart s0 s).
  { apply (reachable_inv (no_restart s0) s0); [|intros; by eapply no_restart_step|done].
    split; [done|]. by rewrite Hi. }
  destruct Hs as [_ Hs]. destruct (pc s); try done. rewrite Hs. lia.
Qed.
End runner_facts.

(** ** The workers of [server:start]

    [BuildCmdHook] adds the environment of the project; the hook of the Docker
    Compose worker also adds [--wait] until the services are up, then makes the
    runner restart the command once, without it. *)

Inductive build_kind := BuildOriginal | BuildWait | BuildReset.
Record worker := mkWorker {
  w_env : list string; w_always : bool; w_success : bool; w_build : build_kind }.

Definition add_env (env : list string) (c : Cmd) : Cmd :=
  mkCmd (c_Path c) (c_Args c) (c_Env c ++ env) (c_Dir c) (c_Setpgid c) (c_Foreground c) (c_std c).
Definition add_wait (c : Cmd) : Cmd :=
  mkCmd (c_Path c) (c_Args c ++ ["--wait"]) (c_Env c) (c_Dir c) (c_Setpgid c) (c_Foreground c) (c_std c).

#[export] Instance worker_hooks : Hooks worker := {
  build_hook w c :=
    match w_build w with
    | BuildOriginal => (w, Some (add_env (w_env w) c))
    | BuildWait => (w, Some (add_env (w_env w) (add_wait c)))
    | BuildReset => (mkWorker (w_env w) false (w_success w) (w_build w), Some (add_env (w_env w) c))
    end;
  success_hook w :=
    if w_success w then Some (mkWorker (w_env w) true false BuildReset) else None;
  AlwaysRestartOnExit := w_always }.

(** A worker, and the Docker Compose worker, before they run. *)
Definition plain_worker (env : list string) : worker := mkWorker env false false BuildOriginal.
Definition compose_worker (env : list string) : worker := mkWorker env false true BuildWait.

(** The commands started (with their last argument) and the calls of the
    success hook, which calls [dockerWg.Done()]. *)
Inductive compose_event := Up (waits : bool) | Ready.
Definition compose_trace (l : list effect) : list compose_event :=
  omap (λ e, match e with
             | Started _ c => Some (Up (bool_decide (last (c_Args c) = Some "--wait")))
             | HookRan => Some Ready
             | _ => None
             end) l.

Section compose.
Context (environ_list : list string) (getpid : Z) (can_write : string → write_result) (can_remove : string → bool).
Context (env : list string).
Let reachable : sys worker → sys worker → Prop := reachable environ_list getpid can_write can_remove.

Lemma compose_trace_app l k : compose_trace (l ++ k) = compose_trace l ++ compose_trace k.
Proof. apply omap_app. Qed.

(** What the hooks remember and what was seen agree. *)
Definition compose_ok (s : sys worker) : Prop :=
  (∃ bin args, p_Args (pf s) = Some (bin :: args) ∧ last (binary s :: args) ≠ Some "--wait") ∧
  ((hk s = compose_worker env ∧ ∃ n, compose_trace (log s) = replicate n (Up true)) ∨
   ∃ n m always, compose_trace (log s) = replicate n (Up true) ++ Ready :: replicate m (Up false) ∧
          hk s = mkWorker env always false BuildReset ∧ (always = true → m = 0)).

Lemma Write_args x q pid port scheme x' q' err :
  Write can_write x q pid port scheme = Ret (x', q', err) → p_Args q' = p_Args q.
Proof.
  unfold Write, write_file. intros (old & _ & Hw)%bind_inv. revert Hw.
  repeat case_match; simplify_eq; by intros [= <- <- <-].
Qed.

Lemma buildCmd_hook (s : sys worker) i l bin args h oc :
  p_Args (pf s) = Some (bin :: args) → buildCmd environ_list s i l = Ret (h, oc) →
  (h = hk s ∧ oc = None) ∨ ∃ c, c_Args c = binary s :: args ∧ build_hook (hk s) c = (h, oc).
Proof.
  unfold buildCmd. intros ->. destruct (_ && _).
  - intros [= <- <-]. by left.
  - intros E%Ret_inj. right. eexists. split; [|exact E]. done.
Qed.

(** The hook leaves what it remembers consistent, even when the command does
    not start. *)
Lemma compose_ok_build s i l h oc p :
  compose_ok s → buildCmd environ_list s i l = Ret (h, oc) →
  compose_ok (goto (set_hk s h) p) ∧
  ∀ cmd fb q, oc = Some cmd → compose_ok (started s fb h cmd q).
Proof.
  intros [(bin & args & Ha & Hl) Hs] Hb.
  assert (Hst : ∀ cmd fb q, compose_trace (log (started s fb h cmd q))
                            = compose_trace (log s) ++ compose_trace [Started q cmd]).
  { intros. unfold started. repeat case_match; simpl; rewrite ?compose_trace_app; simpl;
      by rewrite ?app_nil_r. }
  assert (Hhk : ∀ cmd fb q, hk (started s fb h cmd q) = h ∧ pf (started s fb h cmd q) = pf s
                            ∧ binary (started s fb h cmd q) = binary s).
  { intros. unfold started. repeat case_match; done. }
  destruct (buildCmd_hook _ _ _ _ _ _ _ Ha Hb) as [[-> ->]|(c & Hc & Hh)].
  { split; [|done]. split; simpl; eauto. }
  unfold compose_ok.
  destruct Hs as [[Hk [n Hn]]|(n & m & always & Hn & Hk & Hm)]; rewrite Hk in Hh; simpl in Hh;
    injection Hh as <- <-; simpl.
  - split; [eauto 10|]. intros cmd fb q [= <-]. destruct (Hhk (add_env env (add_wait c)) fb q) as (-> & -> & ->).
    split; [eauto|]. left. split; [done|]. exists (S n).
    rewrite Hst, Hn. simpl. rewrite last_snoc, bool_decide_eq_true_2 by done.
    change (replicate n (Up true) ++ [Up true] = replicate (S n) (Up true)).
    symmetry. apply replicate_S_end.
  - split; [split; [eauto|]; right; exists n, m, false; done|].
    intros cmd fb q [= <-]. destruct (Hhk (add_env env c) fb q) as (-> & -> & ->).
    split; [eauto|]. right. exists n, (S m), false. split_and!; [|done|done].
    rewrite Hst, Hn. cbn [compose_trace omap list_omap add_env c_Args].
    rewrite Hc, bool_decide_eq_false_2 by done. by rewrite replicate_S_end, <-app_assoc.
Qed.

Lemma compose_ok_step s e s' :
  compose_ok s → next environ_list getpid can_write can_remove s e = Some s' → compose_ok s'.
Proof.
  intros Hok Hn%next_step. pose proof Hok as [(bin & args & Ha & Hl) Hs].
  assert (Hkeep : ∀ s1 : sys worker, p_Args (pf s1) = p_Args (pf s) → binary s1 = binary s → hk s1 = hk s →
                  compose_trace (log s1) = compose_trace (log s) → compose_ok s1).
  { intros s1 E1 E2 E3 E4. unfold compose_ok. by rewrite E1, E2, E3, E4. }
  destruct Hn; try (by apply Hkeep).
  all: try (apply Hkeep; try done; simpl; rewrite compose_trace_app; simpl; by rewrite app_nil_r).
  1,2: edestruct compose_ok_build as [Hx _]; [exact Hok|eassumption|exact Hx].
  - edestruct (compose_ok_build s i l h (Some cmd) Delay) as [_ Hx]; [done..|]. by apply Hx.
  - apply Hkeep; unfold after_boot; repeat case_match; simpl; rewrite ?compose_trace_app, ?app_nil_r;
      try done; by eapply Write_args.
  - destruct err as [err|].
    { apply Hkeep; unfold exit_received; repeat case_match; done. }
    destruct Hs as [[Hk [n Hn]]|(n & m & always & Hn & Hk & Hm)].
    + unfold compose_ok, exit_received. cbn [hk set_procs]. rewrite Hk. simpl.
      destruct (negb _); [destruct (RemovePidFile _ _ _)|]; simpl; rewrite compose_trace_app, Hn;
        (split; [eauto|]; right; exists n, 0, true; done).
    + apply Hkeep; unfold exit_received; cbn [hk set_procs]; rewrite Hk; simpl;
        repeat case_match; done.
Qed.

(** The Docker Compose worker starts its command with [--wait] until it
    succeeds once; then the other workers are released, exactly once, and it
    is only started without [--wait]; it restarts on its own only for the
    first of these runs. *)
Theorem compose_worker_runs s0 s bin args :
  initial s0 → hk s0 = compose_worker env → log s0 = [] →
  p_Args (pf s0) = Some (bin :: args) → last (binary s0 :: args) ≠ Some "--wait" →
  reachable s0 s →
  (∃ n, compose_trace (log s) = replicate n (Up true) ∧ w_always (hk s) = false) ∨
  ∃ n m, compose_trace (log s) = replicate n (Up true) ++ Ready :: replicate m (Up false) ∧
         (w_always (hk s) = true → m = 0).
Proof.
  intros _ Hk Hlog Ha Hl Hr.
  assert (Hok : compose_ok s).
  { apply (reachable_inv environ_list getpid can_write can_remove compose_ok s0); [|apply compose_ok_step|done].
    split; [eauto|]. left. split; [done|]. exists 0. by rewrite Hlog. }
  destruct Hok as [_ [[-> [n Hn]]|(n & m & always & Hn & -> & Hm)]]; eauto 10.
Qed.
End compose.

(** [local run]: the hook adds the environment, or fails; nothing is ever
    restarted on exit. *)
Record run_hook := mkRunHook { rh_env : option (list string) }.
#[export] Instance run_hooks : Hooks run_hook := {
  build_hook h c := (h, (λ env, add_env env c) <$> rh_env h);
  success_hook _ := None;
  AlwaysRestartOnExit _ := false }.

(** ** Concrete runs *)

Definition ex_pf (watched : list string) : PidFile :=
  mkPid "/p" watched 0 0 "" (Some ["docker"; "up"]) "" "/h/var/x.pid".
Definition ex_sys {H} (h : H) (m : runnerMode) (watched : list string) : sys H :=
  mkSys m "/bin/docker" h (ex_pf watched) (mkStore ∅ (λ _, false)) [] []
        (Top (negb (bool_decide (m = RunnerModeOnce)))) [].
Definition yes (_ : string) : bool := true.
Definition written (_ : string) : write_result := WriteDone.
Definition ex_run {H} `{!Hooks H} (s : sys H) (evs : list event) : sys H :=
  default s (run [] 99 written yes evs s).
Definition ex_start (p : Z) : list event := [BuildAndStart false true (Some p); TimerFires; Continue].
Definition ex_compose : sys worker := ex_sys (compose_worker ["A=1"]) RunnerModeLoopAttached ["/p/src"].

Lemma Run_one_command_witness :
  let s := ex_run ex_compose (ex_start 10 ++ [FileEvent "/p/src/a.php"]) in
  pc s = Drain 10 ∧ length (live s) + length (senders s) ≤ 1.
Proof.
  intros s. split; [vm_compute; reflexivity|].
  assert (Hr : reachable [] 99%Z written yes ex_compose s) by (apply run_reachable; vm_compute; reflexivity).
  refine (proj1 (Run_one_command [] 99%Z written yes ex_compose s _ Hr)). by repeat split.
Defined.

Lemma attached_pid_file_witness :
  let s := ex_run ex_compose (ex_start 10) in
  ∃ q, Load (st s) "/h/var/x.pid" = Ret (Some q) ∧ p_Pid q = 10%Z ∧
       IsRunning (st s) q = bool_decide (live s = [10%Z]).
Proof.
  intros s.
  assert (Hr : reachable [] 99%Z written yes ex_compose s) by (apply run_reachable; vm_compute; reflexivity).
  refine (attached_pid_file [] 99%Z written yes ex_compose s 10 _ _ Hr _); [by repeat split|done|].
  vm_compute. reflexivity.
Defined.

Lemma Run_early_failure_witness :
  let s := ex_run ex_compose [BuildAndStart false true (Some 10%Z); CommandExits 10 (Some "exit status 1");
                              ReceiveExit (Some "exit status 1")] in
  files (st s) = files (st ex_compose) ∧ ∃ p, starts (log s) = starts (log ex_compose) ++ [p].
Proof.
  intros s.
  assert (Hr : reachable [] 99%Z written yes ex_compose s) by (apply run_reachable; vm_compute; reflexivity).
  refine (Run_early_failure [] 99%Z written yes ex_compose s "exit status 1" _ _ Hr _);
    [by repeat split|done|]. vm_compute. reflexivity.
Defined.

Definition ex_daemon : sys run_hook := ex_sys (mkRunHook (Some [])) RunnerModeLoopDetached [].

Lemma loop_mode_runs_once_witness :
  let s := ex_run ex_daemon (ex_start 10 ++ [CommandExits 10 (Some "exit status 1");
                                             ReceiveExit (Some "exit status 1")]) in
  pc s = Done None ∧ length (starts (log s)) ≤ 1.
Proof.
  intros s. split; [vm_compute; reflexivity|].
  assert (Hr : reachable [] 99%Z written yes ex_daemon s) by (apply run_reachable; vm_compute; reflexivity).
  exact (loop_mode_runs_once [] 99%Z written yes ex_daemon s (λ _, eq_refl) (conj eq_refl (conj eq_refl eq_refl))
           eq_refl Hr).
Defined.

(** The worker is up, then restarts and keeps following the containers. *)
Lemma compose_worker_runs_witness :
  let s := ex_run ex_compose (ex_start 10 ++ [CommandExits 10 None; ReceiveExit None;
                                              BuildAndStart false true (Some 11%Z); Continue]) in
  compose_trace (log s) = [Up true; Ready; Up false] ∧
  ((∃ n, compose_trace (log s) = replicate n (Up true) ∧ w_always (hk s) = false) ∨
   ∃ n m, compose_trace (log s) = replicate n (Up true) ++ Ready :: replicate m (Up false) ∧
          (w_always (hk s) = true → m = 0)).
Proof.
  intros s. split; [vm_compute; reflexivity|].
  assert (Hr : reachable [] 99%Z written yes ex_compose s) by (apply run_reachable; vm_compute; reflexivity).
  refine (compose_worker_runs [] 99%Z written yes ["A=1"] ex_compose s "docker" ["up"] _ _ _ _ _ Hr);
    [by repeat split|done|done|done|]. simpl. intros [=].
Defined.
