(* ===== verification/Http.v ===== *)
(** * The HTTP server ([local/http/http.go], [push.go], [cors.go],
    [response_proxy.go])

    The server answers a request with a static file of the document root, or
    hands it to a callback (PHP); it pushes the resources that the [Link]
    headers of the response announce.  [net/http], TLS, gzip and the HTML of
    the error pages are not modelled: a handler yields what it decides, and
    [http.ServeFile] is modelled by its documented checks on the URL.  The
    header fields are those of [http.Header], with their canonical names. *)

From stdpp Require Import base tactics option list gmap strings pretty.
From Stdlib Require Import ZArith Lia Ascii.
From S2P Require Import Prelude GoStrings FilePath Os ProjectConfig.

Abbreviation Header := (gmap string (list string)).
Definition Header_Get (h : Header) (k : string) : string := default "" (h !! k ≫= head).

Record HttpRequest := mkReq {
  r_Host : string; r_Path : string; r_RawQuery : string; r_Proto : string; r_Header : Header;
  r_RemoteAddr : string }.

Record Server := mkServer {
  DocumentRoot : string; SPort : Z; SPreferredPort : Z; SListenIp : string; SPKCS12 : string;
  SAllowHTTP : bool; SAppversion : string; SUseGzip : bool; STlsKeyLogFile : string; SAllowCORS : bool;
  serverPort : string }.

(** ** Starting *)

Inductive http_handler := ServeAll | ServeForwardedOrRedirect.
Record running_server := mkRunning {
  rs_port : Z; rs_gzip : bool; rs_cors : bool; rs_http : http_handler; rs_https : bool }.
Inductive start_err := ListenErr | GzipErr | CertErr | KeyLogErr.

(** Whether the gzip wrapper, the certificate and the key log file are usable. *)
Definition Start (n : network) (gzip_ok : bool) (cert_ok key_log_ok : string → bool) (s : Server)
  : gores start_err (Server * running_server) :=
  match CreateListener n (SListenIp s) (SPort s) (SPreferredPort s) with
  | None => Err ListenErr
  | Some port =>
    let s := mkServer (DocumentRoot s) (SPort s) (SPreferredPort s) (SListenIp s) (SPKCS12 s)
               (SAllowHTTP s) (SAppversion s) (SUseGzip s) (STlsKeyLogFile s) (SAllowCORS s) (Itoa port) in
    if SUseGzip s && negb gzip_ok then Err GzipErr
    else if bool_decide (SPKCS12 s = "") then
      Val (s, mkRunning port (SUseGzip s) (SAllowCORS s) ServeAll false)
    else if negb (cert_ok (SPKCS12 s)) then Err CertErr
    else if negb (bool_decide (STlsKeyLogFile s = "")) && negb (key_log_ok (STlsKeyLogFile s))
      then Err KeyLogErr
    else Val (s, mkRunning port (SUseGzip s) (SAllowCORS s)
                   (if SAllowHTTP s then ServeAll else ServeForwardedOrRedirect) true)
  end.

(** The handler of plain HTTP when only HTTPS is allowed: [None] serves the
    request as HTTPS does, [Some] redirects. *)
Definition redirect_handler (r : HttpRequest) : option string :=
  if bool_decide (Header_Get (r_Header r) "X-Forwarded-Proto" = "https")
     && HasPrefix (r_RemoteAddr r) "127.0.0.1:" then None
  else
    let target := "https://" +:+ r_Host r +:+ r_Path r in
    Some (if bool_decide (r_RawQuery r = "") then target else target +:+ "?" +:+ r_RawQuery r).

(** ** Requests *)

(** [strings.FieldsFunc(v, isSlashRune)], with the empty fields. *)
Definition is_slash (c : ascii) : bool := Ascii.eqb c "/" || Ascii.eqb c "\".
Fixpoint fields (cur s : string) : list string :=
  match s with
  | EmptyString => [cur]
  | String c s => if is_slash c then cur :: fields "" s else fields (cur +:+ String c "") s
  end.
Definition containsDotDot (v : string) : bool := bool_decide (".." ∈ fields "" v).

Inductive reply :=
| Content (path : string)
| BadRequest
| ToIndex
| NotFoundPage
| ToCallback (env : gmap string string)
| BadGateway (err : string).

(** [http.ServeFile] refuses a URL with a [..] element and redirects
    [/index.html] to the directory. *)
Definition ServeFile (r : HttpRequest) (path : string) : reply :=
  if containsDotDot (r_Path r) then BadRequest
  else if HasSuffix (r_Path r) "/index.html" then ToIndex
  else Content path.

Definition static_path (s : Server) (urlPath : string) : string :=
  let p := if HasSuffix urlPath "/" then urlPath +:+ "index.html" else urlPath in
  Clean (fjoin [DocumentRoot s; p]).

(** [strings.Split(r.Host, ":")[0]] *)
Definition server_name (host : string) : string := default "" (head (Split host ":")).

Definition callback_env (s : Server) (r : HttpRequest) : gmap string string :=
  let fwd := Header_Get (r_Header r) "X-Forwarded-Port" in
  <["X_FORWARDED_PORT" := if bool_decide (fwd = "") then serverPort s else fwd]>
    (list_to_map [("SERVER_PORT", serverPort s); ("SERVER_NAME", server_name (r_Host r));
                  ("SERVER_PROTOCOL", r_Proto r);
                  ("SERVER_SOFTWARE", "symfony-cli/" +:+ SAppversion s)]).

(** [callback]: [None] when there is none, else the error it returns. *)
Definition Handler (w : os) (s : Server) (callback : option (gmap string string → option string))
    (r : HttpRequest) : reply :=
  let path := static_path s (r_Path r) in
  let static := negb (HasSuffix (ToLower (r_Path r)) ".php")
                && match stat w path with Found isDir => negb isDir | _ => false end in
  if static then ServeFile r path
  else match callback with
       | None => NotFoundPage
       | Some f =>
         let env := callback_env s r in
         match f env with Some err => BadGateway err | None => ToCallback env end
       end.

(** The host [ProxyHandler] passes on. *)
Definition normalize_host (rhost : string) : string :=
  let '(host, port) := if Contains rhost ":" then default (rhost, "") (SplitHostPort rhost)
                       else (rhost, "") in
  if bool_decide (port = "") then host else JoinHostPort host port.

Inductive level := InfoLevel | WarnLevel | ErrorLevel.
Definition log_level (status : Z) : level :=
  if bool_decide (500 ≤ status)%Z then ErrorLevel
  else if bool_decide (400 ≤ status)%Z then WarnLevel else InfoLevel.

(** ** The writer that records the response *)

(** [httptest.ResponseRecorder]: only the first status counts, a body without
    one means 200, an invalid status panics. *)
Record recorder := mkRec { Code : Z; wroteHeader : bool; Body : string }.
Definition NewRecorder : recorder := mkRec 200 false "".
Definition rec_WriteHeader (rc : recorder) (code : Z) : outcome recorder :=
  if wroteHeader rc then Ret rc
  else if bool_decide (100 ≤ code ≤ 999)%Z then Ret (mkRec code true (Body rc)) else Panic.
Definition rec_Write (rc : recorder) (buf : string) : recorder :=
  mkRec (if wroteHeader rc then Code rc else 200%Z) true (Body rc +:+ buf).

(** The client's side: [write] is [None] when the connection fails. *)
Class ResponseWriter (W : Type) := {
  rw_Write : W → string → option W; rw_WriteHeader : W → Z → outcome W }.

Section writer_proxy.
Context {W : Type} `{!ResponseWriter W}.
Record ResponseWriterProxy := mkProxyW { pw_rec : recorder; pw_writer : W }.
Definition NewWriterProxy (w : W) : ResponseWriterProxy := mkProxyW NewRecorder w.

(** The flag says that there was no error. *)
Definition proxy_Write (p : ResponseWriterProxy) (buf : string) : ResponseWriterProxy * bool :=
  match rw_Write (pw_writer p) buf with
  | None => (p, false)
  | Some w => (mkProxyW (rec_Write (pw_rec p) buf) w, true)
  end.
Definition proxy_WriteHeader (p : ResponseWriterProxy) (code : Z) : outcome ResponseWriterProxy :=
  w ← rw_WriteHeader (pw_writer p) code;
  rc ← rec_WriteHeader (pw_rec p) code;
  Ret (mkProxyW rc w).
End writer_proxy.
Arguments ResponseWriterProxy W : clear implicits.

(** ** CORS *)

Definition corsHeaders : list string :=
  ["Access-Control-Allow-Origin"; "Access-Control-Allow-Methods"; "Access-Control-Allow-Headers";
   "Access-Control-Expose-Headers"].

(** The headers after the handler [h], and those for which a warning is
    logged. *)
Definition corsWrapper (h : Header → Header) (w : Header) : Header * list string :=
  let w := h (foldl (λ w k, <[k := ["*"]]> w) w corsHeaders) in
  (w, List.filter (λ k, match w !! k with Some l => 2 <=? length l | None => false end) corsHeaders).

(** ** Pushed resources *)

Record linkResource := mkLink { uri : string; params : gmap string string }.

Definition isRemoteResource (resource : string) : bool :=
  HasPrefix resource "//" || HasPrefix resource "http://" || HasPrefix resource "https://".

Definition proxiedHeaders : list string :=
  ["Accept-Encoding"; "Accept-Language"; "Cache-Control"; "Host"; "User-Agent"].
Definition filterProxiedHeaders (headers : Header) : Header :=
  foldl (λ f header, match headers !! header with Some val => <[header := val]> f | None => f end)
        ∅ proxiedHeaders.

Definition param_step (m : gmap string string) (param : string) : gmap string string :=
  match SplitN2 (TrimSpace param) "=" with
  | [p0] => let key := TrimSpace p0 in
            if bool_decide (key = "") then m else <[key := key]> m
  | [p0; p1] => let key := TrimSpace p0 in
                if bool_decide (key = "") then m else <[key := TrimSpace p1]> m
  | _ => m
  end.

(** One link; [None] when it has no angle brackets. *)
Definition parse_link (link : string) : outcome (option linkResource) :=
  match Index link "<", Index link ">" with
  | Some li, Some ri =>
    u ← slice link (Z.of_nat li + 1) (Z.of_nat ri);
    Ret (Some (mkLink (TrimSpace u)
                 (foldl param_step ∅ (Split (TrimSpace (sdrop (ri + 1) link)) ";"))))
  | _, _ => Ret None
  end.

Definition parseLinkHeader (header : string) : outcome (list linkResource) :=
  if bool_decide (header = "") then Ret [] else
  foldM (λ resources link, l ← parse_link link; Ret (resources ++ option_list l)) [] (Split header ",").

Definition pushable (l : linkResource) : bool :=
  negb (bool_decide (is_Some (params l !! "nopush")))
  && match params l !! "rel" with Some rel => bool_decide (rel = "preload") | None => true end
  && negb (isRemoteResource (uri l)).

(** [push] is [Pusher.Push], [None] when the writer is no [Pusher]: [true]
    is no error.  The result is the list of pushed resources or an error. *)
Fixpoint push_all (push : string → Header → bool) (headers : Header) (ls : list linkResource)
  : option (list string) :=
  match ls with
  | [] => Some []
  | l :: ls =>
    if pushable l then
      if push (uri l) headers then cons (uri l) <$> push_all push headers ls else None
    else push_all push headers ls
  end.

(** The loop over the [Link] headers: an error of [Push] stops it. *)
Fixpoint push_headers (push : string → Header → bool) (headers : Header) (resources rs : list string)
  : outcome (option (list string)) :=
  match resources with
  | [] => Ret (Some rs)
  | resource :: resources =>
    ls ← parseLinkHeader resource;
    match push_all push headers ls with
    | None => Ret None
    | Some pushed => push_headers push headers resources (rs ++ pushed)
    end
  end.

Definition servePreloadLinks (push : option (string → Header → bool)) (resp : Header) (r : HttpRequest)
  : outcome (option (list string)) :=
  match resp !! "Link", r_Header r !! "X-Push", push with
  | None, _, _ | _, Some _, _ | _, _, None => Ret (Some [])
  | Some resources, None, Some push =>
    push_headers push (filterProxiedHeaders (r_Header r)) resources []
  end.

(** ** Static files stay below the document root *)

Lemma fields_split s cur cur' x :
  cur = cur' ∨ lacks "\" cur = false →
  x ∈ split_aux 0 cur s sep → lacks "\" x = true → x ∈ fields cur' s.
Proof.
  unfold sep. revert cur cur'. induction s as [|c s IH]; intros cur cur' Hc Hx Hl.
  { cbn [split_aux] in Hx. apply list_elem_of_singleton in Hx as ->.
    destruct Hc as [->|Hc]; [by left|congruence]. }
  rewrite split_char_step in Hx. cbn [fields]. unfold is_slash.
  destruct (Ascii.eqb_spec "/" c) as [<-|Hs].
  - simpl. apply elem_of_cons in Hx as [->|Hx].
    + destruct Hc as [->|Hc]; [by left|congruence].
    + right. eapply IH; [by left|done..].
  - destruct (Ascii.eqb_spec c "/") as [->|_]; [done|]. simpl.
    destruct (Ascii.eqb_spec c "\") as [->|Hb].
    + right. eapply IH; [|done..]. right. rewrite lacks_app. simpl. by rewrite andb_false_r.
    + eapply IH; [|done..]. destruct Hc as [->|Hc]; [by left|].
      right. by rewrite lacks_app, Hc.
Qed.

Lemma containsDotDot_false v : containsDotDot v = false → ".." ∉ Split v sep.
Proof.
  unfold containsDotDot. rewrite bool_decide_eq_false. intros H Hin. apply H.
  by eapply (fields_split v "" ""); [left|exact Hin|].
Qed.

Lemma static_path_no_dots v :
  ".." ∉ Split v sep → ".." ∉ Split (if HasSuffix v "/" then v +:+ "index.html" else v) sep.
Proof.
  intros Hv. destruct (HasSuffix v "/") eqn:Hs; [|done].
  apply HasSuffix_spec in Hs as [q ->]. rewrite sapp_assoc.
  change ("/" +:+ "index.html") with (String "/" "index.html").
  change (q +:+ "/") with (q +:+ String "/" "") in Hv.
  unfold Split, sep in *. rewrite split_char_app, not_elem_of_app in *.
  split; [tauto|]. change (".." ∉ ["index.html"]). by rewrite list_elem_of_singleton.
Qed.

(** C20: a file that is served without PHP exists, is not a directory, does not
    have a [.php] URL, and is the document root's or below it, whatever the
    URL: the path escapes the document root only for a URL with a [..]
    element, which is refused. *)
Theorem Handler_confined w s callback r path :
  IsAbs (DocumentRoot s) = true → Clean (DocumentRoot s) = DocumentRoot s →
  Handler w s callback r = Content path →
  below (DocumentRoot s) path = true ∧ stat w path = Found false ∧
  HasSuffix (ToLower (r_Path r)) ".php" = false.
Proof.
  intros Ha Hc. unfold Handler.
  destruct (HasSuffix (ToLower (r_Path r)) ".php"); cbn [negb andb].
  { destruct callback as [f|]; [destruct (f _)|]; done. }
  destruct (stat w (static_path s (r_Path r))) as [[]| |] eqn:Es; cbn [negb].
  1,3,4: destruct callback as [f|]; [destruct (f _)|]; done.
  unfold ServeFile. destruct (containsDotDot _) eqn:Ed; [done|].
  destruct (HasSuffix _ _); [done|]. intros [= <-]. split_and!; [|done|done].
  by apply fjoin_below, static_path_no_dots, containsDotDot_false.
Qed.

Definition ex_server : Server :=
  mkServer "/app/public" 0 8000 "" "" true "5.0" false "" false "8000".
Definition ex_http_os : os := table_os ∅
  (list_to_map [("/app/public/css/app.css", Some "a{}"); ("/app/public", None);
                ("/app/.env", Some "SECRET=1")]) "/app" "/home".
Definition ex_request (path : string) : HttpRequest :=
  mkReq "[::1]:8000" path "" "HTTP/1.1" ∅ "127.0.0.1:4242".

Lemma Handler_confined_witness :
  Handler ex_http_os ex_server None (ex_request "/css/app.css") = Content "/app/public/css/app.css" ∧
  below "/app/public" "/app/public/css/app.css" = true.
Proof.
  assert (H : Handler ex_http_os ex_server None (ex_request "/css/app.css") = Content "/app/public/css/app.css")
    by (vm_compute; reflexivity).
  split; [exact H|]. refine (proj1 (Handler_confined ex_http_os ex_server None _ _ _ _ H)); reflexivity.
Defined.

(** A URL that would escape is found on the disk and refused. *)
Example Handler_dotdot : Handler ex_http_os ex_server None (ex_request "/../.env") = BadRequest.
Proof. vm_compute. reflexivity. Qed.

(** The server name of a request to an IPv6 address is an opening bracket. *)
Lemma server_name_ipv6 rest : server_name ("[::1]:" +:+ rest) = "[".
Proof. reflexivity. Qed.

(** ** [Link] headers: printing and parsing *)

(** A link with its parameters, some without a value. *)
Abbreviation param := (string * option string)%type.
Abbreviation link := (string * list param)%type.

Definition print_param (p : param) : string :=
  match p.2 with None => p.1 | Some v => p.1 +:+ "=" +:+ v end.
Definition print_params (ps : list param) : string :=
  Join ("" :: map (λ p, " " +:+ print_param p) ps) ";".
Definition print_link (l : link) : string := "<" +:+ l.1 +:+ ">" +:+ print_params l.2.
Definition print_links (ls : list link) : string := Join (map print_link ls) ",".

(** A parameter without a value has its name as value. *)
Definition link_of (l : link) : linkResource :=
  mkLink l.1 (foldl (λ m (p : param), <[p.1 := default p.1 p.2]> m) ∅ l.2).

(** What may be printed: no separator inside, no white space around. *)
Definition text_ok (s : string) : bool := trimmed s && lacks ";" s && lacks "," s.
Definition param_ok (p : param) : bool :=
  negb (bool_decide (p.1 = "")) && text_ok p.1 && lacks "=" p.1
  && match p.2 with None => true | Some v => text_ok v end.
Definition link_ok (l : link) : bool :=
  trimmed l.1 && lacks "," l.1 && lacks ">" l.1 && forallb param_ok l.2.

Lemma text_ok_spec s :
  text_ok s = true ↔ trimmed s = true ∧ lacks ";" s = true ∧ lacks "," s = true.
Proof. unfold text_ok. rewrite !andb_true_iff. tauto. Qed.

Lemma print_param_trimmed p : param_ok p = true → trimmed (print_param p) = true ∧ print_param p ≠ "".
Proof.
  destruct p as [k v]. unfold param_ok, print_param. simpl. rewrite !andb_true_iff, negb_true_iff.
  rewrite bool_decide_eq_false, !text_ok_spec. intros (((Hk & Ht & _) & _) & Hv).
  destruct v as [v|]; [|done]. rewrite text_ok_spec in Hv. destruct Hv as (Hv & _).
  unfold trimmed in *. rewrite andb_true_iff, !bool_decide_eq_true in *.
  split; [|by destruct k]. split; [apply drop_while_app; tauto|].
  destruct (decide (v = "")) as [->|Hne]; [by rewrite drop_while_end_app|].
  rewrite drop_while_end_app; rewrite drop_while_end_app; rewrite ?(proj2 Hv); done.
Qed.

Lemma TrimSpace_space s : trimmed s = true → TrimSpace (" " +:+ s) = s.
Proof. intros H. change (TrimSpace s = s). by apply TrimSpace_trimmed. Qed.

Lemma param_step_print m p :
  param_ok p = true → param_step m (" " +:+ print_param p) = <[p.1 := default p.1 p.2]> m.
Proof.
  intros Hp. unfold param_step. rewrite TrimSpace_space by (by apply print_param_trimmed).
  destruct p as [k v]. unfold param_ok, print_param in *. simpl in *.
  rewrite !andb_true_iff, negb_true_iff, bool_decide_eq_false, text_ok_spec in Hp.
  destruct Hp as (((Hk & Ht & _) & He) & Hv). unfold SplitN2. destruct v as [v|].
  - change (k +:+ "=" +:+ v) with (k +:+ String "=" v). rewrite Index_char by done.
    rewrite stake_app. change (String "=" v) with ("=" +:+ v).
    rewrite <-sapp_assoc, Nat.add_comm, Nat.add_comm, <-slen_app, sdrop_app.
    apply text_ok_spec in Hv as (Hv & _). rewrite !TrimSpace_trimmed by done.
    by rewrite bool_decide_eq_false_2.
  - rewrite Index_lacks by done. rewrite TrimSpace_trimmed by done. by rewrite bool_decide_eq_false_2.
Qed.

Lemma trim_end_app f a b : b ≠ "" → drop_while_end f b = b → drop_while_end f (a +:+ b) = a +:+ b.
Proof. intros Hne Hb. rewrite drop_while_end_app; by rewrite Hb. Qed.

Lemma print_params_trimmed ps : forallb param_ok ps = true → TrimSpace (print_params ps) = print_params ps.
Proof.
  intros Hps. apply TrimSpace_trimmed. unfold trimmed, print_params.
  rewrite andb_true_iff, !bool_decide_eq_true.
  destruct ps as [|p ps _] using rev_ind; [done|]. rewrite map_app.
  split; [by destruct (map _ ps)|].
  rewrite forallb_app in Hps. cbn [forallb] in Hps. rewrite !andb_true_iff in Hps.
  destruct Hps as (_ & Hp & _).
  apply print_param_trimmed in Hp as [Ht Hne]. unfold trimmed in Ht.
  rewrite andb_true_iff, !bool_decide_eq_true in Ht. destruct Ht as [_ Ht].
  change ("" :: map (λ p, " " +:+ print_param p) ps ++ map (λ p, " " +:+ print_param p) [p])
    with (("" :: map (λ p, " " +:+ print_param p) ps) ++ map (λ p, " " +:+ print_param p) [p]).
  rewrite Join_app by done. cbn [map Join].
  do 3 (apply trim_end_app; [done|]). done.
Qed.

Lemma print_param_lacks p c :
  param_ok p = true → c = ";"%char ∨ c = ","%char → lacks c (" " +:+ print_param p) = true.
Proof.
  destruct p as [k v]. unfold param_ok, print_param. simpl. rewrite !andb_true_iff, text_ok_spec.
  intros (((_ & _ & Hk1 & Hk2) & _) & Hv) Hc.
  destruct v as [v|]; [apply text_ok_spec in Hv as (_ & Hv1 & Hv2)|];
    rewrite ?(lacks_app _ " "), ?lacks_app; destruct Hc as [-> | ->]; rewrite ?Hk1, ?Hk2, ?Hv1, ?Hv2; done.
Qed.

Lemma forallb_Forall_ps ps : forallb param_ok ps = true → Forall (λ p, param_ok p = true) ps.
Proof. rewrite forallb_forall, Forall_forall. intros H x Hx. apply H. by apply list_elem_of_In. Qed.

Lemma Split_print_params ps :
  forallb param_ok ps = true → Split (print_params ps) ";" = "" :: map (λ p, " " +:+ print_param p) ps.
Proof.
  intros Hps%forallb_Forall_ps. apply Split_Join; [done|]. constructor; [done|].
  apply Forall_fmap. eapply Forall_impl; [exact Hps|]. intros p Hp. apply print_param_lacks; auto.
Qed.

Lemma foldl_param_step ps m :
  forallb param_ok ps = true →
  foldl param_step m (map (λ p, " " +:+ print_param p) ps)
  = foldl (λ m (p : param), <[p.1 := default p.1 p.2]> m) m ps.
Proof.
  revert m. induction ps as [|p ps IH]; intros m; [done|]. cbn [forallb]. rewrite andb_true_iff.
  intros [Hp Hps]. cbn [map foldl]. rewrite param_step_print by done. by apply IH.
Qed.

Lemma parse_link_print l : link_ok l = true → parse_link (print_link l) = Ret (Some (link_of l)).
Proof.
  destruct l as [u ps]. unfold link_ok. simpl. rewrite !andb_true_iff. intros (((Ht & _) & Hgt) & Hps).
  unfold parse_link, print_link. cbn [fst snd].
  assert (Hlt : Index ("<" +:+ u +:+ ">" +:+ print_params ps) "<" = Some 0) by (by rewrite Index_unfold).
  assert (Hr : Index ("<" +:+ u +:+ ">" +:+ print_params ps) ">" = Some (slen ("<" +:+ u))).
  { rewrite <-sapp_assoc. by apply (Index_char ">"). }
  rewrite Hlt, Hr. unfold slice. rewrite bool_decide_eq_true_2.
  2:{ rewrite !slen_app. simpl. lia. }
  rewrite bind_Ret. unfold link_of. cbn [fst snd]. do 3 f_equal.
  - replace (Z.to_nat (Z.of_nat (slen ("<" +:+ u)) - (Z.of_nat 0 + 1))) with (slen u)
      by (rewrite slen_app; simpl; lia).
    change (sdrop (Z.to_nat (Z.of_nat 0 + 1)) ("<" +:+ u +:+ ">" +:+ print_params ps))
      with (u +:+ ">" +:+ print_params ps).
    rewrite stake_app. by apply TrimSpace_trimmed.
  - change ("<" +:+ u +:+ ">" +:+ print_params ps) with ("<" +:+ u +:+ (">" +:+ print_params ps)).
    rewrite <-!sapp_assoc. change 1 with (slen ">"). rewrite <-slen_app, sdrop_app.
    rewrite print_params_trimmed, Split_print_params by done.
    cbn [foldl]. change (param_step ∅ "") with (∅ : gmap string string).
    by apply foldl_param_step.
Qed.

(** A [Link] header printed from resources and their parameters is parsed
    back: the resources, in order, each with its parameters, a repeated one
    keeping its last value. *)
Theorem parseLinkHeader_print ls :
  ls ≠ [] → forallb link_ok ls = true → parseLinkHeader (print_links ls) = Ret (map link_of ls).
Proof.
  intros Hne Hls. unfold parseLinkHeader, print_links.
  assert (Hok : Forall (λ l, link_ok l = true) ls).
  { rewrite forallb_forall in Hls. apply Forall_forall. intros l Hl. apply Hls. by apply list_elem_of_In. }
  rewrite bool_decide_eq_false_2.
  2:{ destruct ls as [|l [|k ls]]; done. }
  rewrite (Split_Join ","); [|by destruct ls|].
  - clear Hne Hls. rewrite <-(app_nil_l (map link_of ls)). generalize (@nil linkResource) as acc.
    induction Hok as [|l ls Hl Hok IH]; intros acc; [by rewrite app_nil_r|].
    cbn [map foldM]. rewrite parse_link_print by done. cbn [mbind outcome_bind option_list].
    rewrite IH. by rewrite <-app_assoc.
  - apply Forall_fmap. eapply Forall_impl; [exact Hok|]. intros [u ps]. unfold link_ok. simpl.
    rewrite !andb_true_iff. intros (((_ & Hu) & _) & Hps). unfold print_link. simpl.
    rewrite (lacks_app "," "<"), lacks_app, Hu, (lacks_app "," ">"). simpl. unfold print_params.
    apply forallb_Forall_ps in Hps. clear -Hps.
    assert (Hj : ∀ xs, Forall (λ x, lacks "," x = true) xs → lacks "," (Join xs ";") = true).
    { induction 1 as [|x [|y xs] Hx Hxs IH]; [done..|]. rewrite Join_cons2, lacks_app, Hx.
      by rewrite lacks_app, IH. }
    apply Hj. constructor; [done|]. apply Forall_fmap. eapply Forall_impl; [exact Hps|].
    intros p Hp. apply print_param_lacks; auto.
Qed.


(** Two links, as in the documentation of the parser. *)
Definition ex_links : list link :=
  [("/app.css", [("as", Some "style"); ("rel", Some "preload")]); ("/app.js", [("nopush", None)])].

Lemma parseLinkHeader_print_witness :
  print_links ex_links = "</app.css>; as=style; rel=preload,</app.js>; nopush" ∧
  parseLinkHeader (print_links ex_links) = Ret (map link_of ex_links).
Proof. split; [reflexivity|]. apply parseLinkHeader_print; [done|]. vm_compute. reflexivity. Defined.

(** The third format of the comment on [parseLinkHeader], two resources separated
    by a semicolon, gives the first one only. *)
Lemma parse_semicolon_format :
  parseLinkHeader "</resource>;</resource2>"
  = Ret [mkLink "/resource" {["</resource2>" := "</resource2>"]}].
Proof. reflexivity. Qed.

(** A link whose closing bracket comes first makes the slice expression panic. *)
Lemma parse_link_reversed s li ri :
  Index s "<" = Some li → Index s ">" = Some ri → ri ≤ li → parse_link s = Panic.
Proof.
  intros Hl Hr Hle. unfold parse_link. rewrite Hl, Hr. unfold slice.
  by rewrite bool_decide_eq_false_2 by lia.
Qed.

(** ** What is pushed *)

Lemma push_all_spec push hs ls :
  push_all push hs ls
  = if forallb (λ l, push (uri l) hs) (List.filter pushable ls)
    then Some (map uri (List.filter pushable ls)) else None.
Proof.
  induction ls as [|l ls IH]; [done|]. cbn [push_all List.filter]. rewrite IH.
  destruct (pushable l); [|done]. cbn [forallb map]. destruct (push (uri l) hs); [|done].
  by destruct (forallb _ _).
Qed.

Lemma push_headers_spec push hs resources lss rs :
  Forall2 (λ h ls, parseLinkHeader h = Ret ls) resources lss →
  push_headers push hs resources rs
  = Ret (app rs <$> push_all push hs (concat lss)).
Proof.
  intros H. revert rs. induction H as [|h ls resources lss Hh H IH]; intros rs; cbn [push_headers concat].
  { cbn. by rewrite app_nil_r. }
  rewrite Hh, bind_Ret, !push_all_spec, List.filter_app, forallb_app, map_app.
  destruct (forallb _ (List.filter pushable ls)) eqn:E; [|done]. rewrite IH, push_all_spec. cbn [andb].
  destruct (forallb _ (List.filter pushable (concat lss))); [|done]. cbn. by rewrite app_assoc.
Qed.

Lemma filterProxiedHeaders_lookup hs k :
  filterProxiedHeaders hs !! k = if bool_decide (k ∈ proxiedHeaders) then hs !! k else None.
Proof.
  unfold filterProxiedHeaders.
  assert (Hf : ∀ names (m : Header),
    foldl (λ f header, match hs !! header with Some val => <[header := val]> f | None => f end) m names !! k
    = if bool_decide (k ∈ names) then (match hs !! k with Some v => Some v | None => m !! k end) else m !! k).
  { induction names as [|n names IH]; intros m; [done|]. cbn [foldl]. rewrite IH.
    destruct (decide (k = n)) as [->|Hn].
    - rewrite (bool_decide_eq_true_2 (n ∈ n :: names)) by (by left).
      destruct (hs !! n) eqn:E; destruct (bool_decide (n ∈ names)); rewrite ?lookup_insert_eq; done.
    - assert (Hm : match hs !! n with Some val => <[n := val]> m | None => m end !! k = m !! k).
      { destruct (hs !! n); [by rewrite lookup_insert_ne|done]. }
      rewrite Hm. rewrite (bool_decide_ext (k ∈ n :: names) (k ∈ names)); [done|].
      rewrite elem_of_cons. naive_solver. }
  rewrite Hf. destruct (hs !! k); done.
Qed.

(** For a request that is not itself a push, the resources pushed are those
    of the [Link] headers that are local, not marked [nopush] and with no
    relation but [preload], in their order; the pushes carry the five headers
    that may be forwarded and nothing else; when one of them fails, none is
    reported. *)
Theorem servePreloadLinks_spec push resp r resources lss :
  resp !! "Link" = Some resources → r_Header r !! "X-Push" = None →
  Forall2 (λ h ls, parseLinkHeader h = Ret ls) resources lss →
  ∃ headers,
    (∀ k, headers !! k = if bool_decide (k ∈ proxiedHeaders) then r_Header r !! k else None) ∧
    servePreloadLinks (Some push) resp r
    = Ret (if forallb (λ l, push (uri l) headers) (List.filter pushable (concat lss))
           then Some (map uri (List.filter pushable (concat lss))) else None).
Proof.
  intros Hl Hx Hp. exists (filterProxiedHeaders (r_Header r)). split; [apply filterProxiedHeaders_lookup|].
  unfold servePreloadLinks. rewrite Hl, Hx, (push_headers_spec _ _ _ _ _ Hp), push_all_spec.
  by destruct (forallb _ _).
Qed.

Lemma servePreloadLinks_spec_witness :
  ∃ headers : Header,
    (∀ k, headers !! k = if bool_decide (k ∈ proxiedHeaders) then r_Header (ex_request "/") !! k else None) ∧
    servePreloadLinks (Some (λ _ _, true)) {[ "Link" := [print_links ex_links] ]} (ex_request "/")
    = Ret (Some ["/app.css"]).
Proof.
  refine (servePreloadLinks_spec (λ _ _, true) {[ "Link" := [print_links ex_links] ]} (ex_request "/") [print_links ex_links]
            [map link_of ex_links] _ _ _); [reflexivity|reflexivity|].
  constructor; [vm_compute; reflexivity|constructor].
Defined.
