(* ===== verification/PhpExecutor.v ===== *)
(** * Running PHP ([local/php/executor.go], [executor_posix.go], [utils.go],
    [composer.go], [composer_unix.go], [pie.go], [symfony.go])

    An executor finds the directory of the script it runs, the PHP version for
    this directory, and builds the environment and the command line of the
    process.  Its methods change the executor; they return it with the symbolic
    links of the temporary directory.  The PHP store (package [phpstore]), the
    process that is run, the network and hashes are parameters.  The environment
    of the project comes from the [Environment] class, dotenv files from the
    dotenv component.  Messages are not modelled; the system is Unix. *)

From stdpp Require Import base tactics option list gmap strings pretty.
From Stdlib Require Import ZArith Lia Ascii.
From S2P Require Import Prelude GoStrings FilePath Os Envs Dotenv.

(** [phpstore.Version]: an empty path is a missing binary. *)
Record Version := mkVersion {
  v_Version : string; PHPPath : string; FPMPath : string; CGIPath : string;
  PHPConfigPath : string; PHPizePath : string; PHPdbgPath : string }.

Record Executor := mkExec {
  e_Dir : string; BinName : string; e_Args : list string; SkipNbArgs : Z; e_Paths : list string;
  ExtraEnv : list string; e_environ : list string; iniDir : string; scriptDir : string; tempDir : string }.

Inductive exec_err :=
| NoVersion
| NotAvailable (bin dir : string)
| NotAvailableAnymore (bin dir : string)
| EmptyArgs
| GetwdErr
| MkdirErr (dir : string)
| SymlinkErr (path : string)
| DownloadErr
| WrongSignature
| NoConsole.

Definition GetBinaryNames : list string :=
  ["php"; "pecl"; "pear"; "php-fpm"; "php-cgi"; "php-config"; "phpdbg"; "phpize"].
Definition IsBinaryName (name : string) : bool := bool_decide (name ∈ GetBinaryNames).
Definition CommandLine (e : Executor) : string := TrimSpace (Join (e_Args e) " ").

(** ** The directory of the script *)

Definition option_flags : list string :=
  ["-c"; "-d"; "-r"; "-B"; "-R"; "-F"; "-E"; "-S"; "-t"; "-z"].

(** The loop over the arguments: the script, empty when there is none.  The
    test [len(args) >= i+1] always holds, so that [-f] as last argument reads
    past the end. *)
Fixpoint script_of (args : list string) (skipNext : bool) : outcome string :=
  match args with
  | [] => Ret ""
  | arg :: args =>
    if skipNext then script_of args false
    else if HasPrefix arg "-f" then
      if 2 <? slen arg then Ret (sdrop 2 arg) else oget (head args)
    else
      let skipNext := existsb (λ flag, HasPrefix arg flag && (slen arg =? 2)) option_flags in
      if bool_decide (arg = "--") then Ret ""
      else if HasPrefix arg "-" then script_of args skipNext
      else Ret arg
  end.

Definition detectScriptDir (w : os) (args : list string) : outcome string :=
  script ← script_of args false;
  Ret (if bool_decide (script ≠ "") then Dir (default script (Abs w script))
       else default "/" (getwd w)).

Definition set_script (e : Executor) (skip : Z) (dir : string) : Executor :=
  mkExec (e_Dir e) (BinName e) (e_Args e) skip (e_Paths e) (ExtraEnv e) (e_environ e) (iniDir e) dir (tempDir e).

(** [e.Args[e.SkipNbArgs:]] panics when there are fewer arguments. *)
Definition DetectScriptDir (w : os) (e : Executor) : outcome (Executor * gores exec_err string) :=
  if bool_decide (scriptDir e ≠ "") then Ret (e, Val (scriptDir e)) else
  let skip := if bool_decide (SkipNbArgs e = 0%Z) then 1%Z else SkipNbArgs e in
  let e := set_script e skip (scriptDir e) in
  if bool_decide (skip < 0)%Z then
    match getwd w with
    | None => Ret (e, Err GetwdErr)
    | Some wd => Ret (set_script e skip wd, Val wd)
    end
  else if bool_decide (e_Args e = []) then Ret (e, Err EmptyArgs)
  else if bool_decide (Z.of_nat (length (e_Args e)) < skip)%Z then Panic
  else
    dir ← detectScriptDir w (drop (Z.to_nat skip) (e_Args e));
    Ret (set_script e skip dir, Val dir).

Definition phpini_test (w : os) (dir : string) : option string :=
  if exists_ w (fjoin [dir; "php.ini"]) then Some dir else None.
Definition phpiniDirForDir (w : os) (e : Executor) : string :=
  default "" (walkUp true (phpini_test w) (scriptDir e)).
Definition PathsToWatch (w : os) (e : Executor) : list string :=
  let dir := phpiniDirForDir w e in
  if bool_decide (dir ≠ "") then [fjoin [dir; "php.ini"]] else [].

(** ** The PHP binary *)

(** The binary for a name, and whether PHP reads its configuration through it. *)
Definition bin_path (bin : string) (v : Version) : gores exec_err (string * bool) :=
  let need (path : string) (ini : bool) :=
    if bool_decide (path = "") then Err (NotAvailable bin (Dir (PHPPath v))) else Val (path, ini) in
  if bool_decide (bin = "php-fpm") then need (FPMPath v) true
  else if bool_decide (bin = "php-cgi") then need (CGIPath v) true
  else if bool_decide (bin = "php-config") then need (PHPConfigPath v) false
  else if bool_decide (bin = "phpize") then need (PHPizePath v) false
  else if bool_decide (bin = "phpdbg") then need (PHPdbgPath v) false
  else if bool_decide (bin = "pecl" ∨ bin = "pear") then Val (fjoin [Dir (PHPPath v); bin], false)
  else Val (PHPPath v, true).

Section executor.
(** [BestVersionForDir] of a store that is reloaded or not; the output of
    [php -r] that prints the scan directory; whether [MkdirAll] and [Symlink]
    succeed; [EvalSymlinks] of a link's target; a fresh [xid]; which files
    are executable, and [exec.LookPath]. *)
Context (best_version : bool → string → option Version)
        (scan_dir_output : string → option string)
        (can_mkdir can_link : string → bool) (eval_target : string → string) (xid : string)
        (executable : string → bool) (look_path : string → option string).

(** One attempt: [Val None] when the binary has disappeared. *)
Definition lookup_attempt (w : os) (e : Executor) (forceReload : bool)
  : gores exec_err (option (Version * string * bool)) :=
  match best_version forceReload (scriptDir e) with
  | None => Err NoVersion
  | Some v =>
    '(path, ini) ← bin_path (BinName e) v;
    match stat w path with NotExist => Val None | _ => Val (Some (v, path, ini)) end
  end.

Definition not_anymore (e : Executor) (forceReload : bool) : exec_err :=
  NotAvailableAnymore (BinName e)
    (match best_version forceReload (scriptDir e) with
     | Some v => match bin_path (BinName e) v with Val (p, _) => Dir p | Err _ => "" end
     | None => ""
     end).

(** The recursive call forces the reload, and is then the last one. *)
Definition lookupPHP (w : os) (e : Executor) (forceReload : bool)
  : gores exec_err (Version * string * bool) :=
  let final r := match r with Err err => Err err | Val None => Err (not_anymore e true) | Val (Some x) => Val x end in
  match lookup_attempt w e forceReload with
  | Val None => if forceReload then Err (not_anymore e true) else final (lookup_attempt w e true)
  | r => final r
  end.

(** [Config] tries again with a reload after any error. *)
Definition lookup_twice (w : os) (e : Executor) : gores exec_err (Version * string * bool) :=
  match lookupPHP w e false with
  | Val r => Val r
  | Err _ => lookupPHP w e true
  end.

(** ** Configuration *)

Abbreviation links := (gmap string string).

(** [symlink]: an existing link to the same file is not an error. *)
Definition symlink (w : os) (ls : links) (oldname newname : string) : links * option exec_err :=
  match ls !! newname with
  | Some target => (ls, if bool_decide (eval_target target = oldname) then None else Some (SymlinkErr newname))
  | None =>
    match stat w newname with
    | Found _ => (ls, if bool_decide (eval_target newname = oldname) then None else Some (SymlinkErr newname))
    | _ => if can_link newname then (<[newname := oldname]> ls, None) else (ls, Some (SymlinkErr newname))
    end
  end.

(** The links for [pecl] and the like, with an alias under the real name. *)
Definition aliased (phpDir name path : string) : list (string * string) :=
  if bool_decide (path = "") then [] else
  (path, fjoin [phpDir; name])
  :: (if bool_decide (Base path ≠ name) then [(path, fjoin [phpDir; Base path])] else []).
Definition wanted_links (phpDir : string) (v : Version) : list (string * string) :=
  aliased phpDir "php-config" (PHPConfigPath v) ++ aliased phpDir "phpize" (PHPizePath v)
  ++ (if bool_decide (PHPdbgPath v = "") then [] else [(PHPdbgPath v, fjoin [phpDir; "phpdbg"])]).

Fixpoint symlink_all (w : os) (ls : links) (l : list (string * string)) : links * option exec_err :=
  match l with
  | [] => (ls, None)
  | (old, new) :: l =>
    match symlink w ls old new with
    | (ls, Some err) => (ls, Some err)
    | (ls, None) => symlink_all w ls l
    end
  end.

(** [os.Stat] follows the links. *)
Definition link_exists (w : os) (ls : links) (p : string) : bool :=
  match stat w (default p (ls !! p)) with NotExist => false | _ => true end.

Definition phpSystemIniScanDir (phpPath : string) : string :=
  if bool_decide (phpPath = "") then ""
  else match scan_dir_output phpPath with Some out => TrimSpace out | None => "" end.

Definition scan_dir_vars (w : os) (e : Executor) (v : Version) : list string :=
  let add dirs dir := if bool_decide (dir = "") then dirs else dirs +:+ ":" +:+ dir in
  let dirs := add (add "" (phpiniDirForDir w e)) (iniDir e) in
  if bool_decide (dirs = "") then [] else
  let system := phpSystemIniScanDir (PHPPath v) in
  let scanDir := if bool_decide (system = "") then Getenv w "PHP_INI_SCAN_DIR" else system in
  ["PHP_INI_SCAN_DIR=" +:+ scanDir +:+ dirs].

Definition set_first (args : list string) (a : string) : list string :=
  match args with [] => [] | _ :: args => a :: args end.
Definition set_environ (e : Executor) (env : list string) : Executor :=
  mkExec (e_Dir e) (BinName e) (e_Args e) (SkipNbArgs e) (e_Paths e) (ExtraEnv e) env (iniDir e) (scriptDir e) (tempDir e).
Definition set_args (e : Executor) (args : list string) : Executor :=
  mkExec (e_Dir e) (BinName e) args (SkipNbArgs e) (e_Paths e) (ExtraEnv e) (e_environ e) (iniDir e) (scriptDir e) (tempDir e).
Definition set_temp (e : Executor) (dir : string) : Executor :=
  mkExec (e_Dir e) (BinName e) (e_Args e) (SkipNbArgs e) (e_Paths e) (ExtraEnv e) (e_environ e) (iniDir e) (scriptDir e) dir.
Definition set_paths (e : Executor) (paths : list string) : Executor :=
  mkExec (e_Dir e) (BinName e) (e_Args e) (SkipNbArgs e) paths (ExtraEnv e) (e_environ e) (iniDir e) (scriptDir e) (tempDir e).

Definition php_vars (v : Version) : list string :=
  ["PHP_BINARY=" +:+ PHPPath v; "PHP_PATH=" +:+ PHPPath v; "PHP_PEAR_PHP_BIN=" +:+ PHPPath v].

(** The part of [Config] after the version is known. *)
Definition Config_php (w : os) (ls : links) (e : Executor) (v : Version) (path : string) (phpiniArgs : bool)
  : Executor * links * option exec_err :=
  let e := set_environ e (e_environ e ++ php_vars v) in
  let e := if bool_decide (tempDir e = "") then set_temp e (fjoin [home_dir w; "tmp"; xid]) else e in
  let phpDir := fjoin [tempDir e; "bin"] in
  if negb (can_mkdir phpDir) then (e, ls, Some (MkdirErr phpDir)) else
  match symlink_all w ls (wanted_links phpDir v) with
  | (ls, Some err) => (e, ls, Some err)
  | (ls, None) =>
    let bin := fjoin [phpDir; BinName e] in
    match (if link_exists w ls bin then (ls, None) else symlink w ls path bin) with
    | (ls, Some err) => (e, ls, Some err)
    | (ls, None) =>
      let e := set_paths e ([Dir path; phpDir] ++ e_Paths e) in
      let e := if phpiniArgs then set_environ e (e_environ e ++ scan_dir_vars w e v) else e in
      let e := if IsBinaryName (default "" (head (e_Args e))) then set_args e (set_first (e_Args e) path) else e in
      (e, ls, None)
    end
  end.

(** [fmt.Sprintf("%s=%s", k, v)] *)
Definition env_entry (kv : string * string) : string := kv.1 +:+ "=" +:+ kv.2.

Section config.
Context {S : Type} `{!Environment S, !RangeOrder}.
Context (url_parse : string → option (string * string))
        (url_build : string → string → string → string → string → string)
        (fmt_s : gval → string)
        (yaml_doctrine : string → option (string * string)) (json_id : string → option string)
        (godotenv : string → option vars_map) (GetEnv : string → option S).

(** The variables of the services and of the dotenv files. *)
Definition project_vars (w : os) (dir : string) (loadDotEnv : bool) : outcome vars_map :=
  vars ← match GetEnv dir with
         | None => Ret ∅
         | Some env => '(_, m) ← AsMap url_parse url_build fmt_s yaml_doctrine json_id w env; Ret m
         end;
  Ret (if loadDotEnv then LoadDotEnv godotenv w vars dir else vars).

Definition Config (w : os) (ls : links) (e : Executor) (loadDotEnv : bool)
  : outcome (Executor * links * option exec_err) :=
  let e := set_environ e [] in
  if bool_decide (e_Args e = []) then Ret (e, ls, Some EmptyArgs) else
  '(e, r) ← DetectScriptDir w e;
  match r with
  | Err err => Ret (e, ls, Some err)
  | Val _ =>
    vars ← project_vars w (scriptDir e) loadDotEnv;
    let e := set_environ e (map env_entry (range vars)) in
    if InCloud w then Ret (set_args e (set_first (e_Args e) (BinName e)), ls, None)
    else
      match lookup_twice w e with
      | Err err => Ret (e, ls, Some err)
      | Val (v, path, phpiniArgs) => Ret (Config_php w ls e v path phpiniArgs)
      end
  end.
End config.

(** ** The process *)

(** The entries of [e.Paths] are prepended one after the other. *)
Definition exec_path (w : os) (e : Executor) : string :=
  foldl (λ full path, path +:+ ":" +:+ full) (Getenv w "PATH") (e_Paths e).
Definition exec_env (environ_list : list string) (w : os) (e : Executor) : list string :=
  (environ_list ++ e_environ e) ++ ["PATH=" +:+ exec_path w e] ++ ExtraEnv e.

(** How the process ends: [cmd.Wait]. *)
Inductive wait_res := WaitNil | WaitExit (status : Z) | WaitOther.
Definition exit_code (r : wait_res) : Z :=
  match r with WaitNil => 0 | WaitExit status => status | WaitOther => 0 end.

Inductive exec_event := GotSignal (sig : string) | Waited (r : wait_res).
Definition shouldSignalBeIgnored (sig : string) : bool := bool_decide (sig = "SIGCHLD").
(** The signals forwarded and the exit code; [None]: still running. *)
Fixpoint exec_loop (evs : list exec_event) (sent : list string) : list string * option Z :=
  match evs with
  | [] => (sent, None)
  | GotSignal sig :: evs => exec_loop evs (if shouldSignalBeIgnored sig then sent else sent ++ [sig])
  | Waited r :: _ => (sent, Some (exit_code r))
  end.

(** ** Finding programs *)

Definition plain_file (w : os) (p : string) : bool :=
  match stat w p with Found isDir => negb isDir | _ => false end.

Definition LookPath (w : os) (file : string) : option string :=
  if InCloud w then look_path file else
  match best_version false (default "" (getwd w)) with
  | None => look_path file
  | Some v =>
    let path := fjoin [Dir (PHPPath v); file] in
    if plain_file w path && executable path then Some path else look_path file
  end.

Definition find_in (w : os) (dir : string) (names : list string) : option string :=
  snd <$> list_find (λ p, plain_file w p = true) ((λ f, fjoin [dir; f]) <$> names).

Definition findComposerSystemSpecific (w : os) : option string :=
  snd <$> list_find (λ p, plain_file w p = true)
    ((λ p, fjoin [p; "libexec/composer/composer.phar"]) <$> Split (Getenv w "buildInputs") " ").

(** A wrapper of Windows stands for the archive beside it. *)
Definition unwrap (path : string) : string :=
  if HasSuffix path ".bat" || HasSuffix path ".cmd" then stake (slen path - 4) path +:+ ".phar" else path.
Fixpoint look_first (w : os) (names : list string) : option string :=
  match names with
  | [] => None
  | n :: names => match LookPath w n with Some (String a p) => Some (String a p) | _ => look_first w names end
  end.

Definition findComposer (w : os) (extraBin : string) : option string :=
  match findComposerSystemSpecific w with
  | Some p => Some p
  | None => unwrap <$> look_first w [extraBin; "composer"; "composer.phar"]
  end.
Definition e_findComposer (w : os) (e : Executor) (extraBin : string) : outcome (Executor * option string) :=
  '(e, r) ← DetectScriptDir w e;
  match r with
  | Val dir => match find_in w dir [extraBin; "composer.phar"; "composer"] with
               | Some p => Ret (e, Some p) | None => Ret (e, findComposer w extraBin) end
  | Err _ => Ret (e, findComposer w extraBin)
  end.
Definition findPie (w : os) : option string := look_first w ["pie"; "pie.phar"].
Definition e_findPie (w : os) (e : Executor) : outcome (Executor * option string) :=
  '(e, r) ← DetectScriptDir w e;
  match r with
  | Val dir => match find_in w dir ["pie.phar"; "pie"] with
               | Some p => Ret (e, Some p) | None => Ret (e, findPie w) end
  | Err _ => Ret (e, findPie w)
  end.
End executor.

(** ** Composer, PIE and the Symfony console *)

(** The first line as [bufio.Reader.ReadLine] gives it: at most the 4096 bytes
    of the buffer, without the end of line. *)
Fixpoint cut_line (n : nat) (s : string) : string :=
  match n, s with
  | O, _ | _, EmptyString => ""
  | S n, String c s => if Ascii.eqb c "010" then "" else String c (cut_line n s)
  end.
Definition first_line (contents : string) : option string :=
  if bool_decide (contents = "") then None else
  let l := cut_line 4096 contents in
  let ended := bool_decide (slen l < slen contents ∨ slen l = 4096) in
  Some (if ended && HasSuffix l (String "013" "") then stake (slen l - 1) l else l).

Definition isPHPScriptDirect (w : os) (path : string) : bool :=
  match read_file w path ≫= first_line with
  | None => false
  | Some line => bool_decide (line = "<?php") || HasPrefix line "#!/" && HasSuffix line "php"
  end.

Definition isNixWrapper (eval_symlinks : string → option string) (w : os) (path : string) : bool :=
  if bool_decide (path = "") then false else
  match eval_symlinks path with
  | None => false
  | Some realPath =>
    let wrappedPath := fjoin [Dir realPath; "." +:+ Base realPath +:+ "-wrapped"] in
    exists_ w wrappedPath && isPHPScriptDirect w wrappedPath
  end.

(** The default of [composerVersion] is 2. *)
Definition composerVersion (json_lock : string → option string) (w : os) : Z :=
  match (wd ← getwd w; contents ← read_file w (fjoin [wd; "composer.lock"]); json_lock contents) with
  | Some version => if HasPrefix version "1." then 1 else 2
  | None => 2
  end.

(** What a download leaves behind, in order. *)
Inductive download_effect :=
| WroteSetup (contents : string) | WriteSetupFailed | RanSetup (contents : option string) | RemovedSetup.

Section composer.
Context (eval_symlinks : string → option string) (json_lock : string → option string).
Context (http_get : string → option string) (sha384_hex : string → string)
        (run_setup : option string → Z) (can_mkdir chmod_ok remove_ok : string → bool).
(** What [composer-setup.php] holds when writing it fails, whose error is not looked
    at; [None]: writing succeeds.  [run_setup] is the exit code of PHP on the
    contents of the file, [None] when there is no such file. *)
Context (write_failure : option (option string)).

Definition downloadComposer (w : os) (dir : string) : list download_effect * gores exec_err string :=
  if negb (can_mkdir dir) then ([], Err (MkdirErr dir)) else
  let path := fjoin [dir; "composer.phar"] in
  if exists_ w path then ([], Val path) else
  match http_get "https://composer.github.io/installer.sig" with
  | None => ([], Err DownloadErr)
  | Some sig =>
    match http_get "https://getcomposer.org/installer" with
    | None => ([], Err DownloadErr)
    | Some installer =>
      if negb (bool_decide (sha384_hex installer = sig)) then ([], Err WrongSignature) else
      let '(wrote, setup) := match write_failure with
                             | None => (WroteSetup installer, Some installer)
                             | Some rest => (WriteSetupFailed, rest)
                             end in
      let effects := [wrote; RanSetup setup] in
      if bool_decide (run_setup setup = 1%Z) then (effects, Err DownloadErr)
      else if negb (chmod_ok path) then (effects, Err DownloadErr)
      else if negb (remove_ok (fjoin [dir; "composer-setup.php"])) then (effects, Err DownloadErr)
      else (effects ++ [RemovedSetup], Val path)
    end
  end.

Definition downloadComposerFallback (w : os) (e : Executor) (args : list string)
  : list download_effect * gores exec_err Executor :=
  match downloadComposer w (fjoin [home_dir w; "composer"]) with
  | (l, Err err) => (l, Err err)
  | (l, Val path) => (l, Val (set_args e (["php"; path] ++ args)))
  end.

Definition new_executor (dir : string) (env : list string) : Executor :=
  mkExec dir "php" [] (-1) [] env [] "" "" "".

(** [find] is [e.findComposer(composerBin)]; the executor that runs Composer. *)
Definition Composer (w : os) (find : Executor → string → outcome (Executor * option string))
    (dir : string) (args env : list string)
  : outcome (list download_effect * gores exec_err Executor) :=
  let env := if bool_decide (Getenv w "COMPOSER_MEMORY_LIMIT" = "")
             then env ++ ["COMPOSER_MEMORY_LIMIT=-1"] else env in
  let e := new_executor dir env in
  let composerBin := if bool_decide (composerVersion json_lock w = 2%Z) then "composer2" else "composer1" in
  let composerPath := Getenv w "SYMFONY_COMPOSER_PATH" in
  if bool_decide (composerPath ≠ "") then Ret ([], Val (set_args e (composerPath :: args))) else
  '(e, found) ← find e composerBin;
  Ret (match found with
       | Some path =>
         if isNixWrapper eval_symlinks w path then ([], Val (set_args e (path :: args)))
         else if isPHPScriptDirect w path then ([], Val (set_args e (["php"; path] ++ args)))
         else downloadComposerFallback w e args
       | None => downloadComposerFallback w e args
       end).

(** [ComposerResult] and [PieResult]: the exit code. *)
Definition composer_code (r : gores exec_err Z) : Z :=
  match r with Err _ => 1 | Val ret => ret end.

Definition downloadPie (w : os) (write_ok : string → bool) (dir : string) : gores exec_err string :=
  if negb (can_mkdir dir) then Err (MkdirErr dir) else
  let path := fjoin [dir; "pie.phar"] in
  if exists_ w path then Val path else
  match http_get "https://github.com/php/pie/releases/latest/download/pie.phar" with
  | None => Err DownloadErr
  | Some _ => if write_ok path then Val path else Err DownloadErr
  end.

Definition PieExecutor (w : os) (write_ok : string → bool)
    (find : Executor → outcome (Executor * option string)) (dir : string) (args env : list string)
  : outcome (gores exec_err Executor) :=
  let e := new_executor dir env in
  let piePath := Getenv w "SYMFONY_PIE_PATH" in
  if bool_decide (piePath ≠ "") then Ret (Val (set_args e (piePath :: args))) else
  '(e, found) ← find e;
  let fallback := path ← downloadPie w write_ok (fjoin [home_dir w; "pie"]);
                  Val (set_args e (["php"; path] ++ args)) in
  Ret (match found with
       | Some path => if isNixWrapper eval_symlinks w path then Val (set_args e (path :: args))
                      else if isPHPScriptDirect w path then Val (set_args e (["php"; path] ++ args))
                      else fallback
       | None => fallback
       end).
End composer.

(** The console of the nearest directory; [SYMFONY_CONSOLE_PATH] may come from
    the dotenv files of each directory. *)
Definition console_test (godotenv : string → option vars_map) (w : os) (dir : string) : option string :=
  let paths := match Dotenv.LookupEnv godotenv w dir "SYMFONY_CONSOLE_PATH" with
               | Some p => [p] | None => ["bin/console"; "app/console"] end in
  snd <$> list_find (λ p, exists_ w p = true) ((λ p, fjoin [dir; p]) <$> paths).
Definition SymfonyConsoleExecutor (godotenv : string → option vars_map) (w : os) (args : list string)
  : gores exec_err Executor :=
  match getwd w with
  | None => Err GetwdErr
  | Some dir =>
    match walkUp true (console_test godotenv w) dir with
    | Some path => Val (mkExec "" "php" (["php"; path] ++ args) 0 [] [] [] "" "" "")
    | None => Err NoConsole
    end
  end.

(** ** Temporary directories *)

(** What is known of an entry of the directory: whether it can be opened, is a
    directory, and its modification time. *)
Record tmp_entry := mkEntry { t_name : string; t_open : bool; t_isDir : bool; t_modTime : Z }.
Definition week : Z := 7 * 24 * 3600.

Definition stale_entry (xid_ok : string → bool) (cutoff : Z) (t : tmp_entry) : bool :=
  bool_decide (slen (t_name t) = 20) && xid_ok (t_name t) && t_open t && t_isDir t
  && negb (bool_decide (cutoff < t_modTime t)%Z).
(** The directories [RemoveAll] is called on; the entries are read in batches. *)
Definition cleanupStaleTemporaryDirectories (xid_ok : string → bool) (w : os) (now : Z)
    (entries : list tmp_entry) : list string :=
  let parentDirectory := fjoin [home_dir w; "tmp"] in
  if slen parentDirectory <? 6 then [] else
  (λ t, fjoin [parentDirectory; t_name t]) <$> List.filter (stale_entry xid_ok (now - week)) entries.

(** ** Which argument is the script *)

(** An option that takes the next argument, an option on its own. *)
Definition takes_arg (a : string) : bool := bool_decide (a ∈ option_flags).
Definition single_option (a : string) : bool :=
  HasPrefix a "-" && negb (HasPrefix a "-f") && negb (bool_decide (a = "--")) && negb (takes_arg a).

(** The options of a command line, before the script. *)
Inductive php_options : list string → Prop :=
| opts_nil : php_options []
| opts_arg a v opts : takes_arg a = true → php_options opts → php_options (a :: v :: opts)
| opts_single a opts : single_option a = true → php_options opts → php_options (a :: opts).

Lemma skip_flag a :
  existsb (λ flag, HasPrefix a flag && (slen a =? 2)) option_flags = takes_arg a.
Proof.
  unfold takes_arg. apply eq_true_iff_eq. rewrite existsb_exists, bool_decide_eq_true.
  assert (Hl : ∀ f, f ∈ option_flags → slen f = 2).
  { apply Forall_forall. unfold option_flags. repeat constructor. }
  split.
  - intros (f & Hf & [Hp Hlen]%andb_true_iff). apply list_elem_of_In in Hf.
    apply HasPrefix_spec in Hp as [r ->]. rewrite slen_app, (Hl _ Hf), Nat.eqb_eq in Hlen.
    destruct r; [by rewrite sapp_nil_r|simpl in Hlen; lia].
  - intros Ha. exists a. split; [by apply list_elem_of_In|].
    rewrite (Hl _ Ha), <-(sapp_nil_r a) at 1. by rewrite HasPrefix_app.
Qed.

Lemma takes_arg_shape a : takes_arg a = true →
  HasPrefix a "-f" = false ∧ a ≠ "--" ∧ HasPrefix a "-" = true.
Proof.
  unfold takes_arg. rewrite bool_decide_eq_true. revert a. apply Forall_forall.
  unfold option_flags. repeat (constructor; [done|]). constructor.
Qed.

Lemma script_of_options opts rest :
  php_options opts → script_of (opts ++ rest) false = script_of rest false.
Proof.
  induction 1 as [|a v opts Ha _ IH|a opts Ha _ IH]; [done|..].
  - destruct (takes_arg_shape _ Ha) as (Hf & Hd & Hm). cbn [app script_of].
    rewrite skip_flag, Hf, Hm, Ha, bool_decide_eq_false_2 by done. exact IH.
  - unfold single_option in Ha. rewrite !andb_true_iff, !negb_true_iff in Ha.
    destruct Ha as (((Hm & Hf) & Hd) & Ht). cbn [app script_of]. by rewrite skip_flag, Hf, Hm, Ht, Hd.
Qed.

(** After any options, the script is the argument of [-f], attached or
    not, else the first argument that is no option; [--] ends the search, and a
    final [-f] without its argument makes the search panic. *)
Theorem script_of_spec opts rest s :
  php_options opts → s ≠ "" →
  script_of opts false = Ret "" ∧
  script_of (opts ++ "--" :: rest) false = Ret "" ∧
  script_of (opts ++ "-f" :: s :: rest) false = Ret s ∧
  script_of (opts ++ ("-f" +:+ s) :: rest) false = Ret s ∧
  (HasPrefix s "-" = false → script_of (opts ++ s :: rest) false = Ret s) ∧
  script_of (opts ++ ["-f"]) false = Panic.
Proof.
  intros Ho Hs. rewrite <-(app_nil_r opts) at 1. rewrite !script_of_options by done.
  split_and!; try done.
  - cbn [script_of]. rewrite HasPrefix_app.
    destruct s as [|c s]; [done|]. by destruct s.
  - intros Hd. cbn [script_of]. rewrite skip_flag.
    assert (Hf : HasPrefix s "-f" = false).
    { destruct (HasPrefix s "-f") eqn:E; [|done]. apply HasPrefix_spec in E as [r ->]. done. }
    rewrite Hf, Hd, bool_decide_eq_false_2; [done|]. by intros ->.
Qed.

Lemma script_of_spec_witness :
  script_of ["-c"; "php.ini"; "-l"; "php.go"; "--"; "foo.go"] false = Ret "php.go" ∧
  script_of ["-c"; "php.ini"; "-f"] false = Panic.
Proof.
  assert (Ho : php_options ["-c"; "php.ini"; "-l"]) by (repeat constructor).
  assert (Ho' : php_options ["-c"; "php.ini"]) by (repeat constructor).
  split.
  - by apply (script_of_spec ["-c"; "php.ini"; "-l"] ["--"; "foo.go"] "php.go").
  - by apply (script_of_spec ["-c"; "php.ini"] [] "x").
Defined.

(** ** The binary that is found *)

Section lookup.
Context (best_version : bool → string → option Version).

Definition usable (w : os) (e : Executor) (force : bool) (v : Version) (path : string) (ini : bool) : Prop :=
  best_version force (scriptDir e) = Some v ∧ bin_path (BinName e) v = Val (path, ini) ∧
  stat w path ≠ NotExist.

Lemma lookup_attempt_Some w e force v path ini :
  lookup_attempt best_version w e force = Val (Some (v, path, ini)) ↔ usable w e force v path ini.
Proof.
  unfold lookup_attempt, usable. destruct (best_version force (scriptDir e)) as [v'|]; [|naive_solver].
  destruct (bin_path (BinName e) v') as [[p i]|err] eqn:E; cbn [mbind gores_bind].
  - destruct (stat w p) eqn:Es; naive_solver congruence.
  - naive_solver congruence.
Qed.

Lemma lookupPHP_usable w e force v path ini :
  lookupPHP best_version w e force = Val (v, path, ini) → ∃ f, usable w e f v path ini.
Proof.
  unfold lookupPHP. intros Hl.
  destruct (lookup_attempt best_version w e force) as [[[[v1 p1] i1]|]|] eqn:E1; [|destruct force|done].
  - injection Hl as <- <- <-. exists force. by apply lookup_attempt_Some.
  - done.
  - destruct (lookup_attempt best_version w e true) as [[[[v2 p2] i2]|]|] eqn:E2; try done.
    injection Hl as <- <- <-. exists true. by apply lookup_attempt_Some.
Qed.

Lemma lookup_twice_usable w e v path ini :
  lookup_twice best_version w e = Val (v, path, ini) → ∃ f, usable w e f v path ini.
Proof.
  unfold lookup_twice. destruct (lookupPHP best_version w e false) as [r|] eqn:E; intros Hl.
  - injection Hl as ->. by apply lookupPHP_usable in E.
  - by apply lookupPHP_usable in Hl.
Qed.

(** The version and binary that are used are those of the PHP store for the
    directory of the script, and the binary was not missing; an error means that
    even the reloaded store has no such binary. *)
Theorem lookup_twice_spec w e :
  match lookup_twice best_version w e with
  | Val (v, path, ini) => ∃ force, usable w e force v path ini
  | Err _ => ∀ v path ini, ¬ usable w e true v path ini
  end.
Proof.
  destruct (lookup_twice best_version w e) as [[[v p] i]|] eqn:E; [by apply lookup_twice_usable|].
  intros v path ini Hu%lookup_attempt_Some. revert E. unfold lookup_twice.
  destruct (lookupPHP best_version w e false); [done|]. unfold lookupPHP. by rewrite Hu.
Qed.
End lookup.

(** ** The environment of the process *)

(** The value a process sees: that of the last entry with the name. *)
Definition env_get (env : list string) (k : string) : option string :=
  foldl (λ acc s, if HasPrefix s (k +:+ "=") then Some (sdrop (slen k + 1) s) else acc) None env.

Definition or_else {A} (a b : option A) : option A := match a with Some x => Some x | None => b end.

Lemma env_get_acc env k acc :
  foldl (λ acc s, if HasPrefix s (k +:+ "=") then Some (sdrop (slen k + 1) s) else acc) acc env
  = or_else (env_get env k) acc.
Proof.
  revert acc. induction env as [|s env IH]; intros acc; [done|]. unfold env_get. cbn [foldl].
  rewrite !IH. destruct (HasPrefix s (k +:+ "=")); destruct (env_get env k); done.
Qed.

Lemma env_get_app a b k : env_get (a ++ b) k = or_else (env_get b k) (env_get a k).
Proof. unfold env_get at 1. rewrite foldl_app. apply env_get_acc. Qed.

Lemma env_get_cons s env k :
  env_get (s :: env) k
  = or_else (env_get env k) (if HasPrefix s (k +:+ "=") then Some (sdrop (slen k + 1) s) else None).
Proof. unfold env_get at 1. cbn [foldl]. apply env_get_acc. Qed.

(** An entry [name=value] is that of its name only. *)
Lemma entry_prefix name v k :
  lacks "=" name = true → lacks "=" k = true →
  HasPrefix (name +:+ "=" +:+ v) (k +:+ "=") = bool_decide (name = k).
Proof.
  revert k. induction name as [|c name IH]; intros [|d k] Hn Hk; rewrite ?sapp_nil_l, ?sapp_cons.
  - reflexivity.
  - unfold lacks in Hk. cbn [sforall] in Hk. apply andb_true_iff in Hk as [Hd _].
    rewrite bool_decide_eq_false_2 by done. cbn [HasPrefix]. rewrite Ascii.eqb_sym.
    apply negb_true_iff in Hd. by rewrite Hd.
  - unfold lacks in Hn. cbn [sforall] in Hn. apply andb_true_iff in Hn as [Hd _].
    rewrite bool_decide_eq_false_2 by done. apply negb_true_iff in Hd.
    by rewrite (HasPrefix_char "=" c).
  - unfold lacks in Hn, Hk. cbn [sforall] in Hn, Hk. apply andb_true_iff in Hn as [_ Hn], Hk as [_ Hk].
    cbn [HasPrefix]. rewrite IH by done. destruct (Ascii.eqb_spec d c) as [->|Hne]; simpl.
    + apply bool_decide_ext. naive_solver.
    + symmetry. apply bool_decide_eq_false_2. naive_solver.
Qed.

Lemma entry_value name v : sdrop (slen name + 1) (name +:+ "=" +:+ v) = v.
Proof. rewrite <-sapp_assoc. change 1 with (slen "="). rewrite <-slen_app. apply sdrop_app. Qed.

Lemma env_get_vars (kvs : list (string * string)) k :
  NoDup kvs.*1 → Forall (λ kv, lacks "=" kv.1 = true) kvs → lacks "=" k = true →
  env_get (map env_entry kvs) k = list_to_map (M := vars_map) kvs !! k.
Proof.
  intros Hd Hl Hk. induction kvs as [|[n v] kvs IH]; [done|].
  apply Forall_cons in Hl as [Hn Hl]. cbn in Hd. apply NoDup_cons in Hd as [Hni Hd].
  cbn [map]. change (env_entry (n, v)) with (n +:+ "=" +:+ v).
  rewrite env_get_cons, IH, entry_prefix by done. cbn [list_to_map foldr fst snd].
  destruct (decide (n = k)) as [->|Hne].
  - rewrite bool_decide_eq_true_2, lookup_insert_eq, entry_value by done.
    by rewrite not_elem_of_list_to_map_1.
  - rewrite bool_decide_eq_false_2, lookup_insert_ne by done. by destruct (_ !! k).
Qed.

Lemma env_get_range `{!RangeOrder} (vars : vars_map) k :
  map_Forall (λ k _, lacks "=" k = true) vars → lacks "=" k = true →
  env_get (map env_entry (range vars)) k = vars !! k.
Proof.
  intros Hv Hk.
  assert (Hnd : NoDup (range vars).*1) by (rewrite range_perm; apply NoDup_fst_map_to_list).
  rewrite env_get_vars; [|done| |done].
  - f_equal. rewrite <-(list_to_map_to_list vars) at 2. apply list_to_map_proper; [done|apply range_perm].
  - rewrite range_perm. apply Forall_forall. intros [n x] Hin%elem_of_map_to_list. by apply (Hv n x).
Qed.

(** Entries under other names do not matter. *)
Lemma env_get_other (entries : list (string * string)) k :
  Forall (λ kv, lacks "=" kv.1 = true ∧ kv.1 ≠ k) entries → lacks "=" k = true →
  env_get (map env_entry entries) k = None.
Proof.
  intros H Hk. induction H as [|[n v] entries [Hn Hne] _ IH]; [done|].
  cbn [map]. change (env_entry (n, v)) with (n +:+ "=" +:+ v). cbn [fst snd] in *.
  by rewrite env_get_cons, entry_prefix, IH, bool_decide_eq_false_2.
Qed.

Definition reserved_vars : list string :=
  ["PATH"; "PHP_BINARY"; "PHP_PATH"; "PHP_PEAR_PHP_BIN"; "PHP_INI_SCAN_DIR"].

Section config_facts.
Context (best_version : bool → string → option Version)
        (scan_dir_output : string → option string)
        (can_mkdir can_link : string → bool) (eval_target : string → string) (xid : string).
Context {S : Type} `{!Environment S, !RangeOrder}.
Context (url_parse : string → option (string * string))
        (url_build : string → string → string → string → string → string)
        (fmt_s : gval → string)
        (yaml_doctrine : string → option (string * string)) (json_id : string → option string)
        (godotenv : string → option vars_map) (GetEnv : string → option S).
Let Config := Config best_version scan_dir_output can_mkdir can_link eval_target xid
                url_parse url_build fmt_s yaml_doctrine json_id godotenv GetEnv.
Let project_vars := project_vars url_parse url_build fmt_s yaml_doctrine json_id godotenv GetEnv.
Let Config_php := Config_php scan_dir_output can_mkdir can_link eval_target xid.

(** What [Config] adds for the version that was found. *)
Lemma Config_php_spec w ls e v path ini e' ls' :
  Config_php w ls e v path ini = (e', ls', None) →
  let phpDir := fjoin [tempDir e'; "bin"] in
  e_Paths e' = [Dir path; phpDir] ++ e_Paths e ∧ ExtraEnv e' = ExtraEnv e ∧ scriptDir e' = scriptDir e ∧
  BinName e' = BinName e ∧
  ∃ scan, e_environ e' = e_environ e ++ php_vars v ++ map env_entry scan ∧
          Forall (λ kv : string * string, kv.1 = "PHP_INI_SCAN_DIR") scan.
Proof.
  unfold Config_php, PhpExecutor.Config_php.
  set (e1 := if bool_decide (tempDir _ = "") then _ else _).
  assert (He1 : e_environ e1 = e_environ e ++ php_vars v ∧ e_Paths e1 = e_Paths e ∧ ExtraEnv e1 = ExtraEnv e
                ∧ scriptDir e1 = scriptDir e ∧ BinName e1 = BinName e) by (unfold e1; by case_bool_decide).
  clearbody e1. destruct He1 as (He & Hp & Hx & Hs & Hb).
  destruct (negb _); [done|]. destruct (symlink_all _ _ _ _ _) as [ls1 [err|]]; [done|].
  destruct (if link_exists w ls1 _ then _ else _) as [ls2 [err|]]; [done|].
  intros [= <- _]. cbn zeta.
  assert (Hscan : ∀ e0, ∃ scan, scan_dir_vars scan_dir_output w e0 v = map env_entry scan ∧
                        Forall (λ kv : string * string, kv.1 = "PHP_INI_SCAN_DIR") scan).
  { intros e0. unfold scan_dir_vars. destruct (bool_decide _); [by exists []|].
    eexists [("PHP_INI_SCAN_DIR", _)]. split; [done|]. by constructor. }
  destruct ini;
    [match goal with |- context [scan_dir_vars _ _ ?e0 _] => destruct (Hscan e0) as (scan & -> & Hf) end|];
    destruct (IsBinaryName _);
    cbn [e_environ e_Paths ExtraEnv scriptDir BinName tempDir set_environ set_paths set_args];
    rewrite ?He, ?Hp, ?Hx, ?Hs, ?Hb.
  1,2: split_and!; [done..|]; exists scan; by rewrite <-!app_assoc.
  all: split_and!; [done..|]; exists []; cbn [map]; by rewrite app_nil_r.
Qed.

Lemma DetectScriptDir_frame w e e' r :
  DetectScriptDir w e = Ret (e', r) →
  ExtraEnv e' = ExtraEnv e ∧ e_Paths e' = e_Paths e ∧ BinName e' = BinName e ∧ e_Args e' = e_Args e.
Proof.
  unfold DetectScriptDir. intros Hd. repeat case_bool_decide; try case_match; simplify_eq/=; try done.
  all: apply bind_inv in Hd as (d & _ & Hd); by simplify_eq.
Qed.

Lemma Config_inv w ls e ld e' ls' :
  Config w ls e ld = Ret (e', ls', None) → InCloud w = false →
  ∃ e1 vars v path ini, project_vars w (scriptDir e1) ld = Ret vars ∧
    e_environ e1 = map env_entry (range vars) ∧ ExtraEnv e1 = ExtraEnv e ∧ e_Paths e1 = e_Paths e ∧
    lookup_twice best_version w e1 = Val (v, path, ini) ∧ Config_php w ls e1 v path ini = (e', ls', None).
Proof.
  unfold Config, PhpExecutor.Config. intros Hc Hcl. case_bool_decide; [done|].
  apply bind_inv in Hc as ([e0 r] & Hd & Hc). apply DetectScriptDir_frame in Hd as (Hx & Hp & _).
  destruct r as [dir|err]; [|done]. apply bind_inv in Hc as (vars & Hv & Hc). rewrite Hcl in Hc.
  destruct (lookup_twice best_version w _) as [[[v path] ini]|err] eqn:El; [|done].
  apply Ret_inj in Hc. exists (set_environ e0 (map env_entry (range vars))), vars, v, path, ini. done.
Qed.

(** C23: the process sees, for a name that is not set by the executor, the value
    given by the caller, else that of the services or dotenv files of the
    project, else that of the environment of the CLI; [PHP_BINARY] is the PHP
    binary that was selected, unless the caller gives it; and unless the caller
    gives [PATH], it is that of the CLI with the directory of the links of the
    binary in front, after those that the caller added. *)
Theorem Execute_env w ls e ld e' ls' vars environ_list :
  Config w ls e ld = Ret (e', ls', None) → InCloud w = false →
  project_vars w (scriptDir e') ld = Ret vars →
  map_Forall (λ k _, lacks "=" k = true) vars →
  (∀ k, lacks "=" k = true → k ∉ reserved_vars →
     env_get (exec_env environ_list w e') k
     = or_else (env_get (ExtraEnv e) k) (or_else (vars !! k) (env_get environ_list k))) ∧
  ∃ force v path ini, usable best_version w e' force v path ini ∧
    (env_get (ExtraEnv e) "PHP_BINARY" = None →
     env_get (exec_env environ_list w e') "PHP_BINARY" = Some (PHPPath v)) ∧
    env_get (exec_env environ_list w e') "PATH" =
      or_else (env_get (ExtraEnv e) "PATH")
        (Some (foldl (λ full dir, dir +:+ ":" +:+ full)
                 (fjoin [tempDir e'; "bin"] +:+ ":" +:+ Dir path +:+ ":" +:+ Getenv w "PATH") (e_Paths e))).
Proof.
  intros Hc Hcl Hv Hk.
  destruct (Config_inv _ _ _ _ _ _ Hc Hcl) as (e1 & vars1 & v & path & ini & Hv1 & He1 & Hx1 & Hp1 & Hl & Hphp).
  destruct (Config_php_spec _ _ _ _ _ _ _ _ Hphp) as (Hp & Hx & Hs & Hb & scan & He & Hscan).
  rewrite Hs, Hv1 in Hv. apply Ret_inj in Hv as ->. rewrite Hx1 in Hx.
  destruct (lookup_twice_usable _ _ _ _ _ _ Hl) as [force Hu].
  assert (Hlack : Forall (λ kv : string * string, lacks "=" kv.1 = true) scan).
  { eapply Forall_impl; [exact Hscan|]. by intros kv ->. }
  assert (Henv : ∀ k, lacks "=" k = true → k ≠ "PATH" →
    env_get (exec_env environ_list w e') k
    = or_else (env_get (ExtraEnv e) k)
        (or_else (env_get (map env_entry scan) k)
           (or_else (env_get (php_vars v) k) (or_else (vars !! k) (env_get environ_list k))))).
  { intros k Hlk Hne. unfold exec_env. rewrite !env_get_app, He, !env_get_app, He1, Hx.
    change ["PATH=" +:+ exec_path w e'] with (map env_entry [("PATH", exec_path w e')]).
    rewrite (env_get_other [("PATH", exec_path w e')]) by (done || by repeat constructor).
    rewrite env_get_range by done.
    destruct (env_get (ExtraEnv e) k), (env_get (map env_entry scan) k), (env_get (php_vars v) k); done. }
  assert (Hphpv : ∀ k, lacks "=" k = true → k ∉ reserved_vars → env_get (php_vars v) k = None).
  { intros k Hlk Hr. apply (env_get_other [("PHP_BINARY", PHPPath v); ("PHP_PATH", PHPPath v);
                                        ("PHP_PEAR_PHP_BIN", PHPPath v)]); [|done].
    unfold reserved_vars in Hr. rewrite !not_elem_of_cons in Hr. repeat constructor; naive_solver. }
  split.
  - intros k Hlk Hr. rewrite Henv, Hphpv; [|done..|]. 2: { intros ->. apply Hr. by left. }
    rewrite env_get_other; [done| |done]. eapply Forall_impl; [exact Hscan|].
    intros kv Hkv. rewrite Hkv. split; [done|]. intros <-. apply Hr. unfold reserved_vars. by do 4 right; left.
  - exists force, v, path, ini. split_and!.
    + unfold usable in *. by rewrite Hs, Hb.
    + intros Hno. rewrite Henv, Hno by done. rewrite env_get_other; [|eapply Forall_impl; [exact Hscan|]|done].
      2: { intros kv Hkv. by rewrite Hkv. }
      reflexivity.
    + unfold exec_env. rewrite !env_get_app, Hx.
      change ["PATH=" +:+ exec_path w e'] with (map env_entry [("PATH", exec_path w e')]).
      rewrite (env_get_vars [("PATH", exec_path w e')]); [|apply NoDup_singleton|by repeat constructor|done].
      cbn [list_to_map foldr fst snd]. rewrite lookup_insert_eq. unfold exec_path. rewrite Hp, Hp1, foldl_app.
      by destruct (env_get (ExtraEnv e) "PATH").
Qed.
End config_facts.

(** ** Concrete runs *)

Definition ex_php : Version := mkVersion "8.3.1" "/usr/bin/php8.3" "" "" "/usr/bin/php-config8.3" "" "".
Definition ex_php_os : os :=
  table_os {[ "PATH" := "/bin" ]} (list_to_map [("/usr/bin/php8.3", Some ""); ("/usr/bin/php-config8.3", Some "")])
    "/app" "/h".
Definition ex_exec : Executor := mkExec "" "php" ["php"; "bin/console"] 0 [] [] [] "" "/app" "".
Definition ex_project : fixed_env := mkFixed "/app" ∅ "php" [] {[ "DATABASE_URL" := "mine" ]} true.
Definition ex_store (_ : bool) (_ : string) : option Version := Some ex_php.
Definition ok_path (_ : string) : bool := true.

Definition ex_Config : outcome (Executor * gmap string string * option exec_err) :=
  Config ex_store (λ _, None) ok_path ok_path id "x" no_url_parse no_url_build no_fmt
    (λ _, None) (λ _, None) (λ _, None) (λ _, Some ex_project) ex_php_os ∅ ex_exec false.

Lemma Execute_env_witness :
  ∃ e' ls', ex_Config = Ret (e', ls', None) ∧
    env_get (exec_env ["DATABASE_URL=os"; "HOME=/root"] ex_php_os e') "DATABASE_URL" = Some "mine" ∧
    env_get (exec_env ["DATABASE_URL=os"; "HOME=/root"] ex_php_os e') "HOME" = Some "/root" ∧
    ∃ dir, env_get (exec_env ["DATABASE_URL=os"; "HOME=/root"] ex_php_os e') "PATH"
           = Some (fjoin [tempDir e'; "bin"] +:+ ":" +:+ dir +:+ ":/bin").
Proof.
  assert (H : ex_Config ≫= (λ r, Ret (scriptDir r.1.1, match r.2 with None => true | _ => false end))
              = Ret ("/app", true)) by (vm_compute; reflexivity).
  destruct (bind_inv _ _ _ H) as ([[e' ls'] [err|]] & E & Hs); [by inversion Hs|].
  exists e', ls'. split; [exact E|]. assert (Hdir : scriptDir e' = "/app") by (by injection Hs).
  assert (Hv : project_vars no_url_parse no_url_build no_fmt (λ _, None) (λ _, None) (λ _, None)
                 (λ _, Some ex_project) ex_php_os (scriptDir e') false = Ret {[ "DATABASE_URL" := "mine" ]}).
  { rewrite Hdir. vm_compute. reflexivity. }
  destruct (Execute_env ex_store (λ _, None) ok_path ok_path id "x" no_url_parse no_url_build no_fmt
              (λ _, None) (λ _, None) (λ _, None) (λ _, Some ex_project) ex_php_os ∅ ex_exec false e' ls' _
              ["DATABASE_URL=os"; "HOME=/root"] E eq_refl Hv) as [Henv (force & v & path & ini & _ & _ & Hpath)].
  { apply map_Forall_singleton. reflexivity. }
  assert (H1 : "DATABASE_URL" ∉ reserved_vars) by (apply (bool_decide_unpack ("DATABASE_URL" ∉ reserved_vars)); exact I).
  assert (H2 : "HOME" ∉ reserved_vars) by (apply (bool_decide_unpack ("HOME" ∉ reserved_vars)); exact I).
  split; [rewrite Henv; try assumption; vm_compute; reflexivity|].
  split; [rewrite Henv; try assumption; vm_compute; reflexivity|]. exists (Dir path). exact Hpath.
Defined.

Example DetectScriptDir_ex :
  script_of ["-cphp.ini"; "-l"; "-z"; "foo"; "php.go"] false = Ret "php.go".
Proof. reflexivity. Qed.

(** ** Downloads *)

(** C30: the Composer installer is written, and PHP run on its file, only when its
    hash is the published signature and there is no copy of Composer yet.  PHP then
    runs this installer if it could be written; the error of writing is not looked
    at, and otherwise it runs what the file holds, which was not verified. *)
Theorem downloadComposer_verified http_get sha384_hex run_setup can_mkdir chmod_ok remove_ok write_failure w dir :
  let r := downloadComposer http_get sha384_hex run_setup can_mkdir chmod_ok remove_ok write_failure w dir in
  (∀ c, WroteSetup c ∈ r.1 →
        http_get "https://getcomposer.org/installer" = Some c ∧
        http_get "https://composer.github.io/installer.sig" = Some (sha384_hex c) ∧
        exists_ w (fjoin [dir; "composer.phar"]) = false) ∧
  (∀ c, RanSetup c ∈ r.1 →
        ∃ installer, http_get "https://getcomposer.org/installer" = Some installer ∧
          http_get "https://composer.github.io/installer.sig" = Some (sha384_hex installer) ∧
          exists_ w (fjoin [dir; "composer.phar"]) = false ∧
          c = match write_failure with None => Some installer | Some rest => rest end) ∧
  (∀ p, r.2 = Val p → p = fjoin [dir; "composer.phar"] ∧
        (exists_ w p = true ∧ r.1 = [] ∨
         ∃ wrote c, r.1 = [wrote; RanSetup c; RemovedSetup] ∧ run_setup c ≠ 1%Z)).
Proof.
  assert (Hnil : ∀ x : download_effect, x ∈ [] → False) by (intros x; apply not_elem_of_nil).
  unfold downloadComposer. destruct (negb (can_mkdir dir)); [split_and!; try done; by intros c ?%Hnil|].
  destruct (exists_ w _) eqn:Ex.
  { split_and!; try (by intros c ?%Hnil). intros p [= <-]. auto. }
  destruct (http_get "https://composer.github.io/installer.sig") as [sig|];
    [|split_and!; try done; by intros c ?%Hnil].
  destruct (http_get "https://getcomposer.org/installer") as [installer|];
    [|split_and!; try done; by intros c ?%Hnil].
  destruct (bool_decide (sha384_hex installer = sig)) eqn:Es; cbn [negb];
    [apply bool_decide_eq_true in Es|split_and!; try done; by intros c ?%Hnil].
  subst sig. set (setup := match write_failure with None => _ | Some _ => _ end).
  assert (Hs : setup.2 = match write_failure with None => Some installer | Some rest => rest end ∧
               (∀ c, WroteSetup c = setup.1 → c = installer) ∧ (∀ c, setup.1 ≠ RanSetup c))
    by (unfold setup; destruct write_failure; naive_solver).
  clearbody setup. destruct setup as [wrote c0], Hs as (Hc & Hw & Hr). cbn in Hc, Hw, Hr.
  destruct (bool_decide_reflect (run_setup c0 = 1%Z)), (chmod_ok (fjoin [dir; "composer.phar"])),
    (remove_ok (fjoin [dir; "composer-setup.php"])); cbn;
    (split_and!; [intros c Hin; rewrite !elem_of_cons, !elem_of_nil in Hin; naive_solver
                 |intros c Hin; exists installer; rewrite !elem_of_cons, !elem_of_nil in Hin; naive_solver|]);
    try done.
  intros p [= <-]. split; [done|]. right. by exists wrote, c0.
Qed.
