(* ===== verification/PhpServer.v ===== *)
(** * The PHP server ([local/php/envs.go], [php_server.go], [cgi.go],
    [toolbar.go], [xsendfile.go], [fpm.go], [php_builtin_server.go])

    A request is handed to PHP with an environment made from the request, the
    services of the project and the headers.  FPM and CGI get it through the
    FastCGI client; the built-in server gets it as a PHP file that it includes.
    On the way back the web debug toolbar is completed; the text inserted in it is a
    parameter. *)

From stdpp Require Import base tactics option list gmap strings pretty.
From Stdlib Require Import ZArith Lia Ascii.
From S2P Require Import Prelude GoStrings Utf8 FilePath Os Envs Http PhpExecutor.

Inductive server_kind := FPMServer | CGIServer | CLIServer.
Record PhpServer := mkPhp {
  ps_Version : Version; ps_kind : server_kind; ps_ServerPath : string; ps_tempDir : string;
  projectDir : string; documentRoot : string; passthru : string; addr : string }.

(** A request with its method, URI and whether it uses TLS. *)
Record php_request := mkPhpReq { q_req : HttpRequest; q_Method : string; q_URI : string; q_TLS : bool }.

(** ** The environment of a request *)

Section request_env.
Context `{!Unicode}.

(** The script and the path information of a URL path.  The position is that in
    the path in lower case, the slices are of the path itself. *)
Definition script_split (w : os) (p : PhpServer) (path : string) : outcome (string * string) :=
  match Index (ToLowerRunes path) ".php" with
  | None => Ret (passthru p, path)
  | Some pos =>
    prefix ← slice path 0 (Z.of_nat (pos + 4));
    let file := Clean prefix in
    if exists_ w (fjoin [documentRoot p; file]) then
      rest ← slice path (Z.of_nat (pos + 4)) (Z.of_nat (slen path)); Ret (file, rest)
    else Ret (passthru p, path)
  end.

Definition remote_addr (r : HttpRequest) : string * string :=
  let ip := Header_Get (r_Header r) "X-Client-Ip" in
  if bool_decide (ip = "") then default ("", "") (SplitHostPort (r_RemoteAddr r)) else (ip, "").

Definition base_env (w : os) (p : PhpServer) (q : php_request) : outcome Envs :=
  let r := q_req q in
  '(scriptName, pathInfo) ← script_split w p (r_Path r);
  let '(remoteAddr, remotePort) := remote_addr r in
  Ret (list_to_map
    [("CONTENT_LENGTH", Header_Get (r_Header r) "Content-Length");
     ("CONTENT_TYPE", Header_Get (r_Header r) "Content-Type");
     ("DOCUMENT_URI", scriptName); ("DOCUMENT_ROOT", documentRoot p);
     ("GATEWAY_INTERFACE", "CGI/1.1"); ("HTTP_HOST", r_Host r); ("HTTP_MOD_REWRITE", "On");
     ("HTTPS", if q_TLS q then "On" else ""); ("PATH_INFO", pathInfo); ("QUERY_STRING", r_RawQuery r);
     ("REDIRECT_STATUS", "200"); ("REMOTE_ADDR", remoteAddr); ("REMOTE_PORT", remotePort);
     ("REQUEST_METHOD", q_Method q); ("REQUEST_URI", q_URI q);
     ("SCRIPT_FILENAME", fjoin [documentRoot p; scriptName]); ("SCRIPT_NAME", scriptName)]).

Definition header_key (k : string) : string := ReplaceAll (ToUpper k) "-" "_".
Definition header_step (env : Envs) (kv : string * list string) : Envs :=
  let key := header_key kv.1 in
  if bool_decide (key = "HOST") then env else <["HTTP_" +:+ key := Join kv.2 ";"]> env.

(** [headers]: the header fields in the order of the iteration; [vars]: the
    variables of the local environment, none when it cannot be built. *)
Definition generateEnv (w : os) (p : PhpServer) (vars : Envs) (headers : list (string * list string))
    (q : php_request) : outcome Envs :=
  base ← base_env w p q; Ret (foldl header_step (vars ∪ base) headers).
End request_env.

(** ** Serving *)

(** [strings.NewReplacer("\\", "\\\\", "'", "\\'")] *)
Fixpoint addslashes (s : string) : string :=
  match s with
  | EmptyString => ""
  | String c s =>
    if Ascii.eqb c "\" then "\\" +:+ addslashes s
    else if Ascii.eqb c "'" then "\'" +:+ addslashes s
    else String c (addslashes s)
  end.

Definition env_line (kv : string * string) : string :=
  "$_ENV['" +:+ addslashes kv.1 +:+ "'] = '" +:+ addslashes kv.2 +:+ "';" +:+ newline.
Definition env_lines (kvs : list (string * string)) : string := foldr (λ kv s, env_line kv +:+ s) "" kvs.
(** The entries in the order of the iteration. *)
Definition envContent (kvs : list (string * string)) : string := "<?php " +:+ env_lines kvs.

Definition phpRouterFile (p : PhpServer) : string :=
  fjoin [ps_tempDir p; v_Version (ps_Version p) +:+ "-router.php"].
Definition fpmConfigFile (p : PhpServer) : string :=
  fjoin [ps_tempDir p; "fpm-" +:+ v_Version (ps_Version p) +:+ ".ini"].

Inductive serve_err := NoFrontController (dir : string) | WriteErr.

(** What [Serve] passes on: the environment, and for the built-in server the
    file with it (path and contents).  [range] is the iteration order and [rid]
    the fresh identifier. *)
Definition Serve `{!Unicode} (w : os) (p : PhpServer) (vars : Envs) (headers : list (string * list string))
    (q : php_request) (env : Envs) (range : Envs → list (string * string)) (rid : string)
    (write_ok : string → bool) : outcome (gores serve_err (Envs * option (string * string))) :=
  if bool_decide (passthru p = "") then Ret (Err (NoFrontController (projectDir p))) else
  generated ← generateEnv w p vars headers q;
  let env := generated ∪ env in
  Ret match ps_kind p with
  | CLIServer =>
    let envPath := phpRouterFile p +:+ "-" +:+ rid +:+ "-env" in
    if write_ok envPath then Val (env, Some (envPath, envContent (range env))) else Err WriteErr
  | _ => Val (env, None)
  end.

(** ** The command of the server *)

Record server_command := mkCommand {
  sc_dir : string; sc_bin : string; sc_worker : string; sc_args : list string; sc_env : list string;
  sc_file : option string }.

(** [p.Version.Version[0]]: the first byte of the version, a panic when it is
    empty; [sc_file] is the configuration or router file that is written. *)
Definition Start_command (p : PhpServer) (port : Z) (tmp : string) : outcome server_command :=
  match ps_kind p with
  | FPMServer =>
    c ← oget (head (String.list_ascii_of_string (v_Version (ps_Version p))));
    Ret (mkCommand (documentRoot p) "php-fpm" "PHP-FPM"
           ([ps_ServerPath p; "--nodaemonize"; "--fpm-config"; fpmConfigFile p]
            ++ (if 55 <=? nat_of_ascii c then ["--force-stderr"] else []))
           [] (Some (fpmConfigFile p)))
  | CGIServer =>
    Ret (mkCommand tmp "php-cgi" "PHP-CGI"
           [ps_ServerPath p; "-b"; Itoa port; "-d"; "error_log=/dev/fd/2"] [] None)
  | CLIServer =>
    Ret (mkCommand (documentRoot p) "php" "PHP"
           [ps_ServerPath p; "-S"; "127.0.0.1:" +:+ Itoa port; "-d"; "variables_order=EGPCS"; phpRouterFile p]
           ["APP_FRONT_CONTROLLER=" +:+ drop_while (Ascii.eqb "/") (passthru p)] (Some (phpRouterFile p)))
  end.

(** The user and group of FPM for root: the first known name. *)
Definition fpm_users : list string := ["www-data"; "apache"; "http"; "www"; "_www"].
Definition fpm_user (logname : option string) (lookup : string → option (string * string)) : string * string :=
  let users := match logname with Some n => TrimSpace n :: fpm_users | None => fpm_users end in
  default ("nobody", "nobody") (head (omap lookup users)).
(** [p.addr] of [net.JoinHostPort("", port)] starts with a colon. *)
Definition fpm_listen (p : PhpServer) : outcome string :=
  match addr p with
  | EmptyString => Panic
  | String c a => Ret (if Ascii.eqb c ":" then "127.0.0.1" +:+ addr p else addr p)
  end.

(** ** FastCGI *)

(** The connection: tried until it succeeds, at most [max + 1] times. *)
Fixpoint dial_loop (dial : nat → bool) (tries i : nat) : option nat :=
  match tries with
  | O => None
  | S tries => if dial i then Some i else dial_loop dial tries (S i)
  end.
Definition dial_max : nat := 10.
Definition Dial (dial : nat → bool) : option nat := dial_loop dial (S dial_max) 0.

(** ** Bodies *)

(** What the successive reads of a body deliver, with the error that comes with
    the data. *)
Inductive read_err := NoErr | EOF | Failed.
#[export] Instance read_err_eq_dec : EqDecision read_err.
Proof. solve_decision. Defined.
Definition body := list (string * read_err).

Definition rd_Read (n : nat) (b : body) : string * read_err * body :=
  match b with
  | [] => ("", EOF, [])
  | (c, e) :: b => if slen c <=? n then (c, e, b) else (stake n c, NoErr, (sdrop n c, e) :: b)
  end.
(** The data up to the end or the first error, and whether it was an error. *)
Fixpoint contents (b : body) : string * bool :=
  match b with
  | [] => ("", false)
  | (c, NoErr) :: b => let '(s, f) := contents b in (c +:+ s, f)
  | (c, EOF) :: _ => (c, false)
  | (c, Failed) :: _ => (c, true)
  end.
(** [io.MultiReader] of some bytes and a body. *)
Definition prepend (s : string) (r : string * bool) : string * bool := (s +:+ r.1, r.2).

Inductive rt_err := DialErr | BodyErr | RequestErr.

(** [cgiTransport.RoundTrip]: [request] is [FCGIClient.Request].  A chunked body
    is read whole to know its length. *)
Definition RoundTrip {R} (dial : nat → bool) (request : Envs → body → option R) (chunked : bool)
    (env : Envs) (b : body) : gores rt_err R :=
  match Dial dial with
  | None => Err DialErr
  | Some _ =>
    let send env b := match request env b with Some r => Val r | None => Err RequestErr end in
    if chunked then
      let '(data, failed) := contents b in
      if failed then Err BodyErr else
      let len := Itoa (Z.of_nat (slen data)) in
      send (<["HTTP_CONTENT_LENGTH" := len]> (<["CONTENT_LENGTH" := len]> env)) [(data, NoErr)]
    else send env b
  end.

(** ** Responses *)

Definition spaces (n : nat) : string := String.string_of_list_ascii (replicate n " "%char).

Definition pre73toolbarHint : string := "<!-- START of Symfony Web Debug Toolbar -->".
Definition post73toolbarHint : string := "<div id=" +:+ String "034" "sfToolbarClearer-".

(** [tweakToolbar]: the body that is sent, [None] when an error is returned.
    [inject] inserts the text of the CLI before the buttons of the toolbar. *)
Definition tweakToolbar (inject : string → string) (b : body) : option (string * bool) :=
  let '(b0, e, b) := rd_Read 1 b in
  if bool_decide (b0 = "" ∧ e = EOF) then Some ("", false) else
  if bool_decide (slen b0 = 1 ∧ e ≠ NoErr) then None else
  let bn := b0 +:+ spaces (1 - slen b0) in
  if negb (bool_decide (bn = newline)) && negb (bool_decide (bn = "<"))
  then Some (prepend bn (contents b)) else
  let skip := if bool_decide (bn = "<") then 1 else 0 in
  let pre := sdrop skip pre73toolbarHint in
  let post := sdrop skip post73toolbarHint in
  let '(b1, e, b) := rd_Read (slen pre) b in
  if bool_decide (slen b1 = slen pre ∧ e ≠ NoErr) then None else
  let start := b1 +:+ spaces (slen pre - slen b1) in
  if negb (bool_decide (slen b1 = slen pre)) || negb (bool_decide (start = pre)) && negb (HasPrefix start post)
  then Some (prepend (bn +:+ start) (contents b))
  else let '(rest, failed) := contents b in
       if failed then None else Some (bn +:+ start +:+ inject rest, false).

(** Which responses are looked at; the flag says whether the response was
    processed. *)
Definition processToolbar (method requested_with media_type : string) : bool :=
  bool_decide (method = "GET") && bool_decide (requested_with = "XMLHttpRequest")
  && bool_decide (media_type = "text/html").

(** The file that replaces the response. *)
Definition processXSendFile (w : os) (sendFilename : string) : option string :=
  if bool_decide (sendFilename = "") then None
  else if exists_ w sendFilename then Some sendFilename else None.

(** ** The script stays in the document root *)

Lemma smap_stake f n s : smap f (stake n s) = stake n (smap f s).
Proof. revert s. induction n as [|n IH]; intros [|c s]; simpl; congruence. Qed.

Lemma slen_smap f s : slen (smap f s) = slen s.
Proof. induction s; simpl; congruence. Qed.

Lemma stake_IsAbs n path : IsAbs path = true → n ≠ 0 → IsAbs (stake n path) = true.
Proof.
  intros (r & ->)%IsAbs_inv Hn. destruct n as [|n]; [done|]. reflexivity.
Qed.

Lemma slice_prefix path n : n ≤ slen path → slice path 0 (Z.of_nat n) = Ret (stake n path).
Proof. intros Hn. unfold slice. rewrite bool_decide_eq_true_2 by lia. by rewrite Z.sub_0_r, Nat2Z.id. Qed.
Lemma slice_suffix path n : n ≤ slen path → slice path (Z.of_nat n) (Z.of_nat (slen path)) = Ret (sdrop n path).
Proof.
  intros Hn. unfold slice. rewrite bool_decide_eq_true_2 by lia. rewrite Nat2Z.id. f_equal.
  replace (Z.to_nat (Z.of_nat (slen path) - Z.of_nat n)) with (slen (sdrop n path)) by (rewrite slen_sdrop; lia).
  rewrite <-(sapp_nil_r (sdrop n path)) at 2. apply stake_app.
Qed.
Lemma slice_range path lo hi s : slice path lo hi = Ret s → (hi ≤ Z.of_nat (slen path))%Z.
Proof. unfold slice. case_bool_decide; [lia|done]. Qed.

(** The position found in a path of ASCII characters is that of [.php] in it. *)
Lemma ascii_position path pos : Index (ToLower path) ".php" = Some pos →
  pos + 4 ≤ slen path ∧ HasSuffix (ToLower (stake (pos + 4) path)) ".php" = true.
Proof.
  intros Ei. unfold ToLower in *. rewrite smap_stake. apply Index_Some in Ei as (r & Hs & Hl).
  rewrite <-(slen_smap lower path). set (l := smap lower path) in *.
  assert (Hlen : slen (stake pos l) = pos) by (rewrite slen_stake; lia).
  split; [rewrite Hs, !slen_app, Hlen; simpl; lia|].
  rewrite Hs, <-sapp_assoc.
  replace (pos + 4) with (slen (stake pos l +:+ ".php")) at 1 by (rewrite slen_app, Hlen; done).
  rewrite stake_app. apply HasSuffix_app.
Qed.

(** C22: when the environment of a request can be made, its script is the front
    controller with the whole path as path information, or a cleaned prefix of the
    path with the rest as path information, when such a file exists; in both cases
    the file is in the document root or below it, whatever the path contains.  For a
    path of ASCII characters it can always be made, and the prefix ends with
    [.php]. *)
Theorem script_split_confined `{!Unicode} w p path :
  IsAbs path = true → IsAbs (documentRoot p) = true → Clean (documentRoot p) = documentRoot p →
  ".." ∉ Split (passthru p) sep →
  (∀ script info, script_split w p path = Ret (script, info) →
     below (documentRoot p) (fjoin [documentRoot p; script]) = true ∧
     (script = passthru p ∧ info = path ∨
      ∃ prefix, path = prefix +:+ info ∧ script = Clean prefix ∧
                exists_ w (fjoin [documentRoot p; script]) = true ∧
                (ascii_only path = true → HasSuffix (ToLower prefix) ".php" = true))) ∧
  (ascii_only path = true → returns (script_split w p path)).
Proof.
  intros Hp Hr Hc Hdots. unfold script_split.
  assert (Hbelow : ∀ s, ".." ∉ Split s sep → below (documentRoot p) (fjoin [documentRoot p; s]) = true).
  { intros s Hs. rewrite <-(proj2 (fjoin_abs (documentRoot p) s Hr)). by apply fjoin_below. }
  split.
  - intros script info. destruct (Index _ _) as [pos|] eqn:Ei;
      [|intros [= <- <-]; split; [by apply Hbelow|by left]].
    intros (prefix & Hpre & Hrest)%bind_inv. pose proof (slice_range _ _ _ _ Hpre) as Hn.
    rewrite slice_prefix in Hpre by lia. injection Hpre as <-.
    destruct (exists_ w _) eqn:Ex; [|injection Hrest as <- <-; split; [by apply Hbelow|by left]].
    rewrite slice_suffix in Hrest by lia. injection Hrest as <- <-.
    split; [apply Hbelow, Clean_no_dots, stake_IsAbs; [done|lia]|]. right. exists (stake (pos + 4) path).
    split_and!; [by rewrite stake_sdrop|done|done|]. intros Ha. rewrite ToLowerRunes_ascii in Ei by done.
    by apply ascii_position.
  - intros Ha. rewrite ToLowerRunes_ascii by done. destruct (Index _ _) as [pos|] eqn:Ei; [|eauto with ret].
    apply ascii_position in Ei as [Hn _]. rewrite slice_prefix, bind_Ret by done.
    destruct (exists_ w _); [|eauto with ret]. rewrite slice_suffix by done. eauto with ret.
Qed.

Definition ex_server_php : PhpServer :=
  mkPhp ex_php CLIServer "/usr/bin/php8.3" "/tmp/x" "/app" "/app/public" "/index.php" ":9000".
Definition ex_web_os : os := table_os ∅
  (list_to_map [("/app/public/index.php", Some ""); ("/app/public/legacy.php", Some "")]) "/app" "/h".

Lemma script_split_confined_witness :
  @script_split sample_unicode ex_web_os ex_server_php "/a/../legacy.PHP/edit"
  = Ret ("/index.php", "/a/../legacy.PHP/edit") ∧
  @script_split sample_unicode ex_web_os ex_server_php "/../x/../legacy.php/edit" = Ret ("/legacy.php", "/edit") ∧
  below "/app/public" (fjoin ["/app/public"; "/legacy.php"]) = true.
Proof.
  split; [vm_compute; reflexivity|]. split; [vm_compute; reflexivity|].
  assert (Hd : ".." ∉ Split (passthru ex_server_php) sep)
    by (apply (bool_decide_unpack (".." ∉ Split (passthru ex_server_php) sep)); exact I).
  refine (proj1 (proj1 (script_split_confined (H := sample_unicode) ex_web_os ex_server_php "/../x/../legacy.php/edit"
                  eq_refl eq_refl eq_refl Hd) "/legacy.php" "/edit" _)). vm_compute. reflexivity.
Defined.

(** A byte that is no character shifts the position beyond the end of the path, and
    the request panics; a letter whose lower case is longer shifts it by one, and
    the path information loses its slash. *)
Example script_split_shifted :
  let letter := bytes [200; 186] in
  @script_split sample_unicode ex_web_os ex_server_php ("/" +:+ bytes [255] +:+ ".php") = Panic ∧
  @script_split sample_unicode
    (table_os ∅ (list_to_map [("/app/public/" +:+ letter +:+ ".php", Some "")]) "/app" "/h")
    ex_server_php ("/" +:+ letter +:+ ".php/edit") = Ret ("/" +:+ letter +:+ ".php", "edit").
Proof. vm_compute. done. Qed.

(** ** The environment file of the built-in server *)

(** A PHP single-quoted string after its opening quote: the text and what
    follows the closing quote.  A backslash escapes a quote or a backslash. *)
Fixpoint read_quoted (s : string) : option (string * string) :=
  match s with
  | EmptyString => None
  | String c s' =>
    if Ascii.eqb c "'" then Some ("", s')
    else if Ascii.eqb c "\" then
      match s' with
      | String d s'' =>
        if Ascii.eqb d "'" || Ascii.eqb d "\"
        then '(t, r) ← read_quoted s''; Some (String d t, r)
        else '(t, r) ← read_quoted s'; Some (String c t, r)
      | EmptyString => None
      end
    else '(t, r) ← read_quoted s'; Some (String c t, r)
  end.

Definition expect (lit s : string) : option string :=
  if HasPrefix s lit then Some (sdrop (slen lit) s) else None.

(** One assignment, then the whole file ([fuel] bounds the assignments). *)
Definition read_line (s : string) : option (string * string * string) :=
  s ← expect "$_ENV['" s; '(k, s) ← read_quoted s; s ← expect "] = '" s;
  '(v, s) ← read_quoted s; s ← expect (";" +:+ newline) s; Some (k, v, s).
Fixpoint read_lines (fuel : nat) (s : string) : option (list (string * string)) :=
  if bool_decide (s = "") then Some [] else
  match fuel with
  | O => None
  | S fuel => '(k, v, s) ← read_line s; cons (k, v) <$> read_lines fuel s
  end.
Definition read_env_file (s : string) : option (list (string * string)) :=
  s ← expect "<?php " s; read_lines (slen s) s.

Lemma expect_app lit s : expect lit (lit +:+ s) = Some s.
Proof. unfold expect. by rewrite HasPrefix_app, sdrop_app. Qed.

Lemma read_quoted_addslashes s r : read_quoted (addslashes s +:+ "'" +:+ r) = Some (s, r).
Proof.
  induction s as [|c s IH]; [done|]. cbn [addslashes].
  destruct (Ascii.eqb_spec c "\") as [->|Hb]; [|destruct (Ascii.eqb_spec c "'") as [->|Hq]].
  - rewrite sapp_assoc. set (x := addslashes s +:+ "'" +:+ r) in *.
    change (read_quoted ("\\" +:+ x)) with ('(t, r) ← read_quoted x; Some (String "\" t, r)). by rewrite IH.
  - rewrite sapp_assoc. set (x := addslashes s +:+ "'" +:+ r) in *.
    change (read_quoted ("\'" +:+ x)) with ('(t, r) ← read_quoted x; Some (String "'" t, r)). by rewrite IH.
  - rewrite sapp_cons. cbn [read_quoted].
    destruct (Ascii.eqb_spec c "'"); [done|]. destruct (Ascii.eqb_spec c "\"); [done|]. by rewrite IH.
Qed.

Lemma read_line_env kv s : read_line (env_line kv +:+ s) = Some (kv.1, kv.2, s).
Proof.
  unfold read_line, env_line. rewrite !sapp_assoc, expect_app. cbn [mbind option_bind].
  assert (H1 : ∀ x, "'] = '" +:+ x = "'" +:+ "] = '" +:+ x) by done.
  assert (H2 : ∀ x, "';" +:+ x = "'" +:+ ";" +:+ x) by done.
  rewrite H1, H2, read_quoted_addslashes. cbn [mbind option_bind]. rewrite expect_app.
  cbn [mbind option_bind]. rewrite read_quoted_addslashes. cbn [mbind option_bind].
  by rewrite <-sapp_assoc, expect_app.
Qed.

Lemma read_lines_env kvs fuel : length kvs ≤ fuel → read_lines fuel (env_lines kvs) = Some kvs.
Proof.
  revert fuel. induction kvs as [|kv kvs IH]; intros fuel Hf; [by destruct fuel|].
  destruct fuel as [|fuel]; [simpl in Hf; lia|]. cbn [env_lines foldr read_lines].
  rewrite bool_decide_eq_false_2 by done. rewrite read_line_env. cbn [mbind option_bind].
  fold (env_lines kvs). rewrite IH by (simpl in Hf; lia). by destruct kv.
Qed.

Lemma env_lines_length kvs : length kvs ≤ slen (env_lines kvs).
Proof.
  induction kvs as [|kv kvs IH]; [done|]. cbn [env_lines foldr]. rewrite slen_app.
  fold (env_lines kvs). simpl in *. lia.
Qed.

Lemma read_env_content kvs : read_env_file (envContent kvs) = Some kvs.
Proof.
  unfold read_env_file, envContent. rewrite expect_app. cbn [mbind option_bind].
  apply read_lines_env, env_lines_length.
Qed.

(** C6: the file written for the built-in server, read as PHP reads it, assigns
    exactly the variables of the environment, whatever characters the names and
    values contain: nothing can be injected through a value. *)
Theorem envContent_roundtrip kvs : read_env_file (envContent kvs) = Some kvs.
Proof. apply read_env_content. Qed.

Example envContent_ex : read_env_file (envContent [("A", "';\"); ("B'", "\\'")]) = Some [("A", "';\"); ("B'", "\\'")].
Proof. reflexivity. Qed.

(** ** Headers *)

Definition header_sets (k : string) (kv : string * list string) : bool :=
  negb (bool_decide (header_key kv.1 = "HOST")) && bool_decide (k = "HTTP_" +:+ header_key kv.1).

Lemma header_fold k headers env :
  foldl header_step env headers !! k =
    match List.find (header_sets k) (reverse headers) with
    | Some kv => Some (Join kv.2 ";")
    | None => env !! k
    end.
Proof.
  induction headers as [|kv headers IH] using rev_ind; [done|].
  rewrite foldl_snoc, reverse_snoc. cbn [List.find]. unfold header_step at 1, header_sets at 1.
  destruct (bool_decide_reflect (header_key kv.1 = "HOST")) as [Hh|Hh]; cbn [negb andb]; [exact IH|].
  destruct (bool_decide_reflect (k = "HTTP_" +:+ header_key kv.1)) as [->|Hk].
  - by rewrite lookup_insert_eq.
  - rewrite lookup_insert_ne by done. exact IH.
Qed.

Lemma header_sets_names k headers kv :
  List.find (header_sets k) headers = Some kv →
  HasPrefix k "HTTP_" = true ∧ k ≠ "HTTP_HOST".
Proof.
  intros [_ H]%List.find_some. unfold header_sets in H. apply andb_true_iff in H as [Hh Hk].
  apply bool_decide_eq_true_1 in Hk. apply negb_true_iff, bool_decide_eq_false_1 in Hh. subst k.
  split; [apply HasPrefix_app|]. intros H. apply Hh. exact (sapp_inj_l "HTTP_" _ "HOST" H).
Qed.


(** ** Connecting to FastCGI *)

Lemma dial_loop_spec dial tries i :
  match dial_loop dial tries i with
  | Some n => i ≤ n < i + tries ∧ dial n = true ∧ ∀ m, i ≤ m < n → dial m = false
  | None => ∀ m, i ≤ m < i + tries → dial m = false
  end.
Proof.
  revert i. induction tries as [|tries IH]; intros i; [intros m; lia|]. cbn [dial_loop].
  destruct (dial i) eqn:E; [split_and!; [lia|lia|done|intros m; lia]|].
  specialize (IH (S i)). destruct (dial_loop dial tries (S i)) as [n|].
  - destruct IH as (? & Hn & Hl). split_and!; [lia|lia|done|]. intros m Hm.
    destruct (decide (m = i)) as [->|]; [done|apply Hl; lia].
  - intros m Hm. destruct (decide (m = i)) as [->|]; [done|apply IH; lia].
Qed.

(** C29: the connection to the FastCGI process is tried at most eleven times and
    the first success is used: the request fails for the connection only when
    all eleven attempts failed, and with a chunked body PHP gets the number of
    bytes of the body in both length variables. *)
Theorem RoundTrip_bounded {R} dial (request : Envs → body → option R) chunked env b :
  (∀ n, Dial dial = Some n ↔ n ≤ 10 ∧ dial n = true ∧ ∀ m, m < n → dial m = false) ∧
  (RoundTrip dial request chunked env b = Err DialErr ↔ ∀ m, m < 11 → dial m = false) ∧
  (∀ n, dial n = true → n ≤ 10 → chunked = true → (contents b).2 = false →
     ∃ env', RoundTrip dial request chunked env b =
             match request env' [((contents b).1, NoErr)] with Some r => Val r | None => Err RequestErr end ∧
       env' !! "CONTENT_LENGTH" = Some (Itoa (Z.of_nat (slen (contents b).1))) ∧
       env' !! "HTTP_CONTENT_LENGTH" = env' !! "CONTENT_LENGTH" ∧
       ∀ k, k ≠ "CONTENT_LENGTH" → k ≠ "HTTP_CONTENT_LENGTH" → env' !! k = env !! k).
Proof.
  pose proof (dial_loop_spec dial 11 0) as H. change (dial_loop dial 11 0) with (Dial dial) in H.
  unfold RoundTrip. split_and!.
  - intros n. split.
    + intros E. rewrite E in H. destruct H as (? & ? & Hl). split_and!; [lia|done|intros m ?; apply Hl; lia].
    + intros (Hn & Hd & Hl). destruct (Dial dial) as [n'|].
      * destruct H as (? & Hd' & Hl'). f_equal. destruct (lt_eq_lt_dec n n') as [[?| ->]|?]; [|done|].
        -- rewrite Hl' in Hd by lia. done.
        -- rewrite Hl in Hd' by lia. done.
      * rewrite H in Hd by lia. done.
  - destruct (Dial dial) as [n|].
    + split; [|intros Hall; destruct H as (? & Hd & _); rewrite Hall in Hd by lia; done].
      destruct chunked; [destruct (contents b) as [s []]; [done|]|]; by destruct (request _ _).
    + split; [intros _ m ?; apply H; lia|done].
  - intros n Hd Hn -> Hb. destruct (Dial dial) as [n'|]; [|rewrite H in Hd by lia; done].
    destruct (contents b) as [s f]. cbn in Hb. subst f. eexists. split; [reflexivity|]. cbn [fst].
    split_and!.
    + rewrite lookup_insert_ne by done. by rewrite lookup_insert_eq.
    + rewrite lookup_insert_eq, lookup_insert_ne by done. by rewrite lookup_insert_eq.
    + intros k ? ?. by rewrite !lookup_insert_ne by done.
Qed.

Lemma RoundTrip_bounded_witness :
  RoundTrip (λ n, 3 <=? n) (λ env b, env !! "CONTENT_LENGTH") true ∅ [("ab", NoErr); ("c", EOF)] = Val "3".
Proof.
  destruct (RoundTrip_bounded (λ n, 3 <=? n) (λ env (b : body), env !! "CONTENT_LENGTH") true ∅
              [("ab", NoErr); ("c", EOF)]) as (_ & _ & H).
  destruct (H 3 eq_refl ltac:(lia) eq_refl eq_refl) as (env' & -> & -> & _). reflexivity.
Defined.

(** ** The toolbar *)

Definition toolbar_hint (c : string) (r : string) : string :=
  sdrop (if bool_decide (c = "<") then 1 else 0) r.
(** The body is the fragment of the toolbar. *)
Definition is_toolbar (c : ascii) (r : string) : bool :=
  let c := String c "" in
  (bool_decide (c = newline) || bool_decide (c = "<")) &&
  (HasPrefix r (toolbar_hint c pre73toolbarHint) || HasPrefix r (toolbar_hint c post73toolbarHint)).

Lemma HasPrefix_stake p n s : slen p ≤ n → HasPrefix (stake n s) p = HasPrefix s p.
Proof.
  revert n s. induction p as [|x p IH]; intros n s Hn; [by destruct n, s|].
  destruct n as [|n]; [simpl in Hn; lia|]. destruct s as [|y s]; [done|].
  cbn [stake HasPrefix]. rewrite IH; [done|]. simpl in Hn. lia.
Qed.

Lemma stake_eq_prefix p s : bool_decide (stake (slen p) s = p) = HasPrefix s p.
Proof.
  apply eq_iff_eq_true. rewrite bool_decide_eq_true, HasPrefix_spec. split.
  - intros H. exists (sdrop (slen p) s). rewrite <-H at 1. by rewrite stake_sdrop.
  - intros [r ->]. apply stake_app.
Qed.

Lemma rd_Read_long n c b : n ≤ slen c →
  ∃ b', rd_Read n ((c, NoErr) :: b) = (stake n c, NoErr, b') ∧
        contents b' = prepend (sdrop n c) (contents b).
Proof.
  intros Hn. unfold rd_Read. destruct (Nat.leb_spec (slen c) n) as [Hl|Hl].
  - assert (n = slen c) as -> by lia. exists b. pose proof (stake_app c "") as H1.
    pose proof (sdrop_app c "") as H2. rewrite sapp_nil_r in H1, H2. rewrite H1, H2. split; [done|].
    unfold prepend. rewrite sapp_nil_l. by destruct (contents b).
  - eexists. split; [reflexivity|]. cbn [contents]. unfold prepend. by destruct (contents b).
Qed.

(** The first byte and the rest of a chunk. *)
Lemma rd_Read_one c r b : r ≠ "" →
  rd_Read 1 ((String c r, NoErr) :: b) = (String c "", NoErr, (r, NoErr) :: b).
Proof. by destruct r. Qed.

Lemma rd_Read_short n c e b : slen c < n → rd_Read n ((c, e) :: b) = (c, e, b).
Proof. intros H. unfold rd_Read. by rewrite (proj2 (Nat.leb_le _ _)) by lia. Qed.

Lemma stake_app_le n r s : n ≤ slen r →
  stake n (r +:+ s) = stake n r ∧ sdrop n (r +:+ s) = sdrop n r +:+ s.
Proof.
  intros Hn. assert (Hl : slen (stake n r) = n) by (rewrite slen_stake; lia).
  rewrite <-(stake_sdrop n r) at 1 3. rewrite sapp_assoc. split.
  - rewrite <-Hl at 1. apply stake_app.
  - rewrite <-Hl at 1. apply sdrop_app.
Qed.

Definition toolbar_start (c : ascii) : bool :=
  bool_decide (String c "" = newline) || bool_decide (String c "" = "<").
Definition hint_len (c : ascii) : nat := slen (toolbar_hint (String c "") pre73toolbarHint).

Lemma post_hint_len c : slen (toolbar_hint (String c "") post73toolbarHint) ≤ hint_len c.
Proof. unfold hint_len, toolbar_hint. destruct (bool_decide _); simpl; lia. Qed.

(** The answer to a toolbar request.  When the first read delivers the whole
    marker, the body that is sent is the body of PHP, unchanged when it is not
    the toolbar and with the text of the CLI inserted after the marker when it is.
    When the first read delivers less, and the body starts like a tag, the body
    that is sent is not the body of PHP: it is filled with spaces up to the
    length of the marker. *)
Theorem tweakToolbar_spec inject c r b :
  r ≠ "" →
  (toolbar_start c = false ∨ hint_len c ≤ slen r →
   tweakToolbar inject ((String c r, NoErr) :: b) =
     let '(s, failed) := contents ((r, NoErr) :: b) in
     if is_toolbar c r then
       if failed then None
       else Some (String c (stake (hint_len c) s +:+ inject (sdrop (hint_len c) s)), false)
     else Some (String c s, failed)) ∧
  (toolbar_start c = true → slen r < hint_len c →
   tweakToolbar inject ((String c r, NoErr) :: b) =
     Some (prepend (String c (r +:+ spaces (hint_len c - slen r))) (contents b))).
Proof.
  intros Hr. unfold tweakToolbar. rewrite (rd_Read_one c r b Hr).
  rewrite bool_decide_eq_false_2 by naive_solver. rewrite bool_decide_eq_false_2 by naive_solver.
  change (String c "" +:+ spaces (1 - slen (String c ""))) with (String c "").
  rewrite <-negb_orb. fold (toolbar_start c). unfold is_toolbar. fold (toolbar_start c).
  change (sdrop (if bool_decide (String c "" = "<") then 1 else 0) ?h) with (toolbar_hint (String c "") h).
  fold (hint_len c). split.
  - intros Hlen. destruct (toolbar_start c); cbn [negb andb]; [|by destruct (contents _)].
    destruct Hlen as [|Hlen]; [done|]. destruct (rd_Read_long _ _ b Hlen) as (b' & -> & Hc).
    assert (Hn : slen (stake (hint_len c) r) = hint_len c) by (rewrite slen_stake; lia).
    rewrite Hn, Nat.sub_diag. change (spaces 0) with "". rewrite sapp_nil_r.
    rewrite (bool_decide_eq_false_2 (_ ∧ _)) by naive_solver. rewrite (bool_decide_eq_true_2 (_ = hint_len c)) by done.
    unfold hint_len at 1. rewrite stake_eq_prefix, HasPrefix_stake by apply post_hint_len.
    rewrite <-negb_orb. cbn [negb orb contents]. rewrite Hc. destruct (contents b) as [s f]. unfold prepend. cbn [fst snd].
    destruct (stake_app_le _ _ s Hlen) as [-> ->].
    destruct (_ || _); cbn [negb]; [destruct f; [done|]; by rewrite sapp_cons, sapp_nil_l|].
    by rewrite sapp_cons, sapp_nil_l, sapp_cons, <-sapp_assoc, stake_sdrop.
  - intros -> Hlen. cbn [negb andb]. rewrite rd_Read_short by done.
    rewrite (bool_decide_eq_false_2 (_ ∧ _)) by lia. rewrite bool_decide_eq_false_2 by lia. done.
Qed.

Lemma tweakToolbar_spec_witness :
  tweakToolbar (λ s, s) [("<p>Hi</p>", NoErr)] = Some ("<p>Hi</p>" +:+ spaces 34, false).
Proof.
  refine (eq_trans (proj2 (tweakToolbar_spec (λ s, s) "<" "p>Hi</p>" [] _) _ _) _);
    [discriminate|reflexivity|vm_compute; lia|reflexivity].
Defined.
