(* ===== verification/Reexec.v ===== *)
(** * Going to the background and restarting ([reexec/reexec.go],
    [reexec_posix.go], [process_posix.go])

    [Background] starts the program again and stays until the new process (the
    child) says that it is up, dies or is silent for too long.  They talk
    through a status file: the child writes its progress in it and removes it
    once it is up; the parent watches the file and also polls it at each tick.
    The loop of the parent, the child and the channels between them are one
    state; [bnext] gives the next state for each choice of the system (which
    channel is received from, whether a file event is delivered, lost or merged
    with another).  Module [Handshake] is what the protocol promises, and
    [Background_refines] shows that the loop implements it.  [Restart] is
    modelled the same way, with its two channels and their closing.

    Not modelled: the messages logged and the standard streams. *)

From stdpp Require Import base tactics option list gmap strings pretty relations.
From Stdlib Require Import ZArith Lia Ascii.
From S2P Require Import Prelude GoStrings FilePath Os Envs Http.

Definition UP : string := "up".

(** ** The environment *)

Definition env_get (env : Envs) (k : string) : string := default "" (env !! k).
Definition IsChild (env : Envs) : bool := bool_decide (env_get env "REEXEC_WATCH_PID" ≠ "").

(** What [NotifyForeground] does to the status file. *)
Inductive notification := NoNotification | RemoveStatus (file : string) | WriteStatus (file status : string).

Definition NotifyForeground (env : Envs) (status : string) : Envs * notification :=
  if negb (IsChild env) then (env, NoNotification) else
  let statusFile := env_get env "REEXEC_STATUS_FILE" in
  if bool_decide (statusFile = "") then (env, NoNotification)
  else if bool_decide (UP = status) then
    (delete "REEXEC_WATCH_PID" (delete "REEXEC_STATUS_FILE" env), RemoveStatus statusFile)
  else (env, WriteStatus statusFile status).

(** The environment that the child inherits. *)
Definition background_env (env : Envs) (statusFile : string) (ppid : Z) : Envs :=
  let env := <["REEXEC_STATUS_FILE" := statusFile]> env in
  let env := <["REEXEC_WATCH_PID" := Itoa ppid]> env in
  let shellPID := env_get env "REEXEC_SHELL_PID" in
  if bool_decide (shellPID ≠ "") then <["REEXEC_WATCH_PID" := shellPID]> env else env.

Definition restart_env (env : Envs) (getpid ppid : Z) : Envs :=
  <["REEXEC_SHELL_PID" := Itoa ppid]> (<["REEXEC_PPID" := Itoa getpid]> env).

Inductive watch_err := BadPid (s : string) | NoProcess (pid : Z).
(** The process that is watched, if any; [atoi] is [strconv.Atoi] and
    [find_process] whether [os.FindProcess] succeeds. *)
Definition WatchParent (atoi : string → option Z) (find_process : Z → bool) (env : Envs)
  : gores watch_err (option Z) :=
  let spid := env_get env "REEXEC_WATCH_PID" in
  if bool_decide (spid = "") then Val None else
  match atoi spid with
  | None => Err (BadPid spid)
  | Some pid => if find_process pid then Val (Some pid) else Err (NoProcess pid)
  end.

(** Seconds until [waitForProcess] sees that the process is gone; [alive n] is
    the answer to the [n]th signal 0, sent after [n] seconds. *)
Fixpoint waitForProcess (alive : nat → bool) (fuel n : nat) : option nat :=
  match fuel with
  | O => None
  | S fuel => if alive (S n) then waitForProcess alive fuel (S n) else Some (S n)
  end.

(** How a process ends: [Wait] fails, or gives a state with its exit status. *)
Inductive wait_end := WaitErr | WaitState (success : bool) (status : Z).

(** [ExecBinaryWithEnv]: [ended] is how the process ended within ten seconds;
    the flag of the result says that it was killed. *)
Definition ExecBinaryWithEnv (wd_ok start_ok : bool) (ended : option wait_end) : bool * bool :=
  if negb wd_ok || negb start_ok then (false, false) else
  match ended with
  | None => (false, true)
  | Some WaitErr => (false, false)
  | Some (WaitState success _) => (success, false)
  end.

Definition shouldSignalBeIgnored (sig : string) : bool := bool_decide (sig = "SIGCHLD").

(** ** The loop of [Background] *)

Inductive fs_event := EvWrite | EvRemove | EvOther.
(** What becomes of a file event: it is sent, lost, or merged with another. *)
Inductive delivery := Sent | Lost | Merged.

Inductive background_res :=
| Up | ChildExit (status : Z) | TimedOut | KillFailed | SignalFailed (sig : string).

(** [b_file]: the contents of the status file, [None] once it is removed;
    [b_writing]: the text of a write that has truncated the file only;
    [b_events], [b_sig], [b_tick], [b_status]: the contents of the channels;
    [b_signalled], [b_killed]: what the child received. *)
Record background := mkBg {
  b_env : Envs; b_file : option string; b_writing : option string; b_child : option wait_end;
  b_events : list fs_event; b_sig : option string; b_tick : bool; b_status : option Z;
  b_childAlive : bool; b_signalled : list string; b_killed : bool; b_res : option background_res }.

Inductive bg_event :=
| Notify (status : string) (d : delivery)
| FinishWrite (d : delivery)
| Die (e : wait_end)
| Reap
| Signal (sig : string)
| Tick
| RecvSig (ok : bool)
| RecvEvent
| RecvStatus
| RecvTick (readable kill_ok : bool).

Definition enqueue (d : delivery) (ev : fs_event) (q : list fs_event) : list fs_event :=
  match d with
  | Lost => q
  | Sent => if length q <? 10 then q ++ [ev] else q
  | Merged => if length q <? 10 then q ++ [EvOther] else q
  end.

Definition exit_status (e : wait_end) : Z :=
  match e with WaitErr => 1 | WaitState success status => if success then 0 else status end.

Definition set_child (s : background) env file writing events : background :=
  mkBg env file writing (b_child s) events (b_sig s) (b_tick s) (b_status s) (b_childAlive s)
       (b_signalled s) (b_killed s) (b_res s).
Definition set_main (s : background) events sig tick alive signalled killed res : background :=
  mkBg (b_env s) (b_file s) (b_writing s) (b_child s) events sig tick (b_status s) alive signalled killed res.
Definition set_proc (s : background) child sig tick status : background :=
  mkBg (b_env s) (b_file s) (b_writing s) child (b_events s) sig tick status (b_childAlive s)
       (b_signalled s) (b_killed s) (b_res s).

(** The child reports, ends, is reaped by the goroutine that waits for it. *)
Definition child_next (s : background) (e : bg_event) : option background :=
  match e with
  | Notify status d =>
    match b_child s, b_writing s with
    | None, None =>
      match NotifyForeground (b_env s) status with
      | (env, NoNotification) => Some (set_child s env (b_file s) None (b_events s))
      | (env, RemoveStatus _) => Some (set_child s env None None (enqueue d EvRemove (b_events s)))
      | (env, WriteStatus _ status) => Some (set_child s env (Some "") (Some status) (enqueue d EvWrite (b_events s)))
      end
    | _, _ => None
    end
  | FinishWrite d =>
    match b_child s, b_writing s with
    | None, Some status => Some (set_child s (b_env s) (Some status) None (enqueue d EvWrite (b_events s)))
    | _, _ => None
    end
  | Die e => match b_child s with
             | None => Some (set_proc s (Some e) (b_sig s) (b_tick s) (b_status s))
             | Some _ => None
             end
  | Reap => match b_child s, b_status s with
            | Some e, None => Some (set_proc s (b_child s) (b_sig s) (b_tick s) (Some (exit_status e)))
            | _, _ => None
            end
  | Signal sig => Some (set_proc s (b_child s) (Some (default sig (b_sig s))) (b_tick s) (b_status s))
  | Tick => Some (set_proc s (b_child s) (b_sig s) true (b_status s))
  | _ => None
  end.

(** One turn of the loop. *)
Definition main_next (s : background) (e : bg_event) : option background :=
  match e with
  | RecvSig ok =>
    sig ← b_sig s;
    if shouldSignalBeIgnored sig then
      Some (set_main s (b_events s) None (b_tick s) (b_childAlive s) (b_signalled s) (b_killed s) None)
    else if ok then
      Some (set_main s (b_events s) None (b_tick s) (b_childAlive s) (b_signalled s ++ [sig]) (b_killed s) None)
    else
      Some (set_main s (b_events s) None (b_tick s) (b_childAlive s) (b_signalled s) true (Some (SignalFailed sig)))
  | RecvEvent =>
    match b_events s with
    | [] => None
    | ev :: q =>
      let alive := match ev with EvWrite => true | _ => b_childAlive s end in
      let res := match ev with EvRemove => Some Up | _ => None end in
      Some (set_main s q (b_sig s) (b_tick s) alive (b_signalled s) (b_killed s) res)
    end
  | RecvStatus =>
    status ← b_status s;
    Some (set_main s (b_events s) (b_sig s) (b_tick s) (b_childAlive s) (b_signalled s) (b_killed s)
            (Some (ChildExit status)))
  | RecvTick readable kill_ok =>
    if negb (b_tick s) then None else
    match b_file s with
    | None => Some (set_main s (b_events s) (b_sig s) false (b_childAlive s) (b_signalled s) (b_killed s) (Some Up))
    | Some content =>
      let alive := b_childAlive s || readable && negb (bool_decide (content = "")) in
      if alive then
        Some (set_main s (b_events s) (b_sig s) false alive (b_signalled s) (b_killed s) None)
      else
        Some (set_main s (b_events s) (b_sig s) false alive (b_signalled s) kill_ok
                (Some (if kill_ok then TimedOut else KillFailed)))
    end
  | _ => None
  end.

Definition is_main (e : bg_event) : bool :=
  match e with RecvSig _ | RecvEvent | RecvStatus | RecvTick _ _ => true | _ => false end.
Definition bnext (s : background) (e : bg_event) : option background :=
  if is_main e then match b_res s with None => main_next s e | Some _ => None end else child_next s e.

Fixpoint brun (evs : list bg_event) (s : background) : option background :=
  match evs with
  | [] => Some s
  | e :: evs => s ← bnext s e; brun evs s
  end.

Definition background_init (env : Envs) : background :=
  mkBg env (Some "") None None [] None false None false [] false None.

Inductive background_err := GoRun | CreateErr | WatchErr | RespawnErr.
(** [Background]: an error before the loop, or the state the loop reaches;
    [create] is the name of the status file. *)
Definition Background (gorun : bool) (create : option string) (watch_ok respawn_ok : bool) (ppid : Z)
    (env : Envs) (evs : list bg_event) : gores background_err (option background) :=
  if gorun then Err GoRun else
  match create with
  | None => Err CreateErr
  | Some statusFile =>
    if negb watch_ok then Err WatchErr else
    let env := background_env env statusFile ppid in
    if negb respawn_ok then Err RespawnErr else Val (brun evs (background_init env))
  end.

(** ** The loop of [Restart] *)

(** Where the goroutine that waits for the child is: waiting, after its send,
    after [close(errCh)], at its end. *)
Inductive waiter := Waiting | SentResult | ErrClosed | WaitClosed.
(** Where the main goroutine is: blocked in [select] with no case ready, between
    two [select]s, in [os.Exit], panicking. *)
Inductive restart_main := Blocked | Turning | Exited (code : Z) | Panicked.
(** The case that a [select] takes. *)
Inductive pick := PickSig | PickErr | PickWait | PickNone.

Record restart := mkRestart {
  r_child : option wait_end; r_waiter : waiter; r_err : bool; r_wait : option wait_end;
  r_sig : option string; r_signalled : list string; r_main : restart_main }.

Inductive restart_choice := RDie (e : wait_end) | RSignal (sig : string) | RGo | RSelect (p : pick).

Definition err_closed (s : restart) : bool :=
  match r_waiter s with ErrClosed | WaitClosed => true | _ => false end.
Definition wait_closed (s : restart) : bool := match r_waiter s with WaitClosed => true | _ => false end.

Definition forward (sig : string) (sent : list string) : list string :=
  if shouldSignalBeIgnored sig then sent else sent ++ [sig].

(** The next step of the goroutine: a blocked [select] takes the case of the
    channel at once, otherwise the value stays in the channel. *)
Definition waiter_next (s : restart) : option restart :=
  let go w err wait main :=
    Some (mkRestart (r_child s) w err wait (r_sig s) (r_signalled s) main) in
  match r_waiter s, r_child s with
  | Waiting, Some WaitErr =>
    match r_main s with
    | Blocked => go SentResult false (r_wait s) (Exited 1)
    | main => go SentResult true (r_wait s) main
    end
  | Waiting, Some (WaitState ok st) =>
    match r_main s with
    | Blocked => go SentResult (r_err s) None (Exited (exit_status (WaitState ok st)))
    | main => go SentResult (r_err s) (Some (WaitState ok st)) main
    end
  | SentResult, _ =>
    match r_main s with
    | Blocked => go ErrClosed (r_err s) (r_wait s) (Exited 1)
    | main => go ErrClosed (r_err s) (r_wait s) main
    end
  | ErrClosed, _ =>
    match r_main s with
    | Blocked => go WaitClosed (r_err s) (r_wait s) Panicked
    | main => go WaitClosed (r_err s) (r_wait s) main
    end
  | _, _ => None
  end.

(** A [select] takes any ready case; receiving from a closed channel gives a nil
    state, whose method panics. *)
Definition select_next (s : restart) (p : pick) : option restart :=
  let go sig sent main :=
    Some (mkRestart (r_child s) (r_waiter s) (r_err s) (r_wait s) sig sent main) in
  match p with
  | PickSig => sig ← r_sig s; go None (forward sig (r_signalled s)) Turning
  | PickErr => if r_err s || err_closed s then go (r_sig s) (r_signalled s) (Exited 1) else None
  | PickWait =>
    match r_wait s with
    | Some e => go (r_sig s) (r_signalled s) (Exited (exit_status e))
    | None => if wait_closed s then go (r_sig s) (r_signalled s) Panicked else None
    end
  | PickNone =>
    match r_sig s, r_wait s with
    | None, None => if r_err s || err_closed s || wait_closed s then None else go None (r_signalled s) Blocked
    | _, _ => None
    end
  end.

Definition rnext (s : restart) (e : restart_choice) : option restart :=
  match e, r_main s with
  | _, Exited _ | _, Panicked => None
  | RDie e, _ => match r_child s with
                 | None => Some (mkRestart (Some e) (r_waiter s) (r_err s) (r_wait s) (r_sig s) (r_signalled s) (r_main s))
                 | Some _ => None
                 end
  | RSignal sig, Blocked =>
    Some (mkRestart (r_child s) (r_waiter s) (r_err s) (r_wait s) (r_sig s) (forward sig (r_signalled s)) Turning)
  | RSignal sig, Turning =>
    Some (mkRestart (r_child s) (r_waiter s) (r_err s) (r_wait s) (Some (default sig (r_sig s))) (r_signalled s) Turning)
  | RGo, _ => waiter_next s
  | RSelect p, Turning => select_next s p
  | RSelect _, Blocked => None
  end.

Fixpoint rrun (evs : list restart_choice) (s : restart) : option restart :=
  match evs with
  | [] => Some s
  | e :: evs => s ← rnext s e; rrun evs s
  end.
Definition restart_init : restart := mkRestart None Waiting false None None [] Turning.

Inductive restart_err := SetenvErr | RestartRespawnErr.
Definition Restart (setenv_ok respawn_ok : bool) (evs : list restart_choice)
  : gores restart_err (option restart) :=
  if negb setenv_ok then Err SetenvErr
  else if negb respawn_ok then Err RestartRespawnErr
  else Val (rrun evs restart_init).

(** ** What the protocol promises *)

Module Handshake.
(** What the child has said: nothing yet; it is replacing its report (the file is
    empty meanwhile); it has reported its progress; it is up. *)
Inductive phase := Silent | Reporting | Reported | Ready.
(** [heard]: whether the parent noticed that the child says something. *)
Record state := mk { said : phase; heard : bool; dead : option Z; verdict : option background_res }.

(** The child speaks while it lives.  The verdict is given once: success when the
    child is up, the status it ended with, a time-out for a child that was never
    heard and of which there is no complete report to read. *)
Inductive move : state → state → Prop :=
| begin_report p h v : p = Silent ∨ p = Reported → move (mk p h None v) (mk Reporting h None v)
| end_report h v : move (mk Reporting h None v) (mk Reported h None v)
| ready p h v : p = Silent ∨ p = Reported → move (mk p h None v) (mk Ready h None v)
| die p h z v : move (mk p h None v) (mk p h (Some z) v)
| hear p d : p ≠ Silent → move (mk p false d None) (mk p true d None)
| accept h d : move (mk Ready h d None) (mk Ready h d (Some Up))
| exited p h z : move (mk p h (Some z) None) (mk p h (Some z) (Some (ChildExit z)))
| timeout p d r : p = Silent ∨ p = Reporting → r = TimedOut ∨ r = KillFailed →
    move (mk p false d None) (mk p false d (Some r))
| signal p h d sig : move (mk p h d None) (mk p h d (Some (SignalFailed sig))).

Definition init : state := mk Silent false None None.
End Handshake.

Definition said_of (s : background) : Handshake.phase :=
  match b_file s, b_writing s with
  | None, _ => Handshake.Ready
  | Some _, Some _ => Handshake.Reporting
  | Some EmptyString, None => Handshake.Silent
  | Some _, None => Handshake.Reported
  end.
Definition abs (s : background) : Handshake.state :=
  Handshake.mk (said_of s) (b_childAlive s) (exit_status <$> b_child s) (b_res s).

(** The invariant of the loop: an event of removal and a missing file mean that
    the child said that it is up, after which it says nothing more. *)
Record bg_inv (s : background) : Prop := mkInv {
  inv_event : EvRemove ∈ b_events s → b_file s = None;
  inv_quiet : b_file s = None → ∀ st, NotifyForeground (b_env s) st = (b_env s, NoNotification);
  inv_status : ∀ z, b_status s = Some z → exit_status <$> b_child s = Some z;
  inv_writing : ∀ t, b_writing s = Some t → b_file s = Some "" }.

Lemma enqueue_remove d ev q : EvRemove ∈ enqueue d ev q → EvRemove ∈ q ∨ ev = EvRemove.
Proof. destruct d; simpl; [|by left|]; destruct (_ <? _); rewrite ?elem_of_app, ?list_elem_of_singleton; naive_solver. Qed.

(** What a notification does, by cases. *)
Lemma NotifyForeground_cases env st :
  (NotifyForeground env st = (env, NoNotification)) ∨
  (∃ f, NotifyForeground env st = (delete "REEXEC_WATCH_PID" (delete "REEXEC_STATUS_FILE" env), RemoveStatus f) ∧ st = UP) ∨
  (∃ f, NotifyForeground env st = (env, WriteStatus f st) ∧ st ≠ UP).
Proof.
  unfold NotifyForeground. destruct (negb _); [by left|].
  destruct (bool_decide_reflect (env_get env "REEXEC_STATUS_FILE" = "")); [by left|].
  destruct (bool_decide_reflect (UP = st)); [right; left|right; right]; eexists; split; eauto.
Qed.

Lemma NotifyForeground_quiet env st :
  let env' := delete "REEXEC_WATCH_PID" (delete "REEXEC_STATUS_FILE" env) in
  NotifyForeground env' st = (env', NoNotification).
Proof.
  intros env'. unfold NotifyForeground, IsChild, env_get, env'.
  rewrite lookup_delete_eq. reflexivity.
Qed.

Lemma bg_inv_init env : bg_inv (background_init env).
Proof. split; try done. by intros ?%not_elem_of_nil. Qed.

Lemma child_inv s e s' : bg_inv s → child_next s e = Some s' → bg_inv s'.
Proof.
  intros [He Hq Hs Hw] Hn. destruct e as [st d|d|en| |sig| | | | |]; simpl in Hn; try done.
  - destruct (b_child s) eqn:Ec; [done|]. destruct (b_writing s) eqn:Ew; [done|].
    destruct (NotifyForeground_cases (b_env s) st) as [Hc|[(f & Hc & _)|(f & Hc & _)]];
      rewrite Hc in Hn; injection Hn as <-; split; simpl; rewrite ?Ec; try done.
    + intros _ st'. apply NotifyForeground_quiet.
    + intros [Hr|[=]]%enqueue_remove. specialize (Hq (He Hr) st). congruence.
  - destruct (b_child s) eqn:Ec; [done|]. destruct (b_writing s) as [t|] eqn:Ew; [|done].
    injection Hn as <-. split; simpl; rewrite ?Ec; try done.
    intros [Hr|[=]]%enqueue_remove. specialize (He Hr). specialize (Hw _ eq_refl). congruence.
  - destruct (b_child s) eqn:Ec; [done|]. injection Hn as <-. split; simpl; try done.
    intros z Hz. by specialize (Hs z Hz).
  - destruct (b_child s) as [en|] eqn:Ec; [|done]. destruct (b_status s) eqn:Es; [done|]. injection Hn as <-.
    split; simpl; rewrite ?Ec; try done.
  - injection Hn as <-. by split.
  - injection Hn as <-. by split.
Qed.

Lemma main_inv s e s' : bg_inv s → main_next s e = Some s' → bg_inv s'.
Proof.
  intros [He Hq Hs Hw] Hn. destruct e as [| | | | | |ok| | |rd ko]; simpl in Hn; try done.
  - destruct (b_sig s) as [sig|]; simpl in Hn; [|done].
    destruct (shouldSignalBeIgnored sig), ok; injection Hn as <-; by split.
  - destruct (b_events s) as [|ev q] eqn:Eq; [done|]. injection Hn as <-. split; simpl; try done.
    intros Hr. apply He. by right.
  - destruct (b_status s) as [z|] eqn:Es; simpl in Hn; [|done]. injection Hn as <-. split; simpl; try done.
    by rewrite Es.
  - destruct (b_tick s); simpl in Hn; [|done]. destruct (b_file s) as [c|] eqn:Ef.
    + destruct (_ || _); injection Hn as <-; split; simpl; rewrite ?Ef; done.
    + injection Hn as <-. split; simpl; rewrite ?Ef; done.
Qed.

Lemma bnext_inv s e s' : bg_inv s → bnext s e = Some s' → bg_inv s'.
Proof.
  unfold bnext. intros Hi Hn. destruct (is_main e); [destruct (b_res s); [done|]; by eapply main_inv|by eapply child_inv].
Qed.

Lemma brun_inv evs s s' : bg_inv s → brun evs s = Some s' → bg_inv s'.
Proof.
  revert s. induction evs as [|e evs IH]; intros s Hi Hr; simpl in Hr; [by injection Hr as <-|].
  destruct (bnext s e) as [s1|] eqn:E; simpl in Hr; [|done]. eapply IH; [|done]. by eapply bnext_inv.
Qed.

Lemma brun_snoc evs e s s' : brun (evs ++ [e]) s = Some s' →
  ∃ s0, brun evs s = Some s0 ∧ bnext s0 e = Some s'.
Proof.
  revert s. induction evs as [|x evs IH]; intros s Hr; simpl in Hr.
  - destruct (bnext s e) as [s1|] eqn:E; simpl in Hr; [|done]. injection Hr as <-. eauto.
  - simpl. destruct (bnext s x) as [s1|]; simpl in *; [|done]. by apply IH.
Qed.

(** ** The loop implements the protocol *)

(** The status file can be read as long as it is there, and no report is empty,
    as those of the program. *)
Definition regular (e : bg_event) : Prop :=
  match e with RecvTick readable _ => readable = true | Notify st _ => st ≠ "" | _ => True end.

(** What the state tells of the past: [evs] are the events so far. *)
Record bg_history (env : Envs) (evs : list bg_event) (s : background) : Prop := mkHist {
  hist_env : b_file s ≠ None → b_env s = env;
  hist_up : b_file s = None → ∃ d, Notify UP d ∈ evs;
  hist_dead : ∀ en, b_child s = Some en → Die en ∈ evs;
  hist_sig : ∀ sig, b_sig s = Some sig → Signal sig ∈ evs;
  hist_writing : b_writing s ≠ Some "";
  hist_silent : said_of s = Handshake.Silent →
    EvWrite ∉ b_events s ∧ b_childAlive s = false ∧
    ∀ st d, Notify st d ∈ evs → (NotifyForeground env st).2 = NoNotification }.

Lemma bg_history_init env : bg_history env [] (background_init env).
Proof. split; try done; by intros; set_solver. Qed.

Lemma enqueue_write d ev q : EvWrite ∈ enqueue d ev q → EvWrite ∈ q ∨ ev = EvWrite.
Proof. destruct d; simpl; [|by left|]; destruct (_ <? _); rewrite ?elem_of_app, ?list_elem_of_singleton; naive_solver. Qed.

Lemma said_nonempty s t : b_file s = Some t → t ≠ "" → said_of s ≠ Handshake.Silent.
Proof. intros Hf Ht. unfold said_of. rewrite Hf. by destruct t, (b_writing s). Qed.
Lemma hist_weaken env evs e s : bg_history env evs s → (∀ st d, e ≠ Notify st d) →
  bg_history env (evs ++ [e]) s.
Proof.
  intros [He Hu Hd Hg Hw Hs] Hn. split; [done| | | |done|].
  - intros Hf. destruct (Hu Hf) as [d ?]. exists d. apply elem_of_app. by left.
  - intros en Hen. apply elem_of_app. left. by apply Hd.
  - intros sig Hsig. apply elem_of_app. left. by apply Hg.
  - intros Hsil. destruct (Hs Hsil) as (H1 & H2 & H3). split_and!; [done..|]. intros st d Hin.
    apply elem_of_app in Hin as [Hin|Hin%list_elem_of_singleton]; [by eapply H3|]. by destruct (Hn st d).
Qed.

Lemma notify_history env evs s st d s' : bg_history env evs s → bg_inv s → st ≠ "" →
  child_next s (Notify st d) = Some s' → bg_history env (evs ++ [Notify st d]) s'.
Proof.
  intros [He Hu Hd Hg Hw Hs] Hi Hst Hn. simpl in Hn. destruct (b_child s) eqn:Ec, (b_writing s) eqn:Ew; try done.
  assert (Hin : ∀ x, x ∈ evs → x ∈ evs ++ [Notify st d]) by (intros; apply elem_of_app; by left).
  assert (Hdie : ∀ en, b_child s = Some en → Die en ∈ evs ++ [Notify st d]) by congruence.
  destruct (NotifyForeground_cases (b_env s) st) as [Hc|[(f & Hc & ->)|(f & Hc & _)]];
    rewrite Hc in Hn; injection Hn as <-; split; simpl; try done; eauto.
  - intros Hf. destruct (Hu Hf) as [d' ?]. eauto.
  - intros Hsil. assert (Hsil' : said_of s = Handshake.Silent) by (unfold said_of in *; simpl in Hsil; by rewrite Ew).
    destruct (Hs Hsil') as (H1 & H2 & H3). split_and!; [done..|]. intros st' d' Hx.
    apply elem_of_app in Hx as [Hx|[= -> ->]%list_elem_of_singleton]; [by eapply H3|].
    rewrite He in Hc; [by rewrite Hc|]. unfold said_of in Hsil'. by destruct (b_file s).
  - intros _. exists d. apply elem_of_app. right. by left.
  - intros _. apply He. intros Hf. rewrite (inv_quiet _ Hi Hf) in Hc. congruence.
  - congruence.
Qed.

Lemma child_history env evs s e s' : bg_history env evs s → bg_inv s → regular e →
  child_next s e = Some s' → bg_history env (evs ++ [e]) s'.
Proof.
  intros Hh Hi Hreg Hn. destruct e as [st d|d|en| |sig| | | | |]; try done; [by eapply notify_history|..];
    match goal with |- bg_history _ (_ ++ [?x]) _ => destruct (hist_weaken env evs x s Hh) as [He Hu Hd Hg Hw Hs]; [done|] end;
    simpl in Hn.
  - destruct (b_child s) eqn:Ec; [done|]. destruct (b_writing s) as [t|] eqn:Ew; [|done].
    injection Hn as <-. split; simpl; rewrite ?Ec; try done.
    + intros _. apply He. by rewrite (inv_writing _ Hi _ Ew).
    + intros Hsil. by apply (said_nonempty _ t) in Hsil; [|done|congruence].
  - destruct (b_child s) eqn:Ec; [done|]. injection Hn as <-. split; simpl; try done.
    intros en' [= <-]. apply elem_of_app. right. by left.
  - destruct (b_child s) as [en|] eqn:Ec; [|done]. destruct (b_status s) eqn:Es; [done|]. injection Hn as <-.
    by split; simpl; rewrite ?Ec.
  - injection Hn as <-. split; simpl; try done. intros sig' [= <-]. destruct (b_sig s) as [g|]; simpl; [by apply Hg|].
    apply elem_of_app. right. by left.
  - injection Hn as <-. by split.
Qed.

Lemma main_history env evs s e s' : bg_history env evs s → regular e →
  main_next s e = Some s' → bg_history env (evs ++ [e]) s'.
Proof.
  intros Hh Hreg Hn.
  assert (Hh' : bg_history env (evs ++ [e]) s) by (apply hist_weaken; [done|]; by intros st d ->).
  destruct Hh' as [He Hu Hd Hg Hw Hs]. destruct e as [| | | | | |ok| | |rd ko]; simpl in Hn, Hreg; try done.
  - destruct (b_sig s) as [sig|]; simpl in Hn; [|done].
    destruct (shouldSignalBeIgnored sig), ok; injection Hn as <-; by split.
  - destruct (b_events s) as [|ev q] eqn:Eq; [done|]. injection Hn as <-. split; simpl; try done.
    intros Hsil. destruct (Hs Hsil) as (H1 & H2 & H3). split_and!; [set_solver| |done].
    destruct ev; [set_solver|done..].
  - destruct (b_status s) as [z|]; simpl in Hn; [|done]. by injection Hn as <-.
  - destruct (b_tick s); simpl in Hn; [|done]. destruct (b_file s) as [c|] eqn:Ef; [|injection Hn as <-; split; simpl; by rewrite ?Ef].
    assert (Hx : said_of s = Handshake.Silent → b_childAlive s || rd && negb (bool_decide (c = "")) = false).
    { intros Hsil. destruct (Hs Hsil) as (_ & -> & _). destruct c; [by rewrite andb_false_r|].
      by apply (said_nonempty s _ Ef) in Hsil. }
    destruct (_ || _) eqn:Ea; injection Hn as <-; split; simpl; rewrite ?Ef; try done.
    + intros Hsil. by specialize (Hx Hsil).
    + intros Hsil. by destruct (Hs Hsil) as (H1 & H2 & H3).
Qed.

Lemma brun_history env evs s : Forall regular evs → brun evs (background_init env) = Some s →
  bg_history env evs s ∧ bg_inv s.
Proof.
  revert s. induction evs as [|e evs IH] using rev_ind; intros s Hreg Hr.
  { injection Hr as <-. split; [apply bg_history_init|apply bg_inv_init]. }
  apply Forall_app in Hreg as [Hreg He]. apply Forall_cons in He as [He _].
  apply brun_snoc in Hr as (s0 & Hr & Hn). destruct (IH s0 Hreg Hr) as [Hh Hi].
  split; [|by eapply bnext_inv]. unfold bnext in Hn. destruct (is_main e).
  - destruct (b_res s0); [done|]. exact (main_history _ _ _ _ _ Hh He Hn).
  - exact (child_history _ _ _ _ _ Hh Hi He Hn).
Qed.

Definition refines_step (s s' : background) : Prop :=
  Handshake.move (abs s) (abs s') ∨ abs s = abs s'.

Lemma child_sim s e s' : bg_inv s → b_writing s ≠ Some "" → child_next s e = Some s' → refines_step s s'.
Proof.
  intros [He Hq Hs Hw] Hne Hn. destruct e as [st d|d|en| |sig| | | | |]; simpl in Hn; try done.
  - destruct (b_child s) eqn:Ec; [done|]. destruct (b_writing s) eqn:Ew; [done|].
    destruct (NotifyForeground_cases (b_env s) st) as [Hc|[(f & Hc & _)|(f & Hc & _)]];
      rewrite Hc in Hn; injection Hn as <-; unfold refines_step, abs, said_of; simpl; rewrite ?Ec, ?Ew; [by right|..];
      (destruct (b_file s) as [c|] eqn:Ef; [|specialize (Hq eq_refl st); congruence]); left;
      constructor; destruct c; auto.
  - destruct (b_child s) eqn:Ec; [done|]. destruct (b_writing s) as [t|] eqn:Ew; [|done].
    injection Hn as <-. unfold refines_step, abs, said_of; simpl. rewrite ?Ec, Ew, (Hw _ eq_refl).
    left. destruct t; [done|constructor].
  - destruct (b_child s) eqn:Ec; [done|]. injection Hn as <-. left. unfold abs; simpl. rewrite Ec. constructor.
  - destruct (b_child s) eqn:Ec; [|done]. destruct (b_status s); [done|]. injection Hn as <-. right.
    unfold abs; simpl. by rewrite Ec.
  - injection Hn as <-. by right.
  - injection Hn as <-. by right.
Qed.

Lemma main_sim env evs s e s' : bg_history env evs s → bg_inv s → b_res s = None → regular e →
  main_next s e = Some s' → refines_step s s'.
Proof.
  intros Hh [He Hq Hs Hw] Hres Hrd Hn. unfold refines_step, abs. rewrite Hres.
  destruct e as [| | | | | |ok| | |rd ko]; simpl in Hn, Hrd; try done.
  - destruct (b_sig s) as [sig|]; simpl in Hn; [|done].
    destruct (shouldSignalBeIgnored sig); [|destruct ok]; injection Hn as <-; simpl; [by right..|].
    left. constructor.
  - destruct (b_events s) as [|ev q] eqn:Eq; [done|]. injection Hn as <-. destruct ev; simpl; [|left|by right].
    + unfold said_of; simpl. destruct (b_childAlive s) eqn:Ea; [by right|left]. constructor.
      intros Hsil. destruct (hist_silent _ _ _ Hh Hsil) as (H1 & _). rewrite Eq in H1. apply H1. by left.
    + unfold said_of; simpl. rewrite He by by left. constructor.
  - destruct (b_status s) as [z|] eqn:Es; simpl in Hn; [|done]. injection Hn as <-. simpl.
    rewrite (Hs _ eq_refl). left. constructor.
  - destruct (b_tick s); simpl in Hn; [|done]. subst rd. destruct (b_file s) as [c|] eqn:Ef.
    + destruct (b_childAlive s) eqn:Ea; simpl in Hn; [injection Hn as <-; by right|].
      destruct c as [|a c]; simpl in Hn; injection Hn as <-; left; unfold said_of; simpl; rewrite Ef.
      * destruct (b_writing s); constructor; auto; destruct ko; auto.
      * constructor. by destruct (b_writing s).
    + injection Hn as <-. left. unfold said_of; simpl. rewrite Ef. constructor.
Qed.

Lemma child_next_stable s e s' : child_next s e = Some s' →
  b_res s' = b_res s ∧ (∀ en, b_child s = Some en → b_child s' = Some en).
Proof.
  intros Hn. destruct e as [st d| | | | | | | | |]; simpl in Hn; try done.
  - destruct (b_child s) eqn:Ec, (b_writing s); try done.
    destruct (NotifyForeground _ _) as [env []]; injection Hn as <-; simpl; by rewrite ?Ec.
  - destruct (b_child s) eqn:Ec, (b_writing s); try done. injection Hn as <-. simpl. by rewrite Ec.
  - destruct (b_child s) eqn:Ec; [done|]. by injection Hn as <-.
  - destruct (b_child s) eqn:Ec, (b_status s); try done. by injection Hn as <-.
  - by injection Hn as <-.
  - by injection Hn as <-.
Qed.

(** What the parent has seen when it gives its verdict after the events [evs]. *)
Definition justified (env : Envs) (evs : list bg_event) (s : background) (r : background_res) : Prop :=
  match r with
  | Up => ∃ d, Notify UP d ∈ evs
  | ChildExit z => ∃ en, Die en ∈ evs ∧ exit_status en = z
  | TimedOut | KillFailed =>
    b_childAlive s = false ∧ b_file s = Some "" ∧
    ((∃ st, b_writing s = Some st) ∨ ∀ st d, Notify st d ∈ evs → (NotifyForeground env st).2 = NoNotification)
  | SignalFailed sig => Signal sig ∈ evs
  end.

Lemma verdict_justified env evs s e s' r : bg_history env evs s → bg_inv s → b_res s = None →
  regular e → bnext s e = Some s' → b_res s' = Some r → justified env evs s r.
Proof.
  intros Hh Hi Hres Hreg Hn Hr. unfold bnext in Hn. rewrite Hres in Hn. destruct (is_main e) eqn:Em.
  2:{ destruct (child_next_stable _ _ _ Hn) as [Hst _]. congruence. }
  destruct e as [| | | | | |ok| | |rd ko]; simpl in Hn, Hreg; try done.
  - destruct (b_sig s) as [sig|] eqn:Es; simpl in Hn; [|done].
    destruct (shouldSignalBeIgnored sig), ok; injection Hn as <-; simpl in Hr; try done;
      injection Hr as <-; by apply (hist_sig _ _ _ Hh).
  - destruct (b_events s) as [|ev q] eqn:Eq; [done|]. injection Hn as <-. destruct ev; try done.
    injection Hr as <-. apply (hist_up _ _ _ Hh), (inv_event _ Hi). rewrite Eq. by left.
  - destruct (b_status s) as [z|] eqn:Es; simpl in Hn; [|done]. injection Hn as <-. injection Hr as <-.
    pose proof (inv_status _ Hi _ Es) as Hx. destruct (b_child s) as [en|] eqn:Ec; [|done].
    exists en. split; [by apply (hist_dead _ _ _ Hh)|]. by injection Hx.
  - destruct (b_tick s); simpl in Hn; [|done]. subst rd. destruct (b_file s) as [c|] eqn:Ef.
    2:{ injection Hn as <-. injection Hr as <-. by apply (hist_up _ _ _ Hh). }
    destruct (b_childAlive s) eqn:Ea; simpl in Hn; [by injection Hn as <-|].
    destruct c as [|a c]; simpl in Hn; injection Hn as <-; [|done]. simpl in Hr.
    assert (Hj : justified env evs s TimedOut).
    { split_and!; [done..|]. destruct (b_writing s) as [st|] eqn:Ew; [left; eauto|right].
      apply (hist_silent _ _ _ Hh). unfold said_of. by rewrite Ef, Ew. }
    by destruct ko; injection Hr as <-.
Qed.

(** C2: the loop of the parent implements the protocol of the handshake step by
    step, whatever file events are lost, merged or late, as long as the status
    file can be read and no report is empty; and every verdict is justified: it
    returns without an error only after the child said that it is up, an exit
    status only when the child ended with it, the error of a signal only for one
    it got, and it times the child out only when it noticed no report and there
    is none to read, because the child never reported or is just replacing its
    report. *)
Theorem Background_refines env evs s e s' :
  Forall regular evs → regular e → brun evs (background_init env) = Some s → bnext s e = Some s' →
  abs (background_init env) = Handshake.init ∧
  (Handshake.move (abs s) (abs s') ∨ abs s = abs s') ∧
  (∀ r, b_res s = None → b_res s' = Some r → justified env evs s r).
Proof.
  intros Hreg He Hr Hn. destruct (brun_history _ _ _ Hreg Hr) as [Hh Hi]. split; [done|]. split.
  - unfold bnext in Hn. destruct (is_main e); [destruct (b_res s) eqn:Er; [done|]; by eapply main_sim|].
    eapply child_sim; [done| |done]. by apply (hist_writing _ _ _ Hh).
  - intros r Hnone Hs. by eapply verdict_justified.
Qed.

Definition ex_child_env : Envs := background_env ∅ "/v/status-1" 7.

(** A child whose report is lost while it is replaced is timed out. *)
Lemma Background_refines_witness :
  let evs := [Notify "boot" Lost; FinishWrite Lost; Notify "config" Lost; Tick] in
  ∃ s s', brun evs (background_init ex_child_env) = Some s ∧ bnext s (RecvTick true true) = Some s' ∧
    b_res s' = Some TimedOut ∧
    Handshake.move (Handshake.mk Handshake.Reporting false None None)
                   (Handshake.mk Handshake.Reporting false None (Some TimedOut)) ∧
    justified ex_child_env evs s TimedOut.
Proof.
  intros evs. do 2 eexists. split; [vm_compute; reflexivity|]. split; [vm_compute; reflexivity|]. split; [done|].
  match goal with |- _ ∧ justified _ _ ?s _ =>
    destruct (Background_refines ex_child_env evs s (RecvTick true true) _
                ltac:(by repeat constructor) eq_refl eq_refl eq_refl) as (_ & [H|H] & Hj) end.
  - split; [exact H|]. by apply Hj.
  - discriminate H.
Defined.

(** ** The parent does not wait for ever *)

(** How the wait for a child that is up may end. *)
Definition good_end (s : background) : Prop :=
  match b_res s with
  | Some Up | Some (SignalFailed _) => True
  | Some (ChildExit z) => exit_status <$> b_child s = Some z
  | _ => False
  end.

Lemma child_next_file s e s' : bg_inv s → b_file s = None → child_next s e = Some s' → b_file s' = None.
Proof.
  intros Hi Hf Hn. destruct e as [st d| | | | | | | | |]; simpl in Hn; try done.
  - destruct (b_child s), (b_writing s); try done. rewrite (inv_quiet _ Hi Hf) in Hn. by injection Hn as <-.
  - destruct (b_child s); [done|]. destruct (b_writing s) eqn:Ew; [|done].
    pose proof (inv_writing _ Hi _ Ew). congruence.
  - destruct (b_child s); [done|]. by injection Hn as <-.
  - destruct (b_child s), (b_status s); try done. by injection Hn as <-.
  - by injection Hn as <-.
  - by injection Hn as <-.
Qed.

Lemma good_end_stable evs s s' : good_end s → brun evs s = Some s' → good_end s'.
Proof.
  revert s. induction evs as [|e evs IH]; intros s Hg Hr; simpl in Hr; [by injection Hr as <-|].
  destruct (bnext s e) as [s1|] eqn:E; simpl in Hr; [|done]. apply (IH s1); [|done]. unfold bnext in E.
  destruct (is_main e); [unfold good_end in Hg; by destruct (b_res s)|].
  destruct (child_next_stable _ _ _ E) as [Hres Hch]. unfold good_end in *. rewrite Hres.
  destruct (b_res s) as [[]|]; try done. destruct (b_child s) as [en|]; [|done]. by rewrite (Hch en eq_refl).
Qed.

(** Once the child is up, a turn of the loop goes on or ends well, and a tick
    ends the wait. *)
Lemma main_next_up s e s' : bg_inv s → b_file s = None → main_next s e = Some s' →
  b_file s' = None ∧ (b_res s' = None ∨ good_end s') ∧
  ((∃ rd ko, e = RecvTick rd ko) → good_end s').
Proof.
  intros Hi Hf Hn. destruct e as [| | | | | |ok| | |rd ko]; simpl in Hn; try done.
  - destruct (b_sig s) as [sig|]; simpl in Hn; [|done].
    destruct (shouldSignalBeIgnored sig); [|destruct ok]; injection Hn as <-; simpl;
      (split_and!; [done| |by intros (? & ? & [=])]); auto. by right.
  - destruct (b_events s) as [|ev q]; [done|]. injection Hn as <-. split_and!; [done| |by intros (? & ? & [=])].
    destruct ev; [by left|by right|by left].
  - destruct (b_status s) as [z|] eqn:Es; simpl in Hn; [|done]. injection Hn as <-.
    split_and!; [done| |by intros (? & ? & [=])]. right. exact (inv_status _ Hi _ Es).
  - destruct (b_tick s); simpl in Hn; [|done]. rewrite Hf in Hn. injection Hn as <-. split_and!; [done|by right|done].
Qed.

Lemma brun_up evs s s' : bg_inv s → b_file s = None → b_res s = None → brun evs s = Some s' →
  (∃ rd ko, RecvTick rd ko ∈ evs) → good_end s'.
Proof.
  revert s. induction evs as [|e evs IH]; intros s Hi Hf Hres Hr (rd & ko & Ht); [by apply not_elem_of_nil in Ht|].
  simpl in Hr. destruct (bnext s e) as [s1|] eqn:E; simpl in Hr; [|done].
  pose proof (bnext_inv _ _ _ Hi E) as Hi1. unfold bnext in E. destruct (is_main e) eqn:Em.
  - rewrite Hres in E. destruct (main_next_up _ _ _ Hi Hf E) as (Hf1 & [Hn|Hg] & Htick).
    + apply elem_of_cons in Ht as [<-|Ht]; [|by apply (IH s1); eauto].
      eapply good_end_stable; [|done]. eauto.
    + by eapply good_end_stable.
  - apply elem_of_cons in Ht as [<-|Ht]; [done|]. apply (IH s1); eauto.
    + exact (child_next_file _ _ _ Hi Hf E).
    + by rewrite (proj1 (child_next_stable _ _ _ E)).
Qed.

(** C26: the wait ends.  When the child is up, the next tick ends the wait with
    success even if every file event was lost, and a run in which a tick is
    handled has ended, with success, the exit status of the child or a signal
    that could not be sent, never with a time-out; when the child ended, its
    status can be received; and a tick at which the child has said nothing and
    no report was seen ends the wait as well. *)
Theorem Background_liveness env evs s :
  brun evs (background_init env) = Some s → b_res s = None →
  (b_file s = None →
     (∃ s', brun [Tick; RecvTick true true] s = Some s' ∧ b_res s' = Some Up) ∧
     ∀ evs' s', brun evs' s = Some s' → (∃ rd ko, RecvTick rd ko ∈ evs') → good_end s') ∧
  (∀ en, b_child s = Some en →
     ∃ evs' s', brun evs' s = Some s' ∧ b_res s' = Some (ChildExit (exit_status en))) ∧
  (b_childAlive s = false → b_file s = Some "" → ∀ rd ko,
     ∃ s', brun [Tick; RecvTick rd ko] s = Some s' ∧ b_res s' = Some (if ko then TimedOut else KillFailed)).
Proof.
  intros Hr Hres. pose proof (brun_inv _ _ _ (bg_inv_init env) Hr) as Hi. split_and!.
  - intros Hf. split.
    + eexists. simpl. unfold bnext. simpl. rewrite Hres, Hf. by split.
    + intros evs' s' Hr' Ht. by eapply brun_up.
  - intros en Hc. destruct (b_status s) as [z|] eqn:Es.
    + exists [RecvStatus]. eexists. simpl. unfold bnext. simpl. rewrite Hres, Es. simpl. split; [reflexivity|].
      simpl. pose proof (inv_status _ Hi _ Es) as Hz. rewrite Hc in Hz. simpl in Hz. congruence.
    + exists [Reap; RecvStatus]. eexists. simpl. unfold bnext. simpl. rewrite Hc, Es. simpl. rewrite Hres.
      split; reflexivity.
  - intros Ha Hf rd ko. eexists. simpl. unfold bnext. simpl. rewrite Hres, Hf, Ha. simpl.
    rewrite andb_false_r. simpl. split; reflexivity.
Qed.

Lemma Background_liveness_witness :
  ∃ s, brun [Notify "boot" Lost; FinishWrite Lost; Notify UP Lost] (background_init ex_child_env) = Some s ∧
       ∃ s', brun [Tick; RecvTick true true] s = Some s' ∧ b_res s' = Some Up.
Proof.
  eexists. split; [vm_compute; reflexivity|].
  refine (proj1 (proj1 (Background_liveness ex_child_env
     [Notify "boot" Lost; FinishWrite Lost; Notify UP Lost] _ _ _) _)); vm_compute; reflexivity.
Defined.

(** ** Success comes from the child *)

Lemma bnext_removed s e s' : bnext s e = Some s' → b_file s ≠ None → b_file s' = None → ∃ d, e = Notify UP d.
Proof.
  unfold bnext. intros Hn Hf Hf'. destruct e as [st d| | | | | |ok| | |rd ko]; cbn in Hn.
  - destruct (b_child s), (b_writing s); try done.
    destruct (NotifyForeground_cases (b_env s) st) as [Hc|[(f & Hc & ->)|(f & Hc & _)]]; rewrite Hc in Hn;
      [by injection Hn as <-|eauto|by injection Hn as <-].
  - destruct (b_child s), (b_writing s); try done. by injection Hn as <-.
  - destruct (b_child s); [done|]. by injection Hn as <-.
  - destruct (b_child s), (b_status s); try done. by injection Hn as <-.
  - by injection Hn as <-.
  - by injection Hn as <-.
  - destruct (b_res s); [done|]. destruct (b_sig s) as [sig|]; cbn in Hn; [|done].
    destruct (shouldSignalBeIgnored sig), ok; by injection Hn as <-.
  - destruct (b_res s), (b_events s); try done. by injection Hn as <-.
  - destruct (b_res s); [done|]. destruct (b_status s); cbn in Hn; [|done]. by injection Hn as <-.
  - destruct (b_res s); [done|]. destruct (b_tick s); cbn in Hn; [|done].
    destruct (b_file s) as [c|] eqn:E; [|done]. destruct (_ || _); injection Hn as <-; cbn in Hf'; congruence.
Qed.

Lemma brun_removed evs s s' : brun evs s = Some s' → b_file s ≠ None → b_file s' = None → ∃ d, Notify UP d ∈ evs.
Proof.
  revert s. induction evs as [|e evs IH]; intros s Hr Hf Hf'; cbn in Hr; [by injection Hr as <-|].
  destruct (bnext s e) as [s1|] eqn:E; cbn in Hr; [|done].
  destruct (b_file s1) as [c|] eqn:Ef1.
  - destruct (IH s1 Hr) as [d Hd]; [congruence|done|]. exists d. by right.
  - destruct (bnext_removed _ _ _ E Hf Ef1) as [d ->]. exists d. by left.
Qed.

Lemma bnext_up s e s' : bg_inv s → bnext s e = Some s' →
  (b_res s = Some Up → b_file s = None) → b_res s' = Some Up → b_file s' = None.
Proof.
  intros Hi Hn Hs Hu. unfold bnext in Hn. destruct (is_main e) eqn:Em.
  - destruct (b_res s) eqn:Er; [done|]. destruct e as [| | | | | |ok| | |rd ko]; cbn in Hn; try done.
    + destruct (b_sig s) as [sig|]; cbn in Hn; [|done].
      destruct (shouldSignalBeIgnored sig), ok; injection Hn as <-; done.
    + destruct (b_events s) as [|ev q] eqn:Eq; [done|]. injection Hn as <-. destruct ev; try done.
      apply (inv_event _ Hi). rewrite Eq. by left.
    + destruct (b_status s); cbn in Hn; [|done]. by injection Hn as <-.
    + destruct (b_tick s); cbn in Hn; [|done]. destruct (b_file s) as [c|] eqn:Ef.
      * destruct (_ || _); injection Hn as <-; [done|]. cbn in Hu. by destruct ko.
      * by injection Hn as <-.
  - destruct (child_next_stable _ _ _ Hn) as [Hr _]. rewrite Hr in Hu. by eapply child_next_file; eauto.
Qed.

(** The parent reports success only when the child called [NotifyForeground]
    with [UP]. *)
Lemma up_notified env evs s :
  brun evs (background_init env) = Some s → b_res s = Some Up → ∃ d, Notify UP d ∈ evs.
Proof.
  intros Hr Hu. apply (brun_removed evs (background_init env) s Hr); [done|].
  assert (Hgen : ∀ evs s0, bg_inv s0 → (b_res s0 = Some Up → b_file s0 = None) → brun evs s0 = Some s → b_file s = None).
  { clear -Hu. induction evs as [|e evs IH]; intros s0 Hi H0 Hr; cbn in Hr; [injection Hr as <-; by apply H0|].
    destruct (bnext s0 e) as [s1|] eqn:E; cbn in Hr; [|done]. apply (IH s1); [by eapply bnext_inv| |done].
    intros H1. by eapply bnext_up. }
  by apply (Hgen evs (background_init env)); [apply bg_inv_init|..].
Qed.

(** ** The exit code of [Restart] *)

(** The channels hold what the child ended with. *)
Record restart_inv (s : restart) : Prop := mkRInv {
  ri_err : r_err s = true → r_child s = Some WaitErr;
  ri_wait : ∀ e, r_wait s = Some e → r_child s = Some e;
  ri_closed : r_waiter s ≠ Waiting →
    ∃ e, r_child s = Some e ∧
      match r_main s with
      | Turning => r_err s = true ∨ r_wait s = Some e
      | Blocked => False
      | _ => True
      end;
  ri_main : match r_main s with
            | Exited z => ∃ e, r_child s = Some e ∧ (z = exit_status e ∨ z = 1%Z ∧ err_closed s = true)
            | Panicked => r_child s = Some WaitErr ∧ wait_closed s = true
            | _ => True
            end }.

Lemma restart_init_inv : restart_inv restart_init.
Proof. by split. Qed.

Lemma waiter_inv s s' : restart_inv s → (r_main s = Blocked ∨ r_main s = Turning) →
  waiter_next s = Some s' → restart_inv s'.
Proof.
  intros [He Hw Hc Hm] Hmain Hn. unfold waiter_next in Hn.
  destruct (r_waiter s) eqn:Ew; [| | |done].
  - destruct (r_child s) as [[|ok st]|] eqn:Ec; [..|done]; destruct Hmain as [Em|Em]; rewrite Em in *;
      injection Hn as <-; split; simpl; eauto; naive_solver.
  - destruct (Hc ltac:(done)) as (e & Hce & Hx). destruct Hmain as [Em|Em]; rewrite Em in *; [done|].
    injection Hn as <-. split; simpl; rewrite ?Em; eauto.
  - destruct (Hc ltac:(done)) as (e & Hce & Hx). destruct Hmain as [Em|Em]; rewrite Em in *; [done|].
    injection Hn as <-. split; simpl; rewrite ?Em; eauto.
Qed.

Lemma select_inv s p s' : restart_inv s → r_main s = Turning → select_next s p = Some s' → restart_inv s'.
Proof.
  intros [He Hw Hc Hm] Em Hn. rewrite Em in *.
  assert (Hx : r_waiter s ≠ Waiting → ∃ e, r_child s = Some e ∧ True) by naive_solver.
  destruct p; simpl in Hn.
  - destruct (r_sig s); simpl in Hn; [|done]. injection Hn as <-. split; simpl; eauto.
  - destruct (r_err s) eqn:Ee; simpl in Hn; [|destruct (err_closed s) eqn:Ex; [|done]]; injection Hn as <-;
      (split; simpl; [done|exact Hw|exact Hx|]).
    + exists WaitErr. auto.
    + destruct (Hx ltac:(unfold err_closed in Ex; by destruct (r_waiter s))) as (e & ? & _). eauto.
  - destruct (r_wait s) as [e|] eqn:Er; [|destruct (wait_closed s) eqn:Ex; [|done]]; injection Hn as <-;
      (split; simpl; rewrite ?Er; [exact He|exact Hw|exact Hx|]).
    + eauto.
    + destruct (Hc ltac:(unfold wait_closed in Ex; by destruct (r_waiter s))) as (e & _ & [Hr|[=]]). auto.
  - destruct (r_sig s), (r_wait s) eqn:Er; try done. destruct (r_err s) eqn:Ee; simpl in Hn; [done|].
    destruct (err_closed s); simpl in Hn; [done|]. destruct (wait_closed s); [done|]. injection Hn as <-.
    split; simpl; rewrite ?Ee, ?Er; eauto. intros Hy. by destruct (Hc Hy) as (e & _ & [|]).
Qed.

Lemma rnext_inv s e s' : restart_inv s → rnext s e = Some s' → restart_inv s'.
Proof.
  intros Hi Hn. unfold rnext in Hn. destruct (r_main s) eqn:Em; [| |by destruct e|by destruct e].
  - destruct e as [en|sig| |p]; [| | |done].
    + destruct (r_child s) eqn:Ec; [done|]. injection Hn as <-. destruct Hi as [He Hw Hc Hm].
      split; simpl; rewrite ?Em; naive_solver congruence.
    + injection Hn as <-. destruct Hi as [He Hw Hc Hm]. rewrite Em in *. split; simpl; naive_solver.
    + eapply waiter_inv; eauto.
  - destruct e as [en|sig| |p].
    + destruct (r_child s) eqn:Ec; [done|]. injection Hn as <-. destruct Hi as [He Hw Hc Hm].
      split; simpl; rewrite ?Em; naive_solver congruence.
    + injection Hn as <-. destruct Hi as [He Hw Hc Hm]. rewrite Em in *. split; simpl; naive_solver.
    + eapply waiter_inv; eauto.
    + eapply select_inv; eauto.
Qed.

Lemma rrun_inv evs s s' : restart_inv s → rrun evs s = Some s' → restart_inv s'.
Proof.
  revert s. induction evs as [|e evs IH]; intros s Hi Hr; simpl in Hr; [by injection Hr as <-|].
  destruct (rnext s e) as [s1|] eqn:E; simpl in Hr; [|done]. eapply IH; [|done]. by eapply rnext_inv.
Qed.

(** [Restart] ends only after the new process, with its exit status, or with
    1 when the loop comes back to [select] after the goroutine closed [errCh];
    it panics only when waiting failed and both channels are closed.  The
    exception is real: the signal that tells of the end of the process makes the
    loop turn, and the exit code of a process that succeeded may then be 1. *)
Theorem Restart_exit_code evs s :
  rrun evs restart_init = Some s →
  match r_main s with
  | Exited z => ∃ e, r_child s = Some e ∧ (z = exit_status e ∨ z = 1%Z ∧ err_closed s = true)
  | Panicked => r_child s = Some WaitErr ∧ wait_closed s = true
  | _ => True
  end ∧
  (∃ evs' s', rrun evs' restart_init = Some s' ∧ r_child s' = Some (WaitState true 0) ∧ r_main s' = Exited 1).
Proof.
  intros Hr. split; [exact (ri_main _ (rrun_inv _ _ _ restart_init_inv Hr))|].
  exists [RSelect PickNone; RDie (WaitState true 0); RSignal "SIGCHLD"; RGo; RGo; RSelect PickErr].
  eexists. split; [vm_compute; reflexivity|]. by split.
Qed.

Lemma Restart_exit_code_witness :
  ∃ e, Some (WaitState false 3) = Some e ∧
       (3 = exit_status e ∨ 3 = 1 ∧ err_closed (mkRestart (Some (WaitState false 3)) SentResult false None None ["SIGINT"] (Exited 3)) = true)%Z.
Proof.
  refine (proj1 (Restart_exit_code [RSelect PickNone; RSignal "SIGINT"; RSelect PickNone; RDie (WaitState false 3); RGo]
    (mkRestart (Some (WaitState false 3)) SentResult false None None ["SIGINT"] (Exited 3)) _)).
  vm_compute. reflexivity.
Defined.
