(* ===== verification/Templating.v ===== *)
(** * New projects ([commands/init_templating.go], [init_templating_php.go],
    [local_new.go], [project_init.go])

    The configuration of a cloud project is made from a template of a Git
    repository: the first one whose requirements the project meets, or the one
    that was asked for.  It is filled with what is known of the project: its
    front controller, the PHP extensions that Composer asks for, the services
    given on the command line or found in the Compose file.  The [new] command
    is a sequence of effects after the validation of its flags.

    Parameters: JSON and YAML decoding, [text/template], [go-version], the
    Compose library, the PHP store, git, the network, which files can be
    written.  A Go map whose iteration order matters is given with that order.
    Messages are not modelled. *)

From stdpp Require Import base tactics option list gmap strings pretty sorting.
From Stdlib Require Import ZArith Lia Ascii.
From S2P Require Import Prelude GoStrings FilePath Os Envs Dotenv Upsun.

(** ** Composer files ([init_templating_php.go]) *)

Record composerLock := mkLock {
  l_Platform : gmap string string; l_Packages : list string; l_PackagesDev : list string }.
Record composerJSON := mkJSON { j_Require : gmap string string; j_RequireDev : gmap string string }.

Section composer.
Context (json_lock : string → option composerLock) (json_json : string → option composerJSON).
Context (w : os).

Definition parseComposerLock (dir : string) : option composerLock :=
  b ← read_file w (fjoin [dir; "composer.lock"]); json_lock b.
Definition parseComposerJSON (dir : string) : option composerJSON :=
  b ← read_file w (fjoin [dir; "composer.json"]); json_json b.

Definition hasComposerPackage (dir pkg : string) : bool :=
  match parseComposerLock dir with
  | Some lock => bool_decide (pkg ∈ l_Packages lock) || bool_decide (pkg ∈ l_PackagesDev lock)
  | None =>
    match parseComposerJSON dir with
    | Some json => bool_decide (is_Some (j_Require json !! pkg)) || bool_decide (is_Some (j_RequireDev json !! pkg))
    | None => false
    end
  end.

Definition hasPHPExtension (dir ext : string) : bool :=
  let ext := if HasPrefix ext "ext-" then ext else "ext-" +:+ ext in
  match parseComposerLock dir with
  | Some lock => bool_decide (is_Some (l_Platform lock !! ext))
  | None =>
    match parseComposerJSON dir with
    | Some json => bool_decide (is_Some (j_Require json !! ext)) || bool_decide (is_Some (j_RequireDev json !! ext))
    | None => false
    end
  end.

(** The loops over the keys of the maps: the one over the lock file does not
    test [seen], which always holds the extensions of the list. *)
Definition lock_ext (exts : list string) (key : string) : list string :=
  if HasPrefix key "ext-" then exts ++ [sdrop 4 key] else exts.
Definition add_ext (exts : list string) (key : string) : list string :=
  if HasPrefix key "ext-" && negb (bool_decide (sdrop 4 key ∈ exts)) then exts ++ [sdrop 4 key] else exts.
Definition phpExtensions `{!RangeOrder} (dir : string) : list string :=
  let exts := match parseComposerLock dir with
              | Some lock => foldl lock_ext [] (range (l_Platform lock)).*1
              | None => []
              end in
  match parseComposerJSON dir with
  | Some json => foldl add_ext (foldl add_ext exts (range (j_Require json)).*1) (range (j_RequireDev json)).*1
  | None => exts
  end.
End composer.

(** ** Services ([local_new.go]) *)

Record CloudService := mkService { cs_Name : string; cs_Type : string; Endpoint : string; cs_Version : string }.

Definition endpoint_of (type : string) : string :=
  if bool_decide (type = "redis-persistent") then "redis"
  else if bool_decide (type = "oracle-mysql") then "mysql" else type.
Definition SetEndpoint (s : CloudService) : CloudService :=
  mkService (cs_Name s) (cs_Type s) (endpoint_of (cs_Type s)) (cs_Version s).

Section services.
(** [upsun.ServiceLastVersion]: the table of services is generated. *)
Context (availableServices : list service).
Let last_version := ServiceLastVersion availableServices.

Definition parse_service (config : string) : option CloudService :=
  s ← match Split config ":" with
      | [name] => Some (mkService name name "" (last_version name))
      | [name; type] => Some (mkService name type "" (last_version type))
      | [name; type; version] => Some (mkService name type "" version)
      | _ => None
      end;
  let s := SetEndpoint s in
  Some (if bool_decide (cs_Type s = "redis-persistent")
        then mkService (cs_Name s) (cs_Type s) (Endpoint s) (last_version (Endpoint s)) else s).
(** [None]: a service that cannot be parsed. *)
Definition parseCLIServices (services : list string) : option (list CloudService) := mapM parse_service services.

(** A service of the Compose file: name, image, target ports. *)
Record compose_service := mkCompose { co_Name : string; co_Image : string; co_Ports : list Z }.

Definition db_type (image : string) : string :=
  if Contains (ToLower image) "mariadb" then "mariadb"
  else if Contains (ToLower image) "mysql" then "oracle-mysql" else "mysql".
Definition port_type (image : string) (port : Z) : option string :=
  match port with
  | 3306%Z => Some (db_type image) | 5432%Z => Some "postgresql" | 6379%Z => Some "redis"
  | 11211%Z => Some "memcached" | 5672%Z => Some "rabbitmq" | 9200%Z => Some "elasticsearch"
  | 27017%Z => Some "mongodb" | 9092%Z => Some "kafka" | _ => None
  end.

(** The leftmost match of [\d+(\.\d+)?]. *)
Fixpoint take_digits (s : string) : string * string :=
  match s with
  | String c s' => if is_digit c then let '(d, r) := take_digits s' in (String c d, r) else ("", s)
  | EmptyString => ("", "")
  end.
Definition find_version (s : string) : string :=
  let '(major, r) := take_digits (drop_while (λ c, negb (is_digit c)) s) in
  match r with
  | String "." r => let '(minor, _) := take_digits r in
                    if bool_decide (minor = "") then major else major +:+ "." +:+ minor
  | _ => major
  end.

(** Versions are compared as strings. *)
Definition image_version (image type : string) : string :=
  let version := find_version (default "" (last (Split image ":"))) in
  let lastv := last_version type in
  if bool_decide (version = "") then lastv
  else if String.ltb lastv version then lastv else version.

Definition compose_port (name image : string) (acc : list CloudService * list string) (port : Z)
  : list CloudService * list string :=
  match port_type image port with
  | Some type =>
    if bool_decide (name ∈ acc.2) then acc
    else (acc.1 ++ [mkService name type (endpoint_of type) (image_version image type)], acc.2 ++ [name])
  | None => acc
  end.
Definition compose_step (acc : list CloudService * list string) (s : compose_service)
  : list CloudService * list string :=
  foldl (compose_port (co_Name s) (co_Image s)) acc (co_Ports s).
(** [compose]: the services of the project, [None] when it cannot be loaded. *)
Definition parseDockerComposeServices (compose : option (list compose_service)) : list CloudService :=
  match compose with
  | None => []
  | Some services => (foldl compose_step ([], []) services).1
  end.

Definition parseCloudServices (compose : option (list compose_service)) (services : list string)
  : option (list CloudService) :=
  cloudServices ← parseCLIServices services;
  Some (cloudServices ++ parseDockerComposeServices compose).
End services.

(** ** Templates ([init_templating.go]) *)

Record configRequirement := mkReq { q_Type : string; q_Value : string }.
Record configTemplate := mkTemplate {
  Requirements : list configRequirement; ExtraFiles : gmap string string; t_Template : string }.

(** What a template is filled with. *)
Record template_data := mkData {
  d_Slug : string; d_FrontController : string; d_PublicDirectory : string; d_PhpVersion : string;
  d_PHPExtensions : list string; d_Services : list CloudService; d_ServiceDiskSizes : list (string * string) }.

Inductive templates_err :=
| CacheErr | HttpErr | ReadErr | YamlErr | NoMatchingTemplate | NoPhpIni.

Record dir_entry := mkDirEntry { en_name : string; en_isDir : bool }.

Section templates.
Context (json_lock : string → option composerLock) (json_json : string → option composerJSON).
(** [at_least minor v]: [version.NewVersion] of both and the comparison, [None]
    when one of them is not a version; [yaml_template]: [None] is an error,
    [Some None] a document that leaves the pointer nil. *)
Context (at_least : string → string → option bool)
        (yaml_template : string → option (option configTemplate))
        (valid_url : string → bool) (http_get : string → option string)
        (parse_ok : string → bool).
Context `{!RangeOrder}.

(** [req.Check]: the functions of the templates that take a string and return a
    boolean; [php_extensions] and [php_extension_available] have another type. *)
Definition Check_ (w : os) (dir minorPHPVersion : string) (req : configRequirement) : outcome bool :=
  let type := q_Type req in
  if bool_decide (type = "file_exists") then Ret (exists_ w (fjoin [dir; q_Value req]))
  else if bool_decide (type = "has_composer_package") then
    Ret (hasComposerPackage json_lock json_json w dir (q_Value req))
  else if bool_decide (type = "has_php_extension") then
    Ret (hasPHPExtension json_lock json_json w dir (q_Value req))
  else if bool_decide (type = "php_at_least") then oget (at_least minorPHPVersion (q_Value req))
  else Ret false.

Fixpoint Match_ (w : os) (dir minorPHPVersion : string) (reqs : list configRequirement) : outcome bool :=
  match reqs with
  | [] => Ret true
  | req :: reqs =>
    ok ← Check_ w dir minorPHPVersion req;
    match ok with true => Match_ w dir minorPHPVersion reqs | false => Ret false end
  end.

(** The name of the template of a file: without [.yaml] and what precedes the
    first dash. *)
Definition template_name (file : string) : string :=
  sdrop (match Index file "-" with Some i => S i | None => 0 end) (TrimSuffix file ".yaml").

(** The loop over the directory. *)
Fixpoint choose (w : os) (directory rootDirectory chosen minorPHPVersion : string) (files : list dir_entry)
  : outcome (gores templates_err (option configTemplate)) :=
  match files with
  | [] => Ret (Val None)
  | f :: files =>
    let next := choose w directory rootDirectory chosen minorPHPVersion files in
    if bool_decide (en_name f = ".git") || en_isDir f || negb (HasSuffix (en_name f) ".yaml") then next else
    let isTemplateChosen := bool_decide (chosen = template_name (en_name f)) in
    if negb (bool_decide (chosen = "")) && negb isTemplateChosen then next else
    match read_file w (fjoin [directory; en_name f]) with
    | None => if isTemplateChosen then Ret (Err ReadErr) else next
    | Some b =>
      match yaml_template b with
      | None => if isTemplateChosen then Ret (Err YamlErr) else next
      | Some c =>
        let c := default (mkTemplate [] ∅ "") c in
        ok ← (if bool_decide (chosen = "") then Match_ w rootDirectory minorPHPVersion (Requirements c) else Ret true);
        match ok with true => Ret (Val (Some c)) | false => next end
      end
    end
  end.

Definition isValidFilePath (w : os) (p : string) : bool :=
  match stat w p with Found isDir => negb isDir | _ => false end.

(** The template that is used. *)
Definition find_template (w : os) (directory rootDirectory chosen minorPHPVersion : string)
    (read_dir : option (list dir_entry)) : outcome (gores templates_err (option configTemplate)) :=
  if valid_url chosen || isValidFilePath w chosen then
    Ret (b ← (if isValidFilePath w chosen
              then match read_file w chosen with Some b => Val b | None => Err ReadErr end
              else match http_get chosen with Some b => Val b | None => Err HttpErr end);
         match yaml_template b with None => Err YamlErr | Some c => Val c end)
  else
    match read_dir with
    | None => Ret (Err ReadErr)
    | Some files => choose w directory rootDirectory chosen minorPHPVersion files
    end.

Definition servicesyaml : string :=
  Join ["";
        "{{ range $service := $.Services -}}";
        "{{ $service.Name }}:";
        "    type: {{ $service.Type }}{{ if $service.Version }}:{{ $service.Version }}{{ end }}";
        "{{- if index $.ServiceDiskSizes $service.Type }}";
        "    disk: {{ index $.ServiceDiskSizes $service.Type }}";
        "{{ end }}"; ""; "{{ end -}}"; ""] newline.
Definition routesyaml : string :=
  let q := String "034" "" in
  q +:+ "https://{all}/" +:+ q +:+ ": { type: upstream, upstream: " +:+ q +:+ "{{.Slug}}:http" +:+ q +:+ " }" +:+ newline
  +:+ q +:+ "http://{all}/" +:+ q +:+ ": { type: redirect, to: " +:+ q +:+ "https://{all}/" +:+ q +:+ " }" +:+ newline.

(** The files to write.  [template.Must] panics on a template that cannot be
    parsed; an extra file does not replace a file of the product. *)
Definition base_templates (product : CloudProduct) (c : configTemplate) (phpini : string) : gmap string string :=
  if bool_decide (product = Flex) then list_to_map [(".upsun/config.yaml", t_Template c); ("php.ini", phpini)]
  else list_to_map [(".platform.app.yaml", t_Template c); (".platform/services.yaml", servicesyaml);
                    (".platform/routes.yaml", routesyaml); ("php.ini", phpini)].
Definition must_parse (templates : gmap string string) : outcome (gmap string string) :=
  if forallb (λ kv, parse_ok kv.2) (map_to_list templates) then Ret templates else Panic.
Definition extra_step (templates : gmap string string) (kv : string * string) : outcome (gmap string string) :=
  match templates !! kv.1 with
  | Some _ => Ret templates
  | None => if parse_ok kv.2 then Ret (<[kv.1 := kv.2]> templates) else Panic
  end.

(** [cache_ok]: whether the templates could be updated or cloned. *)
Definition getTemplates (w : os) (cache_ok : bool) (read_dir : string → option (list dir_entry))
    (product : CloudProduct) (rootDirectory chosen minorPHPVersion : string)
  : outcome (gores templates_err (gmap string string)) :=
  if negb cache_ok then Ret (Err CacheErr) else
  let directory := fjoin [home_dir w; "cache"; "templates"] in
  let directory := if bool_decide (product = Flex) then fjoin [directory; "upsun"] else directory in
  found ← find_template w directory rootDirectory chosen minorPHPVersion (read_dir directory);
  match found with
  | Err e => Ret (Err e)
  | Val None => Ret (Err NoMatchingTemplate)
  | Val (Some c) =>
    match read_file w (fjoin [directory; "php.ini"]) with
    | None => Ret (Err NoPhpIni)
    | Some phpini =>
      templates ← must_parse (base_templates product c phpini);
      templates ← foldM extra_step templates (range (ExtraFiles c));
      Ret (Val templates)
    end
  end.
End templates.

(** ** The files of a project *)

Inductive create_err := TemplatesErr (e : templates_err) | MkdirErr (dir : string) | OpenErr (file : string)
| ExecuteErr (file : string) | CloseErr (file : string).

(** The files written so far, the created ones in order, and what was printed
    in dump mode. *)
Record created := mkCreated { c_files : gmap string string; c_created : list string; c_dumped : list string }.

Section create.
(** [execute text data]: what a template writes and whether it succeeds. *)
Context (execute : string → template_data → string * bool)
        (can_mkdir can_open can_close : string → bool).

(** [_, err := os.Stat(file); err == nil || !os.IsNotExist(err)]: files written
    by an earlier turn count. *)
Definition present (w : os) (files : gmap string string) (file : string) : bool :=
  bool_decide (is_Some (files !! file)) || match stat w file with NotExist => false | _ => true end.

Definition create_step (w : os) (rootDirectory : string) (data : template_data) (dump force : bool)
    (st : created) (kv : string * string) : created * option create_err :=
  let file := fjoin [rootDirectory; kv.1] in
  let '(text, ok) := execute kv.2 data in
  if dump then
    (mkCreated (c_files st) (c_created st) (c_dumped st ++ [text]), if ok then None else Some (ExecuteErr file))
  else if negb force && present w (c_files st) file then (st, None)
  else
    let made := c_created st ++ [file] in
    let dir := Dir file in
    if negb (bool_decide (dir = "")) && negb (can_mkdir dir)
    then (mkCreated (c_files st) made (c_dumped st), Some (MkdirErr dir))
    else if negb (can_open file) then (mkCreated (c_files st) made (c_dumped st), Some (OpenErr file))
    else
      let st := mkCreated (<[file := text]> (c_files st)) made (c_dumped st) in
      (st, if negb ok then Some (ExecuteErr file) else if can_close file then None else Some (CloseErr file)).

Fixpoint create_all (w : os) (rootDirectory : string) (data : template_data) (dump force : bool)
    (st : created) (templates : list (string * string)) : created * option create_err :=
  match templates with
  | [] => (st, None)
  | kv :: templates =>
    match create_step w rootDirectory data dump force st kv with
    | (st, Some e) => (st, Some e)
    | (st, None) => create_all w rootDirectory data dump force st templates
    end
  end.

Definition publicDirectory (w : os) (rootDirectory : string) : string :=
  if is_dir w (fjoin [rootDirectory; "web"]) then "web" else "public".
Definition frontController (w : os) (rootDirectory : string) : string :=
  if exists_ w (fjoin [rootDirectory; publicDirectory w rootDirectory; "app.php"]) then "app.php" else "index.php".

Definition service_exts (endpoint : string) : list string :=
  if bool_decide (endpoint = "postgresql") then ["pdo_pgsql"]
  else if bool_decide (endpoint = "redis") then ["redis"]
  else if bool_decide (endpoint = "rabbitmq") then ["amqp"] else [].
Definition all_extensions (exts : list string) (services : list CloudService) : list string :=
  SortStrings
    (exts ++ ["apcu"; "mbstring"; "sodium"; "xsl"; "blackfire"] ++ (services ≫= λ s, service_exts (Endpoint s))).

Definition make_data (w : os) (rootDirectory slug minorPHPVersion : string) (exts : list string)
    (services : list CloudService) : template_data :=
  mkData slug (frontController w rootDirectory) (publicDirectory w rootDirectory) minorPHPVersion
    (all_extensions exts services) services [("postgresql", "1024")].

(** [getTemplates] and [phpExtensions] are given; [range] orders the templates. *)
Definition createRequiredFilesProject `{!RangeOrder} (w : os)
    (templates : outcome (gores templates_err (gmap string string))) (exts : list string)
    (rootDirectory slug minorPHPVersion : string) (services : list CloudService) (dump force : bool)
  : outcome (created * option create_err) :=
  templates ← templates;
  let st := mkCreated ∅ [] [] in
  match templates with
  | Err e => Ret (st, Some (TemplatesErr e))
  | Val templates =>
    Ret (create_all w rootDirectory (make_data w rootDirectory slug minorPHPVersion exts services)
           dump force st (range templates))
  end.
End create.

(** ** The [new] command ([local_new.go]) *)

Record new_flags := mkNew {
  f_directory : string; f_dir : string; f_version : string; f_full : bool; f_demo : bool;
  f_skeleton : string; f_webapp : bool; f_api : bool; f_book : bool; f_no_git : bool;
  f_upsun : bool; f_cloud : bool; f_service : list string; f_debug : bool; f_php : string }.

Inductive new_err :=
| NoDirectory | DirAccess | NotEmpty (dir : string) | BookVersion | DemoVersion | DemoSkeleton | ApiWebapp
| ServiceWithoutCloud | CloudWithoutGit | BadPhpVersion (v : string) | NoPhpVersion | VersionsErr | EffectErr.

(** What the command does to the outside. *)
Inductive new_effect :=
| BookClone (version dir : string)
| ComposerRun (dir : string) (args : list string)
| WritePhpVersion (dir contents : string)
| GitInit (dir : string) (main : bool)
| GitCommit (dir message : string)
| CloudFiles (product : CloudProduct) (dir minorPHPVersion : string) (services : list CloudService).

Section new.
(** What is known of a directory: [None] when it does not exist, [Some None]
    when it cannot be read, else whether it is empty. *)
Context (dir_state : string → option (option bool)) (abs : string → option string).
(** [BestVersionForDir], [version.NewVersion] and [IsVersionAvailable]. *)
Context (best_version : string → option string) (valid_version available : string → bool).
(** The decoded list of Symfony versions: [None] is an error, the value of a
    key is [None] when it is missing or not a string. *)
Context (all_versions : option (string → option string)).
Context (availableServices : list service) (compose : string → option (list compose_service)).
Context (Getenv_repo : string).

(** [strings.Split(v, ".")[0:2]] *)
Definition minor_version (v : string) : outcome string :=
  match Split v "." with
  | a :: b :: _ => Ret (Join [a; b] ".")
  | _ => Panic
  end.
Definition forcePHPVersion (v dir : string) : outcome (gores new_err string) :=
  if bool_decide (v = "") then
    match best_version dir with
    | None => Ret (Err NoPhpVersion)
    | Some minor => m ← minor_version minor; Ret (Val m)
    end
  else if negb (valid_version v) || negb (available v) then Ret (Err (BadPhpVersion v))
  else m ← minor_version v; Ret (Val m).

Definition getSpecialVersion (version : string) : outcome (gores new_err string) :=
  match all_versions with
  | None => Ret (Err VersionsErr)
  | Some versions =>
    v ← oget (versions version);
    Ret (Val (if bool_decide (version = "next" ∨ version = "dev") then v +:+ ".x@dev" else v))
  end.

(** The package and the type of the project. *)
Definition repo_of (f : new_flags) : string * string :=
  if bool_decide (Getenv_repo ≠ "") then (Getenv_repo, "Symfony")
  else if f_full f then ("symfony/website-skeleton", "Symfony")
  else if f_demo f then ("symfony/symfony-demo", "Symfony")
  else if bool_decide (f_skeleton f = "") then ("symfony/skeleton", "Symfony")
  else if bool_decide (f_skeleton f = "symfony") then ("symfony/skeleton", "Symfony")
  else if bool_decide (f_skeleton f = "sulu") then ("sulu/skeleton", "Sulu")
  else if bool_decide (f_skeleton f = "demo") then ("symfony/symfony-demo", "Symfony Demo")
  else (f_skeleton f, match Split (f_skeleton f) "/" with _ :: p :: _ => p | _ => f_skeleton f end).

Definition special_versions : list string := ["lts"; "previous"; "stable"; "next"; "dev"].
(** [^\d+\.\d+$]; [$] matches at the end only. *)
Definition is_minor (v : string) : bool :=
  let '(major, r) := take_digits v in
  match r with
  | String "." r => let '(minor, r) := take_digits r in
                    negb (bool_decide (major = "")) && negb (bool_decide (minor = "")) && bool_decide (r = "")
  | _ => false
  end.

Definition project_version (f : new_flags) : outcome (gores new_err string) :=
  let version := f_version f in
  r ← (if negb (f_demo f) && negb (bool_decide (version = ""))
          && bool_decide ((repo_of f).2 = "Symfony") && bool_decide (version ∈ special_versions)
       then getSpecialVersion version else Ret (Val version));
  Ret (v ← r; Val (if is_minor v then v +:+ ".*" else v)).

Definition composer_args (f : new_flags) (args : list string) : list string :=
  if f_debug f then args else args ++ ["--no-interaction"].

(** The checks before anything is done, in order: the absolute directory. *)
Definition new_dir (f : new_flags) : gores new_err string :=
  let dir := if bool_decide (f_dir f ≠ "") then f_dir f else f_directory f in
  if bool_decide (dir = "") then Err NoDirectory else
  match dir_state dir with
  | Some None => Err DirAccess
  | Some (Some false) => Err (NotEmpty dir)
  | _ => if IsAbs dir then Val dir else match abs dir with Some d => Val d | None => Err DirAccess end
  end.
Definition withCloud (f : new_flags) : bool := f_cloud f || f_upsun f.
Definition new_conflict (f : new_flags) : option new_err :=
  if negb (bool_decide (f_version f = "")) && f_demo f then Some DemoVersion
  else if f_demo f && negb (bool_decide (f_skeleton f = "symfony")) then Some DemoSkeleton
  else if f_webapp f && f_api f then Some ApiWebapp
  else if negb (bool_decide (f_service f = [])) && negb (withCloud f) then Some ServiceWithoutCloud
  else if withCloud f && f_no_git f then Some CloudWithoutGit
  else None.

Definition product_of (f : new_flags) : CloudProduct := if f_upsun f then Flex else Fixed.

(** The effects after the PHP version is known; the services are parsed when
    their turn comes ([None]: an error). *)
Definition new_plan (f : new_flags) (dir minor version : string) : list (option new_effect) :=
  let git (es : list new_effect) := if f_no_git f then [] else Some <$> es in
  [Some (ComposerRun "" (composer_args f ["create-project"; (repo_of f).1; dir; version]))]
  ++ (if negb (bool_decide (f_php f = "")) && negb (withCloud f)
      then [Some (WritePhpVersion dir (f_php f +:+ newline))] else [])
  ++ git [GitInit dir (withCloud f); GitCommit dir "Add initial set of files"]
  ++ (if f_webapp f then Some (ComposerRun dir (composer_args f ["require"; "webapp"]))
                          :: git [GitCommit dir "Add webapp packages"] else [])
  ++ (if f_api f then [Some (ComposerRun dir (composer_args f ["require"; "api"]))] else [])
  ++ (if withCloud f then
        Some (ComposerRun dir (composer_args f ["require"; "platformsh"]))
        :: git [GitCommit dir "Add more packages"]
        ++ [CloudFiles (product_of f) dir minor <$> parseCloudServices availableServices (compose dir) (f_service f)]
        ++ git [GitCommit dir ("Add " +:+ Name (product_of f) +:+ " configuration")]
      else []).

(** Effects are performed until one fails ([ok]). *)
Fixpoint perform (ok : new_effect → bool) (plan : list (option new_effect)) : list new_effect * bool :=
  match plan with
  | [] => ([], true)
  | None :: _ => ([], false)
  | Some e :: plan => if ok e then let '(es, b) := perform ok plan in (e :: es, b) else ([e], false)
  end.

(** What was done, and the error. *)
Definition new_action (ok : new_effect → bool) (f : new_flags) : outcome (list new_effect * option new_err) :=
  match new_dir f with
  | Err e => Ret ([], Some e)
  | Val dir =>
    if f_book f then
      if bool_decide (f_version f = "") then Ret ([], Some BookVersion)
      else Ret ([BookClone (f_version f) dir], if ok (BookClone (f_version f) dir) then None else Some EffectErr)
    else
      match new_conflict f with
      | Some e => Ret ([], Some e)
      | None =>
        minor ← forcePHPVersion (f_php f) dir;
        match minor with
        | Err e => Ret ([], Some e)
        | Val minor =>
          version ← project_version f;
          match version with
          | Err e => Ret ([], Some e)
          | Val version =>
            let '(done, b) := perform ok (new_plan f dir minor version) in
            Ret (done, if b then None else Some EffectErr)
          end
        end
      end
  end.
End new.

(** ** Files are not overwritten *)

Section create_facts.
Context (execute : string → template_data → string * bool)
        (can_mkdir can_open can_close : string → bool).
Context (w : os) (rootDirectory : string) (data : template_data).
Let step := create_step execute can_mkdir can_open can_close w rootDirectory data.
Let all := create_all execute can_mkdir can_open can_close w rootDirectory data.

(** One turn keeps the state, dumps, fails before the file is opened, or writes
    the file, which was not there without [force]. *)
Inductive turn (dump force : bool) (st : created) (kv : string * string) : created → option create_err → Prop :=
| turn_dump err : dump = true →
    turn dump force st kv (mkCreated (c_files st) (c_created st) (c_dumped st ++ [(execute kv.2 data).1])) err
| turn_skip : dump = false → force = false → present w (c_files st) (fjoin [rootDirectory; kv.1]) = true →
    turn dump force st kv st None
| turn_fail e : dump = false →
    turn dump force st kv
      (mkCreated (c_files st) (c_created st ++ [fjoin [rootDirectory; kv.1]]) (c_dumped st)) (Some e)
| turn_write err : dump = false →
    (force = false → present w (c_files st) (fjoin [rootDirectory; kv.1]) = false) →
    turn dump force st kv
      (mkCreated (<[fjoin [rootDirectory; kv.1] := (execute kv.2 data).1]> (c_files st))
         (c_created st ++ [fjoin [rootDirectory; kv.1]]) (c_dumped st)) err.

Lemma create_step_turn dump force st kv : turn dump force st kv (step dump force st kv).1 (step dump force st kv).2.
Proof.
  unfold step, create_step. destruct (execute kv.2 data) as [text ok] eqn:E.
  replace text with (execute kv.2 data).1 by by rewrite E.
  destruct dump; [by constructor|].
  destruct (negb force && present w (c_files st) (fjoin [rootDirectory; kv.1])) eqn:Ep.
  - apply andb_true_iff in Ep as [Hf Hp]. apply negb_true_iff in Hf. by constructor.
  - destruct (negb (bool_decide (Dir _ = "")) && _); [by constructor|].
    destruct (negb (can_open _)); [by constructor|].
    constructor; [done|]. intros ->. exact Ep.
Qed.

(** What holds of the files at each turn. *)
Record files_ok (force : bool) (templates : list (string * string)) (st : created) : Prop := mkFilesOk {
  fo_new : force = false → ∀ file, is_Some (c_files st !! file) → stat w file = NotExist;
  fo_text : ∀ file text, c_files st !! file = Some text →
    file ∈ c_created st ∧
    ∃ kv, kv ∈ templates ∧ file = fjoin [rootDirectory; kv.1] ∧ text = (execute kv.2 data).1 }.

Lemma turn_files_ok dump force templates st kv st' err :
  kv ∈ templates → turn dump force st kv st' err → files_ok force templates st → files_ok force templates st'.
Proof.
  intros Hkv Ht [Hn Hx]. inversion Ht; subst; [done|done| |].
  - split; [done|]. intros file text Hf. destruct (Hx _ _ Hf) as [? ?]. split; [|done]. set_solver.
  - split; simpl.
    + intros -> file. rewrite lookup_insert_is_Some. intros [<-|[_ ?]]; [|by apply Hn].
      specialize (H0 eq_refl). unfold present in H0. apply orb_false_iff in H0 as [_ H0].
      by destruct (stat w _).
    + intros file text. rewrite lookup_insert_Some. intros [[<- <-]|[_ Hf]]; [split; [set_solver|eauto]|].
      destruct (Hx _ _ Hf) as [? ?]. split; [set_solver|done].
Qed.

Lemma create_all_files_ok dump force templates all_templates st :
  templates ⊆ all_templates → files_ok force all_templates st →
  files_ok force all_templates (all dump force st templates).1.
Proof.
  revert st. induction templates as [|kv templates IH]; intros st Hs Hok; [done|]. cbn.
  pose proof (create_step_turn dump force st kv) as Ht. fold step.
  destruct (step dump force st kv) as [st1 err]. simpl in Ht.
  assert (Hok1 : files_ok force all_templates st1) by (eapply turn_files_ok; [|done..]; set_solver).
  destruct err; [done|]. apply IH; [set_solver|done].
Qed.

Lemma create_all_dump force templates st :
  c_files (all true force st templates).1 = c_files st ∧ c_created (all true force st templates).1 = c_created st.
Proof.
  revert st. induction templates as [|kv templates IH]; intros st; [done|]. cbn.
  pose proof (create_step_turn true force st kv) as Ht. fold step.
  destruct (step true force st kv) as [st1 err]. simpl in Ht.
  assert (H1 : c_files st1 = c_files st ∧ c_created st1 = c_created st) by by inversion Ht.
  destruct H1 as [Hf Hc]. destruct err; [done|]. destruct (IH st1). split; congruence.
Qed.

Lemma create_all_written force templates st st' file :
  all false force st templates = (st', None) →
  is_Some (c_files st !! file) → is_Some (c_files st' !! file).
Proof.
  revert st. induction templates as [|kv templates IH]; intros st Hr Hf; [by injection Hr as <-|]. cbn in Hr.
  pose proof (create_step_turn false force st kv) as Ht. fold step in Hr.
  destruct (step false force st kv) as [st1 err]. simpl in Ht. destruct err; [done|].
  apply (IH st1); [done|]. inversion Ht; subst; try done. simpl. apply lookup_insert_is_Some'. auto.
Qed.

Lemma create_all_complete force templates st st' kv :
  all false force st templates = (st', None) → kv ∈ templates →
  is_Some (c_files st' !! fjoin [rootDirectory; kv.1]) ∨
  force = false ∧ stat w (fjoin [rootDirectory; kv.1]) ≠ NotExist.
Proof.
  revert st. induction templates as [|kv' templates IH]; intros st Hr Hin; [by apply not_elem_of_nil in Hin|].
  cbn in Hr. pose proof (create_step_turn false force st kv') as Ht. fold step in Hr.
  destruct (step false force st kv') as [st1 err]. simpl in Ht. destruct err; [done|].
  apply elem_of_cons in Hin as [->|Hin]; [|by apply (IH st1)].
  inversion Ht; subst; try done.
  - unfold present in *. apply orb_true_iff in H1 as [Hb|Hb].
    + left. apply bool_decide_eq_true_1 in Hb. by eapply create_all_written.
    + right. split; [done|]. by intros Hs; rewrite Hs in Hb.
  - left. eapply create_all_written; [done|]. simpl. by rewrite lookup_insert_eq.
Qed.
End create_facts.

(** C24: creating the files of a project never overwrites a file without
    [force], writes nothing in dump mode, reports every file it wrote (also when
    it fails), writes into each one what its template gives, and, when it
    succeeds, no file of the templates is missing. *)
Theorem createRequiredFilesProject_safe execute can_mkdir can_open can_close (R : RangeOrder)
    w templates exts root slug minor services dump force st err :
  createRequiredFilesProject execute can_mkdir can_open can_close w (Ret (Val templates)) exts
    root slug minor services dump force = Ret (st, err) →
  (dump = true → c_files st = ∅ ∧ c_created st = []) ∧
  (force = false → ∀ file, is_Some (c_files st !! file) → stat w file = NotExist) ∧
  (∀ file text, c_files st !! file = Some text →
     file ∈ c_created st ∧ ∃ path tpl, templates !! path = Some tpl ∧ file = fjoin [root; path] ∧
       text = (execute tpl (make_data w root slug minor exts services)).1) ∧
  (err = None → dump = false → ∀ path, is_Some (templates !! path) →
     is_Some (c_files st !! fjoin [root; path]) ∨ force = false ∧ stat w (fjoin [root; path]) ≠ NotExist).
Proof.
  unfold createRequiredFilesProject. rewrite bind_Ret. intros Hr%Ret_inj.
  set (data := make_data w root slug minor exts services) in *.
  assert (Hin : ∀ kv, kv ∈ range templates ↔ templates !! kv.1 = Some kv.2).
  { intros [k v]. rewrite range_perm. apply elem_of_map_to_list. }
  pose proof (create_all_files_ok execute can_mkdir can_open can_close w root data dump force
                (range templates) (range templates) (mkCreated ∅ [] [])) as Hok.
  rewrite Hr in Hok. destruct Hok as [Hn Hx]; [done| |].
  { split; simpl; [intros _ file; rewrite lookup_empty; by intros []|done]. }
  split_and!.
  - intros ->. pose proof (create_all_dump execute can_mkdir can_open can_close w root data force
      (range templates) (mkCreated ∅ [] [])) as Hd. rewrite Hr in Hd. exact Hd.
  - exact Hn.
  - intros file text Hf. destruct (Hx _ _ Hf) as (? & [k v] & Hkv%Hin & -> & ->). eauto 8.
  - intros -> -> path [tpl Ht].
    exact (create_all_complete execute can_mkdir can_open can_close w root data force _ _ _ (path, tpl) Hr
             (proj2 (Hin (path, tpl)) Ht)).
Qed.

Definition ex_init_os : os := table_os ∅
  (list_to_map [("/p/php.ini", Some "mine"); ("/p/web", None)]) "/p" "/h".
Definition ex_templates : gmap string string := list_to_map [(".platform.app.yaml", "name: {{.Slug}}"); ("php.ini", "x")].

Lemma createRequiredFilesProject_safe_witness :
  ∃ st, createRequiredFilesProject (λ t d, (t +:+ d_Slug d, true)) (λ _, true) (λ _, true) (λ _, true)
          ex_init_os (Ret (Val ex_templates)) [] "/p" "app" "8.3" [] false false = Ret (st, None) ∧
        is_Some (c_files st !! "/p/.platform.app.yaml") ∧ c_files st !! "/p/php.ini" = None.
Proof.
  eexists. split; [vm_compute; reflexivity|]. split; [|vm_compute; reflexivity].
  refine (match proj2 (proj2 (proj2 (createRequiredFilesProject_safe (λ t d, (t +:+ d_Slug d, true))
            (λ _, true) (λ _, true) (λ _, true) _
            ex_init_os ex_templates [] "/p" "app" "8.3" [] false false _ None _))) eq_refl eq_refl ".platform.app.yaml" _
          with or_introl H => H | or_intror H => match proj2 H _ with end end).
  - vm_compute. reflexivity.
  - vm_compute. eauto.
  - vm_compute. reflexivity.
Defined.

(** ** Extensions *)

Definition ext_of (key : string) : option string := if HasPrefix key "ext-" then Some (sdrop 4 key) else None.

Lemma lock_ext_fold exts keys : foldl lock_ext exts keys = exts ++ omap ext_of keys.
Proof.
  revert exts. induction keys as [|k keys IH]; intros exts; cbn; [by rewrite app_nil_r|]. rewrite IH.
  unfold lock_ext, ext_of. destruct (HasPrefix k "ext-"); [|done]. by rewrite <-app_assoc.
Qed.

Lemma ext_of_inj k1 k2 e : ext_of k1 = Some e → ext_of k2 = Some e → k1 = k2.
Proof.
  unfold ext_of. intros H1 H2.
  destruct (HasPrefix k1 "ext-") eqn:E1; [|done]. destruct (HasPrefix k2 "ext-") eqn:E2; [|done].
  apply HasPrefix_spec in E1 as [r1 ->]. apply HasPrefix_spec in E2 as [r2 ->].
  change 4 with (slen "ext-") in H1, H2. rewrite sdrop_app in H1, H2. congruence.
Qed.

Lemma NoDup_ext keys : NoDup keys → NoDup (omap ext_of keys).
Proof.
  induction 1 as [|k keys Hk Hnd IH]; [constructor|]. cbn. destruct (ext_of k) as [e|] eqn:E; [|done].
  constructor; [|done]. rewrite list_elem_of_omap. intros (k' & Hk' & He).
  by rewrite (ext_of_inj _ _ _ E He) in Hk.
Qed.

Lemma add_ext_fold exts keys :
  NoDup exts →
  NoDup (foldl add_ext exts keys) ∧
  ∀ e, e ∈ foldl add_ext exts keys ↔ e ∈ exts ∨ e ∈ omap ext_of keys.
Proof.
  revert exts. induction keys as [|k keys IH]; intros exts Hnd; cbn; [set_solver|].
  assert (Hs : NoDup (add_ext exts k) ∧ ∀ e, e ∈ add_ext exts k ↔ e ∈ exts ∨ ext_of k = Some e).
  { unfold add_ext, ext_of. destruct (HasPrefix k "ext-"); cbn [andb]; [|naive_solver].
    destruct (bool_decide_reflect (sdrop 4 k ∈ exts)) as [Hin|Hin]; cbn [negb].
    - split; [done|]. intros e. split; [auto|]. by intros [?|[= <-]].
    - split; [apply NoDup_app; split_and!; [done|set_solver|apply NoDup_singleton]|].
      intros e. rewrite elem_of_app, list_elem_of_singleton. naive_solver. }
  destruct Hs as [Hnd1 Hs]. destruct (IH _ Hnd1) as [Hnd2 He]. split; [done|]. intros e. rewrite He, Hs.
  destruct (ext_of k); set_solver.
Qed.

(** The keys of the maps that are read. *)
Definition composer_keys (lock : option composerLock) (json : option composerJSON) (k : string) : Prop :=
  (∃ l, lock = Some l ∧ is_Some (l_Platform l !! k)) ∨
  (∃ j, json = Some j ∧ (is_Some (j_Require j !! k) ∨ is_Some (j_RequireDev j !! k))).

Lemma omap_range `{!RangeOrder} (m : gmap string string) e :
  e ∈ omap ext_of (range m).*1 ↔ ∃ k, is_Some (m !! k) ∧ ext_of k = Some e.
Proof.
  rewrite list_elem_of_omap. apply exist_proper. intros k. rewrite list_elem_of_fmap. split.
  - intros (([k' v] & -> & Hin) & He). rewrite range_perm in Hin. apply elem_of_map_to_list in Hin. eauto.
  - intros [[v Hv] He]. split; [|done]. exists (k, v). split; [done|]. rewrite range_perm. by apply elem_of_map_to_list.
Qed.

Lemma NoDup_range `{!RangeOrder} (m : gmap string string) : NoDup (range m).*1.
Proof. rewrite range_perm. apply NoDup_fst_map_to_list. Qed.

Lemma phpExtensions_spec json_lock json_json w (R : RangeOrder) dir :
  NoDup (phpExtensions json_lock json_json w dir) ∧
  ∀ e, e ∈ phpExtensions json_lock json_json w dir ↔
    ∃ k, composer_keys (parseComposerLock json_lock w dir) (parseComposerJSON json_json w dir) k ∧ ext_of k = Some e.
Proof.
  unfold phpExtensions, composer_keys.
  set (exts := match parseComposerLock json_lock w dir with Some lock => _ | None => [] end).
  assert (Hl : NoDup exts ∧ ∀ e, e ∈ exts ↔
    ∃ k, (∃ l, parseComposerLock json_lock w dir = Some l ∧ is_Some (l_Platform l !! k)) ∧ ext_of k = Some e).
  { unfold exts. destruct (parseComposerLock json_lock w dir) as [l|]; [|split; [constructor|set_solver]].
    rewrite lock_ext_fold, app_nil_l. split; [apply NoDup_ext, NoDup_range|]. intros e. rewrite omap_range. naive_solver. }
  clearbody exts. destruct Hl as [Hnd He]. destruct (parseComposerJSON json_json w dir) as [j|].
  - destruct (add_ext_fold exts (range (j_Require j)).*1 Hnd) as [Hnd1 He1].
    destruct (add_ext_fold _ (range (j_RequireDev j)).*1 Hnd1) as [Hnd2 He2]. split; [done|].
    intros e. rewrite He2, He1, He, !omap_range. naive_solver.
  - split; [done|]. intros e. rewrite He. naive_solver.
Qed.

(** The list of PHP extensions of a configuration does not depend on the
    iteration order of Go's maps: the extensions of the Composer files are found
    once each, whatever the order, and the whole list is sorted. *)
Theorem extensions_deterministic json_lock json_json w (R1 R2 : RangeOrder) dir services :
  NoDup (@phpExtensions json_lock json_json w R1 dir) ∧
  all_extensions (@phpExtensions json_lock json_json w R1 dir) services =
  all_extensions (@phpExtensions json_lock json_json w R2 dir) services ∧
  Sorted String.le (all_extensions (@phpExtensions json_lock json_json w R1 dir) services).
Proof.
  destruct (phpExtensions_spec json_lock json_json w R1 dir) as [Hn1 H1].
  destruct (phpExtensions_spec json_lock json_json w R2 dir) as [Hn2 H2].
  split_and!; [done| |apply SortStrings_sorted]. unfold all_extensions.
  apply SortStrings_proper, Permutation_app; [|done].
  apply NoDup_Permutation; [done..|]. intros e. by rewrite H1, H2.
Qed.

(** ** The template that is used *)

Section choice.
Context (json_lock : string → option composerLock) (json_json : string → option composerJSON).
Context (at_least : string → string → option bool) (yaml_template : string → option (option configTemplate)).
Context (w : os) (directory root chosen minor : string).
Let choose_ := choose json_lock json_json at_least yaml_template w directory root chosen minor.
Let matches (c : configTemplate) := Match_ json_lock json_json at_least w root minor (Requirements c).

(** The template in a file, when it is one that is looked for and can be read. *)
Definition candidate (f : dir_entry) : option configTemplate :=
  if bool_decide (en_name f = ".git") || en_isDir f || negb (HasSuffix (en_name f) ".yaml") then None
  else if negb (bool_decide (chosen = "")) && negb (bool_decide (chosen = template_name (en_name f))) then None
  else b ← read_file w (fjoin [directory; en_name f]); c ← yaml_template b; Some (default (mkTemplate [] ∅ "") c).

Lemma choose_cons f files :
  match candidate f with
  | Some c =>
    (chosen ≠ "" ∨ matches c = Ret true) ∧ choose_ (f :: files) = Ret (Val (Some c)) ∨
    chosen = "" ∧ matches c = Ret false ∧ choose_ (f :: files) = choose_ files ∨
    choose_ (f :: files) = Panic
  | None => choose_ (f :: files) = choose_ files ∨ ∃ e, choose_ (f :: files) = Ret (Err e)
  end.
Proof.
  unfold choose_, candidate. cbn [choose]. fold choose_.
  destruct (bool_decide (en_name f = ".git") || en_isDir f || _); [by left|].
  destruct (negb (bool_decide (chosen = "")) && _); [by left|].
  destruct (read_file w _) as [b|]; cbn [mbind option_bind];
    [|destruct (bool_decide (chosen = template_name _)); [right; by eexists|by left]].
  destruct (yaml_template b) as [c|]; cbn [mbind option_bind];
    [|destruct (bool_decide (chosen = template_name _)); [right; by eexists|by left]].
  destruct (bool_decide_reflect (chosen = "")) as [Hc|Hc].
  - fold (matches (default (mkTemplate [] ∅ "") c)).
    destruct (matches (default (mkTemplate [] ∅ "") c)) as [[]|]; cbn [mbind outcome_bind]; auto.
  - rewrite bind_Ret. auto.
Qed.

(** The template is the first of the directory that can be read and whose
    requirements the project meets, or, when a name is given, the first with
    this name, whatever its requirements; no template means that no file of the
    directory qualifies. *)
Theorem choose_first files :
  match choose_ files with
  | Ret (Val (Some c)) =>
    ∃ pre f post, files = pre ++ f :: post ∧ candidate f = Some c ∧ (chosen ≠ "" ∨ matches c = Ret true) ∧
      ∀ g c', g ∈ pre → candidate g = Some c' → chosen = "" ∧ matches c' = Ret false
  | Ret (Val None) => ∀ g c', g ∈ files → candidate g = Some c' → chosen = "" ∧ matches c' = Ret false
  | _ => True
  end.
Proof.
  induction files as [|f files IH]; [by intros g c' ?%not_elem_of_nil|].
  pose proof (choose_cons f files) as Hf. destruct (candidate f) as [c|] eqn:Ec.
  - destruct Hf as [[Hm ->]|[(Hc & Hm & ->)| ->]]; [| |done].
    + exists [], f, files. split_and!; [done|done|done|]. by intros g c' ?%not_elem_of_nil.
    + destruct (choose_ files) as [[[c'|]|]|]; [| |done|done].
      * destruct IH as (pre & f' & post & -> & Hf' & Hm' & Hpre). exists (f :: pre), f', post.
        split_and!; [done|done|done|]. intros g c'' [->|Hg]%elem_of_cons Hgc; [naive_solver congruence|eauto].
      * intros g c'' [->|Hg]%elem_of_cons Hgc; [naive_solver congruence|eauto].
  - destruct Hf as [->|[e ->]]; [|done]. destruct (choose_ files) as [[[c'|]|]|]; [| |done|done].
    + destruct IH as (pre & f' & post & -> & Hf' & Hm' & Hpre). exists (f :: pre), f', post.
      split_and!; [done|done|done|]. intros g c'' [->|Hg]%elem_of_cons Hgc; [congruence|eauto].
    + intros g c'' [->|Hg]%elem_of_cons Hgc; [congruence|eauto].
Qed.
End choice.

(** ** Services of the command line and of the Compose file *)

Section service_facts.
Context (availableServices : list service).
Let last_version := ServiceLastVersion availableServices.

(** The service of a Compose service: that of its first known port. *)
Definition first_type (s : compose_service) : option string := head (omap (port_type (co_Image s)) (co_Ports s)).
Definition service_of (s : compose_service) : option CloudService :=
  type ← first_type s;
  Some (mkService (co_Name s) type (endpoint_of type) (image_version availableServices (co_Image s) type)).

Lemma compose_port_done name image ports acc :
  name ∈ acc.2 → foldl (compose_port availableServices name image) acc ports = acc.
Proof.
  revert acc. induction ports as [|p ports IH]; intros acc Hin; [done|]. cbn.
  assert (Hs : compose_port availableServices name image acc p = acc).
  { unfold compose_port. destruct (port_type image p); [|done]. by rewrite bool_decide_eq_true_2. }
  rewrite Hs. by apply IH.
Qed.

Lemma compose_step_fresh acc s :
  co_Name s ∉ acc.2 →
  compose_step availableServices acc s =
    match service_of s with
    | Some c => (acc.1 ++ [c], acc.2 ++ [co_Name s])
    | None => acc
    end.
Proof.
  intros Hn. unfold compose_step, service_of, first_type.
  induction (co_Ports s) as [|p ports IH]; [done|]. cbn. unfold compose_port at 2.
  destruct (port_type (co_Image s) p) as [type|]; [|exact IH].
  rewrite bool_decide_eq_false_2 by done. apply compose_port_done. simpl. set_solver.
Qed.

Lemma service_of_name s c : service_of s = Some c → cs_Name c = co_Name s.
Proof. unfold service_of. destruct (first_type s); [|done]. cbn. by intros [= <-]. Qed.

Lemma compose_steps services acc :
  NoDup (acc.2 ++ (co_Name <$> services)) →
  (foldl (compose_step availableServices) acc services).1 = acc.1 ++ omap service_of services.
Proof.
  revert acc. induction services as [|s services IH]; intros acc Hnd; [by rewrite app_nil_r|].
  cbn in Hnd |- *. rewrite compose_step_fresh by (apply NoDup_app in Hnd as (_ & Hd & _); intros Hin; apply (Hd _ Hin); by left).
  destruct (service_of s) as [c|].
  - rewrite IH; simpl; [by rewrite <-app_assoc|]. by rewrite <-app_assoc.
  - apply IH. apply NoDup_app in Hnd as (H1 & H2 & H3). apply NoDup_cons in H3 as [_ H3].
    apply NoDup_app. split_and!; [done| |done]. intros x Hx Hx'. apply (H2 x Hx). by right.
Qed.

(** Each service of the Compose file (their names are distinct) gives at
    most one service of the cloud, in order, for the first of its ports that is
    known, with the version of its image when it is not above the last supported
    one; versions are compared as strings, so that PostgreSQL 9.6 is above 18. *)
Theorem parseDockerComposeServices_spec services :
  NoDup (co_Name <$> services) →
  parseDockerComposeServices availableServices (Some services) = omap service_of services ∧
  (∀ image type v, find_version (default "" (last (Split image ":"))) = v → v ≠ "" →
     image_version availableServices image type = if String.ltb (last_version type) v then last_version type else v) ∧
  (last_version "postgresql" = "18" → image_version availableServices "postgres:9.6" "postgresql" = "18").
Proof.
  intros Hnd. split_and!.
  - unfold parseDockerComposeServices. by rewrite compose_steps.
  - intros image type v <- Hv. unfold image_version. by rewrite bool_decide_eq_false_2.
  - intros Hl. unfold image_version. fold last_version. rewrite Hl. reflexivity.
Qed.

(** A service of the command line is a name, a name and a type, or a name, a
    type and a version; anything else is refused.  The version given for
    [redis-persistent] is ignored. *)
Theorem parse_service_forms name type version :
  Forall (λ s, lacks ":" s = true) [name; type; version] →
  parse_service availableServices (Join [name; type; version] ":") =
    Some (mkService name type (endpoint_of type)
            (if bool_decide (type = "redis-persistent") then last_version "redis" else version)) ∧
  parse_service availableServices (Join [name; type] ":") =
    Some (mkService name type (endpoint_of type)
            (last_version (if bool_decide (type = "redis-persistent") then "redis" else type))) ∧
  ∀ rest, parse_service availableServices (Join [name; type; version; rest] ":") = None ∨ lacks ":" rest = false.
Proof.
  intros Hl. unfold parse_service. fold last_version. inversion Hl as [|? ? Hn Hl1]; subst.
  inversion Hl1 as [|? ? Ht Hl2]; subst. split_and!.
  - rewrite Split_Join by done. cbn. unfold SetEndpoint, endpoint_of. cbn.
    destruct (bool_decide_reflect (type = "redis-persistent")) as [->|]; [|done]. reflexivity.
  - rewrite Split_Join by (try done; repeat constructor; done). cbn. unfold SetEndpoint, endpoint_of. cbn.
    destruct (bool_decide_reflect (type = "redis-persistent")) as [->|]; [|done]. reflexivity.
  - intros rest. destruct (lacks ":" rest) eqn:Hr; [left|by right].
    rewrite Split_Join; [done|done|]. repeat (constructor; [done|]). inversion Hl2; subst. by repeat constructor.
Qed.
End service_facts.

Lemma parseDockerComposeServices_spec_witness :
  parseDockerComposeServices [] (Some [mkCompose "db" "postgres:16-alpine" [80; 5432]%Z; mkCompose "web" "nginx" [80]%Z])
  = [mkService "db" "postgresql" "postgresql" ""].
Proof.
  refine (proj1 (parseDockerComposeServices_spec []
    [mkCompose "db" "postgres:16-alpine" [80; 5432]%Z; mkCompose "web" "nginx" [80]%Z] _)).
  apply (bool_decide_unpack (NoDup ["db"; "web"])). exact I.
Defined.

(** ** What [new] does *)

Section new_facts.
Context (dir_state : string → option (option bool)) (abs : string → option string).
Context (best_version : string → option string) (valid_version available : string → bool).
Context (all_versions : option (string → option string)).
Context (availableServices : list service) (compose : string → option (list compose_service)).
Context (Getenv_repo : string).
Let action := new_action dir_state abs best_version valid_version available all_versions
                availableServices compose Getenv_repo.
Let plan := new_plan availableServices compose Getenv_repo.

Definition is_commit (e : new_effect) : bool := match e with GitCommit _ _ => true | _ => false end.

Lemma perform_prefix ok p :
  match perform ok p with
  | (done, true) => p = Some <$> done ∧ Forall (λ e, ok e = true) done
  | (done, false) => ∃ rest, p = (Some <$> done) ++ rest
  end.
Proof.
  induction p as [|[e|] p IH]; cbn; [done| |by eexists].
  destruct (ok e) eqn:Eo; [|by exists p]. destruct (perform ok p) as [done []].
  - destruct IH as [-> Hf]. split; [done|by constructor].
  - destruct IH as [rest ->]. by exists rest.
Qed.

Lemma new_plan_last f dir minor version : f_no_git f = false →
  ∃ e, last (plan f dir minor version) = Some (Some e) ∧ is_commit e = negb (f_api f) || withCloud f.
Proof.
  intros Hg. unfold plan, new_plan. rewrite Hg.
  destruct (_ && _), (f_webapp f), (f_api f), (withCloud f); cbn; eauto.
Qed.

(** [new] validates before it acts: with a missing or non-empty directory, or
    with flags that exclude each other, nothing is done.  Otherwise its effects
    are a prefix of the plan, all of it when there is no error, beginning with
    the creation by Composer; and with Git the last effect is a commit, except
    with [--api] outside the cloud, where what Composer added is not committed. *)
Theorem new_action_spec ok f done err :
  action ok f = Ret (done, err) →
  (∀ e, new_dir dir_state abs f = Err e → done = [] ∧ err = Some e) ∧
  (f_book f = false → is_Some (new_conflict f) → done = [] ∧ is_Some err) ∧
  (f_book f = false → done ≠ [] →
     ∃ dir minor version rest,
       plan f dir minor version = (Some <$> done) ++ rest ∧
       (∃ args, head done = Some (ComposerRun "" args)) ∧
       (err = None → rest = [] ∧
          (f_no_git f = false →
             is_commit <$> last done = Some (negb (f_api f) || withCloud f)))).
Proof.
  unfold action, new_action. intros Ha. destruct (new_dir dir_state abs f) as [dir|e] eqn:Ed.
  2: { apply Ret_inj in Ha. injection Ha as <- <-. split_and!; [naive_solver|naive_solver|done]. }
  split; [done|]. split.
  { intros Hb [e He]. rewrite Hb, He in Ha. apply Ret_inj in Ha. injection Ha as <- <-. eauto. }
  intros Hb Hd. rewrite Hb in Ha. destruct (new_conflict f) as [e|] eqn:Ec.
  { apply Ret_inj in Ha. by injection Ha as <- <-. }
  apply bind_inv in Ha as ([minor|e] & _ & Ha); [|apply Ret_inj in Ha; by injection Ha as <- <-].
  apply bind_inv in Ha as ([version|e] & _ & Ha); [|apply Ret_inj in Ha; by injection Ha as <- <-].
  pose proof (perform_prefix ok (new_plan availableServices compose Getenv_repo f dir minor version)) as Hp.
  destruct (perform _ _) as [es b]. apply Ret_inj in Ha. injection Ha as <- <-.
  exists dir, minor, version. fold plan in Hp |- *.
  assert (Hh : ∀ rest, plan f dir minor version = (Some <$> es) ++ rest → ∃ args, head es = Some (ComposerRun "" args)).
  { intros rest. destruct es as [|e es]; [done|]. intros [= <- _]. eauto. }
  destruct b.
  - destruct Hp as [Hp _]. exists []. rewrite app_nil_r. split_and!; [done|apply (Hh []); by rewrite app_nil_r|].
    intros _. split; [done|]. intros Hg. destruct (new_plan_last f dir minor version Hg) as (e & Hl & <-).
    rewrite Hp, fmap_last in Hl. destruct (last es) as [e'|]; [|done]. by injection Hl as ->.
  - destruct Hp as [rest Hp]. exists rest. split_and!; [done|by apply (Hh rest)|done].
Qed.
End new_facts.

Definition ex_new : new_flags :=
  mkNew "blog" "" "" false false "symfony" false true false false false false [] false "".

Lemma new_action_spec_witness :
  ∃ done, new_action (λ _, None) (λ d, Some ("/w/" +:+ d)) (λ _, Some "8.3.1") (λ _, true) (λ _, true) None
            [] (λ _, None) "" (λ _, true) ex_new = Ret (done, None) ∧
          is_commit <$> last done = Some false.
Proof.
  eexists. split; [vm_compute; reflexivity|].
  refine (match proj2 (proj2 (new_action_spec (λ _, None) (λ d, Some ("/w/" +:+ d)) (λ _, Some "8.3.1")
            (λ _, true) (λ _, true) None [] (λ _, None) "" (λ _, true) ex_new _ None _)) _ _ with
          | ex_intro _ dir (ex_intro _ minor (ex_intro _ version (ex_intro _ rest H))) =>
            proj2 (proj2 (proj2 H) eq_refl) eq_refl end); [vm_compute; reflexivity|reflexivity|discriminate].
Defined.
