(* ===== verification/Humanlog.v ===== *)
(** * Log lines for humans ([humanlog/])

    A line of a log is recognised as a line of PHP, of FPM, of Symfony (Monolog)
    or as a JSON object, and printed in columns, or without time, level and
    source.  The handler remembers the last line to skip the fields that did not
    change.  JSON, [time] and the formatting of floating-point numbers are
    parameters; a quoted string keeps the bytes above ASCII. *)

From stdpp Require Import base tactics option list gmap strings pretty sorting.
From Stdlib Require Import ZArith Lia Ascii.
From S2P Require Import Prelude GoStrings Regexp Envs Dotenv.

Definition dquote : ascii := "034".

(** ** The expressions *)

Definition PHPFPMLogLineRegexp : regex := RCats
  [RStr "["; RPlus true (RChr is_digit); RStr "-"; RPlus true (RChr (not_char "-")); RStr "-";
   RPlus true (RChr is_digit); RStr " "; RPlus true (RChr is_digit); RStr ":"; RPlus true (RChr is_digit); RStr ":";
   RPlus true (RChr (λ c, is_digit c || Ascii.eqb c "."));
   RStr "] WARNING: [pool "; RPlus true (RChr (not_char "]")); RStr "] child "; RPlus true (RChr is_digit);
   RStr " said into std"; RAlt (RStr "err") (RStr "out"); RStr ": "; RChr (is_char dquote);
   RCap 1 (RStar true (RChr any)); RChr (is_char dquote); RStar true (RChr is_space); REnd].

Definition phpLogLineRegexp : regex := RCats
  [RCap 1 (RPlus false (RChr any)); RStr " ("; RPlus true (RChr is_digit); RStr "): [";
   RCap 2 (RPlus false (RChr any)); RStr "] "; RCap 3 (RPlus true (RChr any)); RStar true (RChr is_space); REnd].

Definition fpmLogLineRegexp : regex := RCats
  [RStr "["; RCap 1 (RPlus false (RChr any)); RStr "] ";
   RCap 2 (RAlts (RStr <$> ["DEBUG"; "NOTICE"; "WARNING"; "ERROR"; "ALERT"])); RStr ":";
   RCap 3 (RStar true (RCats [RStar false (RChr (is_char " ")); RStr "PHP "; RPlus false (RChr any); RStr ":"]));
   RStr " "; RCap 4 (RPlus true (RChr any)); RStar true (RChr is_space); REnd].

(** [\d{4}\-\d{2}\-\d{2}] and [\d{2}\:\d{2}\:\d{2}] *)
Definition date_preds : list (ascii → bool) := digits 4 ++ [is_char "-"] ++ digits 2 ++ [is_char "-"] ++ digits 2.
Definition time_preds : list (ascii → bool) := digits 2 ++ [is_char ":"] ++ digits 2 ++ [is_char ":"] ++ digits 2.
Definition plain_date : list (ascii → bool) := date_preds ++ [is_char " "] ++ time_preds.
Definition context_re : regex :=
  RAlt (RCats [RStr "["; RStar false (RChr any); RStr "]"]) (RCats [RStr "{"; RStar false (RChr any); RStr "}"]).
Definition symfonyLogLineRegexp : regex := RCats
  [RStr "[";
   RCap 1 (RAlt (RSeq plain_date)
                (RCats [RSeq (date_preds ++ [is_char "T"] ++ time_preds ++ [is_char "."]);
                        RPlus true (RChr is_digit); RSeq ([is_char "+"] ++ digits 2 ++ [is_char ":"] ++ digits 2)]));
   RStr "] "; RCap 2 (RPlus true (RChr (not_char "."))); RStr "."; RCap 3 (RPlus true (RChr (not_char ":")));
   RStr ": "; RCap 4 (RPlus true (RChr any)); RStr " "; RCap 5 context_re; RStr " "; RCap 6 context_re;
   RStar true (RChr is_space); REnd].

(** ** Values *)

(** [strconv.Quote] *)
Definition hex_digit (n : nat) : ascii := ascii_of_nat (if n <? 10 then 48 + n else 87 + n).
Definition quote_char (c : ascii) : string :=
  if Ascii.eqb c dquote || Ascii.eqb c "\" then String "\" (String c "")
  else if Ascii.eqb c "007" then "\a" else if Ascii.eqb c "008" then "\b" else if Ascii.eqb c "012" then "\f"
  else if Ascii.eqb c "010" then "\n" else if Ascii.eqb c "013" then "\r" else if Ascii.eqb c "009" then "\t"
  else if Ascii.eqb c "011" then "\v"
  else let n := nat_of_ascii c in
       if (n <? 32) || (n =? 127) then "\x" +:+ String (hex_digit (n / 16)) (String (hex_digit (n mod 16)) "")
       else String c "".
Fixpoint quote_body (s : string) : string :=
  match s with EmptyString => "" | String c s => quote_char c +:+ quote_body s end.
Definition quote (s : string) : string := String dquote (quote_body s +:+ String dquote "").

Section humanlog.
(** Times are abstract.  [parse_time]: [time.Parse] of a layout; [fmt_stamp]:
    [Format(time.Stamp)]; [unix]: [time.Unix] of a JSON number; [fmt_g]: [%g];
    [marshal]: [json.Marshal] of what is neither a string nor a number. *)
Context {time : Type} (zero_time : time) (parse_time : string → string → option time)
        (fmt_stamp : time → string) (unix : Z → Z → time)
        (fmt_g : Z → Z → string) (marshal : gval → string).
(** [json.Unmarshal] of an object and of an array. *)
Context (json_object : string → option (gmap string gval)) (json_array : string → option (list gval)).

Record line := mkLine {
  l_level : string; l_time : time; l_source : string; l_message : string; l_fields : gmap string string }.

(** A float64 is [m * 2^e]; [v - math.Floor(v) < 0.000001 && v < 1e9]. *)
Definition small_int (m e : Z) : bool :=
  if bool_decide (0 ≤ e)%Z then bool_decide (m * 2 ^ e < 10 ^ 9)%Z
  else bool_decide ((m mod 2 ^ (- e)) * 10 ^ 6 < 2 ^ (- e) ∧ m < 10 ^ 9 * 2 ^ (- e))%Z.
Definition convertAnyVal (val : gval) : string :=
  match val with
  | VFloat m e => if small_int m e then Itoa (int64_of_float m e) else fmt_g m e
  | VString s => quote s
  | v => marshal v
  end.

(** ** Recognising lines *)

(** [Ret None]: the line is of another kind, [Err]: the date is not a date. *)
Inductive parsed := NoLine | BadLine | Line (l : line).

Definition convertPHPLog (s : string) : parsed :=
  match find_anchored phpLogLineRegexp s with
  | None => NoLine
  | Some g =>
    match parse_time "Mon Jan 2 15:04:05 2006" (group g 1) with
    | None => BadLine
    | Some t => Line (mkLine (ToLower (group g 2)) t "PHP" (group g 3) ∅)
    end
  end.

(** The level that FPM hides in the message. *)
Definition fpm_level (level : string) (sub : string) : string :=
  let sub := TrimPrefix (ToLower (TrimSpace sub)) "php " in
  if bool_decide (sub ∈ ["notice"; "warning"; "error"; "fatal"; "panic"; "critical"; "emergency"]) then sub
  else if bool_decide (sub = "warn") then "warning"
  else if bool_decide (sub = "fatal error") then "fatal" else level.
Definition convertPHPFPMLog (s : string) : parsed :=
  match find_anchored fpmLogLineRegexp s with
  | None => NoLine
  | Some g =>
    let level := ToLower (group g 2) in
    let level := if bool_decide (group g 3 = "") then level else foldl fpm_level level (Split (group g 3) ":") in
    match parse_time "2-Jan-2006 15:04:05" (group g 1) with
    | None => BadLine
    | Some t => Line (mkLine level t "FPM" (group g 4) ∅)
    end
  end.

(** The fields of a context: an object, or an array with its indices as names. *)
Definition context_args (m : string) : option (gmap string gval) :=
  match m with
  | String "[" _ => values ← json_array m;
                    Some (list_to_map (imap (λ i v, (Itoa (Z.of_nat i), v)) values))
  | _ => json_object m
  end.
Definition context_fields (m : string) : gmap string string :=
  match context_args m with
  | None => ∅
  | Some args => convertAnyVal <$> delete "exception" args
  end.

Definition exception_mark : string := " {" +:+ String dquote ("exception" +:+ String dquote ":").
Definition cut_exception (message : string) : string :=
  match Index message exception_mark with Some i => stake i message | None => message end.

Definition convertSymfonyLog (s : string) : parsed :=
  match find_anchored symfonyLogLineRegexp s with
  | None => NoLine
  | Some g =>
    match (match parse_time "2006-01-02 15:04:05" (group g 1) with
           | Some t => Some t
           | None => parse_time "2006-01-02T15:04:05.999999999Z07:00" (group g 1)
           end) with
    | None => BadLine
    | Some t =>
      Line (mkLine (ToLower (group g 3)) t (group g 2) (cut_exception (group g 4))
              (context_fields (group g 6) ∪ context_fields (group g 5)))
    end
  end.

(** [formats]: the layouts of [tryParseTime], in order. *)
Definition formats : list string :=
  ["2006-01-02 15:04:05.999999999 -0700 MST"; "2006-01-2 15:04:05"; "2006-01-2 15:04"; "2006-01-2 15:04:05 -0700";
   "2006-01-2 15:04 -0700"; "2006-01-2 15:04:05 -07:00"; "2006-01-2 15:04 -07:00"; "2006-01-2 15:04:05 MST";
   "2006-01-2 15:04 MST"; "2006-01-02T15:04:05Z07:00"; "2006-01-02T15:04:05.999999999-0700";
   "2006-01-02T15:04:05.999999999Z07:00"; "02 Jan 06 15:04 MST"; "02 Jan 06 15:04 -0700";
   "Monday, 02-Jan-06 15:04:05 MST"; "Mon, 02 Jan 2006 15:04:05 MST"; "Mon, 02 Jan 2006 15:04:05 -0700";
   "Mon Jan _2 15:04:05 MST 2006"; "Mon Jan 02 15:04:05 -0700 2006"; "Mon Jan _2 15:04:05 2006"; "3:04PM";
   "Jan _2 15:04:05"; "Jan _2 15:04:05.000"; "Jan _2 15:04:05.000000"; "Jan _2 15:04:05.000000000"].
Definition tryParseTime (value : string) : option time := head (omap (λ layout, parse_time layout value) formats).

Definition str_field (raw : gmap string gval) (k : string) : option string := raw !! k ≫= asStringOk.

(** The time of an object, with the object without it.  A JSON number is a
    float64. *)
Definition json_time (raw : gmap string gval) : option (time * gmap string gval) :=
  match str_field raw "time" with
  | Some s => t ← tryParseTime s; Some (t, delete "time" raw)
  | None =>
    match str_field raw "ts" with
    | Some s => t ← tryParseTime s; Some (t, delete "ts" raw)
    | None =>
      match raw !! "ts" with
      | Some (VFloat m e) => Some (unix m e, delete "ts" raw)
      | _ => Some (zero_time, raw)
      end
    end
  end.
(** [x, ok := raw[k].(string); if ok { delete(raw, k) }] *)
Definition take_str (raw : gmap string gval) (k : string) : option (string * gmap string gval) :=
  s ← str_field raw k; Some (s, delete k raw).

Definition unmarshal (data : string) : parsed :=
  match json_object data with
  | None => BadLine
  | Some raw =>
    match json_time raw with
    | None => BadLine
    | Some (t, raw) =>
      let '(source, raw) := default ("", raw) (take_str raw "source") in
      let '(message, raw) := match take_str raw "msg" with
                             | Some r => r
                             | None => default ("", raw) (take_str raw "message")
                             end in
      let '(level, raw) := match take_str raw "level" with
                           | Some r => r
                           | None => (default "????" (str_field raw "lvl"), delete "lvl" raw)
                           end in
      Line (mkLine level t source message (convertAnyVal <$> raw))
    end
  end.

(** ** Printing lines *)

(** [x[1:len(x)-1]] *)
Definition unquote (s : string) : outcome string := slice s 1 (Z.of_nat (slen s) - 1).
(** [%-4s] *)
Definition pad_right (n : nat) (s : string) : string :=
  s +:+ String.string_of_list_ascii (replicate (n - slen s) " "%char).

Definition tweakHTTPLog (l : line) : outcome line :=
  match l_fields l !! "status", l_fields l !! "method" with
  | Some status, Some method =>
    method ← unquote method;
    '(url, fields) ←
      match bool_decide (method = "GET"), l_fields l !! "scheme", l_fields l !! "host" with
      | true, Some scheme, Some host =>
        scheme ← unquote scheme; host ← unquote host;
        Ret ("<href=" +:+ scheme +:+ "://" +:+ host +:+ l_message l +:+ ">" +:+ l_message l +:+ "</>",
             delete "host" (delete "scheme" (l_fields l)))
      | _, _, _ => Ret (l_message l, l_fields l)
      end;
    Ret (mkLine (l_level l) (l_time l) (l_source l)
           (pad_right 4 method +:+ " (" +:+ status +:+ ") <fg=cyan>" +:+ url +:+ "</>")
           (delete "method" (delete "status" fields)))
  | _, _ => Ret l
  end.

Record Options := mkOptions { SkipUnchanged : bool; WithSource : bool }.

Definition unchanged (opts : Options) (lastLine : option line) (kv : string * string) : bool :=
  SkipUnchanged opts &&
  match lastLine with Some last => bool_decide (l_fields last !! kv.1 = Some kv.2) | None => false end.
Definition field_text (kv : string * string) : string :=
  (if bool_decide (kv.1 ∈ ["err"; "error"; "exception"]) then "<error>" else "<fg=cyan>")
  +:+ kv.1 +:+ "</>=" +:+ kv.2.
(** The fields in the order of the iteration, then sorted. *)
Definition joinKVs `{!RangeOrder} (opts : Options) (lastLine : option line) (l : line) : list string :=
  SortStrings (field_text <$> List.filter (λ kv, negb (unchanged opts lastLine kv)) (range (l_fields l))).

(** The beginning of [Simplify] and [Prettify]: the text of the line and what
    it is; [None]: it is printed as it is. *)
Definition strip (s : string) : string :=
  let s := TrimRight s "010" in
  match find_anchored PHPFPMLogLineRegexp s with Some g => group g 1 | None => s end.
Definition recognise (s : string) : option line :=
  match convertPHPLog s with
  | Line l => Some l
  | _ =>
    match convertPHPFPMLog s with
    | Line l => Some l
    | _ =>
      match convertSymfonyLog s with
      | Line l => Some l
      | BadLine => None
      | NoLine =>
        let key k := String dquote (k +:+ String dquote ":") in
        if negb (Contains s (key "time")) && negb (Contains s (key "ts")) then None
        else match unmarshal s with Line l => Some l | _ => None end
      end
    end
  end.

Definition fields_text `{!RangeOrder} (opts : Options) (lastLine : option line) (l : line) : string :=
  l_message l +:+ " " +:+ Join (joinKVs opts lastLine l) " ".

(** The handler keeps the line as its last line, none when it is not
    recognised. *)
Definition Simplify `{!RangeOrder} (opts : Options) (lastLine : option line) (s : string)
  : outcome (option line * string) :=
  let s := strip s in
  match recognise s with
  | None => Ret (None, s)
  | Some l => l ← tweakHTTPLog l; Ret (Some l, fields_text opts lastLine l)
  end.

Definition level_column (level : string) : string :=
  let lvl := ToUpper level in
  if 7 <? slen lvl then stake 7 lvl else pad_right 7 lvl.
Definition is_warning (level : string) : bool := bool_decide (level ∈ ["notice"; "warn"; "warning"]).
Definition is_error (level : string) : bool :=
  bool_decide (level ∈ ["error"; "fatal"; "panic"; "critical"; "emergency"]).
Definition source_column (source : string) : string :=
  let source := ToUpper (if bool_decide (source = "") then "       " else source) in
  if 6 <? slen source then stake 6 source else pad_right 6 source.

Definition Prettify `{!RangeOrder} (opts : Options) (lastLine : option line) (s : string)
  : outcome (option line * string) :=
  let s := strip s in
  match recognise s with
  | None => Ret (None, s)
  | Some l =>
    l ← tweakHTTPLog l;
    let text :=
      fmt_stamp (l_time l) +:+ " |"
      +:+ (if is_warning (l_level l) then "<warning>" else if is_error (l_level l) then "<error>" else "")
      +:+ level_column (l_level l)
      +:+ (if is_warning (l_level l) || is_error (l_level l) then "</>" else "") +:+ "| "
      +:+ (if WithSource opts then "<comment>" +:+ source_column (l_source l) +:+ "</> " else "")
      +:+ fields_text opts lastLine l in
    let source := if WithSource opts && bool_decide (l_source l = "") then "       " else l_source l in
    Ret (Some (mkLine (l_level l) (l_time l) source (l_message l) (l_fields l)), text)
  end.

(** [humanWriter.Write]: what is written and the result; [write] writes some of
    the bytes, [false] with an error. *)
Definition hw_Write `{!RangeOrder} (write : string → nat * bool) (opts : Options) (lastLine : option line) (p : string)
  : outcome (option line * list string * (nat * bool)) :=
  '(last, text) ← Prettify opts lastLine p;
  let '(n, ok) := write text in
  if negb ok then Ret (last, [text], (n, false)) else
  let '(n, ok) := write newline in
  Ret (last, [text; newline], if ok then (slen p, true) else (n, false)).
End humanlog.

(** ** The lines of Symfony are read back *)

(** A context begins with one of two brackets.  It is calm when no space in it is
    followed by such a bracket: the expression takes such a place for the beginning
    of another context. *)
Definition opens (s : string) : bool :=
  match s with String c _ => Ascii.eqb "[" c || Ascii.eqb "{" c | EmptyString => false end.
Definition enters (s : string) : bool :=
  match s with String c s => Ascii.eqb " " c && opens s | EmptyString => false end.
Fixpoint calm (s : string) : bool :=
  match s with EmptyString => true | String c s' => negb (enters s) && calm s' end.
Definition bracketed (o c : ascii) (s : string) : Prop :=
  ∃ b, s = String o (b +:+ String c "") ∧ sforall any b = true ∧ calm b = true.
Definition plain_context (s : string) : Prop := bracketed "[" "]" s ∨ bracketed "{" "}" s.

Lemma calm_suffix d s : calm (d +:+ s) = true → calm s = true.
Proof. induction d as [|c d IH]; [done|]. rewrite sapp_cons. cbn [calm]. intros [_ H]%andb_true_iff. by apply IH. Qed.
Lemma calm_enters s : calm s = true → enters s = false.
Proof. destruct s; [done|]. cbn [calm]. by intros [?%negb_true_iff _]%andb_true_iff. Qed.

(** Closing brackets are no spaces and open nothing. *)
Definition closing (c : ascii) : Prop := c = "]"%char ∨ c = "}"%char.
Lemma enters_closed v c t : closing c → enters v = false → enters (v +:+ String c t) = false.
Proof.
  intros [-> | ->] Hv; destruct v as [|x [|y v]]; rewrite ?sapp_cons, ?sapp_nil_l; cbn in *; try done;
    by rewrite ?andb_false_r.
Qed.

(** A context is looked for in vain where none begins. *)
Lemma context_shut {A} s g (k : string → groups → option A) : opens s = false → rmatch context_re s g k = None.
Proof.
  destruct s as [|c s]; [done|]. cbn [opens]. intros [H1 H2]%orb_false_iff. unfold context_re. cbn [rmatch RCats].
  change (RStr "[") with (RStr (String "[" "")). change (RStr "{") with (RStr (String "{" "")).
  rewrite !rmatch_char. by rewrite H1, H2.
Qed.
Lemma enter_shut {A} n rs s g (k : string → groups → option A) :
  enters s = false → rs ≠ [] → rmatch (RCats (RStr " " :: RCap n context_re :: rs)) s g k = None.
Proof.
  intros Hs Hrs. destruct rs as [|r rs]; [done|]. rewrite rmatch_cats.
  change (RStr " ") with (RStr (String " " "")). rewrite rmatch_char. destruct s as [|c s]; [done|].
  cbn [enters] in Hs. destruct (Ascii.eqb " " c); [|done]. rewrite rmatch_cats, rmatch_cap. by apply context_shut.
Qed.

Lemma rmatch_alt {A} r1 r2 s g (k : string → groups → option A) :
  rmatch (RAlt r1 r2) s g k = match rmatch r1 s g k with Some x => Some x | None => rmatch r2 s g k end.
Proof. done. Qed.

Section context.
Context {A : Type} (o c : ascii).
Implicit Types (k : string → groups → option A).
Let re := RCats [RStr (String o ""); RStar false (RChr any); RStr (String c "")].

(** The first closing bracket after which the rest matches ends the context. *)
Lemma bracketed_some b t g k x :
  sforall any b = true → k t g = Some x → (∀ d v, b = d +:+ String c v → k (v +:+ String c t) g = None) →
  rmatch re (String o (b +:+ String c "") +:+ t) g k = Some x.
Proof.
  intros Hb Hk Hd. unfold re. rewrite rmatch_cats, sapp_cons, rmatch_char, Ascii.eqb_refl.
  rewrite rmatch_cats, rmatch_star_chr, sapp_assoc. apply star_lazy_app; [done|..].
  - rewrite sapp_cons, sapp_nil_l. change (RCats [RStr (String c "")]) with (RStr (String c "")).
    by rewrite rmatch_char, Ascii.eqb_refl.
  - intros v y [d Hv]. change (RCats [RStr (String c "")]) with (RStr (String c "")).
    rewrite sapp_cons, rmatch_char. destruct (Ascii.eqb_spec c y) as [<-|]; [|done].
    rewrite sapp_cons, sapp_nil_l. by apply (Hd d).
Qed.

Lemma bracketed_none b g k :
  k "" g = None → (∀ d v, b = d +:+ String c v → k (v +:+ String c "") g = None) →
  rmatch re (String o (b +:+ String c "")) g k = None.
Proof.
  intros Hk Hd. unfold re. rewrite rmatch_cats, rmatch_char, Ascii.eqb_refl, rmatch_cats, rmatch_star_chr.
  apply star_lazy_none. intros u [d Hu]. change (RCats [RStr (String c "")]) with (RStr (String c "")).
  rewrite rmatch_char. destruct u as [|y u]; [done|]. destruct (Ascii.eqb_spec c y) as [<-|]; [|done].
  revert d Hu Hd. induction b as [|z b IH]; intros d Hu Hd.
  - rewrite sapp_nil_l in Hu. destruct d as [|w d]; [by injection Hu as <-|].
    rewrite sapp_cons in Hu. injection Hu as _ Hu. by destruct d.
  - destruct d as [|w d].
    + rewrite sapp_cons, sapp_nil_l in Hu. injection Hu as -> <-. by apply (Hd "").
    + rewrite !sapp_cons in Hu. injection Hu as -> Hu. apply (IH d Hu). intros d' v ->. by apply (Hd (String w d')).
Qed.
End context.

(** What the continuation after a context has to refuse. *)
Lemma context_some {A} s t g (k : string → groups → option A) x :
  plain_context s → k t g = Some x →
  (∀ v c, closing c → enters v = false → k (v +:+ String c t) g = None) →
  rmatch context_re (s +:+ t) g k = Some x.
Proof.
  intros Hs Hk Hv. unfold context_re. rewrite rmatch_alt.
  destruct Hs as [(b & -> & Hb & Hc)|(b & -> & Hb & Hc)].
  - rewrite (bracketed_some "[" "]" b t g k x); [done..|]. intros d v ->. apply Hv; [by left|].
    apply calm_enters. by apply (calm_suffix (d +:+ "]")); rewrite sapp_assoc.
  - rewrite (bracketed_some "{" "}" b t g k x); [done..|]. intros d v ->. apply Hv; [by right|].
    apply calm_enters. by apply (calm_suffix (d +:+ "}")); rewrite sapp_assoc.
Qed.

Lemma context_none {A} s g (k : string → groups → option A) :
  plain_context s → k "" g = None →
  (∀ v c, closing c → enters v = false → k (v +:+ String c "") g = None) →
  rmatch context_re s g k = None.
Proof.
  intros Hs Hk Hv. unfold context_re. rewrite rmatch_alt.
  destruct Hs as [(b & -> & _ & Hc)|(b & -> & _ & Hc)].
  - rewrite (bracketed_none "[" "]" b g k); [done..|]. intros d v ->. apply Hv; [by left|].
    apply calm_enters. by apply (calm_suffix (d +:+ "]")); rewrite sapp_assoc.
  - rewrite (bracketed_none "{" "}" b g k); [done..|]. intros d v ->. apply Hv; [by right|].
    apply calm_enters. by apply (calm_suffix (d +:+ "}")); rewrite sapp_assoc.
Qed.

(** No suffix of a context looks like the beginning of another one. *)
Lemma context_enters s u t : plain_context s → u ≠ "" → (∃ d, s = d +:+ u) → enters (u +:+ t) = false.
Proof.
  assert (Hgen : ∀ o c, Ascii.eqb " " o = false → closing c → bracketed o c s → u ≠ "" → (∃ d, s = d +:+ u) →
            enters (u +:+ t) = false).
  { intros o c Ho Hc (b & -> & _ & Hb) Hu [d Hd]. destruct d as [|x d].
    - rewrite sapp_nil_l in Hd. subst u. rewrite sapp_cons. cbn [enters]. by rewrite Ho.
    - rewrite sapp_cons in Hd. injection Hd as _ Hd.
      assert (∃ v, u = v +:+ String c "" ∧ enters v = false) as (v & -> & Hv).
      { clear -Hb Hd Hu. revert b Hb Hd. induction d as [|y d IH]; intros b Hb Hd.
        - exists b. split; [done|by apply calm_enters].
        - destruct b as [|z b]; [rewrite sapp_nil_l, sapp_cons in Hd; injection Hd as _ Hd; by destruct d, u|].
          rewrite !sapp_cons in Hd. injection Hd as _ Hd. cbn [calm] in Hb. apply andb_true_iff in Hb as [_ Hb].
          by apply (IH b). }
      rewrite sapp_assoc, sapp_cons. by apply enters_closed. }
  intros [H|H]; [by apply (Hgen "["%char "]"%char); [|left|..]|by apply (Hgen "{"%char "}"%char); [|right|..]].
Qed.

(** What follows the message in the expression. *)
Definition after_first : list regex := [RStr " "; RCap 6 context_re; RStar true (RChr is_space); REnd].
Definition after_message : list regex := RStr " " :: RCap 5 context_re :: after_first.
Definition tail_match (s : string) (g : groups) : option groups :=
  rmatch (RCats after_message) s g (λ _ g, Some g).

Lemma end_closed v c g : closing c →
  rmatch (RCats [RStar true (RChr is_space); REnd]) (v +:+ String c "") g (λ _ g, Some g) = None.
Proof.
  intros Hc. rewrite rmatch_cats, rmatch_star_chr. apply star_greedy_none.
  - intros b x [d ->]. done.
  - by destruct Hc as [-> | ->].
Qed.

Lemma tail_one c2 g : plain_context c2 → tail_match (String " " c2) g = None.
Proof.
  intros H2. unfold tail_match, after_message, after_first. rewrite rmatch_cats, rmatch_char. cbn [Ascii.eqb Bool.eqb].
  rewrite rmatch_cats, rmatch_cap. apply context_none; [done|by apply enter_shut|].
  intros v c Hc Hv. apply enter_shut; [|done]. by apply enters_closed.
Qed.

Lemma tail_two c1 c2 g : plain_context c1 → plain_context c2 →
  tail_match (" " +:+ c1 +:+ " " +:+ c2) g = Some ((6, c2) :: (5, c1) :: g).
Proof.
  intros H1 H2. unfold tail_match, after_message, after_first. rewrite rmatch_cats, rmatch_str, rmatch_cats, rmatch_cap.
  apply context_some; [done| |].
  - rewrite before_app. rewrite rmatch_cats, rmatch_str, rmatch_cats, rmatch_cap.
    rewrite <-(sapp_nil_r c2) at 1. apply context_some; [done| |].
    + rewrite <-(sapp_nil_r c2) at 1. by rewrite before_app.
    + intros v c Hc Hv. by apply end_closed.
  - intros v c Hc Hv. apply enter_shut; [|done]. by apply enters_closed.
Qed.

(** The message is the longest text, and stops before the two contexts. *)
Lemma message_match msg c1 c2 g :
  msg ≠ "" → sforall any msg = true → plain_context c1 → plain_context c2 →
  rmatch (RCap 4 (RPlus true (RChr any))) (msg +:+ " " +:+ c1 +:+ " " +:+ c2) g tail_match =
    Some ((6, c2) :: (5, c1) :: (4, msg) :: g).
Proof.
  intros Hne Ha H1 H2. rewrite rmatch_cap. apply rmatch_plus_app; [done..|].
  set (k := λ s' g', _).
  assert (Hk : ∀ s, enters s = false → k s g = None) by (intros; by apply enter_shut).
  assert (Hc : ∀ c t, plain_context c → star_chr true any t g k = None → star_chr true any (c +:+ t) g k = None).
  { intros c t Hcc Ht. apply star_greedy_none; [|done]. intros b x Hd. by apply Hk, (context_enters c). }
  assert (Hs2 : star_chr true any (" " +:+ c2) g k = None).
  { change (" " +:+ c2) with (String " " c2). cbn [star_chr]. cbn [any negb Ascii.eqb Bool.eqb].
    rewrite <-(sapp_nil_r c2) at 1. rewrite Hc; [by apply tail_one|done|by apply Hk]. }
  change (star_chr true any (" " +:+ (c1 +:+ " " +:+ c2)) g k)
    with (star_chr true any (String " " (c1 +:+ " " +:+ c2)) g k).
  cbn [star_chr]. cbn [any negb Ascii.eqb Bool.eqb]. rewrite Hc by done. unfold k.
  change (String " " (c1 +:+ " " +:+ c2)) with (" " +:+ (c1 +:+ " " +:+ c2)).
  rewrite tail_two, before_app by done. done.
Qed.

(** The two forms of a date: [2018-11-19 12:52:00] and
    [2019-11-13T07:16:50.260544+01:00]. *)
Definition matches (ps : list (ascii → bool)) (s : string) : Prop :=
  Forall2 (λ p c, p c = true) ps (String.list_ascii_of_string s).
Definition symfony_date (d : string) : Prop :=
  matches plain_date d ∨
  ∃ day time frac zone, d = day +:+ "T" +:+ time +:+ "." +:+ frac +:+ "+" +:+ zone ∧
    matches date_preds day ∧ matches time_preds time ∧ frac ≠ "" ∧ sforall is_digit frac = true ∧
    matches (digits 2 ++ [is_char ":"] ++ digits 2) zone.
Definition date_re : regex :=
  RAlt (RSeq plain_date)
       (RCats [RSeq (date_preds ++ [is_char "T"] ++ time_preds ++ [is_char "."]);
               RPlus true (RChr is_digit); RSeq ([is_char "+"] ++ digits 2 ++ [is_char ":"] ++ digits 2)]).

Lemma matches_app ps qs s t : matches ps s → matches qs t → matches (ps ++ qs) (s +:+ t).
Proof.
  unfold matches. revert s. induction ps as [|p ps IH]; intros s Hs Ht.
  - apply Forall2_nil_inv_l in Hs. by destruct s.
  - destruct s as [|c s]; [by apply Forall2_nil_inv_r in Hs|]. apply Forall2_cons in Hs as [Hp Hs].
    rewrite sapp_cons. constructor; [done|by apply IH].
Qed.
Lemma rmatch_seq_refused {A} ps p qs a c s g (k : string → groups → option A) :
  matches ps a → p c = false → rmatch (RSeq (ps ++ p :: qs)) (a +:+ String c s) g k = None.
Proof.
  revert a. induction ps as [|q ps IH]; intros a Ha Hp.
  - apply Forall2_nil_inv_l in Ha. destruct a; [|done]. rewrite sapp_nil_l. cbn [app RSeq rmatch]. by rewrite Hp.
  - destruct a as [|x a]; [by apply Forall2_nil_inv_r in Ha|]. apply Forall2_cons in Ha as [Hq Ha].
    rewrite sapp_cons. cbn [app RSeq rmatch]. rewrite Hq. by apply IH.
Qed.

Lemma date_match {A} d rest g (k : string → groups → option A) x :
  symfony_date d → k rest g = Some x → rmatch date_re (d +:+ rest) g k = Some x.
Proof.
  intros [Hd|(day & time & frac & zone & -> & Hd & Ht & Hne & Hf & Hz)] Hk; unfold date_re; rewrite rmatch_alt.
  - by rewrite (rmatch_seq _ d rest), Hk by done.
  - rewrite !sapp_assoc. set (u := time +:+ _). change plain_date with (date_preds ++ is_char " " :: time_preds).
    change ("T" +:+ u) with (String "T" u) at 1. rewrite (rmatch_seq_refused date_preds) by done.
    subst u. rewrite rmatch_cats.
    replace (day +:+ "T" +:+ time +:+ "." +:+ frac +:+ "+" +:+ zone +:+ rest)
      with ((day +:+ "T" +:+ time +:+ ".") +:+ (frac +:+ "+" +:+ zone +:+ rest)) by (by rewrite !sapp_assoc).
    rewrite rmatch_seq by (repeat apply matches_app; try done; by repeat constructor).
    rewrite rmatch_cats. change ("+" +:+ zone +:+ rest) with (String "+" "" +:+ (zone +:+ rest)).
    apply rmatch_plus_stop; [done..|].
    change (RCats [?r]) with r. rewrite <-sapp_assoc, rmatch_seq; [done|].
    by apply (matches_app [is_char "+"]); [repeat constructor|].
Qed.

(** The parts of the expression before the message. *)
Lemma symfony_groups d ch lvl msg c1 c2 :
  symfony_date d →
  ch ≠ "" → lacks "." ch = true → lvl ≠ "" → lacks ":" lvl = true → msg ≠ "" → sforall any msg = true →
  plain_context c1 → plain_context c2 →
  find_anchored symfonyLogLineRegexp
    ("[" +:+ d +:+ "] " +:+ ch +:+ "." +:+ lvl +:+ ": " +:+ msg +:+ " " +:+ c1 +:+ " " +:+ c2) =
  Some [(6, c2); (5, c1); (4, msg); (3, lvl); (2, ch); (1, d)].
Proof.
  intros Hd Hc Hcl Hl Hll Hm Hml H1 H2. unfold find_anchored, symfonyLogLineRegexp. fold date_re.
  rewrite rmatch_cats, rmatch_str, rmatch_cats, rmatch_cap.
  apply date_match; [done|]. rewrite before_app.
  rewrite rmatch_cats, rmatch_str, rmatch_cats, rmatch_cap.
  apply rmatch_plus_stop; [done|exact Hcl|done|]. rewrite before_app.
  rewrite rmatch_cats, rmatch_str, rmatch_cats, rmatch_cap.
  apply rmatch_plus_stop; [done|exact Hll|done|]. rewrite before_app.
  rewrite rmatch_cats, rmatch_str, rmatch_cats. by apply message_match.
Qed.



(** A space before a bracket in a context, and the rest of the context is taken for
    another one: the message swallows the first context. *)
Example context_swallowed :
  ∃ fields, convertSymfonyLog (λ _ s, Some s) (λ _ _, "") (λ _, "") (λ _, Some ∅) (λ _, Some [])
    "[2017-10-04 00:27:09] app.INFO: Done {a} {b [c] {}} {}" =
  Line (mkLine "info" "2017-10-04 00:27:09" "app" "Done {a} {b [c]" fields).
Proof. eexists. vm_compute. reflexivity. Qed.

(** ** Columns *)

Lemma slen_replicate n c : slen (String.string_of_list_ascii (replicate n c)) = n.
Proof. induction n; simpl; congruence. Qed.

Lemma pad_right_length n s : slen s ≤ n → slen (pad_right n s) = n.
Proof. intros H. unfold pad_right. rewrite slen_app, slen_replicate. lia. Qed.

(** A column of fixed width: cut or filled with spaces. *)
Lemma column_length n s : slen (if n <? slen s then stake n s else pad_right n s) = n.
Proof.
  destruct (Nat.ltb_spec n (slen s)); [rewrite slen_stake; lia|]. by apply pad_right_length.
Qed.

Lemma filter_perm {A} (f : A → bool) l k : l ≡ₚ k → List.filter f l ≡ₚ List.filter f k.
Proof.
  induction 1 as [|x l k _ IH|x y l|l k m _ IH1 _ IH2]; cbn; [done|by destruct (f x); rewrite ?IH| |by rewrite IH1].
  destruct (f x), (f y); try done. constructor.
Qed.

Section printing.
Context {time : Type} (zero_time : time) (parse_time : string → string → option time)
        (fmt_stamp : time → string) (unix : Z → Z → time)
        (fmt_g : Z → Z → string) (marshal : gval → string)
        (json_object : string → option (gmap string gval)) (json_array : string → option (list gval)).
Let recognise_ := recognise zero_time parse_time unix fmt_g marshal json_object json_array.
Let Prettify_ (R : RangeOrder) := Prettify zero_time parse_time fmt_stamp unix fmt_g marshal json_object json_array.

(** A line is printed in columns: its time, seven bytes of level and, when it
    is asked for, six bytes of source, whatever their length in the log, then the
    message and the fields; a line that is not recognised is printed as it is,
    and it panics only when the rewriting of an HTTP line does. *)
Theorem Prettify_columns (R : RangeOrder) opts lastLine s :
  match Prettify_ R opts lastLine s with
  | Ret (None, text) => text = strip s ∧ recognise_ (strip s) = None
  | Ret (Some l, text) =>
    ∃ open level close source,
      text = fmt_stamp (l_time l) +:+ " |" +:+ open +:+ level +:+ close +:+ "| "
             +:+ (if WithSource opts then "<comment>" +:+ source +:+ "</> " else "")
             +:+ fields_text opts lastLine l ∧
      slen level = 7 ∧ slen source = 6 ∧ open ∈ [""; "<warning>"; "<error>"] ∧
      close = (if bool_decide (open = "") then "" else "</>")
  | Panic => ∃ l, recognise_ (strip s) = Some l ∧ tweakHTTPLog l = Panic
  end.
Proof.
  unfold Prettify_, Prettify. fold recognise_. destruct (recognise_ (strip s)) as [l|] eqn:E; [|done].
  destruct (tweakHTTPLog l) as [l'|] eqn:Et; [rewrite bind_Ret|exists l; done].
  exists (if is_warning (l_level l') then "<warning>" else if is_error (l_level l') then "<error>" else ""),
    (level_column (l_level l')),
    (if is_warning (l_level l') || is_error (l_level l') then "</>" else ""), (source_column (l_source l')).
  split_and!.
  - done.
  - apply column_length.
  - apply column_length.
  - destruct (is_warning (l_level l')), (is_error (l_level l')); set_solver.
  - by destruct (is_warning (l_level l')), (is_error (l_level l')).
Qed.

Lemma unchanged_false opts (lastLine : option (line (time := time))) k v :
  unchanged opts lastLine (k, v) = false ↔
  SkipUnchanged opts = false ∨ ∀ last, lastLine = Some last → l_fields last !! k ≠ Some v.
Proof.
  unfold unchanged. destruct (SkipUnchanged opts); cbn [andb]; [|naive_solver].
  destruct lastLine as [last|]; [rewrite bool_decide_eq_false|]; naive_solver.
Qed.

(** The fields are printed in sorted order, so that the text does not depend
    on the iteration order of the map, and they are exactly those that are new
    or changed since the last line, or all of them without that option. *)
Theorem joinKVs_deterministic (R1 R2 : RangeOrder) opts (lastLine : option (line (time := time))) l :
  joinKVs (H := R1) opts lastLine l = joinKVs (H := R2) opts lastLine l ∧
  Sorted String.le (joinKVs (H := R1) opts lastLine l) ∧
  ∀ text, text ∈ joinKVs (H := R1) opts lastLine l ↔
    ∃ k v, l_fields l !! k = Some v ∧ text = field_text (k, v) ∧
           (SkipUnchanged opts = false ∨ ∀ last, lastLine = Some last → l_fields last !! k ≠ Some v).
Proof.
  assert (Hp : ∀ R : RangeOrder,
    field_text <$> List.filter (λ kv, negb (unchanged opts lastLine kv)) (range (l_fields l)) ≡ₚ
    field_text <$> List.filter (λ kv, negb (unchanged opts lastLine kv)) (map_to_list (l_fields l))).
  { intros R. apply fmap_Permutation, filter_perm, range_perm. }
  unfold joinKVs. rewrite (Hp R1), (Hp R2). split_and!; [done|apply SortStrings_sorted|].
  intros text. rewrite SortStrings_perm, (Hp R1), list_elem_of_fmap. split.
  - intros ([k v] & -> & Hin). apply list_elem_of_In, List.filter_In in Hin as [Hin%list_elem_of_In%elem_of_map_to_list Hu]. exists k, v. split_and!; [done|done|]. by apply unchanged_false, negb_true_iff.
  - intros (k & v & Hk & -> & Hu). exists (k, v). split; [done|].
    apply list_elem_of_In, List.filter_In. split; [by apply list_elem_of_In, elem_of_map_to_list|].
    by apply negb_true_iff, unchanged_false.
Qed.
End printing.

(** ** HTTP lines *)

Lemma unquote_quote s : unquote (quote s) = Ret (quote_body s).
Proof.
  unfold unquote, quote, slice. set (b := quote_body s).
  assert (Hl : slen (String dquote (b +:+ String dquote "")) = S (S (slen b))).
  { cbn [String.length]. rewrite slen_app. simpl. lia. }
  rewrite Hl. rewrite bool_decide_eq_true_2 by lia. f_equal.
  replace (Z.to_nat (Z.of_nat (S (S (slen b))) - 1 - 1)) with (slen b) by lia.
  cbn [Z.to_nat Pos.to_nat]. change (Pos.to_nat 1) with 1. cbn [sdrop]. apply stake_app.
Qed.

Definition http_keys : list string := ["status"; "method"; "scheme"; "host"].
(** The fields that are unquoted come from JSON strings. *)
Definition http_quoted {time} (l : line (time := time)) : Prop :=
  ∀ k v, k ∈ ["method"; "scheme"; "host"] → l_fields l !! k = Some v → ∃ x, v = quote x.

Lemma unquote_short s : slen s < 2 → unquote s = Panic.
Proof. intros H. unfold unquote, slice. rewrite bool_decide_eq_false_2; [done|]. lia. Qed.

(** An HTTP line is rewritten without panicking when its method, scheme and
    host are strings in the log: status and method leave the fields and the
    fields that have nothing to do with HTTP are kept; a method that is a number
    of one digit, or any other value of one byte, makes it panic. *)
Theorem tweakHTTPLog_spec {time} (l : line (time := time)) :
  (http_quoted l →
     ∃ l', tweakHTTPLog l = Ret l' ∧
       (∀ k, k ∉ http_keys → l_fields l' !! k = l_fields l !! k) ∧
       (is_Some (l_fields l !! "status") → is_Some (l_fields l !! "method") →
          l_fields l' !! "status" = None ∧ l_fields l' !! "method" = None)) ∧
  (∀ status method, l_fields l !! "status" = Some status → l_fields l !! "method" = Some method →
     slen method < 2 → tweakHTTPLog l = Panic).
Proof.
  assert (Hne : ∀ k (m : gmap string string) x, k ∉ http_keys → x ∈ http_keys → delete x m !! k = m !! k).
  { intros k m x Hk Hx. apply lookup_delete_ne. by intros ->. }
  split.
  - intros Hq. unfold tweakHTTPLog.
    destruct (l_fields l !! "status") as [status|] eqn:Es; [|exists l; by rewrite Es].
    destruct (l_fields l !! "method") as [method|] eqn:Em; [|exists l; rewrite Es, Em; by split_and!].
    destruct (Hq "method" method ltac:(set_solver) Em) as [m ->]. rewrite unquote_quote, bind_Ret.
    assert (Hdone : ∀ url fields, (∀ k, k ∉ http_keys → fields !! k = l_fields l !! k) →
      ∃ l', Ret (mkLine (l_level l) (l_time l) (l_source l)
           (pad_right 4 (quote_body m) +:+ " (" +:+ status +:+ ") <fg=cyan>" +:+ url +:+ "</>")
           (delete "method" (delete "status" fields))) = Ret l' ∧
       (∀ k, k ∉ http_keys → l_fields l' !! k = l_fields l !! k) ∧
       (is_Some (Some status) → is_Some (Some (quote m)) →
          l_fields l' !! "status" = None ∧ l_fields l' !! "method" = None)).
    { intros url fields Hf. eexists. split; [reflexivity|]. cbn [l_fields]. split.
      - intros k Hk. rewrite !Hne by (done || set_solver). by apply Hf.
      - intros _ _. rewrite lookup_delete_eq, lookup_delete_ne, lookup_delete_eq by done. done. }
    destruct (bool_decide (quote_body m = "GET")); [|rewrite bind_Ret; by apply Hdone].
    destruct (l_fields l !! "scheme") as [scheme|] eqn:Esc; [|rewrite bind_Ret; by apply Hdone].
    destruct (l_fields l !! "host") as [host|] eqn:Eh; [|rewrite bind_Ret; by apply Hdone].
    destruct (Hq "scheme" scheme ltac:(set_solver) Esc) as [sc ->].
    destruct (Hq "host" host ltac:(set_solver) Eh) as [ho ->].
    rewrite !unquote_quote, !bind_Ret. apply Hdone. intros k Hk. by rewrite !Hne by (done || set_solver).
  - intros status method Es Em Hl. unfold tweakHTTPLog. by rewrite Es, Em, unquote_short.
Qed.

Definition ex_http_line : line (time := Z) :=
  mkLine "info" 0%Z "" "/blog" (list_to_map [("status", "200"); ("method", "5"); ("ip", quote "::1")]).

Lemma tweakHTTPLog_spec_witness : tweakHTTPLog ex_http_line = Panic.
Proof.
  refine (proj2 (tweakHTTPLog_spec ex_http_line) "200" "5" _ _ _); [vm_compute; reflexivity..|simpl; lia].
Defined.
