(* ===== verification/Updater.v ===== *)
(** * Looking for a new version ([updater/updater.go])

    Each run of the CLI may look for a new version.  Two files in the cache
    directory limit the network traffic: the manifest of the last release, used
    for one hour, and [silence], whose modification time stops the check for a
    day.  Times are seconds.  The network, [go-version] and JSON are parameters;
    the HTTP cache below the client and the messages are not modelled. *)

From stdpp Require Import base tactics option list gmap strings pretty.
From Stdlib Require Import ZArith Lia Ascii.
From S2P Require Import Prelude GoStrings Http.
Local Open Scope Z_scope.

Definition hour : Z := 3600.
Definition day : Z := 24 * hour.

(** The modification time of [silence]; the manifest with its modification
    time. *)
Record cache := mkCache { k_silence : option Z; k_manifest : option (Z * string) }.

(** What [os.Stat] says of the cache directory. *)
Inductive dir_stat := DirMissing | DirError | DirIsFile | DirOk.
Definition createCacheDir (d : dir_stat) (mkdir_ok : bool) : bool :=
  match d with DirMissing => mkdir_ok | DirError => false | DirIsFile => false | DirOk => true end.

Section updater.
Context {ver : Type} (new_version : string → option ver) (greater : ver → ver → bool)
        (manifest_name : string → option string).

(** What a check gives: the cache, whether the network was used, whether the
    time-out is multiplied by four, the new version. *)
Record check_result := mkResult {
  r_cache : cache; r_requested : bool; r_increase : bool; r_version : option ver }.

Definition silenced (enableCache : bool) (c : cache) (now : Z) : bool :=
  enableCache && match k_silence c with Some t => bool_decide (now - t < day) | None => false end.
(** The manifest from the cache, and whether the time-out is increased. *)
Definition cached_manifest (enableCache : bool) (c : cache) (now : Z) : option string * bool :=
  match k_manifest c with
  | Some (t, body) =>
    if enableCache then
      if bool_decide (now - t < hour) then (Some body, false) else (None, bool_decide (now - t > 7 * day))
    else (None, false)
  | None => (None, true)
  end.

Definition latest (currentVersion : ver) (body : string) : option ver :=
  name ← manifest_name body; v ← new_version name; if greater v currentVersion then Some v else None.

(** [net]: the body of a successful answer of the network. *)
Definition check (d : dir_stat) (mkdir_ok write_ok : bool) (net : option string) (now : Z)
    (currentVersion : ver) (enableCache : bool) (c : cache) : check_result :=
  if negb (createCacheDir d mkdir_ok) then mkResult c false false None
  else if silenced enableCache c now then mkResult c false false None
  else
    let '(manifestBody, increase) := cached_manifest enableCache c now in
    match manifestBody with
    | Some body => mkResult c false increase (latest currentVersion body)
    | None =>
      match net with
      | None => mkResult c true increase None
      | Some body =>
        if write_ok then mkResult (mkCache (k_silence c) (Some (now, body))) true increase (latest currentVersion body)
        else mkResult c true increase None
      end
    end.

(** [silence]: opening the file with [O_TRUNC] renews its modification time. *)
Definition silence (open_ok : bool) (now : Z) (c : cache) : cache :=
  if open_ok then mkCache (Some now) (k_manifest c) else c.

(** One run: [in_time] says that the answer of the check came before the
    time-out.  The result is the version that is announced. *)
Definition CheckForNewVersion (gorun : bool) (d : dir_stat) (mkdir_ok write_ok open_ok in_time : bool)
    (net : option string) (now : Z) (currentVersionStr : string) (c : cache)
  : cache * bool * option ver :=
  if gorun then (c, false, None) else
  match new_version currentVersionStr with
  | None => (c, false, None)
  | Some currentVersion =>
    let r := check d mkdir_ok write_ok net now currentVersion true c in
    if in_time then (silence open_ok now (r_cache r), r_requested r, r_version r)
    else (r_cache r, r_requested r, None)
  end.

(** [cacheInnerTransport.RoundTrip]: the headers of an answer that must not be
    cached. *)
Definition cache_headers (status : Z) (h : gmap string string) : gmap string string :=
  if bool_decide (status < 200 ∨ 400 ≤ status) then
    <["cache-control" := "no-cache"]>
      (delete "last-modified" (delete "etag" (delete "expires" (delete "date" h))))
  else h.

(** ** What is announced, and when the network is used *)

Lemma latest_greater cur body v : latest cur body = Some v → greater v cur = true.
Proof.
  unfold latest. destruct (manifest_name body) as [name|]; simpl; [|done].
  destruct (new_version name) as [v'|]; simpl; [|done]. destruct (greater v' cur) eqn:E; [|done]. by intros [= <-].
Qed.

Lemma check_version d mkdir_ok write_ok net now cur en c v :
  r_version (check d mkdir_ok write_ok net now cur en c) = Some v → greater v cur = true.
Proof.
  unfold check. destruct (negb _); [done|]. destruct (silenced en c now); [done|].
  destruct (cached_manifest en c now) as [[body|] inc]; simpl; [apply latest_greater|].
  destruct net as [body|]; [|done]. destruct write_ok; [|done]. apply latest_greater.
Qed.

(** A version is announced only when it is above the running one, and the
    network is used only without a fresh manifest and outside the silence. *)
Theorem CheckForNewVersion_sound gorun d mkdir_ok write_ok open_ok in_time net now s c :
  let '(c', requested, v) := CheckForNewVersion gorun d mkdir_ok write_ok open_ok in_time net now s c in
  (∀ v', v = Some v' → ∃ cur, new_version s = Some cur ∧ greater v' cur = true) ∧
  (requested = true →
     (∀ t, k_silence c = Some t → day ≤ now - t) ∧ (∀ t body, k_manifest c = Some (t, body) → hour ≤ now - t)).
Proof.
  unfold CheckForNewVersion. destruct gorun; [done|]. destruct (new_version s) as [cur|]; [|done].
  set (r := check _ _ _ _ _ _ _ _).
  assert (Hv : ∀ v', r_version r = Some v' → ∃ cur', Some cur = Some cur' ∧ greater v' cur' = true).
  { intros v' H. exists cur. split; [done|]. by eapply check_version. }
  assert (Hr : r_requested r = true →
     (∀ t, k_silence c = Some t → day ≤ now - t) ∧ (∀ t body, k_manifest c = Some (t, body) → hour ≤ now - t)).
  { unfold r, check. destruct (negb _); [done|]. unfold silenced, cached_manifest. cbn [andb].
    destruct (k_silence c) as [t|]; [case_bool_decide; [done|]|];
      destruct (k_manifest c) as [[t' body]|]; repeat case_bool_decide; try done; intros _; split; intros; simplify_eq; lia. }
  destruct in_time; split; done.
Qed.

(** A sequence of runs, each [gap] seconds after the one before. *)
Record run_env := mkRun { ru_gap : Z; ru_net : option string; ru_write : bool; ru_open : bool }.
Fixpoint runs (s : string) (now : Z) (c : cache) (l : list run_env) : list (bool * option ver) :=
  match l with
  | [] => []
  | e :: l =>
    let now := now + ru_gap e in
    let '(c, requested, v) := CheckForNewVersion false DirOk true (ru_write e) (ru_open e) true (ru_net e) now s c in
    (requested, v) :: runs s now c l
  end.

Lemma runs_no_version s now c l :
  new_version s = None → Forall (λ r, r = (false, None)) (runs s now c l).
Proof.
  intros Ev. revert now c. induction l as [|e l IH]; intros now c; [constructor|]. cbn [runs].
  unfold CheckForNewVersion. rewrite Ev. constructor; [done|apply IH].
Qed.

(** The silence is renewed by every run whose check answers in time, also by
    those that it silences: once it is set, a user who runs the CLI at least once
    a day is never told of a new version and the network is never asked, however
    long this lasts. *)
Theorem silence_renewed s now c l :
  k_silence c = Some now → Forall (λ e, 0 ≤ ru_gap e < day ∧ ru_open e = true) l →
  Forall (λ r, r = (false, None)) (runs s now c l).
Proof.
  revert now c. induction l as [|e l IH]; intros now c Hs Hl; [constructor|].
  apply Forall_cons in Hl as [[Hg Ho] Hl]. cbn [runs]. unfold CheckForNewVersion.
  destruct (new_version s) as [cur|] eqn:Ev.
  - assert (Hc : check DirOk true (ru_write e) (ru_net e) (now + ru_gap e) cur true c = mkResult c false false None).
    { unfold check, silenced. rewrite Hs. cbn [createCacheDir negb andb].
      by rewrite bool_decide_eq_true_2 by lia. }
    rewrite Hc. cbn [r_cache r_requested r_version]. constructor; [done|]. apply IH; [|done].
    unfold silence. by rewrite Ho.
  - constructor; [done|]. by apply runs_no_version.
Qed.
End updater.

Lemma silence_renewed_witness :
  Forall (λ r, r = (false, None))
    (runs (λ s, Some (slen s)) (λ a b, (b <? a)%nat) (λ s, Some s) "x" 1000 (mkCache (Some 1000) None)
       [mkRun 86000 (Some "xxx") true true; mkRun 86399 (Some "xxxx") true true]).
Proof.
  apply (silence_renewed (λ s, Some (slen s)) (λ a b, (b <? a)%nat) (λ s, Some s)); [reflexivity|].
  repeat (apply Forall_cons; split; [split; [split; [discriminate|reflexivity]|reflexivity]|]). constructor.
Defined.
