(* ===== verification/UpsunCli.v ===== *)
(** * The cloud CLI and the applications of a project
    ([local/upsun/installer.go], [cli.go], [applications.go])

    [Install] keeps the program of the cloud up to date: a file beside it says
    which version it is and when a newer one was last looked for.  Commands are
    passed on to it.  The applications of a project are found by walking its
    directories.  Times are seconds; the network, archives, JSON and YAML are
    parameters; a directory tree is given with its entries in the order of
    [filepath.Walk]. *)

From stdpp Require Import base tactics option list gmap strings pretty sorting.
From Stdlib Require Import ZArith Lia Ascii.
From S2P Require Import Prelude GoStrings FilePath Os Upsun.

(** ** Installing ([installer.go]) *)

Record githubAsset := mkAsset { a_Name : string; a_URL : string; a_version : string }.
Record versionCheck := mkCheck { CurrentVersion : string; Timestamp : Z }.
(** The file with the version: [None] is missing, [Some None] is not JSON. *)
Record installed := mkInstalled { i_bin : option string; i_check : option (option versionCheck) }.

Definition loadVersionCheck (st : installed) : installed * option versionCheck :=
  match i_check st with
  | None => (st, None)
  | Some None => (mkInstalled (i_bin st) None, None)
  | Some (Some v) => (st, Some v)
  end.
Definition store_check (write_ok : bool) (now : Z) (version : string) (st : installed) : installed :=
  if write_ok then mkInstalled (i_bin st) (Some (Some (mkCheck version now))) else st.

(** The asset for the machine. *)
Definition suitable (product : CloudProduct) (family arch : string) (a : githubAsset) : bool :=
  (HasSuffix (a_Name a) ".gz" || HasSuffix (a_Name a) ".zip") && Contains (a_Name a) (BinName product) &&
  (Contains (a_Name a) arch && Contains (a_Name a) family || Contains (a_Name a) "all" && bool_decide (family = "darwin")).
(** [release]: the name and the assets of the latest release, [None] when it
    cannot be read. *)
Definition getLatestVersion (product : CloudProduct) (family arch : string)
    (release : option (string * list githubAsset)) : option githubAsset :=
  '(name, assets) ← release; a ← List.find (suitable product family arch) assets;
  Some (mkAsset (a_Name a) (a_URL a) name).

(** An entry of the archive: its name, whether it is a regular file, contents. *)
Record tar_entry := mkTar { t_Name : string; t_regular : bool; t_contents : string }.
Inductive extract_err := HttpErr | GzipErr | TarErr | WriteErr.

(** Writing over a file that is opened without [O_TRUNC]. *)
Definition overwrite (old new : string) : string := new +:+ sdrop (slen new) old.

(** The loop over the archive: the entries up to an error of the reader
    ([broken]); the end of the archive is not an error.  [copied] says at which
    turn the goroutine that copies the download has ended without an error, and
    that the loop then takes its result. *)
Fixpoint extract (binName : string) (write_ok broken : bool) (copied : option nat) (st : installed)
    (l : list tar_entry) : installed * option extract_err :=
  match copied, l with
  | Some O, _ => (st, None)
  | _, [] => (st, if broken then Some TarErr else None)
  | _, e :: l =>
    if negb (t_regular e) || negb (bool_decide (t_Name e = binName))
    then extract binName write_ok broken (pred <$> copied) st l
    else if write_ok
    then (mkInstalled (Some (overwrite (default "" (i_bin st)) (t_contents e))) (i_check st), None)
    else (st, Some WriteErr)
  end.

Record download := mkDownload {
  d_archive : option (list tar_entry); d_broken : bool; d_copied : option nat; d_write_ok : bool }.
(** [d_archive]: [None] when the request or the decompression fails. *)
Definition downloadAndExtract (product : CloudProduct) (d : download) (st : installed)
  : installed * option extract_err :=
  match d_archive d with
  | None => (st, Some HttpErr)
  | Some l => extract (BinName product) (d_write_ok d) (d_broken d) (d_copied d) st l
  end.

Inductive install_res := Installed | InstallErr.
Inductive request := AskLatest | AskDownload.

(** The part after the label [download]. *)
Definition install_download (product : CloudProduct) (now : Z) (asset : option githubAsset) (d : download)
    (store_ok : bool) (binExists : bool) (st : installed) : installed * list request * install_res :=
  match asset with
  | None => (st, [AskLatest], if binExists then Installed else InstallErr)
  | Some a =>
    match downloadAndExtract product d st with
    | (st, Some _) => (st, [AskLatest; AskDownload], InstallErr)
    | (st, None) =>
      let st := store_check store_ok now (a_version a) st in
      (st, [AskLatest; AskDownload], if store_ok then Installed else InstallErr)
    end
  end.

(** [latest1] and [latest2] are the answers to the two questions for the latest
    version; the result of the first [store] is ignored. *)
Definition Install (product : CloudProduct) (now : Z) (latest1 latest2 : option githubAsset) (d : download)
    (store1_ok store_ok : bool) (st : installed) : installed * list request * install_res :=
  match i_bin st with
  | None => install_download product now latest1 d store_ok false st
  | Some _ =>
    match loadVersionCheck st with
    | (st, None) => install_download product now latest1 d store_ok true st
    | (st, Some v) =>
      if bool_decide (now - 86400 < Timestamp v)%Z then (st, [], Installed) else
      let st := store_check store1_ok now (CurrentVersion v) st in
      if match latest1 with Some a => bool_decide (a_version a = CurrentVersion v) | None => false end
      then (st, [AskLatest], Installed)
      else let '(st, rs, r) := install_download product now latest2 d store_ok true st in (st, AskLatest :: rs, r)
    end
  end.

(** ** Passing commands on ([cli.go]) *)

(** The arguments of the cloud program; [args] is not empty. *)
Definition executor_args (args : list string) : outcome (list string) :=
  match args with
  | [] => Panic
  | a :: args => Ret (TrimPrefix (TrimPrefix a "upsun:") "cloud:" :: args)
  end.
Definition executor_env (w : os) (product : CloudProduct) : list string :=
  let prefix := CLIPrefix product in
  [prefix +:+ "APPLICATION_NAME=" +:+ Name product +:+ " CLI for Symfony";
   prefix +:+ "APPLICATION_EXECUTABLE=symfony"; "XDEBUG_MODE=off"; prefix +:+ "WRAPPED=1"]
  ++ (if InCloud w then [prefix +:+ "UPDATES_CHECK=0"] else []).
(** The first argument that is the name the user typed becomes the command. *)
Fixpoint rename_arg (userName commandName : string) (args : list string) : list string :=
  match args with
  | [] => []
  | a :: args => if bool_decide (a = userName) then commandName :: args else a :: rename_arg userName commandName args
  end.
Definition proxied_name (category name : string) : string := TrimPrefix (category +:+ ":" +:+ name) "cloud:".
(** [proxyPSHCmd]: [None] when a hook refuses. *)
Definition proxy_args (hook_ok : bool) (userName commandName : string) (args : list string) : option (outcome (list string)) :=
  if hook_ok then Some (executor_args (rename_arg userName commandName args)) else None.

(** ** Applications ([applications.go]) *)

Definition skippedDirectories : list string :=
  [".git"; "vendor"; "node_modules"; "bundles"; "cache"; "config"; "public"; "tests"; "templates"; "assets";
   "images"; "fonts"; "js"; "src"; "var"; "web"].
Definition is_skipped (name : string) : bool := bool_decide (name ∈ skippedDirectories).
Definition is_config (name : string) : bool := bool_decide (name = "applications.yaml" ∨ name = ".platform.app.yaml").

Inductive node := NFile | NDir (entries : list (string * node)).

(** [filepath.Walk] with the function of [findAppConfigFiles]. *)
Fixpoint walk (rootDirectoryLen : nat) (path name : string) (n : node) : list string :=
  match n with
  | NFile => if is_config name then [path] else []
  | NDir entries =>
    let children := entries ≫= λ x, walk rootDirectoryLen (fjoin [path; x.1]) x.1 x.2 in
    if slen path <? rootDirectoryLen then children
    else if is_skipped name then []
    else if 3 <? length (Split (sdrop rootDirectoryLen path) sep) then []
    else (if is_config name then [path] else []) ++ children
  end.

(** [conf]: the names in the configuration directory of Upsun Flex. *)
Definition findAppConfigFiles (product : CloudProduct) (dir : string) (conf : option (list string)) (tree : node)
  : list string :=
  if bool_decide (product = Flex) then
    let dir := fjoin [dir; ProjectConfigPath product] in
    match conf with
    | None => []
    | Some names => (λ n, fjoin [dir; n]) <$> List.filter (λ n, HasSuffix n ".yaml") names
    end
  else walk (S (slen dir)) dir (Base dir) tree.

(** A decoded application: its name, type and source root. *)
Record yaml_app := mkYaml { y_name : string; y_type : string; y_root : string }.

Section applications.
Context (yaml_upsun : string → option (list (string * yaml_app)))
        (yaml_multi : string → option (list yaml_app)) (yaml_single : string → option yaml_app).

Definition parse_app_file (w : os) (product : CloudProduct) (root file : string) : list LocalApplication :=
  match read_file w file with
  | None => []
  | Some content =>
    if bool_decide (product = Flex) then
      (λ na, Build_LocalApplication na.1 (y_type na.2) (fjoin [root; y_root na.2])) <$> default [] (yaml_upsun content)
    else if HasSuffix file (fjoin [".platform"; "applications.yaml"]) then
      (λ a, Build_LocalApplication (y_name a) (y_type a) (fjoin [root; y_root a])) <$> default [] (yaml_multi content)
    else match yaml_single content with
         | Some a => [Build_LocalApplication (y_name a) (y_type a) (Dir file)]
         | None => []
         end
  end.

(** [apps.Sort()] gives some permutation sorted by name. *)
Definition app_le (a b : LocalApplication) : Prop := String.le (AppName a) (AppName b).
#[export] Instance app_le_dec : RelDecision app_le.
Proof. intros a b. unfold app_le. apply _. Defined.

Definition FindLocalApplications (w : os) (evalSymlinks : string → option string) (conf : option (list string))
    (tree : node) (sort : list LocalApplication → list LocalApplication) (rootDirectory : string) : list LocalApplication :=
  match evalSymlinks rootDirectory with
  | None => []
  | Some root =>
    let product := GuessProductFromDirectory w root in
    if bool_decide (product = NoProduct) then [] else
    sort (findAppConfigFiles product root conf tree ≫= parse_app_file w product root)
  end.
End applications.

(** ** Once a day *)

Lemma downloadAndExtract_check product d st : i_check (downloadAndExtract product d st).1 = i_check st.
Proof.
  unfold downloadAndExtract. destruct (d_archive d) as [l|]; [|done].
  generalize (d_copied d). induction l as [|e l IH]; intros copied; cbn.
  - by destruct copied as [[]|].
  - destruct copied as [[|n]|]; [done| |]; (destruct (_ || _); [apply IH|by destruct (d_write_ok d)]).
Qed.

Lemma downloadAndExtract_bin product d st : is_Some (i_bin st) → is_Some (i_bin (downloadAndExtract product d st).1).
Proof.
  intros H. unfold downloadAndExtract. destruct (d_archive d) as [l|]; [|done].
  generalize (d_copied d). induction l as [|e l IH]; intros copied; cbn.
  - by destruct copied as [[]|].
  - destruct copied as [[|n]|]; [done| |]; (destruct (_ || _); [apply IH|destruct (d_write_ok d); [|done]; by eexists]).
Qed.

Lemma install_download_state product now asset d binExists st :
  is_Some (i_bin st) → (∃ v, i_check st = Some (Some v) ∧ Timestamp v = now) →
  let '(st', rs, r) := install_download product now asset d true binExists st in
  is_Some (i_bin st') ∧ ∃ v', i_check st' = Some (Some v') ∧ Timestamp v' = now.
Proof.
  intros Hb Hv. unfold install_download. destruct asset as [a|]; [|done].
  pose proof (downloadAndExtract_check product d st) as Hc. pose proof (downloadAndExtract_bin product d st Hb) as Hb'.
  destruct (downloadAndExtract product d st) as [st1 [e|]]; cbn in *; [by rewrite Hc|]. split; [done|by eexists].
Qed.

(** The network is asked for a new version at most once a day: with a program
    and its version file, a run asks only when the last question is a day old;
    whatever the answers are, it leaves a program and a version file, and the
    runs of the next day ask nothing and change nothing. *)
Theorem Install_throttled product now latest1 latest2 d st v st' rs r :
  is_Some (i_bin st) → i_check st = Some (Some v) →
  Install product now latest1 latest2 d true true st = (st', rs, r) →
  (rs = [] ↔ now - 86400 < Timestamp v)%Z ∧ is_Some (i_bin st') ∧
  (∃ v', i_check st' = Some (Some v') ∧ (rs = [] ∧ st' = st ∨ rs ≠ [] ∧ Timestamp v' = now)) ∧
  (rs ≠ [] → ∀ now' l1 l2 d' s1 s2, (now' < now + 86400)%Z →
     Install product now' l1 l2 d' s1 s2 st' = (st', [], Installed)).
Proof.
  intros [b Hb] Hv HI. unfold Install in HI. rewrite Hb in HI. unfold loadVersionCheck in HI. rewrite Hv in HI.
  case_bool_decide as Ht; [injection HI as <- <- <-; split_and!; [done|by eexists|eauto|done]|].
  set (st1 := store_check true now (CurrentVersion v) st) in HI.
  assert (H1 : is_Some (i_bin st1) ∧ ∃ v', i_check st1 = Some (Some v') ∧ Timestamp v' = now).
  { split; [by exists b|by eexists]. }
  assert (Hst : rs ≠ [] ∧ is_Some (i_bin st') ∧ ∃ v', i_check st' = Some (Some v') ∧ Timestamp v' = now).
  { destruct (match latest1 with Some a => _ | None => false end); [by injection HI as <- <- <-|].
    pose proof (install_download_state product now latest2 d true st1 (proj1 H1) (proj2 H1)) as Hd.
    destruct (install_download _ _ _ _ _ _ _) as [[st2 rs2] r2]. by injection HI as <- <- <-. }
  destruct Hst as (Hrs & Hb' & v' & Hv' & Hts). split_and!; [naive_solver|done|eauto 6|].
  intros _ now' l1 l2 d' s1 s2 Hn. destruct Hb' as [b' Hb']. unfold Install, loadVersionCheck.
  rewrite Hb', Hv', bool_decide_eq_true_2 by lia. done.
Qed.

Definition ex_check : versionCheck := mkCheck "4.0" 1000.
Lemma Install_throttled_witness :
  ∃ st' rs r,
    Install Fixed 100000 None None (mkDownload None false None true) true true (mkInstalled (Some "ELF") (Some (Some ex_check)))
      = (st', rs, r) ∧
    Install Fixed 150000 None None (mkDownload None false None true) true true st' = (st', [], Installed).
Proof.
  eexists _, _, _. split; [reflexivity|].
  refine (proj2 (proj2 (proj2 (Install_throttled Fixed 100000 None None (mkDownload None false None true)
    (mkInstalled (Some "ELF") (Some (Some ex_check))) ex_check _ _ _ _ eq_refl eq_refl))) _ 150000%Z None None _ true true _);
    [by eexists|discriminate|reflexivity].
Defined.

(** ** What an update leaves *)

Definition is_binary (product : CloudProduct) (e : tar_entry) : bool :=
  t_regular e && bool_decide (t_Name e = BinName product).

Lemma extract_skip name wok broken st pre l :
  Forall (λ e, t_regular e && bool_decide (t_Name e = name) = false) pre →
  extract name wok broken None st (pre ++ l) = extract name wok broken None st l.
Proof.
  induction 1 as [|e pre He _ IH]; [done|]. cbn. rewrite <-negb_andb, He. exact IH.
Qed.

(** An update writes the new program over the old one: the file is the new
    program when that is at least as long, otherwise the end of the old program
    stays behind it; and an archive without the program is taken for a success:
    the version is recorded and nothing was installed. *)
Theorem install_update product now a d st pre e post :
  d_copied d = None → d_broken d = false → d_write_ok d = true →
  Forall (λ e, is_binary product e = false) pre →
  (d_archive d = Some pre → ∀ ex,
     install_download product now (Some a) d true ex st =
       (mkInstalled (i_bin st) (Some (Some (mkCheck (a_version a) now))), [AskLatest; AskDownload], Installed)) ∧
  (d_archive d = Some (pre ++ e :: post) → is_binary product e = true → ∀ ex,
     install_download product now (Some a) d true ex st =
       (mkInstalled (Some (t_contents e +:+ sdrop (slen (t_contents e)) (default "" (i_bin st))))
          (Some (Some (mkCheck (a_version a) now))), [AskLatest; AskDownload], Installed)).
Proof.
  intros Hc Hbr Hw Hpre. unfold install_download, downloadAndExtract. split.
  - intros -> ex. rewrite Hc, Hbr, Hw. rewrite <-(app_nil_r pre), extract_skip by done. reflexivity.
  - intros -> He ex. rewrite Hc, Hbr, Hw, extract_skip by done. cbn. rewrite <-negb_andb.
    unfold is_binary in He. rewrite He. reflexivity.
Qed.

Definition ex_tar : list tar_entry := [mkTar "README" true "x"; mkTar "platform" true "NEW"].
Lemma install_update_witness :
  install_download Fixed 5 (Some (mkAsset "a" "u" "5.0")) (mkDownload (Some ex_tar) false None true) true true
    (mkInstalled (Some "OLDER") None) =
  (mkInstalled (Some "NEWER") (Some (Some (mkCheck "5.0" 5))), [AskLatest; AskDownload], Installed).
Proof.
  refine (proj2 (install_update Fixed 5 (mkAsset "a" "u" "5.0") (mkDownload (Some ex_tar) false None true)
    (mkInstalled (Some "OLDER") None) [mkTar "README" true "x"] (mkTar "platform" true "NEW") [] _ _ _ _) _ _ true);
    try reflexivity. repeat constructor.
Defined.

(** ** The configuration files of the applications *)

Section node_ind.
Context (P : node → Prop) (Hf : P NFile) (Hd : ∀ es, Forall (λ x, P x.2) es → P (NDir es)).
Fixpoint node_ind' (n : node) : P n :=
  match n with
  | NFile => Hf
  | NDir es =>
    Hd es ((fix go (es : list (string * node)) : Forall (λ x, P x.2) es :=
              match es with
              | [] => Forall_nil_2 _
              | x :: es => Forall_cons_2 _ x es (node_ind' x.2) (go es)
              end) es)
  end.
End node_ind.

(** The node at a path of a tree. *)
Inductive at_path : node → list string → node → Prop :=
| at_here n : at_path n [] n
| at_child es nm ch rel n : (nm, ch) ∈ es → at_path ch rel n → at_path (NDir es) (nm :: rel) n.
Definition names_ok (tree : node) : Prop :=
  ∀ rel es nm ch, at_path tree rel (NDir es) → (nm, ch) ∈ es → clean_ok nm.
Definition is_NDir (n : node) : bool := match n with NDir _ => true | NFile => false end.

Definition abs_path (l : list string) : string := sep +:+ Join l sep.

Lemma fjoin_abs_path l c : l ≠ [] → Forall clean_ok l → clean_ok c → fjoin [abs_path l; c] = abs_path (l ++ [c]).
Proof.
  intros Hl Hok Hc. cbn [fjoin]. rewrite bool_decide_eq_false_2 by done.
  change (Join [abs_path l; c] sep) with ((sep +:+ Join l sep) +:+ sep +:+ c).
  rewrite sapp_assoc. change c with (Join [c] sep) at 1. rewrite <-Join_app by done.
  apply Clean_rooted, Forall_app. split; [done|by constructor].
Qed.

Lemma rel_comps root rel : root ≠ [] → rel ≠ [] → Forall clean_ok rel →
  Split (sdrop (S (slen (abs_path root))) (abs_path (root ++ rel))) sep = rel.
Proof.
  intros Hr Hne Hok. unfold abs_path. rewrite Join_app, <-sapp_assoc by done.
  replace (S (slen (sep +:+ Join root sep))) with (slen ((sep +:+ Join root sep) +:+ sep)) by (rewrite slen_app; simpl; lia).
  rewrite <-sapp_assoc, sdrop_app. apply Split_Join; [done|].
  eapply Forall_impl; [exact Hok|]. by intros c (_ & _ & ?).
Qed.

Lemma walk_dir len path name entries :
  walk len path name (NDir entries) =
    let children := entries ≫= λ x, walk len (fjoin [path; x.1]) x.1 x.2 in
    if slen path <? len then children
    else if is_skipped name then []
    else if 3 <? length (Split (sdrop len path) sep) then []
    else (if is_config name then [path] else []) ++ children.
Proof. done. Qed.

(** From a node at depth [depth] and with name [name], along [rel] to [m]. *)
Fixpoint ok_path (depth : nat) (name : string) (rel : list string) (m : node) : Prop :=
  match rel with
  | [] => is_config name = true ∧ (is_NDir m = true → is_skipped name = false ∧ depth ≤ 3)
  | nm :: rel => is_skipped name = false ∧ depth ≤ 3 ∧ ok_path (S depth) nm rel m
  end.

Lemma abs_path_length root rel : root ≠ [] → rel ≠ [] → slen (abs_path root) < slen (abs_path (root ++ rel)).
Proof. intros Hr Hne. unfold abs_path. rewrite Join_app, !slen_app by done. simpl. lia. Qed.

(** The statement of [walk_spec] for one node. *)
Definition walk_ok (root : list string) (n : node) : Prop := ∀ rel0 name f,
  names_ok n → Forall clean_ok (rel0 ++ [name]) →
  f ∈ walk (S (slen (abs_path root))) (abs_path (root ++ rel0 ++ [name])) name n ↔
  ∃ rel m, at_path n rel m ∧ ok_path (S (length rel0)) name rel m ∧ f = abs_path (root ++ rel0 ++ [name] ++ rel).

Lemma names_ok_child es nm ch : names_ok (NDir es) → (nm, ch) ∈ es → clean_ok nm ∧ names_ok ch.
Proof.
  intros Hn Hin. split; [by apply (Hn [] es nm ch); [constructor|]|].
  intros rel es' nm' ch' Hat. apply (Hn (nm :: rel)). by econstructor.
Qed.

(** The entries of a directory at [path]. *)
Lemma children_spec root path es f : root ≠ [] → Forall clean_ok root → Forall clean_ok path →
  names_ok (NDir es) → Forall (λ x, walk_ok root x.2) es →
  f ∈ (es ≫= λ x, walk (S (slen (abs_path root))) (fjoin [abs_path (root ++ path); x.1]) x.1 x.2) ↔
  ∃ nm ch rel m, (nm, ch) ∈ es ∧ at_path ch rel m ∧ ok_path (S (length path)) nm rel m ∧
    f = abs_path (root ++ path ++ nm :: rel).
Proof.
  intros Hr Hroot Hpath Hn IH. rewrite Forall_forall in IH. rewrite list_elem_of_bind.
  assert (Hx : ∀ nm ch, (nm, ch) ∈ es →
    f ∈ walk (S (slen (abs_path root))) (fjoin [abs_path (root ++ path); nm]) nm ch ↔
    ∃ rel m, at_path ch rel m ∧ ok_path (S (length path)) nm rel m ∧ f = abs_path (root ++ path ++ nm :: rel)).
  { intros nm ch Hin. destruct (names_ok_child _ _ _ Hn Hin) as [Hnm Hch].
    rewrite fjoin_abs_path, <-app_assoc by (done || (by destruct root) || by apply Forall_app).
    apply (IH _ Hin path nm f Hch). apply Forall_app. split; [done|by constructor]. }
  split.
  - intros ([nm ch] & Hf & Hin). apply (Hx nm ch Hin) in Hf as (rel & m & ?). eauto 10.
  - intros (nm & ch & rel & m & Hin & H). exists (nm, ch). split; [|done]. apply (Hx nm ch Hin). eauto.
Qed.

Lemma walk_spec root n : root ≠ [] → Forall clean_ok root → walk_ok root n.
Proof.
  intros Hr Hroot. induction n as [|es IH] using node_ind'; intros rel0 name f Hn Hok.
  - cbn [walk]. split.
    + destruct (is_config name) eqn:E; [intros ->%list_elem_of_singleton|by intros ?%not_elem_of_nil].
      exists [], NFile. split_and!; [constructor|done|by rewrite app_nil_r].
    + intros (rel & m & Hat & Hp & ->). inversion Hat; subst. destruct Hp as [-> _].
      apply list_elem_of_singleton. by rewrite app_nil_r.
  - rewrite walk_dir. cbv zeta.
    assert (Hlen : slen (abs_path (root ++ rel0 ++ [name])) <? S (slen (abs_path root)) = false).
    { apply Nat.ltb_ge. pose proof (abs_path_length root (rel0 ++ [name]) Hr ltac:(by destruct rel0)). lia. }
    rewrite Hlen, rel_comps by (done || by destruct rel0).
    assert (Hl : length (rel0 ++ [name]) = S (length rel0)) by (rewrite length_app; simpl; lia). rewrite Hl.
    destruct (is_skipped name) eqn:Es; [|destruct (Nat.ltb_spec 3 (S (length rel0))) as [Hd|Hd]].
    + split; [by intros ?%not_elem_of_nil|]. intros (rel & m & Hat & Hp & _). destruct rel as [|nm rel]; cbn in Hp.
      * inversion Hat; subst. destruct Hp as [_ Hp]. destruct (Hp eq_refl). congruence.
      * destruct Hp. congruence.
    + split; [by intros ?%not_elem_of_nil|]. intros (rel & m & Hat & Hp & _). destruct rel as [|nm rel]; cbn in Hp.
      * inversion Hat; subst. destruct Hp as [_ Hp]. destruct (Hp eq_refl). lia.
      * destruct Hp as (_ & ? & _). lia.
    + rewrite elem_of_app, (children_spec root (rel0 ++ [name]) es f) by done. rewrite Hl. split.
      * intros [Hf|(nm & ch & rel & m & Hin & Hat & Hp & ->)].
        -- destruct (is_config name) eqn:Ec; [|by apply not_elem_of_nil in Hf].
           apply list_elem_of_singleton in Hf as ->. exists [], (NDir es). rewrite app_nil_r.
           split; [apply at_here|]. split; [|done]. by split.
        -- exists (nm :: rel), m. split; [by econstructor|]. split; [done|]. by rewrite <-app_assoc.
      * intros (rel & m & Hat & Hp & ->). inversion Hat as [|? nm ch rel' ? Hin Hat']; subst.
        -- left. destruct Hp as [-> _]. rewrite app_nil_r. by apply list_elem_of_singleton.
        -- right. destruct Hp as (_ & _ & Hp). exists nm, ch, rel', m. by rewrite <-app_assoc.
Qed.

Lemma config_not_skipped name : is_config name = true → is_skipped name = false.
Proof. unfold is_config. intros [->| ->]%bool_decide_eq_true_1; reflexivity. Qed.

(** [ok_path] in words: no directory on the way is skipped, and the file is at
    most three directories deep. *)
Lemma ok_path_iff depth name rel m :
  depth ≠ 0 →
  ok_path depth name rel m ↔
  Forall (λ c, is_skipped c = false) (removelast (name :: rel)) ∧ is_config (List.last (name :: rel) "") = true ∧
  depth + length rel ≤ (if is_NDir m then 3 else 4) ∨
  rel = [] ∧ is_NDir m = false ∧ is_config name = true ∧ 4 < depth.
Proof.
  revert depth name. induction rel as [|nm rel IH]; intros depth name Hd.
  - cbn. rewrite Nat.add_0_r. split.
    + intros [Hc Hm]. destruct (is_NDir m); [left; split_and!; [constructor|done|by apply Hm]|].
      destruct (decide (depth ≤ 4)); [left; split_and!; [constructor|done|done]|right; split_and!; (done || lia)].
    + intros [(_ & Hc & Hl)|(_ & Hm & Hc & _)]; (split; [done|]); intros Hm'; [|congruence].
      rewrite Hm' in Hl. split; [by apply config_not_skipped|done].
  - cbn [ok_path]. rewrite IH by done. cbn [removelast List.last length]. rewrite Forall_cons. split.
    + intros (Hs & Hl & [(? & ? & ?)|(-> & Hm & Hc & ?)]); [left|lia]. split_and!; try done. lia.
    + intros [((? & ?) & ? & Hl)|([=] & _)].
      assert (depth ≤ 3) by (destruct (is_NDir m), rel; cbn in Hl; lia). split_and!; [done|done|].
      left. split_and!; try done. cbn in Hl. lia.
Qed.

(** An entry at [dirs] below the project, and the file it is. *)
Definition app_config (root : list string) (tree : node) (f : string) : Prop :=
  ∃ dirs name m, at_path tree (dirs ++ [name]) m ∧ is_config name = true ∧
    Forall (λ c, is_skipped c = false) dirs ∧ length dirs ≤ (if is_NDir m then 2 else 3) ∧
    f = abs_path (root ++ dirs ++ [name]).

Lemma walk_project root es f : root ≠ [] → Forall clean_ok root → names_ok (NDir es) →
  f ∈ walk (S (slen (abs_path root))) (abs_path root) (Base (abs_path root)) (NDir es) ↔ app_config root (NDir es) f.
Proof.
  intros Hr Hroot Hn. rewrite walk_dir. cbv zeta. rewrite (proj2 (Nat.ltb_lt _ _)) by lia.
  assert (Hall : Forall (λ x : string * node, walk_ok root x.2) es)
    by (apply Forall_true; intros; by apply walk_spec).
  pose proof (children_spec root [] es f Hr Hroot (Forall_nil_2 _) Hn Hall) as Hch.
  rewrite app_nil_r in Hch. rewrite Hch. clear Hch Hall. split.
  - intros (nm & ch & rel & m & Hin & Hat & Hok & ->).
    apply ok_path_iff in Hok as [(Hs & Hc & Hl)|(_ & _ & _ & Hlt)]; [|cbn in Hlt; lia|done].
    exists (removelast (nm :: rel)), (List.last (nm :: rel) ""), m.
    rewrite <-(app_removelast_last "" (l := nm :: rel)) by done.
    split; [by econstructor|]. split_and!; [done|done| |done].
    rewrite removelast_firstn_len, length_firstn. cbn [length pred]. cbn in Hl. destruct (is_NDir m); lia.
  - intros (dirs & name & m & Hat & Hc & Hs & Hl & ->).
    destruct (dirs ++ [name]) as [|nm rel] eqn:E; [by destruct dirs|].
    inversion Hat as [|? ? ch ? ? Hin Hat']; subst. exists nm, ch, rel, m. split_and!; [done|done| |done].
    apply ok_path_iff; [done|]. left. rewrite <-E, removelast_last, last_last. split_and!; [done|done|].
    apply (f_equal length) in E. rewrite length_app in E. cbn in E |- *. destruct (is_NDir m); lia.
Qed.

(** C34: the files that configure the applications of a project.  For Upsun
    Flex, the entries of [.upsun] that end in [.yaml], none when that directory
    cannot be read.  Otherwise, exactly the entries named [applications.yaml] or
    [.platform.app.yaml] that are at most three directories below the project,
    two for a directory with such a name, and below no directory with a name that
    is skipped. *)
Theorem findAppConfigFiles_iff product root conf es f :
  root ≠ [] → Forall clean_ok root → Forall clean_ok (default [] conf) → names_ok (NDir es) →
  f ∈ findAppConfigFiles product (abs_path root) conf (NDir es) ↔
  if bool_decide (product = Flex) then
    ∃ names name, conf = Some names ∧ name ∈ names ∧ HasSuffix name ".yaml" = true ∧
      f = abs_path (root ++ [".upsun"; name])
  else app_config root (NDir es) f.
Proof.
  intros Hr Hroot Hconf Hn. unfold findAppConfigFiles. case_bool_decide as Hp; [subst|by apply walk_project].
  assert (Hu : clean_ok ".upsun") by (repeat split; done).
  change (ProjectConfigPath Flex) with ".upsun". rewrite fjoin_abs_path by done.
  assert (Hj : ∀ n, clean_ok n → fjoin [abs_path (root ++ [".upsun"]); n] = abs_path (root ++ [".upsun"; n])).
  { intros n Hc. rewrite fjoin_abs_path, <-app_assoc; [done|by destruct root|apply Forall_app; by repeat constructor|done]. }
  destruct conf as [names|]; cbn in Hconf; [|split; [by intros ?%not_elem_of_nil|by intros (? & ? & [=] & _)]].
  rewrite Forall_forall in Hconf. rewrite list_elem_of_fmap. split.
  - intros (n & -> & [Hin Hy]%list_elem_of_In%filter_In). apply list_elem_of_In in Hin. exists names, n.
    split_and!; auto.
  - intros (? & n & [= <-] & Hin & Hy & ->). exists n. split; [by rewrite Hj by auto|].
    apply list_elem_of_In, filter_In. split; [by apply list_elem_of_In|done].
Qed.

Fixpoint names_okb (n : node) : bool :=
  match n with
  | NFile => true
  | NDir es => forallb (λ x, real_comp x.1 && negb (bool_decide (x.1 = "..")) && lacks "/" x.1 && names_okb x.2) es
  end.
Lemma names_okb_ok n : names_okb n = true → names_ok n.
Proof.
  intros Hn rel es nm ch Hat Hin.
  remember (NDir es) as d eqn:E. revert es nm ch E Hin Hn.
  induction Hat as [n|es' nm' ch' rel n Hin' _ IH]; intros es nm ch -> Hin Hn.
  - cbn in Hn. rewrite forallb_forall in Hn. apply list_elem_of_In in Hin. specialize (Hn _ Hin). cbn in Hn.
    rewrite !andb_true_iff, negb_true_iff, bool_decide_eq_false in Hn. unfold clean_ok. naive_solver.
  - cbn in Hn. rewrite forallb_forall in Hn. apply list_elem_of_In in Hin'. specialize (Hn _ Hin'). cbn in Hn.
    rewrite !andb_true_iff in Hn. destruct Hn as [_ Hn]. by eapply IH.
Qed.

Definition ex_tree : list (string * node) :=
  [("api", NDir [(".platform.app.yaml", NFile); ("src", NDir [(".platform.app.yaml", NFile)])]);
   ("vendor", NDir [("applications.yaml", NFile)])].

Lemma findAppConfigFiles_iff_witness :
  "/p/api/.platform.app.yaml" ∈ findAppConfigFiles Fixed (abs_path ["p"]) None (NDir ex_tree) ∧
  "/p/.upsun/config.yaml" ∈ findAppConfigFiles Flex (abs_path ["p"]) (Some ["README.md"; "config.yaml"]) (NDir ex_tree).
Proof.
  split.
  - apply (findAppConfigFiles_iff Fixed ["p"] None ex_tree "/p/api/.platform.app.yaml").
    + discriminate.
    + repeat constructor; discriminate.
    + constructor.
    + by apply names_okb_ok.
    + exists ["api"], ".platform.app.yaml", NFile. split_and!; [|reflexivity|repeat constructor|simpl; lia|reflexivity].
      repeat (econstructor; [left|]). constructor.
  - apply (findAppConfigFiles_iff Flex ["p"] (Some ["README.md"; "config.yaml"]) ex_tree "/p/.upsun/config.yaml").
    + discriminate.
    + repeat constructor; discriminate.
    + repeat constructor; discriminate.
    + by apply names_okb_ok.
    + exists ["README.md"; "config.yaml"], "config.yaml". split_and!; [reflexivity|right; left|reflexivity|reflexivity].
Defined.
