(* ===== verification/ServerCommands.v ===== *)
(** * Starting and stopping the server ([commands/local_server_start.go],
    [local_server_stop.go])

    [server:start] is a sequence of stages, each of which may end the command;
    the child of a daemon tells its progress to the parent with
    [NotifyForeground].  The answers of the components it calls are a record;
    what it does is a list of effects.  The workers are started in goroutines of
    their own, and the others wait for Docker Compose when it is one of them.
    [server:stop] signals the processes of the pid files.

    [daemon_serves] joins this with the loop of [Background]; [start_workers_spec]
    is about the workers, whose goroutines, wait group and error channel are the
    state machine [launch_next]. *)

From stdpp Require Import base tactics option list gmap strings pretty.
From Stdlib Require Import ZArith Lia Ascii.
From S2P Require Import Prelude GoStrings FilePath Os Envs ProjectConfig Reexec.

Inductive start_effect :=
| SNotify (status : string)
| SCleanup
| SBackground
| SDomains (domains : list string)
| SMakeCert (p12 : string)
| SPhpStart
| SPhpReady
| SHttp (port : Z)
| SPid (port : Z) (scheme : string)
| SWorkers
| SWaitWorkers
| SWaitPhp
| SRemoveDirs.

Inductive start_res :=
| AlreadyRunning | Failed (what : string) | BackgroundExit (status : Z) | InBackground | PhpFailed
| ServerErr | Stopped.

(** A stage: its effects, and the end of the command or a value. *)
Inductive staged (A : Type) := Done (r : start_res) | Go (a : A).
Arguments Done {A} _.
Arguments Go {A} _.
Definition stage (A : Type) : Type := list start_effect * staged A.
#[export] Instance stage_ret : MRet stage := λ A a, ([], Go a).
#[export] Instance stage_bind : MBind stage := λ A B f m,
  match m with
  | (es, Go a) => let '(es', r) := f a in (es ++ es', r)
  | (es, Done r) => (es, Done r)
  end.
Definition tell (e : start_effect) : stage unit := ([e], Go tt).
Definition stop {A} (r : start_res) : stage A := ([], Done r).
Definition check (ok : bool) (r : start_res) : stage unit := if ok then mret tt else stop r.

(** What [reexec.Background] returns, [pidFile.WaitForPid] or the failure of PHP
    that comes first, and how the last [select] ends. *)
Inductive bg_answer := BgUp | BgExitCoder (status : Z) | BgError.
Inductive php_first := PhpErr (nil : bool) | PhpPid (ok : bool).
Inductive last_select := ErrChan | Shutdown (workers_ok : bool).
(** The state of the certificate authority. *)
Record ca_answer := mkCA {
  ca_new : bool; ca_has : bool; ca_p12 : stat_res; ca_load : bool; ca_make : bool }.

Record start_env := mkStart {
  s_dir : bool; s_running : bool; s_child : bool; s_cleanup : bool; s_boot : bool; s_log : bool;
  s_config : option config; s_vardir : bool; s_background : bg_answer; s_proxy : bool; s_domains : bool;
  s_ca : ca_answer; s_home : string; s_project : option bool; s_php_start : bool; s_php_logs : bool;
  s_php_first : php_first; s_http : option Z; s_err_chan : option bool; s_pid_write : bool;
  s_last : last_select }.

(** Up to the configuration; only the parent cleans up. *)
Definition boot_stage (e : start_env) : stage config :=
  _ ← check (s_dir e) (Failed "dir"); _ ← check (negb (s_running e)) AlreadyRunning;
  _ ← (if s_child e then mret tt else _ ← tell SCleanup; check (s_cleanup e) (Failed "cleanup"));
  _ ← tell (SNotify "boot"); _ ← check (s_boot e) (Failed "boot"); _ ← check (s_log e) (Failed "log");
  _ ← tell (SNotify "config");
  match s_config e with None => stop (Failed "config") | Some c => mret c end.

(** The parent of a daemon waits for its child; when it cannot go to the
    background it goes on in the foreground. *)
Definition background_stage (e : start_env) (c : config) : stage unit :=
  if Daemon c && negb (s_child e) then
    _ ← check (s_vardir e) (Failed "status file"); _ ← tell SBackground;
    match s_background e with
    | BgUp => stop InBackground
    | BgExitCoder status => stop (BackgroundExit status)
    | BgError => mret tt
    end
  else mret tt.

Definition domains_stage (e : start_env) (c : config) : stage unit :=
  _ ← tell (SNotify "proxy"); _ ← check (s_proxy e) (Failed "proxy");
  if bool_decide (Domains c = []) then mret tt
  else _ ← tell (SDomains (Domains c)); check (s_domains e) (Failed "domains").

(** The flags [NoTLS] and the certificate that are used. *)
Definition tls_stage (e : start_env) (c : config) : stage (bool * string) :=
  _ ← tell (SNotify "tls");
  if NoTLS (HTTP c) || negb (bool_decide (PKCS12 (HTTP c) = "")) then mret (NoTLS (HTTP c), PKCS12 (HTTP c)) else
  let ca := s_ca e in
  _ ← check (ca_new ca) (Failed "ca");
  if negb (ca_has ca) then mret (true, "") else
  let p12 := fjoin [s_home e; "certs"; "default.p12"] in
  _ ← match ca_p12 ca with
      | NotExist => _ ← check (ca_load ca) (Failed "ca"); _ ← tell (SMakeCert p12); check (ca_make ca) (Failed "ca")
      | Found _ => check (ca_load ca) (Failed "ca")
      | StatErr => mret tt
      end;
  mret (false, p12).

(** PHP either fails first or writes its pid. *)
Definition php_stage (e : start_env) : stage unit :=
  match s_project e with
  | None => stop (Failed "project")
  | Some false => mret tt
  | Some true =>
    _ ← tell (SNotify "php"); _ ← tell SPhpStart; _ ← check (s_php_start e) (Failed "php");
    _ ← check (s_php_logs e) (Failed "php logs");
    match s_php_first e with
    | PhpErr _ => stop PhpFailed
    | PhpPid ok => _ ← check ok (Failed "php pid"); tell SPhpReady
    end
  end.

(** [s_err_chan]: an error that is already there, [true] when it says that the
    listener or the server was closed. *)
Definition http_stage (e : start_env) (noTLS : bool) : stage unit :=
  _ ← tell (SNotify "http");
  match s_http e with
  | None => stop (Failed "http")
  | Some port =>
    _ ← tell (SHttp port);
    match s_err_chan e with
    | Some closed => check closed ServerErr
    | None =>
      _ ← check (s_pid_write e) (Failed "pid"); _ ← tell (SPid port (if noTLS then "http" else "https"));
      tell (SNotify "listening")
    end
  end.

Definition last_stage (e : start_env) : stage unit :=
  match s_last e with
  | ErrChan => stop ServerErr
  | Shutdown ok =>
    _ ← tell SWaitWorkers; _ ← (if bool_decide (s_project e = Some true) then tell SWaitPhp else mret tt);
    _ ← tell SRemoveDirs; _ ← check ok ServerErr; stop Stopped
  end.

Definition server_start (e : start_env) : stage unit :=
  c ← boot_stage e; _ ← background_stage e c; _ ← domains_stage e c;
  '(noTLS, _) ← tls_stage e c; _ ← php_stage e; _ ← http_stage e noTLS;
  _ ← (if NoWorkers c then mret tt else _ ← tell (SNotify "workers"); tell SWorkers);
  _ ← tell (SNotify UP); last_stage e.

(** ** Workers *)

Definition DockerComposeWorkerKey : string := "docker_compose".
(** What is known of a worker: whether it already runs, whether [NewRunner] and
    [GetEnv] succeed. *)
Record worker_env := mkWorkerEnv { w_running : bool; w_runner : bool; w_env : bool }.

(** Where the goroutine of a worker is: before [NewRunner], before [GetEnv], sending
    its error, in [dockerWg.Wait], in [runner.Run]; or it returned. *)
Inductive worker_pc := WStart | WGetEnv | WSending | WWaiting | WRuns | WReturned.

(** The loop of the command, its goroutines and what they share: [l_todo] are the
    workers that the loop has not visited yet, [l_wg] is the counter of [dockerWg],
    [l_hook] whether the success hook of Docker Compose is still set, [l_err] the
    channel [errChan], [l_main] what the command itself is doing. *)
Inductive launch_main := Launching | Selecting | ReturnedErr | WgPanicked.
Record launch := mkLaunch {
  l_todo : list (string * worker_env); l_workers : gmap string (worker_env * worker_pc);
  l_wg : Z; l_hook : bool; l_err : bool; l_main : launch_main }.

Inductive launch_event :=
| Visit                        (** one turn of the loop over the workers *)
| EndLoop                      (** the loop is over *)
| GoOn (name : string)         (** the goroutine of a worker makes a step *)
| ComposeSucceeds              (** the command of the Compose worker succeeds *)
| ReceiveErr.                  (** the last [select] receives an error *)

Definition configured (workers : list (string * worker_env)) : bool :=
  bool_decide (DockerComposeWorkerKey ∈ workers.*1).
Definition launch_init (workers : list (string * worker_env)) : launch :=
  mkLaunch workers ∅ (if configured workers then 1 else 0) true false Launching.

Definition set_pc (s : launch) (name : string) (w : worker_env) (pc : worker_pc) : launch :=
  mkLaunch (l_todo s) (<[name := (w, pc)]> (l_workers s)) (l_wg s) (l_hook s) (l_err s) (l_main s).

(** The body of the goroutine, up to each call that may block. *)
Definition worker_step (compose : bool) (s : launch) (name : string) (w : worker_env) (pc : worker_pc)
  : option launch :=
  match pc with
  | WStart => Some (set_pc s name w (if w_runner w then WGetEnv else WReturned))
  | WGetEnv =>
    Some (set_pc s name w
            (if negb (w_env w) then WSending
             else if bool_decide (name = DockerComposeWorkerKey) then WRuns
             else if compose then WWaiting else WRuns))
  | WSending =>
    if l_err s then None
    else Some (mkLaunch (l_todo s) (<[name := (w, WReturned)]> (l_workers s)) (l_wg s) (l_hook s) true (l_main s))
  | WWaiting => if bool_decide (l_wg s = 0)%Z then Some (set_pc s name w WRuns) else None
  | WRuns | WReturned => None
  end.

Definition launch_next (compose : bool) (s : launch) (e : launch_event) : option launch :=
  match l_main s with
  | ReturnedErr | WgPanicked => None
  | main =>
    match e with
    | Visit =>
      match main, l_todo s with
      | Launching, (name, w) :: todo =>
        let workers := if w_running w then l_workers s else <[name := (w, WStart)]> (l_workers s) in
        Some (mkLaunch todo workers (l_wg s) (l_hook s) (l_err s) Launching)
      | _, _ => None
      end
    | EndLoop =>
      match main, l_todo s with
      | Launching, [] => Some (mkLaunch [] (l_workers s) (l_wg s) (l_hook s) (l_err s) Selecting)
      | _, _ => None
      end
    | GoOn name => '(w, pc) ← l_workers s !! name; worker_step compose s name w pc
    | ComposeSucceeds =>
      match l_workers s !! DockerComposeWorkerKey with
      | Some (_, WRuns) =>
        if l_hook s then
          let wg := (l_wg s - 1)%Z in
          Some (mkLaunch (l_todo s) (l_workers s) wg false (l_err s)
                  (if bool_decide (wg < 0)%Z then WgPanicked else main))
        else Some s
      | _ => None
      end
    | ReceiveErr =>
      match main with
      | Selecting => if l_err s then Some (mkLaunch (l_todo s) (l_workers s) (l_wg s) (l_hook s) false ReturnedErr) else None
      | _ => None
      end
    end
  end.
Fixpoint launch_run (compose : bool) (s : launch) (es : list launch_event) : option launch :=
  match es with [] => Some s | e :: es => s ← launch_next compose s e; launch_run compose s es end.
(** The workers of the configuration, in the order of the iteration. *)
Definition start_workers (workers : list (string * worker_env)) (es : list launch_event) : option launch :=
  launch_run (configured workers) (launch_init workers) es.

(** ** Stopping *)

(** A process of a project: its name, whether it runs before and after the
    signals of the first loop. *)
Record process := mkProcess { x_pid : Z; x_webserver : bool; x_running : bool; x_running2 : bool }.
Inductive stop_effect := WaitExit (pid : Z) | Interrupt (pid : Z) | Kill (pid : Z).

Definition first_loop (p : process) : list stop_effect :=
  if negb (x_running p) then []
  else WaitExit (x_pid p) :: (if x_webserver p then [Interrupt (x_pid p)] else []).
Definition second_loop (p : process) : list stop_effect :=
  if x_running2 p && negb (x_webserver p) then [Kill (x_pid p)] else [].
(** The effects for one project and the number of processes that ran; [pids]
    are the workers, then the web server. *)
Definition stop_project (pids : list process) : list stop_effect * nat :=
  let running := length (List.filter x_running pids) in
  ((pids ≫= first_loop) ++ (if running =? 0 then [] else pids ≫= second_loop), running).
(** Projects are stopped in turn until the directory of one cannot be found
    ([None]) or the wait for its processes fails. *)
Fixpoint stopProjects (wait_ok : nat → bool) (i : nat) (projects : list (option (list process)))
    : list stop_effect * nat * bool :=
  match projects with
  | [] => ([], 0, true)
  | None :: _ => ([], 0, false)
  | Some pids :: projects =>
    let '(es, n) := stop_project pids in
    if (n =? 0) || wait_ok i
    then let '(es', m, ok) := stopProjects wait_ok (S i) projects in (es ++ es', n + m, ok)
    else (es, n, false)
  end.

(** [cleanupWebServerFiles] stops the workers that still run. *)
Definition cleanup_stops (pids : list process) : list stop_effect :=
  (λ p, Kill (x_pid p)) <$> List.filter x_running pids.
(** [waitForWorkers]: the processes waited for; the pid file of the server is
    removed only when there were workers. *)
Definition waitForWorkers (workers : list process) (wait_ok : bool) : list stop_effect * bool :=
  ((λ p, WaitExit (x_pid p)) <$> workers, negb (bool_decide (workers = [])) && wait_ok).

(** ** The order of the stages *)

Lemma elem_of_stage_bind {A B} (m : stage A) (f : A → stage B) x :
  x ∈ (m ≫= f).1 ↔ x ∈ m.1 ∨ ∃ a, m.2 = Go a ∧ x ∈ (f a).1.
Proof.
  destruct m as [es [r|a]]; cbn; [naive_solver|]. destruct (f a) as [es' r'] eqn:E. cbn.
  rewrite elem_of_app. split; [intros [?|?]; [by left|right; exists a; by rewrite E]|].
  intros [?|(a' & [= <-] & H)]; [by left|right; by rewrite E in H].
Qed.

Lemma stage_bind_Go {A B} (m : stage A) (f : A → stage B) b :
  (m ≫= f).2 = Go b → ∃ a, m.2 = Go a ∧ (f a).2 = Go b.
Proof. destruct m as [es [r|a]]; cbn; [done|]. destruct (f a) as [es' r'] eqn:E. cbn. intros ->. exists a. by rewrite E. Qed.

(** No stage before the last one says [UP]. *)
Definition quiet {A} (m : stage A) : Prop := SNotify UP ∉ m.1.
Lemma quiet_bind {A B} (m : stage A) (f : A → stage B) : quiet m → (∀ a, quiet (f a)) → quiet (m ≫= f).
Proof. intros Hm Hf H. apply elem_of_stage_bind in H as [?|(a & _ & ?)]; [by apply Hm|by eapply Hf]. Qed.
Lemma quiet_ret {A} (a : A) : quiet (mret a).
Proof. by intros ?%not_elem_of_nil. Qed.
Lemma quiet_stop {A} r : quiet (stop r : stage A).
Proof. by intros ?%not_elem_of_nil. Qed.
Lemma quiet_check b r : quiet (check b r).
Proof. by destruct b; intros ?%not_elem_of_nil. Qed.
Lemma quiet_tell x : x ≠ SNotify UP → quiet (tell x).
Proof. intros Hx H. by apply list_elem_of_singleton in H. Qed.

Create HintDb quiet.
#[local] Hint Resolve quiet_ret quiet_stop quiet_check : quiet.
Ltac quiet :=
  repeat first
    [ apply quiet_bind; [|intros ?]
    | apply quiet_tell; discriminate
    | solve [auto with quiet]
    | match goal with
      | |- quiet (if ?b then _ else _) => destruct b
      | |- quiet (match ?x with _ => _ end) => destruct x
      end ].

Lemma boot_quiet e : quiet (boot_stage e).
Proof. unfold boot_stage. quiet. Qed.
Lemma background_quiet e c : quiet (background_stage e c).
Proof. unfold background_stage. quiet. Qed.
Lemma domains_quiet e c : quiet (domains_stage e c).
Proof. unfold domains_stage. quiet. Qed.
Lemma tls_quiet e c : quiet (tls_stage e c).
Proof. unfold tls_stage. quiet. Qed.
Lemma php_quiet e : quiet (php_stage e).
Proof. unfold php_stage. quiet. Qed.
Lemma http_quiet e n : quiet (http_stage e n).
Proof. unfold http_stage. quiet. Qed.

(** A stage that goes on did its work. *)
Lemma php_ready e : (php_stage e).2 = Go tt → s_project e = Some true → SPhpReady ∈ (php_stage e).1.
Proof.
  intros Hg Hp. unfold php_stage in *. rewrite Hp in *. unfold check in *. cbn in *.
  destruct (s_php_start e), (s_php_logs e), (s_php_first e) as [nil|[]]; cbn in *; try done. set_solver.
Qed.
Lemma http_listens e n : (http_stage e n).2 = Go tt →
  ∃ port, s_http e = Some port ∧ SHttp port ∈ (http_stage e n).1 ∧
    (s_err_chan e = None → SPid port (if n then "http" else "https") ∈ (http_stage e n).1).
Proof.
  intros Hg. unfold http_stage in *. unfold check in *. cbn in *. destruct (s_http e) as [port|]; [|done].
  exists port. cbn in *. destruct (s_err_chan e) as [[]|]; cbn in *; [|done|].
  - split_and!; [done|set_solver|done].
  - destruct (s_pid_write e); cbn in *; [|done]. split_and!; [done|set_solver|set_solver].
Qed.

Lemma server_start_up e :
  SNotify UP ∈ (server_start e).1 →
  (s_project e = Some true → SPhpReady ∈ (server_start e).1) ∧
  ∃ port n, SHttp port ∈ (server_start e).1 ∧
    (s_err_chan e = None → SPid port (if n : bool then "http" else "https") ∈ (server_start e).1).
Proof.
  unfold server_start.
  intros [H|(c & Hc & H)]%elem_of_stage_bind; [by apply boot_quiet in H|].
  apply elem_of_stage_bind in H as [H|([] & Hb & H)]; [by apply background_quiet in H|].
  apply elem_of_stage_bind in H as [H|([] & Hd & H)]; [by apply domains_quiet in H|].
  apply elem_of_stage_bind in H as [H|([n p12] & Ht & H)]; [by apply tls_quiet in H|].
  apply elem_of_stage_bind in H as [H|([] & Hp & H)]; [by apply php_quiet in H|].
  apply elem_of_stage_bind in H as [H|([] & Hh & _)]; [by apply http_quiet in H|].
  assert (Hin : ∀ x, x ∈ (php_stage e).1 ∨ x ∈ (http_stage e n).1 → x ∈ (server_start e).1).
  { intros x Hx. unfold server_start. do 4 (apply elem_of_stage_bind; right; eexists; split; [eassumption|]).
    apply elem_of_stage_bind. destruct Hx as [Hx|Hx]; [by left|right]. eexists. split; [eassumption|].
    apply elem_of_stage_bind. by left. }
  split.
  - intros Hpr. apply Hin. left. by apply php_ready.
  - destruct (http_listens _ _ Hh) as (port & _ & H1 & H2). exists port, n. split; [|intros Hx]; apply Hin; right; auto.
Qed.

(** ** A daemon that reports success serves *)

Definition notes (es : list start_effect) : list string :=
  omap (λ x, match x with SNotify s => Some s | _ => None end) es.
Definition notified (evs : list bg_event) : list string :=
  omap (λ e, match e with Notify s _ => Some s | _ => None end) evs.

Definition is_server (x : start_effect) : bool :=
  match x with SHttp _ | SPid _ _ | SPhpStart | SWorkers => true | _ => false end.

Lemma boot_no_server e x : x ∈ (boot_stage e).1 → is_server x = false.
Proof.
  unfold boot_stage, check. cbn. destruct (s_dir e), (s_running e), (s_child e), (s_cleanup e), (s_boot e), (s_log e); cbn;
    destruct (s_config e); cbn; rewrite ?elem_of_cons, ?elem_of_nil; naive_solver.
Qed.

Lemma parent_stops e c : (boot_stage e).2 = Go c → Daemon c = true → s_child e = false → s_vardir e = true →
  s_background e = BgUp →
  (server_start e).2 = Done InBackground ∧ Forall (λ x, is_server x = false) (server_start e).1.
Proof.
  intros Hb Hd Hch Hv Hbg. unfold server_start. pose proof (boot_no_server e) as Hns.
  destruct (boot_stage e) as [es r]. cbn in Hb, Hns. subst r. cbn.
  unfold background_stage. rewrite Hd, Hch, Hv, Hbg. cbn. split; [done|].
  apply Forall_app. split; [by apply Forall_forall|]. by repeat constructor.
Qed.


Definition ex_config : config :=
  mkConf "/p" true true (mkHttp "" "" 0 8000 "127.0.0.1" false true "" "" false false) ∅ [].
Definition ex_start (is_child : bool) : start_env :=
  mkStart true false is_child true true true (Some ex_config) true BgUp true true
    (mkCA true false NotExist true true) "/h" (Some true) true true (PhpPid true) (Some 8000%Z) None true (Shutdown true).


(** ** Workers and Docker Compose *)

Definition startable (w : worker_env) : bool := negb (w_running w) && w_runner w && w_env w.
(** A worker runs. *)
Definition runs (s : launch) (name : string) : Prop := snd <$> l_workers s !! name = Some WRuns.

(** The counter is what is missing of Docker Compose, a goroutine exists only for a
    worker that did not run before, and only the one of a startable worker gets to
    run, after Docker Compose for the others. *)
Record launch_ok (workers : list (string * worker_env)) (s : launch) : Prop := mkLaunchOk {
  lo_wg : l_wg s = (if configured workers && l_hook s then 1 else 0)%Z;
  lo_hook : l_hook s = false → runs s DockerComposeWorkerKey;
  lo_todo : ∀ kv, kv ∈ l_todo s → kv ∈ workers;
  lo_main : l_main s ≠ WgPanicked;
  lo_worker : ∀ name w pc, l_workers s !! name = Some (w, pc) →
    (name, w) ∈ workers ∧ w_running w = false ∧
    (pc = WRuns → w_runner w = true ∧ w_env w = true ∧
       (name = DockerComposeWorkerKey ∨ configured workers = false ∨ l_hook s = false)) ∧
    (pc = WGetEnv → w_runner w = true) ∧
    (pc = WSending → w_runner w = true ∧ w_env w = false) ∧
    (pc = WWaiting → w_runner w = true ∧ w_env w = true ∧ name ≠ DockerComposeWorkerKey ∧ configured workers = true) }.

Lemma launch_ok_init workers : launch_ok workers (launch_init workers).
Proof. split; cbn; try done. by destruct (configured workers). Qed.

Lemma runs_insert s name w pc pc' k :
  l_workers s !! name = Some (w, pc) → pc ≠ WRuns → runs s k →
  snd <$> <[name := (w, pc')]> (l_workers s) !! k = Some WRuns.
Proof.
  intros Hs Hpc Hk. unfold runs in Hk. destruct (decide (name = k)) as [->|]; [|by rewrite lookup_insert_ne].
  rewrite Hs in Hk. by injection Hk.
Qed.

Lemma configured_elem workers w : (DockerComposeWorkerKey, w) ∈ workers → configured workers = true.
Proof. intros H. apply bool_decide_eq_true_2, list_elem_of_fmap. by exists (DockerComposeWorkerKey, w). Qed.

Lemma worker_step_ok workers s name w pc s' :
  launch_ok workers s → l_workers s !! name = Some (w, pc) →
  worker_step (configured workers) s name w pc = Some s' → launch_ok workers s'.
Proof.
  intros [Hwg Hh Ht Hm Hw] Hs Hn. destruct (Hw _ _ _ Hs) as (Hin & Hr & Hpc).
  assert (Hset : ∀ pc' err, pc ≠ WRuns →
    ((pc' = WRuns → w_runner w = true ∧ w_env w = true ∧
       (name = DockerComposeWorkerKey ∨ configured workers = false ∨ l_hook s = false)) ∧
     (pc' = WGetEnv → w_runner w = true) ∧ (pc' = WSending → w_runner w = true ∧ w_env w = false) ∧
     (pc' = WWaiting → w_runner w = true ∧ w_env w = true ∧ name ≠ DockerComposeWorkerKey ∧ configured workers = true)) →
    launch_ok workers (mkLaunch (l_todo s) (<[name := (w, pc')]> (l_workers s)) (l_wg s) (l_hook s) err (l_main s))).
  { intros pc' err Hne Hp. split; cbn; try done; [intros Hf; exact (runs_insert s name w pc pc' _ Hs Hne (Hh Hf))|].
    intros k w' p [[<- [= <- <-]]|[_ Hk]]%lookup_insert_Some; [done|by apply Hw]. }
  destruct pc; cbn in Hn; try done.
  - injection Hn as <-. apply Hset; [done|]. destruct (w_runner w); naive_solver.
  - injection Hn as <-. apply Hset; [done|]. destruct (w_env w) eqn:E; cbn; [|naive_solver].
    case_bool_decide; [naive_solver|]. destruct (configured workers); naive_solver.
  - destruct (l_err s); [done|]. injection Hn as <-. apply Hset; naive_solver.
  - case_bool_decide as Hz; [|done]. injection Hn as <-. apply Hset; [done|].
    assert (l_hook s = false) by (destruct Hpc as (_ & _ & _ & Hpc); destruct (Hpc eq_refl) as (_ & _ & _ & Hc);
      rewrite Hc in Hwg; destruct (l_hook s); [cbn in Hwg; lia|done]). naive_solver.
Qed.

Lemma launch_ok_next workers s e s' :
  (∀ kv, kv ∈ l_todo s → l_workers s !! kv.1 = None) →
  launch_ok workers s → launch_next (configured workers) s e = Some s' → launch_ok workers s'.
Proof.
  intros Hfresh Hok Hn. unfold launch_next in Hn. destruct e as [| |name| |].
  - destruct (l_main s) eqn:Em; try done; destruct (l_todo s) as [|[name w] todo] eqn:Et; try done.
    injection Hn as <-. destruct Hok as [Hwg Hh Ht Hm Hw]. rewrite Et in Ht.
    assert (Hnew : l_workers s !! name = None) by (apply (Hfresh (name, w)); by left).
    destruct (w_running w) eqn:Er; split; cbn; try done; try (intros kv Hkv; apply Ht; by right).
    + intros Hf. specialize (Hh Hf). unfold runs in *. cbn.
      destruct (decide (name = DockerComposeWorkerKey)) as [->|]; [by rewrite Hnew in Hh|by rewrite lookup_insert_ne].
    + intros k w' pc [[<- [= <- <-]]|[_ Hk]]%lookup_insert_Some; [|by apply Hw].
      split_and!; [apply Ht; by left|done|..]; done.
  - destruct (l_main s) eqn:Em; try done; destruct (l_todo s) eqn:Et; try done. injection Hn as <-.
    destruct Hok as [Hwg Hh Ht Hm Hw]. split; cbn; try done. by intros kv ?%not_elem_of_nil.
  - destruct (l_workers s !! name) as [[w pc]|] eqn:Es; [|by destruct (l_main s)].
    apply (worker_step_ok workers s name w pc); [done..|]. by destruct (l_main s).
  - destruct (l_workers s !! DockerComposeWorkerKey) as [[w pc]|] eqn:Es; [|by destruct (l_main s)].
    destruct pc; try (by destruct (l_main s)).
    destruct (l_hook s) eqn:Eh; [|destruct (l_main s); try done; by injection Hn as <-].
    destruct Hok as [Hwg Hh Ht Hm Hw]. destruct (Hw _ _ _ Es) as (Hin & _).
    rewrite (configured_elem _ _ Hin), Eh in Hwg. cbn in Hwg.
    assert (Hs' : s' = mkLaunch (l_todo s) (l_workers s) 0 false (l_err s) (l_main s)).
    { rewrite Hwg in Hn. destruct (l_main s); try done; by injection Hn as <-. }
    subst s'. split; cbn; try done.
    + by rewrite andb_false_r.
    + intros _. unfold runs. cbn. by rewrite Es.
    + intros k w' pc Hk. destruct (Hw _ _ _ Hk) as (? & ? & H1 & ?). split_and!; naive_solver.
  - destruct (l_main s); try done. destruct (l_err s); [|done]. injection Hn as <-.
    destruct Hok as [Hwg Hh Ht Hm Hw]. by split.
Qed.

(** The loop visits every worker once. *)
Definition unvisited (s : launch) : Prop :=
  NoDup (l_todo s).*1 ∧ ∀ kv, kv ∈ l_todo s → l_workers s !! kv.1 = None.

Lemma worker_step_others compose s name w pc s' :
  l_workers s !! name = Some (w, pc) → worker_step compose s name w pc = Some s' →
  l_todo s' = l_todo s ∧ l_hook s' = l_hook s ∧ ∀ k, l_workers s' !! k = None ↔ l_workers s !! k = None.
Proof.
  intros Hs Hn.
  assert (Hset : ∀ pc' k, <[name := (w, pc')]> (l_workers s) !! k = None ↔ l_workers s !! k = None).
  { intros pc' k. rewrite lookup_insert_None. split; [by intros []|]. intros Hk. split; [done|congruence]. }
  destruct pc; cbn in Hn; try done; [..|destruct (l_err s)|case_bool_decide]; simplify_eq; by cbn.
Qed.

Lemma launch_next_others compose s e s' : unvisited s → launch_next compose s e = Some s' →
  unvisited s' ∧ (l_hook s' = false → l_hook s = false ∨ e = ComposeSucceeds).
Proof.
  intros [Hnd Hf] Hn. unfold launch_next in Hn. destruct e as [| |name| |].
  - destruct (l_main s); try done; destruct (l_todo s) as [|[name w] todo] eqn:Et; try done. injection Hn as <-.
    apply NoDup_cons in Hnd as [Hnew Hnd]. split; [|by left]. split; [done|]. cbn. intros kv Hkv.
    assert (Hk : l_workers s !! kv.1 = None) by (apply Hf; by right).
    destruct (w_running w); [done|]. rewrite lookup_insert_ne; [done|]. intros E. apply Hnew. cbn. rewrite E.
    apply list_elem_of_fmap. by exists kv.
  - destruct (l_main s); try done; destruct (l_todo s) eqn:Et; try done. injection Hn as <-.
    split; [|by left]. split; [constructor|]. by intros kv ?%not_elem_of_nil.
  - destruct (l_workers s !! name) as [[w pc]|] eqn:Es; [|by destruct (l_main s)].
    assert (Hw : worker_step compose s name w pc = Some s') by (by destruct (l_main s)).
    destruct (worker_step_others _ _ _ _ _ _ Es Hw) as (H1 & H2 & H3). rewrite H2. split; [|by left].
    split; [by rewrite H1|]. intros kv. rewrite H1, H3. apply Hf.
  - split; [|by right]. destruct (l_workers s !! _) as [[w pc]|]; [|by destruct (l_main s)].
    destruct pc; try (by destruct (l_main s)). destruct (l_main s), (l_hook s); try done; by injection Hn as <-.
  - destruct (l_main s); try done. destruct (l_err s); [|done]. injection Hn as <-. split; [done|by left].
Qed.

Lemma launch_run_ok workers es s s' : unvisited s → launch_ok workers s →
  launch_run (configured workers) s es = Some s' →
  launch_ok workers s' ∧ (l_hook s' = false → l_hook s = false ∨ ComposeSucceeds ∈ es).
Proof.
  revert s. induction es as [|e es IH]; intros s Hu Hok Hr; cbn in Hr; [injection Hr as <-; auto|].
  destruct (launch_next _ s e) as [s1|] eqn:E; cbn in Hr; [|done].
  destruct (launch_next_others _ _ _ _ Hu E) as [Hu1 Hh1].
  destruct (IH s1 Hu1) as [Hok' Hh']; [|done|].
  { by apply (launch_ok_next workers s e); [apply Hu|..]. }
  split; [done|]. intros H. destruct (Hh' H) as [H1|H1]; [destruct (Hh1 H1) as [?| ->]|]; rewrite ?elem_of_cons; auto.
Qed.

Lemma start_workers_ok workers es s : NoDup workers.*1 → start_workers workers es = Some s →
  launch_ok workers s ∧ (l_hook s = false → ComposeSucceeds ∈ es).
Proof.
  intros Hnd Hr. destruct (launch_run_ok workers es (launch_init workers) s) as [H1 H2].
  - by split.
  - apply launch_ok_init.
  - done.
  - split; [done|]. intros H. by destruct (H2 H).
Qed.


Definition ex_workers : list (string * worker_env) :=
  [("yarn", mkWorkerEnv false true true); ("docker_compose", mkWorkerEnv true true true)].


(** ** The order of the signals *)

Definition is_kill (x : stop_effect) : bool := match x with Kill _ => true | _ => false end.

(** C19: when a project is stopped, the web server is interrupted before any
    worker is stopped and is never stopped itself; a worker is stopped only when
    it still runs then, and nothing is signalled when nothing runs. *)
Theorem stop_project_order pids :
  ∃ before kills,
    (stop_project pids).1 = before ++ kills ∧
    Forall (λ x, is_kill x = false) before ∧ Forall (λ x, is_kill x = true) kills ∧
    (∀ p, p ∈ pids → x_webserver p = true → x_running p = true → Interrupt (x_pid p) ∈ before) ∧
    (∀ n, Kill n ∈ kills → ∃ p, p ∈ pids ∧ x_pid p = n ∧ x_webserver p = false ∧ x_running2 p = true) ∧
    ((∀ p, p ∈ pids → x_running p = false) → (stop_project pids).1 = []).
Proof.
  unfold stop_project. cbn. set (n := length (List.filter x_running pids)).
  exists (pids ≫= first_loop), (if n =? 0 then [] else pids ≫= second_loop). split; [done|]. split_and!.
  - apply Forall_forall. intros x (p & Hx & _)%list_elem_of_bind. unfold first_loop in Hx.
    destruct (x_running p), (x_webserver p); cbn in Hx; rewrite ?elem_of_cons, ?elem_of_nil in Hx; naive_solver.
  - destruct (n =? 0); [constructor|]. apply Forall_forall. intros x (p & Hx & _)%list_elem_of_bind. unfold second_loop in Hx.
    destruct (_ && _); [by apply list_elem_of_singleton in Hx as ->|by apply not_elem_of_nil in Hx].
  - intros p Hp Hw Hr. apply list_elem_of_bind. exists p. unfold first_loop. rewrite Hw, Hr. set_solver.
  - intros k Hk. destruct (n =? 0); [by apply not_elem_of_nil in Hk|].
    apply list_elem_of_bind in Hk as (p & Hx & Hp). unfold second_loop in Hx.
    destruct (x_running2 p) eqn:E1, (x_webserver p) eqn:E2; cbn in Hx; try (by apply not_elem_of_nil in Hx).
    apply list_elem_of_singleton in Hx as [= ->]. eauto.
  - intros Hall. cut (n = 0 ∧ pids ≫= first_loop = []); [by intros [-> ->]|].
    unfold n. clear n. induction pids as [|p pids IH]; [done|]. cbn. unfold first_loop at 1.
    rewrite (Hall p) by (by left). cbn. apply IH. intros q Hq. apply Hall. by right.
Qed.
