(* ===== verification/Git.v ===== *)
(** * Calls of git ([git/])

    [doExecGit] runs git and turns its exit into an error; the other functions
    build its arguments and read its output.  The program is a parameter: what
    it answers depends on the calls made so far.  [gitOutputWriter] indents the
    lines of a running git; its output does not depend on how the data is cut
    into writes ([Write_stream]). *)

From stdpp Require Import base tactics option list gmap strings pretty.
From Stdlib Require Import ZArith Lia Ascii.
From S2P Require Import Prelude GoStrings FilePath.

Record call := mkCall { g_cwd : string; g_args : list string; g_quiet : bool }.

(** How [cmd.Run] ends: an error that is no [*exec.ExitError] is, among others, a
    git that cannot be started. *)
Inductive run_err := RunOk | ExitError (status : Z) | RunError.
Inductive git_error := CommandFailed | GitExit (status : Z) | RefRequired.

Section git.
  (** What git prints and how it ends, after the calls made so far (the last one
      is the call itself). *)
  Context (git : list call → string * run_err).

(** The calls so far, the captured output and the error; what is not quiet goes
    to the terminal. *)
Definition doExecGit (h : list call) (cwd : string) (args : list string) (quiet : bool)
    : list call * (string * option git_error) :=
  let h' := h ++ [mkCall cwd args quiet] in
  let '(out, err) := git h' in
  let buf := if quiet then out else "" in
  (h', match err with
       | ExitError status => (buf, Some (if bool_decide (status = 1%Z) then CommandFailed else GitExit status))
       | _ => (buf, None)
       end).
Definition execGitQuiet (h : list call) (cwd : string) (args : list string) := doExecGit h cwd args true.
Definition execGit (h : list call) (cwd : string) (args : list string) : list call * option git_error :=
  let '(h', (_, err)) := doExecGit h cwd args false in (h', err).

(** ** Repositories *)

Definition Init (h : list call) (dir : string) (forceMainGitBranchName debug : bool)
    : list call * (option string * option git_error) :=
  let '(h1, (content, err)) := doExecGit h dir ["init"] (negb debug) in
  match err with
  | Some e => (h1, (Some content, Some e))
  | None =>
    if forceMainGitBranchName then
      let '(h2, (content, err)) := doExecGit h1 dir ["checkout"; "-b"; "main"] (negb debug) in (h2, (Some content, err))
    else (h1, (None, None))
  end.

Fixpoint exec_all (h : list call) (dir : string) (quiet : bool) (cmds : list (list string))
    : list call * (option string * option git_error) :=
  match cmds with
  | [] => (h, (None, None))
  | cmd :: cmds =>
    let '(h', (content, err)) := doExecGit h dir cmd quiet in
    match err with Some e => (h', (Some content, Some e)) | None => exec_all h' dir quiet cmds end
  end.
Definition AddAndCommit (h : list call) (dir : string) (files : list string) (msg : string) (debug : bool) :=
  exec_all h dir (negb debug) ["add" :: files; ["commit"; "-m"; msg]].

Definition ResetHard (h : list call) (cwd reference : string) : list call * option git_error :=
  let '(h', (_, err)) := execGitQuiet h cwd ["reset"; "--hard"; reference] in (h', err).

(** ** Remotes and branches *)

Definition Fetch (h : list call) (cwd remote branch : string) : list call * option git_error :=
  let args := ["fetch"; remote] ++ (if bool_decide (branch = "") then [] else [branch]) in
  let '(h', (_, err)) := execGitQuiet h cwd args in (h', err).
Definition Clone (h : list call) (url dir : string) : list call * option git_error :=
  execGit h (Dir dir) ["clone"; url; dir].
Definition Push (h : list call) (cwd remote ref remoteRef : string) : list call * option git_error :=
  if bool_decide (ref = "") then (h, Some RefRequired)
  else
    let ref := if bool_decide (remoteRef = "") then ref else ref +:+ ":" +:+ remoteRef in
    execGit h cwd ["push"; "--progress"; remote; ref].

(** [strings.Trim(s, " \n")]. *)
Definition is_blank (c : ascii) : bool := bool_decide (c = " "%char ∨ c = "010"%char).
Definition trim_blank (s : string) : string := drop_while_end is_blank (drop_while is_blank s).

(** The branch of the upstream [remote/branch] when the remote is one of the
    names. *)
Definition upstream_branch (upstream : string) (remoteNames : list string) : string :=
  if negb (Contains upstream "/") then ""
  else match SplitN2 upstream "/" with
       | [remote; branch] => if bool_decide (remote ∈ remoteNames) then branch else ""
       | _ => ""
       end.
(** What is read from the output of a quiet call; nothing when it fails. *)
Definition query (h : list call) (cwd : string) (args : list string) (read : string → string) : list call * string :=
  let '(h', (out, err)) := execGitQuiet h cwd args in
  (h', match err with None => read (trim_blank out) | Some _ => "" end).
Definition GetUpstreamBranch (h : list call) (cwd : string) (remoteNames : list string) :=
  query h cwd ["rev-parse"; "--abbrev-ref"; "--symbolic-full-name"; "@{u}"] (λ out, upstream_branch out remoteNames).
Definition GetRemoteURL (h : list call) (cwd remote : string) :=
  query h cwd ["config"; "--get"; "remote." +:+ remote +:+ ".url"] id.
Definition GetCurrentBranch (h : list call) (cwd : string) := query h cwd ["symbolic-ref"; "--short"; "HEAD"] id.
End git.

(** ** The writer that indents *)

Record gitOutputWriter := mkWriter { w_out : string; w_buf : string }.

Definition is_newline (c : ascii) : bool := bool_decide (c = "013"%char ∨ c = "010"%char).

(** [bytes.IndexAny(b, "\r\n")]. *)
Fixpoint IndexAny (b : string) : option nat :=
  match b with
  | "" => None
  | String c b => if is_newline c then Some 0 else S <$> IndexAny b
  end.

(** One write to the terminal; [ok] says whether it succeeds after what was
    written before. *)
Definition out_write (ok : string → bool) (w : gitOutputWriter) (s : string) : gitOutputWriter * bool :=
  if ok (w_out w) then (mkWriter (w_out w +:+ s) (w_buf w), true) else (w, false).

(** The loop of [scan]: a line with its end is taken from the buffer, indented
    unless it is empty. *)
Fixpoint scan (fuel : nat) (ok : string → bool) (w : gitOutputWriter) : option (gitOutputWriter * bool) :=
  match fuel with
  | 0 => None
  | S fuel =>
    match IndexAny (w_buf w) with
    | None => Some (w, true)
    | Some pos =>
      let b := stake (S pos) (w_buf w) in
      let w := mkWriter (w_out w) (sdrop (S pos) (w_buf w)) in
      let '(w, good) := if 1 <? slen b then out_write ok w "  " else (w, true) in
      if negb good then Some (w, false)
      else let '(w, good) := out_write ok w b in
           if good then scan fuel ok w else Some (w, false)
    end
  end.
Definition scan_fuel (w : gitOutputWriter) : nat := S (slen (w_buf w)).
Definition Write (ok : string → bool) (w : gitOutputWriter) (p : string) : option (gitOutputWriter * (nat * bool)) :=
  let w := mkWriter (w_out w) (w_buf w +:+ p) in
  '(w, good) ← scan (scan_fuel w) ok w; Some (w, (slen p, good)).

(** A command whose output comes in pieces; it stops at the first error. *)
Fixpoint Writes (ok : string → bool) (w : gitOutputWriter) (ps : list string) : option (gitOutputWriter * bool) :=
  match ps with
  | [] => Some (w, true)
  | p :: ps =>
    match Write ok w p with
    | Some (w, (_, true)) => Writes ok w ps
    | Some (w, (_, false)) => Some (w, false)
    | None => None
    end
  end.

(** ** What the writer is meant to do, character by character *)

Definition indent (l : string) : string := if 1 <? slen l then "  " +:+ l else l.
Fixpoint feed (w : gitOutputWriter) (s : string) : gitOutputWriter :=
  match s with
  | "" => w
  | String c s =>
    let l := w_buf w +:+ String c "" in
    feed (if is_newline c then mkWriter (w_out w +:+ indent l) "" else mkWriter (w_out w) l) s
  end.

Lemma feed_app w s t : feed w (s +:+ t) = feed (feed w s) t.
Proof. revert w. induction s as [|c s IH]; intros w; [done|]. cbn. apply IH. Qed.

Definition plain (s : string) : bool := sforall (λ c, negb (is_newline c)) s.

Lemma feed_plain w s : plain s = true → feed w s = mkWriter (w_out w) (w_buf w +:+ s).
Proof.
  revert w. induction s as [|c s IH]; intros [out buf] H; cbn in *; [by rewrite sapp_nil_r|].
  apply andb_true_iff in H as [Hc%negb_true_iff Hs]. rewrite Hc, IH by done. cbn. by rewrite sapp_assoc.
Qed.

Lemma IndexAny_None b : IndexAny b = None → plain b = true.
Proof.
  induction b as [|c b IH]; [done|]. cbn. destruct (is_newline c); [done|].
  destruct (IndexAny b); [done|]. auto.
Qed.

Lemma IndexAny_Some b pos : IndexAny b = Some pos →
  ∃ l c, stake (S pos) b = l +:+ String c "" ∧ plain l = true ∧ is_newline c = true ∧
         b = (l +:+ String c "") +:+ sdrop (S pos) b.
Proof.
  revert pos. induction b as [|c b IH]; intros pos; [done|]. cbn [IndexAny]. destruct (is_newline c) eqn:Hc.
  - intros [= <-]. exists "", c. by destruct b.
  - destruct (IndexAny b) as [i|] eqn:E; [|done]. intros [= <-].
    destruct (IH i) as (l & d & H1 & H2 & H3 & H4); [done|]. exists (String c l), d.
    split_and!; [|cbn; rewrite Hc|done|]; [|done|].
    + change (String c (stake (S i) b) = String c (l +:+ String d "")). by rewrite H1.
    + change (String c b = String c ((l +:+ String d "") +:+ sdrop (S i) b)). by f_equal.
Qed.

Lemma out_write_indent w l : (out_write (λ _, true) w l).1 = mkWriter (w_out w +:+ l) (w_buf w).
Proof. done. Qed.

(** Reading the buffer is feeding it to an empty one. *)
Lemma scan_feed fuel out buf :
  slen buf < fuel → scan fuel (λ _, true) (mkWriter out buf) = Some (feed (mkWriter out "") buf, true).
Proof.
  revert out buf. induction fuel as [|fuel IH]; intros out buf Hf; [lia|]. cbn [scan w_buf w_out].
  destruct (IndexAny buf) as [pos|] eqn:E.
  - destruct (IndexAny_Some _ _ E) as (l & c & Ht & Hl & Hc & Hb). rewrite Ht.
    assert (Hlen : slen (sdrop (S pos) buf) < fuel).
    { rewrite slen_sdrop. destruct buf; cbn in *; [done|lia]. }
    set (rest := sdrop (S pos) buf) in *.
    assert (Hfeed : feed (mkWriter out "") buf = feed (mkWriter (out +:+ indent (l +:+ String c "")) "") rest).
    { rewrite Hb, !feed_app, (feed_plain _ l) by done. cbn. by rewrite Hc. }
    rewrite Hfeed. unfold indent.
    destruct (1 <? slen (l +:+ String c "")); cbn; rewrite IH by done; [|done]. by rewrite sapp_assoc.
  - by rewrite feed_plain by (by apply IndexAny_None).
Qed.

Lemma Write_feed w p : plain (w_buf w) = true →
  Write (λ _, true) w p = Some (feed w p, (slen p, true)).
Proof.
  destruct w as [out buf]. intros Hp. unfold Write, scan_fuel. cbn [w_out w_buf].
  rewrite scan_feed by lia. cbn. rewrite feed_app, (feed_plain _ buf) by done. done.
Qed.

Lemma plain_app s t : plain (s +:+ t) = plain s && plain t.
Proof. unfold plain. induction s as [|c s IH]; [done|]. cbn [String.append sforall]. by rewrite sapp_cons; cbn; rewrite IH, andb_assoc. Qed.

Lemma feed_buf_plain w s : plain (w_buf w) = true → plain (w_buf (feed w s)) = true.
Proof.
  revert w. induction s as [|c s IH]; intros w H; [done|]. cbn. apply IH.
  destruct (is_newline c) eqn:E; [done|]. cbn. by rewrite plain_app, H; cbn; rewrite E.
Qed.

Definition concat_all (ps : list string) : string := foldr String.append "" ps.

(** C27: however git cuts its output into writes, what the terminal shows is the
    same: every complete line with its end, indented unless it is empty, and the
    incomplete line is kept until its end comes. *)
Theorem Write_stream w ps :
  plain (w_buf w) = true → Writes (λ _, true) w ps = Some (feed w (concat_all ps), true).
Proof.
  revert w. induction ps as [|p ps IH]; intros w Hp; [done|]. cbn [Writes concat_all foldr].
  rewrite Write_feed, feed_app by done. by apply IH, feed_buf_plain.
Qed.

Lemma Write_stream_witness :
  (fst <$> Writes (λ _, true) (mkWriter "" "") ["To g"; "it" +:+ newline +:+ newline +:+ "Do"; "ne"]) =
  Some (mkWriter ("  To git" +:+ newline +:+ newline) "Done").
Proof. by rewrite Write_stream. Defined.

(** ** Errors and remotes *)

(** An exit status of git is reported, but a git that could not be started
    is not: then every operation succeeds, and commits and clones are reported
    that were never made. *)
Theorem git_missing git h dir files msg url remote ref debug main :
  (∀ h, (git h).2 = RunError) →
  (Init git h dir main debug).2.2 = None ∧
  AddAndCommit git h dir files msg debug =
    (h ++ [mkCall dir ("add" :: files) (negb debug); mkCall dir ["commit"; "-m"; msg] (negb debug)], (None, None)) ∧
  (Clone git h url dir).2 = None ∧ (ref ≠ "" → (Push git h dir remote ref "").2 = None).
Proof.
  intros Hg. assert (Hx : ∀ h cwd args quiet, (doExecGit git h cwd args quiet).2.2 = None).
  { intros h' cwd args quiet. unfold doExecGit. specialize (Hg (h' ++ [mkCall cwd args quiet])).
    destruct (git _) as [out []]; cbn in *; done. }
  assert (Hh : ∀ h cwd args quiet, (doExecGit git h cwd args quiet).1 = h ++ [mkCall cwd args quiet]).
  { intros. unfold doExecGit. by destruct (git _). }
  assert (He : ∀ h cwd args, (execGit git h cwd args).2 = None).
  { intros h' cwd args. unfold execGit. specialize (Hx h' cwd args false). by destruct (doExecGit _ _ _ _ _) as [? []]. }
  split_and!.
  - unfold Init. pose proof (Hx h dir ["init"] (negb debug)) as H1. destruct (doExecGit git h dir ["init"] _) as [h1 [c e]].
    cbn in H1. subst e. destruct main; [|done].
    pose proof (Hx h1 dir ["checkout"; "-b"; "main"] (negb debug)) as H2. by destruct (doExecGit _ _ _ _ _) as [? []].
  - unfold AddAndCommit. cbn [exec_all].
    pose proof (Hx h dir ("add" :: files) (negb debug)) as H1. pose proof (Hh h dir ("add" :: files) (negb debug)) as H1'.
    destruct (doExecGit git h dir ("add" :: files) _) as [h1 [c e]]. cbn in H1, H1'. subst e h1.
    set (h1 := h ++ _). pose proof (Hx h1 dir ["commit"; "-m"; msg] (negb debug)) as H2.
    pose proof (Hh h1 dir ["commit"; "-m"; msg] (negb debug)) as H2'.
    destruct (doExecGit git h1 dir _ _) as [h2 [c2 e2]]. cbn in H2, H2'. subst e2 h2. unfold h1. by rewrite <- app_assoc.
  - apply He.
  - intros Hr. unfold Push. rewrite bool_decide_eq_false_2 by done. apply He.
Qed.

Lemma git_missing_witness : (AddAndCommit (λ _, ("", RunError)) [] "/p" ["."] "Initial" false).2.2 = None.
Proof. by rewrite (proj1 (proj2 (git_missing (λ _, ("", RunError)) [] "/p" ["."] "Initial" "" "" "" false false (λ _, eq_refl)))). Defined.

(** A branch name may contain slashes; the name of its remote may not. *)
Theorem upstream_branch_spec remote branch remoteNames :
  lacks "/" remote = true →
  upstream_branch (remote +:+ "/" +:+ branch) remoteNames = if bool_decide (remote ∈ remoteNames) then branch else "".
Proof.
  intros Hl. unfold upstream_branch.
  assert (Contains (remote +:+ "/" +:+ branch) "/" = true) as -> by (apply Contains_spec; by exists remote, branch).
  unfold SplitN2. cbn [negb]. change ("/" +:+ branch) with (String "/" branch). rewrite (Index_char "/") by done.
  rewrite stake_app. replace (slen remote + slen "/") with (slen (remote +:+ "/")) by (by rewrite slen_app).
  change (String "/" branch) with ("/" +:+ branch). by rewrite <- sapp_assoc, sdrop_app.
Qed.

(** Only an upstream of one of the remotes gives a branch. *)
Theorem upstream_branch_sound upstream remoteNames branch :
  branch ≠ "" → upstream_branch upstream remoteNames = branch →
  ∃ remote, remote ∈ remoteNames ∧ upstream = remote +:+ "/" +:+ branch.
Proof.
  unfold upstream_branch, SplitN2. intros Hb. destruct (negb _); [done|].
  destruct (Index upstream "/") as [i|] eqn:E; [|done]. case_bool_decide as Hin; [|done]. intros Hd.
  apply Index_Some in E as (r & Hr & Hi). exists (stake i upstream). split; [done|].
  assert (Hs : slen (stake i upstream +:+ "/") = i + slen "/") by (rewrite slen_app, slen_stake; cbn in *; lia).
  rewrite Hr at 1. do 2 f_equal. rewrite Hr, <- Hs, <- sapp_assoc in Hd at 1. by rewrite sdrop_app in Hd.
Qed.
