(* ===== verification/Book.v ===== *)
(** * The companion of the book ([book/])

    [Checkout] brings the repository of the book to a step: it asks before it
    throws anything away, cleans the working copy, checks out the step and
    starts what the step needs.  It is a program over the history of what was
    done: the answers of the commands, of the user and of the file system are
    functions of that history, since every command may change them.

    [Checkout_confirmed] shows that nothing is thrown away without consent,
    [Checkout_containers] on what the start of the containers depends. *)

From stdpp Require Import base tactics option list gmap strings pretty.
From Stdlib Require Import ZArith Lia Ascii.
From S2P Require Import Prelude GoStrings FilePath.

Record Book := mkBook { b_Dir : string; b_Debug : bool; b_Force : bool; b_AutoConfirm : bool }.

Inductive act :=
| Run (args : list string) (endpoint : option string)
| Chdir (dir : string)
| Create (path : string)
| Ask (question : string)
| Sleep (seconds : nat).
#[export] Instance act_dec : EqDecision act.
Proof. solve_decision. Defined.

(** The answers, after what was done (the last element is the question, the
    command or the file itself). *)
Record world := mkWorld {
  run : list act → bool;
  output : list act → string;
  answer : list act → bool;
  create : list act → bool;
  has : list act → string → bool;
  glob : list act → string → bool;
  docker_compose : option string }.

(** Why a program ends early. *)
Inductive ending := NotConfirmed | CommandError | NoEndpoint.

(** What is done after a history, and the end of the program or a value. *)
Definition prog (A : Type) : Type := list act → list act * (ending + A).
#[export] Instance prog_ret : MRet prog := λ A a h, ([], inr a).
#[export] Instance prog_bind : MBind prog := λ A B f m h,
  match m h with
  | (t, inr a) => let '(t', r) := f a (h ++ t) in (t ++ t', r)
  | (t, inl e) => (t, inl e)
  end.
Definition act_ {A} (a : act) (r : list act → ending + A) : prog A := λ h, ([a], r (h ++ [a])).
Definition do (a : act) : prog unit := act_ a (λ _, inr tt).
Definition peek {A} (f : list act → A) : prog A := λ h, ([], inr (f h)).
Definition end_ {A} (e : ending) : prog A := λ _, ([], inl e).

Section book.
  Context (w : world) (b : Book).

(** [executeCommand]: an error ends the program unless errors are skipped. *)
Definition executeCommand (args : list string) (skipErrors : bool) (env : option string) : prog unit :=
  act_ (Run args env) (λ h, if run w h || skipErrors then inr tt else inl CommandError).
Definition try (args : list string) : prog bool := act_ (Run args None) (λ h, inr (run w h)).
Definition AskConfirmation (q : string) : prog bool := act_ (Ask q) (λ h, inr (answer w h)).
Definition env_local : prog unit :=
  act_ (Create (fjoin [b_Dir b; ".env.local"])) (λ h, if create w h then inr tt else inl CommandError).
Definition stat (elems : list string) : prog bool := peek (λ h, has w h (fjoin (b_Dir b :: elems))).
Definition dockerComposeBin : list string :=
  match docker_compose w with Some path => [path] | None => ["docker"; "compose"] end.

(** A question that [Force] answers. *)
Definition confirm (skip : bool) (q : string) : prog unit :=
  if skip then mret tt
  else ok ← AskConfirmation q; if ok : bool then mret tt else end_ NotConfirmed.

Definition not_committed : string := "There are not yet committed changes in the repository, do you want to discard them?".
Definition un_tracked : string := "There are un-tracked files in the repository, do you want to discard them?".
Definition all_removed : string := "All current code, data, and containers are going to be REMOVED, do you confirm?".

(** The questions. *)
Definition consent_stage : prog unit :=
  _ ← do (Chdir (b_Dir b));
  clean ← try ["git"; "diff-index"; "--quiet"; "HEAD"; "--"];
  _ ← confirm (clean || b_Force b) not_committed;
  listed ← act_ (Run ["git"; "ls-files"; "--exclude-standard"; "--others"] None) (λ h, inr (run w h && bool_decide (output w h = "")));
  _ ← confirm (listed || b_Force b) un_tracked;
  confirm (b_Force b || b_AutoConfirm b) all_removed.

Definition clean_stage : prog unit :=
  _ ← executeCommand ["git"; "clean"; "-d"; "-f"; "-x"] false None;
  _ ← executeCommand ["git"; "reset"; "HEAD"; "."] false None;
  _ ← executeCommand ["git"; "checkout"; "."] false None;
  env_local.

Definition compose_files : list string := ["compose.yaml"; "compose.yml"; "docker-compose.yaml"; "docker-compose.yml"].
Definition hasDocker (h : list act) : bool := existsb (λ f, has w h (fjoin [b_Dir b; f])) compose_files.
Definition docker_up : list string := dockerComposeBin ++ ["up"; "-d"].

(** What runs for the old step is stopped; the result is whether it had
    containers. *)
Definition stop_stage : prog bool :=
  docker ← peek hasDocker;
  _ ← (if docker : bool then executeCommand (dockerComposeBin ++ ["down"; "--remove-orphans"; "--volume"]) false None else mret tt);
  _ ← executeCommand ["symfony"; "server:stop"] true None;
  _ ← executeCommand ["symfony"; "tunnel:close"; "-y"] true None;
  mret docker.

Definition step_tag (step : string) : string := "step-" +:+ ReplaceAll step "." "-".
Definition step_command (step : string) : list string :=
  ["git"; "checkout"; "-B"; "work-" +:+ step_tag step; step_tag step].

Definition spa_dir : string := fjoin [b_Dir b; "spa"].
Definition install_stage : prog unit :=
  spa ← stat ["spa"];
  _ ← (if spa : bool then executeCommand ["symfony"; "server:stop"; "--dir"; spa_dir] true None else mret tt);
  _ ← executeCommand ["symfony"; "composer"; "install"] false None;
  env_local.

Definition consumer_file : list string := ["src"; "MessageHandler"; "CommentMessageHandler.php"].
Definition containers_stage (docker : bool) : prog unit :=
  if docker then
    _ ← executeCommand docker_up false None;
    consumer ← stat consumer_file;
    do (Sleep (if consumer : bool then 10 else 5))
  else mret tt.

Definition has_migrations : prog bool :=
  peek (λ h, glob w h (fjoin [b_Dir b; "src"; "Migrations"; "*.php"]) || glob w h (fjoin [b_Dir b; "migrations"; "*.php"])).
Definition database_stage : prog unit :=
  migrations ← has_migrations;
  _ ← (if migrations : bool then executeCommand ["symfony"; "console"; "doctrine:migrations:migrate"; "-n"] false None else mret tt);
  fixtures ← stat ["src"; "DataFixtures"];
  if fixtures : bool then executeCommand ["symfony"; "console"; "doctrine:fixtures:load"; "-n"] false None else mret tt.

(** Old versions of the book use Yarn. *)
Definition node (npm yarn : list string) (env : option string) : prog unit :=
  lock ← stat ["yarn.lock"]; executeCommand (if lock : bool then yarn else npm) false env.
Definition node_install : prog unit := node ["npm"; "install"] ["yarn"; "install"] None.
Definition node_build (env : option string) : prog unit := node ["npx"; "encore"; "dev"] ["yarn"; "encore"; "dev"] env.
Definition assets_stage : prog unit :=
  package ← stat ["package.json"];
  _ ← (if package : bool then node_install else mret tt);
  package ← stat ["package.json"];
  if package : bool then node_build None else mret tt.

Definition server_stage : prog unit :=
  _ ← executeCommand ["symfony"; "server:start"; "-d"] false None;
  consumer ← stat consumer_file;
  if consumer : bool then
    executeCommand ["symfony"; "run"; "-d"; "--watch"; "config,src,templates,vendor"; "symfony"; "console";
      "messenger:consume"; "async"; "-vv"] false None
  else mret tt.

(** The single page application, which needs the URL of the server. *)
Definition spa_install : prog unit := _ ← do (Chdir spa_dir); _ ← node_install; do (Chdir (b_Dir b)).
Definition spa_build : prog unit :=
  endpoint ← act_ (Run ["symfony"; "var:export"; "SYMFONY_PROJECT_DEFAULT_ROUTE_URL"] None)
    (λ h, if negb (run w h) then inl CommandError else if bool_decide (output w h = "") then inl NoEndpoint else inr (output w h));
  _ ← do (Chdir spa_dir); _ ← node_build (Some ("API_ENDPOINT=" +:+ endpoint)); do (Chdir (b_Dir b)).
Definition spa_stage : prog unit :=
  spa ← stat ["spa"]; _ ← (if spa : bool then spa_install else mret tt);
  spa ← stat ["spa"]; _ ← (if spa : bool then spa_build else mret tt);
  spa ← stat ["spa"];
  if spa : bool
  then executeCommand ["symfony"; "server:start"; "-d"; "--passthru"; "index.html"; "--dir"; spa_dir] false None
  else mret tt.

Definition after_step (docker : bool) : prog unit :=
  _ ← install_stage; _ ← containers_stage docker; _ ← database_stage; _ ← assets_stage; _ ← server_stage; spa_stage.

Definition Checkout (step : string) : prog unit :=
  _ ← consent_stage; _ ← clean_stage; docker ← stop_stage;
  _ ← executeCommand (step_command step) false None;
  after_step docker.

(** ** The repository and its versions *)

Inductive repo_error := NoGit | NoGitInfo | NotABook.
(** [CheckRepository]; [stat_not_exist] is [os.IsNotExist], [origin] what git
    answers for the URL of the remote. *)
Definition CheckRepository (stat_not_exist : bool) (origin : option string) : option repo_error :=
  if stat_not_exist then Some NoGit
  else if b_Force b then None
  else match origin with
       | None => Some NoGitInfo
       | Some out => if HasPrefix out "https://github.com/the-fast-track/book-" then None else Some NotABook
       end.

(** [strings.Replace(s, old, "", 1)]. *)
Definition remove_first (s old : string) : string :=
  match Index s old with None => s | Some i => stake i s +:+ sdrop (i + slen old) s end.
Inductive http_answer := HttpError | Status (code : Z).
#[export] Instance http_answer_dec : EqDecision http_answer.
Proof. solve_decision. Defined.
(** [repos] is the decoded body. *)
Definition Versions (resp : http_answer) (repos : option (list string)) : option (list string) :=
  if bool_decide (resp = Status 200) then List.map (λ n, remove_first n "book-") <$> repos else None.

Inductive clone_error := RequirementsError | NotReady | GithubError | VersionsError | InvalidVersion | GitCloneError | CheckoutEnded (e : ending).
Definition Clone (version : string) (ready : option bool) (exists_ : http_answer) (versions : option (list string))
    (cloned : bool) : list act * option clone_error :=
  match ready with
  | None => ([], Some RequirementsError)
  | Some false => ([], Some NotReady)
  | Some true =>
    if bool_decide (exists_ = HttpError) then ([], Some GithubError)
    else if bool_decide (exists_ = Status 200) then
      let h := [Run ["git"; "clone"; "https://github.com/the-fast-track/book-" +:+ version; b_Dir b] None] in
      if negb cloned then (h, Some GitCloneError)
      else let h := h ++ [Chdir (b_Dir b)] in
           let '(t, r) := Checkout "3" h in
           (h ++ t, match r with inl NotConfirmed | inr _ => None | inl e => Some (CheckoutEnded e) end)
    else ([], Some (match versions with None => VersionsError | Some _ => InvalidVersion end))
  end.
End book.

(** ** Requirements *)

Definition exts : list (string * bool) :=
  [("iconv", true); ("json", true); ("session", true); ("ctype", true); ("tokenizer", true); ("xml", true);
   ("intl", true); ("pdo_pgsql", true); ("mbstring", true); ("xsl", true); ("openssl", true); ("sodium", true);
   ("curl", false); ("zip", false); ("gd", false); ("redis", false); ("amqp", false)].
Definition getPhpExtensions (php_m : option string) : list string :=
  match php_m with None => [] | Some out => Split out newline end.

Section requirements.
  (** [github.com/hashicorp/go-version]. *)
  Context {version : Type} (NewVersion : string → option version) (GreaterThan : version → version → bool).

Record requirements := mkReq {
  r_look : string → bool;             (* exec.LookPath *)
  r_wd : bool;                        (* os.Getwd *)
  r_php : option version;             (* the version of the best PHP *)
  r_php_m : option string;            (* the output of php -m *)
  r_docker_compose : bool }.          (* docker compose can be run *)

Definition ext_ok (phpexts : list string) (ext : string * bool) : bool :=
  bool_decide (ext.1 ∈ phpexts) || negb ext.2.
Definition CheckRequirements (r : requirements) : option bool :=
  match NewVersion "8.1.0" with
  | None => None
  | Some minv =>
    if negb (r_wd r) then None
    else Some (
      r_look r "git" &&
      match r_php r with
      | None => false
      | Some v => GreaterThan v minv && forallb (ext_ok (getPhpExtensions (r_php_m r))) exts
      end &&
      r_look r "composer" && r_look r "docker" && (r_look r "docker-compose" || r_docker_compose r) && r_look r "npm")
  end.
End requirements.

(** ** Reasoning about programs *)

Lemma elem_of_prog_bind {A B} (m : prog A) (f : A → prog B) h x :
  x ∈ ((m ≫= f) h).1 ↔ x ∈ (m h).1 ∨ ∃ a, (m h).2 = inr a ∧ x ∈ (f a (h ++ (m h).1)).1.
Proof.
  unfold mbind, prog_bind. destruct (m h) as [t [e|a]]; cbn; [naive_solver|].
  destruct (f a (h ++ t)) as [t' r] eqn:E. cbn. rewrite elem_of_app. split.
  - intros [?|?]; [by left|right]. exists a. by rewrite E.
  - intros [?|(a' & [= <-] & H)]; [by left|right]. by rewrite E in H.
Qed.

(** What a program that goes on did, and then. *)
Lemma prog_bind_inr {A B} (m : prog A) (f : A → prog B) h b :
  ((m ≫= f) h).2 = inr b →
  ∃ a, (m h).2 = inr a ∧ (f a (h ++ (m h).1)).2 = inr b ∧ ((m ≫= f) h).1 = (m h).1 ++ (f a (h ++ (m h).1)).1.
Proof.
  unfold mbind, prog_bind. destruct (m h) as [t [e|a]]; [done|]. destruct (f a (h ++ t)) as [t' r] eqn:E. cbn.
  intros ->. exists a. by rewrite E.
Qed.

Lemma prog_bind_trace {A B} (m : prog A) (f : A → prog B) h a :
  (m h).2 = inr a → ((m ≫= f) h).1 = (m h).1 ++ (f a (h ++ (m h).1)).1.
Proof. unfold mbind, prog_bind. destruct (m h) as [t r]. cbn. intros ->. by destruct (f a _). Qed.

(** Everything a program does satisfies [P]. *)
Definition only (P : act → Prop) {A} (m : prog A) : Prop := ∀ h, Forall P (m h).1.
Lemma only_bind (P : act → Prop) {A B} (m : prog A) (f : A → prog B) :
  only P m → (∀ a, only P (f a)) → only P (m ≫= f).
Proof.
  intros Hm Hf h. apply Forall_forall. intros x [Hx|(a & _ & Hx)]%elem_of_prog_bind.
  - by eapply Forall_forall in Hm.
  - by eapply Forall_forall in Hf.
Qed.
Lemma only_act (P : act → Prop) {A} a (r : list act → ending + A) : P a → only P (act_ a r).
Proof. intros Ha h. by repeat constructor. Qed.
Lemma only_nothing (P : act → Prop) {A} (m : prog A) : (∀ h, (m h).1 = []) → only P m.
Proof. intros Hm h. by rewrite Hm. Qed.

Ltac only_tac tac :=
  repeat first
    [ apply only_bind; [|intros ?]
    | apply only_act; [tac]
    | apply only_nothing; intros ?; reflexivity
    | match goal with
      | |- only _ (if ?x then _ else _) => destruct x
      | |- only _ (executeCommand _ _ _ _) => unfold executeCommand
      | |- only _ (env_local _ _) => unfold env_local
      | |- only _ (do _) => unfold do
      | |- only _ (confirm _ _ _) => unfold confirm
      | |- only _ (try _ _) => unfold try
      | |- only _ (AskConfirmation _ _) => unfold AskConfirmation
      | |- only _ (node_install _ _) => unfold node_install
      | |- only _ (node_build _ _ _) => unfold node_build
      | |- only _ (node _ _ _ _ _) => unfold node
      end ].

Section safety.
  Context (w : world) (b : Book).

(** All the questions were answered with yes. *)
Fixpoint yes (h t : list act) : Prop :=
  match t with
  | [] => True
  | a :: t => match a with Ask _ => answer w (h ++ [a]) = true | _ => True end ∧ yes (h ++ [a]) t
  end.
Definition no_ask (a : act) : Prop := match a with Ask _ => False | _ => True end.
(** What only looks. *)
Definition harmless (a : act) : Prop :=
  match a with
  | Run args _ => args ∈ [["git"; "diff-index"; "--quiet"; "HEAD"; "--"]; ["git"; "ls-files"; "--exclude-standard"; "--others"]]
  | Chdir _ | Ask _ => True
  | Create _ | Sleep _ => False
  end.

Lemma yes_app h t u : yes h (t ++ u) ↔ yes h t ∧ yes (h ++ t) u.
Proof.
  revert h. induction t as [|a t IH]; intros h; cbn; [rewrite app_nil_r; tauto|]. rewrite IH, <- app_assoc. cbn. tauto.
Qed.
Lemma yes_no_ask h t : Forall no_ask t → yes h t.
Proof. intros H. revert h. induction H as [|a t Ha _ IH]; intros h; cbn; [done|]. by destruct a. Qed.

Definition agrees {A} (m : prog A) : Prop := ∀ h a, (m h).2 = inr a → yes h (m h).1.
Lemma agrees_bind {A B} (m : prog A) (f : A → prog B) : agrees m → (∀ a, agrees (f a)) → agrees (m ≫= f).
Proof.
  intros Hm Hf h c H. apply prog_bind_inr in H as (a & Ha & Hc & ->). apply yes_app. split; [by eapply Hm|by eapply Hf].
Qed.
Lemma agrees_only {A} (m : prog A) : only no_ask m → agrees m.
Proof. intros Hm h a _. by apply yes_no_ask. Qed.
Lemma confirm_run h q :
  confirm w false q h = ([Ask q], if answer w (h ++ [Ask q]) then inr tt else inl NotConfirmed).
Proof. unfold confirm, mbind, prog_bind, AskConfirmation, act_. by destruct (answer w _). Qed.
Lemma agrees_confirm skip q : agrees (confirm w skip q).
Proof.
  intros h a. destruct skip; [done|]. rewrite confirm_run. cbn. by destruct (answer w _).
Qed.

Lemma consent_agrees : agrees (consent_stage w b).
Proof.
  unfold consent_stage. repeat (apply agrees_bind; [|intros ?]); try apply agrees_confirm; apply agrees_only; only_tac ltac:(exact I).
Qed.
Lemma consent_harmless : only harmless (consent_stage w b).
Proof. unfold consent_stage. only_tac ltac:(cbn; first [exact I|set_solver]). Qed.

Lemma confirm_asks h q : (confirm w false q h).2 = inr tt → Ask q ∈ (confirm w false q h).1.
Proof. rewrite confirm_run. intros _. by left. Qed.

(** The last question is asked. *)
Lemma consent_asks h :
  (consent_stage w b h).2 = inr tt → b_Force b = false → b_AutoConfirm b = false → Ask all_removed ∈ (consent_stage w b h).1.
Proof.
  intros H Hf Ha. unfold consent_stage in *. rewrite Hf, Ha in *.
  repeat (apply prog_bind_inr in H as (? & _ & H & ->)). 
  rewrite !elem_of_app. repeat right. by apply confirm_asks.
Qed.

Lemma rest_no_ask step :
  only no_ask (_ ← clean_stage w b; docker ← stop_stage w b; _ ← executeCommand w (step_command step) false None; after_step w b docker).
Proof.
  unfold clean_stage, stop_stage, after_step, install_stage, containers_stage, database_stage, has_migrations, assets_stage,
    server_stage, spa_stage, spa_install, spa_build, stat.
  only_tac ltac:(exact I).
Qed.
End safety.

(** C25: without [Force] nothing but looking happens until every question that
    was asked has been answered with yes, and without [AutoConfirm] the last
    question is always asked; with [Force] nothing is asked. *)
Theorem Checkout_confirmed w b step h :
  (b_Force b = false → (∃ a, a ∈ (Checkout w b step h).1 ∧ ¬ harmless a) →
     yes w h (Checkout w b step h).1 ∧
     (b_AutoConfirm b = false → Ask all_removed ∈ (Checkout w b step h).1)) ∧
  (b_Force b = true → Forall no_ask (Checkout w b step h).1).
Proof.
  split.
  - intros Hf (a & Ha & Hd). unfold Checkout in *.
    assert (Hc : (consent_stage w b h).2 = inr tt).
    { apply elem_of_prog_bind in Ha as [Ha|([] & Hc & _)]; [|done].
      pose proof (consent_harmless w b h) as Hh. rewrite Forall_forall in Hh. by apply Hh in Ha. }
    pose proof (consent_agrees w b h tt Hc) as Hy. pose proof (consent_asks w b h Hc Hf) as Hq.
    rewrite (prog_bind_trace _ _ _ tt) by done. split.
    + apply yes_app. split; [done|]. apply yes_no_ask, rest_no_ask.
    + intros Hau. apply elem_of_app. left. by apply Hq.
  - intros Hf. unfold Checkout. apply only_bind; [|intros _; apply rest_no_ask].
    unfold consent_stage. rewrite Hf. repeat (apply only_bind; [|intros ?]); rewrite ?orb_true_r; unfold confirm; only_tac ltac:(exact I).
Qed.

Definition ex_world : world :=
  mkWorld (λ _, true) (λ _, "") (λ _, true) (λ _, true) (λ _ _, false) (λ _ _, false) None.
Definition ex_book : Book := mkBook "/book" false false false.
Lemma Checkout_confirmed_witness :
  Ask all_removed ∈ (Checkout ex_world ex_book "3" []).1.
Proof.
  apply (proj1 (Checkout_confirmed ex_world ex_book "3" []) eq_refl); [|reflexivity].
  exists (Run ["git"; "clean"; "-d"; "-f"; "-x"] None). split.
  - apply (bool_decide_eq_true_1 _). vm_compute. reflexivity.
  - cbn. intros H. apply (bool_decide_eq_true_2 _) in H. vm_compute in H. discriminate.
Defined.

(** *** Containers *)

Definition not_up (w : world) (a : act) : Prop := a ≠ Run (docker_up w) None.
Ltac not_up := unfold not_up, docker_up, dockerComposeBin; intros Heq; repeat case_match; discriminate.

Lemma others_not_up w b :
  only (not_up w) (install_stage w b) ∧ only (not_up w) (database_stage w b) ∧ only (not_up w) (assets_stage w b) ∧
  only (not_up w) (server_stage w b) ∧ only (not_up w) (spa_stage w b).
Proof.
  unfold install_stage, database_stage, has_migrations, assets_stage, server_stage, spa_stage, spa_install, spa_build, stat.
  split_and!; only_tac ltac:(not_up).
Qed.

Lemma up_containers w b docker h :
  (containers_stage w b docker h).2 = inr tt → Run (docker_up w) None ∈ (containers_stage w b docker h).1 ↔ docker = true.
Proof.
  destruct docker; cbn [containers_stage]; intros H; [|split; [intros ?%not_elem_of_nil|]; done].
  split; [done|]. intros _. apply elem_of_prog_bind. left. by left.
Qed.

Lemma up_after_step w b docker h :
  (after_step w b docker h).2 = inr tt → Run (docker_up w) None ∈ (after_step w b docker h).1 ↔ docker = true.
Proof.
  destruct (others_not_up w b) as (H1 & H2 & H3 & H4 & H5). unfold after_step. intros H.
  assert (Hno : ∀ A (m : prog A) h, only (not_up w) m → Run (docker_up w) None ∉ (m h).1).
  { intros A m h' Hm Hin. specialize (Hm h'). rewrite Forall_forall in Hm. by apply Hm in Hin. }
  apply prog_bind_inr in H as ([] & _ & H & ->).
  apply prog_bind_inr in H as ([] & Hc & H & ->).
  apply prog_bind_inr in H as ([] & _ & H & ->).
  apply prog_bind_inr in H as ([] & _ & H & ->).
  apply prog_bind_inr in H as ([] & _ & H & ->).
  rewrite !elem_of_app. rewrite <- (up_containers w b docker) by exact Hc.
  split; [|by right; left]. intros [?|[?|[?|[?|[?|?]]]]]; try done; exfalso;
    match goal with Hin : _ ∈ _ |- _ => revert Hin; by apply Hno end.
Qed.

Definition not_step (step : string) (a : act) : Prop := a ≠ Run (step_command step) None.
Lemma before_not_step w b step :
  only (not_step step) (consent_stage w b) ∧ only (not_step step) (clean_stage w b) ∧ only (not_step step) (stop_stage w b).
Proof.
  unfold consent_stage, clean_stage, stop_stage, not_step, dockerComposeBin.
  split_and!; only_tac ltac:(unfold step_command; intros Heq; repeat case_match; discriminate).
Qed.

Lemma stop_stage_docker w b h docker : (stop_stage w b h).2 = inr docker → docker = hasDocker w b h.
Proof.
  unfold stop_stage. intros H. apply prog_bind_inr in H as (d & [= <-] & H & _).
  do 3 (apply prog_bind_inr in H as (? & _ & H & _)). injection H as <-. by rewrite ?app_nil_r.
Qed.

(** When the checkout of a step is done, its tag was checked out on its
    branch, and the containers were started afterwards exactly when there was a
    Compose file before: in the files of the step that was left, not in those of
    the new one. *)
Theorem Checkout_containers w b step h :
  (Checkout w b step h).2 = inr tt →
  ∃ t1 t2 h0,
    (Checkout w b step h).1 = t1 ++ Run (step_command step) None :: t2 ∧
    Run (step_command step) None ∉ t1 ∧ h0 `prefix_of` h ++ t1 ∧
    (Run (docker_up w) None ∈ t2 ↔ hasDocker w b h0 = true).
Proof.
  unfold Checkout. intros H. destruct (before_not_step w b step) as (N1 & N2 & N3).
  apply prog_bind_inr in H as ([] & _ & H & ->). set (h1 := h ++ (consent_stage w b h).1) in *.
  apply prog_bind_inr in H as ([] & _ & H & ->). set (h2 := h1 ++ (clean_stage w b h1).1) in *.
  apply prog_bind_inr in H as (docker & Hd & H & ->).
  apply prog_bind_inr in H as ([] & _ & H & ->). apply stop_stage_docker in Hd. subst docker.
  set (h3 := h2 ++ (stop_stage w b h2).1) in *. cbn [executeCommand act_ fst] in H |- *.
  set (h4 := h3 ++ [Run (step_command step) None]) in *. set (t2 := (after_step _ _ _ h4).1).
  exists ((consent_stage w b h).1 ++ (clean_stage w b h1).1 ++ (stop_stage w b h2).1), t2, h2.
  split; [by rewrite <- !app_assoc|]. split_and!.
  - rewrite !elem_of_app. intros [Hx|[Hx|Hx]].
    + pose proof (N1 h) as N. rewrite Forall_forall in N. by apply N in Hx.
    + pose proof (N2 h1) as N. rewrite Forall_forall in N. by apply N in Hx.
    + pose proof (N3 h2) as N. rewrite Forall_forall in N. by apply N in Hx.
  - exists (stop_stage w b h2).1. unfold h2, h1. by rewrite <- !app_assoc.
  - by apply up_after_step.
Qed.

(** A step with a Compose file is checked out from one without. *)
Definition late_world : world :=
  mkWorld (λ _, true) (λ _, "") (λ _, true) (λ _, true)
    (λ h f, bool_decide (Run (step_command "3") None ∈ h ∧ f = "/book/compose.yaml")) (λ _ _, false) None.
Lemma Checkout_containers_witness :
  ∃ t1 t2 h0, (Checkout late_world ex_book "3" []).1 = t1 ++ Run (step_command "3") None :: t2 ∧
    Run (step_command "3") None ∉ t1 ∧ h0 `prefix_of` t1 ∧
    (Run (docker_up late_world) None ∈ t2 ↔ hasDocker late_world ex_book h0 = true).
Proof. apply (Checkout_containers late_world ex_book "3" []). vm_compute. reflexivity. Defined.
Example late_containers :
  (hasDocker late_world ex_book (Checkout late_world ex_book "3" []).1,
   bool_decide (Run (docker_up late_world) None ∈ (Checkout late_world ex_book "3" []).1)) = (true, false).
Proof. vm_compute. reflexivity. Qed.

(** ** Requirements and versions *)

(** The PHP version that the message names as the least one is refused. *)
Theorem CheckRequirements_min {version} NewVersion (GreaterThan : version → version → bool) minv r :
  NewVersion "8.1.0" = Some minv → GreaterThan minv minv = false → r_wd r = true → r_php r = Some minv →
  CheckRequirements NewVersion GreaterThan r = Some false.
Proof.
  intros Hn Hg Hw Hp. unfold CheckRequirements. rewrite Hn, Hw, Hp, Hg. cbn. by rewrite andb_false_r.
Qed.

(** A version that is listed names the repository it comes from. *)
Theorem Versions_roundtrip names : Versions (Status 200) (Some (List.map (String.append "book-") names)) = Some names.
Proof.
  unfold Versions. cbn. f_equal. rewrite List.map_map. rewrite <- (List.map_id names) at 2. apply List.map_ext. intros n.
  unfold remove_first. rewrite Index_unfold, HasPrefix_app. cbn. done.
Qed.
