(* ===== verification/Tailer.v ===== *)
(** * Following log files ([local/logs/tailer.go])

    [Watch] finds the log files to follow: that of the server, those of the
    workers and those of the application.  A goroutine receives the pid files;
    each application log has a goroutine of its own.  They share [seenDirs], a
    concurrent map whose look-up and store are two steps, so that they are two
    steps of the state machine [tnext] as well.  [watch_next] adds the channels
    they receive from and what [Watch] sends on them.

    [tails_once] is the invariant; [app_race] shows what the two steps cost when
    two application logs are the same file; [Watch_follows] that everything
    [Watch] announces is followed, however all of them interleave. *)

From stdpp Require Import base tactics option list gmap strings pretty.
From Stdlib Require Import ZArith Lia Ascii.
From S2P Require Import Prelude GoStrings FilePath Os Pid Humanlog.

Record Tailer := mkTailer {
  t_Follow : bool; t_LinesNb : Z; t_NoHumanize : bool; t_AppLogs : list string;
  t_NoAppLogs : bool; t_NoWorkerLogs : bool; t_NoServerLogs : bool }.

(** ** The goroutines *)

(** A file that is followed: the log of a pid file, or an application log with
    the goroutine that follows it. *)
Inductive tail := PidTail (p : PidFile) | AppTail (i : nat) (path : string).
Definition tail_key (t : tail) : string := match t with PidTail p => p_path p | AppTail _ path => path end.

(** [disp]: the pid file that the receiving goroutine did not find in
    [seenDirs] and is about to store; [apps]: the goroutines of the application
    logs, with whether they are about to store. *)
Record tstate := mkT { seen : gset string; disp : option PidFile; apps : list (string * bool); tails : list tail }.
Definition tinit (applogs : list string) : tstate := mkT ∅ None ((λ a, (a, false)) <$> applogs) [].

Inductive tevent :=
| RecvPid (p : PidFile)
| StorePid
| AppEvent (i : nat) (path : string)
| StoreApp (i : nat).

(** A goroutine that is busy does not receive. *)
Definition tnext (s : tstate) (e : tevent) : tstate :=
  match e with
  | RecvPid p =>
    match disp s with
    | Some _ => s
    | None => if bool_decide (p_path p ∈ seen s) then s else mkT (seen s) (Some p) (apps s) (tails s)
    end
  | StorePid =>
    match disp s with
    | None => s
    | Some p => mkT ({[p_path p]} ∪ seen s) None (apps s) (tails s ++ [PidTail p])
    end
  | AppEvent i path =>
    match apps s !! i with
    | Some (applog, false) =>
      if bool_decide (path ≠ applog ∨ applog ∈ seen s) then s
      else mkT (seen s) (disp s) (<[i := (applog, true)]> (apps s)) (tails s)
    | _ => s
    end
  | StoreApp i =>
    match apps s !! i with
    | Some (applog, true) =>
      mkT ({[applog]} ∪ seen s) (disp s) (<[i := (applog, false)]> (apps s)) (tails s ++ [AppTail i applog])
    | _ => s
    end
  end.
Definition trun (s : tstate) (es : list tevent) : tstate := foldl tnext s es.

(** The goroutine of the worker directory: the pid file it passes on for a
    created file; [load] is [pid.Load]. *)
Definition worker_event (seen : gset string) (is_directory : bool) (load : outcome (option PidFile)) (path : string)
    : outcome (option PidFile) :=
  if bool_decide (path ∈ seen) then Ret None else if is_directory then Ret None else load.

(** ** What is watched *)

Section watch.
  (** [MkdirAll], [inotify.Watch] and [filepath.EvalSymlinks]. *)
  Context (w : os) (mkdir watch : string → bool) (eval_symlinks : string → option string).

Inductive watch_error := MkdirError | WatchError | AbsError | SymlinkError.

Definition findApplicationLogFiles (projectDir : string) : list string :=
  List.filter (exists_ w)
    ((λ subdir, fjoin [projectDir; subdir; "dev" +:+ ".log"]) <$> [fjoin ["var"; "log"]; fjoin ["var"; "logs"]; fjoin ["app"; "logs"]]).

(** The path under which the events of an application log come. *)
Definition resolve_applog (applog : string) : gores watch_error string :=
  match Abs w applog with
  | None => Err AbsError
  | Some applog =>
    let dir := Dir applog in
    if negb (mkdir dir) then Err MkdirError
    else if negb (watch dir) then Err WatchError
    else match stat w applog with
         | Found _ => match eval_symlinks applog with Some p => Val p | None => Err SymlinkError end
         | NotExist => match eval_symlinks dir with Some d => Val (fjoin [d; Base applog]) | None => Err SymlinkError end
         | StatErr => Err SymlinkError
         end
  end.
Fixpoint resolve_applogs (applogs : list string) : list string * option watch_error :=
  match applogs with
  | [] => ([], None)
  | applog :: applogs =>
    match resolve_applog applog with
    | Err e => ([], Some e)
    | Val path => let '(paths, e) := resolve_applogs applogs in (path :: paths, e)
    end
  end.

Definition watched_applogs (t : Tailer) (dir : string) : list string :=
  if t_NoAppLogs t then [] else if bool_decide (t_AppLogs t = []) then findApplicationLogFiles dir else t_AppLogs t.

(** The pid files that are sent, the application logs whose goroutine gets a
    first event, and the error. *)
Definition Watch (t : Tailer) (pidFile : PidFile) (workerDir : string) (workers : list PidFile)
    : list PidFile * list string * option watch_error :=
  let server := if t_NoServerLogs t then [] else [pidFile] in
  let apps := resolve_applogs (watched_applogs t (p_Dir pidFile)) in
  if t_NoWorkerLogs t then (server, apps.1, apps.2)
  else if negb (mkdir workerDir) then (server, [], Some MkdirError)
  else if negb (watch workerDir) then (server, [], Some WatchError)
  else (server ++ workers, apps.1, apps.2).
End watch.

(** ** The channels *)

(** What [Watch] sends: a pid file, on the channel of the receiving goroutine,
    which has no buffer; the path of an application log, on the channel of its
    goroutine, which has room for one. *)
Inductive announcement := SendPid (p : PidFile) | SendApp (i : nat) (path : string).
Definition announcements (pids : list PidFile) (applogs : list string) : list announcement :=
  (SendPid <$> pids) ++ imap SendApp applogs.

(** What [Watch] has still to send, the channels of the application logs and
    the goroutines. *)
Record watch_state := mkW { todo : list announcement; boxes : list (option string); core : tstate }.
Definition watch_init (pids : list PidFile) (applogs : list string) : watch_state :=
  mkW (announcements pids applogs) ((λ _, None) <$> applogs) (tinit applogs).

(** [Announce]: [Watch] sends; [Take i]: the goroutine of a log receives;
    [FinishPid], [FinishApp i]: a goroutine stores and starts to follow.
    [Sent p]: the goroutine of the worker directory, or [WatchAdditionalPidFile],
    sends another pid file; [Notice i path]: a file is created in the directory of
    a log, an event that is dropped when the channel is full.  A step that has to
    wait changes nothing. *)
Inductive wevent :=
| Announce
| Take (i : nat)
| FinishPid
| FinishApp (i : nat)
| Sent (p : PidFile)
| Notice (i : nat) (path : string).
Definition program (e : wevent) : bool := match e with Sent _ | Notice _ _ => false | _ => true end.

Definition put (s : watch_state) (rest : list announcement) (i : nat) (path : string) : watch_state :=
  match boxes s !! i with
  | Some None => mkW rest (<[i := Some path]> (boxes s)) (core s)
  | _ => s
  end.
Definition watch_next (s : watch_state) (e : wevent) : watch_state :=
  match e with
  | Announce =>
    match todo s with
    | [] => s
    | SendPid p :: rest =>
      match disp (core s) with
      | Some _ => s
      | None => mkW rest (boxes s) (tnext (core s) (RecvPid p))
      end
    | SendApp i path :: rest => put s rest i path
    end
  | Take i =>
    match boxes s !! i, apps (core s) !! i with
    | Some (Some path), Some (_, false) => mkW (todo s) (<[i := None]> (boxes s)) (tnext (core s) (AppEvent i path))
    | _, _ => s
    end
  | FinishPid => mkW (todo s) (boxes s) (tnext (core s) StorePid)
  | FinishApp i => mkW (todo s) (boxes s) (tnext (core s) (StoreApp i))
  | Sent p => mkW (todo s) (boxes s) (tnext (core s) (RecvPid p))
  | Notice i path => put s (todo s) i path
  end.
Definition watch_run (s : watch_state) (es : list wevent) : watch_state := foldl watch_next s es.

(** Everything that was sent has been handled. *)
Definition all_handled (s : watch_state) : Prop :=
  todo s = [] ∧ Forall (λ b, b = None) (boxes s) ∧ disp (core s) = None ∧ Forall (λ x, x.2 = false) (apps (core s)).

(** ** Lines *)

(** [tailFile]: where reading starts; [seek] is [SeekLine] from the end. *)
Record tail_config := mkConfig { c_Offset : Z; c_ReOpen : bool; c_Follow : bool }.
Definition tailFile (open : bool) (seek : Z → Z) (follow : bool) (nblines : Z) : tail_config :=
  mkConfig (if open then seek (- nblines)%Z else 0) follow follow.

(** [tailLogFile]: the lines with the name of the process; none when the log
    does not come or cannot be read. *)
Definition tailLogFile (p : PidFile) (wait_ok tail_ok : bool) (lines : list string) : list (string * string) :=
  if negb wait_ok then [] else if negb tail_ok then [] else (λ l, (ShortName p, l)) <$> lines.

(** [Tail]: what is written for the lines; [prettify] is the handler with its
    last line, [None] without it. *)
Section tail.
  Context {L : Type} (prettify : option (L → string → outcome (L * string))).
Definition tail_line (last : L) (nl : string * string) : outcome (L * string) :=
  let head := "[<info>" +:+ pad_right 11 nl.1 +:+ "</>] " in
  let content := TrimRight nl.2 "010" in
  match prettify with
  | None => Ret (last, head +:+ content +:+ newline)
  | Some f => '(last, text) ← f last content; Ret (last, head +:+ text +:+ newline)
  end.
Fixpoint Tail (last : L) (lines : list (string * string)) : outcome (list string) :=
  match lines with
  | [] => Ret []
  | nl :: lines => '(last, out) ← tail_line last nl; outs ← Tail last lines; Ret (out :: outs)
  end.
End tail.

(** ** Nothing is followed twice *)

Definition keys (s : tstate) : list string := tail_key <$> tails s.
Definition pid_of (t : tail) : option string := match t with PidTail p => Some (p_path p) | AppTail _ _ => None end.
Definition app_of (t : tail) : option nat := match t with AppTail i _ => Some i | PidTail _ => None end.

Lemma trun_app s es es' : trun s (es ++ es') = trun (trun s es) es'.
Proof. apply foldl_app. Qed.
(** An invariant of the steps holds after any run. *)
Lemma trun_inv (P : tstate → Prop) (Q : tevent → Prop) s es :
  P s → Forall Q es → (∀ s e, Q e → P s → P (tnext s e)) → P (trun s es).
Proof. intros Hs Hq Hn. revert s Hs. induction Hq as [|e es He _ IH]; intros s Hs; [done|]. apply IH. by apply Hn. Qed.

Lemma apps_paths s e : (apps (tnext s e)).*1 = (apps s).*1.
Proof.
  assert (Hi : ∀ i a c d, apps s !! i = Some (a, c) → (<[i := (a, d)]> (apps s)).*1 = (apps s).*1).
  { intros i a c d H. rewrite list_fmap_insert. apply list_insert_id. by rewrite list_lookup_fmap, H. }
  destruct e; cbn; repeat case_match; cbn; eauto.
Qed.

(** [seenDirs] holds what is followed. *)
Definition seen_ok (s : tstate) : Prop := ∀ k, k ∈ seen s ↔ k ∈ keys s.
Lemma seen_ok_next s e : seen_ok s → seen_ok (tnext s e).
Proof.
  unfold seen_ok, keys. intros H k.
  destruct e; cbn; repeat case_match; cbn; rewrite ?fmap_app, ?elem_of_app, ?elem_of_union, ?H; try done;
    cbn; rewrite elem_of_singleton, list_elem_of_singleton; tauto.
Qed.

Record once (s : tstate) : Prop := {
  once_seen : seen_ok s;
  once_pid : NoDup (omap pid_of (tails s));
  once_disp : ∀ p, disp s = Some p → p_path p ∉ omap pid_of (tails s);
  once_app : NoDup (omap app_of (tails s));
  once_pending : ∀ i a, apps s !! i = Some (a, true) → i ∉ omap app_of (tails s);
  once_path : ∀ i a, AppTail i a ∈ tails s → (apps s).*1 !! i = Some a }.

Lemma pid_of_key s k : k ∈ omap pid_of (tails s) → k ∈ keys s.
Proof.
  intros ([p|] & Ht & [= <-])%list_elem_of_omap. apply list_elem_of_fmap. by exists (PidTail p).
Qed.
Lemma app_of_path s i : once s → i ∈ omap app_of (tails s) → ∃ a c, apps s !! i = Some (a, c) ∧ a ∈ seen s.
Proof.
  intros Ho ([|i' a] & Ht & [= ->])%list_elem_of_omap. pose proof (once_path s Ho _ _ Ht) as Hp.
  rewrite list_lookup_fmap in Hp. destruct (apps s !! i) as [[a' c]|] eqn:E; [|done]. injection Hp as ->.
  exists a, c. split; [done|]. apply (once_seen s Ho), list_elem_of_fmap. by exists (AppTail i a).
Qed.

Lemma once_tinit applogs : once (tinit applogs).
Proof. split; cbn; try constructor; try done; try set_solver. Qed.

Lemma once_next s e : once s → once (tnext s e).
Proof.
  intros Ho. pose proof (seen_ok_next s e (once_seen s Ho)) as Hs. pose proof (apps_paths s e) as Ha.
  destruct Ho as [H1 H2 H3 H4 H5 H6]. destruct e as [p| |i path|i]; cbn in *.
  - destruct (disp s) as [q|] eqn:Ed; [split; auto; by rewrite Ed|]. case_bool_decide as Hk; [split; auto; by rewrite Ed|].
    split; auto. cbn. intros ? [= <-] Hin. by apply Hk, H1, pid_of_key.
  - destruct (disp s) as [p|] eqn:Ed; [|split; auto; by rewrite Ed].
    split; cbn; rewrite ?omap_app; cbn; rewrite ?app_nil_r; auto; [|done|].
    + apply NoDup_app. split_and!; [done| |apply NoDup_singleton].
      intros x Hx ->%list_elem_of_singleton. by apply (H3 p).
    + intros i a [Hin|Hin]%elem_of_app; [by apply H6|]. by apply list_elem_of_singleton in Hin.
  - destruct (apps s !! i) as [[a []]|] eqn:E; [split; auto| |split; auto].
    case_bool_decide as Hk; [split; auto|]. split; auto; cbn.
    + intros j b Hj. destruct (decide (i = j)) as [<-|]; [|rewrite list_lookup_insert_ne in Hj by done; by eapply H5].
      intros Hin. destruct (app_of_path s i) as (a' & c & Ea & Hsn); [by split|done|]. rewrite E in Ea.
      injection Ea as <- <-. tauto.
    + intros j b Hj. cbn in Ha. rewrite Ha. by apply H6.
  - destruct (apps s !! i) as [[a []]|] eqn:E; [|split; auto|split; auto]. cbn in Ha.
    split; cbn; rewrite ?omap_app; cbn; rewrite ?app_nil_r; auto.
    + apply NoDup_app. split_and!; [done| |apply NoDup_singleton].
      intros x Hx ->%list_elem_of_singleton. by apply (H5 i a).
    + intros j b Hj [Hin|Hin]%elem_of_app.
      * destruct (decide (i = j)) as [<-|]; [|rewrite list_lookup_insert_ne in Hj by done; by eapply H5].
        rewrite list_lookup_insert_eq in Hj by (by eapply lookup_lt_Some). done.
      * apply list_elem_of_singleton in Hin as ->.
        rewrite list_lookup_insert_eq in Hj by (by eapply lookup_lt_Some). done.
    + intros j b [Hin|Hin]%elem_of_app; [by rewrite Ha; apply H6|].
      apply list_elem_of_singleton in Hin as [= -> ->]. by rewrite Ha, list_lookup_fmap, E.
Qed.

(** When the application logs are different files, and no pid file, nothing is
    followed twice at all. *)
Record distinct (s : tstate) : Prop := {
  dist_seen : seen_ok s;
  dist_keys : NoDup (keys s);
  dist_disp : ∀ p, disp s = Some p → p_path p ∉ keys s ∧ p_path p ∉ (apps s).*1;
  dist_pending : ∀ i a, apps s !! i = Some (a, true) → a ∉ keys s;
  dist_apps : NoDup (apps s).*1 }.
Definition pid_apart (paths : list string) (e : tevent) : Prop :=
  match e with RecvPid p => p_path p ∉ paths | _ => True end.

Lemma apps_elem s i a c : apps s !! i = Some (a, c) → (apps s).*1 !! i = Some a.
Proof. intros H. by rewrite list_lookup_fmap, H. Qed.

Lemma NoDup_snoc {A} (l : list A) x : NoDup l → x ∉ l → NoDup (l ++ [x]).
Proof. intros Hl Hx. apply NoDup_app. split_and!; [done| |apply NoDup_singleton]. by intros y Hy ->%list_elem_of_singleton. Qed.

Lemma distinct_next s e : pid_apart (apps s).*1 e → distinct s → distinct (tnext s e).
Proof.
  intros Hp [H1 H2 H3 H4 H5]. pose proof (seen_ok_next s e H1) as Hs. pose proof (apps_paths s e) as Ha.
  unfold keys in *. destruct e as [p| |i path|i]; cbn in *.
  - destruct (disp s) as [q|] eqn:Ed; [split; auto; by rewrite Ed|]. case_bool_decide as Hk; [split; auto; by rewrite Ed|].
    split; auto. cbn. intros ? [= <-]. split; [|done]. intros Hin. by apply Hk, H1.
  - destruct (disp s) as [p|] eqn:Ed; [|split; auto; by rewrite Ed]. destruct (H3 p) as [Hk Hi]; [done|].
    split; unfold keys; cbn; rewrite ?fmap_app; auto; [by apply NoDup_snoc|done|].
    intros i a E [Hin|Hin%list_elem_of_singleton]%elem_of_app; [by eapply H4|]. cbn in Hin. subst a.
    by apply Hi, (list_elem_of_lookup_2 _ i), (apps_elem _ _ _ true).
  - destruct (apps s !! i) as [[a []]|] eqn:E; [split; auto| |split; auto].
    case_bool_decide as Hk; [split; auto|]. cbn in Ha. split; cbn; rewrite ?Ha; auto.
    intros j b Hj. destruct (decide (i = j)) as [<-|]; [|rewrite list_lookup_insert_ne in Hj by done; by eapply H4].
    rewrite list_lookup_insert_eq in Hj by (by eapply lookup_lt_Some). injection Hj as <-. intros Hin. apply Hk. right. by apply H1.
  - destruct (apps s !! i) as [[a []]|] eqn:E; [|split; auto|split; auto]. cbn in Ha.
    assert (Hai : a ∈ (apps s).*1) by (by eapply list_elem_of_lookup_2, apps_elem).
    split; unfold keys; cbn; rewrite ?fmap_app, ?Ha; auto.
    + apply NoDup_snoc; [done|by eapply H4].
    + intros p Hd. destruct (H3 p Hd) as [Hk Hi]. split; [|done].
      intros [?|Hin%list_elem_of_singleton]%elem_of_app; [done|]. cbn in Hin. congruence.
    + intros j b Hj. destruct (decide (i = j)) as [<-|Hij].
      { rewrite list_lookup_insert_eq in Hj by (by eapply lookup_lt_Some). done. }
      rewrite list_lookup_insert_ne in Hj by done.
      intros [?|Hin%list_elem_of_singleton]%elem_of_app; [by eapply H4|]. cbn in Hin. subst b.
      apply Hij. eapply NoDup_lookup; [exact H5| |]; by eapply apps_elem.
Qed.

Lemma tinit_paths applogs : (apps (tinit applogs)).*1 = applogs.
Proof. cbn. rewrite <- list_fmap_compose. by apply list_fmap_id. Qed.

Lemma distinct_trun applogs es :
  NoDup applogs → Forall (pid_apart applogs) es → distinct (trun (tinit applogs) es).
Proof.
  intros Hn Hf.
  apply (trun_inv (λ s, distinct s ∧ (apps s).*1 = applogs) (pid_apart applogs)); [|done|].
  - split; [|apply tinit_paths]. split; [by apply (once_seen _ (once_tinit applogs))|by apply NoDup_nil|done| |by rewrite tinit_paths].
    intros i a _. apply not_elem_of_nil.
  - intros s e He [Hd Ha]. split; [apply distinct_next; [by rewrite Ha|done]|]. by rewrite apps_paths.
Qed.

(** C16: however the goroutines interleave, the log of a pid file is followed at
    most once, and so is an application log by its own goroutine; when the
    application logs are different files and none is a pid file, no file is
    followed twice. *)
Theorem tails_once applogs es :
  NoDup (omap pid_of (tails (trun (tinit applogs) es))) ∧ NoDup (omap app_of (tails (trun (tinit applogs) es))) ∧
  (NoDup applogs → Forall (pid_apart applogs) es → NoDup (keys (trun (tinit applogs) es))).
Proof.
  assert (Ho : once (trun (tinit applogs) es)).
  { apply (trun_inv _ (λ _, True)); [apply once_tinit|by apply Forall_true|intros s e _; apply once_next]. }
  split_and!; [apply Ho..|]. intros. by apply distinct_trun.
Qed.

(** The steps of a goroutine of an application log. *)
Lemma app_fresh s i a : apps s !! i = Some (a, false) → a ∉ seen s →
  tnext s (AppEvent i a) = mkT (seen s) (disp s) (<[i := (a, true)]> (apps s)) (tails s).
Proof. intros Hi Hs. cbn. rewrite Hi. rewrite bool_decide_eq_false_2; [done|]. by intros [|]. Qed.
Lemma app_seen s i a : a ∈ seen s → tnext s (AppEvent i a) = s.
Proof.
  intros Hs. cbn. destruct (apps s !! i) as [[a' []]|]; [done| |done]. case_bool_decide as Hk; [done|].
  exfalso. apply Hk. destruct (decide (a = a')) as [<-|]; [by right|by left].
Qed.
Lemma app_store s i a : apps s !! i = Some (a, true) →
  tnext s (StoreApp i) = mkT ({[a]} ∪ seen s) (disp s) (<[i := (a, false)]> (apps s)) (tails s ++ [AppTail i a]).
Proof. intros Hi. cbn. by rewrite Hi. Qed.
Lemma app_idle s i a : apps s !! i = Some (a, false) → tnext s (StoreApp i) = s.
Proof. intros Hi. cbn. by rewrite Hi. Qed.

(** Two application logs that are the same file, reached by two paths, are
    followed once or twice, as their goroutines happen to look at the shared
    map. *)
Theorem app_race w mkdir watch eval_symlinks t pidFile workerDir workers a1 a2 a :
  t_NoWorkerLogs t = true → watched_applogs w t (p_Dir pidFile) = [a1; a2] →
  resolve_applog w mkdir watch eval_symlinks a1 = Val a → resolve_applog w mkdir watch eval_symlinks a2 = Val a →
  let applogs := (Watch w mkdir watch eval_symlinks t pidFile workerDir workers).1.2 in
  keys (trun (tinit applogs) [AppEvent 0 a; StoreApp 0; AppEvent 1 a; StoreApp 1]) = [a] ∧
  keys (trun (tinit applogs) [AppEvent 0 a; AppEvent 1 a; StoreApp 0; StoreApp 1]) = [a; a].
Proof.
  intros Hw Ha H1 H2. unfold Watch. rewrite Hw, Ha. cbn [resolve_applogs fst snd]. rewrite H1, H2.
  unfold trun. cbn [foldl fst snd]. rewrite (app_fresh (tinit [a; a]) 0 a) by (reflexivity || set_solver).
  cbn [tinit seen disp apps tails fmap list_fmap insert list_insert]. split.
  - rewrite (app_store _ 0 a) by reflexivity. rewrite (app_seen _ 1 a) by (cbn; set_solver).
    by rewrite (app_idle _ 1 a) by reflexivity.
  - rewrite (app_fresh _ 1 a) by (reflexivity || (cbn; set_solver)).
    rewrite (app_store _ 0 a) by reflexivity. by rewrite (app_store _ 1 a) by reflexivity.
Qed.

(** [var/logs] is a link to [var/log]. *)
Definition ex_os : os :=
  table_os ∅ {[ "/p/var/log/dev.log" := Some ""; "/p/var/logs/dev.log" := Some "" ]} "/p" "/h".
Definition ex_pidfile : PidFile := mkPid "/p" [] 1 8000 "https" None "" "/h/var/p.pid".
Definition ex_tailer : Tailer := mkTailer true 10 false [] false true false.
Lemma app_race_witness :
  keys (trun (tinit (Watch ex_os (λ _, true) (λ _, true) (λ _, Some "/p/var/log/dev.log") ex_tailer ex_pidfile "/h/var/p" []).1.2)
    [AppEvent 0 "/p/var/log/dev.log"; AppEvent 1 "/p/var/log/dev.log"; StoreApp 0; StoreApp 1]) =
  ["/p/var/log/dev.log"; "/p/var/log/dev.log"].
Proof.
  apply (app_race ex_os (λ _, true) (λ _, true) (λ _, Some "/p/var/log/dev.log") ex_tailer ex_pidfile "/h/var/p" []
    "/p/var/log/dev.log" "/p/var/logs/dev.log"); vm_compute; reflexivity.
Defined.

(** ** Everything that is announced_log is followed *)

Lemma wrun_inv (P : watch_state → Prop) (Q : wevent → Prop) s es :
  P s → Forall Q es → (∀ s e, Q e → P s → P (watch_next s e)) → P (watch_run s es).
Proof. intros Hs Hq Hn. revert s Hs. induction Hq as [|e es He _ IH]; intros s Hs; [done|]. apply IH. by apply Hn. Qed.

(** The steps of the goroutines in a step. *)
Definition events (s : watch_state) (e : wevent) : list tevent :=
  match e with
  | Announce => match todo s, disp (core s) with SendPid p :: _, None => [RecvPid p] | _, _ => [] end
  | Take i =>
    match boxes s !! i, apps (core s) !! i with
    | Some (Some path), Some (_, false) => [AppEvent i path]
    | _, _ => []
    end
  | FinishPid => [StorePid]
  | FinishApp i => [StoreApp i]
  | Sent p => [RecvPid p]
  | Notice _ _ => []
  end.
Lemma core_put s rest i path : core (put s rest i path) = core s.
Proof. unfold put. by repeat case_match. Qed.
Lemma core_wnext s e : core (watch_next s e) = trun (core s) (events s e).
Proof. destruct e; cbn -[tnext]; rewrite ?core_put; repeat case_match; rewrite ?core_put; done. Qed.
Lemma core_kept (P : tstate → Prop) s e : (∀ t te, P t → P (tnext t te)) → P (core s) → P (core (watch_next s e)).
Proof. intros HP Hs. rewrite core_wnext. apply (trun_inv P (λ _, True)); [done|by apply Forall_true|auto]. Qed.

Lemma seen_mono s e k : k ∈ seen s → k ∈ seen (tnext s e).
Proof. intros Hk. destruct e; cbn; repeat case_match; cbn; set_solver. Qed.

(** A pid file that is received, an application log that is announced_log to its
    goroutine. *)
Definition pid_held (p : PidFile) (s : tstate) : Prop := disp s = Some p ∨ p_path p ∈ seen s.
Definition app_held (i : nat) (a : string) (s : tstate) : Prop := apps s !! i = Some (a, true) ∨ a ∈ seen s.

Lemma pid_held_next p s e : pid_held p s → pid_held p (tnext s e).
Proof.
  intros [Hd|Hs]; [|right; by apply seen_mono]. unfold pid_held.
  destruct e as [q| |i path|i]; cbn; rewrite ?Hd; [by left|right; cbn; set_solver|left..]; by repeat case_match.
Qed.
Lemma pid_received p s : disp s = None → pid_held p (tnext s (RecvPid p)).
Proof. intros Hd. unfold pid_held. cbn. rewrite Hd. case_bool_decide; [by right|by left]. Qed.
Lemma app_held_next i a s e : app_held i a s → app_held i a (tnext s e).
Proof.
  intros [Hi|Hs]; [|right; by apply seen_mono]. unfold app_held.
  destruct e as [q| |j path|j]; cbn; [left; by repeat case_match..| |].
  - left. destruct (apps s !! j) as [[b []]|] eqn:E; [done| |done]. case_bool_decide; [done|]. cbn.
    rewrite list_lookup_insert_ne; [done|]. intros ->. congruence.
  - destruct (decide (i = j)) as [<-|Hj]; [rewrite Hi; right; cbn; set_solver|left].
    destruct (apps s !! j) as [[b []]|] eqn:E; [|done..]. cbn. by rewrite list_lookup_insert_ne.
Qed.
Lemma app_taken i a s : apps s !! i = Some (a, false) → app_held i a (tnext s (AppEvent i a)).
Proof.
  intros Hi. unfold app_held. destruct (decide (a ∈ seen s)) as [Hs|Hs]; [right; by apply seen_mono|left].
  rewrite (app_fresh s i a) by done. cbn. apply list_lookup_insert_eq. by eapply lookup_lt_Some.
Qed.

Record wok (pids : list PidFile) (applogs : list string) (sent : PidFile → Prop) (s : watch_state) : Prop := {
  wk_once : once (core s);
  wk_paths : (apps (core s)).*1 = applogs;
  wk_boxes : length (boxes s) = length applogs;
  wk_todo : ∀ x, x ∈ todo s → x ∈ announcements pids applogs;
  wk_from : ∀ p, PidTail p ∈ tails (core s) ∨ disp (core s) = Some p → p ∈ pids ∨ sent p;
  wk_pid : ∀ p, p ∈ pids → SendPid p ∈ todo s ∨ pid_held p (core s);
  wk_app : ∀ i a, applogs !! i = Some a → SendApp i a ∈ todo s ∨ boxes s !! i = Some (Some a) ∨ app_held i a (core s) }.

Lemma announced_pid pids applogs p : SendPid p ∈ announcements pids applogs ↔ p ∈ pids.
Proof.
  unfold announcements. rewrite elem_of_app, list_elem_of_fmap, elem_of_lookup_imap. naive_solver.
Qed.
Lemma announced_app pids applogs i a : SendApp i a ∈ announcements pids applogs ↔ applogs !! i = Some a.
Proof.
  unfold announcements. rewrite elem_of_app, list_elem_of_fmap, elem_of_lookup_imap. naive_solver.
Qed.

Lemma wok_init pids applogs sent : wok pids applogs sent (watch_init pids applogs).
Proof.
  split; cbn [core watch_init todo boxes].
  - apply once_tinit.
  - apply tinit_paths.
  - apply length_fmap.
  - done.
  - intros p [?%not_elem_of_nil|[=]]. done.
  - intros p Hp. left. by apply announced_pid.
  - intros i a Hi. left. by apply announced_app.
Qed.

(** Where a pid file that is held or followed comes from. *)
Lemma tail_from s e p : PidTail p ∈ tails (tnext s e) ∨ disp (tnext s e) = Some p →
  (PidTail p ∈ tails s ∨ disp s = Some p) ∨ e = RecvPid p.
Proof.
  destruct e as [q| |i path|i]; cbn; repeat case_match; cbn; rewrite ?elem_of_app, ?list_elem_of_singleton; naive_solver.
Qed.
Lemma pid_event s e p : RecvPid p ∈ events s e → SendPid p ∈ todo s ∨ e = Sent p.
Proof.
  destruct e; cbn; repeat case_match; rewrite ?list_elem_of_singleton; intros Hin; try (by apply not_elem_of_nil in Hin); simplify_eq.
  - left. by left.
  - by right.
Qed.
Lemma events_one s e : events s e = [] ∨ ∃ te, events s e = [te].
Proof. destruct e; cbn; repeat case_match; eauto. Qed.
Lemma wnext_from s e p : PidTail p ∈ tails (core (watch_next s e)) ∨ disp (core (watch_next s e)) = Some p →
  (PidTail p ∈ tails (core s) ∨ disp (core s) = Some p) ∨ SendPid p ∈ todo s ∨ e = Sent p.
Proof.
  rewrite core_wnext. destruct (events_one s e) as [->|[te E]]; [by left|]. rewrite E. intros [H| ->]%tail_from; [by left|right].
  apply pid_event. rewrite E. by left.
Qed.

(** The channels. *)
Lemma todo_wnext s e x : x ∈ todo (watch_next s e) → x ∈ todo s.
Proof.
  assert (Hput : ∀ rest i path, x ∈ todo (put s rest i path) → x ∈ todo s ∨ x ∈ rest).
  { intros. unfold put in *. repeat case_match; auto. }
  destruct e as [|i| |i|p|i path]; cbn -[tnext]; try done.
  - destruct (todo s) as [|[p|i path] rest] eqn:E; [by rewrite E| |intros [|]%Hput; [done|by right]].
    destruct (disp (core s)); [by rewrite E|]. by right.
  - by repeat case_match.
  - by intros [|]%Hput.
Qed.
Lemma boxes_wnext s e : length (boxes (watch_next s e)) = length (boxes s).
Proof. destruct e; cbn; unfold put; repeat case_match; cbn; by rewrite ?length_insert. Qed.

Lemma todo_pid s e p : SendPid p ∈ todo s → SendPid p ∈ todo (watch_next s e) ∨ pid_held p (core (watch_next s e)).
Proof.
  intros Hp. destruct e as [|i| |i|q|i path]; cbn -[tnext]; try (by left).
  - destruct (todo s) as [|[q|i path] rest] eqn:E; [by apply not_elem_of_nil in Hp|..].
    + destruct (disp (core s)) eqn:Ed; [left; by rewrite E|].
      apply elem_of_cons in Hp as [[= <-]|Hp]; [right; by apply pid_received|by left].
    + left. unfold put. repeat case_match; cbn; rewrite ?E; try done. by apply elem_of_cons in Hp as [|].
  - left. by repeat case_match.
  - left. unfold put. by repeat case_match.
Qed.
Lemma todo_app s e i a : SendApp i a ∈ todo s → SendApp i a ∈ todo (watch_next s e) ∨ boxes (watch_next s e) !! i = Some (Some a).
Proof.
  intros Hp. destruct e as [|j| |j|q|j path]; cbn -[tnext]; try (by left).
  - destruct (todo s) as [|[q|j path] rest] eqn:E; [by apply not_elem_of_nil in Hp|..].
    + destruct (disp (core s)) eqn:Ed; [left; by rewrite E|]. apply elem_of_cons in Hp as [|]; [done|by left].
    + unfold put. destruct (boxes s !! j) as [[b|]|] eqn:Eb; [left; by rewrite E| |left; by rewrite E].
      apply elem_of_cons in Hp as [[= -> ->]|Hp]; [right; cbn|by left].
      apply list_lookup_insert_eq. by eapply lookup_lt_Some.
  - left. by repeat case_match.
  - left. unfold put. by repeat case_match.
Qed.
Lemma put_full s rest i a j path : boxes s !! i = Some (Some a) → boxes (put s rest j path) !! i = Some (Some a).
Proof.
  intros Hb. unfold put. destruct (boxes s !! j) as [[b|]|] eqn:E; [done| |done]. cbn.
  rewrite list_lookup_insert_ne; [done|]. intros ->. congruence.
Qed.
Lemma box_app s e i a : boxes s !! i = Some (Some a) → (apps (core s)).*1 !! i = Some a →
  boxes (watch_next s e) !! i = Some (Some a) ∨ app_held i a (core (watch_next s e)).
Proof.
  intros Hb Hi. destruct e as [|j| |j|q|j path]; cbn -[tnext]; try (by left); [| |left; by apply put_full].
  - left. destruct (todo s) as [|[q|j path] rest]; [done| |by apply put_full]. by destruct (disp (core s)).
  - destruct (decide (i = j)) as [<-|Hj].
    + rewrite Hb. rewrite list_lookup_fmap in Hi. destruct (apps (core s) !! i) as [[a' []]|] eqn:E; [by left| |done].
      injection Hi as ->. right. by apply app_taken.
    + left. destruct (boxes s !! j) as [[b|]|]; [|done..]. destruct (apps (core s) !! j) as [[? []]|]; [done| |done].
      cbn. by rewrite list_lookup_insert_ne.
Qed.

Lemma wok_next pids applogs (sent : PidFile → Prop) s e :
  (∀ p, e = Sent p → sent p) → wok pids applogs sent s → wok pids applogs sent (watch_next s e).
Proof.
  intros He [H1 H2 H3 H4 H5 H6 H7]. split.
  - apply core_kept; [intros; by apply once_next|done].
  - apply (core_kept (λ t, (apps t).*1 = applogs)); [|done]. intros t te <-. apply apps_paths.
  - by rewrite boxes_wnext.
  - intros x Hx%todo_wnext. by apply H4.
  - intros p [Hp|[Hp|Hp]]%wnext_from; [by apply H5| |right; by apply He]. left. by apply (announced_pid _ applogs), H4.
  - intros p [Hp|Hp]%H6; [by apply todo_pid|right]. apply core_kept; [intros; by apply pid_held_next|done].
  - intros i a Hi. destruct (H7 i a Hi) as [Hp|[Hp|Hp]].
    + destruct (todo_app s e i a Hp) as [?|?]; auto.
    + right. apply box_app; [done|by rewrite H2].
    + right; right. apply core_kept; [intros; by apply app_held_next|done].
Qed.

Lemma wok_run pids applogs es : wok pids applogs (λ p, Sent p ∈ es) (watch_run (watch_init pids applogs) es).
Proof.
  apply (wrun_inv _ (λ e, e ∈ es)); [apply wok_init|by apply Forall_forall|].
  intros s e He Hs. apply wok_next; [by intros p <-|done].
Qed.

(** Different files, each followed once. *)
Lemma wdistinct pids applogs es :
  NoDup applogs → (∀ p, p ∈ pids ∨ Sent p ∈ es → p_path p ∉ applogs) → NoDup (keys (core (watch_run (watch_init pids applogs) es))).
Proof.
  intros Hn Hap. apply (wrun_inv (λ s, wok pids applogs (λ p, Sent p ∈ es) s ∧ distinct (core s)) (λ e, e ∈ es)).
  - split; [apply wok_init|]. by apply (distinct_trun applogs []).
  - by apply Forall_forall.
  - intros s e He [Hs Hd]. split; [apply wok_next; [by intros p <-|done]|]. rewrite core_wnext.
    destruct (events_one s e) as [->|[te E]]; [done|]. rewrite E. apply distinct_next; [|done].
    rewrite (wk_paths _ _ _ _ Hs). destruct te as [p| | |]; try done. apply Hap.
    destruct (pid_event s e p) as [Hp| ->]; [rewrite E; by left| |by right].
    left. by apply (announced_pid _ applogs), (wk_todo _ _ _ _ Hs).
Qed.

(** What is followed when everything has been handled. *)
Lemma quiet_follows pids applogs sent s : wok pids applogs sent s → all_handled s →
  (∀ k, k ∈ p_path <$> pids ∨ k ∈ applogs → k ∈ keys (core s)) ∧
  (∀ k, k ∈ keys (core s) → k ∈ p_path <$> pids ∨ k ∈ applogs ∨ ∃ p, sent p ∧ k = p_path p).
Proof.
  intros [H1 H2 H3 H4 H5 H6 H7] (Q1 & Q2 & Q3 & Q4). rewrite Forall_forall in Q2. rewrite Forall_forall in Q4. split.
  - intros k [(p & -> & Hp)%list_elem_of_fmap|(i & Hi)%list_elem_of_lookup_1]; apply (once_seen _ H1).
    + destruct (H6 p Hp) as [Ht|[Ht|?]]; [|congruence|done]. rewrite Q1 in Ht. by apply not_elem_of_nil in Ht.
    + destruct (H7 i k Hi) as [Ht|[Ht|[Ht|?]]]; [| | |done].
      * rewrite Q1 in Ht. by apply not_elem_of_nil in Ht.
      * apply list_elem_of_lookup_2, Q2 in Ht. done.
      * apply list_elem_of_lookup_2, Q4 in Ht. done.
  - intros k ([p|i a] & -> & Ht)%list_elem_of_fmap; cbn.
    + destruct (H5 p) as [?|?]; [by left| |right; right; eauto]. left. apply list_elem_of_fmap. eauto.
    + right; left. apply (once_path _ H1) in Ht. rewrite H2 in Ht. by apply list_elem_of_lookup_2 in Ht.
Qed.

(** ** Nothing waits for ever *)

Lemma count_insert {A} (f : A → nat) l i x y : l !! i = Some y → sum_list_with f (<[i := x]> l) + f y = sum_list_with f l + f x.
Proof.
  revert i. induction l as [|z l IH]; intros [|i]; cbn; try done; [intros [= ->]; lia|].
  intros Hi%IH. rewrite <-!Nat.add_assoc. f_equal. exact Hi.
Qed.
Definition full (b : option string) : nat := if b is Some _ then 2 else 0.
Definition pending (x : string * bool) : nat := if x.2 then 1 else 0.
Definition work (s : watch_state) : nat :=
  4 * length (todo s) + sum_list_with full (boxes s) + sum_list_with pending (apps (core s)) + (if disp (core s) is Some _ then 1 else 0).

(** A goroutine that is not idle can go on, and so can [Watch]. *)
Lemma progress pids applogs sent s : wok pids applogs sent s → all_handled s ∨ ∃ e, program e = true ∧ work (watch_next s e) < work s.
Proof.
  intros [H1 H2 H3 H4 H5 H6 H7]. unfold work.
  destruct (disp (core s)) as [p|] eqn:Ed.
  { right. exists FinishPid. split; [done|]. cbn. rewrite Ed. cbn. lia. }
  destruct (decide (Forall (λ x, x.2 = false) (apps (core s)))) as [Ha|Ha]; [|right].
  2:{ apply not_Forall_Exists, Exists_exists in Ha as ([a b] & (i & Hi)%list_elem_of_lookup_1 & Hb); [|solve_decision].
      destruct b; [|by destruct Hb]. exists (FinishApp i). split; [done|]. cbn. rewrite Hi. cbn. rewrite Ed.
      pose proof (count_insert pending (apps (core s)) i (a, false) _ Hi) as Hc. cbn in Hc. lia. }
  destruct (decide (Forall (λ b, b = None) (boxes s))) as [Hb|Hb]; [|right].
  2:{ apply not_Forall_Exists, Exists_exists in Hb as (b & (i & Hi)%list_elem_of_lookup_1 & Hb); [|solve_decision].
      destruct b as [path|]; [|by destruct Hb]. exists (Take i). split; [done|]. cbn -[tnext]. rewrite Hi.
      destruct (lookup_lt_is_Some_2 (apps (core s)) i) as [[a c] Hac].
      { rewrite <-(length_fmap fst), H2, <-H3. by eapply lookup_lt_Some. }
      rewrite Forall_forall in Ha. pose proof (Ha _ (list_elem_of_lookup_2 _ _ _ Hac)) as Hc. cbn in Hc. subst c.
      rewrite Hac. cbn -[tnext]. pose proof (count_insert full (boxes s) i None _ Hi) as Hf. cbn in Hf.
      cbn. rewrite Hac. case_bool_decide; cbn; rewrite Ed; [lia|].
      pose proof (count_insert pending (apps (core s)) i (a, true) _ Hac) as Hp. cbn in Hp. lia. }
  destruct (todo s) as [|[p|i path] rest] eqn:Et; [by left|right; exists Announce; split; [done|]..].
  - cbn -[tnext]. rewrite Et, Ed. cbn. rewrite Ed. case_bool_decide; cbn; rewrite ?Ed; lia.
  - cbn. rewrite Et. assert (Hi : applogs !! i = Some path) by (apply (announced_app pids), H4; by left).
    destruct (lookup_lt_is_Some_2 (boxes s) i) as [b Hbi]; [rewrite H3; by eapply lookup_lt_Some|].
    rewrite Forall_forall in Hb. pose proof (Hb _ (list_elem_of_lookup_2 _ _ _ Hbi)) as ->.
    unfold put. rewrite Hbi. cbn. rewrite Ed. pose proof (count_insert full (boxes s) i (Some path) _ Hbi) as Hf. cbn in Hf. lia.
Qed.

Lemma completes pids applogs sent s : wok pids applogs sent s →
  ∃ es, Forall (λ e, program e = true) es ∧ length es ≤ work s ∧ all_handled (watch_run s es).
Proof.
  remember (work s) as n eqn:En. revert s En. induction (lt_wf n) as [n _ IH]; intros s -> Hs.
  destruct (progress pids applogs sent s Hs) as [Hq|(e & He & Hw)].
  - exists []. split_and!; [constructor|cbn [length]; lia|done].
  - destruct (IH _ Hw (watch_next s e) eq_refl) as (es & H1 & H2 & H3).
    + apply wok_next; [by intros p ->|done].
    + exists (e :: es). split_and!; [by constructor|cbn [length]; lia|done].
Qed.

Lemma resolve_applogs_ok w mkdir watch ev applogs paths :
  resolve_applogs w mkdir watch ev applogs = (paths, None) →
  ∀ x, x ∈ paths ↔ ∃ a, a ∈ applogs ∧ resolve_applog w mkdir watch ev a = Val x.
Proof.
  revert paths. induction applogs as [|a applogs IH]; intros paths; cbn; [intros [= <-]; set_solver|].
  destruct (resolve_applog w mkdir watch ev a) as [p|] eqn:E; [|done].
  destruct (resolve_applogs w mkdir watch ev applogs) as [ps e]. intros [= <- ->] x.
  rewrite elem_of_cons, (IH ps) by done. split.
  - intros [->|(b & ? & ?)]; [exists a|exists b]; split; set_solver.
  - intros (b & [->|]%elem_of_cons & Hb); [left; congruence|right; eauto].
Qed.

(** What [Watch] announces. *)
Definition announced_log (w : os) (mkdir watch : string → bool) (ev : string → option string) (t : Tailer) (pidFile : PidFile)
    (workers : list PidFile) (k : string) : Prop :=
  t_NoServerLogs t = false ∧ k = p_path pidFile ∨
  t_NoWorkerLogs t = false ∧ k ∈ p_path <$> workers ∨
  ∃ a, a ∈ watched_applogs w t (p_Dir pidFile) ∧ resolve_applog w mkdir watch ev a = Val k.
Lemma Watch_announced w mkdir watch ev t pidFile workerDir workers pids applogs k :
  Watch w mkdir watch ev t pidFile workerDir workers = (pids, applogs, None) →
  announced_log w mkdir watch ev t pidFile workers k ↔ k ∈ p_path <$> pids ∨ k ∈ applogs.
Proof.
  unfold Watch, announced_log. intros HW. destruct (resolve_applogs _ _ _ _ _) as [paths e] eqn:E. cbn in HW.
  assert (Hp : pids = (if t_NoServerLogs t then [] else [pidFile]) ++ (if t_NoWorkerLogs t then [] else workers) ∧
               applogs = paths ∧ e = None).
  { destruct (t_NoWorkerLogs t); [|destruct (mkdir workerDir), (watch workerDir)]; cbn in HW; simplify_eq; by rewrite ?app_nil_r. }
  destruct Hp as (-> & -> & ->). rewrite <- (resolve_applogs_ok _ _ _ _ _ _ E), fmap_app, elem_of_app.
  destruct (t_NoServerLogs t), (t_NoWorkerLogs t); cbn; rewrite ?list_elem_of_singleton, ?elem_of_nil; naive_solver.
Qed.

(** C36: let [Watch] return without an error, and let its own sending, the
    goroutines and the events of the file system interleave in any way.  It can
    always be completed, by steps of the program alone.  Whenever everything that
    was sent has been handled, each file that [Watch] announced_log is followed: the
    server unless [NoServerLogs], the workers unless [NoWorkerLogs], and the
    application logs under their resolved paths; besides those, only the logs of
    the other pid files that were sent are followed.  When the application logs
    are different files, none of them a pid file, each is followed once. *)
Theorem Watch_follows w mkdir watch ev t pidFile workerDir workers pids applogs es :
  Watch w mkdir watch ev t pidFile workerDir workers = (pids, applogs, None) →
  let s := watch_run (watch_init pids applogs) es in
  (∃ es', Forall (λ e, program e = true) es' ∧ all_handled (watch_run s es')) ∧
  (all_handled s →
    (∀ k, announced_log w mkdir watch ev t pidFile workers k → k ∈ keys (core s)) ∧
    (∀ k, k ∈ keys (core s) → announced_log w mkdir watch ev t pidFile workers k ∨ ∃ p, Sent p ∈ es ∧ k = p_path p)) ∧
  (NoDup applogs → (∀ p, p ∈ pids ∨ Sent p ∈ es → p_path p ∉ applogs) → NoDup (keys (core s))).
Proof.
  intros HW s. pose proof (wok_run pids applogs es) as Hs. fold s in Hs. split_and!; [| |by apply wdistinct].
  - destruct (completes _ _ _ _ Hs) as (es' & ? & _ & ?). eauto.
  - intros Hq. destruct (quiet_follows _ _ _ _ Hs Hq) as [H1 H2].
    split; intros k Hk; [apply H1; by apply (Watch_announced _ _ _ _ _ _ _ _ _ _ k HW)|].
    rewrite (Watch_announced _ _ _ _ _ _ _ _ _ _ k HW). destruct (H2 k Hk) as [?|[?|?]]; auto.
Qed.

(** The race of two application logs that are the same file, with the events of
    [Watch]: it is followed, twice. *)
Definition ex_race : list wevent := [Announce; FinishPid; Announce; Announce; Take 0; Take 1; FinishApp 1; FinishApp 0].
Lemma Watch_follows_witness :
  let s := watch_run (watch_init [ex_pidfile] ["/p/var/log/dev.log"; "/p/var/log/dev.log"]) ex_race in
  keys (core s) = ["/h/var/p.pid"; "/p/var/log/dev.log"; "/p/var/log/dev.log"] ∧
  ∀ k, announced_log ex_os (λ _, true) (λ _, true) (λ _, Some "/p/var/log/dev.log") ex_tailer ex_pidfile [] k → k ∈ keys (core s).
Proof.
  split; [vm_compute; reflexivity|].
  refine (proj1 (proj1 (proj2 (Watch_follows ex_os (λ _, true) (λ _, true) (λ _, Some "/p/var/log/dev.log") ex_tailer ex_pidfile
    "/h/var/p" [] [ex_pidfile] ["/p/var/log/dev.log"; "/p/var/log/dev.log"] ex_race _)) _)).
  - vm_compute. reflexivity.
  - vm_compute. repeat constructor.
Defined.

(** ** Lines *)

Lemma Tail_length {L} (prettify : option (L → string → outcome (L * string))) last lines outs :
  Tail prettify last lines = Ret outs → length outs = length lines.
Proof.
  revert last outs. induction lines as [|nl lines IH]; intros last outs; cbn; [by intros [= <-]|].
  intros ([l o] & _ & (os' & H & [= <-])%bind_inv)%bind_inv. cbn. f_equal. by eapply IH.
Qed.

Lemma tails_once_witness : NoDup (keys (trun (tinit ["/a"; "/b"]) [AppEvent 1 "/b"; RecvPid ex_pidfile; StoreApp 1; AppEvent 1 "/b"; StorePid])).
Proof.
  apply (tails_once ["/a"; "/b"] [AppEvent 1 "/b"; RecvPid ex_pidfile; StoreApp 1; AppEvent 1 "/b"; StorePid]).
  - apply (bool_decide_eq_true_1 _). vm_compute. reflexivity.
  - repeat constructor. cbn. apply (bool_decide_eq_true_1 _). vm_compute. reflexivity.
Defined.
