(* ===== verification/PidWait.v ===== *)
(** * Waiting for pid files, logs and processes ([local/pid/pidfile.go])

    [WaitForPid] and [WaitForLogs] watch a directory before they look whether
    the file is there, so that no creation falls between the two.  The program
    and the system are one state machine, [wnext].  As [notify.Watch] documents,
    an event is dropped when the channel is full, and the channels hold one; the
    path of an event is the real one, without symbolic links.

    [wait_finds] shows that the wait ends once the file was created, if its path has
    no symbolic links and its event was not dropped; [wait_dropped] and
    [wait_symlink] what happens otherwise.  [LogWriter_once] is
    about the log, which is truncated at most once per process. *)

From stdpp Require Import base tactics option list gmap strings pretty.
From Stdlib Require Import ZArith Lia Ascii.
From S2P Require Import Prelude GoStrings FilePath Os Pid.

(** ** Waiting for a file *)

Inductive wait_pc := BeforeWatch | BeforeStat | Looping | Finished | GaveUp.
(** [w_file]: the file exists; [w_chan]: the channel of the events. *)
Record wait_state := mkWait { w_file : bool; w_chan : option string; w_pc : wait_pc }.
Definition wait_init (file : bool) : wait_state := mkWait file None BeforeWatch.
Definition watching (pc : wait_pc) : bool := match pc with BeforeStat | Looping => true | _ => false end.

Inductive wait_event :=
| Created (path : string)
| StartWatch (mkdir_ok watch_ok : bool)
| LookUp
| Recv.

Section wait.
(** The path that an event of a file carries: [filepath.EvalSymlinks] of its path. *)
Context (resolve : string → string).

(** What happens when a file is created in the directory, and the steps of the
    program. *)
Definition wnext (target : string) (s : wait_state) (e : wait_event) : wait_state :=
  match e with
  | Created path =>
    mkWait (w_file s || bool_decide (path = target))
      (if watching (w_pc s) then Some (default (resolve path) (w_chan s)) else w_chan s) (w_pc s)
  | StartWatch mkdir_ok watch_ok =>
    match w_pc s with
    | BeforeWatch => mkWait (w_file s) (w_chan s) (if mkdir_ok && watch_ok then BeforeStat else GaveUp)
    | _ => s
    end
  | LookUp =>
    match w_pc s with
    | BeforeStat => mkWait (w_file s) (w_chan s) (if w_file s then Finished else Looping)
    | _ => s
    end
  | Recv =>
    match w_pc s, w_chan s with
    | Looping, Some path => mkWait (w_file s) None (if bool_decide (path = target) then Finished else Looping)
    | _, _ => s
    end
  end.
Definition wrun (target : string) (s : wait_state) (es : list wait_event) : wait_state := foldl (wnext target) s es.

(** [WaitForPid] waits for the pid file, [WaitForLogs] for the log. *)
Definition WaitForPid (p : PidFile) (file : bool) (es : list wait_event) : wait_state :=
  wrun (p_path p) (wait_init file) es.
Definition WaitForLogs (logFile : string) (file : bool) (es : list wait_event) : wait_state :=
  wrun logFile (wait_init file) es.

(** The event of the file is never dropped: when the file is created the channel
    is empty, or holds an event of the file already. *)
Fixpoint heard (target : string) (s : wait_state) (es : list wait_event) : bool :=
  match es with
  | [] => true
  | e :: es =>
    match e with
    | Created path =>
      negb (bool_decide (path = target)) || bool_decide (w_chan s = None) || bool_decide (w_chan s = Some target)
    | _ => true
    end && heard target (wnext target s e) es
  end.

(** While the loop runs and the file is there, its event is in the channel. *)
Definition wait_ok (target : string) (s : wait_state) : Prop :=
  w_pc s = Looping → w_file s = true → w_chan s = Some target.

Lemma wait_ok_next target s e :
  resolve target = target → heard target s [e] = true → wait_ok target s → wait_ok target (wnext target s e).
Proof.
  intros Hreal. destruct s as [file chan pc]. unfold wait_ok. cbn. rewrite andb_true_r. destruct e as [path|m w| |]; cbn.
  - intros Hh Hs -> [->|Hp]%orb_true_iff.
    + by rewrite Hs.
    + apply bool_decide_eq_true_1 in Hp. subst path. cbn. rewrite bool_decide_eq_true_2 in Hh by done.
      cbn in Hh. apply orb_true_iff in Hh as [Hc%bool_decide_eq_true_1 | Hc%bool_decide_eq_true_1]; by rewrite Hc, ?Hreal.
  - intros _ Hs. destruct pc; cbn; try done. by destruct (m && w).
  - intros _ Hs. destruct pc; cbn; try done. destruct file; done.
  - intros _ Hs. destruct pc; cbn; try done. destruct chan as [path|]; cbn; [|done].
    case_bool_decide as Hp; [done|]. intros _ ->. by destruct Hp; specialize (Hs eq_refl eq_refl) as [= ->].
Qed.

Lemma wait_ok_run target s es : resolve target = target → heard target s es = true → wait_ok target s → wait_ok target (wrun target s es).
Proof.
  intros Hreal. revert s. induction es as [|e es IH]; intros s Hh Hs; [done|]. cbn in Hh. apply andb_true_iff in Hh as [He Hes].
  apply IH; [done|]. apply wait_ok_next; [done| |done]. cbn. by rewrite He.
Qed.

(** A wait that goes on. *)
Lemma wait_finished target s : w_pc s = Finished → ∀ es, w_pc (wrun target s es) = Finished.
Proof.
  intros Hs es. revert s Hs. induction es as [|e es IH]; intros s Hs; [done|]. apply IH. destruct s as [f c pc]. cbn in *. subst pc.
  by destruct e.
Qed.

(** C17: whenever the file is created — before the directory is watched, between
    that and the look-up, or later — and however other files come and go, the
    wait ends with the next steps of the program if there is no symbolic link in the
    path of the file and its event was not dropped. *)
Theorem wait_finds target file es :
  resolve target = target → heard target (wait_init file) es = true → w_pc (wrun target (wait_init file) es) ≠ GaveUp →
  w_file (wrun target (wait_init file) es) = true →
  w_pc (wrun target (wait_init file) (es ++ [StartWatch true true; LookUp; Recv])) = Finished.
Proof.
  intros Hreal Hh Hg Hf. unfold wrun in *. rewrite foldl_app. fold (wrun target (wait_init file) es) in *.
  assert (Hok : wait_ok target (wrun target (wait_init file) es)) by (by apply wait_ok_run).
  destruct (wrun target (wait_init file) es) as [f c pc]. cbn in *. subst f.
  destruct pc; cbn; try done. rewrite Hok by done. cbn. by rewrite bool_decide_eq_true_2.
Qed.

(** When another file fills the channel first, the event of the file is dropped:
    the wait goes on although the file is there, until it is created again. *)
Theorem wait_dropped target other es :
  resolve other ≠ target → other ≠ target → (∀ path, Created path ∈ es → resolve path ≠ target) →
  w_pc (wrun target (wait_init false) ([StartWatch true true; LookUp; Created other; Created target; Recv] ++ es)) = Looping ∧
  w_file (wrun target (wait_init false) ([StartWatch true true; LookUp; Created other; Created target; Recv] ++ es)) = true.
Proof.
  intros Hr Ho Hes. unfold wrun. rewrite foldl_app. fold (wrun target). cbn [foldl].
  set (s := wnext _ _ _). assert (Hs : w_pc s = Looping ∧ w_file s = true ∧ w_chan s ≠ Some target).
  { subst s. cbn. rewrite !(bool_decide_eq_false_2 (other = target)), (bool_decide_eq_true_2 (target = target)),
      (bool_decide_eq_false_2 (resolve other = target)) by done. done. }
  clearbody s. revert s Hs. induction es as [|e es IH]; intros s (H1 & H2 & H3); [done|].
  apply IH; [intros path Hp; apply Hes; by right|]. destruct s as [f c pc]. cbn in *. subst f pc.
  destruct e as [path|m w| |]; cbn; try done.
  - split_and!; try done. destruct c as [c|]; cbn; [done|]. intros [= Hp]. apply (Hes path); [by left|done].
  - destruct c as [c|]; cbn; [|done]. rewrite (bool_decide_eq_false_2 (c = target)) by congruence. done.
Qed.

(** With a symbolic link in its path the file is waited for in vain, although it is
    there and its event was not dropped, when it is created after the look-up. *)
Theorem wait_symlink target es :
  (∀ path, Created path ∈ es → resolve path ≠ target) →
  w_pc (wrun target (wait_init false) ([StartWatch true true; LookUp] ++ es)) = Looping.
Proof.
  intros Hes. unfold wrun. rewrite foldl_app. cbn [foldl]. set (s := wnext _ _ _).
  assert (Hs : w_pc s = Looping ∧ w_chan s ≠ Some target) by done. clearbody s.
  revert s Hs. induction es as [|e es IH]; intros s (H1 & H2); [done|].
  apply IH; [intros path Hp; apply Hes; by right|]. destruct s as [f c pc]. cbn in *. subst pc.
  destruct e as [path|m w| |]; cbn; try done.
  - split; [done|]. destruct c as [c|]; cbn; [done|]. intros [= Hp]. apply (Hes path); [by left|done].
  - destruct c as [c|]; cbn; [|done]. rewrite (bool_decide_eq_false_2 (c = target)) by congruence. done.
Qed.
End wait.

Lemma wait_finds_witness :
  w_pc (WaitForPid id (mkPid "/p" [] 0 0 "" None "" "/v/a.pid") false
    [StartWatch true true; Created "/v/b.pid"; LookUp; Recv; Created "/v/a.pid"; StartWatch true true; LookUp; Recv]) = Finished.
Proof.
  apply (wait_finds id "/v/a.pid" false [StartWatch true true; Created "/v/b.pid"; LookUp; Recv; Created "/v/a.pid"]);
    vm_compute; (reflexivity || discriminate).
Defined.

(** ** Waiting for the exit of a process *)

(** What [process.Wait] says; [WaitChild]: the process is not a child. *)
Inductive wait_answer := WaitOk | WaitChild | WaitFailed.
Inductive exit_error := FindError | ExitWaitError | ExitTimeout.
(** The error, and whether the pid file is removed; [late]: nothing came for
    thirty seconds. *)
Definition WaitForExit (p : PidFile) (find running : bool) (wait : wait_answer) (late : bool) : option exit_error * bool :=
  if bool_decide (p_Pid p = 0%Z) then (None, false)
  else if negb find then (Some FindError, false)
  else if late then (Some ExitTimeout, true)
  else (if negb running then None else match wait with WaitOk | WaitChild => None | WaitFailed => Some ExitWaitError end, true).
(** [None]: there is nothing to signal. *)
Definition Signal (p : PidFile) (find : bool) (send : bool) : option bool :=
  if bool_decide (p_Pid p = 0%Z) then None else Some (find && send).

(** ** The log *)

(** An interface without a value, with a nil file in it, or with a file. *)
Inductive writer := NoWriter | NilFile | LogFileWriter.
(** [truncated]: how often the log was opened and truncated. *)
Record log_state := mkLog { lwInit : bool; lw : writer; truncated : nat }.
Definition log_init : log_state := mkLog false NoWriter 0.

Definition LogWriter (s : log_state) (mkdir_ok open_ok : bool) : log_state * option writer :=
  if lwInit s then (s, Some (lw s))
  else if negb mkdir_ok then (mkLog true NoWriter (truncated s), None)
  else if negb open_ok then (mkLog true NilFile (truncated s), None)
  else (mkLog true LogFileWriter (S (truncated s)), Some LogFileWriter).
Fixpoint LogWriters (s : log_state) (calls : list (bool * bool)) : log_state * list (option writer) :=
  match calls with
  | [] => (s, [])
  | (m, o) :: calls =>
    let '(s, r) := LogWriter s m o in let '(s, rs) := LogWriters s calls in (s, r :: rs)
  end.
(** [LogReader]: the log is created when it is missing. *)
Definition LogReader (mkdir_ok open_ok : bool) : bool := mkdir_ok && open_ok.

(** However often the writer of the log is asked for, the log is truncated
    at most once, and only when the first call gave a writer; later calls give
    this writer again, or no usable one without an error when the first call
    failed. *)
Theorem LogWriter_once m o calls :
  truncated (LogWriters log_init ((m, o) :: calls)).1 = (if m && o then 1 else 0) ∧
  (LogWriters log_init ((m, o) :: calls)).2 =
    (if m && o then Some LogFileWriter else None) ::
    replicate (length calls) (Some (if negb m then NoWriter else if negb o then NilFile else LogFileWriter)).
Proof.
  assert (H : ∀ s, lwInit s = true → LogWriters s calls = (s, replicate (length calls) (Some (lw s)))).
  { intros s Hs. induction calls as [|[m' o'] calls IH]; [done|]. cbn. unfold LogWriter. rewrite Hs, IH. done. }
  cbn [LogWriters]. unfold LogWriter. cbn. destruct m, o; cbn; by rewrite H.
Qed.

(** ** Cleaning up *)

(** The directories that are left, with the number of their entries: the
    temporary one is removed with its contents, the others only when they are
    empty. *)
Section cleanup.
  Context (home : string) (name : string → string).
Definition os_rmdir (d : string) (dirs : gmap string nat) : gmap string nat :=
  if bool_decide (dirs !! d = Some 0) then delete d dirs else dirs.
Definition CleanupDirectories (p : PidFile) (dirs : gmap string nat) : gmap string nat :=
  os_rmdir (WorkerPidDir home name p)
    (os_rmdir (WorkerLogDir home name p) (filter (λ kv, below (TempDirectory home name p) kv.1 = false) dirs)).

Lemma os_rmdir_kept d dirs k n : n ≠ 0 → os_rmdir d dirs !! k = Some n ↔ dirs !! k = Some n.
Proof.
  intros Hn. unfold os_rmdir. case_bool_decide as H; [|done].
  destruct (decide (d = k)) as [<-|]; [rewrite lookup_delete_eq, H; naive_solver|by rewrite lookup_delete_ne].
Qed.

(** Nothing but temporary files is lost: a directory with entries stays unless
    it is in the temporary one. *)
Theorem CleanupDirectories_keeps p dirs k n : n ≠ 0 →
  CleanupDirectories p dirs !! k = Some n ↔ dirs !! k = Some n ∧ below (TempDirectory home name p) k = false.
Proof. intros Hn. unfold CleanupDirectories. rewrite !os_rmdir_kept by done. by rewrite map_lookup_filter_Some. Qed.
End cleanup.
