(* ===== verification/UpsunCommands.v ===== *)
(** * The commands of the cloud ([local/upsun/commands.go])

    The table that [local/upsun/generator] makes from the list of commands of
    the cloud program, one definition for each group of commands with the same
    category (large groups are split).  [Generator] models how it is made,
    [CloudCommands] what the CLI does with it. *)

From stdpp Require Import base list strings.

Inductive flag_kind := BoolFlag | StringFlag.
(** [f_DefaultValue] is the Go expression of the default. *)
Inductive default_value := NoDefault | DefaultTrue | DefaultString (s : string).
Record flag := mkFlag { f_kind : flag_kind; f_Name : string; f_Aliases : list string; f_DefaultValue : default_value }.
Record alias := mkAlias { a_Name : string; a_Hidden : bool }.
Record command := mkCommand {
  c_Category : string; c_Name : string; c_Aliases : list alias; c_Usage : string; c_Hidden : bool; c_Flags : list flag }.

#[export] Instance flag_kind_dec : EqDecision flag_kind.
Proof. solve_decision. Defined.
#[export] Instance default_value_dec : EqDecision default_value.
Proof. solve_decision. Defined.
#[export] Instance flag_dec : EqDecision flag.
Proof. solve_decision. Defined.
#[export] Instance alias_dec : EqDecision alias.
Proof. solve_decision. Defined.
#[export] Instance command_dec : EqDecision command.
Proof. solve_decision. Defined.

#[local] Notation shown s := (mkAlias s false).
#[local] Notation hidden s := (mkAlias s true).
#[local] Notation B n := (mkFlag BoolFlag n [] NoDefault).
#[local] Notation S n := (mkFlag StringFlag n [] NoDefault).

Definition Commands_global : list command :=
  [
   mkCommand "cloud" "_completion"
     [hidden "upsun:_completion"]
     "BASH completion hook." true
     [mkFlag BoolFlag "generate-hook" ["g"] NoDefault; mkFlag BoolFlag "multiple" ["m"] NoDefault;
      mkFlag StringFlag "program" ["p"] NoDefault; S "shell-type"];
   mkCommand "cloud" "bot"
     [hidden "upsun:bot"]
     "The Upsun (formerly Platform.sh/Upsun) Bot" true
     [B "parrot"; B "party"];
   mkCommand "cloud" "clear-cache"
     [hidden "upsun:clear-cache"; shown "cloud:cc"; hidden "upsun:cc"]
     "Clear the CLI cache" false
     [];
   mkCommand "cloud" "console"
     [hidden "upsun:console"; shown "cloud:web"; hidden "upsun:web"]
     "Open the project in the Console" false
     [S "browser"; mkFlag StringFlag "environment" ["e"] NoDefault; B "pipe";
      mkFlag StringFlag "project" ["p"] NoDefault];
   mkCommand "cloud" "docs"
     [hidden "upsun:docs"]
     "Open the online documentation" false
     [S "browser"; B "pipe"];
   mkCommand "cloud" "multi"
     [hidden "upsun:multi"]
     "Execute a command on multiple projects" false
     [B "continue"; mkFlag StringFlag "projects" ["p"] NoDefault; B "reverse";
      mkFlag StringFlag "sort" [] (DefaultString "title")];
   mkCommand "cloud" "welcome"
     [hidden "upsun:welcome"]
     "Welcome to Upsun (formerly Platform.sh/Upsun)" true
     [];
   mkCommand "cloud" "winky"
     [hidden "upsun:winky"]
     "" true
     []
  ].

Definition Commands_activity : list command :=
  [
   mkCommand "cloud:activity" "cancel"
     [hidden "activity:cancel"; hidden "upsun:activity:cancel"]
     "Cancel an activity" false
     [mkFlag BoolFlag "all" ["a"] NoDefault; mkFlag StringFlag "environment" ["e"] NoDefault;
      mkFlag StringFlag "exclude-type" ["x"] NoDefault; mkFlag StringFlag "project" ["p"] NoDefault;
      mkFlag StringFlag "type" ["t"] NoDefault];
   mkCommand "cloud:activity" "get"
     [hidden "activity:get"; hidden "upsun:activity:get"]
     "View detailed information on a single activity" false
     [mkFlag BoolFlag "all" ["a"] NoDefault; mkFlag StringFlag "columns" ["c"] NoDefault;
      mkFlag StringFlag "date-fmt" [] (DefaultString "c"); mkFlag StringFlag "environment" ["e"] NoDefault;
      mkFlag StringFlag "exclude-type" ["x"] NoDefault;
      mkFlag StringFlag "format" [] (DefaultString "table"); mkFlag BoolFlag "incomplete" ["i"] NoDefault;
      B "no-header"; mkFlag StringFlag "project" ["p"] NoDefault;
      mkFlag StringFlag "property" ["P"] NoDefault; S "result"; S "state";
      mkFlag StringFlag "type" ["t"] NoDefault];
   mkCommand "cloud:activity" "list"
     [hidden "activity:list"; hidden "upsun:activity:list"; shown "cloud:activities";
      hidden "upsun:activities"; hidden "activities"; shown "cloud:act"; hidden "upsun:act"; hidden "act"]
     "Get a list of activities for an environment or project" false
     [mkFlag BoolFlag "all" ["a"] NoDefault; mkFlag StringFlag "columns" ["c"] NoDefault;
      mkFlag StringFlag "date-fmt" [] (DefaultString "c"); mkFlag StringFlag "environment" ["e"] NoDefault;
      mkFlag StringFlag "exclude-type" ["x"] NoDefault;
      mkFlag StringFlag "format" [] (DefaultString "table"); mkFlag BoolFlag "incomplete" ["i"] NoDefault;
      S "limit"; B "no-header"; mkFlag StringFlag "project" ["p"] NoDefault; S "result"; S "start";
      S "state"; mkFlag StringFlag "type" ["t"] NoDefault];
   mkCommand "cloud:activity" "log"
     [hidden "activity:log"; hidden "upsun:activity:log"]
     "Display the log for an activity" false
     [mkFlag BoolFlag "all" ["a"] NoDefault; mkFlag StringFlag "date-fmt" [] (DefaultString "c");
      mkFlag StringFlag "environment" ["e"] NoDefault; mkFlag StringFlag "exclude-type" ["x"] NoDefault;
      mkFlag BoolFlag "incomplete" ["i"] NoDefault; mkFlag StringFlag "project" ["p"] NoDefault;
      S "refresh"; S "result"; S "state"; mkFlag BoolFlag "timestamps" ["t"] NoDefault; S "type"]
  ].

Definition Commands_api : list command :=
  [
   mkCommand "cloud:api" "curl"
     [hidden "api:curl"; hidden "upsun:api:curl"]
     "Run an authenticated cURL request on the Upsun (formerly Platform.sh/Upsun) API" true
     [mkFlag StringFlag "data" ["d"] NoDefault; B "disable-compression"; B "enable-glob";
      mkFlag BoolFlag "fail" ["f"] NoDefault; mkFlag BoolFlag "head" ["I"] NoDefault;
      mkFlag StringFlag "header" ["H"] NoDefault; mkFlag BoolFlag "include" ["i"] NoDefault; S "json";
      B "no-retry-401"; mkFlag StringFlag "request" ["X"] NoDefault]
  ].

Definition Commands_app : list command :=
  [
   mkCommand "cloud:app" "config-get"
     [hidden "app:config-get"; hidden "upsun:app:config-get"]
     "View the configuration of an app" false
     [mkFlag StringFlag "app" ["A"] NoDefault; mkFlag StringFlag "environment" ["e"] NoDefault;
      mkFlag StringFlag "identity-file" ["i"] NoDefault; mkFlag StringFlag "project" ["p"] NoDefault;
      mkFlag StringFlag "property" ["P"] NoDefault; B "refresh"];
   mkCommand "cloud:app" "config-validate"
     [hidden "app:config-validate"; hidden "upsun:app:config-validate"]
     "Validate the config files of a project" false
     [];
   mkCommand "cloud:app" "list"
     [hidden "app:list"; hidden "upsun:app:list"; shown "cloud:apps"; hidden "upsun:apps"; hidden "apps"]
     "List apps in the project" false
     [mkFlag StringFlag "columns" ["c"] NoDefault; mkFlag StringFlag "environment" ["e"] NoDefault;
      mkFlag StringFlag "format" [] (DefaultString "table"); B "no-header"; B "pipe";
      mkFlag StringFlag "project" ["p"] NoDefault; B "refresh"]
  ].

Definition Commands_auth : list command :=
  [
   mkCommand "cloud:auth" "api-token-login"
     [hidden "auth:api-token-login"; hidden "upsun:auth:api-token-login"]
     "Log in to Upsun (formerly Platform.sh/Upsun) using an API token" false
     [];
   mkCommand "cloud:auth" "browser-login"
     [hidden "auth:browser-login"; hidden "upsun:auth:browser-login"; shown "cloud:login";
      hidden "upsun:login"; hidden "login"]
     "Log in to Upsun (formerly Platform.sh/Upsun) via a browser" false
     [S "browser"; mkFlag BoolFlag "force" ["f"] NoDefault; S "max-age"; S "method"; B "pipe"];
   mkCommand "cloud:auth" "info"
     [hidden "auth:info"; hidden "upsun:auth:info"]
     "Display your account information" false
     [mkFlag StringFlag "columns" ["c"] NoDefault; mkFlag StringFlag "format" [] (DefaultString "table");
      B "no-auto-login"; B "no-header"; mkFlag StringFlag "property" ["P"] NoDefault; B "refresh"];
   mkCommand "cloud:auth" "logout"
     [hidden "auth:logout"; hidden "upsun:auth:logout"; shown "cloud:logout"; hidden "upsun:logout";
      hidden "logout"]
     "Log out of Upsun (formerly Platform.sh/Upsun)" false
     [mkFlag BoolFlag "all" ["a"] NoDefault; B "other"];
   mkCommand "cloud:auth" "token"
     [hidden "auth:token"; hidden "upsun:auth:token"]
     "Obtain an OAuth 2 access token for requests to Upsun (formerly Platform.sh/Upsun) APIs" true
     [mkFlag BoolFlag "header" ["H"] NoDefault; mkFlag BoolFlag "no-warn" ["W"] NoDefault];
   mkCommand "cloud:auth" "verify-phone-number"
     [hidden "auth:verify-phone-number"; hidden "upsun:auth:verify-phone-number"]
     "Verify your phone number interactively" false
     []
  ].

Definition Commands_autoscaling : list command :=
  [
   mkCommand "cloud:autoscaling" "get"
     [hidden "autoscaling:get"; hidden "upsun:autoscaling:get"; shown "cloud:autoscaling";
      hidden "upsun:autoscaling"; hidden "autoscaling"]
     "View the autoscaling configuration of apps, workers, and services on an environment" false
     [mkFlag StringFlag "columns" ["c"] NoDefault; mkFlag StringFlag "environment" ["e"] NoDefault;
      mkFlag StringFlag "format" [] (DefaultString "table"); B "no-header";
      mkFlag StringFlag "project" ["p"] NoDefault];
   mkCommand "cloud:autoscaling" "set"
     [hidden "autoscaling:set"; hidden "upsun:autoscaling:set"]
     "Set the autoscaling configuration of apps, workers, or services in an environment" false
     [S "cooldown-down"; S "cooldown-up"; B "dry-run"; S "duration-down"; S "duration-up"; S "enabled";
      mkFlag StringFlag "environment" ["e"] NoDefault; S "instances-max"; S "instances-min";
      mkFlag StringFlag "metric" ["m"] NoDefault; mkFlag StringFlag "project" ["p"] NoDefault;
      mkFlag StringFlag "service" ["s"] NoDefault; S "threshold-down"; S "threshold-up"]
  ].

Definition Commands_backup : list command :=
  [
   mkCommand "cloud:backup" "create"
     [hidden "backup:create"; hidden "upsun:backup:create"; shown "cloud:backup"; hidden "upsun:backup";
      hidden "backup"]
     "Make a backup of an environment" false
     [mkFlag StringFlag "environment" ["e"] NoDefault; B "live"; mkFlag BoolFlag "no-wait" ["W"] NoDefault;
      mkFlag StringFlag "project" ["p"] NoDefault; B "wait"];
   mkCommand "cloud:backup" "delete"
     [hidden "backup:delete"; hidden "upsun:backup:delete"]
     "Delete an environment backup" false
     [mkFlag StringFlag "environment" ["e"] NoDefault; mkFlag BoolFlag "no-wait" ["W"] NoDefault;
      mkFlag StringFlag "project" ["p"] NoDefault; B "wait"];
   mkCommand "cloud:backup" "get"
     [hidden "backup:get"; hidden "upsun:backup:get"]
     "View an environment backup" false
     [mkFlag StringFlag "date-fmt" [] (DefaultString "c"); mkFlag StringFlag "environment" ["e"] NoDefault;
      mkFlag StringFlag "project" ["p"] NoDefault; mkFlag StringFlag "property" ["P"] NoDefault];
   mkCommand "cloud:backup" "list"
     [hidden "backup:list"; hidden "upsun:backup:list"; shown "cloud:backups"; hidden "upsun:backups";
      hidden "backups"]
     "List available backups of an environment" false
     [mkFlag StringFlag "columns" ["c"] NoDefault; mkFlag StringFlag "date-fmt" [] (DefaultString "c");
      mkFlag StringFlag "environment" ["e"] NoDefault;
      mkFlag StringFlag "format" [] (DefaultString "table"); B "no-header";
      mkFlag StringFlag "project" ["p"] NoDefault];
   mkCommand "cloud:backup" "restore"
     [hidden "backup:restore"; hidden "upsun:backup:restore"]
     "Restore an environment backup" false
     [S "branch-from"; mkFlag StringFlag "environment" ["e"] NoDefault; B "no-code";
      mkFlag BoolFlag "no-wait" ["W"] NoDefault; mkFlag StringFlag "project" ["p"] NoDefault; S "target";
      B "wait"]
  ].

Definition Commands_blue_green : list command :=
  [
   mkCommand "cloud:blue-green" "conclude"
     [hidden "blue-green:conclude"; hidden "upsun:blue-green:conclude"]
     "ALPHA Conclude a blue/green deployment" true
     [mkFlag StringFlag "environment" ["e"] NoDefault; mkFlag StringFlag "project" ["p"] NoDefault];
   mkCommand "cloud:blue-green" "deploy"
     [hidden "blue-green:deploy"; hidden "upsun:blue-green:deploy"]
     "ALPHA Perform a blue/green deployment" true
     [mkFlag StringFlag "environment" ["e"] NoDefault; mkFlag StringFlag "project" ["p"] NoDefault;
      S "routing-percentage"];
   mkCommand "cloud:blue-green" "enable"
     [hidden "blue-green:enable"; hidden "upsun:blue-green:enable"]
     "ALPHA Enable blue/green deployments" true
     [mkFlag StringFlag "environment" ["e"] NoDefault; mkFlag StringFlag "project" ["p"] NoDefault;
      mkFlag StringFlag "routing-percentage" ["%"] NoDefault]
  ].

Definition Commands_certificate : list command :=
  [
   mkCommand "cloud:certificate" "add"
     [hidden "certificate:add"; hidden "upsun:certificate:add"]
     "Add an SSL certificate to the project" false
     [S "cert"; S "chain"; S "key"; mkFlag BoolFlag "no-wait" ["W"] NoDefault;
      mkFlag StringFlag "project" ["p"] NoDefault; B "wait"];
   mkCommand "cloud:certificate" "delete"
     [hidden "certificate:delete"; hidden "upsun:certificate:delete"]
     "Delete a certificate from the project" false
     [mkFlag BoolFlag "no-wait" ["W"] NoDefault; mkFlag StringFlag "project" ["p"] NoDefault; B "wait"];
   mkCommand "cloud:certificate" "get"
     [hidden "certificate:get"; hidden "upsun:certificate:get"]
     "View a certificate" false
     [mkFlag StringFlag "date-fmt" [] (DefaultString "c"); mkFlag StringFlag "project" ["p"] NoDefault;
      mkFlag StringFlag "property" ["P"] NoDefault];
   mkCommand "cloud:certificate" "list"
     [hidden "certificate:list"; hidden "upsun:certificate:list"; shown "cloud:certificates";
      hidden "upsun:certificates"; hidden "certificates"; shown "cloud:certs"; hidden "upsun:certs";
      hidden "certs"]
     "List project certificates" false
     [mkFlag StringFlag "columns" ["c"] NoDefault; mkFlag StringFlag "date-fmt" [] (DefaultString "c");
      S "domain"; S "exclude-domain"; mkFlag StringFlag "format" [] (DefaultString "table");
      B "ignore-expiry"; S "issuer"; B "no-auto"; B "no-expired"; B "no-header"; B "only-auto";
      B "only-expired"; B "pipe-domains"; mkFlag StringFlag "project" ["p"] NoDefault]
  ].

Definition Commands_commit : list command :=
  [
   mkCommand "cloud:commit" "get"
     [hidden "commit:get"; hidden "upsun:commit:get"]
     "Show commit details" false
     [mkFlag StringFlag "date-fmt" [] (DefaultString "c"); mkFlag StringFlag "environment" ["e"] NoDefault;
      mkFlag StringFlag "project" ["p"] NoDefault; mkFlag StringFlag "property" ["P"] NoDefault];
   mkCommand "cloud:commit" "list"
     [hidden "commit:list"; hidden "upsun:commit:list"; shown "cloud:commits"; hidden "upsun:commits";
      hidden "commits"]
     "List commits" false
     [mkFlag StringFlag "columns" ["c"] NoDefault; mkFlag StringFlag "date-fmt" [] (DefaultString "c");
      mkFlag StringFlag "environment" ["e"] NoDefault;
      mkFlag StringFlag "format" [] (DefaultString "table"); S "limit"; B "no-header";
      mkFlag StringFlag "project" ["p"] NoDefault]
  ].

Definition Commands_db : list command :=
  [
   mkCommand "cloud:db" "dump"
     [hidden "db:dump"; hidden "upsun:db:dump"]
     "Create a local dump of the remote database" false
     [mkFlag StringFlag "app" ["A"] NoDefault; S "charset"; mkFlag StringFlag "directory" ["d"] NoDefault;
      mkFlag StringFlag "environment" ["e"] NoDefault; S "exclude-table";
      mkFlag StringFlag "file" ["f"] NoDefault; mkFlag BoolFlag "gzip" ["z"] NoDefault;
      mkFlag StringFlag "project" ["p"] NoDefault; mkFlag StringFlag "relationship" ["r"] NoDefault;
      S "schema"; B "schema-only"; mkFlag BoolFlag "stdout" ["o"] NoDefault; S "table";
      mkFlag BoolFlag "timestamp" ["t"] NoDefault];
   mkCommand "cloud:db" "sql"
     [hidden "db:sql"; hidden "upsun:db:sql"; shown "cloud:sql"; hidden "upsun:sql"; hidden "sql"]
     "Run SQL on the remote database" false
     [mkFlag StringFlag "app" ["A"] NoDefault; mkFlag StringFlag "environment" ["e"] NoDefault;
      mkFlag StringFlag "project" ["p"] NoDefault; B "raw";
      mkFlag StringFlag "relationship" ["r"] NoDefault; S "schema"]
  ].

Definition Commands_domain : list command :=
  [
   mkCommand "cloud:domain" "add"
     [hidden "domain:add"; hidden "upsun:domain:add"]
     "Add a new domain to the project" false
     [S "attach"; S "cert"; S "chain"; mkFlag StringFlag "environment" ["e"] NoDefault; S "key";
      mkFlag BoolFlag "no-wait" ["W"] NoDefault; mkFlag StringFlag "project" ["p"] NoDefault; B "wait"];
   mkCommand "cloud:domain" "delete"
     [hidden "domain:delete"; hidden "upsun:domain:delete"]
     "Delete a domain from the project" false
     [mkFlag StringFlag "environment" ["e"] NoDefault; mkFlag BoolFlag "no-wait" ["W"] NoDefault;
      mkFlag StringFlag "project" ["p"] NoDefault; B "wait"];
   mkCommand "cloud:domain" "get"
     [hidden "domain:get"; hidden "upsun:domain:get"]
     "Show detailed information for a domain" false
     [mkFlag StringFlag "columns" ["c"] NoDefault; mkFlag StringFlag "date-fmt" [] (DefaultString "c");
      mkFlag StringFlag "environment" ["e"] NoDefault;
      mkFlag StringFlag "format" [] (DefaultString "table"); B "no-header";
      mkFlag StringFlag "project" ["p"] NoDefault; mkFlag StringFlag "property" ["P"] NoDefault];
   mkCommand "cloud:domain" "list"
     [hidden "domain:list"; hidden "upsun:domain:list"; shown "cloud:domains"; hidden "upsun:domains";
      hidden "domains"]
     "Get a list of all domains" false
     [mkFlag StringFlag "columns" ["c"] NoDefault; mkFlag StringFlag "environment" ["e"] NoDefault;
      mkFlag StringFlag "format" [] (DefaultString "table"); B "no-header";
      mkFlag StringFlag "project" ["p"] NoDefault];
   mkCommand "cloud:domain" "update"
     [hidden "domain:update"; hidden "upsun:domain:update"]
     "Update a domain" false
     [S "cert"; S "chain"; mkFlag StringFlag "environment" ["e"] NoDefault; S "key";
      mkFlag BoolFlag "no-wait" ["W"] NoDefault; mkFlag StringFlag "project" ["p"] NoDefault; B "wait"]
  ].

Definition Commands_environment_1 : list command :=
  [
   mkCommand "cloud:environment" "activate"
     [hidden "environment:activate"; hidden "upsun:environment:activate"]
     "Activate an environment" false
     [mkFlag StringFlag "environment" ["e"] NoDefault; mkFlag BoolFlag "no-wait" ["W"] NoDefault;
      S "parent"; mkFlag StringFlag "project" ["p"] NoDefault; B "wait"];
   mkCommand "cloud:environment" "branch"
     [hidden "environment:branch"; hidden "upsun:environment:branch"; shown "cloud:branch";
      hidden "upsun:branch"; hidden "branch"]
     "Branch an environment" false
     [mkFlag StringFlag "environment" ["e"] NoDefault; B "no-checkout"; B "no-clone-parent";
      mkFlag BoolFlag "no-wait" ["W"] NoDefault; mkFlag StringFlag "project" ["p"] NoDefault; S "title";
      S "type"; B "wait"];
   mkCommand "cloud:environment" "checkout"
     [hidden "environment:checkout"; hidden "upsun:environment:checkout"; shown "cloud:checkout";
      hidden "upsun:checkout"; hidden "checkout"]
     "Check out an environment" false
     [];
   mkCommand "cloud:environment" "curl"
     [hidden "environment:curl"; hidden "upsun:environment:curl"]
     "Run an authenticated cURL request on an environment's API" true
     [mkFlag StringFlag "data" ["d"] NoDefault; B "disable-compression"; B "enable-glob";
      mkFlag StringFlag "environment" ["e"] NoDefault; mkFlag BoolFlag "fail" ["f"] NoDefault;
      mkFlag BoolFlag "head" ["I"] NoDefault; mkFlag StringFlag "header" ["H"] NoDefault;
      mkFlag BoolFlag "include" ["i"] NoDefault; S "json"; B "no-retry-401";
      mkFlag StringFlag "project" ["p"] NoDefault; mkFlag StringFlag "request" ["X"] NoDefault];
   mkCommand "cloud:environment" "delete"
     [hidden "environment:delete"; hidden "upsun:environment:delete"]
     "Delete one or more environments" false
     [B "allow-delete-parent"; B "delete-branch"; mkFlag StringFlag "environment" ["e"] NoDefault;
      S "exclude"; S "exclude-status"; S "exclude-type"; B "inactive"; B "merged"; B "no-delete-branch";
      mkFlag BoolFlag "no-wait" ["W"] NoDefault; S "only-status";
      mkFlag StringFlag "only-type" ["t"] NoDefault; mkFlag StringFlag "project" ["p"] NoDefault;
      S "status"; S "type"; B "wait"];
   mkCommand "cloud:environment" "deploy"
     [hidden "environment:deploy"; hidden "upsun:environment:deploy"; shown "cloud:e:deploy";
      hidden "upsun:e:deploy"; hidden "e:deploy"; shown "cloud:env:deploy"; hidden "upsun:env:deploy";
      hidden "env:deploy"]
     "Deploy an environment's staged changes" false
     [mkFlag StringFlag "environment" ["e"] NoDefault; mkFlag BoolFlag "no-wait" ["W"] NoDefault;
      mkFlag StringFlag "project" ["p"] NoDefault; mkFlag StringFlag "strategy" ["s"] NoDefault; B "wait"];
   mkCommand "cloud:environment" "deploy:type"
     [hidden "environment:deploy:type"; hidden "upsun:environment:deploy:type"]
     "Show or set the environment deployment type" false
     [mkFlag StringFlag "environment" ["e"] NoDefault; mkFlag BoolFlag "no-wait" ["W"] NoDefault; B "pipe";
      mkFlag StringFlag "project" ["p"] NoDefault; B "wait"]
  ].

Definition Commands_environment_2 : list command :=
  [
   mkCommand "cloud:environment" "http-access"
     [hidden "environment:http-access"; hidden "upsun:environment:http-access"; shown "cloud:httpaccess";
      hidden "upsun:httpaccess"; hidden "httpaccess"]
     "Update HTTP access settings for an environment" false
     [S "access"; S "auth"; S "enabled"; mkFlag StringFlag "environment" ["e"] NoDefault;
      mkFlag BoolFlag "no-wait" ["W"] NoDefault; mkFlag StringFlag "project" ["p"] NoDefault; B "wait"];
   mkCommand "cloud:environment" "info"
     [hidden "environment:info"; hidden "upsun:environment:info"]
     "Read or set properties for an environment" false
     [mkFlag StringFlag "columns" ["c"] NoDefault; mkFlag StringFlag "date-fmt" [] (DefaultString "c");
      mkFlag StringFlag "environment" ["e"] NoDefault;
      mkFlag StringFlag "format" [] (DefaultString "table"); B "no-header";
      mkFlag BoolFlag "no-wait" ["W"] NoDefault; mkFlag StringFlag "project" ["p"] NoDefault; B "refresh";
      B "wait"];
   mkCommand "cloud:environment" "init"
     [hidden "environment:init"; hidden "upsun:environment:init"]
     "Initialize an environment from a public Git repository" false
     [mkFlag StringFlag "environment" ["e"] NoDefault; mkFlag BoolFlag "no-wait" ["W"] NoDefault;
      S "profile"; mkFlag StringFlag "project" ["p"] NoDefault; B "wait"];
   mkCommand "cloud:environment" "list"
     [hidden "environment:list"; hidden "upsun:environment:list"; shown "cloud:environments";
      hidden "upsun:environments"; hidden "environments"; shown "cloud:env"; hidden "upsun:env";
      hidden "env"]
     "Get a list of environments" false
     [mkFlag StringFlag "columns" ["c"] NoDefault; mkFlag StringFlag "format" [] (DefaultString "table");
      B "no-header"; mkFlag BoolFlag "no-inactive" ["I"] NoDefault; B "pipe";
      mkFlag StringFlag "project" ["p"] NoDefault; S "refresh"; B "reverse";
      mkFlag StringFlag "sort" [] (DefaultString "title"); S "status"; S "type"];
   mkCommand "cloud:environment" "logs"
     [hidden "environment:logs"; hidden "upsun:environment:logs"; shown "cloud:log"; hidden "upsun:log";
      hidden "log"]
     "Read an environment's logs" false
     [mkFlag StringFlag "app" ["A"] NoDefault; mkFlag StringFlag "environment" ["e"] NoDefault;
      mkFlag StringFlag "instance" ["I"] NoDefault; S "lines"; mkFlag StringFlag "project" ["p"] NoDefault;
      B "tail"; S "worker"];
   mkCommand "cloud:environment" "merge"
     [hidden "environment:merge"; hidden "upsun:environment:merge"; shown "cloud:merge";
      hidden "upsun:merge"; hidden "merge"]
     "Merge an environment" false
     [mkFlag StringFlag "environment" ["e"] NoDefault; mkFlag BoolFlag "no-wait" ["W"] NoDefault;
      mkFlag StringFlag "project" ["p"] NoDefault; B "wait"];
   mkCommand "cloud:environment" "pause"
     [hidden "environment:pause"; hidden "upsun:environment:pause"]
     "Pause an environment" false
     [mkFlag StringFlag "environment" ["e"] NoDefault; mkFlag BoolFlag "no-wait" ["W"] NoDefault;
      mkFlag StringFlag "project" ["p"] NoDefault; B "wait"]
  ].

Definition Commands_environment_3 : list command :=
  [
   mkCommand "cloud:environment" "push"
     [hidden "environment:push"; hidden "upsun:environment:push"; shown "cloud:push"; hidden "upsun:push";
      hidden "push"]
     "Push code to an environment" false
     [B "activate"; mkFlag StringFlag "deploy-strategy" ["s"] NoDefault;
      mkFlag StringFlag "environment" ["e"] NoDefault; mkFlag BoolFlag "force" ["f"] NoDefault;
      B "force-with-lease"; B "no-clone-parent"; mkFlag BoolFlag "no-wait" ["W"] NoDefault; S "parent";
      mkFlag StringFlag "project" ["p"] NoDefault; mkFlag BoolFlag "set-upstream" ["u"] NoDefault;
      S "target"; S "type"; B "wait"];
   mkCommand "cloud:environment" "redeploy"
     [hidden "environment:redeploy"; hidden "upsun:environment:redeploy"; shown "cloud:redeploy";
      hidden "upsun:redeploy"; hidden "redeploy"]
     "Redeploy an environment" false
     [mkFlag StringFlag "environment" ["e"] NoDefault; mkFlag BoolFlag "no-wait" ["W"] NoDefault;
      mkFlag StringFlag "project" ["p"] NoDefault; B "wait"];
   mkCommand "cloud:environment" "relationships"
     [hidden "environment:relationships"; hidden "upsun:environment:relationships";
      shown "cloud:relationships"; hidden "upsun:relationships"; hidden "relationships"; shown "cloud:rel";
      hidden "upsun:rel"; hidden "rel"]
     "Show an environment's relationships" false
     [mkFlag StringFlag "app" ["A"] NoDefault; mkFlag StringFlag "environment" ["e"] NoDefault;
      mkFlag StringFlag "project" ["p"] NoDefault; mkFlag StringFlag "property" ["P"] NoDefault;
      B "refresh"];
   mkCommand "cloud:environment" "resume"
     [hidden "environment:resume"; hidden "upsun:environment:resume"]
     "Resume a paused environment" false
     [mkFlag StringFlag "environment" ["e"] NoDefault; mkFlag BoolFlag "no-wait" ["W"] NoDefault;
      mkFlag StringFlag "project" ["p"] NoDefault; B "wait"];
   mkCommand "cloud:environment" "scp"
     [hidden "environment:scp"; hidden "upsun:environment:scp"; shown "cloud:scp"; hidden "upsun:scp";
      hidden "scp"]
     "Copy files to and from an environment using scp" false
     [mkFlag StringFlag "app" ["A"] NoDefault; mkFlag StringFlag "environment" ["e"] NoDefault;
      mkFlag StringFlag "instance" ["I"] NoDefault; mkFlag StringFlag "project" ["p"] NoDefault;
      mkFlag BoolFlag "recursive" ["r"] NoDefault; S "worker"];
   mkCommand "cloud:environment" "set-remote"
     [hidden "environment:set-remote"; hidden "upsun:environment:set-remote"]
     "Set the remote environment to map to a branch" true
     [];
   mkCommand "cloud:environment" "ssh"
     [hidden "environment:ssh"; hidden "upsun:environment:ssh"; shown "cloud:ssh"; hidden "upsun:ssh";
      hidden "ssh"]
     "SSH to the current environment" false
     [B "all"; mkFlag StringFlag "app" ["A"] NoDefault; mkFlag StringFlag "environment" ["e"] NoDefault;
      mkFlag StringFlag "instance" ["I"] NoDefault; mkFlag StringFlag "option" ["o"] NoDefault; B "pipe";
      mkFlag StringFlag "project" ["p"] NoDefault; S "worker"]
  ].

Definition Commands_environment_4 : list command :=
  [
   mkCommand "cloud:environment" "synchronize"
     [hidden "environment:synchronize"; hidden "upsun:environment:synchronize"; shown "cloud:sync";
      hidden "upsun:sync"; hidden "sync"]
     "Synchronize an environment's code and/or data from its parent" false
     [mkFlag StringFlag "environment" ["e"] NoDefault; mkFlag BoolFlag "no-wait" ["W"] NoDefault;
      mkFlag StringFlag "project" ["p"] NoDefault; B "rebase"; B "wait"];
   mkCommand "cloud:environment" "url"
     [hidden "environment:url"; hidden "upsun:environment:url"; shown "cloud:url"; hidden "upsun:url";
      hidden "url"]
     "Get the public URLs of an environment" false
     [S "browser"; mkFlag StringFlag "environment" ["e"] NoDefault; B "pipe";
      mkFlag BoolFlag "primary" ["1"] NoDefault; mkFlag StringFlag "project" ["p"] NoDefault];
   mkCommand "cloud:environment" "xdebug"
     [hidden "environment:xdebug"; hidden "upsun:environment:xdebug"; shown "cloud:xdebug";
      hidden "upsun:xdebug"; hidden "xdebug"]
     "Open a tunnel to Xdebug on the environment" false
     [mkFlag StringFlag "app" ["A"] NoDefault; mkFlag StringFlag "environment" ["e"] NoDefault;
      mkFlag StringFlag "instance" ["I"] NoDefault; S "port"; mkFlag StringFlag "project" ["p"] NoDefault;
      S "worker"]
  ].

Definition Commands_integration_1 : list command :=
  [
   mkCommand "cloud:integration" "activity:get"
     [hidden "integration:activity:get"; hidden "upsun:integration:activity:get"]
     "View detailed information on a single integration activity" false
     [mkFlag StringFlag "columns" ["c"] NoDefault; mkFlag StringFlag "date-fmt" [] (DefaultString "c");
      mkFlag StringFlag "environment" ["e"] NoDefault;
      mkFlag StringFlag "format" [] (DefaultString "table"); B "no-header";
      mkFlag StringFlag "project" ["p"] NoDefault; mkFlag StringFlag "property" ["P"] NoDefault];
   mkCommand "cloud:integration" "activity:list"
     [hidden "integration:activity:list"; hidden "upsun:integration:activity:list";
      shown "cloud:integration:activities"; hidden "upsun:integration:activities";
      hidden "integration:activities"]
     "Get a list of activities for an integration" false
     [mkFlag StringFlag "columns" ["c"] NoDefault; mkFlag StringFlag "date-fmt" [] (DefaultString "c");
      mkFlag StringFlag "environment" ["e"] NoDefault; mkFlag StringFlag "exclude-type" ["x"] NoDefault;
      mkFlag StringFlag "format" [] (DefaultString "table"); mkFlag BoolFlag "incomplete" ["i"] NoDefault;
      S "limit"; B "no-header"; mkFlag StringFlag "project" ["p"] NoDefault; S "result"; S "start";
      S "state"; S "type"];
   mkCommand "cloud:integration" "activity:log"
     [hidden "integration:activity:log"; hidden "upsun:integration:activity:log"]
     "Display the log for an integration activity" false
     [mkFlag StringFlag "date-fmt" [] (DefaultString "c"); mkFlag StringFlag "environment" ["e"] NoDefault;
      mkFlag StringFlag "project" ["p"] NoDefault; mkFlag BoolFlag "timestamps" ["t"] NoDefault];
   mkCommand "cloud:integration" "add"
     [hidden "integration:add"; hidden "upsun:integration:add"]
     "Add an integration to the project" false
     [mkFlag StringFlag "auth-mode" [] (DefaultString "prefix"); S "auth-token"; S "base-url";
      S "bitbucket-url"; mkFlag BoolFlag "build-draft-pull-requests" [] DefaultTrue;
      mkFlag BoolFlag "build-merge-requests" [] DefaultTrue;
      mkFlag BoolFlag "build-pull-requests" [] DefaultTrue; B "build-pull-requests-post-merge";
      mkFlag BoolFlag "build-wip-merge-requests" [] DefaultTrue; S "category"; S "channel";
      S "environments"; S "events"; S "excluded-environments"; S "facility";
      mkFlag BoolFlag "fetch-branches" [] DefaultTrue; S "file"; S "from-address"; S "header"; S "index";
      S "key"; S "license-key"; mkFlag BoolFlag "merge-requests-clone-parent-data" [] DefaultTrue;
      mkFlag StringFlag "message-format" [] (DefaultString "rfc5424");
      mkFlag BoolFlag "no-wait" ["W"] NoDefault; mkFlag StringFlag "project" ["p"] NoDefault;
      mkFlag StringFlag "protocol" [] (DefaultString "tls");
      mkFlag BoolFlag "prune-branches" [] DefaultTrue;
      mkFlag BoolFlag "pull-requests-clone-parent-data" [] DefaultTrue; S "recipients"; S "repository";
      mkFlag StringFlag "resources-init" [] (DefaultString "parent"); B "resync-pull-requests";
      S "routing-key"; S "secret"; S "server-project"; S "shared-key"; S "sourcetype"; S "states";
      S "syslog-host"; S "syslog-port"; S "token"; S "type"; S "url"; S "username";
      mkFlag BoolFlag "verify-tls" [] DefaultTrue; B "wait"];
   mkCommand "cloud:integration" "delete"
     [hidden "integration:delete"; hidden "upsun:integration:delete"]
     "Delete an integration from a project" false
     [mkFlag BoolFlag "no-wait" ["W"] NoDefault; mkFlag StringFlag "project" ["p"] NoDefault; B "wait"];
   mkCommand "cloud:integration" "get"
     [hidden "integration:get"; hidden "upsun:integration:get"]
     "View details of an integration" false
     [mkFlag StringFlag "columns" ["c"] NoDefault; mkFlag StringFlag "format" [] (DefaultString "table");
      B "no-header"; mkFlag StringFlag "project" ["p"] NoDefault;
      mkFlag StringFlag "property" ["P"] NoDefault]
  ].

Definition Commands_integration_2 : list command :=
  [
   mkCommand "cloud:integration" "list"
     [hidden "integration:list"; hidden "upsun:integration:list"; shown "cloud:integrations";
      hidden "upsun:integrations"; hidden "integrations"]
     "View a list of project integration(s)" false
     [mkFlag StringFlag "columns" ["c"] NoDefault; mkFlag StringFlag "format" [] (DefaultString "table");
      B "no-header"; mkFlag StringFlag "project" ["p"] NoDefault; mkFlag StringFlag "type" ["t"] NoDefault];
   mkCommand "cloud:integration" "update"
     [hidden "integration:update"; hidden "upsun:integration:update"]
     "Update an integration" false
     [mkFlag StringFlag "auth-mode" [] (DefaultString "prefix"); S "auth-token"; S "base-url";
      S "bitbucket-url"; mkFlag BoolFlag "build-draft-pull-requests" [] DefaultTrue;
      mkFlag BoolFlag "build-merge-requests" [] DefaultTrue;
      mkFlag BoolFlag "build-pull-requests" [] DefaultTrue; B "build-pull-requests-post-merge";
      mkFlag BoolFlag "build-wip-merge-requests" [] DefaultTrue; S "category"; S "channel";
      S "environments"; S "events"; S "excluded-environments"; S "facility";
      mkFlag BoolFlag "fetch-branches" [] DefaultTrue; S "file"; S "from-address"; S "header"; S "index";
      S "key"; S "license-key"; mkFlag BoolFlag "merge-requests-clone-parent-data" [] DefaultTrue;
      mkFlag StringFlag "message-format" [] (DefaultString "rfc5424");
      mkFlag BoolFlag "no-wait" ["W"] NoDefault; mkFlag StringFlag "project" ["p"] NoDefault;
      mkFlag StringFlag "protocol" [] (DefaultString "tls");
      mkFlag BoolFlag "prune-branches" [] DefaultTrue;
      mkFlag BoolFlag "pull-requests-clone-parent-data" [] DefaultTrue; S "recipients"; S "repository";
      mkFlag StringFlag "resources-init" [] (DefaultString "parent"); B "resync-pull-requests";
      S "routing-key"; S "secret"; S "server-project"; S "shared-key"; S "sourcetype"; S "states";
      S "syslog-host"; S "syslog-port"; S "token"; S "type"; S "url"; S "username";
      mkFlag BoolFlag "verify-tls" [] DefaultTrue; B "wait"];
   mkCommand "cloud:integration" "validate"
     [hidden "integration:validate"; hidden "upsun:integration:validate"]
     "Validate an existing integration" false
     [mkFlag StringFlag "project" ["p"] NoDefault]
  ].

Definition Commands_metrics : list command :=
  [
   mkCommand "cloud:metrics" "all"
     [hidden "metrics:all"; hidden "upsun:metrics:all"; shown "cloud:metrics"; hidden "upsun:metrics";
      hidden "metrics"; shown "cloud:met"; hidden "upsun:met"; hidden "met"]
     "Show CPU, disk and memory metrics for an environment" false
     [mkFlag BoolFlag "bytes" ["B"] NoDefault; mkFlag StringFlag "columns" ["c"] NoDefault;
      mkFlag StringFlag "date-fmt" [] (DefaultString "c"); mkFlag StringFlag "environment" ["e"] NoDefault;
      mkFlag StringFlag "format" [] (DefaultString "table"); mkFlag StringFlag "interval" ["i"] NoDefault;
      mkFlag BoolFlag "latest" ["1"] NoDefault; B "no-header"; mkFlag StringFlag "project" ["p"] NoDefault;
      mkFlag StringFlag "range" ["r"] NoDefault; mkFlag StringFlag "service" ["s"] NoDefault; S "to";
      S "type"];
   mkCommand "cloud:metrics" "cpu"
     [hidden "metrics:cpu"; hidden "upsun:metrics:cpu"; shown "cloud:cpu"; hidden "upsun:cpu";
      hidden "cpu"]
     "Show CPU usage of an environment" false
     [mkFlag StringFlag "columns" ["c"] NoDefault; mkFlag StringFlag "date-fmt" [] (DefaultString "c");
      mkFlag StringFlag "environment" ["e"] NoDefault;
      mkFlag StringFlag "format" [] (DefaultString "table"); mkFlag StringFlag "interval" ["i"] NoDefault;
      mkFlag BoolFlag "latest" ["1"] NoDefault; B "no-header"; mkFlag StringFlag "project" ["p"] NoDefault;
      mkFlag StringFlag "range" ["r"] NoDefault; mkFlag StringFlag "service" ["s"] NoDefault; S "to";
      S "type"];
   mkCommand "cloud:metrics" "disk-usage"
     [hidden "metrics:disk-usage"; hidden "upsun:metrics:disk-usage"; shown "cloud:disk";
      hidden "upsun:disk"; hidden "disk"]
     "Show disk usage of an environment" false
     [mkFlag BoolFlag "bytes" ["B"] NoDefault; mkFlag StringFlag "columns" ["c"] NoDefault;
      mkFlag StringFlag "date-fmt" [] (DefaultString "c"); mkFlag StringFlag "environment" ["e"] NoDefault;
      mkFlag StringFlag "format" [] (DefaultString "table"); mkFlag StringFlag "interval" ["i"] NoDefault;
      mkFlag BoolFlag "latest" ["1"] NoDefault; B "no-header"; mkFlag StringFlag "project" ["p"] NoDefault;
      mkFlag StringFlag "range" ["r"] NoDefault; mkFlag StringFlag "service" ["s"] NoDefault; B "tmp";
      S "to"; S "type"];
   mkCommand "cloud:metrics" "memory"
     [hidden "metrics:memory"; hidden "upsun:metrics:memory"; shown "cloud:mem"; hidden "upsun:mem";
      hidden "mem"; shown "cloud:memory"; hidden "upsun:memory"; hidden "memory"]
     "Show memory usage of an environment" false
     [mkFlag BoolFlag "bytes" ["B"] NoDefault; mkFlag StringFlag "columns" ["c"] NoDefault;
      mkFlag StringFlag "date-fmt" [] (DefaultString "c"); mkFlag StringFlag "environment" ["e"] NoDefault;
      mkFlag StringFlag "format" [] (DefaultString "table"); mkFlag StringFlag "interval" ["i"] NoDefault;
      mkFlag BoolFlag "latest" ["1"] NoDefault; B "no-header"; mkFlag StringFlag "project" ["p"] NoDefault;
      mkFlag StringFlag "range" ["r"] NoDefault; mkFlag StringFlag "service" ["s"] NoDefault; S "to";
      S "type"]
  ].

Definition Commands_mount : list command :=
  [
   mkCommand "cloud:mount" "download"
     [hidden "mount:download"; hidden "upsun:mount:download"]
     "Download files from a mount, using rsync" false
     [mkFlag BoolFlag "all" ["a"] NoDefault; mkFlag StringFlag "app" ["A"] NoDefault; B "delete";
      mkFlag StringFlag "environment" ["e"] NoDefault; S "exclude"; S "include";
      mkFlag StringFlag "instance" ["I"] NoDefault; mkFlag StringFlag "mount" ["m"] NoDefault;
      mkFlag StringFlag "project" ["p"] NoDefault; B "refresh"; B "source-path"; S "target"; S "worker"];
   mkCommand "cloud:mount" "list"
     [hidden "mount:list"; hidden "upsun:mount:list"; shown "cloud:mounts"; hidden "upsun:mounts";
      hidden "mounts"]
     "Get a list of mounts" false
     [mkFlag StringFlag "app" ["A"] NoDefault; mkFlag StringFlag "columns" ["c"] NoDefault;
      mkFlag StringFlag "environment" ["e"] NoDefault;
      mkFlag StringFlag "format" [] (DefaultString "table"); mkFlag StringFlag "instance" ["I"] NoDefault;
      B "no-header"; B "paths"; mkFlag StringFlag "project" ["p"] NoDefault; B "refresh"; S "worker"];
   mkCommand "cloud:mount" "upload"
     [hidden "mount:upload"; hidden "upsun:mount:upload"]
     "Upload files to a mount, using rsync" false
     [mkFlag StringFlag "app" ["A"] NoDefault; B "delete"; mkFlag StringFlag "environment" ["e"] NoDefault;
      S "exclude"; S "include"; mkFlag StringFlag "instance" ["I"] NoDefault;
      mkFlag StringFlag "mount" ["m"] NoDefault; mkFlag StringFlag "project" ["p"] NoDefault; B "refresh";
      S "source"; S "worker"]
  ].

Definition Commands_operation : list command :=
  [
   mkCommand "cloud:operation" "list"
     [hidden "operation:list"; hidden "upsun:operation:list"; shown "cloud:ops"; hidden "upsun:ops";
      hidden "ops"]
     "List runtime operations on an environment" false
     [mkFlag StringFlag "app" ["A"] NoDefault; mkFlag StringFlag "columns" ["c"] NoDefault;
      mkFlag StringFlag "environment" ["e"] NoDefault;
      mkFlag StringFlag "format" [] (DefaultString "table"); B "full"; B "no-header";
      mkFlag StringFlag "project" ["p"] NoDefault; S "worker"];
   mkCommand "cloud:operation" "run"
     [hidden "operation:run"; hidden "upsun:operation:run"]
     "Run an operation on the environment" false
     [mkFlag StringFlag "app" ["A"] NoDefault; mkFlag StringFlag "environment" ["e"] NoDefault;
      mkFlag BoolFlag "no-wait" ["W"] NoDefault; mkFlag StringFlag "project" ["p"] NoDefault; B "wait";
      S "worker"]
  ].

Definition Commands_organization_1 : list command :=
  [
   mkCommand "cloud:organization" "billing:address"
     [hidden "organization:billing:address"; hidden "upsun:organization:billing:address"]
     "View or change an organization's billing address" false
     [mkFlag StringFlag "columns" ["c"] NoDefault; mkFlag StringFlag "date-fmt" [] (DefaultString "c");
      mkFlag StringFlag "format" [] (DefaultString "table"); B "no-header";
      mkFlag StringFlag "org" ["o"] NoDefault; mkFlag StringFlag "project" ["p"] NoDefault];
   mkCommand "cloud:organization" "billing:profile"
     [hidden "organization:billing:profile"; hidden "upsun:organization:billing:profile"]
     "View or change an organization's billing profile" false
     [mkFlag StringFlag "columns" ["c"] NoDefault; mkFlag StringFlag "date-fmt" [] (DefaultString "c");
      mkFlag StringFlag "format" [] (DefaultString "table"); B "no-header";
      mkFlag StringFlag "org" ["o"] NoDefault; mkFlag StringFlag "project" ["p"] NoDefault];
   mkCommand "cloud:organization" "create"
     [hidden "organization:create"; hidden "upsun:organization:create"]
     "Create a new organization" false
     [S "country"; S "label"; S "name"; mkFlag StringFlag "type" [] (DefaultString "flexible")];
   mkCommand "cloud:organization" "curl"
     [hidden "organization:curl"; hidden "upsun:organization:curl"]
     "Run an authenticated cURL request on an organization's API" true
     [mkFlag StringFlag "data" ["d"] NoDefault; B "disable-compression"; B "enable-glob";
      mkFlag BoolFlag "fail" ["f"] NoDefault; mkFlag BoolFlag "head" ["I"] NoDefault;
      mkFlag StringFlag "header" ["H"] NoDefault; mkFlag BoolFlag "include" ["i"] NoDefault; S "json";
      B "no-retry-401"; mkFlag StringFlag "org" ["o"] NoDefault;
      mkFlag StringFlag "project" ["p"] NoDefault; mkFlag StringFlag "request" ["X"] NoDefault];
   mkCommand "cloud:organization" "delete"
     [hidden "organization:delete"; hidden "upsun:organization:delete"]
     "Delete an organization" false
     [mkFlag StringFlag "org" ["o"] NoDefault; mkFlag StringFlag "project" ["p"] NoDefault];
   mkCommand "cloud:organization" "info"
     [hidden "organization:info"; hidden "upsun:organization:info"]
     "View or change organization details" false
     [mkFlag StringFlag "columns" ["c"] NoDefault; mkFlag StringFlag "date-fmt" [] (DefaultString "c");
      mkFlag StringFlag "format" [] (DefaultString "table"); B "no-header";
      mkFlag StringFlag "org" ["o"] NoDefault; mkFlag StringFlag "project" ["p"] NoDefault; B "refresh"];
   mkCommand "cloud:organization" "list"
     [hidden "organization:list"; hidden "upsun:organization:list"; shown "cloud:orgs";
      hidden "upsun:orgs"; hidden "orgs"; shown "cloud:organizations"; hidden "upsun:organizations";
      hidden "organizations"]
     "List organizations" false
     [mkFlag StringFlag "columns" ["c"] NoDefault; mkFlag StringFlag "format" [] (DefaultString "table");
      B "my"; B "no-header"; B "reverse"; S "sort"; S "type"];
   mkCommand "cloud:organization" "subscription:list"
     [hidden "organization:subscription:list"; hidden "upsun:organization:subscription:list";
      shown "cloud:org:subs"; hidden "upsun:org:subs"; hidden "org:subs"]
     "List subscriptions within an organization" false
     [S "columns"; mkFlag StringFlag "count" ["c"] NoDefault;
      mkFlag StringFlag "format" [] (DefaultString "table"); B "no-header";
      mkFlag StringFlag "org" ["o"] NoDefault; S "page"; mkFlag StringFlag "project" ["p"] NoDefault]
  ].

Definition Commands_organization_2 : list command :=
  [
   mkCommand "cloud:organization" "user:add"
     [hidden "organization:user:add"; hidden "upsun:organization:user:add"]
     "Invite a user to an organization" false
     [mkFlag StringFlag "org" ["o"] NoDefault; S "permission"];
   mkCommand "cloud:organization" "user:delete"
     [hidden "organization:user:delete"; hidden "upsun:organization:user:delete"]
     "Remove a user from an organization" false
     [mkFlag StringFlag "org" ["o"] NoDefault];
   mkCommand "cloud:organization" "user:get"
     [hidden "organization:user:get"; hidden "upsun:organization:user:get"]
     "View an organization user" false
     [mkFlag StringFlag "columns" ["c"] NoDefault; mkFlag StringFlag "date-fmt" [] (DefaultString "c");
      mkFlag StringFlag "format" [] (DefaultString "table"); B "no-header";
      mkFlag StringFlag "org" ["o"] NoDefault; mkFlag StringFlag "property" ["P"] NoDefault];
   mkCommand "cloud:organization" "user:list"
     [hidden "organization:user:list"; hidden "upsun:organization:user:list"; shown "cloud:org:users";
      hidden "upsun:org:users"; hidden "org:users"]
     "List organization users" false
     [S "columns"; mkFlag StringFlag "count" ["c"] NoDefault;
      mkFlag StringFlag "date-fmt" [] (DefaultString "c");
      mkFlag StringFlag "format" [] (DefaultString "table"); B "no-header";
      mkFlag StringFlag "org" ["o"] NoDefault; B "reverse";
      mkFlag StringFlag "sort" [] (DefaultString "created_at")];
   mkCommand "cloud:organization" "user:projects"
     [hidden "organization:user:projects"; hidden "upsun:organization:user:projects"; shown "cloud:oups";
      hidden "upsun:oups"; hidden "oups"]
     "List the projects a user can access" false
     [mkFlag StringFlag "columns" ["c"] NoDefault; mkFlag StringFlag "date-fmt" [] (DefaultString "c");
      mkFlag StringFlag "format" [] (DefaultString "table"); B "list-all"; B "no-header";
      mkFlag StringFlag "org" ["o"] NoDefault];
   mkCommand "cloud:organization" "user:update"
     [hidden "organization:user:update"; hidden "upsun:organization:user:update"]
     "Update an organization user" false
     [mkFlag StringFlag "org" ["o"] NoDefault; S "permission"]
  ].

Definition Commands_project_1 : list command :=
  [
   mkCommand "cloud:project" "clear-build-cache"
     [hidden "project:clear-build-cache"; hidden "upsun:project:clear-build-cache"]
     "Clear a project's build cache" false
     [mkFlag StringFlag "project" ["p"] NoDefault];
   mkCommand "cloud:project" "create"
     [hidden "project:create"; hidden "upsun:project:create"; shown "cloud:create"; hidden "upsun:create";
      hidden "create"]
     "Create a new project" false
     [mkFlag StringFlag "default-branch" [] (DefaultString "main"); S "environments"; S "init-repo";
      B "no-set-remote"; mkFlag StringFlag "org" ["o"] NoDefault; S "plan"; S "region"; B "set-remote";
      S "storage"; mkFlag StringFlag "title" [] (DefaultString "Untitled Project")];
   mkCommand "cloud:project" "curl"
     [hidden "project:curl"; hidden "upsun:project:curl"]
     "Run an authenticated cURL request on a project's API" true
     [mkFlag StringFlag "data" ["d"] NoDefault; B "disable-compression"; B "enable-glob";
      mkFlag BoolFlag "fail" ["f"] NoDefault; mkFlag BoolFlag "head" ["I"] NoDefault;
      mkFlag StringFlag "header" ["H"] NoDefault; mkFlag BoolFlag "include" ["i"] NoDefault; S "json";
      B "no-retry-401"; mkFlag StringFlag "project" ["p"] NoDefault;
      mkFlag StringFlag "request" ["X"] NoDefault];
   mkCommand "cloud:project" "delete"
     [hidden "project:delete"; hidden "upsun:project:delete"]
     "Delete a project" false
     [mkFlag StringFlag "project" ["p"] NoDefault];
   mkCommand "cloud:project" "get"
     [hidden "project:get"; hidden "upsun:project:get"; shown "cloud:get"; hidden "upsun:get";
      hidden "get"]
     "Clone a project locally" false
     [B "build"; S "depth"; mkFlag StringFlag "environment" ["e"] NoDefault;
      mkFlag StringFlag "project" ["p"] NoDefault];
   mkCommand "cloud:project" "info"
     [hidden "project:info"; hidden "upsun:project:info"]
     "Read or set properties for a project" false
     [mkFlag StringFlag "columns" ["c"] NoDefault; mkFlag StringFlag "date-fmt" [] (DefaultString "c");
      mkFlag StringFlag "format" [] (DefaultString "table"); B "no-header";
      mkFlag BoolFlag "no-wait" ["W"] NoDefault; mkFlag StringFlag "project" ["p"] NoDefault; B "refresh";
      B "wait"];
   mkCommand "cloud:project" "list"
     [hidden "project:list"; hidden "upsun:project:list"; shown "cloud:projects"; hidden "upsun:projects";
      hidden "projects"; shown "cloud:pro"; hidden "upsun:pro"; hidden "pro"]
     "Get a list of all active projects" false
     [S "columns"; mkFlag StringFlag "count" ["c"] NoDefault;
      mkFlag StringFlag "date-fmt" [] (DefaultString "c");
      mkFlag StringFlag "format" [] (DefaultString "table"); B "my"; B "no-header";
      mkFlag StringFlag "org" ["o"] NoDefault; S "org-type"; S "page"; B "pipe"; S "refresh"; S "region";
      B "reverse"; mkFlag StringFlag "sort" [] (DefaultString "title"); S "title"]
  ].

Definition Commands_project_2 : list command :=
  [
   mkCommand "cloud:project" "set-remote"
     [hidden "project:set-remote"; hidden "upsun:project:set-remote"; shown "cloud:set-remote";
      hidden "upsun:set-remote"; hidden "set-remote"]
     "Set the remote project for the current Git repository" false
     []
  ].

Definition Commands_repo : list command :=
  [
   mkCommand "cloud:repo" "cat"
     [hidden "repo:cat"; hidden "upsun:repo:cat"]
     "Read a file in the project repository" false
     [mkFlag StringFlag "commit" ["c"] NoDefault; mkFlag StringFlag "environment" ["e"] NoDefault;
      mkFlag StringFlag "project" ["p"] NoDefault];
   mkCommand "cloud:repo" "ls"
     [hidden "repo:ls"; hidden "upsun:repo:ls"]
     "List files in the project repository" false
     [mkFlag StringFlag "commit" ["c"] NoDefault; mkFlag BoolFlag "directories" ["d"] NoDefault;
      mkFlag StringFlag "environment" ["e"] NoDefault; mkFlag BoolFlag "files" ["f"] NoDefault;
      B "git-style"; mkFlag StringFlag "project" ["p"] NoDefault];
   mkCommand "cloud:repo" "read"
     [hidden "repo:read"; hidden "upsun:repo:read"; shown "cloud:read"; hidden "upsun:read"; hidden "read"]
     "Read a directory or file in the project repository" false
     [mkFlag StringFlag "commit" ["c"] NoDefault; mkFlag StringFlag "environment" ["e"] NoDefault;
      mkFlag StringFlag "project" ["p"] NoDefault]
  ].

Definition Commands_resources : list command :=
  [
   mkCommand "cloud:resources" "build:get"
     [hidden "resources:build:get"; hidden "upsun:resources:build:get"; shown "cloud:build-resources:get";
      hidden "upsun:build-resources:get"; hidden "build-resources:get"; shown "cloud:build-resources";
      hidden "upsun:build-resources"; hidden "build-resources"]
     "View the build resources of a project" true
     [mkFlag StringFlag "columns" ["c"] NoDefault; mkFlag StringFlag "format" [] (DefaultString "table");
      B "no-header"; mkFlag StringFlag "project" ["p"] NoDefault];
   mkCommand "cloud:resources" "build:set"
     [hidden "resources:build:set"; hidden "upsun:resources:build:set"; shown "cloud:build-resources:set";
      hidden "upsun:build-resources:set"; hidden "build-resources:set"]
     "Set the build resources of a project" true
     [S "cpu"; S "memory"; mkFlag StringFlag "project" ["p"] NoDefault];
   mkCommand "cloud:resources" "get"
     [hidden "resources:get"; hidden "upsun:resources:get"; shown "cloud:resources";
      hidden "upsun:resources"; hidden "resources"; shown "cloud:res"; hidden "upsun:res"; hidden "res"]
     "View the resources of apps and services on an environment" true
     [S "app"; mkFlag StringFlag "columns" ["c"] NoDefault; S "cpu-type";
      mkFlag StringFlag "environment" ["e"] NoDefault;
      mkFlag StringFlag "format" [] (DefaultString "table"); B "no-header";
      mkFlag StringFlag "project" ["p"] NoDefault; mkFlag StringFlag "service" ["s"] NoDefault; S "type";
      S "worker"];
   mkCommand "cloud:resources" "set"
     [hidden "resources:set"; hidden "upsun:resources:set"]
     "Set the resources of apps and services on an environment" true
     [mkFlag StringFlag "count" ["C"] NoDefault; mkFlag StringFlag "disk" ["D"] NoDefault; B "dry-run";
      mkFlag StringFlag "environment" ["e"] NoDefault; mkFlag BoolFlag "force" ["f"] NoDefault;
      mkFlag BoolFlag "no-wait" ["W"] NoDefault; mkFlag StringFlag "project" ["p"] NoDefault;
      mkFlag StringFlag "size" ["S"] NoDefault; B "wait"];
   mkCommand "cloud:resources" "size:list"
     [hidden "resources:size:list"; hidden "upsun:resources:size:list"; shown "cloud:resources:sizes";
      hidden "upsun:resources:sizes"; hidden "resources:sizes"]
     "List container profile sizes" true
     [mkFlag StringFlag "columns" ["c"] NoDefault; mkFlag StringFlag "environment" ["e"] NoDefault;
      mkFlag StringFlag "format" [] (DefaultString "table"); B "no-header"; S "profile";
      mkFlag StringFlag "project" ["p"] NoDefault; mkFlag StringFlag "service" ["s"] NoDefault]
  ].

Definition Commands_route : list command :=
  [
   mkCommand "cloud:route" "get"
     [hidden "route:get"; hidden "upsun:route:get"]
     "View detailed information about a route" false
     [mkFlag StringFlag "app" ["A"] NoDefault; mkFlag StringFlag "date-fmt" [] (DefaultString "c");
      mkFlag StringFlag "environment" ["e"] NoDefault; S "id";
      mkFlag StringFlag "identity-file" ["i"] NoDefault; mkFlag BoolFlag "primary" ["1"] NoDefault;
      mkFlag StringFlag "project" ["p"] NoDefault; mkFlag StringFlag "property" ["P"] NoDefault;
      B "refresh"];
   mkCommand "cloud:route" "list"
     [hidden "route:list"; hidden "upsun:route:list"; shown "cloud:routes"; hidden "upsun:routes";
      hidden "routes"]
     "List all routes for an environment" false
     [mkFlag StringFlag "columns" ["c"] NoDefault; mkFlag StringFlag "environment" ["e"] NoDefault;
      mkFlag StringFlag "format" [] (DefaultString "table"); B "no-header";
      mkFlag StringFlag "project" ["p"] NoDefault; B "refresh"]
  ].

Definition Commands_self : list command :=
  [
   mkCommand "cloud:self" "config"
     [hidden "upsun:self:config"]
     "Read CLI config" true
     []
  ].

Definition Commands_service : list command :=
  [
   mkCommand "cloud:service" "list"
     [hidden "service:list"; hidden "upsun:service:list"; shown "cloud:services"; hidden "upsun:services";
      hidden "services"]
     "List services in the project" false
     [mkFlag StringFlag "columns" ["c"] NoDefault; mkFlag StringFlag "environment" ["e"] NoDefault;
      mkFlag StringFlag "format" [] (DefaultString "table"); B "no-header"; B "pipe";
      mkFlag StringFlag "project" ["p"] NoDefault; B "refresh"];
   mkCommand "cloud:service" "mongo:dump"
     [hidden "service:mongo:dump"; hidden "upsun:service:mongo:dump"; shown "cloud:mongodump";
      hidden "upsun:mongodump"; hidden "mongodump"]
     "Create a binary archive dump of data from MongoDB" false
     [mkFlag StringFlag "app" ["A"] NoDefault; mkFlag StringFlag "collection" ["c"] NoDefault;
      mkFlag StringFlag "environment" ["e"] NoDefault; mkFlag BoolFlag "gzip" ["z"] NoDefault;
      mkFlag StringFlag "project" ["p"] NoDefault; mkFlag StringFlag "relationship" ["r"] NoDefault;
      mkFlag BoolFlag "stdout" ["o"] NoDefault];
   mkCommand "cloud:service" "mongo:export"
     [hidden "service:mongo:export"; hidden "upsun:service:mongo:export"; shown "cloud:mongoexport";
      hidden "upsun:mongoexport"; hidden "mongoexport"]
     "Export data from MongoDB" false
     [mkFlag StringFlag "app" ["A"] NoDefault; mkFlag StringFlag "collection" ["c"] NoDefault;
      mkFlag StringFlag "environment" ["e"] NoDefault; mkFlag StringFlag "fields" ["f"] NoDefault;
      B "jsonArray"; mkFlag StringFlag "project" ["p"] NoDefault;
      mkFlag StringFlag "relationship" ["r"] NoDefault; S "type"];
   mkCommand "cloud:service" "mongo:restore"
     [hidden "service:mongo:restore"; hidden "upsun:service:mongo:restore"; shown "cloud:mongorestore";
      hidden "upsun:mongorestore"; hidden "mongorestore"]
     "Restore a binary archive dump of data into MongoDB" false
     [mkFlag StringFlag "app" ["A"] NoDefault; mkFlag StringFlag "collection" ["c"] NoDefault;
      mkFlag StringFlag "environment" ["e"] NoDefault; mkFlag StringFlag "project" ["p"] NoDefault;
      mkFlag StringFlag "relationship" ["r"] NoDefault];
   mkCommand "cloud:service" "mongo:shell"
     [hidden "service:mongo:shell"; hidden "upsun:service:mongo:shell"; shown "cloud:mongo";
      hidden "upsun:mongo"; hidden "mongo"]
     "Use the MongoDB shell" false
     [mkFlag StringFlag "app" ["A"] NoDefault; mkFlag StringFlag "environment" ["e"] NoDefault; S "eval";
      mkFlag StringFlag "project" ["p"] NoDefault; mkFlag StringFlag "relationship" ["r"] NoDefault];
   mkCommand "cloud:service" "redis-cli"
     [hidden "service:redis-cli"; hidden "upsun:service:redis-cli"; shown "cloud:redis";
      hidden "upsun:redis"; hidden "redis"]
     "Access the Redis CLI" false
     [mkFlag StringFlag "app" ["A"] NoDefault; mkFlag StringFlag "environment" ["e"] NoDefault;
      mkFlag StringFlag "project" ["p"] NoDefault; mkFlag StringFlag "relationship" ["r"] NoDefault];
   mkCommand "cloud:service" "valkey-cli"
     [hidden "service:valkey-cli"; hidden "upsun:service:valkey-cli"; shown "cloud:valkey";
      hidden "upsun:valkey"; hidden "valkey"]
     "Access the Valkey CLI" false
     [mkFlag StringFlag "app" ["A"] NoDefault; mkFlag StringFlag "environment" ["e"] NoDefault;
      mkFlag StringFlag "project" ["p"] NoDefault; mkFlag StringFlag "relationship" ["r"] NoDefault]
  ].

Definition Commands_session : list command :=
  [
   mkCommand "cloud:session" "switch"
     [hidden "session:switch"; hidden "upsun:session:switch"]
     "BETA Switch between sessions" true
     []
  ].

Definition Commands_source_operation : list command :=
  [
   mkCommand "cloud:source-operation" "list"
     [hidden "source-operation:list"; hidden "upsun:source-operation:list"; shown "cloud:source-ops";
      hidden "upsun:source-ops"; hidden "source-ops"]
     "List source operations on an environment" false
     [mkFlag StringFlag "columns" ["c"] NoDefault; mkFlag StringFlag "environment" ["e"] NoDefault;
      mkFlag StringFlag "format" [] (DefaultString "table"); B "full"; B "no-header";
      mkFlag StringFlag "project" ["p"] NoDefault];
   mkCommand "cloud:source-operation" "run"
     [hidden "source-operation:run"; hidden "upsun:source-operation:run"]
     "Run a source operation" false
     [mkFlag StringFlag "environment" ["e"] NoDefault; mkFlag BoolFlag "no-wait" ["W"] NoDefault;
      mkFlag StringFlag "project" ["p"] NoDefault; S "variable"; B "wait"]
  ].

Definition Commands_ssh_cert : list command :=
  [
   mkCommand "cloud:ssh-cert" "info"
     [hidden "ssh-cert:info"; hidden "upsun:ssh-cert:info"]
     "Display information about the current SSH certificate" true
     [mkFlag StringFlag "date-fmt" [] (DefaultString "c"); B "no-refresh";
      mkFlag StringFlag "property" ["P"] NoDefault];
   mkCommand "cloud:ssh-cert" "load"
     [hidden "ssh-cert:load"; hidden "upsun:ssh-cert:load"]
     "Generate an SSH certificate" false
     [B "new"; B "new-key"; B "refresh-only"]
  ].

Definition Commands_ssh_key : list command :=
  [
   mkCommand "cloud:ssh-key" "add"
     [hidden "ssh-key:add"; hidden "upsun:ssh-key:add"]
     "Add a new SSH key" false
     [S "name"];
   mkCommand "cloud:ssh-key" "delete"
     [hidden "ssh-key:delete"; hidden "upsun:ssh-key:delete"]
     "Delete an SSH key" false
     [];
   mkCommand "cloud:ssh-key" "list"
     [hidden "ssh-key:list"; hidden "upsun:ssh-key:list"; shown "cloud:ssh-keys"; hidden "upsun:ssh-keys";
      hidden "ssh-keys"]
     "Get a list of SSH keys in your account" false
     [mkFlag StringFlag "columns" ["c"] NoDefault; mkFlag StringFlag "format" [] (DefaultString "table");
      B "no-header"]
  ].

Definition Commands_subscription : list command :=
  [
   mkCommand "cloud:subscription" "info"
     [hidden "subscription:info"; hidden "upsun:subscription:info"]
     "Read or modify subscription properties" false
     [mkFlag StringFlag "columns" ["c"] NoDefault; mkFlag StringFlag "date-fmt" [] (DefaultString "c");
      mkFlag StringFlag "format" [] (DefaultString "table"); mkFlag StringFlag "id" ["s"] NoDefault;
      B "no-header"; mkFlag StringFlag "project" ["p"] NoDefault]
  ].

Definition Commands_team_1 : list command :=
  [
   mkCommand "cloud:team" "create"
     [hidden "team:create"; hidden "upsun:team:create"]
     "Create a new team" false
     [S "label"; B "no-check-unique"; mkFlag StringFlag "org" ["o"] NoDefault; B "output-id";
      mkFlag StringFlag "role" ["r"] NoDefault];
   mkCommand "cloud:team" "delete"
     [hidden "team:delete"; hidden "upsun:team:delete"]
     "Delete a team" false
     [mkFlag StringFlag "org" ["o"] NoDefault; mkFlag StringFlag "team" ["t"] NoDefault];
   mkCommand "cloud:team" "get"
     [hidden "team:get"; hidden "upsun:team:get"]
     "View a team" false
     [mkFlag StringFlag "columns" ["c"] NoDefault; mkFlag StringFlag "date-fmt" [] (DefaultString "c");
      mkFlag StringFlag "format" [] (DefaultString "table"); B "no-header";
      mkFlag StringFlag "org" ["o"] NoDefault; mkFlag StringFlag "project" ["p"] NoDefault;
      mkFlag StringFlag "property" ["P"] NoDefault; mkFlag StringFlag "team" ["t"] NoDefault];
   mkCommand "cloud:team" "list"
     [hidden "team:list"; hidden "upsun:team:list"; shown "cloud:teams"; hidden "upsun:teams";
      hidden "teams"]
     "List teams" false
     [mkFlag BoolFlag "all" ["A"] NoDefault; S "columns"; mkFlag StringFlag "count" ["c"] NoDefault;
      mkFlag StringFlag "date-fmt" [] (DefaultString "c");
      mkFlag StringFlag "format" [] (DefaultString "table"); B "no-header";
      mkFlag StringFlag "org" ["o"] NoDefault; mkFlag StringFlag "project" ["p"] NoDefault; B "reverse";
      mkFlag StringFlag "sort" [] (DefaultString "label")];
   mkCommand "cloud:team" "project:add"
     [hidden "team:project:add"; hidden "upsun:team:project:add"]
     "Add project(s) to a team" false
     [B "all"; mkFlag StringFlag "org" ["o"] NoDefault; mkFlag StringFlag "team" ["t"] NoDefault];
   mkCommand "cloud:team" "project:delete"
     [hidden "team:project:delete"; hidden "upsun:team:project:delete"]
     "Remove a project from a team" false
     [mkFlag StringFlag "org" ["o"] NoDefault; mkFlag StringFlag "team" ["t"] NoDefault];
   mkCommand "cloud:team" "project:list"
     [hidden "team:project:list"; hidden "upsun:team:project:list"; shown "cloud:team:projects";
      hidden "upsun:team:projects"; hidden "team:projects"; shown "cloud:team:pro";
      hidden "upsun:team:pro"; hidden "team:pro"]
     "List projects in a team" false
     [S "columns"; mkFlag StringFlag "count" ["c"] NoDefault;
      mkFlag StringFlag "date-fmt" [] (DefaultString "c");
      mkFlag StringFlag "format" [] (DefaultString "table"); B "no-header";
      mkFlag StringFlag "org" ["o"] NoDefault; mkFlag StringFlag "team" ["t"] NoDefault];
   mkCommand "cloud:team" "update"
     [hidden "team:update"; hidden "upsun:team:update"]
     "Update a team" false
     [S "label"; B "no-check-unique"; mkFlag BoolFlag "no-wait" ["W"] NoDefault;
      mkFlag StringFlag "org" ["o"] NoDefault; mkFlag StringFlag "role" ["r"] NoDefault;
      mkFlag StringFlag "team" ["t"] NoDefault; B "wait"]
  ].

Definition Commands_team_2 : list command :=
  [
   mkCommand "cloud:team" "user:add"
     [hidden "team:user:add"; hidden "upsun:team:user:add"]
     "Add a user to a team" false
     [mkFlag StringFlag "org" ["o"] NoDefault; mkFlag StringFlag "team" ["t"] NoDefault];
   mkCommand "cloud:team" "user:delete"
     [hidden "team:user:delete"; hidden "upsun:team:user:delete"]
     "Remove a user from a team" false
     [mkFlag StringFlag "org" ["o"] NoDefault; mkFlag StringFlag "team" ["t"] NoDefault];
   mkCommand "cloud:team" "user:list"
     [hidden "team:user:list"; hidden "upsun:team:user:list"; shown "cloud:team:users";
      hidden "upsun:team:users"; hidden "team:users"]
     "List users in a team" false
     [S "columns"; mkFlag StringFlag "count" ["c"] NoDefault;
      mkFlag StringFlag "date-fmt" [] (DefaultString "c");
      mkFlag StringFlag "format" [] (DefaultString "table"); B "no-header";
      mkFlag StringFlag "org" ["o"] NoDefault; mkFlag StringFlag "team" ["t"] NoDefault]
  ].

Definition Commands_tunnel : list command :=
  [
   mkCommand "cloud:tunnel" "close"
     [hidden "tunnel:close"; hidden "upsun:tunnel:close"]
     "Close SSH tunnels" false
     [mkFlag BoolFlag "all" ["a"] NoDefault; mkFlag StringFlag "app" ["A"] NoDefault;
      mkFlag StringFlag "environment" ["e"] NoDefault; mkFlag StringFlag "project" ["p"] NoDefault];
   mkCommand "cloud:tunnel" "info"
     [hidden "tunnel:info"; hidden "upsun:tunnel:info"]
     "View relationship info for SSH tunnels" false
     [mkFlag StringFlag "app" ["A"] NoDefault; mkFlag BoolFlag "encode" ["c"] NoDefault;
      mkFlag StringFlag "environment" ["e"] NoDefault; mkFlag StringFlag "project" ["p"] NoDefault;
      mkFlag StringFlag "property" ["P"] NoDefault];
   mkCommand "cloud:tunnel" "list"
     [hidden "tunnel:list"; hidden "upsun:tunnel:list"; shown "cloud:tunnels"; hidden "upsun:tunnels";
      hidden "tunnels"]
     "List SSH tunnels" false
     [mkFlag BoolFlag "all" ["a"] NoDefault; mkFlag StringFlag "app" ["A"] NoDefault;
      mkFlag StringFlag "columns" ["c"] NoDefault; mkFlag StringFlag "environment" ["e"] NoDefault;
      mkFlag StringFlag "format" [] (DefaultString "table"); B "no-header";
      mkFlag StringFlag "project" ["p"] NoDefault];
   mkCommand "cloud:tunnel" "open"
     [hidden "tunnel:open"; hidden "upsun:tunnel:open"]
     "Open SSH tunnels to an app's relationships" false
     [mkFlag StringFlag "app" ["A"] NoDefault; mkFlag StringFlag "environment" ["e"] NoDefault;
      mkFlag BoolFlag "gateway-ports" ["g"] NoDefault; mkFlag StringFlag "project" ["p"] NoDefault];
   mkCommand "cloud:tunnel" "single"
     [hidden "tunnel:single"; hidden "upsun:tunnel:single"]
     "Open a single SSH tunnel to an app relationship" false
     [mkFlag StringFlag "app" ["A"] NoDefault; mkFlag StringFlag "environment" ["e"] NoDefault;
      mkFlag BoolFlag "gateway-ports" ["g"] NoDefault; S "port";
      mkFlag StringFlag "project" ["p"] NoDefault; mkFlag StringFlag "relationship" ["r"] NoDefault]
  ].

Definition Commands_user : list command :=
  [
   mkCommand "cloud:user" "add"
     [hidden "user:add"; hidden "upsun:user:add"]
     "Add a user to the project" false
     [B "force-invite"; mkFlag BoolFlag "no-wait" ["W"] NoDefault;
      mkFlag StringFlag "project" ["p"] NoDefault; mkFlag StringFlag "role" ["r"] NoDefault; B "wait"];
   mkCommand "cloud:user" "delete"
     [hidden "user:delete"; hidden "upsun:user:delete"]
     "Delete a user from the project" false
     [mkFlag BoolFlag "no-wait" ["W"] NoDefault; mkFlag StringFlag "project" ["p"] NoDefault; B "wait"];
   mkCommand "cloud:user" "get"
     [hidden "user:get"; hidden "upsun:user:get"]
     "View a user's role(s)" false
     [mkFlag StringFlag "environment" ["e"] NoDefault; mkFlag StringFlag "level" ["l"] NoDefault;
      mkFlag BoolFlag "no-wait" ["W"] NoDefault; B "pipe"; mkFlag StringFlag "project" ["p"] NoDefault;
      mkFlag StringFlag "role" ["r"] NoDefault; B "wait"];
   mkCommand "cloud:user" "list"
     [hidden "user:list"; hidden "upsun:user:list"; shown "cloud:users"; hidden "upsun:users";
      hidden "users"]
     "List project users" false
     [mkFlag StringFlag "columns" ["c"] NoDefault; mkFlag StringFlag "format" [] (DefaultString "table");
      B "no-header"; mkFlag StringFlag "project" ["p"] NoDefault];
   mkCommand "cloud:user" "update"
     [hidden "user:update"; hidden "upsun:user:update"]
     "Update user role(s) on a project" false
     [mkFlag BoolFlag "no-wait" ["W"] NoDefault; mkFlag StringFlag "project" ["p"] NoDefault;
      mkFlag StringFlag "role" ["r"] NoDefault; B "wait"]
  ].

Definition Commands_variable : list command :=
  [
   mkCommand "cloud:variable" "create"
     [hidden "variable:create"; hidden "upsun:variable:create"]
     "Create a variable" false
     [S "app-scope"; mkFlag BoolFlag "enabled" [] DefaultTrue;
      mkFlag StringFlag "environment" ["e"] NoDefault; mkFlag BoolFlag "inheritable" [] DefaultTrue;
      B "json"; mkFlag StringFlag "level" ["l"] NoDefault; S "name";
      mkFlag BoolFlag "no-wait" ["W"] NoDefault; mkFlag StringFlag "prefix" [] (DefaultString "none");
      mkFlag StringFlag "project" ["p"] NoDefault; B "sensitive"; mkFlag BoolFlag "update" ["u"] NoDefault;
      S "value"; S "visible-build"; mkFlag BoolFlag "visible-runtime" [] DefaultTrue; B "wait"];
   mkCommand "cloud:variable" "delete"
     [hidden "variable:delete"; hidden "upsun:variable:delete"]
     "Delete a variable" false
     [mkFlag StringFlag "environment" ["e"] NoDefault; mkFlag StringFlag "level" ["l"] NoDefault;
      mkFlag BoolFlag "no-wait" ["W"] NoDefault; mkFlag StringFlag "project" ["p"] NoDefault; B "wait"];
   mkCommand "cloud:variable" "get"
     [hidden "variable:get"; hidden "upsun:variable:get"; shown "cloud:vget"; hidden "upsun:vget";
      hidden "vget"]
     "View a variable" false
     [mkFlag StringFlag "columns" ["c"] NoDefault; mkFlag StringFlag "environment" ["e"] NoDefault;
      mkFlag StringFlag "format" [] (DefaultString "table"); mkFlag StringFlag "level" ["l"] NoDefault;
      B "no-header"; B "pipe"; mkFlag StringFlag "project" ["p"] NoDefault;
      mkFlag StringFlag "property" ["P"] NoDefault];
   mkCommand "cloud:variable" "list"
     [hidden "variable:list"; hidden "upsun:variable:list"; shown "cloud:variables";
      hidden "upsun:variables"; hidden "variables"; shown "cloud:var"; hidden "upsun:var"; hidden "var"]
     "List variables" false
     [mkFlag StringFlag "columns" ["c"] NoDefault; mkFlag StringFlag "environment" ["e"] NoDefault;
      mkFlag StringFlag "format" [] (DefaultString "table"); mkFlag StringFlag "level" ["l"] NoDefault;
      B "no-header"; mkFlag StringFlag "project" ["p"] NoDefault];
   mkCommand "cloud:variable" "update"
     [hidden "variable:update"; hidden "upsun:variable:update"]
     "Update a variable" false
     [B "allow-no-change"; S "app-scope"; mkFlag BoolFlag "enabled" [] DefaultTrue;
      mkFlag StringFlag "environment" ["e"] NoDefault; mkFlag BoolFlag "inheritable" [] DefaultTrue;
      B "json"; mkFlag StringFlag "level" ["l"] NoDefault; mkFlag BoolFlag "no-wait" ["W"] NoDefault;
      mkFlag StringFlag "project" ["p"] NoDefault; B "sensitive"; S "value"; S "visible-build";
      mkFlag BoolFlag "visible-runtime" [] DefaultTrue; B "wait"]
  ].

Definition Commands_version : list command :=
  [
   mkCommand "cloud:version" "list"
     [hidden "version:list"; hidden "upsun:version:list"; shown "cloud:versions"; hidden "upsun:versions";
      hidden "versions"]
     "ALPHA List environment versions" true
     [mkFlag StringFlag "columns" ["c"] NoDefault; mkFlag StringFlag "environment" ["e"] NoDefault;
      mkFlag StringFlag "format" [] (DefaultString "table"); B "no-header";
      mkFlag StringFlag "project" ["p"] NoDefault]
  ].

Definition Commands_worker : list command :=
  [
   mkCommand "cloud:worker" "list"
     [hidden "worker:list"; hidden "upsun:worker:list"; shown "cloud:workers"; hidden "upsun:workers";
      hidden "workers"]
     "Get a list of all deployed workers" false
     [mkFlag StringFlag "columns" ["c"] NoDefault; mkFlag StringFlag "environment" ["e"] NoDefault;
      mkFlag StringFlag "format" [] (DefaultString "table"); B "no-header"; B "pipe";
      mkFlag StringFlag "project" ["p"] NoDefault; B "refresh"]
  ].

Definition Commands : list command := concat
  [Commands_global;
   Commands_activity;
   Commands_api;
   Commands_app;
   Commands_auth;
   Commands_autoscaling;
   Commands_backup;
   Commands_blue_green;
   Commands_certificate;
   Commands_commit;
   Commands_db;
   Commands_domain;
   Commands_environment_1;
   Commands_environment_2;
   Commands_environment_3;
   Commands_environment_4;
   Commands_integration_1;
   Commands_integration_2;
   Commands_metrics;
   Commands_mount;
   Commands_operation;
   Commands_organization_1;
   Commands_organization_2;
   Commands_project_1;
   Commands_project_2;
   Commands_repo;
   Commands_resources;
   Commands_route;
   Commands_self;
   Commands_service;
   Commands_session;
   Commands_source_operation;
   Commands_ssh_cert;
   Commands_ssh_key;
   Commands_subscription;
   Commands_team_1;
   Commands_team_2;
   Commands_tunnel;
   Commands_user;
   Commands_variable;
   Commands_version;
   Commands_worker].
