(* ===== verification/UpsunTables.v ===== *)
(** * Extensions and services of the cloud ([local/upsun/config.go])

    The two tables that [local/upsun/generator] makes, with what the look-ups of
    [Upsun] find in them: the last version of a service is its greatest one. *)

From stdpp Require Import base tactics option list gmap strings.
From Stdlib Require Import ZArith.
From S2P Require Import Prelude GoStrings Upsun.

Definition availablePHPExts_list : list (string * list string) :=
  [("amqp", ["7.0"; "7.1"; "7.2"; "7.3"; "7.4"; "8.0"; "8.1"; "8.2"; "8.3"; "8.4"; "8.5"]);
   ("apc", ["5.4"]);
   ("apcu", ["5.4"; "5.5"; "5.6"; "7.0"; "7.1"; "7.2"; "7.3"; "7.4"; "8.0"; "8.1"; "8.2"; "8.3"; "8.4"; "8.5"]);
   ("apcu_bc", ["7.0"; "7.1"; "7.2"; "7.3"; "7.4"]);
   ("applepay", ["7.0"; "7.1"; "7.3"; "7.4"]);
   ("bcmath", ["7.0"; "7.1"; "7.2"; "7.3"; "7.4"; "8.0"; "8.1"; "8.2"; "8.3"; "8.4"; "8.5"]);
   ("blackfire", ["5.4"; "5.5"; "5.6"; "7.0"; "7.1"; "7.2"; "7.3"; "7.4"; "8.0"; "8.1"; "8.2"; "8.3"; "8.4"; "8.5"]);
   ("bz2", ["7.0"; "7.1"; "7.2"; "7.3"; "7.4"; "8.0"; "8.1"; "8.2"; "8.3"; "8.4"; "8.5"]);
   ("calendar", ["7.0"; "7.1"; "7.2"; "7.3"; "7.4"; "8.0"; "8.1"; "8.2"; "8.3"; "8.4"; "8.5"]);
   ("ctype", ["7.0"; "7.1"; "7.2"; "7.3"; "7.4"; "8.0"; "8.1"; "8.2"; "8.3"; "8.4"; "8.5"]);
   ("curl", ["5.4"; "5.5"; "5.6"; "7.0"; "7.1"; "7.2"; "7.3"; "7.4"; "8.0"; "8.1"; "8.2"; "8.3"; "8.4"; "8.5"]);
   ("datadog-profiling", ["8.2"; "8.3"; "8.4"; "8.5"]);
   ("dba", ["7.0"; "7.1"; "7.2"; "7.3"; "7.4"; "8.0"; "8.1"; "8.2"; "8.3"; "8.4"; "8.5"]);
   ("dom", ["7.0"; "7.1"; "7.2"; "7.3"; "7.4"; "8.0"; "8.1"; "8.2"; "8.3"; "8.4"; "8.5"]);
   ("enchant", ["5.4"; "5.5"; "5.6"; "7.0"; "7.1"; "7.2"; "7.3"; "7.4"; "8.0"; "8.1"; "8.2"; "8.3"; "8.4"; "8.5"]);
   ("event", ["7.1"; "7.2"; "7.3"; "7.4"; "8.0"; "8.1"; "8.2"; "8.3"; "8.4"; "8.5"]);
   ("exif", ["7.0"; "7.1"; "7.2"; "7.3"; "7.4"; "8.0"; "8.1"; "8.2"; "8.3"; "8.4"; "8.5"]);
   ("ffi", ["7.4"; "8.0"; "8.1"; "8.2"; "8.3"; "8.4"; "8.5"]);
   ("fileinfo", ["7.0"; "7.1"; "7.2"; "7.3"; "7.4"; "8.0"; "8.1"; "8.2"; "8.3"; "8.4"; "8.5"]);
   ("ftp", ["7.0"; "7.1"; "7.2"; "7.3"; "7.4"; "8.0"; "8.1"; "8.2"; "8.3"; "8.4"; "8.5"]);
   ("gd", ["5.4"; "5.5"; "5.6"; "7.0"; "7.1"; "7.2"; "7.3"; "7.4"; "8.0"; "8.1"; "8.2"; "8.3"; "8.4"; "8.5"]);
   ("gearman", ["5.4"; "5.5"; "5.6"]);
   ("geoip", ["5.4"; "5.5"; "5.6"; "7.0"; "7.1"; "7.2"; "7.3"; "7.4"; "8.0"; "8.1"; "8.2"; "8.3"; "8.4"; "8.5"]);
   ("gettext", ["7.0"; "7.1"; "7.2"; "7.3"; "7.4"; "8.0"; "8.1"; "8.2"; "8.3"; "8.4"; "8.5"]);
   ("gmp", ["5.4"; "5.5"; "5.6"; "7.0"; "7.1"; "7.2"; "7.3"; "7.4"; "8.0"; "8.1"; "8.2"; "8.3"; "8.4"; "8.5"]);
   ("gnupg", ["8.0"; "8.1"; "8.2"; "8.3"; "8.4"; "8.5"]);
   ("grpc", ["8.4"]);
   ("http", ["5.4"; "7.3"; "7.4"; "8.0"; "8.1"; "8.2"; "8.3"; "8.4"; "8.5"]);
   ("iconv", ["7.0"; "7.1"; "7.2"; "7.3"; "7.4"; "8.0"; "8.1"; "8.2"; "8.3"; "8.4"; "8.5"]);
   ("igbinary", ["7.0"; "7.1"; "7.2"; "7.3"; "7.4"; "8.0"; "8.1"; "8.2"; "8.3"; "8.4"; "8.5"]);
   ("imagick", ["5.4"; "5.5"; "5.6"; "7.0"; "7.1"; "7.2"; "7.3"; "7.4"; "8.0"; "8.1"; "8.2"; "8.3"; "8.4"; "8.5"]);
   ("imap", ["5.4"; "5.5"; "5.6"; "7.0"; "7.1"; "7.2"; "7.3"; "7.4"; "8.0"; "8.1"; "8.2"; "8.3"; "8.4"; "8.5"]);
   ("interbase", ["5.4"; "5.5"; "5.6"; "7.0"; "7.1"; "7.2"; "7.3"; "7.4"; "8.0"; "8.1"; "8.2"]);
   ("intl", ["5.4"; "5.5"; "5.6"; "7.0"; "7.1"; "7.2"; "7.3"; "7.4"; "8.0"; "8.1"; "8.2"; "8.3"; "8.4"; "8.5"]);
   ("ioncube", ["7.0"; "7.1"; "7.2"; "7.3"; "7.4"; "8.1"; "8.2"; "8.3"; "8.4"]);
   ("json", ["5.5"; "5.6"; "7.0"; "7.1"; "7.2"; "7.3"; "7.4"]);
   ("ldap", ["5.4"; "5.5"; "5.6"; "7.0"; "7.1"; "7.2"; "7.3"; "7.4"; "8.0"; "8.1"; "8.2"; "8.3"; "8.4"; "8.5"]);
   ("mailparse", ["7.0"; "7.1"; "7.2"; "7.3"; "7.4"; "8.0"; "8.1"; "8.2"; "8.3"; "8.4"; "8.5"]);
   ("mbstring", ["7.0"; "7.1"; "7.2"; "7.3"; "7.4"; "8.0"; "8.1"; "8.2"; "8.3"; "8.4"; "8.5"]);
   ("mcrypt", ["5.4"; "5.5"; "5.6"; "7.0"; "7.1"]);
   ("memcache", ["5.4"; "5.5"; "5.6"]);
   ("memcached", ["5.4"; "5.5"; "5.6"; "7.0"; "7.1"; "7.2"; "7.3"; "7.4"; "8.0"; "8.1"; "8.2"; "8.3"; "8.4"; "8.5"]);
   ("mongo", ["5.4"; "5.5"; "5.6"]);
   ("mongodb", ["7.0"; "7.1"; "7.2"; "7.3"; "7.4"; "8.0"; "8.1"; "8.2"; "8.3"; "8.4"; "8.5"]);
   ("msgpack", ["5.6"; "7.0"; "7.1"; "7.2"; "7.3"; "7.4"; "8.0"; "8.1"; "8.2"; "8.3"; "8.4"; "8.5"]);
   ("mssql", ["5.4"; "5.5"; "5.6"]);
   ("mysql", ["5.4"; "5.5"; "5.6"]);
   ("mysqli", ["5.4"; "5.5"; "5.6"; "7.0"; "7.1"; "7.2"; "7.3"; "7.4"; "8.0"; "8.1"; "8.2"; "8.3"; "8.4"; "8.5"]);
   ("mysqlnd", ["5.4"; "5.5"; "5.6"; "7.0"; "7.1"; "7.2"; "7.3"; "7.4"; "8.0"; "8.1"; "8.2"; "8.3"; "8.4"; "8.5"]);
   ("newrelic", ["5.6"; "7.0"; "7.1"; "7.2"; "7.3"; "7.4"; "8.0"; "8.1"; "8.2"; "8.3"; "8.4"; "8.5"]);
   ("oauth", ["7.0"; "7.1"; "7.2"; "7.3"; "7.4"; "8.0"; "8.1"; "8.2"; "8.3"; "8.4"; "8.5"]);
   ("odbc", ["5.4"; "5.5"; "5.6"; "7.0"; "7.1"; "7.2"; "7.3"; "7.4"; "8.0"; "8.1"; "8.2"; "8.3"; "8.4"; "8.5"]);
   ("opcache", ["5.4"]);
   ("openswoole", ["8.2"; "8.3"; "8.4"]);
   ("opentelemetry", ["8.2"; "8.3"; "8.4"; "8.5"]);
   ("pdo", ["5.4"; "5.5"; "5.6"; "7.0"; "7.1"; "7.2"; "7.3"; "7.4"; "8.0"; "8.1"; "8.2"; "8.3"; "8.4"; "8.5"]);
   ("pdo_dblib", ["5.4"; "5.5"; "5.6"; "7.0"; "7.1"; "7.2"; "7.3"; "7.4"; "8.0"; "8.1"; "8.2"; "8.3"; "8.4"; "8.5"]);
   ("pdo_firebird", ["5.4"; "5.5"; "5.6"; "7.0"; "7.1"; "8.2"; "8.3"; "8.4"; "8.5"]);
   ("pdo_mysql", ["5.4"; "5.5"; "5.6"; "7.0"; "7.1"; "7.2"; "7.3"; "7.4"; "8.0"; "8.1"; "8.2"; "8.3"; "8.4"; "8.5"]);
   ("pdo_odbc", ["5.4"; "5.5"; "5.6"; "7.0"; "7.1"; "7.2"; "7.3"; "7.4"; "8.0"; "8.1"; "8.2"; "8.3"; "8.4"; "8.5"]);
   ("pdo_pgsql", ["5.4"; "5.5"; "5.6"; "7.0"; "7.1"; "7.2"; "7.3"; "7.4"; "8.0"; "8.1"; "8.2"; "8.3"; "8.4"; "8.5"]);
   ("pdo_sqlite", ["5.4"; "5.5"; "5.6"; "7.0"; "7.1"; "7.2"; "7.3"; "7.4"; "8.0"; "8.1"; "8.2"; "8.3"; "8.4"; "8.5"]);
   ("pdo_sqlsrv", ["7.0"; "7.1"; "7.2"; "7.3"; "7.4"; "8.0"; "8.1"; "8.2"; "8.3"; "8.4"; "8.5"]);
   ("pecl-http", ["5.5"; "5.6"]);
   ("pgsql", ["5.4"; "5.5"; "5.6"; "7.0"; "7.1"; "7.2"; "7.3"; "7.4"; "8.0"; "8.1"; "8.2"; "8.3"; "8.4"; "8.5"]);
   ("phar", ["7.0"; "7.1"; "7.2"; "7.3"; "7.4"; "8.0"; "8.1"; "8.2"; "8.3"; "8.4"; "8.5"]);
   ("pinba", ["5.4"; "5.5"; "5.6"]);
   ("posix", ["7.0"; "7.1"; "7.2"; "7.3"; "7.4"; "8.0"; "8.1"; "8.2"; "8.3"; "8.4"; "8.5"]);
   ("propro", ["5.6"; "7.3"; "7.4"]);
   ("protobuf", ["8.1"; "8.2"; "8.3"; "8.4"; "8.5"]);
   ("pspell", ["5.4"; "5.5"; "5.6"; "7.0"; "7.1"; "7.2"; "7.3"; "7.4"; "8.0"; "8.1"; "8.2"; "8.3"]);
   ("raphf", ["5.6"; "7.3"; "7.4"; "8.0"; "8.1"; "8.2"; "8.3"; "8.4"; "8.5"]);
   ("rdkafka", ["8.1"; "8.2"; "8.3"; "8.4"; "8.5"]);
   ("readline", ["5.4"; "5.5"; "5.6"; "7.0"; "7.1"; "7.2"; "7.3"; "7.4"; "8.0"; "8.1"; "8.2"; "8.3"; "8.4"; "8.5"]);
   ("recode", ["5.4"; "5.5"; "5.6"; "7.0"; "7.1"; "7.2"; "7.3"]);
   ("redis", ["5.4"; "5.5"; "5.6"; "7.0"; "7.1"; "7.2"; "7.3"; "7.4"; "8.0"; "8.1"; "8.2"; "8.3"; "8.4"; "8.5"]);
   ("shmop", ["7.0"; "7.1"; "7.2"; "7.3"; "7.4"; "8.0"; "8.1"; "8.2"; "8.3"; "8.4"; "8.5"]);
   ("simplexml", ["7.0"; "7.1"; "7.2"; "7.3"; "7.4"; "8.0"; "8.1"; "8.2"; "8.3"; "8.4"; "8.5"]);
   ("snmp", ["5.4"; "5.5"; "5.6"; "7.0"; "7.1"; "7.2"; "7.3"; "7.4"; "8.0"; "8.1"; "8.2"; "8.3"; "8.4"; "8.5"]);
   ("soap", ["7.0"; "7.1"; "7.2"; "7.3"; "7.4"; "8.0"; "8.1"; "8.2"; "8.3"; "8.4"; "8.5"]);
   ("sockets", ["7.0"; "7.1"; "7.2"; "7.3"; "7.4"; "8.0"; "8.1"; "8.2"; "8.3"; "8.4"; "8.5"]);
   ("sodium", ["7.2"; "7.3"; "7.4"; "8.0"; "8.1"; "8.2"; "8.3"; "8.4"; "8.5"]);
   ("sourceguardian", ["7.0"; "7.1"; "7.2"; "7.3"; "7.4"; "8.0"; "8.1"; "8.2"; "8.3"; "8.4"; "8.5"]);
   ("spplus", ["5.4"; "5.5"]);
   ("sqlite3", ["5.4"; "5.5"; "5.6"; "7.0"; "7.1"; "7.2"; "7.3"; "7.4"; "8.0"; "8.1"; "8.2"; "8.3"; "8.4"; "8.5"]);
   ("sqlsrv", ["7.0"; "7.1"; "7.2"; "7.3"; "7.4"; "8.0"; "8.1"; "8.2"; "8.3"]);
   ("ssh2", ["5.4"; "5.5"; "5.6"; "7.0"; "7.1"; "7.2"; "7.3"; "7.4"; "8.0"; "8.1"; "8.2"; "8.3"; "8.4"; "8.5"]);
   ("swoole", ["8.2"; "8.3"; "8.4"]);
   ("sybase", ["7.0"; "7.1"; "7.2"; "7.3"; "7.4"; "8.0"; "8.1"; "8.2"; "8.3"; "8.4"; "8.5"]);
   ("sysvmsg", ["7.0"; "7.1"; "7.2"; "7.3"; "7.4"; "8.0"; "8.1"; "8.2"; "8.3"; "8.4"; "8.5"]);
   ("sysvsem", ["7.0"; "7.1"; "7.2"; "7.3"; "7.4"; "8.0"; "8.1"; "8.2"; "8.3"; "8.4"; "8.5"]);
   ("sysvshm", ["7.0"; "7.1"; "7.2"; "7.3"; "7.4"; "8.0"; "8.1"; "8.2"; "8.3"; "8.4"; "8.5"]);
   ("tideways", ["7.0"; "7.1"; "7.2"; "7.3"; "7.4"; "8.0"; "8.1"; "8.2"; "8.3"; "8.4"; "8.5"]);
   ("tideways_xhprof", ["7.0"; "7.1"; "7.2"; "7.3"; "7.4"; "8.0"; "8.1"; "8.2"; "8.3"]);
   ("tidy", ["5.4"; "5.5"; "5.6"; "7.0"; "7.1"; "7.2"; "7.3"; "7.4"; "8.0"; "8.1"; "8.2"; "8.3"; "8.4"; "8.5"]);
   ("tokenizer", ["7.0"; "7.1"; "7.2"; "7.3"; "7.4"; "8.0"; "8.1"; "8.2"; "8.3"; "8.4"; "8.5"]);
   ("uuid", ["7.1"; "7.2"; "7.3"; "7.4"; "8.0"; "8.1"; "8.2"; "8.3"; "8.4"; "8.5"]);
   ("uv", ["8.3"; "8.4"]);
   ("wddx", ["7.0"; "7.1"; "7.2"; "7.3"]);
   ("xcache", ["5.4"; "5.5"]);
   ("xdebug", ["5.4"; "5.5"; "5.6"; "7.0"; "7.1"; "7.2"; "7.3"; "7.4"; "8.0"; "8.1"; "8.2"; "8.3"; "8.4"; "8.5"]);
   ("xhprof", ["5.4"; "5.5"; "5.6"]);
   ("xml", ["7.0"; "7.1"; "7.2"; "7.3"; "7.4"; "8.0"; "8.1"; "8.2"; "8.3"; "8.4"; "8.5"]);
   ("xmlreader", ["7.0"; "7.1"; "7.2"; "7.3"; "7.4"; "8.0"; "8.1"; "8.2"; "8.3"; "8.4"; "8.5"]);
   ("xmlrpc", ["5.4"; "5.5"; "5.6"; "7.0"; "7.1"; "7.2"; "7.3"; "7.4"; "8.0"; "8.1"; "8.2"; "8.3"; "8.4"; "8.5"]);
   ("xmlwriter", ["7.0"; "7.1"; "7.2"; "7.3"; "7.4"; "8.0"; "8.1"; "8.2"; "8.3"; "8.4"; "8.5"]);
   ("xsl", ["5.4"; "5.5"; "5.6"; "7.0"; "7.1"; "7.2"; "7.3"; "7.4"; "8.0"; "8.1"; "8.2"; "8.3"; "8.4"; "8.5"]);
   ("yaml", ["7.1"; "7.2"; "7.3"; "7.4"; "8.0"; "8.1"; "8.2"; "8.3"; "8.4"; "8.5"]);
   ("zbarcode", ["7.0"; "7.1"; "7.2"; "7.3"]);
   ("zip", ["7.0"; "7.1"; "7.2"; "7.3"; "7.4"; "8.0"; "8.1"; "8.2"; "8.3"; "8.4"; "8.5"])].
Definition availablePHPExts : gmap string (list string) := list_to_map availablePHPExts_list.

Definition availableServices_1 : list service :=
  [Build_service "chrome-headless" (Build_serviceVersions ["73"; "80"; "81"; "83"; "84"; "86"; "91"; "95"; "113"]
       ["120"]);
   Build_service "clickhouse" (Build_serviceVersions []
       ["23.8"; "24.3"; "25.3"; "25.8"]);
   Build_service "elasticsearch" (Build_serviceVersions ["6.5"; "6.8"; "7.2"; "7.5"; "7.6"; "7.7"; "7.9"]
       ["7.10"]);
   Build_service "elasticsearch-enterprise" (Build_serviceVersions []
       ["7.17"; "8.5"; "8.19"]);
   Build_service "gotenberg" (Build_serviceVersions []
       ["8"]);
   Build_service "influxdb" (Build_serviceVersions ["1.2"; "1.3"; "1.7"; "1.8"; "2.0"; "2.1"; "2.2"]
       ["2.3"; "2.7"]);
   Build_service "kafka" (Build_serviceVersions ["2.1"; "2.2"; "2.3"; "2.4"; "2.5"; "2.6"; "2.7"; "3.2"; "3.4"; "3.6"]
       ["3.7"]);
   Build_service "mariadb" (Build_serviceVersions ["5.5"; "10.0"; "10.1"; "10.2"; "10.3"; "10.4"; "10.5"; "11.0"; "11.2"]
       ["10.6"; "10.11"; "11.4"; "11.8"]);
   Build_service "mariadb-replica" (Build_serviceVersions []
       ["11.4"]);
   Build_service "memcached" (Build_serviceVersions ["1.4"; "1.5"]
       ["1.6"]);
   Build_service "mercure" (Build_serviceVersions []
       ["0"]);
   Build_service "mongodb" (Build_serviceVersions ["3.0"; "3.2"; "3.4"; "3.6"]
       ["4.0"]);
   Build_service "mongodb-enterprise" (Build_serviceVersions ["4.0"; "4.2"; "4.4"; "5.0"; "6.0"]
       ["7.0"])].

Definition availableServices_2 : list service :=
  [Build_service "mysql" (Build_serviceVersions ["5.5"; "10.0"; "10.1"; "10.2"; "10.3"; "10.4"; "10.5"; "11.0"; "11.2"]
       ["10.6"; "10.11"; "11.4"; "11.8"]);
   Build_service "network-storage" (Build_serviceVersions ["2.0"]
       ["1.0"]);
   Build_service "opensearch" (Build_serviceVersions ["1.1"; "1.2"]
       ["2"; "3"]);
   Build_service "oracle-mysql" (Build_serviceVersions ["5.7"]
       ["8.0"; "8.4"]);
   Build_service "postgresql" (Build_serviceVersions ["9.3"; "9.5"; "9.6"; "10"; "11"; "12"; "13"]
       ["14"; "15"; "16"; "17"; "18"]);
   Build_service "postgresql-replica" (Build_serviceVersions []
       ["15"]);
   Build_service "rabbitmq" (Build_serviceVersions ["3.5"; "3.6"; "3.7"; "3.8"; "3.9"; "3.10"; "3.11"; "3.12"; "3.13"; "4.0"]
       ["4.1"]);
   Build_service "redis" (Build_serviceVersions ["5.0"; "6.0"; "6.2"; "7.0"]
       ["7.2"; "8.0"]);
   Build_service "solr" (Build_serviceVersions ["3.6"; "4.10"; "6.3"; "6.6"; "7.6"; "7.7"; "8.0"; "8.11"; "9.0"]
       ["9.1"; "9.2"; "9.4"; "9.6"; "9.9"]);
   Build_service "valkey" (Build_serviceVersions []
       ["8.0"; "8.1"]);
   Build_service "varnish" (Build_serviceVersions ["7.1"; "7.2"; "7.3"]
       ["6.0"; "7.6"]);
   Build_service "vault-kms" (Build_serviceVersions []
       ["1.12"])].
Definition availableServices : list service := availableServices_1 ++ availableServices_2.

(** ** The last version is the greatest *)

(** The numbers of a version such as [10.6]; other texts have no order. *)
Fixpoint version_numbers (parts : list string) : option (list Z) :=
  match parts with
  | [] => Some []
  | p :: parts => z ← parse_digits 0 p; zs ← version_numbers parts; Some (z :: zs)
  end.
Definition version_of (v : string) : option (list Z) := version_numbers (Split v ".").
Fixpoint version_le (v w : list Z) : bool :=
  match v, w with
  | [], _ => true
  | _ :: _, [] => false
  | x :: v, y :: w => (x <? y)%Z || ((x =? y)%Z && version_le v w)
  end.
Definition not_above (v w : string) : bool :=
  match version_of v, version_of w with Some a, Some b => version_le a b | _, _ => false end.

(** The versions that may be chosen for a service. *)
Definition candidates (s : service) : list string :=
  if bool_decide (Supported (Versions s) = []) then Deprecated (Versions s) else Supported (Versions s).
Definition latest_ok (s : service) : bool :=
  let v := ServiceLastVersion availableServices (Type_ s) in
  bool_decide (v ∈ candidates s) && forallb (λ u, not_above u v) (candidates s).

Lemma latest_all : forallb latest_ok availableServices = true.
Proof. vm_compute. reflexivity. Qed.

(** The version that is used for a service of the table is one of its
    supported versions, or of its deprecated ones when none is supported any
    more, and no other of these is greater. *)
Theorem ServiceLastVersion_latest s :
  s ∈ availableServices →
  ServiceLastVersion availableServices (Type_ s) ∈ candidates s ∧
  ∀ u, u ∈ candidates s → not_above u (ServiceLastVersion availableServices (Type_ s)) = true.
Proof.
  intros Hs. pose proof latest_all as H. rewrite forallb_forall in H.
  specialize (H s (proj1 (list_elem_of_In _ _) Hs)). apply andb_true_iff in H as [H1 H2]. split; [by apply bool_decide_eq_true_1 in H1|].
  intros u Hu. rewrite forallb_forall in H2. by apply H2, list_elem_of_In.
Qed.

Lemma ServiceLastVersion_latest_witness :
  ServiceLastVersion availableServices "elasticsearch" = "7.10" ∧
  not_above "7.10" (ServiceLastVersion availableServices "elasticsearch") = true.
Proof.
  split; [vm_compute; reflexivity|].
  refine (proj2 (ServiceLastVersion_latest (Build_service "elasticsearch" (Build_serviceVersions
    ["6.5"; "6.8"; "7.2"; "7.5"; "7.6"; "7.7"; "7.9"] ["7.10"])) _) _ _).
  - unfold availableServices, availableServices_1. rewrite !elem_of_app, !elem_of_cons. tauto.
  - by left.
Defined.

(** Every extension of the table is found, whatever the case of its name. *)
Theorem IsPhpExtensionAvailable_table ext vs v :
  (ToLower ext, vs) ∈ availablePHPExts_list →
  IsPhpExtensionAvailable availablePHPExts ext v = bool_decide (v ∈ vs).
Proof.
  intros H. unfold IsPhpExtensionAvailable, availablePHPExts.
  rewrite (elem_of_list_to_map_1 availablePHPExts_list (ToLower ext) vs); [done| |done].
  apply (bool_decide_eq_true_1 _). vm_compute. reflexivity.
Qed.
