(* ===== verification/Generator.v ===== *)
(** * Making the tables of the cloud ([local/upsun/generator/], [symfony/cli.go])

    The generator asks the cloud program for its commands and writes them as Go
    source; it does the same for the PHP extensions and the services that the
    documentation of the cloud lists.  The entries are modelled as data
    ([UpsunCommands.command]) and as the text that is written.  Running the
    program, JSON, YAML, [go-version], [sort.Sort], [go/format] and the network
    are parameters.

    [entry_roundtrip] shows that a generated entry leads back to the command of
    the cloud program it was made from, [table_leads_back] that the table has such
    an entry for every command that is kept, with its flags and its aliases, and
    [parsePHPExtensions_deterministic] that the order of Go's map iterations cannot
    be seen in the result. *)

From stdpp Require Import base tactics option list gmap strings pretty sorting.
From Stdlib Require Import ZArith Lia Ascii.
From S2P Require Import Prelude GoStrings Humanlog UpsunCli UpsunCommands.

(** ** What the cloud program lists ([symfony/cli.go]) *)

Inductive option_default := ODBool (b : bool) | ODString (s : string) | ODOther.
Record CliOption := mkOption { o_Shortcut : string; o_Default : option_default }.
Record CliCommand := mkCli {
  cc_Name : string; cc_Description : string; cc_Hidden : bool; cc_Options : gmap string CliOption }.
Record CliNamespace := mkNamespace { n_ID : string; n_Commands : list string }.
Record CliApp := mkApp { app_Commands : list CliCommand; app_Namespaces : list CliNamespace }.

(** [parseCommands] of [symfony/cli.go]: an empty object of PHP is written as an
    array. *)
Definition dq : string := String dquote "".
Definition cli_parseCommands (json : string → option CliApp) (output : string) : option CliApp :=
  json (ReplaceAll output (dq +:+ "arguments" +:+ dq +:+ ":[]") (dq +:+ "arguments" +:+ dq +:+ ":{}")).
(** [NewGoCliApp]; [run] is the output of the program, [None] when it fails. *)
Definition NewGoCliApp (json : string → option CliApp) (run : list string → option string) (args : list string) : option CliApp :=
  run (["list"; "--format=json"] ++ args) ≫= cli_parseCommands json.
(** [NewCliApp] runs PHP; [execute] is its exit code and its output. *)
Definition NewCliApp (json : string → option CliApp) (execute : list string → Z * string) (args : list string) : option CliApp :=
  let '(ret, output) := execute (args ++ ["list"; "--format=json"]) in
  if bool_decide (ret = 0%Z) then cli_parseCommands json output else None.

(** ** Commands ([generator/commands.go]) *)

Definition excludedCommands : list string :=
  ["list"; "help"; "self:stats"; "decode"; "environment:drush"; "project:init"].
Definition kept (c : CliCommand) : bool :=
  negb (Contains (cc_Description c) "deprecated" || Contains (cc_Description c) "DEPRECATED") &&
  negb (bool_decide (cc_Name c ∈ excludedCommands)) && negb (HasPrefix (cc_Name c) "local:").

(** The first namespace that lists the command. *)
Definition namespace_of (namespaces : list CliNamespace) (name : string) : string :=
  match list_find (λ n, name ∈ n_Commands n) namespaces with
  | Some (_, n) => if bool_decide (n_ID n = "_global") then "cloud" else "cloud" +:+ ":" +:+ n_ID n
  | None => "cloud"
  end.
Definition entry_name (namespace name : string) : string := TrimPrefix ("cloud:" +:+ name) (namespace +:+ ":").

(** Whether the names without a prefix are aliases as well. *)
Definition bare (namespace name : string) : bool := negb (bool_decide (namespace = "cloud")) && negb (HasPrefix name "self:").
Definition alias_entries (namespace name a : string) : list alias :=
  if bool_decide (a = "deploy") then []
  else [mkAlias ("cloud:" +:+ a) false; mkAlias ("upsun:" +:+ a) true] ++
       (if bare namespace name then [mkAlias a true] else []).
Definition entry_aliases (namespace name : string) (cmdAliases : list string) : list alias :=
  (if bare namespace name then [mkAlias name true] else []) ++ [mkAlias ("upsun:" +:+ name) true] ++
  (cmdAliases ≫= alias_entries namespace name).

(** [getCommandAliases]: a command whose help cannot be printed has none. *)
Definition getCommandAliases (run : list string → option string) (json_aliases : string → option (list string)) (name : string)
    : option (list string) :=
  match run [name; "--help"; "--format=json"] with
  | None => Some []
  | Some out => json_aliases out
  end.

(** The names of the options that are flags, in order; [excludedOptions] are the
    global flags of the console. *)
Definition optionNames (excludedOptions : list string) (options : gmap string CliOption) : list string :=
  SortStrings (List.filter (λ name, negb (bool_decide (name ∈ ["yes"; "no"; "version"] ∨ name ∈ excludedOptions))) (map_to_list options).*1).
Definition entry_flag (options : gmap string CliOption) (name : string) : flag :=
  let option := default (mkOption "" ODOther) (options !! name) in
  mkFlag (match o_Default option with ODBool _ => BoolFlag | _ => StringFlag end) name
    (if bool_decide (o_Shortcut option = "") then [] else Split (ReplaceAll (o_Shortcut option) "-" "") "|")
    (match o_Default option with ODBool true => DefaultTrue | ODString s => DefaultString s | _ => NoDefault end).

Definition entry (excludedOptions : list string) (namespaces : list CliNamespace) (cmdAliases : list string) (c : CliCommand) : command :=
  let namespace := namespace_of namespaces (cc_Name c) in
  mkCommand namespace (entry_name namespace (cc_Name c)) (entry_aliases namespace (cc_Name c) cmdAliases)
    (ReplaceAll (cc_Description c) "Platform.sh" "Platform.sh/Upsun")
    (cc_Hidden c || HasPrefix (cc_Name c) "self:")
    (entry_flag (cc_Options c) <$> optionNames excludedOptions (cc_Options c)).

(** ** The text *)

Definition tab (n : nat) : string := String.string_of_list_ascii (replicate n "009"%char).
Definition quoted (s : string) : string := dq +:+ s +:+ dq.
Definition render_alias (a : alias) : string :=
  "{Name: " +:+ quoted (a_Name a) +:+ (if a_Hidden a then ", Hidden: true}" else "}").
Definition render_block (head : string) (items : list string) : string :=
  if bool_decide (items = []) then ""
  else newline +:+ tab 2 +:+ head +:+ "{" +:+ newline +:+
       foldr (λ i r, tab 3 +:+ i +:+ "," +:+ newline +:+ r) "" items +:+ tab 2 +:+ "},".
Definition render_flag (f : flag) : string :=
  "&console." +:+ (match f_kind f with BoolFlag => "Bool" | StringFlag => "String" end) +:+ "Flag{Name: " +:+ quoted (f_Name f) +:+ "," +:+
  (if bool_decide (f_Aliases f = []) then ""
   else " Aliases: []string{" +:+ dq +:+ Join (f_Aliases f) (dq +:+ ", " +:+ dq) +:+ dq +:+ "},") +:+
  (match f_DefaultValue f with
   | NoDefault => ""
   | DefaultTrue => " DefaultValue: true,"
   | DefaultString s => " DefaultValue: " +:+ quote s +:+ ","
   end) +:+ "}".
Definition render_command (c : command) : string :=
  tab 1 +:+ "{" +:+ newline +:+
  tab 2 +:+ "Category: " +:+ quoted (c_Category c) +:+ "," +:+ newline +:+
  tab 2 +:+ "Name: " +:+ quoted (c_Name c) +:+ "," +:+ render_block "Aliases: []*console.Alias" (render_alias <$> c_Aliases c) +:+ newline +:+
  tab 2 +:+ "Usage: " +:+ quote (c_Usage c) +:+ "," +:+
  (if c_Hidden c then newline +:+ tab 2 +:+ "Hidden: console.Hide," else "") +:+
  render_block "Flags: []console.Flag" (render_flag <$> c_Flags c) +:+ newline +:+
  tab 1 +:+ "}," +:+ newline.

Section commands.
  Context (json : string → option CliApp) (json_aliases : string → option (list string)).
  Context (run : list string → option string) (excludedOptions : list string).

(** The entries of the commands that are kept; [None] is an error. *)
Fixpoint table_entries (namespaces : list CliNamespace) (commands : list CliCommand) : option (list command) :=
  match commands with
  | [] => Some []
  | c :: commands =>
    if kept c then
      aliases ← getCommandAliases run json_aliases (cc_Name c); es ← table_entries namespaces commands;
      Some (entry excludedOptions namespaces aliases c :: es)
    else table_entries namespaces commands
  end.
Definition parseCommands (wd : bool) : option string :=
  if negb wd then None
  else app ← NewGoCliApp json run ["--all"]; es ← table_entries (app_Namespaces app) (app_Commands app);
       Some (foldr (λ c r, render_command c +:+ r) "" es).
End commands.

(** Writing a table: the file is emptied before the source is formatted, so that
    it is lost when the formatting panics.  [None] is the panic; the second
    component is the file, [None] when it is untouched. *)
Definition write_table (create : bool) (format : string → option string) (text : string) : option unit * option string :=
  if negb create then (None, None)
  else match format text with
       | None => (None, Some "")
       | Some out => (Some tt, Some out)
       end.

Definition lines_of (l : list string) : string := foldr (λ x r, x +:+ newline +:+ r) "" l.
Definition license : string := lines_of [
  "// DO NOT EDIT"; ""; "/*"; " * Copyright (c) 2021-present Fabien Potencier <fabien@symfony.com>"; " *";
  " * This file is part of Symfony CLI project"; " *";
  " * This program is free software: you can redistribute it and/or modify";
  " * it under the terms of the GNU Affero General Public License as";
  " * published by the Free Software Foundation, either version 3 of the";
  " * License, or (at your option) any later version."; " *";
  " * This program is distributed in the hope that it will be useful,";
  " * but WITHOUT ANY WARRANTY; without even the implied warranty of";
  " * MERCHANTABILITY or FITNESS FOR A PARTICULAR PURPOSE. See the";
  " * GNU Affero General Public License for more details."; " *";
  " * You should have received a copy of the GNU Affero General Public License";
  " * along with this program. If not, see <http://www.gnu.org/licenses/>."; " */"; ""].
(** The action [{{ .Definition -}}] of the template drops the end of its line. *)
Definition commandsTemplate (definition : string) : string :=
  "// Code generated by upsun/generator/main.go" +:+ newline +:+ license +:+
  lines_of ["package upsun"; ""; "import ("; tab 1 +:+ quoted "github.com/symfony-cli/console"; ")"; "";
            "var Commands = []*console.Command{"] +:+
  definition +:+ "}" +:+ newline.
(** [cloudPath]: the program that was installed, [None] when that failed. *)
Definition generateCommands (home cloudPath : option string) (parse : string → option string) (create : bool)
    (format : string → option string) : option unit * option string :=
  match (_ ← home; cloudPath ≫= parse) with
  | None => (None, None)
  | Some text => write_table create format (commandsTemplate text)
  end.

(** ** Extensions and services ([generator/config.go]) *)

(** The pairs of an extension and a version, in the order of the iteration over
    the grid. *)
Definition grid_pairs (grid : list (string * (list string * list string))) : list (string * string) :=
  grid ≫= λ x, (λ ext, (ToLower ext, x.1)) <$> (x.2.1 ++ x.2.2).
(** The names in the order in which they are met, and their versions. *)
Definition ext_step (st : list string * gmap string (list string)) (kv : string * string) : list string * gmap string (list string) :=
  let '(names, exts) := st in
  let '(name, version) := kv in
  (if bool_decide (is_Some (exts !! name)) then names else names ++ [name],
   <[name := default [] (exts !! name) ++ [version]]> exts).
Definition collect (pairs : list (string * string)) : list string * gmap string (list string) := foldl ext_step ([], ∅) pairs.

Definition max_len (names : list string) : nat := foldr (λ n m, slen n `max` m) 0 names.
Definition ext_line (width : nat) (name : string) (versions : list string) : string :=
  tab 1 +:+ quoted name +:+ ":" +:+ String.string_of_list_ascii (replicate (width - slen name + 1) " "%char) +:+ "{" +:+
  Join (quoted <$> versions) ", " +:+ "}," +:+ newline.
Definition parsePHPExtensions (grid : list (string * (list string * list string))) : string :=
  let '(names, exts) := collect (grid_pairs grid) in
  let width := max_len (map_to_list exts).*1 in
  foldr (λ name r, ext_line width name (SortStrings (default [] (exts !! name))) +:+ r) "" (SortStrings names).

(** Services: [NewVersion], [sort.Sort] and [Original] of [go-version]. *)
Record registry_service := mkRegistry { rs_Type : string; rs_Runtime : bool; rs_Deprecated : list string; rs_Supported : list string }.
Section services.
  Context {V : Type} (NewVersion : string → option V) (sort : list V → list V) (Original : V → string).
Definition sortVersions (versions : list string) : option (list string) :=
  vs ← mapM NewVersion versions; Some (Original <$> sort vs).
Definition render_versions (versions : list string) : string :=
  if bool_decide (versions = []) then "[]string{}" else "[]string{" +:+ dq +:+ Join versions (dq +:+ ", " +:+ dq) +:+ dq +:+ "}".
Definition render_service (s : registry_service) : option string :=
  if rs_Runtime s then Some ""
  else
    deprecated ← sortVersions (rs_Deprecated s); supported ← sortVersions (rs_Supported s);
    Some (tab 1 +:+ "{" +:+ newline +:+ tab 2 +:+ "Type: " +:+ quoted (rs_Type s) +:+ "," +:+ newline +:+
          tab 2 +:+ "Versions: serviceVersions{" +:+ newline +:+
          tab 3 +:+ "Deprecated: " +:+ render_versions deprecated +:+ "," +:+ newline +:+
          tab 3 +:+ "Supported: " +:+ render_versions supported +:+ "," +:+ newline +:+
          tab 2 +:+ "}," +:+ newline +:+ tab 1 +:+ "}," +:+ newline).
Definition parseServices (services : gmap string registry_service) : option string :=
  texts ← mapM (λ name, services !! name ≫= render_service) (SortStrings (map_to_list services).*1);
  Some (foldr String.append "" texts).

(** [versions]: the announced version of each branch in the order of Go's
    iteration over the answer of php.net. *)
Definition latest_version (GreaterThan : V → V → bool) (versions : list (bool * string)) : option (option V) :=
  foldl (λ latestVersion x,
    latestVersion ← latestVersion;
    if negb x.1 then Some latestVersion
    else ver ← NewVersion x.2;
         match latestVersion with
         | None => Some (Some ver)
         | Some l => if GreaterThan ver l then Some (Some ver) else Some latestVersion
         end) (Some None) versions.
(** [generateLatestPhpVersion] of [commands/generator/main.go]: without an
    announced version, the file is emptied before the dereference of [nil]. *)
Definition generateLatestPhpVersion (GreaterThan : V → V → bool) (Segments : V → list nat)
    (result : option (list (bool * string))) (create : bool) : option unit * option string :=
  match result ≫= latest_version GreaterThan with
  | None => (None, None)
  | Some latestVersion =>
    if negb create then (None, None)
    else match latestVersion with
         | Some v =>
           match Segments v with
           | major :: minor :: _ =>
             (Some tt, Some ("// Code generated by commands/generator/main.go" +:+ newline +:+ license +:+
               lines_of ["package commands"; "";
                 "const LatestPhpMajorVersion = " +:+ quoted (pretty major +:+ "." +:+ pretty minor);
                 "const LatestPhpMinorVersion = " +:+ quoted (Original v)]))
           | _ => (None, Some "")
           end
         | None => (None, Some "")
         end
  end.
End services.

Definition config_text (extensions services : string) : string :=
  "// Code generated by upsun/generator/main.go" +:+ newline +:+ license +:+
  lines_of ["package upsun"; ""; "var availablePHPExts = map[string][]string{"] +:+ extensions +:+
  lines_of ["}"; ""; "var availableServices = []*service{"] +:+ services +:+ "}" +:+ newline.
Definition generateConfig (exts services : option string) (create : bool) (format : string → option string)
    : option unit * option string :=
  match exts, services with
  | Some exts, Some services => write_table create format (config_text exts services)
  | _, _ => (None, None)
  end.
(** [main]: a panic in the first table leaves the second as it is. *)
Definition main_generator (commands : option unit * option string) (config : option unit * option string)
    : option unit * option string * option string :=
  match commands with
  | (None, f) => (None, f, None)
  | (Some _, f) => (config.1, f, config.2)
  end.

(** ** The order of the iterations cannot be seen *)

Definition versions_of (name : string) (pairs : list (string * string)) : list string :=
  omap (λ kv, if bool_decide (kv.1 = name) then Some kv.2 else None) pairs.

Lemma versions_of_snoc name pairs k v :
  versions_of name (pairs ++ [(k, v)]) = versions_of name pairs ++ (if bool_decide (k = name) then [v] else []).
Proof. unfold versions_of. rewrite omap_app. f_equal. cbn. by case_bool_decide. Qed.

Lemma collect_snoc pairs kv : collect (pairs ++ [kv]) = ext_step (collect pairs) kv.
Proof. unfold collect. by rewrite foldl_app. Qed.

(** What is collected: the versions of each name in order, each name once. *)
Lemma collect_spec pairs :
  NoDup (collect pairs).1 ∧
  (∀ n, n ∈ (collect pairs).1 ↔ is_Some ((collect pairs).2 !! n)) ∧
  ∀ n, (collect pairs).2 !! n = if bool_decide (versions_of n pairs = []) then None else Some (versions_of n pairs).
Proof.
  induction pairs as [|[k v] pairs IH] using rev_ind.
  - cbn. split_and!; [apply NoDup_nil_2|intros n; rewrite lookup_empty; split; [by intros ?%not_elem_of_nil|by intros []]|done].
  - rewrite collect_snoc. destruct (collect pairs) as [names exts]. cbn in *. destruct IH as (H1 & H2 & H3). split_and!.
    + case_bool_decide as Hk; [done|]. apply NoDup_app. split_and!; [done| |apply NoDup_singleton].
      intros x Hx ->%list_elem_of_singleton. by apply Hk, H2.
    + intros n. destruct (decide (k = n)) as [<-|Hn].
      * rewrite lookup_insert_eq. split; [by eauto|intros _].
        case_bool_decide as Hk; [by apply H2|apply elem_of_app; right; by left].
      * rewrite lookup_insert_ne, <- (H2 n) by done. case_bool_decide; [done|].
        rewrite elem_of_app, list_elem_of_singleton. naive_solver.
    + intros n. rewrite versions_of_snoc. destruct (decide (k = n)) as [<-|Hn].
      * rewrite lookup_insert_eq, (H3 k). rewrite (bool_decide_eq_true_2 (k = k)) by done.
        rewrite (bool_decide_eq_false_2 (_ ++ [v] = [])) by (by destruct (versions_of k pairs)).
        do 2 f_equal. case_bool_decide as E; cbn; [by rewrite E|done].
      * rewrite lookup_insert_ne, H3, (bool_decide_eq_false_2 (k = n)), app_nil_r by done. done.
Qed.

Lemma max_len_perm l k : l ≡ₚ k → max_len l = max_len k.
Proof. unfold max_len. induction 1 as [|x l k _ IH|x y l|l k m _ IH1 _ IH2]; cbn; [done|by rewrite IH|lia|congruence]. Qed.

Lemma collect_perm pairs pairs' : pairs ≡ₚ pairs' →
  (collect pairs).1 ≡ₚ (collect pairs').1 ∧ dom (collect pairs).2 = dom (collect pairs').2 ∧
  ∀ n, default [] ((collect pairs).2 !! n) ≡ₚ default [] ((collect pairs').2 !! n).
Proof.
  intros Hp. destruct (collect_spec pairs) as (N1 & M1 & L1). destruct (collect_spec pairs') as (N2 & M2 & L2).
  assert (Hv : ∀ n, versions_of n pairs ≡ₚ versions_of n pairs') by (intros n; unfold versions_of; by rewrite Hp).
  assert (He : ∀ n, is_Some ((collect pairs).2 !! n) ↔ is_Some ((collect pairs').2 !! n)).
  { intros n. rewrite L1, L2. specialize (Hv n). destruct (versions_of n pairs) as [|a l].
    - apply Permutation_nil in Hv. by rewrite Hv.
    - destruct (versions_of n pairs') as [|b k]; [by apply Permutation_sym, Permutation_nil in Hv|].
      rewrite !bool_decide_eq_false_2 by done. by split; eauto. }
  split_and!.
  - apply NoDup_Permutation; [done..|]. intros n. by rewrite M1, M2.
  - apply set_eq. intros n. rewrite !elem_of_dom. apply He.
  - intros n. specialize (He n). rewrite L1, L2 in *. specialize (Hv n).
    case_bool_decide as E1; case_bool_decide as E2; cbn; try done; [rewrite E1 in Hv|rewrite E2 in Hv]; done.
Qed.

(** The text of the table of extensions does not depend on the order in which
    Go iterates over the grid of versions and over the maps. *)
Theorem parsePHPExtensions_deterministic grid grid' :
  grid ≡ₚ grid' → parsePHPExtensions grid = parsePHPExtensions grid'.
Proof.
  intros Hg. destruct (collect_perm (grid_pairs grid) (grid_pairs grid')) as (H1 & H2 & H3).
  { unfold grid_pairs. by rewrite Hg. }
  unfold parsePHPExtensions. destruct (collect (grid_pairs grid)) as [names exts], (collect (grid_pairs grid')) as [names' exts'].
  cbn in *. rewrite H1. assert (Hk : (map_to_list exts).*1 ≡ₚ (map_to_list exts').*1).
  { apply NoDup_Permutation; [apply NoDup_fst_map_to_list..|]. intros n.
    rewrite <- !(elem_of_list_to_set (C := gset string)), <- !dom_alt. by rewrite H2. }
  rewrite (max_len_perm _ _ Hk). induction (SortStrings names') as [|n ns IH]; [done|]. cbn. by rewrite H3, IH.
Qed.

(** ** The latest version of PHP *)

Section latest.
  Context {V : Type} (NewVersion : string → option V) (GreaterThan : V → V → bool).
  Hypothesis greater_weak : ∀ x y z, GreaterThan x y = true → GreaterThan z y = false → GreaterThan z x = false.
  Hypothesis greater_irr : ∀ x, GreaterThan x x = false.

(** The version that is written is announced and none that is announced is
    greater, in whichever order they are met. *)
Lemma latest_max versions v :
  latest_version NewVersion GreaterThan versions = Some (Some v) →
  (∃ s, (true, s) ∈ versions ∧ NewVersion s = Some v) ∧
  ∀ s w, (true, s) ∈ versions → NewVersion s = Some w → GreaterThan w v = false.
Proof.
  revert v. induction versions as [|[b s] versions IH] using rev_ind; intros v; [done|].
  unfold latest_version in *. rewrite foldl_app. cbn. destruct (foldl _ _ _) as [l|] eqn:E; [cbn|done].
  destruct b; cbn; [|intros [= ->]; destruct (IH v eq_refl) as [(s' & H1 & H2) H3]; split; set_solver].
  destruct (NewVersion s) as [ver|] eqn:Ev; cbn; [|done].
  assert (Hnone : l = None → ∀ s w, (true, s) ∈ versions → NewVersion s = Some w → False).
  { intros ->. clear IH Ev. revert E. induction versions as [|[b' s'] vs IH] using rev_ind; [set_solver|].
    rewrite foldl_app. cbn. destruct (foldl _ _ vs) as [[l|]|]; cbn; [| |done].
    - destruct b'; cbn; [|done]. destruct (NewVersion s'); cbn; [|done]. by destruct (GreaterThan _ _).
    - destruct b'; cbn; [by destruct (NewVersion s')|]. intros _ s0 w H. apply (IH eq_refl s0 w). set_solver. }
  destruct l as [l|].
  - destruct (IH l eq_refl) as [(s' & H1 & H2) H3]. destruct (GreaterThan ver l) eqn:G; intros [= <-]; split.
    + exists s. split; [set_solver|done].
    + intros s0 w [H | [= ->]%list_elem_of_singleton]%elem_of_app Hw; [|simplify_eq; apply greater_irr].
      eapply greater_weak; [done|eauto].
    + exists s'. split; [set_solver|done].
    + intros s0 w [H | [= ->]%list_elem_of_singleton]%elem_of_app Hw; [eauto|by simplify_eq].
  - intros [= <-]. split; [exists s; split; [set_solver|done]|].
    intros s0 w [H | [= ->]%list_elem_of_singleton]%elem_of_app Hw; [by destruct (Hnone eq_refl s0 w)|simplify_eq; apply greater_irr].
Qed.
End latest.

(** A source that [go/format] refuses destroys the table: the file is emptied
    and nothing is written to it. *)
Lemma write_table_lost format text : format text = None → write_table true format text = (None, Some "").
Proof. unfold write_table. cbn. by intros ->. Qed.

(** ** A generated entry leads back to its command *)

Lemma TrimPrefix_app p r : TrimPrefix (p +:+ r) p = r.
Proof. unfold TrimPrefix. by rewrite HasPrefix_app, sdrop_app. Qed.

(** The commands of a namespace are named after it. *)
Definition namespaces_ok (namespaces : list CliNamespace) : Prop :=
  ∀ n name, n ∈ namespaces → name ∈ n_Commands n → n_ID n ≠ "_global" → HasPrefix name (n_ID n +:+ ":") = true.

Lemma entry_proxied namespaces name :
  namespaces_ok namespaces →
  proxied_name (namespace_of namespaces name) (entry_name (namespace_of namespaces name) name) = name.
Proof.
  intros Hn. unfold namespace_of, proxied_name, entry_name.
  assert (Hc : TrimPrefix ("cloud" +:+ ":" +:+ TrimPrefix ("cloud:" +:+ name) ("cloud" +:+ ":")) "cloud:" = name).
  { change ("cloud" +:+ ":") with "cloud:". rewrite TrimPrefix_app. apply (TrimPrefix_app "cloud:"). }
  destruct (list_find _ namespaces) as [[i n]|] eqn:E; [|done]. case_bool_decide as Hg; [done|].
  apply list_find_Some in E as (Hi & Hin & _). apply list_elem_of_lookup_2 in Hi.
  specialize (Hn n name Hi Hin Hg). apply HasPrefix_spec in Hn as [r ->]. rewrite !sapp_assoc.
  assert (Hr : TrimPrefix ("cloud:" +:+ n_ID n +:+ ":" +:+ r) ("cloud" +:+ ":" +:+ n_ID n +:+ ":") = r).
  { rewrite <- (TrimPrefix_app ("cloud:" +:+ n_ID n +:+ ":") r) at 2. f_equal. by rewrite !sapp_assoc. }
  rewrite Hr. apply (TrimPrefix_app "cloud:").
Qed.

(** The CLI passes to the cloud program the very command that an entry was
    generated from, whichever of the names of the entry the user types first. *)
Theorem entry_roundtrip excludedOptions namespaces cmdAliases c userName rest :
  namespaces_ok namespaces → HasPrefix (cc_Name c) "upsun:" = false → HasPrefix (cc_Name c) "cloud:" = false →
  let e := entry excludedOptions namespaces cmdAliases c in
  proxy_args true userName (proxied_name (c_Category e) (c_Name e)) (userName :: rest) = Some (Ret (cc_Name c :: rest)).
Proof.
  intros Hn Hu Hc e. unfold e. cbn. rewrite entry_proxied by done.
  unfold proxy_args. cbn. rewrite bool_decide_eq_true_2 by done. cbn. unfold executor_args, TrimPrefix. by rewrite Hu, Hc.
Qed.

(** ** The table that is generated *)

Lemma optionNames_spec excludedOptions options :
  NoDup (optionNames excludedOptions options) ∧
  ∀ o, o ∈ optionNames excludedOptions options ↔
    is_Some (options !! o) ∧ o ∉ ["yes"; "no"; "version"] ∧ o ∉ excludedOptions.
Proof.
  unfold optionNames. split.
  - rewrite SortStrings_perm. apply NoDup_ListNoDup, List.NoDup_filter, NoDup_ListNoDup, NoDup_fst_map_to_list.
  - intros o. rewrite SortStrings_perm.
    rewrite list_elem_of_In, filter_In, <- list_elem_of_In, negb_true_iff, bool_decide_eq_false.
    rewrite <- (elem_of_list_to_set (C := gset string)), <- dom_alt, elem_of_dom. tauto.
Qed.

(** What the entry [e] of the command [c] promises. *)
Record leads_back (excludedOptions cmdAliases : list string) (c : CliCommand) (e : command) : Prop := {
  lb_runs : ∀ userName rest,
    proxy_args true userName (proxied_name (c_Category e) (c_Name e)) (userName :: rest) = Some (Ret (cc_Name c :: rest));
  lb_flags : NoDup (f_Name <$> c_Flags e) ∧
    ∀ o, o ∈ f_Name <$> c_Flags e ↔
      is_Some (cc_Options c !! o) ∧ o ∉ ["yes"; "no"; "version"] ∧ o ∉ excludedOptions;
  lb_alias : mkAlias ("upsun:" +:+ cc_Name c) true ∈ c_Aliases e ∧
    ∀ a, a ∈ cmdAliases → a ≠ "deploy" → mkAlias ("cloud:" +:+ a) false ∈ c_Aliases e ∧ mkAlias ("upsun:" +:+ a) true ∈ c_Aliases e }.

Lemma entry_leads_back excludedOptions namespaces cmdAliases c :
  namespaces_ok namespaces → HasPrefix (cc_Name c) "upsun:" = false → HasPrefix (cc_Name c) "cloud:" = false →
  leads_back excludedOptions cmdAliases c (entry excludedOptions namespaces cmdAliases c).
Proof.
  intros Hn Hu Hc. split.
  - intros userName rest. by apply entry_roundtrip.
  - cbn. rewrite <- list_fmap_compose, list_fmap_id. apply optionNames_spec.
  - cbn. unfold entry_aliases. split; [rewrite !elem_of_app; right; left; by left|].
    intros a Ha Hd. rewrite !elem_of_app, !list_elem_of_bind.
    split; right; right; exists a; (split; [|done]); unfold alias_entries; rewrite bool_decide_eq_false_2 by done;
      rewrite elem_of_app; left; [by left|right; by left].
Qed.

(** C37: when the aliases of every command that is kept can be read, the table is
    made, with one entry for each of these commands and in their order.  Whatever
    name of it the user types, the CLI passes to the cloud program the very command
    that the entry was made from; its flags are the options of that command, each
    once, but for [yes], [no], [version] and the global flags of the CLI; and each
    alias of it but [deploy] is an alias of the entry, with [cloud:] and, hidden,
    with [upsun:]. *)
Theorem table_leads_back json_aliases run excludedOptions namespaces commands :
  namespaces_ok namespaces →
  Forall (λ c, HasPrefix (cc_Name c) "upsun:" = false ∧ HasPrefix (cc_Name c) "cloud:" = false) commands →
  Forall (λ c, kept c = true → is_Some (getCommandAliases run json_aliases (cc_Name c))) commands →
  ∃ es, table_entries json_aliases run excludedOptions namespaces commands = Some es ∧
    Forall2 (λ c e, ∃ cmdAliases, getCommandAliases run json_aliases (cc_Name c) = Some cmdAliases ∧
      leads_back excludedOptions cmdAliases c e) (List.filter kept commands) es.
Proof.
  intros Hn Hp Ha. induction commands as [|c commands IH]; cbn; [by exists []|].
  apply Forall_cons in Hp as [[Hu Hc] Hp], Ha as [Ha0 Ha]. destruct (IH Hp Ha) as (es & -> & Hes).
  destruct (kept c); [|by exists es]. destruct (Ha0 eq_refl) as [aliases Hal]. rewrite Hal. cbn.
  eexists. split; [done|]. constructor; [|done]. exists aliases. split; [done|]. by apply entry_leads_back.
Qed.

Definition ex_commands : list CliCommand :=
  [mkCli "environment:push" "Push code" false {[ "force" := mkOption "-f" (ODBool false); "help" := mkOption "-h" (ODBool false) ]};
   mkCli "help" "Displays help" false ∅; mkCli "clear-cache" "Clear the cache" false ∅].
Lemma table_leads_back_witness :
  ∃ es, table_entries (λ _, Some ["push"; "deploy"]) (λ _, Some "") ["help"; "h"] [mkNamespace "environment" ["environment:push"]]
          ex_commands = Some es ∧ length es = 2 ∧
    Forall2 (λ c e, ∃ cmdAliases, getCommandAliases (λ _, Some "") (λ _, Some ["push"; "deploy"]) (cc_Name c) = Some cmdAliases ∧
      leads_back ["help"; "h"] cmdAliases c e) (List.filter kept ex_commands) es.
Proof.
  destruct (table_leads_back (λ _, Some ["push"; "deploy"]) (λ _, Some "") ["help"; "h"]
    [mkNamespace "environment" ["environment:push"]] ex_commands) as (es & He & Hes).
  - intros n name ->%list_elem_of_singleton ->%list_elem_of_singleton _. reflexivity.
  - repeat constructor.
  - repeat constructor; intros _; eexists; reflexivity.
  - exists es. split_and!; [exact He| |exact Hes]. exact (eq_sym (Forall2_length _ _ _ Hes)).
Defined.

Lemma entry_roundtrip_witness :
  proxy_args true "env:push" "environment:push" ["env:push"; "-y"] = Some (Ret ["environment:push"; "-y"]).
Proof.
  apply (entry_roundtrip [] [mkNamespace "environment" ["environment:push"]] ["push"]
    (mkCli "environment:push" "Push code" false ∅) "env:push" ["-y"]); [|reflexivity..].
  intros n name ->%list_elem_of_singleton ->%list_elem_of_singleton _. reflexivity.
Defined.

Lemma parsePHPExtensions_deterministic_witness :
  parsePHPExtensions [("8.4", (["amqp"; "APCu"], [])); ("8.5", (["apcu"], ["amqp"]))] =
  parsePHPExtensions [("8.5", (["apcu"], ["amqp"])); ("8.4", (["amqp"; "APCu"], []))].
Proof. apply parsePHPExtensions_deterministic, perm_swap. Defined.
