(* ===== verification/CloudCommands.v ===== *)
(** * The commands of the cloud ([local/upsun/cli.go], [commands/platformsh_hooks.go],
      [commands/doctrine_server_version_check.go], [commands/cloud_env_debug.go],
      [commands/upsun_deploy.go], [commands/local_var_expose.go])

    [newCLI] turns the generated table into commands that are passed on to the
    cloud program; hooks run before some of them.  [FullName] of the console
    library, the YAML readers, Git and the answers of the cloud program are
    parameters.

    The theorems: which projects pass [checkDoctrineServerVersionSetting], above all
    those whose versions agree with their database; [cloudEnvDebug] never switches
    the production environment of a production project to debug mode, but resets
    any environment with [--off]; the flags of
    hooked commands are never parsed; no name or alias of the table is ambiguous. *)

From stdpp Require Import base tactics option list gmap strings.
From Stdlib Require Import ZArith Lia Ascii.
From S2P Require Import Prelude GoStrings FilePath Os Upsun LocalEnv UpsunCli UpsunCommands.

(** ** The CLI ([cli.go]) *)

Inductive FlagParsing := FlagParsingNormal | FlagParsingSkipped.
(** The hooks of [platformsh_hooks.go]. *)
Inductive before_hook := push_hook | close_hook.
Record psh_command := mkPsh { psh_command_ : command; psh_action : string; psh_FlagParsing : FlagParsing }.
Record CLI := mkCLI { p_Commands : list psh_command; p_Hooks : gmap string before_hook; p_path : string }.

Definition newCLI_command (c : command) : psh_command :=
  mkPsh (mkCommand (c_Category c) (c_Name c) (c_Aliases c) (c_Usage c) (c_Hidden c)
           (c_Flags c ++ [mkFlag BoolFlag "no" ["n"] NoDefault; mkFlag BoolFlag "yes" ["y"] NoDefault]))
    (proxied_name (c_Category c) (c_Name c)) FlagParsingSkipped.
Definition newCLI (commands : list command) : CLI := mkCLI (newCLI_command <$> commands) ∅ "".
(** [Get]: the CLI is made once. *)
Definition cli_Get (psh : option CLI) : CLI * option CLI :=
  let p := default (newCLI Commands) psh in (p, Some p).

Section cli.
  (** [FullName] of the console library. *)
  Context (FullName : command → string).

(** The loop stops at the first command with the name. *)
Fixpoint parse_flags (name : string) (commands : list psh_command) : list psh_command :=
  match commands with
  | [] => []
  | c :: commands =>
    if bool_decide (FullName (psh_command_ c) = name) then mkPsh (psh_command_ c) (psh_action c) FlagParsingNormal :: commands
    else c :: parse_flags name commands
  end.
Definition AddBeforeHook (name : string) (f : before_hook) (p : CLI) : CLI :=
  mkCLI (parse_flags name (p_Commands p)) (<[name := f]> (p_Hooks p)) (p_path p).

Definition main_names : list string :=
  ["cloud:project:list"; "cloud:environment:list"; "cloud:environment:branch"; "cloud:tunnel:open"; "cloud:environment:ssh";
   "cloud:environment:push"; "cloud:domain:list"; "cloud:variable:list"; "cloud:user:add"].
Definition PSHMainCommands (p : CLI) : list psh_command :=
  List.filter (λ c, bool_decide (FullName (psh_command_ c) ∈ main_names)) (p_Commands p).

(** The program; [install] is the path that [Install] returns, [None] when it
    fails.  Without a home directory it panics. *)
Definition getPath (w : os) (homedir : option string) (install : CloudProduct → option string) (product : CloudProduct) (p : CLI)
    : outcome (string * CLI) :=
  if bool_decide (p_path p ≠ "") then Ret (p_path p, p)
  else
    home ← oget homedir;
    let path := if InCloud w then fjoin [home; BinaryPath product] else default (fjoin [home; BinaryPath product]) (install product) in
    Ret (path, mkCLI (p_Commands p) (p_Hooks p) path).

(** A program to run: its path, arguments, additional environment and directory. *)
Record exec_cmd := mkExec { x_path : string; x_args : list string; x_env : list string; x_dir : string }.
Section run.
  Context (w : os) (homedir : option string) (install : CloudProduct → option string).

Definition executor (product : CloudProduct) (args : list string) (p : CLI) : outcome (exec_cmd * CLI) :=
  args ← executor_args args;
  '(path, p) ← getPath w homedir install product p;
  Ret (mkExec path args (executor_env w product) "", p).

Definition RunInteractive (projectDir : string) (args : list string) (p : CLI) : outcome (exec_cmd * CLI) :=
  a ← oget (head args);
  '(cmd, p) ← executor (GuessProductFromCommandName w a) args p;
  Ret (mkExec (x_path cmd) (x_args cmd) (x_env cmd) projectDir, p).

(** The action of a command: [inl] is the error of its hook. *)
Definition proxyPSHCmd {E} (run_hook : before_hook → outcome (option E)) (isHelp : bool) (userName commandName : string)
    (args : list string) (p : CLI) : outcome ((E + exec_cmd) * CLI) :=
  r ← match p_Hooks p !! commandName with
      | Some hook => if isHelp then Ret None else run_hook hook
      | None => Ret None
      end;
  match r with
  | Some e => Ret (inl e, p)
  | None =>
    '(cmd, p) ← executor (GuessProductFromCommandName w userName) (rename_arg userName commandName args) p;
    Ret (inr cmd, p)
  end.

(** [WrapHelpPrinter]: [None] is the help of the console itself. *)
Definition WrapHelpPrinter (cmd : option (command * string)) (p : CLI) : outcome (option exec_cmd * CLI) :=
  match cmd with
  | Some (c, userName) =>
    if HasPrefix (c_Category c) "cloud" && negb (bool_decide (FullName c = "cloud:deploy")) then
      '(x, p) ← executor (GuessProductFromCommandName w userName) [FullName c; "--help"] p;
      Ret (Some x, p)
    else Ret (None, p)
  | None => Ret (None, p)
  end.
End run.
End cli.

(** ** The version of the database ([doctrine_server_version_check.go]) *)

Inductive doctrine_err :=
| DotEnvMismatch (configFile dbName dbVersion required : string)
| DoctrineMismatch (configFile dbName dbVersion required : string)
| NoServerVersion (configFile dbName product dbVersion : string).

Section hooks.
  Context (yaml_services yaml_upsun_services : string → option (list string)) (read_dir : string → option (list string))
    (yaml_doctrine : string → option (string * string)) (godotenv : string → option (gmap string string))
    (url_server_version : string → option string) (FindLocalApplications : string → list LocalApplication)
    (GetRemoteURL : string → string → string) (GetCurrentBranch : string → string) (yaml_project_id : string → option string)
    (evalSymlinks : string → option string).

(** [None] is success. *)
Definition checkDoctrineServerVersionSetting (w : os) (projectDir : string) : outcome (option doctrine_err) :=
  if bool_decide (1 < length (FindLocalApplications projectDir)) then Ret None
  else
    '(configFile, dbName, dbVersion) ← ReadDBVersionFromPlatformServiceYAML yaml_services yaml_upsun_services read_dir w projectDir;
    if bool_decide (dbName = "") then Ret None
    else match ReadDBVersionFromDotEnv godotenv url_server_version w projectDir with
    | None => Ret None
    | Some dotEnvVersion =>
      if DatabaseVersiondUnsynced dotEnvVersion dbVersion then Ret (Some (DotEnvMismatch configFile dbName dbVersion dotEnvVersion))
      else match ReadDBVersionFromDoctrineConfigYAML yaml_doctrine w projectDir with
      | None => Ret None
      | Some doctrineConfigVersion =>
        if DatabaseVersiondUnsynced doctrineConfigVersion dbVersion
        then Ret (Some (DoctrineMismatch configFile dbName dbVersion doctrineConfigVersion))
        else if bool_decide (dotEnvVersion = "" ∧ doctrineConfigVersion = "")
        then Ret (Some (NoServerVersion configFile dbName (Name (GuessProductFromDirectory w projectDir)) dbVersion))
        else Ret None
      end
    end.

(** [getProjectDir] of [root.go]. *)
Definition getProjectDir (w : os) (dir : string) : option string := Abs w dir ≫= evalSymlinks.

Inductive hook_err := NoProjectDir | NoProject | ExposeErr | DoctrineErr (e : doctrine_err).
(** The values of the flags of the command. *)
Record flag_values := mkFlags { v_dir : string; v_app : string; v_environment : string; v_project : string }.

Definition environment_push (w : os) (c : flag_values) : outcome (option hook_err) :=
  match getProjectDir w (v_dir c) with
  | None => Ret (Some NoProjectDir)
  | Some projectDir => r ← checkDoctrineServerVersionSetting w projectDir; Ret (option_map DoctrineErr r)
  end.

(** The command [doctrine:check-server-version-setting]. *)
Definition doctrineCheckServerVersionSetting (w : os) (dir : string) : outcome (option hook_err) :=
  match getProjectDir w dir with
  | None => Ret (Some NoProjectDir)
  | Some projectDir => r ← checkDoctrineServerVersionSetting w projectDir; Ret (option_map DoctrineErr r)
  end.

(** The project whose tunnel is closed. *)
Definition close_project (w : os) (c : flag_values) : hook_err + Project :=
  if bool_decide (v_project c = "") then
    match getProjectDir w (v_dir c) with
    | None => inl NoProjectDir
    | Some projectDir =>
      match ProjectFromDir GetRemoteURL GetCurrentBranch yaml_project_id FindLocalApplications (λ d, default "" (evalSymlinks d)) w projectDir with
      | None => inl NoProject
      | Some project =>
        inr {| ID := ID project; App := if bool_decide (v_app c = "") then App project else v_app c;
               Env := if bool_decide (v_environment c = "") then Env project else v_environment c |}
      end
    end
  else inr {| ID := v_project c; App := v_app c; Env := v_environment c |}.
Definition tunnel_close (can_create : string → bool) (w : os) (c : flag_values) : os * option hook_err :=
  match close_project w c with
  | inl e => (w, Some e)
  | inr project => let '(w, ok) := Expose can_create w (mkTunnel project "") false in (w, if ok then None else Some ExposeErr)
  end.

(** The command [var:expose-from-tunnel]. *)
Definition localVariableExposeFromTunnel (can_create : string → bool) (w : os) (dir : string) (off : bool) : os * option hook_err :=
  match (if bool_decide (dir = "") then getwd w else Some dir) with
  | None => (w, Some NoProjectDir)
  | Some dir =>
    match ProjectFromDir GetRemoteURL GetCurrentBranch yaml_project_id FindLocalApplications (λ d, default "" (evalSymlinks d)) w dir with
    | None => (w, Some NoProject)
    | Some project => let '(w, ok) := Expose can_create w (mkTunnel project "") (negb off) in (w, if ok then None else Some ExposeErr)
    end
  end.
End hooks.

Definition upsunBeforeHooks : list (string * before_hook) := [("environment:push", push_hook); ("tunnel:close", close_hook)].
(** The loop of [InitAppFunc]. *)
Definition add_hooks (FullName : command → string) (p : CLI) : CLI :=
  foldl (λ p nf, AddBeforeHook FullName nf.1 nf.2 p) p upsunBeforeHooks.

(** ** The command [deploy] ([upsun_deploy.go]) *)

(** The flags of [environment:push]; they are taken before [newCLI] adds its own. *)
Definition deploy_flags (commands : list command) : list flag :=
  default [] (list_find (λ c, c_Category c = "cloud:environment" ∧ c_Name c = "push") commands ≫= λ x, Some (c_Flags x.2)).
(** The arguments with which the application runs again. *)
Definition deploy_args (args : list string) : outcome (list string) :=
  match args with
  | a :: _ :: args => Ret (a :: "cloud:environment:push" :: args)
  | _ => Panic
  end.

(** ** Debug mode ([cloud_env_debug.go]) *)

Inductive debug_err :=
| NoDetectProject | NoDetectBranch | RemoveErr (variable : string) | NoDetectDomain | ProductionEnv | AddErr (variable : string).

Section debug.
  (** Running the cloud program with the arguments of [RunInteractive], after the
      runs so far (latest first): its output and whether it succeeded. *)
  Context (ask : list (list string) → list string → string * bool).
  (** [CommandPrefix] of the product, the options [project] and [environment]. *)
  Context (prefix project environment : string).

(** One run; [executor] strips the prefix of the first argument only. *)
Definition psh_args (args : list string) : list string :=
  match executor_args args with Ret a => a | Panic => args end.
Definition run_psh (tr : list (list string)) (args : list string) : list (list string) * (string * bool) :=
  (psh_args args :: tr, ask tr (psh_args args)).

Definition defaultArgs (projectID : string) : list string :=
  ["--level=env"; "--project=" +:+ projectID; "-y"] ++ (if bool_decide (environment ≠ "") then [environment] else []).

Definition delete_variable (projectID variable : string) (tr : list (list string)) : list (list string) * option debug_err :=
  let '(tr, (out, ok)) := run_psh tr (defaultArgs projectID ++ [prefix +:+ "var:delete"; "env:" +:+ variable]) in
  (tr, if ok || Contains out "Variable not found" then None else Some (RemoveErr variable)).
Definition set_variable (projectID variable value : string) (tr : list (list string)) : list (list string) * option debug_err :=
  let '(tr, (out, ok)) := run_psh tr (defaultArgs projectID ++ [prefix +:+ "var:create"; "--name=env:" +:+ variable; "--value=" +:+ value]) in
  if ok then (tr, None)
  else if negb (Contains out "already exists on the environment") then (tr, Some (AddErr variable))
  else
    let '(tr, (out, ok)) := run_psh tr (defaultArgs projectID ++ [prefix +:+ "var:update"; "--value=" +:+ value; "env:" +:+ variable]) in
    (tr, if ok || Contains out "No changes were provided" then None else Some (AddErr variable)).
(** Two such steps, the second only after the first succeeded. *)
Definition two_steps (f g : list (list string) → list (list string) * option debug_err) (tr : list (list string))
    : list (list string) * option debug_err :=
  match f tr with
  | (tr, Some e) => (tr, Some e)
  | (tr, None) => g tr
  end.

Definition project_info (projectID property : string) : list string :=
  [prefix +:+ "project:info"; property; "--project=" +:+ projectID; "-y"].
(** The part after the project is known. *)
Definition env_debug (off : bool) (projectID : string) (tr : list (list string)) : list (list string) * option debug_err :=
  let '(tr, (out, ok)) := run_psh tr (project_info projectID "default_branch") in
  if negb ok then (tr, Some NoDetectBranch)
  else
    let defaultEnvName := TrimSpace out in
    let '(tr, envName) :=
      if bool_decide (environment ≠ "") then (tr, environment)
      else let '(tr, (out, ok)) := run_psh tr [prefix +:+ "env:info"; "id"; "--project=" +:+ projectID; "-y"] in
           (tr, if ok then TrimSpace out else defaultEnvName) in
    if off then two_steps (delete_variable projectID "APP_ENV") (delete_variable projectID "APP_DEBUG") tr
    else
      let '(tr, (out, ok)) := run_psh tr (project_info projectID "default_domain") in
      if negb ok then (tr, Some NoDetectDomain)
      else if bool_decide (TrimSpace out ≠ "" ∧ defaultEnvName = envName) then (tr, Some ProductionEnv)
      else two_steps (set_variable projectID "APP_ENV" "dev") (set_variable projectID "APP_DEBUG" "1") tr.
Definition cloudEnvDebug (off : bool) : list (list string) * option debug_err :=
  if bool_decide (project = "") then
    let '(tr, (out, ok)) := run_psh [] [prefix +:+ "project:info"; "id"; "-y"] in
    if negb ok then (tr, Some NoDetectProject) else env_debug off (TrimSpace out) tr
  else env_debug off project [].
End debug.

(** ** What the check of the database accepts *)

(** [DatabaseVersiondUnsynced] negated, as a statement. *)
Definition agrees (required dbVersion : string) : Prop :=
  let v := replace_first required "mariadb-" "" in v = "" ∨ HasPrefix v dbVersion = true.

Lemma unsynced_agrees v w : DatabaseVersiondUnsynced v w = false ↔ agrees v w.
Proof. unfold DatabaseVersiondUnsynced, agrees. case_bool_decide; destruct (HasPrefix _ w); cbn; naive_solver. Qed.

Section doctrine.
  Context (yaml_services yaml_upsun_services : string → option (list string)) (read_dir : string → option (list string))
    (yaml_doctrine : string → option (string * string)) (godotenv : string → option (gmap string string))
    (url_server_version : string → option string) (FindLocalApplications : string → list LocalApplication).

(** C32: a project passes the check before a push exactly when it has several
    applications, or its services have no database, or the dotenv files or, after
    those agree, [doctrine.yaml] cannot be read, or it names the version of the
    database in one of them and every version it names agrees with the service. *)
Theorem checkDoctrine_passes w dir :
  checkDoctrineServerVersionSetting yaml_services yaml_upsun_services read_dir yaml_doctrine godotenv url_server_version
    FindLocalApplications w dir = Ret None ↔
  1 < length (FindLocalApplications dir) ∨
  ∃ configFile dbName dbVersion,
    ReadDBVersionFromPlatformServiceYAML yaml_services yaml_upsun_services read_dir w dir
      = Ret (configFile, dbName, dbVersion) ∧
    (dbName = "" ∨ ReadDBVersionFromDotEnv godotenv url_server_version w dir = None ∨
     ∃ dotEnv, ReadDBVersionFromDotEnv godotenv url_server_version w dir = Some dotEnv ∧ agrees dotEnv dbVersion ∧
       (ReadDBVersionFromDoctrineConfigYAML yaml_doctrine w dir = None ∨
        ∃ config, ReadDBVersionFromDoctrineConfigYAML yaml_doctrine w dir = Some config ∧ agrees config dbVersion ∧
          (dotEnv ≠ "" ∨ config ≠ ""))).
Proof.
  unfold checkDoctrineServerVersionSetting. setoid_rewrite <-unsynced_agrees.
  destruct (bool_decide_reflect (1 < length (FindLocalApplications dir))) as [Hl|Hl]; [naive_solver|].
  destruct (ReadDBVersionFromPlatformServiceYAML _ _ _ w dir) as [[[configFile dbName] dbVersion]|]; cbn; [|naive_solver].
  destruct (bool_decide_reflect (dbName = "")); [naive_solver|].
  destruct (ReadDBVersionFromDotEnv _ _ w dir) as [dotEnv|]; [|naive_solver].
  transitivity (DatabaseVersiondUnsynced dotEnv dbVersion = false ∧
    (ReadDBVersionFromDoctrineConfigYAML yaml_doctrine w dir = None ∨
     ∃ config, ReadDBVersionFromDoctrineConfigYAML yaml_doctrine w dir = Some config ∧
       DatabaseVersiondUnsynced config dbVersion = false ∧ (dotEnv ≠ "" ∨ config ≠ ""))).
  - destruct (DatabaseVersiondUnsynced dotEnv dbVersion); [by split; [intros [=]|intros [[=] _]]|].
    destruct (ReadDBVersionFromDoctrineConfigYAML _ w dir) as [config|]; [|by split; auto].
    destruct (DatabaseVersiondUnsynced config dbVersion) eqn:E2.
    { split; [intros [=]|]. by intros (_ & [[=]|(? & [= <-] & ? & _)]); congruence. }
    case_bool_decide as H.
    + split; [intros [=]|]. intros (_ & [[=]|(? & [= <-] & _ & Hx)]). destruct H. by destruct Hx.
    + split; [|done]. intros _. split; [done|]. right. exists config. split_and!; [done..|].
      destruct (decide (dotEnv = "")); [right|by left]. intros ->. by apply H.
  - split.
    + intros [H1 H2]. right. exists configFile, dbName, dbVersion. split; [done|]. do 2 right. by exists dotEnv.
    + intros [?|(? & ? & ? & [= <- <- <-] & [?|[?|(? & [= <-] & H)]])]; done.
Qed.
End doctrine.

Definition ex_app : os :=
  table_os ∅ (list_to_map [("/p/.platform/services.yaml", Some "db"); ("/p/.env", Some "dotenv")]) "/p" "/h".
Lemma checkDoctrine_passes_witness :
  checkDoctrineServerVersionSetting (λ _, Some ["postgresql:16"]) (λ _, None) (λ _, None) (λ _, None)
    (λ _, Some {["DATABASE_URL" := "postgres://db?serverVersion=15"]}) (λ _, Some "15") (λ _, []) ex_app "/p" ≠ Ret None.
Proof.
  intros [H|(configFile & dbName & dbVersion & [= <- <- <-] & [[=]|[[=]|(dotEnv & [= <-] & [E|E] & _)]])]%checkDoctrine_passes.
  - cbn in H. lia.
  - by vm_compute in E.
  - by vm_compute in E.
Defined.

(** ** Debug mode and production *)

(** A run that changes the variables of the environment. *)
Definition changes (argv : list string) : bool := bool_decide ("--level=env" ∈ argv).
(** The command that the cloud program sees: the first argument that is not an
    option. *)
Definition command_name (argv : list string) : option string :=
  List.find (λ a, negb (HasPrefix a "-")) argv.

Section debug_facts.
  Context (ask : list (list string) → list string → string * bool) (prefix project environment : string).
  Hypothesis prefix_ok : prefix = "cloud:" ∨ prefix = "upsun:".

Lemma query_args command rest : HasPrefix command "upsun:" = false → HasPrefix command "cloud:" = false →
  psh_args ((prefix +:+ command) :: rest) = command :: rest.
Proof.
  intros H1 H2. unfold psh_args, executor_args, TrimPrefix.
  destruct prefix_ok as [-> | ->].
  - change (HasPrefix ("cloud:" +:+ command) "upsun:") with false. cbv iota.
    rewrite (HasPrefix_app "cloud:"), (sdrop_app "cloud:"). done.
  - rewrite (HasPrefix_app "upsun:"), (sdrop_app "upsun:"), H2. done.
Qed.

Lemma change_args projectID rest : psh_args (defaultArgs environment projectID ++ rest) = defaultArgs environment projectID ++ rest.
Proof. unfold defaultArgs. by case_bool_decide. Qed.

Lemma query_no_change command property projectID :
  command ≠ "--level=env" → property ≠ "--level=env" → changes [command; property; "--project=" +:+ projectID; "-y"] = false.
Proof.
  intros H1 H2. unfold changes. apply bool_decide_eq_false_2.
  rewrite !elem_of_cons. intros [E | [E | [E | [E | E%not_elem_of_nil]]]]; try done; by destruct projectID.
Qed.

(** The questions of a run. *)
Definition q_id : list string := ["project:info"; "id"; "-y"].
Definition q_branch (projectID : string) : list string :=
  ["project:info"; "default_branch"; "--project=" +:+ projectID; "-y"].
Definition q_env (projectID : string) : list string := ["env:info"; "id"; "--project=" +:+ projectID; "-y"].
Definition q_domain (projectID : string) : list string :=
  ["project:info"; "default_domain"; "--project=" +:+ projectID; "-y"].

(** What the answers of the run tell, with the runs so far: the project; the default
    branch and the environment; the domain. *)
Definition known_project : option (string * list (list string)) :=
  if bool_decide (project = "") then
    let '(out, ok) := ask [] q_id in if ok then Some (TrimSpace out, [q_id]) else None
  else Some (project, []).
Definition known_env (projectID : string) (tr : list (list string))
  : option (string * string * list (list string)) :=
  let '(branch, ok) := ask tr (q_branch projectID) in
  if negb ok then None else
  let tr := q_branch projectID :: tr in
  if bool_decide (environment ≠ "") then Some (TrimSpace branch, environment, tr) else
  let '(env, ok) := ask tr (q_env projectID) in
  Some (TrimSpace branch, if ok then TrimSpace env else TrimSpace branch, q_env projectID :: tr).
Definition known_domain (projectID : string) (tr : list (list string)) : option string :=
  let '(domain, ok) := ask tr (q_domain projectID) in if ok then Some (TrimSpace domain) else None.

(** The environment of the run: the project, the default branch, the environment. *)
Definition target : option (string * string * string * list (list string)) :=
  '(projectID, tr) ← known_project; '(branch, env, tr) ← known_env projectID tr;
  Some (projectID, branch, env, tr).
(** It is known and not the production environment of a production project. *)
Definition switchable : Prop :=
  ∃ projectID branch env tr domain, target = Some (projectID, branch, env, tr) ∧
    known_domain projectID tr = Some domain ∧ (domain = "" ∨ env ≠ branch).

Lemma env_debug_known off projectID tr :
  env_debug ask prefix environment off projectID tr =
    match known_env projectID tr with
    | None => (q_branch projectID :: tr, Some NoDetectBranch)
    | Some (branch, env, tr) =>
      if off then two_steps (delete_variable ask prefix environment projectID "APP_ENV")
                    (delete_variable ask prefix environment projectID "APP_DEBUG") tr
      else match known_domain projectID tr with
           | None => (q_domain projectID :: tr, Some NoDetectDomain)
           | Some domain =>
             if bool_decide (domain ≠ "" ∧ branch = env) then (q_domain projectID :: tr, Some ProductionEnv)
             else two_steps (set_variable ask prefix environment projectID "APP_ENV" "dev")
                    (set_variable ask prefix environment projectID "APP_DEBUG" "1") (q_domain projectID :: tr)
           end
    end.
Proof.
  unfold env_debug, known_env, known_domain, project_info, run_psh. rewrite !query_args by done.
  fold (q_branch projectID) (q_domain projectID) (q_env projectID).
  destruct (ask tr _) as [branch []]; cbn [negb]; [|done].
  destruct (bool_decide (environment ≠ "")).
  - destruct off; [done|]. by destruct (ask (_ :: tr) (q_domain projectID)) as [domain []].
  - destruct (ask (_ :: tr) (q_env projectID)) as [env ok]. destruct off; [done|].
    by destruct (ask (_ :: _ :: tr) (q_domain projectID)) as [domain []].
Qed.

Definition untouched (tr : list (list string)) : Prop := Forall (λ argv, changes argv = false) tr.

Lemma q_unchanged projectID tr : untouched tr →
  untouched (q_branch projectID :: tr) ∧ untouched (q_env projectID :: tr) ∧ untouched (q_domain projectID :: tr).
Proof. intros Htr. split_and!; constructor; try done; by apply query_no_change. Qed.

Lemma target_unchanged projectID branch env tr : target = Some (projectID, branch, env, tr) → untouched tr.
Proof.
  unfold target. intros ([p tr0] & Hp & H)%bind_Some. apply bind_Some in H as ([[b e] tr1] & He & [= -> -> -> ->]).
  assert (H0 : untouched tr0).
  { unfold known_project in Hp. case_bool_decide; [|injection Hp as _ <-; constructor].
    destruct (ask [] q_id) as [out []]; [|done]. injection Hp as _ <-. by repeat constructor. }
  unfold known_env in He. destruct (ask tr0 _) as [br []]; cbn [negb] in He; [|done].
  destruct (q_unchanged projectID tr0 H0) as (Hb & _ & _).
  case_bool_decide; [by injection He as _ _ <-|].
  destruct (ask (_ :: tr0) _) as [en ok]. injection He as _ _ <-. by apply q_unchanged.
Qed.

(** A step adds runs with the options of a change. *)
Lemma two_steps_changes (f g : list (list string) → list (list string) * option debug_err) tr :
  (∀ tr argv, argv ∈ tr → argv ∈ (g tr).1) → (∃ argv, argv ∈ (f tr).1 ∧ changes argv = true) →
  ∃ argv, argv ∈ (two_steps f g tr).1 ∧ changes argv = true.
Proof.
  intros Hg (argv & Hin & Hc). exists argv. split; [|done]. unfold two_steps.
  destruct (f tr) as [tr' [e|]]; [done|]. by apply Hg.
Qed.

Lemma set_variable_keeps projectID variable value tr argv : argv ∈ tr →
  argv ∈ (set_variable ask prefix environment projectID variable value tr).1.
Proof.
  intros H. unfold set_variable, run_psh. destruct (ask tr _) as [out []]; cbn; [by right|].
  destruct (Contains _ _); cbn; [|by right]. destruct (ask (_ :: tr) _). cbn. by do 2 right.
Qed.
Lemma set_variable_changes projectID variable value tr :
  ∃ argv, argv ∈ (set_variable ask prefix environment projectID variable value tr).1 ∧ changes argv = true.
Proof.
  eexists (defaultArgs environment projectID ++ _). unfold set_variable, run_psh. rewrite !change_args. split.
  - destruct (ask tr _) as [out []]; cbn; [by left|].
    destruct (Contains _ _); cbn; [|by left]. destruct (ask (_ :: tr) _). cbn. by right; left.
  - by apply bool_decide_eq_true_2, elem_of_app; left; left.
Qed.
Lemma delete_variable_spec projectID variable tr :
  (delete_variable ask prefix environment projectID variable tr).1
  = (defaultArgs environment projectID ++ [prefix +:+ "var:delete"; "env:" +:+ variable]) :: tr.
Proof. unfold delete_variable, run_psh. rewrite change_args. by destruct (ask tr _). Qed.

Lemma cloudEnvDebug_target off :
  match target with
  | None => untouched (cloudEnvDebug ask prefix project environment off).1
  | Some (projectID, branch, env, tr) => 
    ∃ tr0, known_env projectID tr0 = Some (branch, env, tr) ∧
      cloudEnvDebug ask prefix project environment off = env_debug ask prefix environment off projectID tr0
  end.
Proof.
  assert (Hk : match known_project with
               | None => untouched (cloudEnvDebug ask prefix project environment off).1
               | Some (p, tr0) => untouched tr0 ∧
                 cloudEnvDebug ask prefix project environment off = env_debug ask prefix environment off p tr0
               end).
  { unfold cloudEnvDebug, known_project, run_psh. case_bool_decide; [|by split; [constructor|]].
    rewrite query_args by done. fold q_id. destruct (ask [] q_id) as [out []]; cbn [negb]; [split; [|done]|];
      by repeat constructor. }
  unfold target. destruct known_project as [[p tr0]|]; [|done]. cbn. destruct Hk as [H0 Hk].
  destruct (known_env p tr0) as [[[b e] tr]|] eqn:E; cbn; [by exists tr0|].
  rewrite Hk, env_debug_known, E. by apply q_unchanged.
Qed.
End debug_facts.

(** C31: without [--off] the command changes variables exactly when, by the answers
    of the run, the project has no domain of its own or the environment is not the
    one of the default branch: never those of the production environment of a
    production project.  With [--off] there is no such test: as soon as the
    environment is known it deletes [APP_ENV], and it changes nothing but that it
    deletes this variable and [APP_DEBUG], in production as well. *)
Theorem cloudEnvDebug_production ask prefix project environment :
  prefix = "cloud:" ∨ prefix = "upsun:" →
  let run off := (cloudEnvDebug ask prefix project environment off).1 in
  ((∃ argv, argv ∈ run false ∧ changes argv = true) ↔ switchable ask project environment) ∧
  ((∃ argv, argv ∈ run true ∧ changes argv = true) ↔ is_Some (target ask project environment)) ∧
  (∀ argv, argv ∈ run true → changes argv = true →
     ∃ projectID branch env tr variable, target ask project environment = Some (projectID, branch, env, tr) ∧
       variable ∈ ["APP_ENV"; "APP_DEBUG"] ∧
       argv = defaultArgs environment projectID ++ [prefix +:+ "var:delete"; "env:" +:+ variable]).
Proof.
  intros Hp run.
  assert (Hno : ∀ tr argv, untouched tr → argv ∈ tr → changes argv = true → False).
  { intros tr argv Hu Hin Hc. unfold untouched in Hu. rewrite Forall_forall in Hu. by rewrite (Hu _ Hin) in Hc. }
  pose proof (cloudEnvDebug_target ask prefix project environment Hp) as Ht.
  unfold switchable. destruct (target ask project environment) as [[[[projectID branch] env] tr]|] eqn:Et.
  2:{ specialize (Ht false) as Hf. specialize (Ht true) as Hon. split_and!; [split|split|]; try naive_solver. }
  assert (Hu : untouched tr) by (by eapply target_unchanged).
  assert (Hdom : untouched (q_domain projectID :: tr)) by (by apply q_unchanged).
  assert (Hrun : ∀ off, run off = (if off then two_steps (delete_variable ask prefix environment projectID "APP_ENV")
                    (delete_variable ask prefix environment projectID "APP_DEBUG") tr
      else match known_domain ask projectID tr with
           | None => (q_domain projectID :: tr, Some NoDetectDomain)
           | Some domain =>
             if bool_decide (domain ≠ "" ∧ branch = env) then (q_domain projectID :: tr, Some ProductionEnv)
             else two_steps (set_variable ask prefix environment projectID "APP_ENV" "dev")
                    (set_variable ask prefix environment projectID "APP_DEBUG" "1") (q_domain projectID :: tr)
           end).1).
  { intros off. destruct (Ht off) as (tr0 & He & Hr). unfold run. rewrite Hr, env_debug_known by done. by rewrite He. }
  split; [rewrite Hrun|rewrite !Hrun]; cbv iota.
  - destruct (known_domain ask projectID tr) as [domain|] eqn:Ed; [|naive_solver].
    case_bool_decide as Hd; [naive_solver|]. split.
    + intros _. exists projectID, branch, env, tr, domain. split_and!; [done..|].
      destruct (decide (domain = "")); [by left|right; naive_solver].
    + intros _. apply two_steps_changes; [intros; by apply set_variable_keeps|apply set_variable_changes]. 
  - set (d v := defaultArgs environment projectID ++ [prefix +:+ "var:delete"; "env:" +:+ v]).
    assert (Hdel : ∃ e, (two_steps (delete_variable ask prefix environment projectID "APP_ENV")
                    (delete_variable ask prefix environment projectID "APP_DEBUG") tr) = e ∧
              (e.1 = d "APP_ENV" :: tr ∨ e.1 = d "APP_DEBUG" :: d "APP_ENV" :: tr)).
    { eexists. split; [done|]. unfold two_steps. pose proof (delete_variable_spec ask prefix environment projectID "APP_ENV" tr) as H1.
      destruct (delete_variable _ _ _ _ "APP_ENV" tr) as [tr1 [e|]]; cbn in H1; subst tr1; [by left|right].
      by rewrite delete_variable_spec. }
    destruct Hdel as (e & -> & He).
    assert (Hch : changes (d "APP_ENV") = true) by (by apply bool_decide_eq_true_2, elem_of_app; left; left).
    split.
    + split; [by eauto|]. intros _. exists (d "APP_ENV"). split; [|done]. destruct He as [-> | ->]; [by left|by right; left].
    + intros argv Hin Hc. exists projectID, branch, env, tr.
      assert (argv = d "APP_ENV" ∨ argv = d "APP_DEBUG") as [-> | ->].
      { destruct He as [He|He]; rewrite He in Hin.
        - apply elem_of_cons in Hin as [->|Hin]; [by left|]. by destruct (Hno tr argv).
        - apply elem_of_cons in Hin as [->|[->|Hin]%elem_of_cons]; [by right|by left|]. by destruct (Hno tr argv). }
      * exists "APP_ENV". split_and!; [done|by left|done].
      * exists "APP_DEBUG". split_and!; [done|by right; left|done].
Qed.

Definition ex_ask (_ : list (list string)) (argv : list string) : string * bool :=
  (if bool_decide (argv !! 1 = Some "default_branch") then "main" +:+ newline
   else if bool_decide (argv !! 1 = Some "default_domain") then "example.com" +:+ newline else "", true).
(** The production environment: refused, but with [--off] its variables go. *)
Lemma cloudEnvDebug_production_witness :
  ¬ (∃ argv, argv ∈ (cloudEnvDebug ex_ask "cloud:" "abc" "main" false).1 ∧ changes argv = true) ∧
  ∃ argv, argv ∈ (cloudEnvDebug ex_ask "cloud:" "abc" "main" true).1 ∧ changes argv = true.
Proof.
  destruct (cloudEnvDebug_production ex_ask "cloud:" "abc" "main" (or_introl eq_refl)) as (H1 & H2 & _). split.
  - intros (projectID & branch & env & tr & domain & Ht & Hd & Hx)%H1. vm_compute in Ht. simplify_eq.
    vm_compute in Hd. simplify_eq. by destruct Hx.
  - apply H2. vm_compute. by eexists.
Defined.

(** The runs that change variables put the options first, so that the prefix of
    the command is not stripped: the cloud program is asked for [cloud:var:create]
    and the like, or for a command named after the environment. *)
Lemma set_variable_command ask prefix environment projectID variable value argv :
  HasPrefix environment "-" = false → HasPrefix prefix "-" = false → prefix ≠ "" →
  argv ∈ (set_variable ask prefix environment projectID variable value []).1 →
  command_name argv = Some (prefix +:+ "var:create") ∨ command_name argv = Some (prefix +:+ "var:update") ∨
  environment ≠ "" ∧ command_name argv = Some environment.
Proof.
  intros He Hp Hn. unfold set_variable, run_psh. rewrite !change_args.
  assert (Hc : ∀ c rest, c = prefix +:+ "var:create" ∨ c = prefix +:+ "var:update" →
    command_name (defaultArgs environment projectID ++ c :: rest) = Some c ∨
    environment ≠ "" ∧ command_name (defaultArgs environment projectID ++ c :: rest) = Some environment).
  { intros c rest Hcc. unfold defaultArgs, command_name. case_bool_decide as E; cbn -[HasPrefix].
    - right. by rewrite He.
    - left. assert (HasPrefix c "-" = false) as -> by (destruct Hcc as [-> | ->]; by destruct prefix). done. }
  pose proof (Hc _ ["--name=env:" +:+ variable; "--value=" +:+ value] (or_introl eq_refl)) as H1.
  pose proof (Hc _ ["--value=" +:+ value; "env:" +:+ variable] (or_intror eq_refl)) as H2. clear Hc.
  destruct (ask [] _) as [out []]; cbn; [intros ->%list_elem_of_singleton; naive_solver|].
  destruct (Contains _ _); cbn; [|intros ->%list_elem_of_singleton; naive_solver].
  destruct (ask [_] _) as [out' ok]; cbn. intros [-> | ->%list_elem_of_singleton]%elem_of_cons; naive_solver.
Qed.

(** ** Hooks *)

Section hook_facts.
  Context (FullName : command → string).
  Hypothesis FullName_spec : ∀ c, FullName c = c_Category c +:+ ":" +:+ c_Name c.

Lemma parse_flags_other name commands :
  (∀ c, c ∈ commands → FullName (psh_command_ c) ≠ name) → parse_flags FullName name commands = commands.
Proof.
  induction commands as [|c commands IH]; intros H; [done|]. cbn.
  rewrite bool_decide_eq_false_2 by (apply H; by left). f_equal. apply IH. intros c' Hc. apply H. by right.
Qed.

Lemma table_categories : forallb (λ c, HasPrefix (c_Category c) "cloud") Commands = true.
Proof. vm_compute. reflexivity. Qed.

Lemma cli_FullName c : c ∈ p_Commands (newCLI Commands) → HasPrefix (FullName (psh_command_ c)) "cloud" = true.
Proof.
  intros (c0 & -> & Hc)%list_elem_of_fmap. rewrite FullName_spec. cbn [newCLI_command psh_command_ c_Category c_Name]. pose proof table_categories as H.
  rewrite forallb_forall in H. specialize (H c0 (proj1 (list_elem_of_In _ _) Hc)). apply HasPrefix_spec in H as [r ->].
  rewrite sapp_assoc. apply (HasPrefix_app "cloud").
Qed.

Lemma add_hooks_commands : p_Commands (add_hooks FullName (newCLI Commands)) = p_Commands (newCLI Commands).
Proof.
  unfold add_hooks, upsunBeforeHooks, AddBeforeHook. cbn [foldl fst snd p_Commands].
  assert (H : ∀ name, HasPrefix name "cloud" = false →
    parse_flags FullName name (p_Commands (newCLI Commands)) = p_Commands (newCLI Commands)).
  { intros name Hn. apply parse_flags_other. intros c Hc E. apply cli_FullName in Hc. congruence. }
  by rewrite !H.
Qed.
End hook_facts.

(** C35: the hooks before [environment:push] and [tunnel:close] run for these
    commands but see none of their flags: the names under which the hooks are
    added are never the full name of a command, so that the flags of every
    command stay unparsed. *)
Theorem hooks_without_flags FullName :
  (∀ c, FullName c = c_Category c +:+ ":" +:+ c_Name c) →
  let p := add_hooks FullName (newCLI Commands) in
  (∀ c, c ∈ p_Commands p → psh_FlagParsing c = FlagParsingSkipped) ∧
  ∀ name f, (name, f) ∈ upsunBeforeHooks → p_Hooks p !! name = Some f ∧ ∃ c, c ∈ p_Commands p ∧ psh_action c = name.
Proof.
  intros HF p. unfold p. rewrite add_hooks_commands by done. split.
  - intros c (c0 & -> & _)%list_elem_of_fmap. done.
  - intros name f Hf. split; [|].
    + apply elem_of_cons in Hf as [[= -> ->] | [= -> ->]%list_elem_of_singleton]; reflexivity.
    + assert (name ∈ psh_action <$> p_Commands (newCLI Commands)) as (c & -> & Hc)%list_elem_of_fmap; [|by exists c].
      apply elem_of_cons in Hf as [[= -> ->] | [= -> ->]%list_elem_of_singleton];
        apply (bool_decide_unpack _); vm_compute; reflexivity.
Qed.

Lemma hooks_without_flags_witness :
  Forall (λ c, psh_FlagParsing c = FlagParsingSkipped)
    (p_Commands (add_hooks (λ c, c_Category c +:+ ":" +:+ c_Name c) (newCLI Commands))).
Proof. apply Forall_forall, (hooks_without_flags (λ c, c_Category c +:+ ":" +:+ c_Name c)). reflexivity. Defined.

(** ** Small facts *)

(** The path is the one of the product of the first command that needs it. *)
Lemma getPath_first w homedir install product product' p path p' :
  getPath w homedir install product p = Ret (path, p') → path ≠ "" →
  getPath w homedir install product' p' = Ret (path, p').
Proof.
  unfold getPath. case_bool_decide as Hp; [|destruct homedir as [h|]; cbn; [|done]]; intros [= <- <-] Hne; cbn;
    by rewrite bool_decide_eq_true_2.
Qed.

(** A global option before [deploy] is lost and [deploy] becomes an argument. *)
Lemma deploy_option bin option rest :
  deploy_args (bin :: option :: "deploy" :: rest) = Ret (bin :: "cloud:environment:push" :: "deploy" :: rest).
Proof. done. Qed.

(** Closing a tunnel removes the file that exposes it. *)
Lemma tunnel_close_exposed FindLocalApplications GetRemoteURL GetCurrentBranch yaml_project_id evalSymlinks can_create w c w' :
  tunnel_close FindLocalApplications GetRemoteURL GetCurrentBranch yaml_project_id evalSymlinks can_create w c = (w', None) →
  ∃ project, close_project FindLocalApplications GetRemoteURL GetCurrentBranch yaml_project_id evalSymlinks w c = inr project ∧
    (is_dir w (tunnel_path w (mkTunnel project "")) = false → IsExposed w' (mkTunnel project "") = false).
Proof.
  unfold tunnel_close. destruct (close_project _ _ _ _ _ _ _) as [e|project]; [done|]. intros H. exists project. split; [done|].
  intros Hd. unfold Expose in H. rewrite Hd in H. injection H as <-.
  unfold IsExposed, exists_. cbn. by rewrite bool_decide_eq_true_2.
Qed.
