(* ===== verification/Console.v ===== *)
(** * The console application ([main.go], [commands/root.go], [commands/wrappers.go],
      [commands/completion_posix.go], [util/homedir.go] and the declarations of the
      commands)

    How the program picks what it runs: PHP, Composer, PIE and the console of the
    project before the application, then a command by its name or an alias.  The
    commands are declared with their names, options and the options that their
    action reads (itself or in a function that is given its context).  The lookup
    of the console library, [user.Current] and [UserConfigDir] are parameters.

    [app_names_unique] shows that a name selects one command, but for [pie] alone,
    [options_declared] that every option that is read is declared (but for four),
    [main_env_kept] that the variables of the cloud never replace those of the
    user, [complete_args_spec] what the completion of PHP programs is given. *)

From stdpp Require Import base tactics option list gmap strings pretty.
From Stdlib Require Import ZArith Lia Ascii.
From S2P Require Import Prelude GoStrings FilePath Os Humanlog Upsun Dotenv PhpExecutor UpsunCli UpsunCommands CloudCommands.

(** ** The home directory ([util/homedir.go]) *)

(** [tempdir]: [os.TempDir]; [user]: [user.Current]; [config_dir]: [os.UserConfigDir];
    [home]: [os.UserHomeDir]. *)
Definition GetHomeDir (w : os) (tempdir : string) (user config_dir home : option string) : string :=
  if InCloud w then
    match user with
    | None => fjoin [tempdir; "symfony-cli"]
    | Some u => fjoin [tempdir; u; "symfony-cli"]
    end
  else
    let configurationPath :=
      match config_dir with
      | None => fjoin ["."; ".symfony-cli"]
      | Some userCfg => fjoin [userCfg; "symfony-cli"]
      end in
    match home with
    | None => configurationPath
    | Some h =>
      let legacyPath := fjoin [h; ".symfony5"] in
      match stat w legacyPath with NotExist => configurationPath | _ => legacyPath end
    end.

(** ** The declarations of the commands *)

Inductive value_kind := VBool | VString | VStringSlice | VInt | VInt64.
Record decl_flag := mkDeclFlag { df_kind : value_kind; df_Name : string; df_Aliases : list string }.
Record decl := mkDecl {
  d_Category : string; d_Name : string; d_Aliases : list alias; d_Hidden : bool; d_Flags : list decl_flag;
  d_reads : list string }.
Definition decl_of (f : flag) : decl_flag :=
  mkDeclFlag (match f_kind f with BoolFlag => VBool | StringFlag => VString end) (f_Name f) (f_Aliases f).

Definition ConfigurationFlags : list decl_flag :=
  [mkDeclFlag VBool "allow-http" []; mkDeclFlag VString "document-root" []; mkDeclFlag VString "passthru" [];
   mkDeclFlag VInt "port" []; mkDeclFlag VString "listen-ip" []; mkDeclFlag VBool "allow-all-ip" [];
   mkDeclFlag VBool "daemon" ["d"]; mkDeclFlag VString "p12" []; mkDeclFlag VBool "no-tls" [];
   mkDeclFlag VBool "use-gzip" []; mkDeclFlag VString "tls-key-log-file" []; mkDeclFlag VBool "no-workers" [];
   mkDeclFlag VBool "allow-cors" []].
Definition bookCheckReqsCmd : decl :=
  mkDecl "book" "check-requirements" [mkAlias "book:check" false] false
    []
    [].
Definition bookCheckoutCmd : decl :=
  mkDecl "book" "checkout" [] false
    [mkDeclFlag VString "dir" ["directory"]; mkDeclFlag VBool "debug" []; mkDeclFlag VBool "force" []]
    ["dir"; "debug"; "force"].
Definition cloudEnvDebugCmd : decl :=
  mkDecl "cloud:environment" "debug" [mkAlias "environment:debug" false] false
    [mkDeclFlag VString "project" ["p"]; mkDeclFlag VString "environment" ["e"]; mkDeclFlag VBool "off" [];
     mkDeclFlag VBool "debug" []]
    ["project"; "debug"; "environment"; "off"].
Definition doctrineCheckServerVersionSettingCmd : decl :=
  mkDecl "" "doctrine:check-server-version-setting" [] true
    [mkDeclFlag VString "dir" ["directory"]]
    ["dir"].
Definition localRequirementsCheckCmd : decl :=
  mkDecl "local" "check:requirements" [mkAlias "check:requirements" false; mkAlias "check:req" false] false
    [mkDeclFlag VString "dir" ["directory"]]
    ["dir"].
Definition localSecurityCheckCmd : decl :=
  mkDecl "local" "check:security" [mkAlias "security:check" false; mkAlias "check:security" false; mkAlias "local:security:check" false] false
    [mkDeclFlag VString "dir" ["directory"]; mkDeclFlag VString "format" []; mkDeclFlag VString "archive" [];
     mkDeclFlag VBool "local" []; mkDeclFlag VBool "no-dev" []; mkDeclFlag VBool "update-cache" [];
     mkDeclFlag VBool "disable-exit-code" []; mkDeclFlag VString "cache-dir" []]
    ["format"; "dir"; "archive"; "local"; "cache-dir"; "update-cache"; "no-dev"; "disable-exit-code"].
Definition localNewCmd : decl :=
  mkDecl "local" "new" [mkAlias "new" false] false
    [mkDeclFlag VString "dir" ["directory"]; mkDeclFlag VString "version" []; mkDeclFlag VBool "full" [];
     mkDeclFlag VBool "demo" []; mkDeclFlag VString "skeleton" []; mkDeclFlag VBool "webapp" [];
     mkDeclFlag VBool "api" []; mkDeclFlag VBool "book" []; mkDeclFlag VBool "docker" [];
     mkDeclFlag VBool "no-git" []; mkDeclFlag VBool "upsun" []; mkDeclFlag VBool "cloud" [];
     mkDeclFlag VStringSlice "service" []; mkDeclFlag VBool "debug" []; mkDeclFlag VString "php" []]
    ["dir"; "version"; "book"; "debug"; "demo"; "skeleton"; "webapp"; "api"; "cloud"; "upsun"; "service"; "no-git"; "php"; "full"; "docker"; "dump"; "force"].
Definition localPhpListCmd : decl :=
  mkDecl "local" "php:list" [] false
    []
    [].
Definition localPhpRefreshCmd : decl :=
  mkDecl "local" "php:refresh" [] false
    []
    [].
Definition localProxyAttachDomainCmd : decl :=
  mkDecl "local" "proxy:domain:attach" [mkAlias "proxy:domain:attach" false; mkAlias "proxy:domain:add" true] false
    [mkDeclFlag VString "dir" ["directory"]]
    ["dir"].
Definition localProxyDetachDomainCmd : decl :=
  mkDecl "local" "proxy:domain:detach" [mkAlias "proxy:domain:detach" false; mkAlias "proxy:domain:remove" true] false
    []
    [].
Definition localProxyStartCmd : decl :=
  mkDecl "local" "proxy:start" [mkAlias "proxy:start" false] false
    [mkDeclFlag VBool "foreground" ["f"]; mkDeclFlag VBool "no-humanize" []; mkDeclFlag VString "host" ["ip"]]
    ["foreground"; "no-humanize"; "host"].
Definition localProxyStatusCmd : decl :=
  mkDecl "local" "proxy:status" [mkAlias "proxy:status" false] false
    [mkDeclFlag VString "dir" ["directory"]]
    [].
Definition localProxyStopCmd : decl :=
  mkDecl "local" "proxy:stop" [mkAlias "proxy:stop" false] false
    []
    [].
Definition localProxyTLD : decl :=
  mkDecl "local" "proxy:tld" [mkAlias "proxy:tld" false; mkAlias "proxy:change:tld" false] false
    []
    [].
Definition localProxyUrlCmd : decl :=
  mkDecl "local" "proxy:url" [mkAlias "proxy:url" false] false
    []
    [].
Definition localRunCmd : decl :=
  mkDecl "local" "run" [mkAlias "run" false] false
    [mkDeclFlag VBool "daemon" ["d"]; mkDeclFlag VStringSlice "watch" []]
    ["watch"; "dir"; "daemon"].
Definition localServerCAInstallCmd : decl :=
  mkDecl "local" "server:ca:install" [mkAlias "server:ca:install" false] false
    [mkDeclFlag VBool "renew" []; mkDeclFlag VBool "force" ["f"]]
    ["renew"; "force"].
Definition localServerCAUninstallCmd : decl :=
  mkDecl "local" "server:ca:uninstall" [mkAlias "server:ca:uninstall" false] false
    []
    [].
Definition localServerListCmd : decl :=
  mkDecl "local" "server:list" [mkAlias "server:list" false; mkAlias "server:ls" false] false
    []
    [].
Definition localServerLogCmd : decl :=
  mkDecl "local" "server:log" [mkAlias "server:log" false] false
    [mkDeclFlag VString "dir" ["directory"]; mkDeclFlag VBool "no-follow" ["no-tail"];
     mkDeclFlag VInt64 "lines" ["n"]; mkDeclFlag VBool "no-humanize" []; mkDeclFlag VStringSlice "file" [];
     mkDeclFlag VBool "no-app-logs" []; mkDeclFlag VBool "no-worker-logs" []; mkDeclFlag VBool "no-server-logs" []]
    ["dir"; "no-follow"; "lines"; "file"; "no-humanize"; "no-app-logs"; "no-worker-logs"; "no-server-logs"].
Definition localServerProdCmd : decl :=
  mkDecl "local" "server:prod" [mkAlias "server:prod" false] false
    [mkDeclFlag VString "dir" ["directory"]; mkDeclFlag VBool "off" []]
    ["dir"; "off"].
Definition localServerStartCmd : decl :=
  mkDecl "local" "server:start" [mkAlias "server:start" false; mkAlias "serve" false] false
    (ConfigurationFlags ++
    [mkDeclFlag VString "dir" ["directory"]; mkDeclFlag VBool "no-humanize" []; mkDeclFlag VBool "open" []])
    ["allow-all-ip"; "listen-ip"; "document-root"; "passthru"; "port"; "allow-cors"; "allow-http"; "p12"; "no-tls"; "tls-key-log-suffix"; "use-gzip"; "daemon"; "no-workers"; "dir"; "no-humanize"; "open"].
Definition localServerStatusCmd : decl :=
  mkDecl "local" "server:status" [mkAlias "server:status" false] false
    [mkDeclFlag VString "dir" ["directory"]]
    ["dir"].
Definition localServerStopCmd : decl :=
  mkDecl "local" "server:stop" [mkAlias "server:stop" false] false
    [mkDeclFlag VString "dir" ["directory"]; mkDeclFlag VBool "all" []]
    ["all"; "dir"].
Definition localVariableExposeFromTunnelCmd : decl :=
  mkDecl "local" "var:expose-from-tunnel" [mkAlias "var:expose-from-tunnel" false] false
    [mkDeclFlag VString "dir" ["directory"]; mkDeclFlag VBool "off" []]
    ["dir"; "off"].
Definition projectLocalOpenCmd : decl :=
  mkDecl "open" "local" [] false
    [mkDeclFlag VString "dir" ["directory"]; mkDeclFlag VString "path" []]
    ["dir"; "path"].
Definition projectLocalMailCatcherOpenCmd : decl :=
  mkDecl "open" "local:webmail" [] false
    [mkDeclFlag VString "dir" ["directory"]]
    ["dir"].
Definition projectLocalRabbitMQManagementOpenCmd : decl :=
  mkDecl "open" "local:rabbitmq" [] false
    [mkDeclFlag VString "dir" ["directory"]]
    ["dir"].
Definition projectLocalServiceOpenCmd : decl :=
  mkDecl "open" "local:service" [] false
    [mkDeclFlag VString "dir" ["directory"]]
    ["dir"].
Definition projectInitCmd : decl :=
  mkDecl "project" "init" [mkAlias "init" false] false
    [mkDeclFlag VString "dir" ["directory"]; mkDeclFlag VString "template" []; mkDeclFlag VString "title" [];
     mkDeclFlag VString "slug" []; mkDeclFlag VString "php" []; mkDeclFlag VBool "upsun" [];
     mkDeclFlag VStringSlice "service" []; mkDeclFlag VBool "dump" []; mkDeclFlag VBool "force" []]
    ["dir"; "php"; "slug"; "service"; "upsun"; "template"; "dump"; "force"].
Definition upsunDeployCmd : decl :=
  mkDecl "cloud" "deploy" [mkAlias "upsun:deploy" true; mkAlias "deploy" true] true
    (decl_of <$> deploy_flags Commands)
    [].
Definition variableExportCmd : decl :=
  mkDecl "var" "export" [] false
    [mkDeclFlag VString "dir" ["directory"]; mkDeclFlag VBool "multiline" []; mkDeclFlag VBool "debug" []]
    ["dir"; "debug"; "multiline"].
Definition composerWrapper : decl :=
  mkDecl "" "" [mkAlias "composer" false] true
    []
    [].
Definition pieWrapper : decl :=
  mkDecl "" "" [mkAlias "pie" false] true
    []
    [].
Definition binConsoleWrapper : decl :=
  mkDecl "" "" [mkAlias "console" false] true
    []
    [].
Definition phpWrapper : decl :=
  mkDecl "" "" (((λ n, mkAlias n false) <$> GetBinaryNames) ++ [mkAlias "pie" false]) true
    []
    [].
(** [CommonCommands] of [root.go]: the local commands, then the administration ones. *)
Definition CommonCommands : list decl :=
  [binConsoleWrapper; composerWrapper; phpWrapper; pieWrapper; bookCheckReqsCmd; bookCheckoutCmd; cloudEnvDebugCmd;
   doctrineCheckServerVersionSettingCmd; localNewCmd; localPhpListCmd; localPhpRefreshCmd; localProxyTLD;
   localProxyAttachDomainCmd; localProxyDetachDomainCmd; localProxyStartCmd; localProxyStatusCmd; localProxyUrlCmd;
   localProxyStopCmd; localRequirementsCheckCmd; localRunCmd; localServerCAInstallCmd; localServerCAUninstallCmd;
   localServerListCmd; localServerLogCmd; localServerProdCmd; localServerStartCmd; localServerStatusCmd;
   localServerStopCmd; localVariableExposeFromTunnelCmd; localSecurityCheckCmd; projectLocalMailCatcherOpenCmd;
   projectLocalRabbitMQManagementOpenCmd; projectLocalServiceOpenCmd; projectLocalOpenCmd; upsunDeployCmd] ++
  [projectInitCmd; variableExportCmd].

(** The commands of the cloud as declarations; they read no option. *)
Definition cloud_decl (c : psh_command) : decl :=
  mkDecl (c_Category (psh_command_ c)) (c_Name (psh_command_ c)) (c_Aliases (psh_command_ c)) (c_Hidden (psh_command_ c))
    (decl_of <$> c_Flags (psh_command_ c)) [].
(** All the commands of the application. *)
Definition app_commands : list decl := CommonCommands ++ (cloud_decl <$> p_Commands (newCLI Commands)).

(** The names of a declaration: its category and name as [newCLI] composes them,
    and its aliases; the wrappers have no name of their own. *)
Definition full_name (c : decl) : string :=
  if bool_decide (d_Category c = "") then d_Name c else d_Category c +:+ ":" +:+ d_Name c.
Definition names (c : decl) : list string :=
  List.filter (λ n, negb (bool_decide (n = ""))) (full_name c :: (a_Name <$> d_Aliases c)).

(** ** [main] *)

(** The variables of the cloud become those of the CLI. *)
Definition cloud_var (env : gmap string string) (name : string) : gmap string string :=
  if bool_decide (default "" (env !! ("SYMFONY_" +:+ name)) ≠ "") then env
  else match env !! ("PLATFORM_" +:+ name) with
       | Some v => if bool_decide (v = "") then env else <["SYMFONY_" +:+ name := v]> env
       | None => env
       end.
Definition cloud_vars (env : gmap string string) : gmap string string := foldl cloud_var env ["BRANCH"; "ENV"; "APPLICATION_NAME"].

Definition getCliExtraEnv (version binary : string) : list string :=
  ["SYMFONY_CLI_VERSION=" +:+ version; "SYMFONY_CLI_BINARY_NAME=" +:+ binary].

Inductive main_action :=
| RefuseWrapper (name : string)
| RunPhp (args : list string)
| RunConsole (args : list string)
| RunComposer (args : list string)
| RunPie (args : list string)
| RunApp (env : gmap string string) (args : list string).

Section main.
  Context (godotenv : string → option vars_map) (w : os).

(** The arguments of the console of the project, when there is one. *)
Definition console_args (args : list string) : option (list string) :=
  match SymfonyConsoleExecutor godotenv w args with Val e => Some (e_Args e) | Err _ => None end.
(** [binary]: the name under which the program was started; [args]: [os.Args]. *)
Definition main (binary : string) (args : list string) : main_action :=
  if IsBinaryName binary then RefuseWrapper binary
  else match args with
  | _ :: a :: rest =>
    if IsBinaryName a then RunPhp (a :: rest)
    else
      let app :=
        if bool_decide (a = "composer") then RunComposer rest
        else if bool_decide (a = "pie") then RunPie rest
        else RunApp (cloud_vars (environ w)) args in
      if bool_decide (a = "console")
      then match console_args rest with Some cmd => RunConsole cmd | None => app end
      else app
  | _ => RunApp (cloud_vars (environ w)) args
  end.

(** The action of the application, for arguments that select no command. *)
Inductive app_action := Welcome | FallBack (args : list string) | ShowHelp.
Definition app_Action (args : list string) : app_action :=
  if bool_decide (args = []) then Welcome
  else match console_args args with Some cmd => FallBack cmd | None => ShowHelp end.
End main.

(** The actions of the wrappers: always an error, for [main] runs the programs. *)
Inductive wrapper_err := IncorrectUsage (message : string) | PlainError (message : string).
Definition only_as (name : string) : string := "This command can only be run as " +:+ quote ("symfony " +:+ name).
Definition composer_action : wrapper_err := IncorrectUsage (only_as "composer").
Definition pie_action : wrapper_err := IncorrectUsage (only_as "pie").
Definition php_action : wrapper_err := IncorrectUsage (only_as "php*").
Definition console_action : wrapper_err := PlainError ("No Symfony console detected to run " +:+ quote "symfony console").

(** ** [root.go] *)

Definition updates_allowed (w : os) (channel : string) (interactive is_child : bool) : bool :=
  bool_decide (channel = "stable") && negb (InCloud w || negb interactive || is_child).
(** [InitAppFunc]: the CLI with its hooks, and whether updates are looked for. *)
Definition InitAppFunc (FullName : command → string) (w : os) (channel : string) (interactive is_child : bool) (psh : option CLI)
    : option CLI * bool :=
  (Some (add_hooks FullName (cli_Get psh).1), updates_allowed w channel interactive is_child).
(** The commands that [WelcomeAction] lists. *)
Definition welcome_local : list decl :=
  [localNewCmd; localServerStartCmd; localServerStopCmd; localSecurityCheckCmd; composerWrapper; binConsoleWrapper; phpWrapper].
Definition WelcomeAction (FullName : command → string) (psh : option CLI) : list decl * list decl :=
  (welcome_local, projectInitCmd :: (cloud_decl <$> PSHMainCommands FullName (cli_Get psh).1)).
Definition CheckGitIsAvailable (git : bool) : bool := git.

(** ** Completion ([completion_posix.go]) *)

(** The quotes around a word. *)
Definition unquoted (input : string) : string :=
  match input with
  | "" => ""
  | String quote _ =>
    if bool_decide (quote = "'"%char ∨ quote = dquote)
    then TrimSuffix (TrimPrefix input (String quote "")) (String quote "") else input
  end.
Definition complete_word (input : string) : list string :=
  let input := TrimSpace input in
  if bool_decide (input = "") then [] else ["-i" +:+ unquoted input].
(** [CURRENT] counts the name of the program; the subtraction is that of 64 bits. *)
Definition complete_current (current : string) : Z :=
  let '(z, err) := ParseInt current in
  (if err then 1 else if bool_decide (z = - int64_max - 1) then int64_max else z - 1)%Z.
Definition buildSymfonyConsoleAutocompleteArgs (w : os) (wrappedCommand : string) (words : list string) : list string :=
  ["_complete"; "--no-interaction"; "-c" +:+ Itoa (complete_current (Getenv w "CURRENT")); "-i" +:+ wrappedCommand] ++
  (words ≫= complete_word).
Definition autocompleteComposerWrapper (w : os) (words : list string) : list string :=
  buildSymfonyConsoleAutocompleteArgs w "composer" words ++ ["-sbash"].
(** [None]: there is no program to ask. *)
Definition autocompleteSymfonyConsoleWrapper (w : os) (shell commandName : string) (words : list string)
    (executor : list string → option (list string)) : option (list string) :=
  executor (buildSymfonyConsoleAutocompleteArgs w commandName words ++ ["-a1"; "-s" +:+ shell]).
Definition autocompleteApplicationConsoleWrapper (godotenv : string → option vars_map) (w : os) (shell : string) (words : list string)
    : option (list string) :=
  autocompleteSymfonyConsoleWrapper w shell "console" words (console_args godotenv w).
Definition autocompletePieWrapper (w : os) (shell : string) (words : list string) (pie : list string → option (list string))
    : option (list string) :=
  autocompleteSymfonyConsoleWrapper w shell "pie" words pie.

(** ** A name selects one command *)

Lemma NoDup_bind_unique {A B} (f : A → list B) (l : list A) x c d :
  NoDup (l ≫= f) → c ∈ l → d ∈ l → x ∈ f c → x ∈ f d → c = d.
Proof.
  induction l as [|a l IH]; [by intros _ ?%not_elem_of_nil|]. cbn. intros (_ & Hd & Hl)%NoDup_app Hc Hdl Hxc Hxd.
  assert (Hin : ∀ e, e ∈ l → x ∈ f e → x ∈ l ≫= f) by (intros e ??; apply list_elem_of_bind; eauto).
  apply elem_of_cons in Hc as [-> | Hc], Hdl as [-> | Hdl]; [done| | |by apply IH].
  - by destruct (Hd _ Hxc); eauto.
  - by destruct (Hd _ Hxd); eauto.
Qed.

Definition sure_names (c : decl) : list string := List.filter (λ n, negb (bool_decide (n = "pie"))) (names c).
Lemma sure_names_NoDup : NoDup (app_commands ≫= sure_names).
Proof. apply (bool_decide_unpack _). vm_compute. exact I. Qed.

Lemma pie_owners e : e ∈ app_commands → "pie" ∈ names e → e = phpWrapper ∨ e = pieWrapper.
Proof.
  intros He Hp. assert (Hf : e ∈ List.filter (λ e, bool_decide ("pie" ∈ names e)) app_commands).
  { apply list_elem_of_In, filter_In. split; [by apply list_elem_of_In|by apply bool_decide_eq_true_2]. }
  assert (E : List.filter (λ e, bool_decide ("pie" ∈ names e)) app_commands = [phpWrapper; pieWrapper]) by (vm_compute; reflexivity).
  rewrite E in Hf. apply elem_of_cons in Hf as [-> | ->%list_elem_of_singleton]; auto.
Qed.
Lemma pie_owned e : e = phpWrapper ∨ e = pieWrapper → e ∈ app_commands ∧ "pie" ∈ names e.
Proof.
  assert (E : List.filter (λ e, bool_decide ("pie" ∈ names e)) app_commands = [phpWrapper; pieWrapper]) by (vm_compute; reflexivity).
  intros He. assert (Hf : In e [phpWrapper; pieWrapper]) by (destruct He as [-> | ->]; cbn; auto).
  rewrite <-E in Hf. apply filter_In in Hf as [? ?%bool_decide_eq_true_1]. split; [by apply list_elem_of_In|done].
Qed.

(** C33: two different commands, of the local ones and those of the cloud
    together, share a name or an alias, the hidden ones included, in exactly one
    case: [pie] belongs to the wrapper of PHP and to that of PIE. *)
Theorem app_names_unique n c d :
  (c ∈ app_commands ∧ d ∈ app_commands ∧ c ≠ d ∧ n ∈ names c ∧ n ∈ names d) ↔
  n = "pie" ∧ (c = phpWrapper ∧ d = pieWrapper ∨ c = pieWrapper ∧ d = phpWrapper).
Proof.
  split.
  - intros (Hc & Hd & Hne & Hnc & Hnd). destruct (decide (n = "pie")) as [-> |Hn].
    + destruct (pie_owners c), (pie_owners d); subst; naive_solver.
    + destruct Hne. apply (NoDup_bind_unique sure_names app_commands n); [apply sure_names_NoDup|done|done|..];
        apply list_elem_of_In, filter_In; (split; [by apply list_elem_of_In|by rewrite bool_decide_eq_false_2]).
  - intros (-> & [[-> ->] |[-> ->]]); destruct (pie_owned phpWrapper), (pie_owned pieWrapper); auto;
      by split_and!.
Qed.

(** ** Options *)

Definition flag_names (c : decl) : list string := d_Flags c ≫= λ f, df_Name f :: df_Aliases f.
Lemma flags_NoDup : forallb (λ c, bool_decide (NoDup (flag_names c))) app_commands = true.
Proof. vm_compute. reflexivity. Qed.

Definition undeclared : list (string * string) :=
  [("local:run", "dir"); ("local:server:start", "tls-key-log-suffix"); ("local:new", "dump"); ("local:new", "force")].
Definition reads_ok (c : decl) : bool :=
  forallb (λ r, bool_decide (r ∈ (df_Name <$> d_Flags c) ∨ (full_name c, r) ∈ undeclared)) (d_reads c).
Lemma reads_all_ok : forallb reads_ok app_commands = true.
Proof. vm_compute. reflexivity. Qed.

(** The options of a command and their aliases are distinct, and every option
    that the action of a command reads is declared by it, with four exceptions:
    [local:run] reads [dir], [local:new] reads [dump] and [force], which they do not
    have, and [local:server:start] reads [tls-key-log-suffix] where it declares
    [tls-key-log-file]. *)
Theorem options_declared c :
  c ∈ app_commands →
  NoDup (flag_names c) ∧
  ∀ r, r ∈ d_reads c → r ∈ df_Name <$> d_Flags c ∨ (full_name c, r) ∈ undeclared.
Proof.
  intros Hc%list_elem_of_In. split.
  - pose proof flags_NoDup as H. rewrite forallb_forall in H. exact (bool_decide_eq_true_1 _ (H c Hc)).
  - intros r Hr%list_elem_of_In. pose proof reads_all_ok as H. rewrite forallb_forall in H. specialize (H c Hc).
    unfold reads_ok in H. rewrite forallb_forall in H. exact (bool_decide_eq_true_1 _ (H r Hr)).
Qed.

Lemma options_declared_witness :
  NoDup (flag_names localServerStartCmd) ∧
  ∀ r, r ∈ d_reads localServerStartCmd →
    r ∈ df_Name <$> d_Flags localServerStartCmd ∨ (full_name localServerStartCmd, r) ∈ undeclared.
Proof. apply (options_declared localServerStartCmd), (list_elem_of_lookup_2 _ 25). reflexivity. Defined.

(** The file for the keys of TLS can be asked for but is never read. *)
Lemma tls_key_log_unread :
  "tls-key-log-file" ∈ flag_names localServerStartCmd ∧ "tls-key-log-file" ∉ d_reads localServerStartCmd ∧
  "tls-key-log-suffix" ∈ d_reads localServerStartCmd ∧ "tls-key-log-suffix" ∉ flag_names localServerStartCmd.
Proof. split_and!; apply (bool_decide_unpack _); vm_compute; exact I. Qed.

(** ** The environment *)

Lemma cloud_var_kept env name k v : env !! k = Some v → v ≠ "" → cloud_var env name !! k = Some v.
Proof.
  intros Hk Hv. unfold cloud_var. case_bool_decide as H; [done|].
  destruct (env !! ("PLATFORM_" +:+ name)) as [p|]; [|done]. case_bool_decide; [done|].
  destruct (decide ("SYMFONY_" +:+ name = k)) as [<-|Hne]; [|by rewrite lookup_insert_ne].
  exfalso. rewrite Hk in H. done.
Qed.

Lemma cloud_var_changed env name k : cloud_var env name !! k ≠ env !! k →
  k = "SYMFONY_" +:+ name ∧ default "" (env !! k) = "" ∧ cloud_var env name !! k = env !! ("PLATFORM_" +:+ name).
Proof.
  unfold cloud_var. case_bool_decide as H; [done|]. destruct (env !! ("PLATFORM_" +:+ name)) as [p|] eqn:E; [|done].
  case_bool_decide; [done|]. destruct (decide ("SYMFONY_" +:+ name = k)) as [<-|Hne]; [|rewrite lookup_insert_ne by done; by intros []].
  rewrite lookup_insert_eq. intros _. split_and!; [done| |done]. done.
Qed.

(** Every variable that is set keeps its value when the variables of the cloud
    are taken over. *)
Lemma cloud_vars_kept env k v : env !! k = Some v → v ≠ "" → cloud_vars env !! k = Some v.
Proof. intros. unfold cloud_vars. cbn. by repeat apply cloud_var_kept. Qed.

(** ** Dispatch *)

(** The wrappers of PHP programs never reach the application. *)
Lemma main_wrapped godotenv w binary prog a rest env args :
  main godotenv w binary (prog :: a :: rest) = RunApp env args →
  a ∉ names phpWrapper ∧ a ∉ names composerWrapper ∧ a ∉ names pieWrapper ∧
  (a ∈ names binConsoleWrapper → console_args godotenv w rest = None) ∧ env = cloud_vars (environ w) ∧ args = prog :: a :: rest.
Proof.
  unfold main. destruct (IsBinaryName binary); [done|]. destruct (IsBinaryName a) eqn:Ha; [done|].
  assert (Hphp : a ∉ GetBinaryNames) by (unfold IsBinaryName in Ha; by apply bool_decide_eq_false_1 in Ha).
  assert (Hw : ∀ x, a ∈ names x → x = composerWrapper ∨ x = pieWrapper ∨ x = binConsoleWrapper →
    a = "composer" ∨ a = "pie" ∨ a = "console") by (intros x Hx [-> | [-> | ->]]; revert Hx; cbn; set_solver).
  assert (Hn : a ∈ names phpWrapper → a ∈ GetBinaryNames ∨ a = "pie") by (cbn; set_solver).
  case_bool_decide as E1; [subst a; destruct (console_args _ _ _); [done|]|];
    (case_bool_decide as E2; [done|]); (case_bool_decide as E3; [done|]); intros [= <- <-];
    split_and!; try done; intros H; try (cbn in H; set_solver).
Qed.

(** The quotes around a word of the completion are dropped. *)
Lemma unquoted_quotes q s : q = "'"%char ∨ q = dquote → unquoted (String q (s +:+ String q "")) = s.
Proof.
  intros Hq. cbn. rewrite bool_decide_eq_true_2 by done. change (String q (s +:+ String q "")) with (String q "" +:+ (s +:+ String q "")).
  unfold TrimPrefix. rewrite (HasPrefix_app (String q "")), (sdrop_app (String q "")). apply TrimSuffix_app.
Qed.

(** Legacy directories win outside the cloud. *)
Lemma GetHomeDir_legacy w tempdir user config_dir h :
  InCloud w = false → exists_ w (fjoin [h; ".symfony5"]) = true →
  GetHomeDir w tempdir user config_dir (Some h) = fjoin [h; ".symfony5"].
Proof. unfold GetHomeDir, exists_. intros ->. by destruct (stat w _). Qed.
