(* ===== verification/Commands.v ===== *)
(** * The actions of the local commands ([commands/])

    The commands around the proxy and its domains, the certificate authority, the
    status and the list of servers, the openers, the export of variables and the
    checks.  What a command prints is modelled as data; the PHP store, the
    certificate library, the security checker and the browser are parameters.

    [proxyTLD_saved] and [attach_command_reaches] show what the commands leave in
    [proxy.json], [proxy_start_pid] when the pid file of the proxy is written,
    [ca_install_renewed] that a renewal makes exactly one new authority,
    [server_rows_spec] that every configured or running project is listed once. *)

From stdpp Require Import base tactics option list gmap strings pretty sorting.
From Stdlib Require Import ZArith Lia Ascii.
From S2P Require Import Prelude GoStrings FilePath Os Git Tailer Upsun Pid Proxy Reexec ServerCommands CloudCommands.

(** ** Domains of the proxy ([local_proxy_domain_attach.go], [local_proxy_domain_detach.go],
       [local_proxy_tld.go]) *)

(** The domains that are printed, or the error. *)
Definition proxyAttachDomain (evalSymlinks : string → option string) (w : os) (dir : string) (ds : list string) (dk : disk)
    : outcome (disk * option (list string)) :=
  match getProjectDir evalSymlinks w dir with
  | None => Ret (dk, None)
  | Some projectDir =>
    '(dk, r) ← Proxy.Load dk;
    match r with
    | Err _ => Ret (dk, None)
    | Val config =>
      '(config, dk, e) ← AddDirDomains config dk projectDir ds;
      Ret (dk, match e with None => Some (GetDomains config projectDir) | Some _ => None end)
    end
  end.
Definition proxyDetachDomain (ds : list string) (dk : disk) : outcome (disk * option (list string)) :=
  '(dk, r) ← Proxy.Load dk;
  match r with
  | Err _ => Ret (dk, None)
  | Val config =>
    let '(_, dk, e) := RemoveDirDomains config dk ds in
    Ret (dk, match e with None => Some ds | Some _ => None end)
  end.

(** [regexp.MustCompile(`^[a-z]{1,63}$`)]. *)
Fixpoint all_lower (s : string) : bool :=
  match s with EmptyString => true | String c s => is_lower c && all_lower s end.
Definition valid_tld (tld : string) : bool := bool_decide (1 ≤ slen tld ≤ 63) && all_lower tld.
(** [tld]: the argument, if it is present; the result is the TLD that is printed. *)
Definition proxyTLD (tld : option string) (dk : disk) : outcome (disk * option string) :=
  '(dk, r) ← Proxy.Load dk;
  match r with
  | Err _ => Ret (dk, None)
  | Val config =>
    match tld with
    | None => Ret (dk, Some (TLD config))
    | Some tld =>
      if negb (valid_tld tld) then Ret (dk, None)
      else let '(dk, e) := Save (mkConfig tld (Host config) (CPort config) (domains config)) dk in
           Ret (dk, match e with None => Some tld | Some _ => None end)
    end
  end.

(** ** The proxy server ([local_proxy_start.go], [local_proxy_stop.go], [local_proxy_url.go]) *)

Inductive proxy_effect :=
| PBackground | PNotify (status : string) | PServe | PPid (port : Z) | PRemovePid.
Inductive proxy_end :=
| PAlready (port : Z) | PFailed (what : string) | PExit (status : Z) | PInBackground | PServeErr | PShutdown.
(** What the certificate library answers: [NewCA], [HasCA], [LoadCA]. *)
Inductive ca_state := CaUnavailable | CaMissing | CaBroken | CaLoaded.
(** What comes first on [errChan] or the timer of two seconds: an error, an end
    of [Start] without one, or the timer. *)
Inductive first_event := StartErr | StartEnded | TwoSeconds.
Record proxy_env := mkProxyEnv {
  pe_running : option Z; pe_foreground : bool; pe_child : bool; pe_vardir : bool; pe_background : bg_answer; pe_boot : bool;
  pe_ca : ca_state; pe_logdir : bool; pe_log : bool; pe_config : option Config; pe_host : option string; pe_first : first_event;
  pe_pid_ok : bool }.

(** The part that goes to the background; [inl] ends the command. *)
Definition proxy_background (e : proxy_env) : list proxy_effect * (proxy_end + unit) :=
  if pe_foreground e || pe_child e then ([], inr ())
  else if negb (pe_vardir e) then ([], inl (PFailed "Could not create status file"))
  else match pe_background e with
       | BgUp => ([PBackground], inl PInBackground)
       | BgExitCoder status => ([PBackground], inl (PExit status))
       | BgError => ([PBackground], inr ())
       end.
(** The configuration with the host of the option; whether it can be saved is not
    looked at. *)
Definition proxy_config (e : proxy_env) (c : Config) : Config :=
  match pe_host e with Some h => mkConfig (TLD c) h (CPort c) (domains c) | None => c end.
Definition use_tls (ca : ca_state) : bool := match ca with CaLoaded => true | _ => false end.
(** From the start of the proxy to the end of the command, which a signal gives. *)
Definition proxy_serve (e : proxy_env) (c : Config) : list proxy_effect * proxy_end :=
  match pe_first e with
  | StartErr => ([PServe], PServeErr)
  | _ =>
    if negb (pe_pid_ok e) then ([PServe], PFailed "pid")
    else if negb (pe_foreground e) && pe_child e then ([PServe; PPid (CPort c); PNotify UP], PShutdown)
    else ([PServe; PPid (CPort c); PRemovePid], PShutdown)
  end.
Definition proxy_start (e : proxy_env) : list proxy_effect * proxy_end :=
  match pe_running e with
  | Some port => ([], PAlready port)
  | None =>
    match proxy_background e with
    | (es, inl r) => (es, r)
    | (es, inr _) =>
      let es := es ++ [PNotify "boot"] in
      if negb (pe_boot e) then (es, PFailed "boot")
      else if match pe_ca e with CaBroken => true | _ => false end then (es, PFailed "ca")
      else if negb (pe_logdir e && pe_log e) then (es, PFailed "log")
      else match pe_config e with
           | None => (es, PFailed "config")
           | Some c => let '(es', r) := proxy_serve e (proxy_config e c) in (es ++ es', r)
           end
    end
  end.

Section pids.
  Context (home : string) (name : string → string).
  Notation pid_new s dir := (Pid.New home name s dir None).

Definition proxy_pid (s : store) : outcome PidFile := pid_new s "__proxy__".
(** [None]: the proxy is not running. *)
Definition proxyStop (kill : Z → bool) (can_remove : string → bool) (s : store) : outcome (store * option bool) :=
  p ← proxy_pid s;
  if negb (IsRunning s p) then Ret (s, None)
  else let '(s, ok) := Stop kill can_remove s p in Ret (s, Some ok).
Definition local_url (p : PidFile) : string := p_Scheme p +:+ "://127.0.0.1:" +:+ Itoa (p_Port p).
Definition proxyUrl (s : store) : outcome (option string) :=
  p ← proxy_pid s; Ret (if IsRunning s p then Some (local_url p) else None).

(** ** The list of servers ([local_server_list.go]) *)

Definition href (scheme target : string) : string := "<href=" +:+ scheme +:+ "://" +:+ target +:+ ">" +:+ target +:+ "</>".
Definition port_cell (p : ConfiguredProject) : string :=
  if bool_decide (0 < cp_Port p)%Z
  then "<href=" +:+ cp_Scheme p +:+ "://127.0.0.1:" +:+ Itoa (cp_Port p) +:+ ">" +:+ Itoa (cp_Port p) +:+ "</>"
  else "Not running".
Definition project_rows (dir : string) (p : ConfiguredProject) : list (list string) :=
  match cp_Domains p with
  | [] => [[dir; port_cell p; ""]]
  | d :: ds => [dir; port_cell p; href (cp_Scheme p) d] :: ((λ d, [""; ""; href (cp_Scheme p) d]) <$> ds)
  end.
Definition server_rows (projects : gmap string ConfiguredProject) : list (list string) :=
  SortStrings (map_to_list projects).*1 ≫= λ dir,
    match projects !! dir with Some p => project_rows dir p | None => [] end.
(** [None] is an error of the configuration of the proxy. *)
Definition printConfiguredServers (can_remove : string → bool) (userHomeDir : string) (dk : disk) (s : store)
    : outcome (disk * store * option (list (list string))) :=
  '(dk, r) ← Proxy.Load dk;
  match r with
  | Err _ => Ret (dk, s, None)
  | Val config =>
    '(s, running) ← ToConfiguredProjects home can_remove userHomeDir s true;
    Ret (dk, s, Some (server_rows (GetConfiguredAndRunning (proxy_projects userHomeDir config) (map_to_list running))))
  end.
(** [proxy:status]: the URL of the proxy and the table. *)
Definition proxyStatus (can_remove : string → bool) (userHomeDir : string) (dk : disk) (s : store)
    : outcome (disk * store * option (string * option (list (list string)))) :=
  p ← proxy_pid s;
  if negb (IsRunning s p) then Ret (dk, s, None)
  else '(dk, s, rows) ← printConfiguredServers can_remove userHomeDir dk s; Ret (dk, s, Some (local_url p, rows)).

(** ** The status of a server ([local_server_status.go]) *)

(** Whence the variables come. *)
Inductive env_source := FromNothing | FromTunnel (brand : string) | FromDocker.
Definition source_of (env : gmap string string) : env_source :=
  let get k := default "" (env !! k) in
  if bool_decide (get "SYMFONY_DOCKER_ENV" = "1" ∧ get "SYMFONY_TUNNEL_ENV" = "") then FromDocker
  else if bool_decide (get "SYMFONY_TUNNEL" ≠ "" ∧ get "SYMFONY_TUNNEL_ENV" ≠ "") then FromTunnel (get "SYMFONY_TUNNEL_BRAND")
  else FromNothing.
Definition worker_line (p : PidFile) : string :=
  "    PID <info>" +:+ Itoa (p_Pid p) +:+ "</>: " +:+ Command p +:+
  (if bool_decide (p_Watched p = []) then "" else " (watching <comment>" +:+ Join (p_Watched p) "/, " +:+ "/</comment>)").
Record status := mkStatus {
  st_url : option string; st_domains : list string; st_workers : list string; st_env : option env_source }.
(** [env]: the variables of the project, [None] when they cannot be had. *)
Definition printWebServerStatus (can_remove : string → bool) (env : option (gmap string string)) (projectDir : string) (dk : disk) (s : store)
    : outcome (disk * store * status) :=
  p ← pid_new s projectDir;
  '(s, workers) ← AllWorkers home name can_remove s projectDir;
  '(dk, domains) ← (if negb (IsRunning s p) then Ret (dk, [])
     else '(dk, r) ← Proxy.Load dk;
          Ret (dk, match r with Val c => (λ d, p_Scheme p +:+ "://" +:+ d) <$> GetDomains c projectDir | Err _ => [] end));
  Ret (dk, s, mkStatus (if IsRunning s p then Some (local_url p) else None) domains (worker_line <$> workers)
                (option_map source_of env)).

(** ** Openers ([openers.go]) *)

Inductive open_res := OpenErr | ServerDown | ServiceNotFound | Opened (url : string).
(** [strings.TrimLeft(path, "/")]. *)
Fixpoint trim_slashes (s : string) : string :=
  match s with String "/" r => trim_slashes r | _ => s end.
Definition projectLocalOpen (evalSymlinks : string → option string) (w : os) (dir path : string) (dk : disk) (s : store)
    : outcome (disk * open_res) :=
  match getProjectDir evalSymlinks w dir with
  | None => Ret (dk, OpenErr)
  | Some projectDir =>
    p ← pid_new s projectDir;
    if negb (IsRunning s p) then Ret (dk, ServerDown)
    else
      '(dk, r) ← Proxy.Load dk;
      let host := match r with
                  | Val c => default ("127.0.0.1:" +:+ Itoa (p_Port p)) (head (GetReachableDomains c projectDir))
                  | Err _ => "127.0.0.1:" +:+ Itoa (p_Port p)
                  end in
      Ret (dk, Opened (p_Scheme p +:+ "://" +:+ host +:+ "/" +:+ trim_slashes path))
  end.
(** The commands for services; [find_url] is [FindServiceUrl] of the environment
    of a project, [None] when there is no such environment. *)
Definition open_service (find_url : string → option (string → outcome (option string))) (evalSymlinks : string → option string) (w : os)
    (dir service : string) : outcome open_res :=
  match getProjectDir evalSymlinks w dir ≫= find_url with
  | None => Ret OpenErr
  | Some find => r ← find service; Ret (match r with Some url => Opened url | None => ServiceNotFound end)
  end.
(** [func abstractOpenCmd]: the messages, [opened] being that of the library. *)
Definition abstractOpenCmd (opened : option string) (url : string) : list string :=
  let link := "<href=" +:+ url +:+ ">" +:+ url +:+ "</>" in
  match opened with
  | Some err => ["<error>Error while opening: " +:+ err +:+ " </>"; "Please visit " +:+ link +:+ " manually."]
  | None => ["Opened: " +:+ link]
  end.
Definition open_webmail find_url evalSymlinks w dir := open_service find_url evalSymlinks w dir "mailer".
Definition open_rabbitmq find_url evalSymlinks w dir := open_service find_url evalSymlinks w dir "amqp".
End pids.

(** ** Exporting variables ([var_export.go]) *)

Inductive export_res := ExportErr | NoVariable (name : string) | Printed (text : string).
(** [env]: the variables and their text on one line ([AsMap], [AsString]). *)
Definition variableExport (env : option (gmap string string * string)) (name : string) (multiline : bool) : export_res :=
  match env with
  | None => ExportErr
  | Some (m, line) =>
    if bool_decide (name ≠ "") then match m !! name with Some v => Printed v | None => NoVariable name end
    else if multiline then
      Printed (foldr (λ k r, "export " +:+ k +:+ "=" +:+ default "" (m !! k) +:+ newline +:+ r) "" (SortStrings (map_to_list m).*1))
    else Printed line
  end.

(** ** PHP versions ([local_php_list.go]) *)

Record php_version := mkPhp {
  v_Version : string; v_Path : string; v_PHPPath : string; v_FPMPath : string; v_CGIPath : string; v_server : string; v_IsSystem : bool }.
Definition php_row (currentPHPPath : string) (v : php_version) : list string :=
  let rel p := replace_first p (v_Path v +:+ sep) "" in
  [if bool_decide (v_PHPPath v = currentPHPPath) then "<options=reverse>" +:+ v_Version v +:+ "</>" else v_Version v;
   v_Path v; rel (v_PHPPath v); rel (v_FPMPath v); rel (v_CGIPath v); v_server v; if v_IsSystem v then "*" else ""].
(** [best]: [BestVersionForDir] of the working directory; [None] when that is not
    known. *)
Definition localPhpList (w : os) (best : string → option php_version) (versions : list php_version) : option (list (list string)) :=
  wd ← getwd w;
  Some (php_row (match best wd with Some v => v_PHPPath v | None => "" end) <$> versions).

(** ** Checks ([local_check_security.go], [local_check_requirements.go]) *)

Definition security_format_ok (format : string) : bool :=
  bool_decide (format ∈ [""; "markdown"; "json"; "yaml"; "ansi"; "junit"]).
(** The answers of the checker: the database, the lock file, its contents, the
    formatted output; whether GitHub's file can be opened and written. *)
Record security_env := mkSecurity {
  se_db : bool; se_update : bool; se_locate : bool; se_lock : bool; se_format : bool; se_github : bool; se_open : bool; se_write : bool;
  se_count : nat; se_disable : bool }.
(** The exit code, and whether the results were written for GitHub. *)
Definition localSecurityCheck (e : security_env) : Z * bool :=
  if negb (se_db e) then (127%Z, false)
  else if se_update e then (0%Z, false)
  else if negb (se_locate e) then (127%Z, false)
  else if negb (se_lock e) then (127%Z, false)
  else if negb (se_format e) then (127%Z, false)
  else if se_github e && negb (se_open e) then (127%Z, false)
  else if se_github e && negb (se_write e) then (127%Z, false)
  else (if bool_decide (0 < se_count e) && negb (se_disable e) then 1%Z else 0%Z, se_github e).

Inductive req_effect := QMkdir (dir : string) | QWrite (path : string) | QRun (dir : string) (args : list string) | QRemove (path : string).
(** [true]: the requirements are met; the checker is removed whenever the command
    came as far as writing it. *)
Definition localRequirementsCheck (w : os) (dir : string) (verbose mkdir write : bool) (ret : Z) : list req_effect * bool :=
  match (if bool_decide (dir = "") then getwd w else Some dir) with
  | None => ([], false)
  | Some path =>
    let cacheDir := fjoin [home_dir w; "cache"] in
    let made := if exists_ w cacheDir then [] else [QMkdir cacheDir] in
    if negb (exists_ w cacheDir) && negb mkdir then (made, false)
    else
      let cachePath := fjoin [cacheDir; "check.php"] in
      if negb write then (made ++ [QWrite cachePath; QRemove cachePath], false)
      else
        let args := ["php"; cachePath] ++ (if verbose then ["-v"] else []) ++ (if bool_decide (dir ≠ "") then [path] else []) in
        (made ++ [QWrite cachePath; QRun path args; QRemove cachePath], bool_decide (ret = 0%Z))
  end.

(** ** Production mode ([local_server_prod.go]) *)

(** [ok]: the file can be removed or made. *)
Definition localServerProd (evalSymlinks : string → option string) (w : os) (dir : string) (off ok : bool) : os * bool :=
  match getProjectDir evalSymlinks w dir with
  | None => (w, false)
  | Some projectDir =>
    let beacon := fjoin [projectDir; ".prod"] in
    if off then if ok && exists_ w beacon then (LocalEnv.with_stat w beacon NotExist, true) else (w, false)
    else if ok then (if exists_ w beacon then w else LocalEnv.with_stat w beacon (Found false), true) else (w, false)
  end.

(** ** The certificate authority ([local_server_ca_install.go], [local_server_ca_uninstall.go]) *)

(** The certificate library over a state; the results say whether an operation
    succeeded. *)
Record ca_ops (S : Type) := mkCaOps {
  HasCA : S → bool; CreateCA : S → S * bool; LoadCA : S → S * bool; Uninstall : S → S; RemoveAll : S → S;
  InstallCA : bool → S → S * bool; p12_missing : S → bool; MakeCert : S → S * bool }.
Arguments HasCA {S} _ _. Arguments CreateCA {S} _ _. Arguments LoadCA {S} _ _. Arguments Uninstall {S} _ _.
Arguments RemoveAll {S} _ _. Arguments InstallCA {S} _ _ _. Arguments p12_missing {S} _ _. Arguments MakeCert {S} _ _.
Inductive ca_effect := ECreate | ELoad | EUninstall | ERemoveAll | EInstall (force : bool) | EMakeCert.
Inductive ca_err := CreateErr | LoadErr_ | InstallErr_ | CertErr | OutOfFuel.

Section ca.
  Context {S : Type} (ops : ca_ops S).

(** The lines from the label [retry] to [LoadCA]: whether the authority is new. *)
Definition ca_ensure (newCA : bool) (s : S) : list ca_effect * S * (ca_err + bool) :=
  let '(tr, s, newCA, ok) :=
    if HasCA ops s then ([], s, newCA, true) else let '(s, ok) := CreateCA ops s in ([ECreate], s, true, ok) in
  if negb ok then (tr, s, inl CreateErr)
  else let '(s, ok) := LoadCA ops s in (tr ++ [ELoad], s, if ok then inr newCA else inl LoadErr_).
Definition ca_finish (force : bool) (s : S) : list ca_effect * S * option ca_err :=
  let '(s, ok) := InstallCA ops force s in
  if negb ok then ([EInstall force], s, Some InstallErr_)
  else if p12_missing ops s then
    let '(s, ok) := MakeCert ops s in ([EInstall force; EMakeCert], s, if ok then None else Some CertErr)
  else ([EInstall force], s, None).
(** The loop of [goto retry]. *)
Fixpoint ca_loop (fuel : nat) (renew newCA force : bool) (s : S) : list ca_effect * S * option ca_err :=
  match fuel with
  | 0 => ([], s, Some OutOfFuel)
  | Datatypes.S fuel =>
    match ca_ensure newCA s with
    | (tr, s, inl e) => (tr, s, Some e)
    | (tr, s, inr newCA) =>
      if renew && negb newCA then
        let '(tr', s, r) := ca_loop fuel false newCA force (RemoveAll ops (Uninstall ops s)) in
        (tr ++ [EUninstall; ERemoveAll] ++ tr', s, r)
      else let '(tr', s, r) := ca_finish force s in (tr ++ tr', s, r)
    end
  end.
Definition ca_install (new_ok renew force : bool) (s : S) : option (list ca_effect * S * option ca_err) :=
  if negb new_ok then None else Some (ca_loop 2 renew false force s).
(** An authority that cannot be opened is not an error here. *)
Definition ca_uninstall (new_ok : bool) (s : S) : list ca_effect * S * option ca_err :=
  if negb new_ok then ([], s, None)
  else if negb (HasCA ops s) then ([], s, None)
  else let '(s, ok) := LoadCA ops s in
       if negb ok then ([ELoad], s, Some LoadErr_) else ([ELoad; EUninstall; ERemoveAll], RemoveAll ops (Uninstall ops s), None).
End ca.

(** ** Projects, books, logs and programs ([project_init.go], [book_checkout.go],
       [book_check_reqs.go], [local_server_log.go], [local_run.go], [local_server_stop.go],
       [doctrine_check_server_version_setting.go]) *)

(** [gitInit]: a repository that is there, or that cannot be seen, is left alone. *)
Definition gitInit (git : list Git.call → string * Git.run_err) (w : os) (h : list Git.call) (cwd : string)
    : list Git.call * (option string * option Git.git_error) :=
  match stat w (fjoin [cwd; ".git"]) with
  | NotExist => Git.Init git h cwd true false
  | _ => (h, (None, None))
  end.

(** ** The steps of [local:new] ([local_new.go]) *)

(** [isEmpty]: [open] lists a directory, up to an error. *)
Definition isEmpty (open : string → option (list string)) (dir : string) : option bool :=
  (λ names : list string, bool_decide (names = [])) <$> open dir.
(** The repository of a new project: [git init], then the first commit. *)
Definition initProjectGit (git : list Git.call → string * Git.run_err) (h : list Git.call) (dir : string) (cloud upsun debug : bool)
    : list Git.call * option Git.git_error :=
  match Git.Init git h dir (cloud || upsun) debug with
  | (h, (_, Some e)) => (h, Some e)
  | (h, (_, None)) => let '(h, (_, e)) := Git.AddAndCommit git h dir ["."] "Add initial set of files" debug in (h, e)
  end.
Inductive cloud_err := CloudServicesErr | CloudFilesErr | CloudGitErr (e : Git.git_error).
(** The files for the cloud, and their commit; [dump] and [force] are not declared
    by the command. *)
Definition initCloud {CS : Type} (git : list Git.call → string * Git.run_err) (parseCloudServices : string → list string → option (list CS))
    (createFiles : CloudProduct → string → string → string → string → list CS → bool → bool → outcome (option (list string)))
    (h : list Git.call) (product : CloudProduct) (minorPHPVersion dir : string) (services : list string) (no_git debug : bool)
    : outcome (list Git.call * option cloud_err) :=
  match parseCloudServices dir services with
  | None => Ret (h, Some CloudServicesErr)
  | Some cloudServices =>
    files ← createFiles product dir "app" "" minorPHPVersion cloudServices false false;
    match files with
    | None => Ret (h, Some CloudFilesErr)
    | Some _ =>
      if no_git then Ret (h, None)
      else let '(h, (_, e)) := Git.AddAndCommit git h dir ["."] ("Add " +:+ Name product +:+ " configuration") debug in
           Ret (h, option_map CloudGitErr e)
    end
  end.
(** [.php-version]: what the file holds afterwards, and whether all went well. *)
Definition createPhpVersionFile (open write close : bool) (v dir : string) (old : option string) : option string * bool :=
  if negb open then (old, false)
  else if negb write then (Some "", false)
  else (Some (v +:+ newline), close).

Inductive init_err := InitNoGit | InitNoDir | InitPhp | InitGit | InitServices | InitCreate.
Record init_args := mkInit {
  ia_dir : string; ia_php : string; ia_slug : string; ia_template : string; ia_services : list string; ia_upsun : bool; ia_dump : bool;
  ia_force : bool }.
(** The versions of PHP, the services and the files are those of the templates;
    the result is the files that were created. *)
Definition projectInit {CS : Type} (git_found : bool) (git : list Git.call → string * Git.run_err) (evalSymlinks : string → option string)
    (forcePHPVersion : string → string → outcome (option string)) (parseCloudServices : string → list string → option (list CS))
    (createFiles : CloudProduct → string → string → string → string → list CS → bool → bool → outcome (option (list string)))
    (w : os) (h : list Git.call) (a : init_args) : outcome (list Git.call * (init_err + list string)) :=
  if negb git_found then Ret (h, inl InitNoGit)
  else match getProjectDir evalSymlinks w (ia_dir a) with
  | None => Ret (h, inl InitNoDir)
  | Some projectDir =>
    php ← forcePHPVersion (ia_php a) projectDir;
    match php with
    | None => Ret (h, inl InitPhp)
    | Some minorPHPVersion =>
      let '(h, (_, err)) := gitInit git w h projectDir in
      match err with
      | Some _ => Ret (h, inl InitGit)
      | None =>
        let slug := if bool_decide (ia_slug a = "") then "app" else ia_slug a in
        match parseCloudServices projectDir (ia_services a) with
        | None => Ret (h, inl InitServices)
        | Some services =>
          files ← createFiles (if ia_upsun a then Flex else Fixed) projectDir slug (ia_template a) minorPHPVersion services
                    (ia_dump a) (ia_force a);
          Ret (h, match files with None => inl InitCreate | Some l => inr l end)
        end
      end
    end
  end.

(** [getProjectDirAllowingMissing]: a directory that is gone keeps its absolute
    name; [missing] says that the error of [EvalSymlinks] is [ErrNotExist]. *)
Definition getProjectDirAllowingMissing (evalSymlinks : string → option string) (missing : string → bool) (w : os) (dir : string) : option string :=
  match Abs w dir with
  | None => None
  | Some d => match evalSymlinks d with Some p => Some p | None => if missing d then Some d else None end
  end.
Inductive stop_args := StopConflict | StopErr | StopDirs (dirs : list string).
(** The directories that [server:stop] gives to [stopProjects]. *)
Definition localServerStop (home : string) (can_remove : string → bool) (evalSymlinks : string → option string) (missing : string → bool)
    (userHomeDir : string) (w : os) (s : store) (all : bool) (dir : option string) : outcome (store * stop_args) :=
  if all && bool_decide (is_Some dir) then Ret (s, StopConflict)
  else if all then
    '(s, projects) ← ToConfiguredProjects home can_remove userHomeDir s false;
    Ret (s, StopDirs (map_to_list projects).*1)
  else Ret (s, match getProjectDirAllowingMissing evalSymlinks missing w (default "" dir) with
               | None => StopErr | Some d => StopDirs [d] end).

(** [local:run]: the directories that are watched, and whether the program runs;
    the option [dir] that it reads is not declared, hence empty. *)
Definition watched_dirs (watch : list string) : list string := watch ≫= λ d, Split d ",".
Inductive run_res := RunNoDir | RunAlready (pid : Z) | RunGo (p : PidFile) (detached : bool).
Definition localRun (home : string) (name : string → string) (evalSymlinks : string → option string) (w : os) (s : store)
    (watch : list string) (daemon : bool) (bin : string) (args : list string) : outcome run_res :=
  match getProjectDir evalSymlinks w "" with
  | None => Ret RunNoDir
  | Some projectDir =>
    p ← Pid.New home name s projectDir (Some (bin :: args));
    if IsRunning s p then Ret (RunAlready (p_Pid p))
    else Ret (RunGo (mkPid (p_Dir p) (watched_dirs watch) (p_Pid p) (p_Port p) (p_Scheme p) (p_Args p) (p_CustomName p) (Pid.p_path p)) daemon)
  end.

(** [server:log]: what is watched for a project. *)
Definition localServerLog (home : string) (name : string → string) (mkdir watch : string → bool) (evalSymlinks : string → option string)
    (can_remove : string → bool) (w : os) (s : store) (dir : string) (noFollow : bool) (lines : Z) (files : list string)
    (noHumanize noApp noWorker noServer : bool) : outcome (option (list PidFile * list string * option watch_error)) :=
  match getProjectDir evalSymlinks w dir with
  | None => Ret None
  | Some projectDir =>
    p ← Pid.New home name s projectDir None;
    '(s, workers) ← AllWorkers home name can_remove s projectDir;
    Ret (Some (Tailer.Watch w mkdir watch evalSymlinks (mkTailer (negb noFollow) lines noHumanize files noApp noWorker noServer)
                 p (WorkerPidDir home name p) workers))
  end.

(** [book:checkout]: the repository is looked at unless forced. *)
Definition bookCheckout {E : Type} (evalSymlinks : string → option string) (w : os) (dir : string) (force : bool)
    (checkRepository : string → option E) (checkout : string → option E) : option (option E) :=
  projectDir ← getProjectDir evalSymlinks w dir;
  Some (match (if force then None else checkRepository projectDir) with
        | Some e => Some e
        | None => checkout projectDir
        end).
(** [book:check-requirements]: the exit code; [None] is an error of the check. *)
Definition bookCheckReqs (ready : option bool) : option Z := (λ r : bool, if r then 0%Z else 1%Z) <$> ready.

(** ** What the commands leave in [proxy.json] *)

Lemma Load_Val dk dk' c : Proxy.Load dk = Ret (dk', Val c) →
  Proxy.Load dk' = Ret (dk', Val c) ∧ writable dk' = writable dk ∧ Host c ≠ "" ∧ is_Some (domains c).
Proof.
  unfold Proxy.Load. destruct dk as [f wr]. destruct f as [| | | |tld host port doms]; cbn; try done.
  - destruct wr; cbn; [|done]. intros [= <- <-]. cbn. split_and!; [done|done|done|by eexists].
  - intros [= <- <-]. cbn. split_and!; [done|done| |by eexists]. by case_bool_decide.
Qed.

Lemma Save_Load c dk dk' : Save c dk = (dk', None) → Host c ≠ "" → is_Some (domains c) → Proxy.Load dk' = Ret (dk', Val c).
Proof.
  unfold Save. destruct (writable dk); [|done]. intros [= <-] Hh [d Hd]. unfold Proxy.Load. cbn.
  rewrite bool_decide_eq_false_2 by done. destruct c as [tld host port doms]. cbn in *. by subst.
Qed.

(** When the command that changes the TLD succeeds, the configuration that is
    loaded next has this TLD, of 1 to 63 lower-case letters, and is otherwise as
    before; a command that fails leaves the configuration as it was loaded. *)
Theorem proxyTLD_saved tld dk dk1 c :
  Proxy.Load dk = Ret (dk1, Val c) →
  ∃ dk' r, proxyTLD (Some tld) dk = Ret (dk', r) ∧
    match r with
    | Some t => t = tld ∧ 1 ≤ slen tld ≤ 63 ∧ all_lower tld = true ∧
                Proxy.Load dk' = Ret (dk', Val (mkConfig tld (Host c) (CPort c) (domains c)))
    | None => Proxy.Load dk' = Ret (dk', Val c)
    end.
Proof.
  intros Hl. destruct (Load_Val _ _ _ Hl) as (Hl' & Hw & Hh & Hd). unfold proxyTLD. rewrite Hl. cbn.
  destruct (valid_tld tld) eqn:Hv; cbn; [|by eauto]. unfold valid_tld in Hv. apply andb_true_iff in Hv as [Hs%bool_decide_eq_true_1 Ha].
  destruct (Save _ dk1) as [dk' [e|]] eqn:Es; cbn; eexists _, _; (split; [done|]).
  - unfold Save in Es. destruct (writable dk1); [done|]. by injection Es as <- _.
  - split_and!; [done|lia..|done|]. by eapply (Save_Load (mkConfig tld (Host c) (CPort c) (domains c))).
Qed.

Lemma proxyTLD_saved_witness :
  ∃ dk' r, proxyTLD (Some "test") (mkDisk FMissing true) = Ret (dk', r) ∧
    match r with
    | Some t => t = "test" ∧ 1 ≤ slen "test" ≤ 63 ∧ all_lower "test" = true ∧
                Proxy.Load dk' = Ret (dk', Val (mkConfig "test" "localhost" 7080 (Some ∅)))
    | None => Proxy.Load dk' = Ret (dk', Val (mkConfig "wip" "localhost" 7080 (Some ∅)))
    end.
Proof. apply (proxyTLD_saved "test" (mkDisk FMissing true) (mkDisk DefaultConfig true) (mkConfig "wip" "localhost" 7080 (Some ∅))). reflexivity. Defined.

(** ** The pid file of the proxy *)

(** The effects before the proxy serves. *)
Definition quiet_effect (x : proxy_effect) : Prop := x = PBackground ∨ x = PNotify "boot".
Lemma proxy_start_shape e :
  Forall quiet_effect (proxy_start e).1 ∨
  ∃ es c, Forall quiet_effect es ∧ pe_running e = None ∧ pe_config e = Some c ∧
    (proxy_start e).1 = es ++ (proxy_serve e (proxy_config e c)).1.
Proof.
  unfold proxy_start. destruct (pe_running e) as [port|]; [by left|].
  assert (Hbg : Forall quiet_effect (proxy_background e).1).
  { unfold proxy_background, quiet_effect. destruct (_ || _), (pe_vardir e), (pe_background e); cbn; auto. }
  destruct (proxy_background e) as [es [r|u]]; cbn [fst] in Hbg; [by left|].
  assert (H1 : Forall quiet_effect (es ++ [PNotify "boot"])).
  { apply Forall_app; split; [done|]. constructor; [by right|constructor]. }
  destruct (pe_boot e); cbn; [|by left]. destruct (match pe_ca e with CaBroken => _ | _ => _ end); [by left|].
  destruct (pe_logdir e && pe_log e); cbn; [|by left]. destruct (pe_config e) as [c|]; [|by left].
  right. exists (es ++ [PNotify "boot"]), c. destruct (proxy_serve _ _). done.
Qed.

(** [proxy:start] writes the pid file of the proxy only when none was running
    and the proxy did not fail in its first two seconds, with the port of the
    configuration; a parent is told that the proxy is up only after that; and
    only a proxy in the foreground removes the file when it ends. *)
Theorem proxy_start_pid e :
  (∀ port, PPid port ∈ (proxy_start e).1 →
     pe_running e = None ∧ pe_first e ≠ StartErr ∧ ∃ c, pe_config e = Some c ∧ port = CPort c) ∧
  (PNotify UP ∈ (proxy_start e).1 → ∃ port l, (proxy_start e).1 = l ++ [PPid port; PNotify UP]) ∧
  (PRemovePid ∈ (proxy_start e).1 → pe_foreground e = true ∨ pe_child e = false).
Proof.
  destruct (proxy_start_shape e) as [H | (es & c & H & Hr & Hc & ->)].
  - rewrite Forall_forall in H. split_and!; [intros port Hx|intros Hx..]; by destruct (H _ Hx).
  - rewrite Forall_forall in H. assert (Hq : ∀ x, x ∈ es ++ (proxy_serve e (proxy_config e c)).1 → ~ quiet_effect x →
      x ∈ (proxy_serve e (proxy_config e c)).1) by (intros x [Hx | Hx]%elem_of_app Hn; [by destruct (Hn (H _ Hx))|done]).
    assert (Hp : CPort (proxy_config e c) = CPort c) by (unfold proxy_config; by destruct (pe_host e)).
    split_and!.
    + intros port Hx. apply Hq in Hx; [|by intros [|]]. revert Hx. unfold proxy_serve.
      destruct (pe_first e), (pe_pid_ok e), (negb (pe_foreground e) && pe_child e); cbn; try set_solver;
        intros Hx; (split_and!; [done|done|exists c; split; [done|rewrite <- Hp; set_solver]]).
    + intros Hx. apply Hq in Hx; [|by intros [|]]. revert Hx. unfold proxy_serve.
      destruct (pe_first e), (pe_pid_ok e), (negb (pe_foreground e) && pe_child e); cbn; try set_solver;
        intros _; exists (CPort (proxy_config e c)), (es ++ [PServe]); by rewrite <- app_assoc.
    + intros Hx. apply Hq in Hx; [|by intros [|]]. revert Hx. unfold proxy_serve.
      destruct (pe_first e), (pe_pid_ok e), (pe_foreground e), (pe_child e); cbn; try set_solver; auto.
Qed.

(** ** Renewing the certificate authority *)

Definition is_create (x : ca_effect) : bool := match x with ECreate => true | _ => false end.
Definition creations (tr : list ca_effect) : nat := length (List.filter is_create tr).

Section ca_facts.
  Context {S : Type} (ops : ca_ops S).

Lemma creations_app t1 t2 : creations (t1 ++ t2) = creations t1 + creations t2.
Proof. unfold creations. by rewrite List.filter_app, length_app. Qed.

Lemma ca_finish_creations force s : creations (ca_finish ops force s).1.1 = 0.
Proof.
  unfold ca_finish. destruct (InstallCA ops force s) as [s1 []]; cbn; [|done].
  destruct (p12_missing ops s1); [|done]. by destruct (MakeCert ops s1).
Qed.

(** The authority is made when there is none, and it is new then. *)
Lemma ca_ensure_spec newCA s tr s' r :
  ca_ensure ops newCA s = (tr, s', r) →
  creations tr = (if HasCA ops s then 0 else 1) ∧
  ∀ b, r = inr b → b = newCA || negb (HasCA ops s).
Proof.
  unfold ca_ensure. destruct (HasCA ops s); [|destruct (CreateCA ops s) as [s1 []]]; cbn;
    [destruct (LoadCA ops s) as [s2 []]|destruct (LoadCA ops s1) as [s2 []]|]; intros [= <- <- <-];
    split; try done; intros b [= <-]; by destruct newCA.
Qed.

(** Two turns are enough: with more, the loop does the same. *)
Lemma ca_loop_enough n renew force s : ca_loop ops (2 + n) renew false force s = ca_loop ops 2 renew false force s.
Proof.
  cbn. destruct (ca_ensure ops false s) as [[tr s1] [e|newCA]]; [done|]. destruct (renew && negb newCA); [|done].
  by destruct (ca_ensure ops newCA _) as [[tr' s2] [e|b]].
Qed.

Lemma ca_loop_no_fuel renew force s : (ca_loop ops 2 renew false force s).2 ≠ Some OutOfFuel.
Proof.
  assert (Hf : ∀ s, (ca_finish ops force s).2 ≠ Some OutOfFuel).
  { intros s0. unfold ca_finish. destruct (InstallCA ops force s0) as [s1 []]; cbn; [|done].
    destruct (p12_missing ops s1); [|done]. by destruct (MakeCert ops s1) as [? []]. }
  assert (He : ∀ b s e, (ca_ensure ops b s).2 = inl e → Some e ≠ Some OutOfFuel).
  { intros b s0 e. unfold ca_ensure. destruct (HasCA ops s0); [|destruct (CreateCA ops s0) as [s1 []]]; cbn;
      [destruct (LoadCA ops s0) as [? []]|destruct (LoadCA ops s1) as [? []]|]; cbn; try done; by intros [= <-]. }
  cbn. pose proof (He false s) as H1. destruct (ca_ensure ops false s) as [[tr s1] [e|newCA]]; cbn in *; [by apply H1|].
  destruct (renew && negb newCA).
  - pose proof (He newCA (RemoveAll ops (Uninstall ops s1))) as H2.
    destruct (ca_ensure ops newCA _) as [[tr' s2] [e|b]]; cbn in *; [by apply H2|].
    pose proof (Hf s2) as H3. by destruct (ca_finish ops force s2) as [[? ?] ?].
  - pose proof (Hf s1) as H3. by destruct (ca_finish ops force s1) as [[? ?] ?].
Qed.
End ca_facts.

(** When the certificates can be removed, a successful [server:ca:install
    --renew] makes exactly one new authority, whether there was one before or
    not; without [--renew] it makes one exactly when there was none.  The retry
    ends after one turn. *)
Theorem ca_install_renewed {S} (ops : ca_ops S) renew force s tr s' :
  (∀ s, HasCA ops (RemoveAll ops s) = false) →
  ca_install ops true renew force s = Some (tr, s', None) →
  creations tr = if renew || negb (HasCA ops s) then 1 else 0.
Proof.
  intros Hrm. unfold ca_install. cbn [negb]. intros [= H]. revert H. cbn [ca_loop].
  destruct (ca_ensure ops false s) as [[tr1 s1] [e|newCA]] eqn:E1; [done|].
  apply ca_ensure_spec in E1 as [C1 N1]. specialize (N1 _ eq_refl). cbn in N1. subst newCA. rewrite negb_involutive.
  destruct (renew && HasCA ops s) eqn:Er.
  - apply andb_true_iff in Er as [-> Hh]. rewrite Hh in *. cbn [negb orb].
    destruct (ca_ensure ops false (RemoveAll ops (Uninstall ops s1))) as [[tr2 s2] [e|b]] eqn:E2; [done|].
    apply ca_ensure_spec in E2 as [C2 _]. rewrite Hrm in C2. cbn [andb].
    pose proof (ca_finish_creations ops force s2) as C3. destruct (ca_finish ops force s2) as [[tr3 s3] r]. cbn [fst] in C3.
    intros [= <- <- ->]. rewrite creations_app, C1. change (creations (tr2 ++ tr3) = 1). by rewrite creations_app, C2, C3.
  - pose proof (ca_finish_creations ops force s1) as C3. destruct (ca_finish ops force s1) as [[tr3 s3] r]. cbn [fst] in C3.
    intros [= <- <- ->]. rewrite creations_app, C1, C3. destruct renew, (HasCA ops s); done.
Qed.

(** An authority as the number of the last one that was made. *)
Definition ex_ca : ca_ops (option nat * nat) :=
  mkCaOps _ (λ s, bool_decide (is_Some s.1)) (λ s, ((Some s.2, Datatypes.S s.2), true)) (λ s, (s, true)) (λ s, s) (λ s, (None, s.2))
    (λ _ s, (s, true)) (λ _, true) (λ s, (s, true)).
Lemma ca_install_renewed_witness :
  creations [ELoad; EUninstall; ERemoveAll; ECreate; ELoad; EInstall false; EMakeCert] = 1.
Proof. apply (ca_install_renewed ex_ca true false (Some 0, 1) _ (Some 1, 2)); reflexivity. Defined.

(** When they cannot be removed, the old authority is installed again and the
    command still succeeds. *)
Definition ex_stuck : ca_ops unit :=
  mkCaOps _ (λ _, true) (λ s, (s, true)) (λ s, (s, true)) (λ s, s) (λ s, s) (λ _ s, (s, true)) (λ _, false) (λ s, (s, true)).
Lemma ca_renew_stuck :
  ca_install ex_stuck true true false tt = Some ([ELoad; EUninstall; ERemoveAll; ELoad; EInstall false], tt, None).
Proof. reflexivity. Qed.

(** ** The table of servers *)

Definition row_dir (r : list string) : string := default "" (head r).
Lemma project_rows_dirs dir p : dir ≠ "" →
  List.filter (λ d, negb (bool_decide (d = ""))) (row_dir <$> project_rows dir p) = [dir].
Proof.
  intros Hd. unfold project_rows. destruct (cp_Domains p) as [|d ds]; cbn.
  - by rewrite bool_decide_eq_false_2.
  - rewrite bool_decide_eq_false_2 by done. cbn. f_equal. by induction ds.
Qed.

(** The table of servers has, in order, one row with a name for every project
    that is configured or running, and a row for each of its domains. *)
Theorem server_rows_spec (projects : gmap string ConfiguredProject) :
  projects !! "" = None →
  List.filter (λ d, negb (bool_decide (d = ""))) (row_dir <$> server_rows projects) = SortStrings (map_to_list projects).*1 ∧
  ∀ dir p d, projects !! dir = Some p → d ∈ cp_Domains p →
    ∃ row, row ∈ server_rows projects ∧ last row = Some (href (cp_Scheme p) d).
Proof.
  intros Hn. split.
  - unfold server_rows. assert (Hk : ∀ k, k ∈ SortStrings (map_to_list projects).*1 → is_Some (projects !! k)).
    { intros k Hk. rewrite SortStrings_perm in Hk. apply list_elem_of_fmap in Hk as ([k' p] & -> & Hp).
      apply elem_of_map_to_list in Hp. cbn. by rewrite Hp. }
    induction (SortStrings (map_to_list projects).*1) as [|k l IH]; [done|]. cbn. rewrite fmap_app, List.filter_app.
    destruct (Hk k) as [p Hp]; [by left|]. rewrite Hp, project_rows_dirs by (intros ->; congruence).
    cbn. f_equal. apply IH. intros. apply Hk. by right.
  - intros dir p d Hp Hd. assert (Hrow : ∃ row, row ∈ project_rows dir p ∧ last row = Some (href (cp_Scheme p) d)).
    { unfold project_rows. destruct (cp_Domains p) as [|x ds]; [by apply not_elem_of_nil in Hd|].
      apply elem_of_cons in Hd as [-> | Hd]; [eexists; split; [by left|done]|].
      exists [""; ""; href (cp_Scheme p) d]. split; [|done]. right. apply list_elem_of_fmap. eauto. }
    destruct Hrow as (row & H1 & H2). exists row. split; [|done]. unfold server_rows. apply list_elem_of_bind. exists dir.
    rewrite Hp. split; [done|]. rewrite SortStrings_perm. apply list_elem_of_fmap. exists (dir, p).
    split; [done|]. by apply elem_of_map_to_list.
Qed.

Lemma server_rows_spec_witness :
  List.filter (λ d, negb (bool_decide (d = "")))
    (row_dir <$> server_rows {["~/app" := mkConfigured 8000 "https" ["app.wip"; "api.app.wip"]]}) = ["~/app"].
Proof.
  destruct (server_rows_spec {["~/app" := mkConfigured 8000 "https" ["app.wip"; "api.app.wip"]]}) as [-> _]; reflexivity.
Defined.

(** ** Small facts *)

(** A refused format is not one of those the check prints, though the help lists
    it. *)
Lemma security_text : security_format_ok "text" = false.
Proof. reflexivity. Qed.

(** The exit code tells issues from errors. *)
Lemma localSecurityCheck_code e :
  (localSecurityCheck e).1 = 1%Z ↔
  se_db e = true ∧ se_update e = false ∧ se_locate e = true ∧ se_lock e = true ∧ se_format e = true ∧
  (se_github e = true → se_open e = true ∧ se_write e = true) ∧ 0 < se_count e ∧ se_disable e = false.
Proof.
  unfold localSecurityCheck.
  destruct (se_db e), (se_update e), (se_locate e), (se_lock e), (se_format e), (se_github e), (se_open e), (se_write e); cbn;
    try (split; [done|naive_solver]); case_bool_decide; destruct (se_disable e); cbn; split; try done; naive_solver.
Qed.

(** Whatever happens after it was written, the checker is removed. *)
Lemma requirements_removed w dir verbose mkdir write ret path :
  QWrite path ∈ (localRequirementsCheck w dir verbose mkdir write ret).1 →
  last (localRequirementsCheck w dir verbose mkdir write ret).1 = Some (QRemove path).
Proof.
  unfold localRequirementsCheck. destruct (if bool_decide (dir = "") then _ else _) as [p|]; [|set_solver].
  destruct (exists_ _ _), mkdir, write; cbn; try set_solver; intros H; f_equal; f_equal; set_solver.
Qed.

(** After [proxy:domain:attach], a proxy that loads the configuration finds the
    directory for each of the domains. *)
Lemma attach_command_reaches evalSymlinks w dir projectDir ds dk dk1 c keys :
  getProjectDir evalSymlinks w dir = Some projectDir → Proxy.Load dk = Ret (dk1, Val c) → writable dk1 = true → valid_domains c ds →
  ∃ dk' printed c', proxyAttachDomain evalSymlinks w dir ds dk = Ret (dk', Some printed) ∧ Proxy.Load dk' = Ret (dk', Val c') ∧
    ∀ d, d ∈ ds → GetDir keys c' (d +:+ "." +:+ TLD c) = projectDir.
Proof.
  intros Hp Hl Hw Hv. destruct (Load_Val _ _ _ Hl) as (_ & _ & _ & [m Hm]).
  destruct (AddDirDomains_attaches c dk1 projectDir ds m keys Hm Hw Hv) as (c' & dk' & Ha & Ht & Hd & _ & c'' & Hl' & Ht' & _ & Hm').
  unfold proxyAttachDomain. rewrite Hp, Hl. cbn. rewrite Ha. cbn. eexists _, _, c''. split_and!; [done..|].
  intros d Hin. rewrite <- Ht, <- Ht'. apply GetDir_attached. by rewrite Hm', Hd, bool_decide_eq_true_2.
Qed.
