(* ===== verification/Pages.v ===== *)
(** * What the proxy serves itself ([local/html/html.go], [local/proxy/proxy.go],
      [local/proxy/cert_store.go])

    The pages of the proxy, with the formatting of [fmt.Sprintf] they go through;
    the certificates it makes for the domains; the connections of a tunnel to a
    local web server.  The style sheet and the logo of the pages are given.
    Certificates, their cache and the network are parameters.

    [getCertificate_named] shows that a certificate is always one that was made
    for the domain it is handed out for, [hijack_closes] that a tunnel closes what
    it opened on every path, [CreateTerminal_plain] and [CreateTerminal_percent]
    when the text of a page is shown as it is. *)

From stdpp Require Import base tactics option list gmap strings pretty sorting.
From Stdlib Require Import ZArith Lia Ascii.
From S2P Require Import Prelude GoStrings FilePath Os Humanlog Pid Proxy.

(** ** [fmt.Sprintf] *)

(** The verbs [%s], [%d] and [%%], and any letter when no argument is left; [None]
    is a format outside of this part (flags, widths, other verbs). *)
Inductive fmt_arg := AString (s : string) | AInt (z : Z).
Definition is_letter (c : ascii) : bool := is_lower c || is_upper c.
Definition format_arg (verb : ascii) (a : fmt_arg) : option string :=
  match a with
  | AString s =>
    if bool_decide (verb = "s"%char) then Some s
    else if bool_decide (verb = "d"%char) then Some ("%!d(string=" +:+ s +:+ ")") else None
  | AInt z =>
    if bool_decide (verb = "d"%char) then Some (Itoa z)
    else if bool_decide (verb = "s"%char) then Some ("%!s(int=" +:+ Itoa z +:+ ")") else None
  end.
Definition extra_arg (a : fmt_arg) : string :=
  match a with AString s => "string=" +:+ s | AInt z => "int=" +:+ Itoa z end.
Definition extra_args (args : list fmt_arg) : string :=
  if bool_decide (length args = 0) then "" else "%!(EXTRA " +:+ Join (extra_arg <$> args) ", " +:+ ")".
Fixpoint Sprintf (format : string) (args : list fmt_arg) : option string :=
  match format with
  | EmptyString => Some (extra_args args)
  | String "%" EmptyString => Some ("%!(NOVERB)" +:+ extra_args args)
  | String "%" (String c format) =>
    if bool_decide (c = "%"%char) then r ← Sprintf format args; Some (String "%" r)
    else if negb (is_letter c) then None
    else match args with
         | [] => r ← Sprintf format []; Some ("%!" +:+ String c "(MISSING)" +:+ r)
         | a :: args => x ← format_arg c a; r ← Sprintf format args; Some (x +:+ r)
         end
  | String c format => r ← Sprintf format args; Some (String c r)
  end.

(** ** [html.go] *)

Definition doCreateTerminal (text color : string) (args : list fmt_arg) : option string :=
  text ← Sprintf (ReplaceAll text newline "<br>") args;
  Sprintf (newline +:+ "<div style=" +:+ String dquote "background-color:%s;padding:20px" +:+ String dquote " class=" +:+
           String dquote "terminal" +:+ String dquote ">" +:+ newline +:+
           String "009" "<div id=" +:+ String dquote "prompt" +:+ String dquote ">" +:+ newline +:+
           String "009" (String "009" "<code>%s</code>") +:+ newline +:+ String "009" "</div>" +:+ newline +:+ "</div>")
    [AString color; AString text].
Definition CreateErrorTerminal (text : string) (args : list fmt_arg) : option string := doCreateTerminal text "#dc322f" args.
Definition CreateSuccessTerminal (text : string) (args : list fmt_arg) : option string := doCreateTerminal text "#859900" args.
Definition CreateTerminal (text : string) (args : list fmt_arg) : option string := doCreateTerminal text "#073642" args.
Definition CreateAction (url text : string) (args : list fmt_arg) : option string :=
  text ← Sprintf (ReplaceAll text newline "<br>") args;
  Sprintf ("<div style=" +:+ String dquote "text-align: center" +:+ String dquote "><span class=" +:+ String dquote "button" +:+
           String dquote "><a href=" +:+ String dquote "%s" +:+ String dquote ">%s</a></span></div>")
    [AString url; AString text].

Section pages.
  (** [resetStyles()] and the picture below the head of the page. *)
  Context (resetStyles logo : string).

Definition WrapHTML (title html redirect : string) : string :=
  let redirect :=
    if bool_decide (redirect = "") then ""
    else "<meta http-equiv=" +:+ String dquote "refresh" +:+ String dquote " content=" +:+ String dquote "3; url=" +:+ redirect +:+
         String dquote " />" in
  "<html><head><title>Symfony Local Web Server: " +:+ title +:+ "</title><style>" +:+ resetStyles +:+ "</style>" +:+ redirect +:+
  "</head><body>" +:+ logo +:+ html.

(** ** The answers of the handler of requests *)

Definition error_page (html : option string) : option string := (λ h, WrapHTML "Proxy Error" h "") <$> html.
(** [None]: the request goes to the web server, or is not for the proxy. *)
Definition reply_page (r : reply) : option (option string) :=
  match r with
  | NotForUs | ToBackend _ _ => None
  | WrongPort port used host =>
    let https := bool_decide (port = "443") in
    Some (error_page (
      t ← CreateErrorTerminal ("You must use port " +:+ (if https then "443" else "80") +:+ " for " +:+ (if https then "HTTPS" else "HTTP")
                                +:+ " requests (%s used)") [AString used];
      a ← CreateAction ((if https then "https://" else "http://") +:+ host +:+ "/")
            ("Go to port " +:+ (if https then "443" else "80")) [];
      Some (t +:+ a)))
  | NotLinked host short =>
    Some (error_page (CreateErrorTerminal
      ("# The " +:+ String dquote "%s" +:+ String dquote " hostname is not linked to a directory yet." +:+ newline +:+
       "# Link it via the following command:" +:+ newline +:+ newline +:+
       "<span class=" +:+ String dquote "command" +:+ String dquote ">symfony proxy:domain:attach %s --dir=/some/dir</span>")
      [AString host; AString short]))
  | NotStarted host dir =>
    Some (error_page (
      t ← CreateErrorTerminal
        ("# It looks like the web server associated with the " +:+ String dquote "%s" +:+ String dquote " hostname is not started yet." +:+
         newline +:+ "# Start it via the following command:" +:+ newline +:+ newline +:+
         "<span class=" +:+ String dquote "command" +:+ String dquote ">symfony server:start --daemon --dir=%s</span>")
        [AString host; AString dir];
      a ← CreateAction "" "Retry" [];
      Some (t +:+ a)))
  end.

(** ** The index and the PAC file *)

Definition pac_file (tld host : string) : string :=
  "// Only proxy *." +:+ tld +:+ " requests" +:+ newline +:+
  "// Configuration file in ~/.symfony5/proxy.json" +:+ newline +:+
  "function FindProxyForURL (url, host) {" +:+ newline +:+
  String "009" "if (dnsDomainIs(host, '." +:+ tld +:+ "')) {" +:+ newline +:+
  String "009" (String "009" "if (isResolvable(host)) {") +:+ newline +:+
  String "009" (String "009" (String "009" "return 'DIRECT';")) +:+ newline +:+
  String "009" (String "009" "}") +:+ newline +:+ newline +:+
  String "009" (String "009" "return 'PROXY ") +:+ host +:+ "';" +:+ newline +:+
  String "009" "}" +:+ newline +:+ newline +:+
  String "009" "return 'DIRECT';" +:+ newline +:+ "}" +:+ newline.

Definition index_domain (scheme domain : string) : string :=
  let url := scheme +:+ "://" +:+ domain +:+ "/" in
  (if is_wildcard domain then url else "<a href=" +:+ String dquote url +:+ String dquote ">" +:+ url +:+ "</a>") +:+ "<br>".
Definition index_row (dir : string) (p : ConfiguredProject) : string :=
  "<tr><td>" +:+ dir +:+
  (if bool_decide (0 < cp_Port p)%Z
   then "<td><a href=" +:+ String dquote "http://127.0.0.1:" +:+ Itoa (cp_Port p) +:+ "/" +:+ String dquote ">" +:+ Itoa (cp_Port p) +:+ "</a>"
   else "<td style=" +:+ String dquote "color: #b58900" +:+ String dquote ">Not running") +:+
  "<td>" +:+ foldr (λ d r, index_domain (cp_Scheme p) d +:+ r) "" (cp_Domains p).
Definition index_content (projects : gmap string ConfiguredProject) : string :=
  "<table><tr><th>Directory<th>Port<th>Domains" +:+
  foldr (λ dir r, match projects !! dir with Some p => index_row dir p +:+ r | None => r end) "" (SortStrings (map_to_list projects).*1).
(** The content is the format of the page. *)
Definition serveIndex (projects : option (gmap string ConfiguredProject)) : option string :=
  match projects with
  | None => Some ""
  | Some projects => t ← CreateTerminal (index_content projects) []; Some (WrapHTML "Proxy Index" t "")
  end.
(** Status and content; [json] is the encoder. *)
Definition serveIndexJSON (json : gmap string ConfiguredProject → string) (projects : option (gmap string ConfiguredProject)) : Z * string :=
  match projects with
  | None => (500%Z, "Internal Server Error" +:+ newline)
  | Some projects => (200%Z, json projects)
  end.
Definition getConfiguredProjects (home : string) (can_remove : string → bool) (userHomeDir : string) (dk : disk) (s : store)
    : outcome (disk * store * option (gmap string ConfiguredProject)) :=
  '(dk, r) ← Proxy.Load dk;
  match r with
  | Err _ => Ret (dk, s, None)
  | Val config =>
    '(s, running) ← ToConfiguredProjects home can_remove userHomeDir s true;
    Ret (dk, s, Some (GetConfiguredAndRunning (proxy_projects userHomeDir config) (map_to_list running)))
  end.
End pages.

(** ** Certificates ([cert_store.go]) *)

(** A cache that may forget: what it holds was added under the key. *)
Class Cache (C K V : Type) := {
  cache_get : C → K → option V * C;
  cache_add : C → K → V → C;
  cached : C → K → V → Prop;
  cache_get_spec c k v c' : cache_get c k = (Some v, c') → cached c k v;
  cache_get_keeps c k k' v : cached (cache_get c k).2 k' v → cached c k' v;
  cache_add_spec c k v k' v' : cached (cache_add c k v) k' v' → (k' = k ∧ v' = v) ∨ cached c k' v' }.

Section certs.
  Context {C V : Type} `{!Cache C string V} (CreateCert : string → option V).

(** [keys]: the order in which Go visits the domains. *)
Definition getCertificate (keys : list string) (c : Config) (serverName : string) (cache : C) : option V * C :=
  let name := NormalizeDomain keys c serverName in
  match cache_get cache name with
  | (Some val, cache) => (Some val, cache)
  | (None, cache) =>
    match CreateCert name with
    | None => (None, cache)
    | Some cert => (Some cert, cache_add cache name cert)
    end
  end.
(** The handshakes of a proxy, each with the configuration of its time. *)
Fixpoint handshakes (hs : list (list string * Config * string)) (cache : C) : list (option V) * C :=
  match hs with
  | [] => ([], cache)
  | (keys, c, serverName) :: hs =>
    let '(v, cache) := getCertificate keys c serverName cache in
    let '(vs, cache) := handshakes hs cache in (v :: vs, cache)
  end.
End certs.

(** ** The tunnel ([tlsToLocalWebServer]) *)

Inductive conn := Client | Target.
Inductive tunnel_effect :=
| TAccept | TSend (text : string) | TDial (port : Z) | TOffer (protocol : string) | TCopy | TClose (c : conn).
(** The handshake of the client fails, perhaps because it speaks plain HTTP. *)
Inductive client_hello := HelloOk (protocol : string) | HelloErr (plain_http : bool).
Definition tlsRecordHeaderLooksLikeHTTP (hdr : string) : bool :=
  bool_decide (hdr ∈ ["GET /"; "HEAD "; "POST "; "PUT /"; "OPTIO"]).
(** [t_dial] is the connection to the server; both copies end before the last
    lines, [t_copy] says that the one to the client did not fail. *)
Record tunnel_env := mkTunnelEnv { t_hello : client_hello; t_dial : bool; t_handshake : bool; t_copy : bool }.
Definition httpError : list tunnel_effect := [TSend "HTTP/1.1 502 Bad Gateway"; TClose Client].
Definition hijack (localPort : Z) (e : tunnel_env) : list tunnel_effect :=
  [TSend "HTTP/1.0 200 OK"] ++
  match t_hello e with
  | HelloErr plain => (if plain then [TSend "HTTP/1.0 400 Bad Request"] else []) ++ [TClose Client]
  | HelloOk protocol =>
    [TAccept] ++
    if negb (t_dial e) then httpError
    else [TDial localPort; TOffer (if bool_decide (protocol = "") then "http/1.1" else protocol)] ++
         if negb (t_handshake e) then httpError ++ [TClose Target]
         else [TCopy] ++ (if t_copy e then [] else httpError) ++ [TClose Client; TClose Target]
  end.

(** ** Formats *)

Lemma Sprintf_cons c format args : c ≠ "%"%char →
  Sprintf (String c format) args = (r ← Sprintf format args; Some (String c r)).
Proof. intros Hc. cbn. destruct c as [[] [] [] [] [] [] [] []]; done. Qed.

(** Text without a percent sign is printed as it is. *)
Lemma Sprintf_plain format : lacks "%" format = true → Sprintf format [] = Some format.
Proof.
  induction format as [|c format IH]; [done|]. unfold lacks in *. cbn [sforall]. rewrite andb_true_iff, negb_true_iff.
  intros [Hc Hf]. apply Ascii.eqb_neq in Hc. rewrite Sprintf_cons by congruence. by rewrite IH.
Qed.

Lemma replace_lacks c skip s old new : lacks c s = true → lacks c new = true → lacks c (replace_aux skip s old new) = true.
Proof.
  intros Hs Hn. revert skip Hs. induction s as [|x s IH]; intros skip; [done|]. unfold lacks at 1. cbn [sforall].
  rewrite andb_true_iff. intros [Hx Hs]. cbn [replace_aux]. destruct skip as [|k]; [|by apply IH].
  destruct (HasPrefix _ old).
  - rewrite lacks_app, Hn. by apply IH.
  - unfold lacks. cbn [sforall]. rewrite Hx. by apply IH.
Qed.

(** The box around a text. *)
Definition terminal_box (color text : string) : string :=
  newline +:+ "<div style=" +:+ String dquote "background-color:" +:+ color +:+ ";padding:20px" +:+ String dquote " class=" +:+
  String dquote "terminal" +:+ String dquote ">" +:+ newline +:+ String "009" "<div id=" +:+ String dquote "prompt" +:+ String dquote ">" +:+
  newline +:+ String "009" (String "009" "<code>") +:+ text +:+ "</code>" +:+ newline +:+ String "009" "</div>" +:+ newline +:+ "</div>".
Lemma terminal_box_format color text args t :
  Sprintf (ReplaceAll text newline "<br>") args = Some t → doCreateTerminal text color args = Some (terminal_box color t).
Proof. unfold doCreateTerminal. intros ->. reflexivity. Qed.

(** A page without a percent sign shows its text. *)
Lemma CreateTerminal_plain text : lacks "%" text = true →
  CreateTerminal text [] = Some (terminal_box "#073642" (ReplaceAll text newline "<br>")).
Proof. intros Ht. apply terminal_box_format, Sprintf_plain, replace_lacks; done. Qed.

(** The name of a directory with a percent sign is taken for a verb. *)
Definition ex_percent : gmap string ConfiguredProject := {["/srv/100%sure" := mkConfigured 0 "https" []]}.
Lemma CreateTerminal_percent :
  CreateTerminal (index_content ex_percent) [] =
  Some (terminal_box "#073642"
    ("<table><tr><th>Directory<th>Port<th>Domains<tr><td>/srv/100%!s(MISSING)ure<td style=" +:+
     String dquote "color: #b58900" +:+ String dquote ">Not running<td>")).
Proof. vm_compute. reflexivity. Qed.

(** Every request that the proxy answers itself gets a page. *)
Lemma reply_page_total styles logo r x : reply_page styles logo r = Some x → is_Some x.
Proof.
  destruct r as [|port used host|host short|host dir|]; cbn [reply_page]; try done.
  - case_bool_decide; intros [= <-]; eexists; reflexivity.
  - intros [= <-]; eexists; reflexivity.
  - intros [= <-]; eexists; reflexivity.
Qed.

(** ** Certificates are those of the domain *)

Section cert_facts.
  Context {C V : Type} `{!Cache C string V} (CreateCert : string → option V) (domains_of : V → list string).
  Hypothesis CreateCert_domains : ∀ name v, CreateCert name = Some v → domains_of v = [name].

Definition cache_ok (cache : C) : Prop := ∀ k v, cached cache k v → domains_of v = [k].

Lemma getCertificate_ok keys c serverName cache v cache' :
  cache_ok cache → getCertificate CreateCert keys c serverName cache = (v, cache') →
  cache_ok cache' ∧ ∀ x, v = Some x → domains_of x = [NormalizeDomain keys c serverName].
Proof.
  intros Hc. unfold getCertificate. set (name := NormalizeDomain keys c serverName).
  destruct (cache_get cache name) as [[val|] cache1] eqn:Eg.
  - intros [= <- <-]. split.
    + intros k x Hx. apply Hc. apply (cache_get_keeps cache name). by rewrite Eg.
    + intros x [= <-]. by apply (Hc name), (cache_get_spec _ _ _ _ Eg).
  - assert (H1 : cache_ok cache1) by (intros k x Hx; apply Hc, (cache_get_keeps cache name); by rewrite Eg).
    destruct (CreateCert name) as [cert|] eqn:E; intros [= <- <-].
    + split; [|by intros x [= <-]; auto]. intros k x [[-> ->] | Hx]%cache_add_spec; [by apply CreateCert_domains|by apply H1].
    + split; [done|by intros x].
Qed.

Lemma handshakes_ok hs cache : cache_ok cache →
  cache_ok (handshakes CreateCert hs cache).2 ∧
  Forall2 (λ h v, ∀ x, v = Some x → domains_of x = [NormalizeDomain h.1.1 h.1.2 h.2]) hs (handshakes CreateCert hs cache).1.
Proof.
  revert cache. induction hs as [|[[keys c] serverName] hs IH]; intros cache Hc; [by split; [|constructor]|]. cbn.
  destruct (getCertificate CreateCert keys c serverName cache) as [v cache1] eqn:E.
  destruct (getCertificate_ok _ _ _ _ _ _ Hc E) as [H1 H2]. destruct (IH cache1 H1) as [H3 H4].
  destruct (handshakes CreateCert hs cache1) as [vs cache2]. by split; [|constructor].
Qed.
End cert_facts.

(** C13: over any number of handshakes, with any changes of the configuration in
    between and whatever the cache forgets, a certificate that the proxy hands
    out is one for exactly the domain that the asked name belongs to. *)
Theorem getCertificate_named {C V : Type} `{!Cache C string V} (CreateCert : string → option V) (domains_of : V → list string)
    (hs : list (list string * Config * string)) (empty : C) :
  (∀ name v, CreateCert name = Some v → domains_of v = [name]) → (∀ k v, ~ cached empty k v) →
  Forall2 (λ h v, ∀ x, v = Some x → domains_of x = [NormalizeDomain h.1.1 h.1.2 h.2]) hs (handshakes CreateCert hs empty).1.
Proof. intros Hd He. apply handshakes_ok; [done|]. intros k v Hk. by destruct (He k v). Qed.

(** A cache that keeps the last entry only. *)
#[export] Instance last_cache : Cache (option (string * string)) string string.
Proof.
  refine {| cache_get c k := (match c with Some (k', v) => if bool_decide (k' = k) then Some v else None | None => None end, c);
            cache_add _ k v := Some (k, v); cached c k v := c = Some (k, v) |}.
  - intros [[k' v']|] k v c'; [|done]. case_bool_decide; [|done]. by intros [= <- <-]; subst.
  - done.
  - intros c k v k' v' [= <- <-]. auto.
Defined.
Definition ex_hellos : list (list string * Config * string) :=
  let c := mkConfig "wip" "localhost" 7080 (Some {["*.app" := "/srv"]}) in
  [(["*.app"], c, "a.app.wip"); (["*.app"], c, "b.app.wip"); (["*.app"], c, "other.wip")].
Lemma getCertificate_named_witness :
  Forall2 (λ h v, ∀ x, v = Some x → [x] = [NormalizeDomain h.1.1 h.1.2 h.2]) ex_hellos (handshakes Some ex_hellos None).1.
Proof. apply (getCertificate_named Some (λ x, [x]) ex_hellos None); [by intros name v [= ->]|by intros k v]. Defined.

(** ** Tunnels *)

(** A tunnel closes the connection of its client, and the one to the web
    server when it opened one, on every path; it opens one to the port of the
    server only, and passes bytes on only after both handshakes succeeded. *)
Theorem hijack_closes localPort e :
  TClose Client ∈ hijack localPort e ∧
  (∀ port, TDial port ∈ hijack localPort e → port = localPort ∧ TClose Target ∈ hijack localPort e) ∧
  (TCopy ∈ hijack localPort e → ∃ protocol, t_hello e = HelloOk protocol ∧ t_dial e = true ∧ t_handshake e = true).
Proof.
  unfold hijack, httpError. destruct (t_hello e) as [protocol|[]]; [|set_solver..].
  destruct (t_dial e); [|set_solver]. destruct (t_handshake e), (t_copy e); cbn; set_solver.
Qed.

(** ** Listening and the PAC file *)

(** [func (p *Proxy) Start]: the address, every interface of the machine. *)
Definition Start_addr (c : Config) : string := ":" +:+ Itoa (CPort c).
(** [New]: the protocols offered to a client of the proxy for an intercepted
    connection and for a tunnel to a local web server; [None] without an
    authority. *)
Definition intercept_protos : list string := ["http/1.1"; "http/1.0"].
Definition tunnel_protos : list string := ["h2"; "http/1.1"; "http/1.0"].
Definition tls_protos (ca : bool) : option (list string * list string) :=
  if ca then Some (intercept_protos, tunnel_protos) else None.

(** [func (p *Proxy) servePacFile] for a request to [host]. *)
Definition servePacFile (c : Config) (host : string) : string * string :=
  ("application/x-ns-proxy-autoconfig", pac_file (TLD c) host).

(** The configured host, which the option [--host] sets as the one to expose in
    the PAC file, is in neither: the file and the address depend on the TLD, the
    port and the host of the request alone. *)
Lemma host_not_exposed c h host :
  servePacFile (mkConfig (TLD c) h (CPort c) (domains c)) host = servePacFile c host
  ∧ Start_addr (mkConfig (TLD c) h (CPort c) (domains c)) = Start_addr c.
Proof. done. Qed.
