(* ===== verification/PhpStart.v ===== *)
(** * Starting PHP for a web server ([local/php/php_server.go], [fpm.go],
      [local/http/http.go])

    [Start] chooses a port, writes the configuration of the server, replaces a
    server that is left over and makes the runner that keeps PHP alive.  The hook
    of the runner is an instance of [Runner.Hooks], so that what is proved of
    runners holds for it.  The PHP store, the port that is free and the files that
    can be written are parameters.

    [php_start_replaces] shows that at most one process is kept for a pid file,
    [php_pid_args] for which servers a left-over process is found at all,
    [php_command_env] with which environment PHP runs. *)

From stdpp Require Import base tactics option list gmap strings pretty.
From Stdlib Require Import ZArith Lia Ascii.
From S2P Require Import Prelude GoStrings FilePath Os Pid Runner Http PhpExecutor PhpServer Pages.

(** [NewServer]: [best] is [BestVersionForDir]. *)
Definition NewServer (best : string → option (Version * server_kind * string)) (project documentRoot passthru : string) : option PhpServer :=
  match best project with
  | None => None
  | Some (v, kind, path) => Some (mkPhp v kind path "" project documentRoot passthru "")
  end.

(** [net.JoinHostPort("", port)] and the temporary directory. *)
Definition with_start (p : PhpServer) (temp : string) (port : Z) : PhpServer :=
  mkPhp (ps_Version p) (ps_kind p) (ps_ServerPath p) temp (projectDir p) (documentRoot p) (passthru p) (":" +:+ Itoa port).

(** ** The configuration of FPM *)

Definition conf_lines (l : list string) : string := foldr (λ x r, x +:+ newline +:+ r) "" l.
(** [since73]: PHP 7.3 or later; [root]: the user and group when the CLI runs as
    root. *)
Definition defaultFPMConf (debug since73 : bool) (root : option (string * string)) (p : PhpServer) : outcome string :=
  listen ← fpm_listen p;
  Ret (conf_lines [""; "[global]"; "error_log = /dev/fd/2"; "log_level = " +:+ (if debug then "debug" else "notice"); "daemonize = no";
         if since73 then "log_limit = 8192" else ""; ""; "[www]";
         match root with Some (uid, gid) => "user = " +:+ uid +:+ newline +:+ "group = " +:+ gid | None => "" end;
         "listen = " +:+ listen; "listen.allowed_clients = 127.0.0.1"; "pm = dynamic"; "pm.max_children = 30"; "pm.start_servers = 2";
         "pm.min_spare_servers = 1"; "pm.max_spare_servers = 3"; "pm.status_path = /__php-fpm-status__"; "";
         "; Ensure worker stdout and stderr are sent to the main error log"; "catch_workers_output = yes";
         if since73 then "decorate_workers_output = no" else ""; ""; "php_admin_value[error_log] = /dev/fd/2";
         "php_admin_flag[log_errors] = on"; ""; "; we want to expose env vars (like in FOO=bar symfony server:start)"; "clear_env = no"; "";
         "env['PGGSSENCMODE'] = disable"; "env['LC_ALL'] = C"]).

(** The file that is written before PHP starts. *)
Definition server_file (p : PhpServer) : option string :=
  match ps_kind p with FPMServer => Some (fpmConfigFile p) | CGIServer => None | CLIServer => Some (phpRouterFile p) end.

(** ** The hook of the runner *)

(** [ph_config]: the environment of [e.Config], [None] when it fails. *)
Record php_hook := mkPhpHook { ph_dir : string; ph_config : option (list string); ph_env : list string }.
Definition php_cmd (h : php_hook) (environ : list string) (c : Cmd) : Cmd :=
  mkCmd (c_Path c) (c_Args c) (c_Env c ++ environ ++ ph_env h) (ph_dir h) (c_Setpgid c) (c_Foreground c) (c_std c).
#[export] Instance php_hooks : Hooks php_hook := {
  build_hook h c := (h, (λ environ, php_cmd h environ c) <$> ph_config h);
  success_hook _ := None;
  AlwaysRestartOnExit _ := true }.

(** ** [Start] *)

Inductive php_start_err := TempDirErr | NoPort | ConfErr | CannotKill | NoRunner (p : PidFile).

Section start.
  Context (home : string) (name : string → string) (kill : Z → bool) (can_remove can_mkdir can_write : string → bool)
    (look_path : string → option string).
  (** The environment of the hook, the files to watch, the port that is free. *)
  Context (config : option (list string)) (watched : list string) (port : option Z) (tmp : string).

(** The pid file of the process, without one that was left over. *)
Definition php_pid_file (s : store) (dir : string) (c : server_command) : outcome (store * option PidFile) :=
  p ← Pid.New home name s dir (Some (sc_args c));
  if IsRunning s p then
    let '(s, ok) := Stop kill can_remove s p in Ret (s, if ok then Some p else None)
  else Ret (s, Some p).
Definition name_pid (c : server_command) (p : PidFile) : PidFile :=
  mkPid (p_Dir p) watched (p_Pid p) (p_Port p) (p_Scheme p) (p_Args p) (sc_worker c) (p_path p).
Definition php_start (w : os) (s : store) (pidFile : PidFile) (srv : PhpServer)
    : outcome (store * gores php_start_err (PidFile * sys php_hook)) :=
  let temp := TempDirectory home name pidFile in
  if match stat w temp with NotExist => negb (can_mkdir temp) | _ => false end then Ret (s, Err TempDirErr)
  else match port with
  | None => Ret (s, Err NoPort)
  | Some port =>
    let srv := with_start srv temp port in
    if match server_file srv with Some f => negb (can_write f) | None => false end then Ret (s, Err ConfErr)
    else
      c ← Start_command srv port tmp;
      '(s, p) ← php_pid_file s (p_Dir pidFile) c;
      match p with
      | None => Ret (s, Err CannotKill)
      | Some p =>
        let p := name_pid c p in
        let '(s, r) := NewRunner can_remove look_path (mkPhpHook (sc_dir c) config (sc_env c)) s p RunnerModeLoopAttached in
        Ret (s, match r with Some r => Val (p, r) | None => Err (NoRunner p) end)
      end
  end.
End start.

(** ** Responses and errors *)

Inductive modified := Toolbar | SendFile (path : string) | Unmodified.
(** [ModifyResponse]: the toolbar first, then [X-Sendfile]. *)
Definition ModifyResponse (w : os) (method requested_with media_type sendFilename : string) : modified :=
  if processToolbar method requested_with media_type then Toolbar
  else match processXSendFile w sendFilename with Some f => SendFile f | None => Unmodified end.
(** [ErrorHandler], and the handler of the HTTP server when its callback fails:
    the text of the error is the format of the page. *)
Definition error_response (styles logo err : string) : Z * option string :=
  (502%Z, (λ t, WrapHTML styles logo err t "") <$> CreateErrorTerminal ("# " +:+ err) []).

(** The line that [ProxyHandler] logs for a request. *)
Record access_line := mkAccess {
  al_level : level; al_ip : string; al_status : Z; al_method : string; al_host : string; al_resources : list string; al_uri : string }.
Definition ProxyHandler (rhost remoteAddr method uri : string) (status : Z) (resources : list string) : access_line :=
  mkAccess (log_level status) (match SplitHostPort remoteAddr with Some (ip, _) => ip | None => remoteAddr end) status method
    (normalize_host rhost) resources uri.

(** ** [Execute] and its temporary directories ([executor.go]) *)

(** What [CleanupTemporaryDirectories] removes at once. *)
Definition CleanupTemporaryDirectories (e : Executor) : list string :=
  List.filter (λ d, negb (bool_decide (d = ""))) [iniDir e; tempDir e].
(** [config]: what [Config] leaves; [started]: whether the process starts, then
    the exit code of its loop.  The exit code and the directories removed. *)
Definition Execute (config : Executor * option exec_err) (started : option Z) : Z * list string :=
  match config with
  | (_, Some _) => (1%Z, [])
  | (e, None) => (default 1%Z started, CleanupTemporaryDirectories e)
  end.

(** The text under which the pid file of a server is named. *)
Definition php_key (p : PhpServer) (port : Z) (tmp : string) : outcome string :=
  c ← Start_command p port tmp; Ret (Join (sc_args c) " ").

(** ** Facts *)

(** A PHP server that is left over is found under the arguments of the new
    one: those of FPM do not depend on the port, which is new for every start;
    those of the CGI server and of the built-in one do, so that a process with
    another port is never found and goes on running. *)
Theorem php_pid_args p port port' tmp key key' :
  php_key p port tmp = Ret key → php_key p port' tmp = Ret key' → port ≠ port' →
  (key = key' ↔ ps_kind p = FPMServer).
Proof.
  unfold php_key, Start_command. destruct (ps_kind p).
  - destruct (oget _) as [a|]; [|done]. cbn. by intros [= <-] [= <-] _.
  - cbn. intros [= <-] [= <-] Hp. split; [intros H|done]. destruct Hp.
    apply sapp_inj_l in H. injection H as H. rewrite ?sapp_nil_l in H. by apply sapp_inj_r, (inj pretty) in H.
  - cbn. intros [= <-] [= <-] Hp. split; [intros H|done]. destruct Hp.
    apply sapp_inj_l in H. injection H as H. rewrite ?sapp_nil_l in H. by apply sapp_inj_r, (inj pretty) in H.
Qed.

Definition ex_cgi : PhpServer :=
  mkPhp (mkVersion "8.4.1" "/usr/bin/php" "" "/usr/bin/php-cgi" "" "" "") CGIServer "/usr/bin/php-cgi" "" "/p" "/p/public" "/index.php" "".
Lemma php_pid_args_witness :
  "/usr/bin/php-cgi -b 40001 -d error_log=/dev/fd/2" = "/usr/bin/php-cgi -b 40002 -d error_log=/dev/fd/2" ↔ ps_kind ex_cgi = FPMServer.
Proof. apply (php_pid_args ex_cgi 40001 40002 "/tmp"); [reflexivity|reflexivity|done]. Defined.

Section start_facts.
  Context (home : string) (name : string → string) (kill : Z → bool) (can_remove can_mkdir can_write : string → bool)
    (look_path : string → option string) (config : option (list string)) (watched : list string) (port : option Z) (tmp : string).
  Notation start := (php_start home name kill can_remove can_mkdir can_write look_path config watched port tmp).

(** The pid file and the runner of a started server: PHP runs in the directory
    and with the arguments of its kind, is watched and restarted, and a process
    that had the same pid file was killed before. *)
Lemma php_start_replaces w s pidFile srv s' p r :
  start w s pidFile srv = Ret (s', Val (p, r)) →
  ∃ n c old, port = Some n ∧
    Start_command (with_start srv (TempDirectory home name pidFile) n) n tmp = Ret c ∧
    Pid.New home name s (p_Dir pidFile) (Some (sc_args c)) = Ret old ∧
    (IsRunning s old = true → kill (p_Pid old) = true) ∧
    p_CustomName p = sc_worker c ∧ p_Watched p = watched ∧
    mode r = RunnerModeLoopAttached ∧ AlwaysRestartOnExit (hk r) = true ∧ pf r = p ∧ hk r = mkPhpHook (sc_dir c) config (sc_env c).
Proof.
  unfold php_start. destruct (match stat w _ with NotExist => _ | _ => _ end); [done|].
  destruct port as [n|]; [|done]. cbn zeta. destruct (match server_file _ with Some _ => _ | None => _ end); [done|].
  destruct (Start_command _ n tmp) as [c|] eqn:Ec; [|done]. cbn. unfold php_pid_file.
  destruct (Pid.New home name s (p_Dir pidFile) (Some (sc_args c))) as [old|] eqn:Eo; [|done]. cbn.
  assert (Hgo : ∀ s1, (let '(s2, r0) := NewRunner can_remove look_path (mkPhpHook (sc_dir c) config (sc_env c)) s1 (name_pid watched c old) RunnerModeLoopAttached in
      Ret (s2, match r0 with Some r1 => Val (name_pid watched c old, r1) | None => Err (NoRunner (name_pid watched c old)) end)) = Ret (s', Val (p, r)) →
      p = name_pid watched c old ∧ mode r = RunnerModeLoopAttached ∧ pf r = p ∧ hk r = mkPhpHook (sc_dir c) config (sc_env c)).
  { intros s1. unfold NewRunner. destruct (look_path _); [|done]. by intros [= <- <- <-]. }
  intros H. exists n, c, old. destruct (IsRunning s old) eqn:Er.
  - unfold Stop in H. destruct (bool_decide (p_Pid old = 0%Z)) eqn:E0.
    { unfold IsRunning in Er. by rewrite E0 in Er. }
    cbn in H. destruct (kill (p_Pid old)) eqn:Ek; [|done]. cbn in H. apply Hgo in H as (-> & H1 & H2 & H3).
    by rewrite H3.
  - cbn in H. apply Hgo in H as (-> & H1 & H2 & H3). by rewrite H3.
Qed.
End start_facts.

(** What the runner starts for PHP. *)
Lemma php_command_env environ_list (r : sys php_hook) interactive log_ok h c :
  buildCmd environ_list r interactive log_ok = Ret (h, Some c) →
  ∃ environ, ph_config (hk r) = Some environ ∧ c_Env c = environ_list ++ environ ++ ph_env (hk r) ∧ c_Dir c = ph_dir (hk r).
Proof.
  unfold buildCmd. destruct (p_Args (pf r)) as [[|a args]|]; [done| |done]. destruct (_ && _); [done|].
  cbn. destruct (ph_config (hk r)) as [environ|]; [|done]. intros [= <- <-]. by exists environ.
Qed.

(** A failed configuration removes nothing: there is nothing yet. *)
Lemma Execute_cleans e ret : (Execute (e, None) (Some ret)).1 = ret ∧
  (∀ d, d ≠ "" → d = iniDir e ∨ d = tempDir e → d ∈ (Execute (e, None) (Some ret)).2).
Proof.
  split; [done|]. intros d Hd H. cbn -[List.filter]. apply list_elem_of_In, filter_In.
  rewrite bool_decide_eq_false_2 by done. split; [|done]. destruct H as [-> | ->]; cbn; auto.
Qed.
