(* ===== verification/Toolbar.v ===== *)
(** * The block of the CLI in the web debug toolbar ([local/php/toolbar.go])

    The states that are shown, the text they are put in, and how the text is
    expanded when it is inserted: it is the template of a regular expression, in
    which a dollar sign names a group.  The search for the buttons and the picture
    are given.

    [toolbar_agrees] shows that the toolbar and [server:status] name the same
    source of the variables, [expand_plain] that a text without dollar signs is
    inserted as it is, [toolbar_dollar] what becomes of one with. *)

From stdpp Require Import base tactics option list gmap strings pretty.
From Stdlib Require Import ZArith Lia Ascii.
From S2P Require Import Prelude GoStrings Humanlog PhpServer Commands.

Definition q (s : string) : string := String dquote (s +:+ String dquote "").
Definition label (color text : string) : string :=
  "<span class=" +:+ q ("sf-toolbar-status sf-toolbar-status-" +:+ color) +:+ ">" +:+ text +:+ "</span>".

(** ** The states *)

Inductive logo_color := Normal | Green | Yellow.
Record toolbar_state := mkToolbar {
  tb_logo : logo_color; tb_tunnel : option string; tb_docker : bool; tb_env : env_source;
  tb_webmail : option string; tb_rabbitmq : option string; tb_blackfire : bool; tb_links : list (string * string) }.

(** What the local environment finds: the URL of a service, the services with a
    web interface, whether there is a Blackfire agent; [title] is the name of a
    service in title case. *)
Record local_services := mkServices {
  ls_url : string → option string; ls_http : list string; ls_blackfire : bool; ls_title : string → string }.
Definition extra_links (l : local_services) : list (string * string) :=
  omap (λ s, if bool_decide (s = "mailer-web" ∨ s = "amqp") then None else (λ url, (url, ls_title l s)) <$> ls_url l s) (ls_http l).

(** The assignments in the order of the code; [l] is [None] when there is no
    local environment. *)
Definition toolbar_of (env : gmap string string) (l : option local_services) : toolbar_state :=
  let get k := default "" (env !! k) in
  let '(logo, tunnel, vars) :=
    if bool_decide (get "SYMFONY_TUNNEL" ≠ "") then
      if bool_decide (get "SYMFONY_TUNNEL_ENV" ≠ "")
      then (Green, Some (get "SYMFONY_TUNNEL"), FromTunnel (get "SYMFONY_TUNNEL_BRAND"))
      else (Yellow, Some (get "SYMFONY_TUNNEL"), FromNothing)
    else (Normal, None, FromNothing) in
  let '(logo, docker, vars) :=
    if bool_decide (get "SYMFONY_DOCKER_ENV" = "1") then
      (Green, true, if bool_decide (get "SYMFONY_TUNNEL_ENV" = "") then FromDocker else vars)
    else (logo, false, vars) in
  match l with
  | None => mkToolbar logo tunnel docker vars None None false []
  | Some l => mkToolbar logo tunnel docker vars (ls_url l "mailer") (ls_url l "amqp") (ls_blackfire l) (extra_links l)
  end.

(** ** The text *)

Definition logo_class (c : logo_color) : string :=
  "sf-toolbar-status-" +:+ match c with Normal => "normal" | Green => "green" | Yellow => "yellow" end.
Definition up (b : bool) : string := if b then label "green" "Up" else label "red" "Down".
Definition tunnel_label (t : option string) : string :=
  match t with Some name => label "green" ("Up (" +:+ name +:+ ")") | None => label "red" "Down" end.
Definition env_label (s : env_source) : string :=
  match s with
  | FromNothing => label "red" "None" | FromTunnel brand => label "green" ("from " +:+ brand) | FromDocker => label "green" "from Docker"
  end.
Definition service_label (class title : string) (url : option string) : string :=
  match url with
  | Some url =>
    "<b><a class=" +:+ q class +:+ " href=" +:+ q url +:+ " rel=" +:+ q "noopener" +:+ " target=" +:+ q "_blank" +:+ ">" +:+ title +:+
    "</a></b> " +:+ label "green" "Up" +:+ "</a>"
  | None => "<b>" +:+ title +:+ "</b> " +:+ label "red" "Down"
  end.
Definition link_piece (x : string * string) : string :=
  "<div class=" +:+ q "sf-toolbar-info-piece" +:+ "><b><a class=" +:+ q "sf-cli-service-link" +:+ " href=" +:+ q x.1 +:+ " rel=" +:+
  q "noopener" +:+ " target=" +:+ q "_blank" +:+ ">" +:+ x.2 +:+ "</a></b></div>".
Definition links_text (l : list (string * string)) : string :=
  let text := foldr (λ x r, link_piece x +:+ r) "" l in
  if bool_decide (text = "") then "" else "</div><div class=" +:+ q "sf-toolbar-info-group" +:+ ">" +:+ text.

Definition indent (n : nat) : string := String.string_of_list_ascii (replicate n "009"%char).
Definition piece (text : string) : list string :=
  [indent 3 +:+ "<div class=" +:+ q "sf-toolbar-info-piece" +:+ ">"; indent 4 +:+ text; indent 3 +:+ "</div>"].
Definition join_lines (l : list string) : string := foldr (λ x r, newline +:+ x +:+ r) "" l.
(** [svg]: the picture, with its lines. *)
Definition toolbar_text (svg appVersion php : string) (t : toolbar_state) : string :=
  join_lines ([
    "<!-- START of Symfony CLI Toolbar -->";
    "<div class=" +:+ q ("sf-cli sf-toolbar-block sf-toolbar-block-sf-cli " +:+ logo_class (tb_logo t) +:+ " sf-toolbar-block-right") +:+ ">";
    indent 1 +:+ "<div class=" +:+ q "sf-toolbar-icon" +:+ ">"; indent 2 +:+ "<span class=" +:+ q "sf-toolbar-label" +:+ ">";
    indent 3 +:+ svg; indent 2 +:+ "</span>"; indent 2 +:+ "<span class=" +:+ q "sf-toolbar-value" +:+ ">Server</span>"; indent 1 +:+ "</div>";
    indent 1 +:+ "<div class=" +:+ q "sf-toolbar-info" +:+ ">"; indent 2 +:+ "<div class=" +:+ q "sf-toolbar-info-group" +:+ ">"] ++
    piece ("<b>Symfony CLI</b>" +:+ appVersion) ++ piece ("<b>PHP</b>" +:+ php) ++ piece ("<b>Tunnel</b>" +:+ tunnel_label (tb_tunnel t)) ++
    piece ("<b>Docker Compose</b>" +:+ up (tb_docker t)) ++ piece ("<b>Env Vars</b>" +:+ env_label (tb_env t)) ++
    [indent 3 +:+ "<div class=" +:+ q "sf-toolbar-info-piece" +:+ ">" +:+ service_label "sf-cli-rabbitmq" "RabbitMQ UI" (tb_rabbitmq t) +:+ "</div>";
     indent 3 +:+ "<div class=" +:+ q "sf-toolbar-info-piece" +:+ ">" +:+ service_label "sf-cli-webmail" "Webmail" (tb_webmail t) +:+ "</div>";
     indent 3 +:+ "<div class=" +:+ q "sf-toolbar-info-piece" +:+ ">";
     indent 4 +:+ "<b><a class=" +:+ q "sf-cli-blackfire" +:+ " href=" +:+ q "https://blackfire.io/" +:+ " rel=" +:+ q "noopener" +:+ " target=" +:+
       q "_blank" +:+ ">Blackfire.io Agent</a></b>" +:+ up (tb_blackfire t) +:+ "</div>";
     indent 2 +:+ links_text (tb_links t); indent 2 +:+ "</div>"; indent 1 +:+ "</div>"; indent 1 +:+ "<div></div>"; "</div>";
     "<!-- End of Symfony CLI Toolbar -->"]).

(** ** Inserting it *)

(** [Regexp.Expand]: [$name] takes the longest name, [${name}] the name in braces,
    [$$] is a dollar sign; [group] is the text of a group, empty when there is none
    of the name. *)
Definition is_word (c : ascii) : bool := is_lower c || is_upper c || is_digit c || Ascii.eqb c "_".
Fixpoint take_word (s : string) : string * string :=
  match s with
  | EmptyString => ("", "")
  | String c r => if is_word c then let '(a, b) := take_word r in (String c a, b) else ("", s)
  end.
Fixpoint expand (fuel : nat) (group : string → string) (s : string) : string :=
  match fuel, s with
  | S fuel, String "$" r =>
    match r with
    | String "$" r => String "$" (expand fuel group r)
    | String "{" r' =>
      let '(a, b) := take_word r' in
      match b with
      | String "}" b => if bool_decide (a = "") then String "$" (expand fuel group r) else group a +:+ expand fuel group b
      | _ => String "$" (expand fuel group r)
      end
    | _ =>
      let '(a, b) := take_word r in
      if bool_decide (a = "") then String "$" (expand fuel group r) else group a +:+ expand fuel group b
    end
  | S fuel, String c r => String c (expand fuel group r)
  | _, _ => ""
  end.
(** A length that is enough for every step takes at least one character. *)
Definition Expand (group : string → string) (s : string) : string := expand (S (slen s)) group s.
(** The body around a button: the text before it, the button, the rest. *)
Definition first_group (button name : string) : string := if bool_decide (name = "1") then button else "".
Definition insert_before (text : string) (parts : list (string * string)) (rest : string) : string :=
  foldr (λ x r, x.1 +:+ Expand (first_group x.2) (text +:+ newline +:+ "$1") +:+ r) rest parts.

(** ** Facts *)

(** The toolbar and [server:status] name the same source of the environment
    variables, for every environment. *)
Theorem toolbar_agrees env l : tb_env (toolbar_of env l) = source_of env.
Proof.
  unfold toolbar_of, source_of.
  destruct (decide (default "" (env !! "SYMFONY_TUNNEL") = "")), (decide (default "" (env !! "SYMFONY_TUNNEL_ENV") = "")),
    (decide (default "" (env !! "SYMFONY_DOCKER_ENV") = "1")), l;
    repeat first [rewrite bool_decide_eq_true_2 by naive_solver|rewrite bool_decide_eq_false_2 by naive_solver]; done.
Qed.

(** The logo is green exactly when variables are exposed, or when they come from
    Docker. *)
Lemma toolbar_logo env l : tb_logo (toolbar_of env l) = Green ↔
  tb_docker (toolbar_of env l) = true ∨ tb_env (toolbar_of env l) ≠ FromNothing.
Proof.
  unfold toolbar_of.
  destruct (decide (default "" (env !! "SYMFONY_TUNNEL") = "")), (decide (default "" (env !! "SYMFONY_TUNNEL_ENV") = "")),
    (decide (default "" (env !! "SYMFONY_DOCKER_ENV") = "1")), l;
    repeat first [rewrite bool_decide_eq_true_2 by naive_solver|rewrite bool_decide_eq_false_2 by naive_solver]; naive_solver.
Qed.

Lemma expand_cons fuel group c s : c ≠ "$"%char → expand (S fuel) group (String c s) = String c (expand fuel group s).
Proof. intros Hc. cbn. destruct c as [[] [] [] [] [] [] [] []]; done. Qed.

Lemma expand_lacks group text s : lacks "$" text = true →
  ∀ fuel, expand (slen text + fuel) group (text +:+ s) = text +:+ expand fuel group s.
Proof.
  induction text as [|c text IH]; [done|]. unfold lacks in *. cbn [sforall]. rewrite andb_true_iff, negb_true_iff.
  intros [Hc Ht] fuel. apply Ascii.eqb_neq in Hc. rewrite !sapp_cons. cbn [slen String.length plus].
  rewrite expand_cons by congruence. f_equal. by apply IH.
Qed.

(** A text without dollar signs is put as it is before each button. *)
Lemma expand_plain text parts rest : lacks "$" text = true →
  insert_before text parts rest = foldr (λ x r, x.1 +:+ text +:+ newline +:+ x.2 +:+ r) rest parts.
Proof.
  intros Ht. unfold insert_before. induction parts as [|[before button] parts IH]; [done|]. cbn [foldr fst snd]. rewrite IH. f_equal.
  unfold Expand. rewrite slen_app. replace (S (slen text + slen (newline +:+ "$1"))) with (slen text + 4) by (change (slen (newline +:+ "$1")) with 3; lia).
  rewrite expand_lacks by done.
  assert (E : expand 4 (first_group button) (newline +:+ "$1") = newline +:+ button).
  { change (newline +:+ "$1") with (String "010" "$1"). rewrite expand_cons by done. change (expand 3 (first_group button) "$1") with (button +:+ "").
    rewrite sapp_nil_r. reflexivity. }
  rewrite E, (sapp_assoc text), (sapp_assoc newline). done.
Qed.

(** A dollar sign in a name that is shown swallows the word behind it. *)
Lemma toolbar_dollar :
  insert_before (tunnel_label (Some "proj-$env")) [("", "<a>")] "" = tunnel_label (Some "proj-") +:+ newline +:+ "<a>".
Proof. vm_compute. reflexivity. Qed.
