(* ===== verification/Router.v ===== *)
(** * The router of the built-in PHP server ([local/php/php_builtin_server.go])

    With the built-in server a request passes through a PHP script that the CLI
    writes.  It loads the variables of the request from a file whose name carries
    the identifier of the request, lets the server handle files by itself, and
    runs the front controller for the rest.  The script is translated statement
    by statement; the super-globals are maps, which is what PHP arrays are for
    names that are not decimal integers.  [Serve] of [PhpServer] is the other
    side. *)

From stdpp Require Import base tactics option list gmap strings pretty.
From Stdlib Require Import ZArith Lia Ascii.
From S2P Require Import Prelude GoStrings Utf8 FilePath Os Envs Http PhpExecutor PhpServer.

(** [$_SERVER] and [$_ENV]. *)
Record globals := mkGlobals { g_SERVER : Envs; g_ENV : Envs }.

(** How the script ends: the server handles the request by itself ([return
    false]), or a script is run with these super-globals. *)
Inductive routed := ServeFile (g : globals) | RequireScript (script : string) (g : globals).

Definition request_id_key : string := "HTTP___SYMFONY_LOCAL_REQUEST_ID__".

(** [require $envFile]: the assignments of the file in order; a file that is not
    of this form is a parse error. *)
Definition require_env (env : Envs) (content : string) : option Envs :=
  (λ kvs, foldl (λ env kv, <[kv.1 := kv.2]> env) env kvs) <$> read_env_file content.

(** The variables of the request; [file] is [__FILE__].  [None] is a fatal error
    of PHP. *)
Definition load_env (w : os) (file : string) (g : globals) : option globals :=
  match g_SERVER g !! request_id_key with
  | None => Some g
  | Some rid =>
    let envFile := file +:+ "-" +:+ rid +:+ "-env" in
    env ← (if exists_ w envFile then c ← read_file w envFile; require_env (g_ENV g) c
           else Some (g_ENV g));
    Some (mkGlobals (delete request_id_key (g_SERVER g)) env)
  end.

Definition is_file (w : os) (path : string) : bool := exists_ w path && negb (is_dir w path).
Definition server_var (g : globals) (k : string) : string := default "" (g_SERVER g !! k).

(** The script after [auto_prepend_file], which is PHP's own. *)
Definition phprouter (w : os) (file : string) (g : globals) : option routed :=
  g ← load_env w file g;
  if is_file w (server_var g "DOCUMENT_ROOT" +:+ "/" +:+ server_var g "SCRIPT_NAME") then Some (ServeFile g) else
  let script := default "" (g_ENV g !! "APP_FRONT_CONTROLLER") in
  let server := g_ENV g ∪ g_SERVER g in
  let server := <["SCRIPT_FILENAME" := default "" (server !! "DOCUMENT_ROOT") +:+ "/" +:+ script]> server in
  let server := <["SCRIPT_NAME" := "/" +:+ script]> server in
  let server := <["PHP_SELF" := "/" +:+ script]> server in
  Some (RequireScript script (mkGlobals server (g_ENV g))).

(** ** Lemmas *)

Lemma assignments_map (l : list (string * string)) (env : Envs) :
  NoDup l.*1 → foldl (λ env kv, <[kv.1 := kv.2]> env) env l = list_to_map l ∪ env.
Proof.
  revert env. induction l as [|[k v] l IH]; intros env; [intros _; cbn; by rewrite (left_id_L ∅ (∪))|].
  cbn. rewrite NoDup_cons. intros [Hk Hl]. rewrite IH by done.
  rewrite <-insert_union_r by (by apply not_elem_of_list_to_map). by rewrite insert_union_l.
Qed.

(** The file that [Serve] writes, in whatever order, adds its variables. *)
Lemma require_env_written env (vars : Envs) l :
  l ≡ₚ map_to_list vars → require_env env (envContent l) = Some (vars ∪ env).
Proof.
  intros Hl. unfold require_env. rewrite read_env_content. cbn [fmap option_fmap option_map].
  assert (Hnd : NoDup l.*1) by (rewrite Hl; apply NoDup_fst_map_to_list).
  f_equal. rewrite assignments_map by done. f_equal.
  rewrite (list_to_map_proper _ (map_to_list vars)) by done. apply list_to_map_to_list.
Qed.

(** The names that the router sets itself. *)
Definition router_names : list string := ["SCRIPT_FILENAME"; "SCRIPT_NAME"; "PHP_SELF"].

(** C7: a request that reaches the front controller: what [Serve] computed is what
    the script sees.  Every variable of the environment of the request is in
    [$_ENV] and, but for the three names that describe the script, in
    [$_SERVER], over the variables of the process and of the server; the identifier
    of the request is gone; the script is the front controller of the project
    that [Start_command] put in the environment. *)
Theorem router_runs_front_controller `{!Unicode} w p vars headers q env range rid wok env' path content port tmp c
    srv penv :
  (∀ m, range m ≡ₚ map_to_list m) →
  Serve w p vars headers q env range rid wok = Ret (Val (env', Some (path, content))) →
  Start_command p port tmp = Ret c →
  (∀ k v, (k +:+ "=" +:+ v) ∈ sc_env c → lacks "=" k = true → penv !! k = Some v) →
  exists_ w path = true → read_file w path = Some content →
  srv !! request_id_key = Some rid →
  is_file w (default "" (srv !! "DOCUMENT_ROOT") +:+ "/" +:+ default "" (srv !! "SCRIPT_NAME")) = false →
  env' !! "APP_FRONT_CONTROLLER" = None →
  ∃ g, phprouter w (phpRouterFile p) (mkGlobals srv penv)
       = Some (RequireScript (drop_while (Ascii.eqb "/") (passthru p)) g)
    ∧ g_ENV g = env' ∪ penv
    ∧ (∀ k, k ∉ router_names → g_SERVER g !! k = (env' ∪ (penv ∪ delete request_id_key srv)) !! k)
    ∧ g_SERVER g !! "SCRIPT_NAME" = Some ("/" +:+ drop_while (Ascii.eqb "/") (passthru p)).
Proof.
  intros Hr HS Hc Hpenv Hex Hrd Hrid Hf Hfc. unfold Serve in HS.
  destruct (bool_decide (passthru p = "")); [done|].
  apply bind_inv in HS as (generated & _ & HS). injection HS as HS.
  destruct (ps_kind p) eqn:Hkind; [done..|]. destruct (wok _); [|done].
  injection HS as <- <- <-. set (e := generated ∪ env) in *.
  unfold Start_command in Hc. rewrite Hkind in Hc. injection Hc as <-.
  assert (Hp : penv !! "APP_FRONT_CONTROLLER" = Some (drop_while (Ascii.eqb "/") (passthru p))).
  { apply Hpenv; [|done]. cbn. by left. }
  unfold phprouter, load_env. cbn [g_SERVER]. rewrite Hrid, Hex, Hrd.
  cbn [mbind option_bind g_ENV]. rewrite (require_env_written penv e) by apply Hr.
  cbn [mbind option_bind]. unfold server_var. cbn [g_SERVER g_ENV].
  rewrite !lookup_delete_ne by done. rewrite Hf.
  rewrite (lookup_union_r e) by done. rewrite Hp. cbn [default].
  eexists. split; [done|]. cbn [g_ENV g_SERVER]. split_and!; [done| |].
  - intros k Hk. unfold router_names in Hk. rewrite !not_elem_of_cons in Hk.
    rewrite !lookup_insert_ne by naive_solver. by rewrite (assoc_L (∪)).
  - by rewrite lookup_insert_ne, lookup_insert_eq by done.
Qed.

Definition ex_router_request : php_request :=
  mkPhpReq (mkReq "localhost" "/blog" "" "HTTP/1.1" ∅ "127.0.0.1:5000") "GET" "/blog" false.
Definition ex_router_env (w : os) : Envs :=
  match @generateEnv sample_unicode w ex_server_php {["DATABASE_URL" := "it's"]} [("Accept", ["*/*"])]
          ex_router_request with Ret env => env | Panic => ∅ end.
Definition ex_router_path : string := phpRouterFile ex_server_php +:+ "-r1-env".
Definition ex_router_os : os := table_os ∅
  {[ex_router_path := Some (envContent (map_to_list (ex_router_env ex_web_os)))]} "/app" "/h".

Lemma router_runs_front_controller_witness :
  ∃ g, phprouter ex_router_os (phpRouterFile ex_server_php)
         (mkGlobals {[request_id_key := "r1"; "DOCUMENT_ROOT" := "/app/public"; "SCRIPT_NAME" := "/blog"]}
                    {["APP_FRONT_CONTROLLER" := "index.php"]})
       = Some (RequireScript "index.php" g)
    ∧ g_ENV g !! "DATABASE_URL" = Some "it's" ∧ g_SERVER g !! request_id_key = None.
Proof.
  destruct (router_runs_front_controller (H := sample_unicode) ex_router_os ex_server_php {["DATABASE_URL" := "it's"]}
    [("Accept", ["*/*"])] ex_router_request ∅ map_to_list "r1" (λ _, true)
    (ex_router_env ex_web_os) ex_router_path (envContent (map_to_list (ex_router_env ex_web_os)))
    8000 "/tmp" (mkCommand "/app/public" "php" "PHP"
      ["/usr/bin/php8.3"; "-S"; "127.0.0.1:8000"; "-d"; "variables_order=EGPCS"; phpRouterFile ex_server_php]
      ["APP_FRONT_CONTROLLER=index.php"] (Some (phpRouterFile ex_server_php)))
    {[request_id_key := "r1"; "DOCUMENT_ROOT" := "/app/public"; "SCRIPT_NAME" := "/blog"]}
    {["APP_FRONT_CONTROLLER" := "index.php"]}) as (g & Hg & He & Hs & _).
  all: try (vm_compute; reflexivity).
  - intros k v Hk Hl. apply list_elem_of_singleton in Hk.
    assert (Hi : Index (k +:+ "=" +:+ v) "=" = Some (slen k)) by (by apply (Index_char "=")).
    rewrite Hk in Hi. change (Some 20 = Some (slen k)) in Hi. injection Hi as Hi.
    assert (Hk' := stake_app k ("=" +:+ v)). rewrite <-Hi, Hk in Hk'.
    change ("APP_FRONT_CONTROLLER" = k) in Hk'. subst k.
    apply (f_equal (sdrop 21)) in Hk. change (v = "index.php") in Hk. by subst v.
  - exists g. split; [exact Hg|]. split; [by rewrite He|]. rewrite Hs; [by vm_compute|].
    apply (bool_decide_unpack (request_id_key ∉ router_names)). exact I.
Defined.

(** A file below the document root is left to the built-in server: the front
    controller is not run, and the identifier of the request is not shown. *)
Theorem router_leaves_files w file srv penv rid :
  srv !! request_id_key = Some rid →
  exists_ w (file +:+ "-" +:+ rid +:+ "-env") = false →
  is_file w (default "" (srv !! "DOCUMENT_ROOT") +:+ "/" +:+ default "" (srv !! "SCRIPT_NAME")) = true →
  phprouter w file (mkGlobals srv penv) = Some (ServeFile (mkGlobals (delete request_id_key srv) penv)).
Proof.
  intros Hrid Hex Hf. unfold phprouter, load_env. cbn [g_SERVER]. rewrite Hrid, Hex.
  cbn [mbind option_bind g_ENV]. unfold server_var. cbn [g_SERVER].
  rewrite !lookup_delete_ne by done. by rewrite Hf.
Qed.

Lemma router_leaves_files_witness :
  phprouter ex_web_os "/r" (mkGlobals {[request_id_key := "r1"; "DOCUMENT_ROOT" := "/app/public";
      "SCRIPT_NAME" := "legacy.php"]} ∅)
  = Some (ServeFile (mkGlobals (delete request_id_key {[request_id_key := "r1"; "DOCUMENT_ROOT" := "/app/public";
      "SCRIPT_NAME" := "legacy.php"]}) ∅)).
Proof. by apply (router_leaves_files _ _ _ _ "r1"). Defined.
