(* ===== verification/FcgiForms.v ===== *)
(** * Forms of the FastCGI client ([local/fcgi_client/fcgiclient.go])

    [Dial], [DialTimeout], [Post], [PostForm] and [PostFile]: what is sent for a
    form, with the encoders of the Go library that it goes through
    ([url.Values.Encode], [mime/multipart]).  The boundary of a multipart body,
    which Go draws at random, is an argument, and so are the files.  The decoders
    here are those of the two formats, for the round trips. *)

From stdpp Require Import base tactics option list gmap strings pretty sorting.
From Stdlib Require Import ZArith Lia Ascii.
From S2P Require Import Prelude GoStrings FilePath Fcgi Dotenv.

(** ** Strings as bytes *)

Definition byte_of (c : ascii) : Z := Z.of_nat (nat_of_ascii c).
Fixpoint sbytes (s : string) : bytes :=
  match s with EmptyString => [] | String c s => byte_of c :: sbytes s end.
Fixpoint bstring (b : bytes) : string :=
  match b with [] => "" | z :: b => String (ascii_of_nat (Z.to_nat z)) (bstring b) end.

Lemma bstring_sbytes s : bstring (sbytes s) = s.
Proof.
  induction s as [|c s IH]; [done|]. simpl. unfold byte_of.
  by rewrite Nat2Z.id, ascii_nat_embedding, IH.
Qed.

Lemma blen_sbytes s : blen (sbytes s) = Z.of_nat (slen s).
Proof. unfold blen. f_equal. induction s as [|c s IH]; simpl; [done|by f_equal]. Qed.

(** ** [url.Values.Encode] and its inverse *)

Definition hex_digit (n : nat) : ascii := ascii_of_nat (if n <? 10 then 48 + n else 55 + n).
Definition hex_val (c : ascii) : option nat :=
  let n := nat_of_ascii c in
  if between 48 57 c then Some (n - 48)
  else if between 65 70 c then Some (n - 55)
  else if between 97 102 c then Some (n - 87)
  else None.

(** [shouldEscape] for a query component. *)
Definition unreserved (c : ascii) : bool :=
  is_lower c || is_upper c || is_digit c
  || bool_decide (c ∈ ["-"; "_"; "."; "~"]%char).

Definition escape_char (c : ascii) : string :=
  if Ascii.eqb c " " then "+"
  else if unreserved c then String c ""
  else String "%" (String (hex_digit (nat_of_ascii c / 16)) (String (hex_digit (nat_of_ascii c mod 16)) "")).

Fixpoint QueryEscape (s : string) : string :=
  match s with
  | EmptyString => ""
  | String c s => escape_char c +:+ QueryEscape s
  end.

Fixpoint QueryUnescape (s : string) : option string :=
  match s with
  | EmptyString => Some ""
  | String "%" s =>
    match s with
    | String a (String b s) =>
      x ← hex_val a; y ← hex_val b; String (ascii_of_nat (16 * x + y)) <$> QueryUnescape s
    | _ => None
    end
  | String "+" s => String " " <$> QueryUnescape s
  | String c s => String c <$> QueryUnescape s
  end.

Abbreviation Values := (gmap string (list string)).

(** The pairs in the order of [Encode]: keys sorted, the values of a key in order. *)
Definition Values_pairs (data : Values) : list (string * string) :=
  SortStrings (map_to_list data).*1 ≫= λ k, pair k <$> default [] (data !! k).

Definition Encode (data : Values) : string :=
  Join ((λ kv, QueryEscape kv.1 +:+ "=" +:+ QueryEscape kv.2) <$> Values_pairs data) "&".

(** A reader of [application/x-www-form-urlencoded]. *)
Definition parse_pair (s : string) : option (string * string) :=
  let '(k, v) := match Index s "=" with Some i => (stake i s, sdrop (S i) s) | None => (s, "") end in
  k ← QueryUnescape k; v ← QueryUnescape v; Some (k, v).
Definition ParseQuery (s : string) : option (list (string * string)) :=
  if bool_decide (s = "") then Some [] else mapM parse_pair (Split s "&").

Lemma escape_char_inv c s :
  QueryUnescape (escape_char c +:+ s) = String c <$> QueryUnescape s.
Proof. destruct c as [[] [] [] [] [] [] [] []]; reflexivity. Qed.

Lemma QueryUnescape_Escape s : QueryUnescape (QueryEscape s) = Some s.
Proof.
  induction s as [|c s IH]; [done|]. change (QueryEscape (String c s)) with (escape_char c +:+ QueryEscape s).
  by rewrite escape_char_inv, IH.
Qed.

Definition query_char (c : ascii) : bool := unreserved c || Ascii.eqb c "%" || Ascii.eqb c "+".

Lemma escape_char_chars c : sforall query_char (escape_char c) = true.
Proof. destruct c as [[] [] [] [] [] [] [] []]; reflexivity. Qed.

Lemma QueryEscape_lacks d s : query_char d = false → lacks d (QueryEscape s) = true.
Proof.
  intros Hd. apply (sforall_impl query_char).
  { intros c Hc. apply negb_true_iff, Ascii.eqb_neq. by intros <-; congruence. }
  induction s as [|c s IH]; [done|]. change (QueryEscape (String c s)) with (escape_char c +:+ QueryEscape s).
  by rewrite sforall_app, escape_char_chars, IH.
Qed.

Definition escape_pair (kv : string * string) : string :=
  QueryEscape kv.1 +:+ "=" +:+ QueryEscape kv.2.

Lemma sdrop_succ c a b : sdrop (S (slen a)) (a +:+ String c b) = b.
Proof. induction a as [|x a IH]; [done|]. exact IH. Qed.

Lemma parse_escape_pair kv : parse_pair (escape_pair kv) = Some kv.
Proof.
  destruct kv as [k v]. unfold parse_pair, escape_pair. cbn [fst snd].
  change ("=" +:+ QueryEscape v) with (String "=" (QueryEscape v)).
  rewrite Index_char by (by apply QueryEscape_lacks). rewrite stake_app, sdrop_succ.
  by rewrite !QueryUnescape_Escape.
Qed.

Lemma escape_pair_lacks kv : lacks "&" (escape_pair kv) = true.
Proof.
  unfold escape_pair. rewrite !lacks_app, !QueryEscape_lacks by done. done.
Qed.

Lemma escape_pair_ne kv : escape_pair kv ≠ "".
Proof. unfold escape_pair. by destruct (QueryEscape kv.1). Qed.

Lemma Join_ne s l sep : s ≠ "" → Join (s :: l) sep ≠ "".
Proof. intros Hs. destruct l; [done|]. by destruct s. Qed.

(** Reading an encoded form gives its pairs back. *)
Lemma ParseQuery_Encode data : ParseQuery (Encode data) = Some (Values_pairs data).
Proof.
  unfold ParseQuery, Encode. change (λ kv, _) with escape_pair.
  destruct (Values_pairs data) as [|kv l]; [done|].
  rewrite bool_decide_false by (apply Join_ne, escape_pair_ne).
  rewrite (Split_Join "&").
  - apply mapM_Some, Forall2_fmap_l, Forall_Forall2_diag, Forall_true. apply parse_escape_pair.
  - done.
  - apply Forall_fmap, Forall_true. apply escape_pair_lacks.
Qed.

(** Every value of every key is among the pairs, and nothing else. *)
Lemma elem_of_Values_pairs data k v :
  (k, v) ∈ Values_pairs data ↔ ∃ vs, data !! k = Some vs ∧ v ∈ vs.
Proof.
  unfold Values_pairs. rewrite list_elem_of_bind. setoid_rewrite SortStrings_perm.
  setoid_rewrite list_elem_of_fmap. split.
  - intros (k' & (v' & [= <- <-] & Hv) & Hk). destruct (data !! k); [eauto|]. by apply elem_of_nil in Hv.
  - intros (vs & Hk & Hv). exists k. rewrite Hk. split; [by exists v|].
    exists (k, vs). by rewrite elem_of_map_to_list.
Qed.

(** ** [mime/multipart] *)

Definition CRLF : string := String "013" (String "010" "").
Definition quote : string := String "034" "".

(** [escapeQuotes]: a backslash before quotes and backslashes, CR and LF in
    percent notation. *)
Fixpoint escapeQuotes (s : string) : string :=
  match s with
  | EmptyString => ""
  | String c s =>
    (if Ascii.eqb c "\" || Ascii.eqb c "034" then String "\" (String c "")
     else if Ascii.eqb c "013" then "%0D"
     else if Ascii.eqb c "010" then "%0A"
     else String c "") +:+ escapeQuotes s
  end.

(** A part: the lines of its header and its content. *)
Record part := mkPart { p_header : list string; p_content : string }.

Definition field_part (name value : string) : part :=
  mkPart ["Content-Disposition: form-data; name=" +:+ quote +:+ escapeQuotes name +:+ quote] value.
Definition file_part (name filename content : string) : part :=
  mkPart ["Content-Disposition: form-data; name=" +:+ quote +:+ escapeQuotes name +:+ quote
            +:+ "; filename=" +:+ quote +:+ escapeQuotes filename +:+ quote;
          "Content-Type: application/octet-stream"] content.

(** [multipart.Writer] over a [bytes.Buffer], which never fails: [CreatePart]
    with the content written to the part, and [Close]. *)
Record writer := mkWriter { w_buf : string; w_last : bool }.
Definition NewWriter : writer := mkWriter "" false.
Definition FormDataContentType (boundary : string) : string :=
  "multipart/form-data; boundary=" +:+ boundary.
Definition header_lines (h : list string) : string := foldr (λ l r, l +:+ CRLF +:+ r) "" h.
Definition CreatePart (boundary : string) (w : writer) (p : part) : writer :=
  mkWriter (w_buf w +:+ (if w_last w then CRLF else "") +:+ "--" +:+ boundary +:+ CRLF
              +:+ header_lines (p_header p) +:+ CRLF +:+ p_content p) true.
Definition writer_Close (boundary : string) (w : writer) : string :=
  w_buf w +:+ CRLF +:+ "--" +:+ boundary +:+ "--" +:+ CRLF.

(** ** The client *)
Section forms.
Context {C : Type} `{!Conn C} `{!RangeOrder}.

(** [net.Dial] and [net.DialTimeout] are given by their result. *)
Definition Dial (dialled : gores goerr C) : gores goerr (FCGIClient C) :=
  c ← dialled; Val (new_client c).
Definition DialTimeout (dialled : gores goerr C) : gores goerr (FCGIClient C) :=
  c ← dialled; Val (new_client c).

(** [Request]: [Do], then the response with the header [mime].  The map of
    parameters is sent in the order in which Go ranges over it. *)
Definition Request_call (f : FCGIClient C) (p : gmap string string) (body : option string)
    (mime : gores goerr Header) : outcome (FCGIClient C * gores goerr Response) :=
  r ← Do f (prod_map sbytes sbytes <$> range p) ((λ b, [sbytes b]) <$> body);
  match r with
  | (f, Some e) => Ret (f, Err e)
  | (f, None) => Ret (f, Request mime)
  end.

Definition Get_call f (p : gmap string string) mime := Request_call f (Get p) None mime.
Definition Post_call f (p : gmap string string) (bodyType body : string) (l : Z) mime :=
  Request_call f (Post p bodyType l) (Some body) mime.

Definition PostForm f (p : gmap string string) (data : Values) mime :=
  let body := Encode data in
  Post_call f p "application/x-www-form-urlencoded" body (Z.of_nat (slen body)) mime.

(** A file as [os.Open] and [io.Copy] see it: an error, or what is read before
    the end or before a read error. *)
Inductive opened := OpenErr (e : goerr) | Opened (content : string) (read_error : option goerr).

(** The loop over the files, up to the first that cannot be opened.  The error
    of [io.Copy] is stored in [err], which [writer.Close] overwrites. *)
Fixpoint write_files (open : string → opened) (boundary : string) (w : writer)
    (files : list (string * string)) : gores goerr writer :=
  match files with
  | [] => Val w
  | (key, val) :: files =>
    match open val with
    | OpenErr e => Err e
    | Opened content _ =>
      write_files open boundary (CreatePart boundary w (file_part key (Base val) content)) files
    end
  end.

Definition write_fields (boundary : string) (w : writer) (data : list (string * list string)) : writer :=
  foldl (λ w kvs, foldl (λ w v, CreatePart boundary w (field_part kvs.1 v)) w kvs.2) w data.

(** [data] and [files] are the entries of the two maps in the order of Go. *)
Definition PostFile f (open : string → opened) (boundary : string) (p : gmap string string)
    (data : list (string * list string)) (files : list (string * string)) mime
  : outcome (FCGIClient C * gores goerr Response) :=
  match write_files open boundary (write_fields boundary NewWriter data) files with
  | Err e => Ret (f, Err e)
  | Val w =>
    let body := writer_Close boundary w in
    Post_call f p (FormDataContentType boundary) body (Z.of_nat (slen body)) mime
  end.
End forms.

(** ** Readers of a multipart body *)

Fixpoint read_header (fuel : nat) (s : string) : option (list string * string) :=
  match fuel with
  | O => None
  | S n =>
    i ← Index s CRLF;
    if bool_decide (i = 0%nat) then Some ([], sdrop 2 s)
    else '(h, c) ← read_header n (sdrop (i + 2) s); Some (stake i s :: h, c)
  end.
Definition read_part (s : string) : option part :=
  if HasPrefix s CRLF then
    '(h, c) ← read_header (S (slen s)) (sdrop 2 s); Some (mkPart h c)
  else None.
Fixpoint read_parts (l : list string) : option (list part) :=
  match l with
  | [] => None
  | s :: l => if HasPrefix s "--" then Some [] else p ← read_part s; cons p <$> read_parts l
  end.
(** The text before the first delimiter is skipped (RFC 2046); a delimiter
    begins with a line break, which may be missing at the start of the body. *)
Definition delimiter (boundary : string) : string := CRLF +:+ "--" +:+ boundary.
Definition read_multipart (boundary body : string) : option (list part) :=
  read_parts (tail (Split (CRLF +:+ body) (delimiter boundary))).

(** ** Splitting at a separator of several characters *)

Lemma split_skip p cur r sep : split_aux (slen p) cur (p +:+ r) sep = split_aux 0 cur r sep.
Proof. induction p as [|c p IH]; [done|]. exact IH. Qed.

Lemma HasPrefix_no_overlap c t a r u :
  lacks c t = true → HasPrefix (a +:+ String c r) t = true → HasPrefix (a +:+ u) t = true.
Proof.
  revert t. induction a as [|x a IH]; intros t Ht H; destruct t as [|y t]; try done.
  - unfold lacks in Ht. cbn [sforall] in Ht. rewrite sapp_nil_l in H. cbn [HasPrefix] in H.
    apply andb_true_iff in H as [->%Ascii.eqb_eq _]. by rewrite Ascii.eqb_refl in Ht.
  - unfold lacks in Ht. cbn [sforall] in Ht. apply andb_true_iff in Ht as [_ Ht].
    rewrite !sapp_cons in *. cbn [HasPrefix] in *. rewrite !andb_true_iff in *. naive_solver.
Qed.

(** The separator [String c t], whose first character occurs only once, is found
    after a text without it. *)
Lemma split_sep c t a r cur :
  lacks c t = true → Index a (String c t) = None →
  split_aux 0 cur (a +:+ String c t +:+ r) (String c t)
  = (cur +:+ a) :: split_aux 0 "" r (String c t).
Proof.
  intros Ht. revert cur. induction a as [|x a IH]; intros cur Ha.
  - rewrite sapp_nil_l, sapp_nil_r, sapp_cons. cbn [split_aux].
    rewrite <-sapp_cons, HasPrefix_app. cbn [slen]. replace (S (slen t) - 1) with (slen t) by lia.
    by rewrite split_skip.
  - rewrite Index_unfold in Ha. destruct (HasPrefix (String x a) (String c t)) eqn:Hp; [done|].
    destruct (Index a (String c t)) eqn:Hi; [done|]. rewrite sapp_cons. cbn [split_aux].
    destruct (HasPrefix (String x (a +:+ String c t +:+ r)) (String c t)) eqn:Hq.
    + exfalso. cbn [HasPrefix] in Hp, Hq. apply andb_true_iff in Hq as [Hx Hq]. rewrite Hx in Hp.
      rewrite sapp_cons in Hq. apply (HasPrefix_no_overlap _ _ _ _ "") in Hq; [|done].
      rewrite sapp_nil_r in Hq. by rewrite Hq in Hp.
    + rewrite IH by done. by rewrite sapp_assoc.
Qed.

Lemma split_none c t a cur : Index a (String c t) = None → split_aux 0 cur a (String c t) = [cur +:+ a].
Proof.
  revert cur. induction a as [|x a IH]; intros cur Ha; [by rewrite sapp_nil_r|].
  rewrite Index_unfold in Ha. cbn [split_aux]. destruct (HasPrefix (String x a) (String c t)); [done|].
  destruct (Index a (String c t)) eqn:Hi; [done|]. rewrite IH by done. by rewrite sapp_assoc.
Qed.

Lemma Index_sep c t a r :
  lacks c a = true → Index (a +:+ String c t +:+ r) (String c t) = Some (slen a).
Proof.
  induction a as [|x a IH]; rewrite Index_unfold.
  - by rewrite sapp_nil_l, HasPrefix_app.
  - unfold lacks. rewrite sapp_cons. cbn [sforall HasPrefix].
    rewrite andb_true_iff, negb_true_iff. intros [-> Ha]. cbn [andb]. by rewrite IH.
Qed.

Lemma Index_skip c t a s :
  lacks c a = true → Index s (String c t) = None → Index (a +:+ s) (String c t) = None.
Proof.
  intros Ha Hs. induction a as [|x a IH]; [done|]. unfold lacks in Ha. cbn [sforall] in Ha.
  apply andb_true_iff in Ha as [Hx%negb_true_iff Ha].
  rewrite Index_unfold, sapp_cons. cbn [HasPrefix]. rewrite Hx. cbn [andb]. by rewrite IH.
Qed.

Lemma Index_crlf b s :
  HasPrefix s ("--" +:+ b) = false → Index s (delimiter b) = None →
  Index (CRLF +:+ s) (delimiter b) = None.
Proof.
  intros Hp Hs. rewrite Index_unfold.
  change (HasPrefix (CRLF +:+ s) (delimiter b)) with (HasPrefix s ("--" +:+ b)). rewrite Hp.
  exact (f_equal (fmap S) (Index_skip "013" _ (String "010" "") s eq_refl Hs)).
Qed.

(** ** A part is read back *)

Definition line_ok (l : string) : Prop :=
  lacks "013" l = true ∧ HasPrefix l "-" = false ∧ l ≠ "".
Definition part_ok (b : string) (p : part) : Prop :=
  Forall line_ok (p_header p) ∧ Contains (p_content p) ("--" +:+ b) = false.
Definition part_text (p : part) : string :=
  CRLF +:+ header_lines (p_header p) +:+ CRLF +:+ p_content p.

Lemma content_free b c : Contains c ("--" +:+ b) = false →
  HasPrefix c ("--" +:+ b) = false ∧ Index c (delimiter b) = None.
Proof.
  intros Hc. split; apply not_true_iff_false || apply eq_None_not_Some; intros H;
    apply not_true_iff_false in Hc; apply Hc, Contains_spec.
  - apply HasPrefix_spec in H as [r ->]. by exists "", r.
  - destruct H as [i Hi]. apply Index_Some in Hi as (r & Hr & _).
    exists (stake i c +:+ CRLF), r. rewrite Hr at 1. unfold delimiter. by rewrite !sapp_assoc.
Qed.

Lemma part_tail_free b h c : Forall line_ok h → Contains c ("--" +:+ b) = false →
  HasPrefix (header_lines h +:+ CRLF +:+ c) ("--" +:+ b) = false
  ∧ Index (header_lines h +:+ CRLF +:+ c) (delimiter b) = None.
Proof.
  intros Hh Hc. apply content_free in Hc as [Hc1 Hc2].
  induction Hh as [|l h (Hcr & Hd & Hne) _ [IH1 IH2]].
  - split; [done|]. by apply Index_crlf.
  - change (header_lines (l :: h)) with (l +:+ CRLF +:+ header_lines h). rewrite !sapp_assoc. split.
    + destruct l as [|x l]; [done|]. rewrite !sapp_cons. cbn [HasPrefix] in *.
      rewrite andb_true_r in Hd. by rewrite Hd.
    + apply (Index_skip "013"); [done|]. by apply Index_crlf.
Qed.

Lemma part_text_free b p : part_ok b p → Index (part_text p) (delimiter b) = None.
Proof. intros [Hh Hc]. destruct (part_tail_free b _ _ Hh Hc). by apply Index_crlf. Qed.

Lemma sdrop_sep l s : sdrop (slen l + 2) (l +:+ CRLF +:+ s) = s.
Proof. induction l as [|x l IH]; [done|]. exact IH. Qed.

Lemma read_header_lines h c fuel : Forall line_ok h → length h < fuel →
  read_header fuel (header_lines h +:+ CRLF +:+ c) = Some (h, c).
Proof.
  intros Hh. revert fuel. induction Hh as [|l h (Hcr & _ & Hne) _ IH]; intros [|n] Hn; simpl in Hn; try lia.
  { done. }
  change (header_lines (l :: h)) with (l +:+ CRLF +:+ header_lines h). rewrite !sapp_assoc.
  cbn [read_header]. rewrite (Index_sep "013" (String "010" "")) by done. cbn [mbind option_bind].
  rewrite bool_decide_false by (by destruct l). change (String "013" (String "010" "")) with CRLF.
  by rewrite sdrop_sep, IH, stake_app by lia.
Qed.

Lemma header_lines_length h : length h ≤ slen (header_lines h).
Proof.
  induction h as [|l h IH]; [done|]. change (header_lines (l :: h)) with (l +:+ CRLF +:+ header_lines h).
  rewrite !slen_app. simpl. lia.
Qed.

Lemma read_part_text b p : part_ok b p → read_part (part_text p) = Some p.
Proof.
  intros [Hh _]. unfold read_part, part_text. rewrite HasPrefix_app.
  change (sdrop 2 (CRLF +:+ ?s)) with s. rewrite read_header_lines; [by destruct p|done|].
  pose proof (header_lines_length (p_header p)). rewrite !slen_app. lia.
Qed.

(** ** The whole body is read back *)

Definition parts_text (b : string) (ps : list part) : string :=
  foldr (λ p r, delimiter b +:+ part_text p +:+ r) "" ps.

Lemma CreatePart_more b w p : w_last w = true →
  CreatePart b w p = mkWriter (w_buf w +:+ delimiter b +:+ part_text p) true.
Proof. intros H. unfold CreatePart, delimiter, part_text. rewrite H. by rewrite !sapp_assoc. Qed.

Lemma CreateParts_more b ps w : w_last w = true →
  w_buf (foldl (CreatePart b) w ps) = w_buf w +:+ parts_text b ps.
Proof.
  revert w. induction ps as [|p ps IH]; intros w Hw; [by rewrite sapp_nil_r|].
  cbn [foldl]. rewrite CreatePart_more, IH by done. cbn [w_buf]. by rewrite !sapp_assoc.
Qed.

Lemma written b ps : ∃ pre, Index pre (delimiter b) = None
  ∧ CRLF +:+ writer_Close b (foldl (CreatePart b) NewWriter ps)
    = pre +:+ parts_text b ps +:+ delimiter b +:+ "--" +:+ CRLF.
Proof.
  destruct ps as [|p ps]; [by exists CRLF|]. exists "". split; [done|].
  unfold writer_Close. cbn [foldl]. rewrite CreateParts_more by done.
  cbn [CreatePart w_buf w_last NewWriter parts_text foldr]. fold (parts_text b ps).
  unfold delimiter, part_text. by rewrite !sapp_nil_l, !sapp_assoc.
Qed.

Lemma split_parts b pre ps :
  lacks "013" b = true → Index pre (delimiter b) = None → Forall (part_ok b) ps →
  Split (pre +:+ parts_text b ps +:+ delimiter b +:+ "--" +:+ CRLF) (delimiter b)
  = pre :: (part_text <$> ps) ++ ["--" +:+ CRLF].
Proof.
  intros Hb Hpre Hps. revert pre Hpre. induction Hps as [|p ps Hp _ IH]; intros pre Hpre;
    unfold Split in *; cbn [parts_text foldr fmap list_fmap].
  - rewrite sapp_nil_l. etransitivity; [by apply (split_sep "013")|]. by rewrite sapp_nil_l.
  - fold (parts_text b ps). rewrite !sapp_assoc. etransitivity; [by apply (split_sep "013")|].
    rewrite sapp_nil_l. f_equal. apply IH. by apply part_text_free.
Qed.

Lemma read_parts_texts b ps : Forall (part_ok b) ps →
  read_parts ((part_text <$> ps) ++ ["--" +:+ CRLF]) = Some ps.
Proof.
  induction 1 as [|p ps Hp _ IH]; [done|]. cbn [fmap list_fmap app read_parts].
  change (HasPrefix (part_text p) "--") with false. cbv iota.
  rewrite (read_part_text b) by done. cbn [mbind option_bind].
  change (list_fmap _ _ part_text ps) with (part_text <$> ps). by rewrite IH.
Qed.

Lemma read_multipart_written b ps : lacks "013" b = true → Forall (part_ok b) ps →
  read_multipart b (writer_Close b (foldl (CreatePart b) NewWriter ps)) = Some ps.
Proof.
  intros Hb Hps. unfold read_multipart. destruct (written b ps) as (pre & Hpre & ->).
  rewrite split_parts by done. cbn [tail]. by apply (read_parts_texts b).
Qed.

(** ** The parts of a form *)

Definition field_parts (data : list (string * list string)) : list part :=
  data ≫= λ kvs, field_part kvs.1 <$> kvs.2.
Definition content_of (open : string → opened) (path : string) : string :=
  match open path with Opened c _ => c | OpenErr _ => "" end.
Definition file_parts (open : string → opened) (files : list (string * string)) : list part :=
  (λ kv, file_part kv.1 (Base kv.2) (content_of open kv.2)) <$> files.
Definition can_open (open : string → opened) (path : string) : bool :=
  match open path with Opened _ _ => true | OpenErr _ => false end.

Lemma write_fields_parts b w data :
  write_fields b w data = foldl (CreatePart b) w (field_parts data).
Proof.
  revert w. induction data as [|[k vs] data IH]; intros w; [done|]. cbn [write_fields foldl].
  unfold field_parts. rewrite bind_cons, foldl_app. fold (field_parts data).
  rewrite <-IH. unfold write_fields. f_equal. cbn [fst snd].
  revert w. induction vs as [|v vs IHv]; intros w; [done|]. apply IHv.
Qed.

Lemma write_files_parts open b w files : Forall (λ kv, can_open open kv.2 = true) files →
  write_files open b w files = Val (foldl (CreatePart b) w (file_parts open files)).
Proof.
  intros H. revert w. induction H as [|[k v] files Hv _ IH]; intros w; [done|].
  cbn [write_files file_parts fmap list_fmap foldl fst snd]. unfold can_open in Hv. cbn [snd] in Hv.
  unfold content_of at 1. destruct (open v); [done|]. apply IH.
Qed.

Lemma escapeQuotes_lacks s : lacks "013" (escapeQuotes s) = true.
Proof.
  induction s as [|c s IH]; [done|].
  assert (Hc : lacks "013" (if Ascii.eqb c "\" || Ascii.eqb c "034" then String "\" (String c "")
     else if Ascii.eqb c "013" then "%0D" else if Ascii.eqb c "010" then "%0A" else String c "") = true)
    by (destruct c as [[] [] [] [] [] [] [] []]; reflexivity).
  cbn [escapeQuotes]. by rewrite lacks_app, Hc.
Qed.

Lemma field_part_ok b k v : Contains v ("--" +:+ b) = false → part_ok b (field_part k v).
Proof.
  intros Hv. split; [|done]. repeat constructor; [|done..]. 
  by rewrite !lacks_app, escapeQuotes_lacks.
Qed.
Lemma file_part_ok b k n c : Contains c ("--" +:+ b) = false → part_ok b (file_part k n c).
Proof.
  intros Hv. split; [|done]. repeat constructor; try done.
  by rewrite !lacks_app, !escapeQuotes_lacks.
Qed.

(** ** What is sent *)
Section sent.
Context {C : Type} `{!Conn C, !ReliableConn C} `{!RangeOrder}.

(** [f'] is the client after one request with the parameters [p] and [body]: the
    responder decodes exactly these, and the announced length is right. *)
Definition posted (f f' : FCGIClient C) (p : gmap string string) (body : string) : Prop :=
  ∃ sent params stdin,
    clog (rwc f') = clog (rwc f) ++ sent
    ∧ demux (S (length sent)) sent
      = Some ([(FCGI_BEGIN_REQUEST, [0; 1; 0; 0; 0; 0; 0; 0]%Z)]
              ++ ((pair FCGI_PARAMS <$> params) ++ [(FCGI_PARAMS, [])])
              ++ ((pair FCGI_STDIN <$> stdin) ++ [(FCGI_STDIN, [])]))
    ∧ decode_pairs (S (length (concat params))) (concat params)
      = Some (trunc_pair <$> (prod_map sbytes sbytes <$> range p))
    ∧ concat stdin = sbytes body
    ∧ p !! "CONTENT_LENGTH" = Some (Itoa (blen (concat stdin))).

Definition names_ok (p : gmap string string) : Prop := map_Forall (λ k _, (Z.of_nat (slen k) ≤ 65492)%Z) p.

Lemma names_key_ok p : names_ok p → Forall key_ok (prod_map sbytes sbytes <$> range p).
Proof.
  intros Hp. apply Forall_fmap, Forall_forall. intros [k v] Hkv. rewrite range_perm in Hkv.
  apply elem_of_map_to_list in Hkv. specialize (Hp _ _ Hkv). unfold key_ok. cbn in *.
  rewrite blen_sbytes. unfold maxWrite. lia.
Qed.

Lemma Post_names_ok p t l : names_ok p → names_ok (Post p t l).
Proof.
  intros Hp. unfold Post, names_ok.
  repeat first [ apply map_Forall_insert_2; [done|] | case_match ]; done.
Qed.

Lemma Post_length p t l : Post p t l !! "CONTENT_LENGTH" = Some (Itoa l).
Proof. unfold Post. rewrite lookup_insert_ne by done. by rewrite lookup_insert_eq. Qed.

Lemma Post_type p t l : t ≠ "" → Post p t l !! "CONTENT_TYPE" = Some t.
Proof. intros Ht. unfold Post. by rewrite lookup_insert_eq, bool_decide_false. Qed.

Lemma Post_call_posted (f : FCGIClient C) p t body mime :
  uint16_ok (reqId f) → names_ok p →
  ∃ f', Post_call f p t body (Z.of_nat (slen body)) mime = Ret (f', Request mime)
    ∧ posted f f' (Post p t (Z.of_nat (slen body))) body.
Proof.
  intros Hid Hp. unfold Post_call, Request_call.
  destruct (Do_decoded f (prod_map sbytes sbytes <$> range (Post p t (Z.of_nat (slen body))))
              (Some [sbytes body])) as (f' & sent & params & stdin & HD & Hl & Hm & Hd & Hs & _).
  { done. }
  { by apply names_key_ok, Post_names_ok. }
  change ((λ b, [sbytes b]) <$> Some body) with (Some [sbytes body]). rewrite HD.
  exists f'. split; [done|]. exists sent, params, stdin. cbn in Hs. rewrite app_nil_r in Hs.
  rewrite Hs, Post_length, blen_sbytes. done.
Qed.
End sent.

(** A form is understood: for every map of values, the responder gets a request
    whose body, read as a form, has exactly the pairs of the map, the keys sorted
    and the values of a key in their order; the content type and the length are
    those of this body. *)
Theorem PostForm_roundtrip {C} `{!Conn C, !ReliableConn C, !RangeOrder} (f : FCGIClient C) p data mime :
  uint16_ok (reqId f) → names_ok p →
  let p' := Post p "application/x-www-form-urlencoded" (Z.of_nat (slen (Encode data))) in
  ∃ f' body, PostForm f p data mime = Ret (f', Request mime)
    ∧ posted f f' p' body
    ∧ p' !! "CONTENT_TYPE" = Some "application/x-www-form-urlencoded"
    ∧ ParseQuery body = Some (Values_pairs data)
    ∧ ∀ k v, (k, v) ∈ Values_pairs data ↔ ∃ vs, data !! k = Some vs ∧ v ∈ vs.
Proof.
  intros Hid Hp. destruct (Post_call_posted f p "application/x-www-form-urlencoded" (Encode data) mime Hid Hp)
    as (f' & HP & Hs).
  exists f', (Encode data). split_and!; [done|done|by apply Post_type|apply ParseQuery_Encode|].
  apply elem_of_Values_pairs.
Qed.

Definition ex_values : Values := {["b c" := ["1&2"; "=%"]; "a" := ["x y"]]}.

Lemma PostForm_roundtrip_witness :
  Encode ex_values = "a=x+y&b+c=1%262&b+c=%3D%25"
  ∧ let p' := Post ∅ "application/x-www-form-urlencoded" (Z.of_nat (slen (Encode ex_values))) in
    ∃ f' body, PostForm (new_client ([] : bytes)) ∅ ex_values (Err EOF) = Ret (f', Request (Err EOF))
    ∧ posted (new_client ([] : bytes)) f' p' body
    ∧ p' !! "CONTENT_TYPE" = Some "application/x-www-form-urlencoded"
    ∧ ParseQuery body = Some (Values_pairs ex_values)
    ∧ ∀ k v, (k, v) ∈ Values_pairs ex_values ↔ ∃ vs, ex_values !! k = Some vs ∧ v ∈ vs.
Proof.
  split; [vm_compute; reflexivity|].
  exact (PostForm_roundtrip (new_client ([] : bytes)) ∅ ex_values (Err EOF) ltac:(done) (map_Forall_empty _)).
Defined.

(** C9: files arrive: when every file can be opened and the boundary occurs in no
    value and in no file, the responder gets a multipart body with this boundary
    whose parts are the values, in order, and then the files under the last
    element of their paths, each with its name and its content as they were,
    whatever characters they contain. *)
Theorem PostFile_roundtrip {C} `{!Conn C, !ReliableConn C, !RangeOrder} (f : FCGIClient C)
    open b p data files mime :
  uint16_ok (reqId f) → names_ok p → lacks "013" b = true →
  Forall (λ kv, can_open open kv.2 = true) files →
  Forall (λ kvs, Forall (λ v, Contains v ("--" +:+ b) = false) kvs.2) data →
  Forall (λ kv, Contains (content_of open kv.2) ("--" +:+ b) = false) files →
  ∃ f' p' body, PostFile f open b p data files mime = Ret (f', Request mime)
    ∧ posted f f' p' body
    ∧ p' !! "CONTENT_TYPE" = Some (FormDataContentType b)
    ∧ read_multipart b body = Some (field_parts data ++ file_parts open files).
Proof.
  intros Hid Hp Hb Ho Hd Hf. unfold PostFile.
  rewrite write_files_parts, write_fields_parts, <-foldl_app by done.
  set (ps := field_parts data ++ file_parts open files).
  destruct (Post_call_posted f p (FormDataContentType b)
              (writer_Close b (foldl (CreatePart b) NewWriter ps)) mime Hid Hp) as (f' & -> & Hs).
  eexists f', _, _. split_and!; [done|exact Hs|by apply Post_type|].
  apply read_multipart_written; [done|]. apply Forall_app_2.
  - apply Forall_forall. intros q (kvs & Hq & Hk)%list_elem_of_bind.
    apply list_elem_of_fmap in Hq as (v & -> & Hv). apply field_part_ok.
    rewrite Forall_forall in Hd. specialize (Hd _ Hk). rewrite Forall_forall in Hd. auto.
  - apply Forall_fmap. eapply Forall_impl; [exact Hf|]. intros kv. apply file_part_ok.
Qed.

Definition ex_open (path : string) : opened :=
  if bool_decide (path = "/tmp/a.txt") then Opened "--x" None else OpenErr (ErrMsg "no such file").

Lemma PostFile_roundtrip_witness :
  ∃ f' p' body, PostFile (new_client ([] : bytes)) ex_open "b0" ∅ [("k", ["v"; CRLF])]
                  [("f", "/tmp/a.txt")] (Err EOF) = Ret (f', Request (Err EOF))
    ∧ posted (new_client ([] : bytes)) f' p' body
    ∧ p' !! "CONTENT_TYPE" = Some (FormDataContentType "b0")
    ∧ read_multipart "b0" body
      = Some (field_parts [("k", ["v"; CRLF])] ++ file_parts ex_open [("f", "/tmp/a.txt")]).
Proof.
  apply PostFile_roundtrip; [done|apply map_Forall_empty|done|..];
    repeat constructor; vm_compute; reflexivity.
Defined.

(** When a file cannot be opened nothing is sent, and the error of the first such
    file is returned. *)
Theorem PostFile_open_error {C} `{!Conn C, !RangeOrder} (f : FCGIClient C) open b p data fs k path rest mime e :
  Forall (λ kv, can_open open kv.2 = true) fs → open path = OpenErr e →
  PostFile f open b p data (fs ++ (k, path) :: rest) mime = Ret (f, Err e).
Proof.
  intros Hfs He. unfold PostFile. generalize (write_fields b NewWriter data) as w.
  induction Hfs as [|[k' v'] fs Hv _ IH]; intros w; cbn [app write_files]; [by rewrite He|].
  unfold can_open in Hv. cbn [snd] in Hv. destruct (open v'); [done|]. apply IH.
Qed.

Lemma PostFile_open_error_witness :
  PostFile (new_client ([] : bytes)) ex_open "b0" ∅ [] ([("f", "/tmp/a.txt")] ++ ("g", "/x") :: []) (Err EOF)
  = Ret (new_client ([] : bytes), Err (ErrMsg "no such file")).
Proof. apply PostFile_open_error; repeat constructor. Defined.

Definition without_read_errors (o : opened) : opened :=
  match o with Opened c _ => Opened c None | OpenErr e => OpenErr e end.

(** An error while a file is read is lost: the request is the one for the
    shorter file, and the caller does not learn of it. *)
Theorem PostFile_read_error {C} `{!Conn C, !RangeOrder} (f : FCGIClient C) open b p data files mime :
  PostFile f open b p data files mime = PostFile f (without_read_errors ∘ open) b p data files mime.
Proof.
  unfold PostFile. generalize (write_fields b NewWriter data) as w.
  assert (Hf : ∀ w, write_files open b w files = write_files (without_read_errors ∘ open) b w files).
  { induction files as [|[k v] files IH]; intros w; [done|]. cbn [write_files compose].
    destruct (open v); [done|]. apply IH. }
  intros w. by rewrite Hf.
Qed.
