(* ===== verification/Platform.v ===== *)
(** * What differs between systems

    The signals and process groups of Unix ([local/pid/pidfile_other.go],
    [local/runner_posix.go], [local/process/process.go],
    [local/process/process_linux.go], [process_other.go]) and the counterparts
    for Windows ([local/pid/pidfile_windows.go], [reexec/process_windows.go],
    [local/php/composer_windows.go], [local/php/executor_windows.go],
    [inotify/inotify_windows.go]).  What the kernel answers is modelled by a table
    of processes, as far as the code asks it; the other answers of Windows are
    parameters. *)

From stdpp Require Import base tactics option list gmap strings pretty.
From stdpp Require Import sets fin_sets fin_maps.
From Stdlib Require Import ZArith Lia Ascii.
From S2P Require Import Prelude GoStrings FilePath Os Pid.

(** ** Liveness of a process

    What [PidFile.IsRunning] and [PidFile.Stop] need of a system. *)
Class Processes (S : Type) := {
  sys_isRunning : S → Z → bool;
  sys_kill : S → Z → bool;            (** [true]: no error *)
  sys_live : S → Z → bool;            (** exists and has not ended *)
  sys_visible : S → Z → bool;         (** the caller may ask for it *)
  sys_running_sound s pid : (0 < pid)%Z → sys_live s pid = true → sys_visible s pid = true →
                            sys_isRunning s pid = true;
  sys_gone s pid : (0 < pid)%Z → sys_isRunning s pid = false → sys_visible s pid = true →
                   sys_live s pid = false }.

(** ** Attributes of a process that is started *)

Record SysProcAttr := mkAttr { Setpgid : bool; Foreground : bool; Setsid : bool; Pdeathsig : bool }.
Definition no_attr : SysProcAttr := mkAttr false false false false.
(** [runner_posix.go] *)
Definition buildCmd (foreground : bool) : SysProcAttr := mkAttr true foreground false false.

Module Posix.

(** A process: its group, whether it may be signalled by the caller, whether it
    has ended and was not waited for.  [pr_birth], [pr_line] (the births of the
    process and of those it descends from) and [pr_joined] (it came into its group
    by joining it, or descends there from one that did) are not seen by the code. *)
Record proc := mkProc {
  pr_group : Z; pr_ours : bool; pr_zombie : bool; pr_birth : nat; pr_line : gset nat; pr_joined : bool }.
Abbreviation table := (gmap Z proc).

Inductive errno := ESRCH | EPERM.
#[export] Instance errno_eq : EqDecision errno.
Proof. solve_decision. Defined.

Definition Getpgid (t : table) (pid : Z) : gores errno Z :=
  match t !! pid with Some p => Val (pr_group p) | None => Err ESRCH end.

(** The processes that a target of [kill(2)] denotes; [self] is the caller. *)
Definition targets (t : table) (self target : Z) : table :=
  if bool_decide (0 < target)%Z then filter (λ kv, kv.1 = target) t
  else if bool_decide (target = -1)%Z then filter (λ kv, kv.1 ≠ 1%Z ∧ kv.1 ≠ self) t
  else
    let g := if bool_decide (target = 0)%Z then default 0%Z (pr_group <$> t !! self) else (- target)%Z in
    filter (λ kv, pr_group kv.2 = g) t.

(** [syscall.Kill]: the processes that get the signal. *)
Definition Kill (t : table) (self target : Z) : gores errno (gset Z) :=
  let ts := targets t self target in
  if bool_decide (ts = ∅) then Err ESRCH else
  let ours := dom (filter (λ kv : Z * proc, pr_ours kv.2 = true) ts) in
  if bool_decide (ours = ∅) then Err EPERM else Val ours.

(** [func kill]: SIGTERM to the group of the process. *)
Definition kill (t : table) (self pid : Z) : gores errno (gset Z) :=
  match Getpgid t pid with
  | Err e => Err e
  | Val pgid => Kill t self (- pgid)
  end.

(** [process.Signal(0)] as its error; [os.FindProcess] never fails on Unix.  The
    pids 0 and -1 are refused by [os.Process] with errors of its own. *)
Inductive signal_err := Errno (e : errno) | ErrProcessDone | OtherErr.
#[export] Instance signal_err_eq : EqDecision signal_err.
Proof. solve_decision. Defined.
Definition Signal0 (t : table) (pid : Z) : option signal_err :=
  if bool_decide (pid = 0%Z) || bool_decide (pid = -1)%Z then Some OtherErr else
  match t !! pid with
  | None => Some ErrProcessDone
  | Some p => if pr_ours p then None else Some (Errno EPERM)
  end.

Definition isRunning (t : table) (pid : Z) : bool :=
  match Signal0 t pid with
  | None => true
  | Some e => negb (bool_decide (e = Errno ESRCH)) && negb (bool_decide (e = ErrProcessDone))
  end.

Definition live (t : table) (pid : Z) : bool :=
  match t !! pid with Some p => negb (pr_zombie p) | None => false end.

(** A process is reported as running exactly when it is in the table of
    processes, whoever owns it; one that ended counts until it is waited for. *)
Lemma isRunning_spec t pid : (0 < pid)%Z → isRunning t pid = true ↔ is_Some (t !! pid).
Proof.
  intros Hpid. unfold isRunning, Signal0. rewrite !bool_decide_false by lia. cbn [orb].
  destruct (t !! pid) as [p|]; [|by split; [|intros []]].
  destruct (pr_ours p); split; by eauto.
Qed.

Lemma live_isRunning t pid : (0 < pid)%Z → live t pid = true → isRunning t pid = true.
Proof. intros Hp Hl. apply isRunning_spec; [done|]. unfold live in Hl. destruct (t !! pid); [eauto|done]. Qed.

#[global] Program Instance posix_processes : Processes (table * Z) := {|
  sys_isRunning s pid := isRunning s.1 pid;
  sys_kill s pid := match kill s.1 s.2 pid with Val _ => true | Err _ => false end;
  sys_live s pid := live s.1 pid;
  sys_visible _ _ := true |}.
Next Obligation. intros s pid Hp Hl _. by apply live_isRunning. Qed.
Next Obligation.
  intros [t self] pid Hp Hr _. cbn [fst] in *. destruct (live t pid) eqn:E; [|done].
  apply (live_isRunning t pid Hp) in E. congruence.
Qed.

(** ** Process groups *)

(** The processes of the machine over time.  [Start] is a command set up by
    [buildCmd] of [runner_posix.go], [Fork] any other child, which stays in the group
    of its parent, [Lead] a process that makes a group of its own ([setpgid] or
    [setsid]), [Join] one that joins a group that exists ([setpgid]), [Exit] the end
    of a process.  A new pid is neither that of a process nor that of a group, which
    Unix guarantees. *)
Record world := mkWorld { procs : table; clock : nat }.

Definition fresh_pid (t : table) (c : Z) : Prop :=
  (1 < c)%Z ∧ t !! c = None ∧ map_Forall (λ _ p, pr_group p ≠ c) t.

Definition child (w : world) (parent : proc) (group : Z) (joined : bool) : proc :=
  mkProc group (pr_ours parent) false (clock w) ({[clock w]} ∪ pr_line parent) joined.
Definition add (w : world) (c : Z) (p : proc) : world :=
  mkWorld (<[c := p]> (procs w)) (S (clock w)).

Definition fork (w : world) (parent : proc) (c : Z) : world :=
  add w c (child w parent (pr_group parent) (pr_joined parent)).
(** [buildCmd] and [cmd.Start]: with [Setpgid] the command gets a group with its own
    pid. *)
Definition start_command (foreground : bool) (w : world) (parent : proc) (c : Z) : world :=
  if Setpgid (buildCmd foreground) then add w c (child w parent c false) else fork w parent c.
Definition regroup (p : proc) (group : Z) (joined : bool) : proc :=
  mkProc group (pr_ours p) (pr_zombie p) (pr_birth p) (pr_line p) joined.
Definition move_to (w : world) (pid : Z) (p : proc) (group : Z) (joined : bool) : world :=
  mkWorld (<[pid := regroup p group joined]> (procs w)) (clock w).

Inductive pstep (w : world) : world → Prop :=
| Start foreground parent p c : procs w !! parent = Some p → fresh_pid (procs w) c →
    pstep w (start_command foreground w p c)
| Fork parent p c : procs w !! parent = Some p → fresh_pid (procs w) c → pstep w (fork w p c)
| Lead pid p : procs w !! pid = Some p → pstep w (move_to w pid p pid false)
| Join pid p other q : procs w !! pid = Some p → procs w !! other = Some q →
    pstep w (move_to w pid p (pr_group q) true)
| Exit pid : pstep w (mkWorld (delete pid (procs w)) (clock w)).

(** The members of a group descend from its leader, as long as that is there, or
    came by joining it.  No process was born in the future. *)
Definition proc_ok (w : world) (p : proc) : Prop :=
  pr_birth p ∈ pr_line p ∧ pr_birth p < clock w ∧
  (pr_joined p = true ∨ ∀ L, procs w !! pr_group p = Some L → pr_birth L ∈ pr_line p).
Definition group_ok (w : world) : Prop := map_Forall (λ _ p, proc_ok w p) (procs w).

Lemma group_ok_add w c p parent q :
  group_ok w → procs w !! parent = Some q → fresh_pid (procs w) c →
  p = child w q c false ∨ p = child w q (pr_group q) (pr_joined q) → group_ok (add w c p).
Proof.
  intros Hw Hq (_ & Hc & Hg) Hp. destruct (Hw _ _ Hq) as (_ & _ & Hql).
  assert (Hqc : pr_group q ≠ c) by exact (Hg _ _ Hq).
  unfold group_ok, add. cbn [procs]. apply map_Forall_insert_2.
  - destruct Hp as [->| ->]; unfold proc_ok; cbn; (split; [set_solver|]; split; [lia|]).
    + right. intros L. rewrite lookup_insert_eq. intros [= <-]. cbn. set_solver.
    + destruct Hql as [?|Hql]; [by left|right]. intros L.
      rewrite lookup_insert_ne by done. intros HL. specialize (Hql L HL). set_solver.
  - intros k r Hr. destruct (Hw _ _ Hr) as (Hb & Ht & Hl). unfold proc_ok. cbn [procs clock].
    split; [done|]. split; [lia|]. destruct Hl as [?|Hl]; [by left|right]. intros L.
    rewrite lookup_insert_ne; [apply Hl|]. intros E. by apply (Hg _ _ Hr).
Qed.

Lemma group_ok_move w pid p g j :
  group_ok w → procs w !! pid = Some p → g = pid ∨ j = true → group_ok (move_to w pid p g j).
Proof.
  intros Hw Hp Hg. destruct (Hw _ _ Hp) as (Hb & Ht & Hl). intros k r. cbn [procs move_to].
  intros [[<- <-]|[Hk Hr]]%lookup_insert_Some; unfold proc_ok; cbn.
  - split; [done|]. split; [done|]. destruct Hg as [-> | ->]; [right|by left]. intros L.
    rewrite lookup_insert_eq. by intros [= <-].
  - destruct (Hw _ _ Hr) as (Hbr & Htr & Hlr). split; [done|]. split; [done|].
    destruct Hlr as [?|Hlr]; [by left|right]. intros L.
    destruct (decide (pr_group r = pid)) as [E|E]; [|rewrite lookup_insert_ne by done; apply Hlr].
    rewrite E, lookup_insert_eq. intros [= <-]. cbn. apply Hlr. by rewrite E.
Qed.

Lemma group_ok_step w w' : pstep w w' → group_ok w → group_ok w'.
Proof.
  intros [fg parent p c Hp Hc|parent p c Hp Hc|pid p Hp|pid p other q Hp Hq|pid] Hw.
  - unfold start_command. destruct (Setpgid _); eapply group_ok_add; eauto.
  - eapply group_ok_add; eauto.
  - apply group_ok_move; auto.
  - apply group_ok_move; auto.
  - intros k r. cbn [procs]. intros [Hk Hr]%lookup_delete_Some. destruct (Hw _ _ Hr) as (Hb & Ht & Hl).
    split; [done|]. split; [done|]. destruct Hl as [?|Hl]; [by left|right].
    intros L. cbn [procs]. intros [_ HL]%lookup_delete_Some. by apply Hl.
Qed.

Lemma group_ok_steps w w' : rtc pstep w w' → group_ok w → group_ok w'.
Proof. induction 1; eauto using group_ok_step. Qed.

(** The command with the pid [c] that was born at [b]: as long as it is there and
    did not join another group, it leads its own. *)
Definition leads (b : nat) (c : Z) (w : world) : Prop :=
  b < clock w ∧ ∀ p, procs w !! c = Some p → pr_birth p = b → pr_joined p = false → pr_group p = c.

Lemma leads_step b c w w' : pstep w w' → leads b c w → leads b c w'.
Proof.
  intros Hs [Hb Hl].
  assert (Hadd : ∀ n p, pr_birth p = clock w → leads b c (add w n p)).
  { intros n p Hp. split; [cbn; lia|]. intros q. cbn [procs add]. intros [[_ <-]|[_ Hq]]%lookup_insert_Some; [lia|].
    by apply Hl. }
  destruct Hs as [fg parent p n Hp Hc|parent p n Hp Hc|pid p Hp|pid p other q Hp Hq|pid].
  - unfold start_command. destruct (Setpgid _); by apply Hadd.
  - by apply Hadd.
  - split; [done|]. intros q. cbn [procs move_to]. intros [[-> <-]|[_ Hq]]%lookup_insert_Some; [done|by apply Hl].
  - split; [done|]. intros q'. cbn [procs move_to]. intros [[-> <-]|[_ Hq']]%lookup_insert_Some; [done|by apply Hl].
  - split; [done|]. intros q. cbn [procs]. intros [_ Hq]%lookup_delete_Some. by apply Hl.
Qed.

Lemma leads_steps b c w w' : rtc pstep w w' → leads b c w → leads b c w'.
Proof. induction 1; eauto using leads_step. Qed.

Lemma start_command_leads foreground w parent c : leads (clock w) c (start_command foreground w parent c).
Proof.
  split; [cbn; lia|]. intros p. cbn [procs start_command add Setpgid buildCmd].
  rewrite lookup_insert_eq. intros [= <-] _ _. done.
Qed.

Lemma kill_group t self pid p l :
  t !! pid = Some p → (1 < pr_group p)%Z → kill t self pid = Val l →
  ∀ q, q ∈ l ↔ ∃ r, t !! q = Some r ∧ pr_group r = pr_group p ∧ pr_ours r = true.
Proof.
  intros Hp Hg. unfold kill, Getpgid. rewrite Hp. unfold Kill, targets.
  rewrite !(bool_decide_false (0 < _)%Z), !(bool_decide_false (- _ = _)%Z), Z.opp_involutive by lia.
  repeat (case_bool_decide; [done|]). intros [= <-] q. rewrite elem_of_dom. unfold is_Some.
  setoid_rewrite map_lookup_filter_Some. setoid_rewrite map_lookup_filter_Some. naive_solver.
Qed.

Lemma kill_returns t self pid p : t !! pid = Some p → (1 < pr_group p)%Z → pr_ours p = true →
  ∃ l, kill t self pid = Val l.
Proof.
  intros Hp Hg Ho. unfold kill, Getpgid. rewrite Hp. unfold Kill, targets.
  rewrite !(bool_decide_false (0 < _)%Z), !(bool_decide_false (- _ = _)%Z), Z.opp_involutive by lia.
  set (ts := filter _ t). assert (Hts : ts !! pid = Some p) by (by apply map_lookup_filter_Some).
  rewrite bool_decide_false by (intros E; rewrite E in Hts; by apply lookup_empty_Some in Hts).
  rewrite bool_decide_false; [eauto|]. intros E. apply (not_elem_of_empty (C := gset Z) pid). rewrite <-E.
  apply elem_of_dom. exists p. by apply map_lookup_filter_Some.
Qed.

(** C15: a command that the runner started gets a group of its own.  While it is
    there and has not joined another group, stopping it by its pid succeeds when it
    belongs to the caller: the signal goes to the command and to every process of
    the caller in its group, and to no others; these descend from the command, or
    came into the group by joining it.  Once the command has ended, nothing is
    signalled, although processes of its group may be left. *)
Theorem kill_confined foreground w0 parent pp c w self :
  group_ok w0 → procs w0 !! parent = Some pp → fresh_pid (procs w0) c →
  rtc pstep (start_command foreground w0 pp c) w →
  (∀ p, procs w !! c = Some p → pr_birth p = clock w0 → pr_joined p = false → pr_ours p = true →
     ∃ l, kill (procs w) self c = Val l ∧ c ∈ l ∧
       (∀ q r, procs w !! q = Some r → q ∈ l ↔ pr_group r = c ∧ pr_ours r = true) ∧
       (∀ q r, q ∈ l → procs w !! q = Some r → clock w0 ∈ pr_line r ∨ pr_joined r = true)) ∧
  (procs w !! c = None → kill (procs w) self c = Err ESRCH).
Proof.
  intros H0 Hpp Hc Hrun.
  assert (Hok : group_ok w).
  { eapply group_ok_steps, group_ok_step; [done|by eapply Start|done]. }
  destruct (leads_steps _ c _ _ Hrun (start_command_leads foreground w0 pp c)) as [_ Hl]. split.
  - intros p Hp Hb Hj Ho. specialize (Hl p Hp Hb Hj). destruct Hc as (Hc1 & _).
    assert (Hg : (1 < pr_group p)%Z) by lia.
    destruct (kill_returns (procs w) self c p Hp Hg Ho) as [l Hk].
    pose proof (kill_group _ _ _ _ _ Hp Hg Hk) as Hin. rewrite Hl in Hin. exists l. split_and!; [done| |..].
    + apply Hin. by exists p.
    + intros q r Hr. rewrite Hin. naive_solver congruence.
    + intros q r Hq Hr. apply Hin in Hq as (r' & Hr' & Hgr & _). rewrite Hr in Hr'. injection Hr' as <-.
      destruct (Hok _ _ Hr) as (_ & _ & [Hx|Hx]); [by right|left]. rewrite <-Hb. apply Hx. by rewrite Hgr.
  - intros Hn. unfold kill, Getpgid. by rewrite Hn.
Qed.

Definition ex_shell : proc := mkProc 100 true false 0 {[0]} false.
Definition ex_w0 : world := mkWorld {[100%Z := ex_shell]} 1.
Definition ex_w1 : world := start_command false ex_w0 ex_shell 200.
Definition ex_command : proc := child ex_w0 ex_shell 200 false.
Definition ex_w2 : world := fork ex_w1 ex_command 201.

#[export] Instance fresh_pid_dec t c : Decision (fresh_pid t c).
Proof. unfold fresh_pid. apply _. Defined.

Lemma ex_group_ok : group_ok ex_w0.
Proof.
  apply map_Forall_singleton. split; [cbn; set_solver|]. split; [cbn; lia|]. right.
  intros L. cbn. intros [= <-]. cbn. set_solver.
Qed.
Lemma ex_steps : rtc pstep ex_w1 ex_w2.
Proof. apply rtc_once, (Fork ex_w1 200 ex_command 201); [done|by apply (bool_decide_unpack _)]. Qed.

Lemma kill_confined_witness :
  ∃ l, kill (procs ex_w2) 100 200 = Val l ∧ 200%Z ∈ l ∧ 100%Z ∉ l ∧ l = {[200%Z; 201%Z]}.
Proof.
  destruct (kill_confined false ex_w0 100 ex_shell 200 ex_w2 100 ex_group_ok eq_refl
              ltac:(by apply (bool_decide_unpack _)) ex_steps) as [H _].
  destruct (H ex_command) as (l & Hk & Hc & Hl & _); [reflexivity..|]. exists l.
  assert (Hv : kill (procs ex_w2) 100 200 = Val {[200%Z; 201%Z]}) by (vm_compute; reflexivity).
  split_and!; [exact Hk|exact Hc| |congruence].
  intros [Hg _]%(Hl 100%Z ex_shell eq_refl). discriminate Hg.
Defined.
End Posix.

(** A pid file tells the truth: with the system calls of a platform behind it, a
    pid file whose process lives is reported as running, and one that is not has
    no live process, as far as the caller may see it. *)
Theorem IsRunning_truth {S} `{!Processes S} (s : S) files p :
  (0 < p_Pid p)%Z → sys_visible s (p_Pid p) = true →
  (sys_live s (p_Pid p) = true → IsRunning (mkStore files (sys_isRunning s)) p = true)
  ∧ (IsRunning (mkStore files (sys_isRunning s)) p = false → sys_live s (p_Pid p) = false).
Proof.
  intros Hp Hv. unfold IsRunning. rewrite bool_decide_false by lia. cbn [alive].
  split; intros H; [by apply sys_running_sound|by apply sys_gone].
Qed.

Lemma IsRunning_truth_witness :
  let s := (Posix.procs Posix.ex_w2, 100%Z) in
  let p := mkPid "/p" [] 201 8000 "https" None "" "/h/var/x.pid" in
  (sys_live s 201 = true → IsRunning (mkStore ∅ (sys_isRunning s)) p = true)
  ∧ (IsRunning (mkStore ∅ (sys_isRunning s)) p = false → sys_live s 201 = false).
Proof. intros s p. by apply (IsRunning_truth s ∅ p). Defined.

(** ** File watching ([inotify/inotify.go], [inotify_posix.go])

    The library keeps for each channel the path it watches; [forwards] are the
    goroutines of [inotify_windows.go]. *)
Module Inotify.
Inductive watch_err := WatchStat | WatchFailed.
Record watches := mkWatches { registered : gmap nat string; forwards : gmap nat (nat * string) }.

Definition simpleWatch (can_watch : string → bool) (ws : watches) (path : string) (c : nat)
  : watches * option watch_err :=
  if can_watch path then (mkWatches (<[c := path]> (registered ws)) (forwards ws), None)
  else (ws, Some WatchFailed).
Definition Watch := simpleWatch.
Definition Stop (ws : watches) (c : nat) : watches := mkWatches (delete c (registered ws)) (forwards ws).

(** On Unix [Stop] undoes [Watch]. *)
Theorem Watch_Stop can_watch ws path c :
  registered ws !! c = None → Stop (Watch can_watch ws path c).1 c = ws.
Proof.
  intros Hc. unfold Watch, simpleWatch, Stop. destruct (can_watch path); cbn.
  - rewrite delete_insert_id by done. by destruct ws.
  - rewrite delete_id by done. by destruct ws.
Qed.

Lemma Watch_Stop_witness :
  Stop (Watch (λ _, true) (mkWatches ∅ ∅) "/a" 1).1 1 = mkWatches ∅ ∅.
Proof. by apply Watch_Stop. Defined.
End Inotify.

(** ** Processes started by the CLI ([local/process/], [reexec/reexec.go]) *)
Module Child.

(** [process_linux.go] and [process_other.go]: the signal at the death of the
    parent exists on Linux only. *)
Definition deathsig (linux : bool) (a : SysProcAttr) : SysProcAttr :=
  mkAttr true (Foreground a) (Setsid a) (Pdeathsig a || linux).
(** [reexec_posix.go] *)
Definition setsid (a : SysProcAttr) : SysProcAttr := mkAttr (Setpgid a) (Foreground a) true (Pdeathsig a).
Record Cmd := mkCmd {
  cmd_path : string; cmd_args : list string; cmd_dir : string; cmd_env : list string;
  cmd_attr : SysProcAttr }.

Record Process := mkProcess { P_Dir : string; P_Path : string; P_Args : list string; P_Env : list string }.

(** [func (p *Process) Run] up to its goroutines: [None] when a pipe cannot be
    made or the program cannot be started. *)
Definition Process_Run (linux : bool) (environ : list string) (stdout stderr start : bool) (p : Process)
  : option Cmd :=
  if negb stdout then None else if negb stderr then None else
  let cmd := mkCmd (P_Path p) (P_Path p :: P_Args p) (P_Dir p) (environ ++ P_Env p)
               (deathsig linux no_attr) in
  if start then Some cmd else None.

(** The goroutine that waits for the context, and [func kill]: SIGKILL to the
    group with the pid of the command. *)
Definition stop_process (t : Posix.table) (self pid : Z) : gores Posix.errno (gset Z) :=
  Posix.Kill t self (- pid).

(** [func Respawn]: the same program with the same arguments in a session of its
    own; the arguments are [os.Args]. *)
Definition Respawn (binary wd : option string) (args environ : list string) (start : bool) : option Cmd :=
  argv0 ← binary; wd ← wd;
  if start then Some (mkCmd argv0 args wd environ (setsid no_attr)) else None.

(** [func FindAvailablePort]: [listen] is the port that the system gave. *)
Definition FindAvailablePort (resolved : bool) (listen : option Z) : option Z :=
  if resolved then listen else None.

(** What is started leads a group of its own, so that stopping it concerns its
    group alone: the group killed is that of [pid.kill]. *)
Theorem stop_process_group linux environ p cmd t self pid q :
  Process_Run linux environ true true true p = Some cmd →
  Setpgid (cmd_attr cmd) = true
  ∧ (t !! pid = Some q → Posix.pr_group q = pid → stop_process t self pid = Posix.kill t self pid).
Proof.
  intros [= <-]. split; [done|]. intros Hq Hg. unfold Posix.kill, Posix.Getpgid. by rewrite Hq, Hg.
Qed.

Lemma stop_process_group_witness :
  Setpgid (cmd_attr (mkCmd "php" ["php"; "-v"] "/p" ["A=1"; "B=2"] (deathsig true no_attr))) = true
  ∧ (Posix.procs Posix.ex_w2 !! 200%Z = Some Posix.ex_command → Posix.pr_group Posix.ex_command = 200%Z →
     stop_process (Posix.procs Posix.ex_w2) 100 200 = Posix.kill (Posix.procs Posix.ex_w2) 100 200).
Proof. by apply (stop_process_group true ["A=1"] (mkProcess "/p" "php" ["-v"] ["B=2"])). Defined.
End Child.

Module Windows.

(** ** [pidfile_windows.go]: a process object is kept, with its pid, as long as a
    handle to it is open; [w_access]: whether the caller may open it. *)
Record wproc := mkW { w_ended : bool; w_access : bool }.
Abbreviation table := (gmap Z wproc).

Definition uint32 (z : Z) : Z := (z mod 4294967296)%Z.

Definition OpenProcess (t : table) (pid : Z) : option wproc :=
  p ← t !! uint32 pid; if w_access p then Some p else None.

(** [WaitForSingleObject(handle, 0)] is [WAIT_TIMEOUT] while the process runs. *)
Definition isRunning_windows (t : table) (pid : Z) : bool :=
  match OpenProcess t pid with None => false | Some p => negb (w_ended p) end.

(** [os.FindProcess] opens the process; [TerminateProcess] fails when it ended,
    or when [can_terminate] says so. *)
Definition kill_windows (can_terminate : Z → bool) (t : table) (pid : Z) : table * bool :=
  match OpenProcess t pid with
  | None => (t, false)
  | Some p =>
    if negb (w_ended p) && can_terminate pid then (<[uint32 pid := mkW true (w_access p)]> t, true)
    else (t, negb (isRunning_windows t pid))
  end.

Definition live (t : table) (pid : Z) : bool :=
  bool_decide (0 ≤ pid < 4294967296)%Z
  && match t !! pid with Some p => negb (w_ended p) | None => false end.
Definition visible (t : table) (pid : Z) : bool :=
  match t !! pid with Some p => w_access p | None => true end.

Lemma isRunning_live t pid : (0 ≤ pid < 4294967296)%Z → visible t pid = true →
  isRunning_windows t pid = live t pid.
Proof.
  intros Hp Hv. unfold isRunning_windows, live, visible, OpenProcess, uint32 in *.
  rewrite Z.mod_small, bool_decide_true by lia. destruct (t !! pid) as [p|]; [|done]. cbn. by rewrite Hv.
Qed.

#[global] Program Instance windows_processes : Processes (table * (Z → bool)) := {|
  sys_isRunning s pid := isRunning_windows s.1 pid;
  sys_kill s pid := (kill_windows s.2 s.1 pid).2;
  sys_live s pid := live s.1 pid;
  sys_visible s pid := visible s.1 pid |}.
Next Obligation.
  intros [t c] pid Hp Hl Hv. cbn [fst] in *. rewrite isRunning_live; [done| |done].
  unfold live in Hl. apply andb_true_iff in Hl as [Hl _]. by apply bool_decide_eq_true in Hl.
Qed.
Next Obligation.
  intros [t c] pid Hp Hr Hv. cbn [fst] in *. destruct (bool_decide_reflect (0 ≤ pid < 4294967296)%Z) as [Hb|Hb].
  - by rewrite <-isRunning_live.
  - unfold live. by rewrite bool_decide_false.
Qed.

(** Without an error the process does not run afterwards; an error means that it
    cannot be opened or still runs.  One that already ended is no error. *)
Theorem kill_stops ct t pid :
  let '(t', ok) := kill_windows ct t pid in
  (ok = true → isRunning_windows t' pid = false)
  ∧ (ok = false → OpenProcess t pid = None ∨ isRunning_windows t pid = true)
  ∧ (∀ p, OpenProcess t pid = Some p → w_ended p = true → ok = true).
Proof.
  unfold kill_windows. destruct (OpenProcess t pid) as [p|] eqn:E; [|by naive_solver].
  assert (Ha : w_access p = true).
  { unfold OpenProcess in E. destruct (t !! _) as [r|]; [cbn in E|done]. by destruct (w_access r) eqn:?; simplify_eq. }
  assert (Hr : isRunning_windows t pid = negb (w_ended p)) by (unfold isRunning_windows; by rewrite E).
  destruct (w_ended p) eqn:He, (ct pid); cbn [negb andb]; rewrite ?Hr; split_and!; try done; try naive_solver.
  intros _. unfold isRunning_windows, OpenProcess. rewrite lookup_insert_eq. cbn. by rewrite Ha.
Qed.

(** ** [process_windows.go]: the parent of the parent under MinGW *)

(** An entry of the snapshot; [ExeFile] has 260 words. *)
Record processentry32 := mkEntry { ProcessID : Z; ParentProcessID : Z; ExeFile : list Z }.
Record windowsProcess := mkWP { wp_pid : Z; wp_ppid : Z; wp_exe : string }.

Section snapshot.
Context (UTF16ToString : list Z → string).

(** The loop over [e.ExeFile[end]]: an index past the end panics. *)
Fixpoint name_end (exe : list Z) (n : nat) : outcome nat :=
  match exe with
  | [] => Panic
  | x :: exe => if bool_decide (x = 0%Z) then Ret n else name_end exe (S n)
  end.

Definition newWindowsProcess (e : processentry32) : outcome windowsProcess :=
  n ← name_end (ExeFile e) 0;
  Ret (mkWP (ProcessID e) (ParentProcessID e) (UTF16ToString (take n (ExeFile e)))).

Inductive snapshot_err := LastError | NoInfo.

(** [handle] is a [uintptr]; [entries] are those the system enumerates, none
    when the snapshot failed. *)
Fixpoint entries_loop (l : list processentry32) : outcome (list windowsProcess) :=
  match l with
  | [] => Ret []
  | e :: l => p ← newWindowsProcess e; ps ← entries_loop l; Ret (p :: ps)
  end.
Definition processes (handle : Z) (entries : list processentry32)
  : outcome (gores snapshot_err (list windowsProcess)) :=
  if bool_decide (handle < 0)%Z then Ret (Err LastError) else
  match entries with
  | [] => Ret (Err NoInfo)
  | _ => ps ← entries_loop entries; Ret (Val ps)
  end.

(** [None]: [nil, nil]. *)
Definition findProcess (handle : Z) (entries : list processentry32) (pid : Z)
  : outcome (gores snapshot_err (option windowsProcess)) :=
  r ← processes handle entries;
  Ret (match r with
       | Err e => Err e
       | Val ps => Val (list_find (λ p, wp_pid p = pid) ps ≫= λ ip, Some ip.2)
       end).

Definition Getppid (cygwin : bool) (ppid handle : Z) (entries : list processentry32) : outcome Z :=
  if cygwin then
    r ← findProcess handle entries ppid;
    match r with
    | Err _ => Panic
    | Val None => Panic
    | Val (Some parent) => Ret (wp_ppid parent)
    end
  else Ret ppid.

Definition entry_ok (e : processentry32) : Prop := 0%Z ∈ ExeFile e.

Lemma name_end_ret exe n : 0%Z ∈ exe → ∃ k, name_end exe n = Ret k.
Proof.
  revert n. induction exe as [|x exe IH]; intros n Hx; [by apply elem_of_nil in Hx|]. cbn.
  case_bool_decide; [eauto|]. apply elem_of_cons in Hx as [?|?]; [done|]. by apply IH.
Qed.

Lemma entries_loop_ret l : Forall entry_ok l →
  ∃ ps, entries_loop l = Ret ps
    ∧ Forall2 (λ e p, wp_pid p = ProcessID e ∧ wp_ppid p = ParentProcessID e) l ps.
Proof.
  induction 1 as [|e l He _ (ps & IH & H2)]; [by exists []|]. cbn. unfold newWindowsProcess.
  destruct (name_end_ret (ExeFile e) 0 He) as [k ->]. cbn. rewrite IH. cbn. eexists. split; [done|].
  by constructor.
Qed.

Lemma find_entry l ps pid :
  Forall2 (λ e p, wp_pid p = ProcessID e ∧ wp_ppid p = ParentProcessID e) l ps →
  wp_ppid <$> (list_find (λ p, wp_pid p = pid) ps ≫= λ ip, Some ip.2)
  = ParentProcessID <$> (list_find (λ e, ProcessID e = pid) l ≫= λ ie, Some ie.2).
Proof.
  induction 1 as [|e p l ps [Hp Hpp] _ IH]; [done|]. cbn. rewrite Hp. 
  destruct (decide (ProcessID e = pid)); [cbn; by rewrite Hpp|].
  destruct (list_find _ ps) as [[]|], (list_find _ l) as [[]|]; cbn in *; naive_solver.
Qed.

(** Under MinGW the result is the parent of the first process of the snapshot
    with the pid of the parent; when there is none, because that process has
    already ended or because the snapshot failed, the program panics. *)
Theorem Getppid_spec ppid handle entries :
  (0 ≤ handle)%Z → Forall entry_ok entries →
  Getppid true ppid handle entries
  = oget (ParentProcessID <$> (list_find (λ e, ProcessID e = ppid) entries ≫= λ ie, Some ie.2)).
Proof.
  intros Hh He. unfold Getppid, findProcess, processes. rewrite bool_decide_false by lia.
  destruct entries as [|e l]; [done|].
  destruct (entries_loop_ret _ He) as (ps & -> & H2). cbn [mbind outcome_bind].
  rewrite <-(find_entry _ _ ppid H2). by destruct (list_find _ ps) as [[]|].
Qed.
End snapshot.

Definition ex_entries : list processentry32 := [mkEntry 10 1 [97%Z; 0%Z]; mkEntry 20 10 [98%Z; 0%Z]].
Lemma Getppid_spec_witness :
  Getppid (λ _, "") true 20 4 ex_entries = Ret 10%Z ∧ Getppid (λ _, "") true 30 4 ex_entries = Panic.
Proof.
  split.
  - rewrite (Getppid_spec (λ _, "") 20 4 ex_entries); [reflexivity|lia|].
    repeat constructor; by apply (bool_decide_unpack _).
  - rewrite (Getppid_spec (λ _, "") 30 4 ex_entries); [reflexivity|lia|].
    repeat constructor; by apply (bool_decide_unpack _).
Defined.

(** ** [composer_windows.go]: Composer of Scoop *)
Section scoop.
(** [filepath.Join] and [filepath.Dir] of Windows. *)
Context (wjoin : list string → string) (wdir : string → string).

(** [scoop]: the result of [exec.LookPath]; [homedir]: that of [homedir.Dir],
    which gives the empty string along with an error. *)
Definition scoopPaths (w : os) (scoop homedir : option string) : list string :=
  (match scoop with Some p => [wdir (wdir p)] | None => [] end)
  ++ (if bool_decide (Getenv w "SCOOP" = "") then
        match homedir with None => [wjoin [""; "scoop"]] | Some _ => [] end
      else [])
  ++ (if bool_decide (Getenv w "SCOOP_GLOBAL" = "") then
        if bool_decide (Getenv w "PROGRAMDATA" ≠ "") then [wjoin [Getenv w "PROGRAMDATA"; "scoop"]] else []
      else []).

Definition composer_phar (path : string) : string :=
  wjoin [path; "apps"; "composer"; "current"; "composer.phar"].
Definition is_regular (w : os) (p : string) : bool :=
  match stat w p with Found false => true | _ => false end.
Definition findComposerSystemSpecific (w : os) (scoop homedir : option string) : string :=
  default "" (List.find (is_regular w) (composer_phar <$> scoopPaths w scoop homedir)).

(** The result is a file that exists, below one of the directories; nothing is
    found exactly when none of them has it. *)
Theorem findComposer_spec w scoop homedir :
  (∀ p, findComposerSystemSpecific w scoop homedir = p → p ≠ "" →
        is_regular w p = true ∧ p ∈ composer_phar <$> scoopPaths w scoop homedir)
  ∧ (Forall (λ p, is_regular w p = false) (composer_phar <$> scoopPaths w scoop homedir) →
     findComposerSystemSpecific w scoop homedir = "").
Proof.
  unfold findComposerSystemSpecific. split.
  - intros p <- Hp. destruct (List.find _ _) as [q|] eqn:E; [|done]. cbn.
    apply List.find_some in E as [Hq ?]. split; [done|]. by apply list_elem_of_In.
  - intros H. destruct (List.find _ _) as [q|] eqn:E; [|done].
    apply List.find_some in E as [Hq%list_elem_of_In Hr]. rewrite Forall_forall in H.
    by rewrite (H _ Hq) in Hr.
Qed.

(** The directory of the user and the variables that name the directories of
    Scoop are never used: a known home directory adds no path, and a value of
    [SCOOP] or [SCOOP_GLOBAL] only removes one. *)
Theorem scoop_home_ignored w scoop home :
  scoopPaths w scoop (Some home)
  = (match scoop with Some p => [wdir (wdir p)] | None => [] end)
    ++ (if bool_decide (Getenv w "SCOOP_GLOBAL" = "") && bool_decide (Getenv w "PROGRAMDATA" ≠ "")
        then [wjoin [Getenv w "PROGRAMDATA"; "scoop"]] else []).
Proof.
  unfold scoopPaths. by destruct (bool_decide (Getenv w "SCOOP" = "")),
    (bool_decide (Getenv w "SCOOP_GLOBAL" = "")), (bool_decide (Getenv w "PROGRAMDATA" ≠ "")).
Qed.
End scoop.

(** ** [executor_windows.go]: a link is a copy.  [content] is what is read before
    the end or an error ([true]: no error). *)
Definition symlink (files : gmap string string) (can_open : string → option (string * bool))
    (can_create : string → bool) (oldname newname : string) : gmap string string * bool :=
  match can_open oldname with
  | None => (files, false)
  | Some (content, ok) =>
    if can_create newname then (<[newname := content]> files, ok) else (files, false)
  end.
Definition shouldSignalBeIgnored (sig : Z) : bool := false.

(** [process_windows.go] of [local/process]: the attributes are left alone, and a
    process that [taskkill] cannot end is signalled ([true]: no error). *)
Definition deathsig_windows (a : SysProcAttr) : SysProcAttr := a.
Definition kill_process_windows (taskkill signal : Z → bool) (pid : Z) : bool := taskkill pid || signal pid.
(** [runner_windows.go] *)
Definition buildCmd_windows (foreground : bool) : SysProcAttr := no_attr.

(** [completion_others.go]: no completion of the wrappers. *)
Definition autocompleteWrapper (args : list string) : list string := [].

(** [wsl_windows.go]: whether the program stops. *)
Definition checkWSL (w : os) : bool := exists_ w "/proc/version".

(** ** [inotify_windows.go]: a watch of a file is one of its directory

    [wrapped] is the channel made by [Watch_windows], from which a goroutine passes on to
    [c] the events of the path. *)
Import Inotify.
Definition Watch_windows (w : os) (wdir : string → string) (wbase : string → string) (can_watch : string → bool)
    (ws : watches) (path : string) (c wrapped : nat) : watches * option watch_err :=
  if bool_decide (wbase path = "...") then simpleWatch can_watch ws path c else
  match stat w path with
  | NotExist | StatErr => (ws, Some WatchStat)
  | Found true => simpleWatch can_watch ws path c
  | Found false =>
    match simpleWatch can_watch ws (wdir path) wrapped with
    | (ws, Some e) => (ws, Some e)
    | (ws, None) => (mkWatches (registered ws) (<[wrapped := (c, path)]> (forwards ws)), None)
    end
  end.

(** The goroutine: what it passes on of the events it receives, [None] being a
    nil event. *)
Fixpoint forward_events (path : string) (events : list (option string)) : list string :=
  match events with
  | [] => []
  | None :: events => forward_events path events
  | Some e :: events => if bool_decide (path = e) then e :: forward_events path events else forward_events path events
  end.

(** Every event of the path is passed on, as often as it occurs, and no other. *)
Theorem forward_filters path events :
  forward_events path events = filter (λ e, e = path) (omap id events).
Proof.
  induction events as [|[e|] events IH]; [done| |exact IH]. cbn [forward_events omap list_omap id].
  rewrite filter_cons, IH. case_bool_decide as H; case_decide; subst; done || congruence.
Qed.

(** [Stop] does not end the watch of a file: the channel the library knows is the
    inner one, so that the directory stays watched and the goroutine stays. *)
Theorem Stop_keeps_file_watch w wdir wbase can_watch ws path c wrapped :
  wbase path ≠ "..." → stat w path = Found false → can_watch (wdir path) = true → c ≠ wrapped →
  let '(ws', err) := Watch_windows w wdir wbase can_watch ws path c wrapped in
  err = None ∧ registered (Stop ws' c) !! wrapped = Some (wdir path)
  ∧ forwards (Stop ws' c) !! wrapped = Some (c, path).
Proof.
  intros Hb Hs Hc Hn. unfold Watch_windows, simpleWatch. rewrite bool_decide_false by done. rewrite Hs, Hc.
  cbn. split_and!; [done| |].
  - by rewrite lookup_delete_ne, lookup_insert_eq.
  - by rewrite lookup_insert_eq.
Qed.

Lemma Stop_keeps_file_watch_witness :
  let '(ws', err) := Watch_windows (table_os ∅ {["/a/x" := Some ""]} "/" "/") Dir Base (λ _, true)
                       (mkWatches ∅ ∅) "/a/x" 1 2 in
  err = None ∧ registered (Stop ws' 1) !! 2 = Some (Dir "/a/x")
  ∧ forwards (Stop ws' 1) !! 2 = Some (1, "/a/x").
Proof. by apply Stop_keeps_file_watch. Defined.

End Windows.
