(* ===== verification/WriterProxy.v ===== *)
(** * The recording writer ([local/http/response_proxy.go]) in front of a client

    The status of the request log is the one that a recorder saw next to the
    client's writer.  Here the writer of [net/http] is modelled as far as the
    status and the body go, as an instance of the interface of [Http], and the
    recorder is shown to see what the client gets. *)

From stdpp Require Import base tactics option list gmap strings pretty.
From Stdlib Require Import ZArith Lia Ascii.
From S2P Require Import Prelude GoStrings FilePath Http.

(** ** The writer of the server

    [sr_head]: the method is HEAD, whose body is swallowed; [sr_info] are the
    informational answers sent, [sr_hijacked] says that the connection was taken
    over. *)
Record server_response := mkResp {
  sr_head : bool; sr_code : Z; sr_wrote : bool; sr_body : string; sr_info : list Z; sr_hijacked : bool }.
Definition new_response (head : bool) : server_response := mkResp head 200 false "" [] false.

Definition informational (code : Z) : bool :=
  bool_decide (100 ≤ code ≤ 199)%Z && negb (bool_decide (code = 101%Z)).
Definition body_allowed (code : Z) : bool :=
  negb (bool_decide (100 ≤ code ≤ 199 ∨ code = 204 ∨ code = 304)%Z).

Definition sr_WriteHeader (r : server_response) (code : Z) : outcome server_response :=
  if sr_hijacked r || sr_wrote r then Ret r
  else if negb (bool_decide (100 ≤ code ≤ 999)%Z) then Panic
  else if informational code then
    Ret (mkResp (sr_head r) (sr_code r) false (sr_body r) (sr_info r ++ [code]) (sr_hijacked r))
  else Ret (mkResp (sr_head r) code true (sr_body r) (sr_info r) (sr_hijacked r)).

Definition sr_open (r : server_response) : server_response :=
  if sr_wrote r then r else mkResp (sr_head r) 200 true (sr_body r) (sr_info r) (sr_hijacked r).
Definition sr_Write (r : server_response) (buf : string) : option server_response :=
  if sr_hijacked r then None else
  let r := sr_open r in
  if bool_decide (buf = "") then Some r
  else if negb (body_allowed (sr_code r)) then None
  else Some (mkResp (sr_head r) (sr_code r) (sr_wrote r)
              (if sr_head r then sr_body r else sr_body r +:+ buf) (sr_info r) (sr_hijacked r)).

#[export] Instance server_writer : ResponseWriter server_response :=
  {| rw_Write := sr_Write; rw_WriteHeader := sr_WriteHeader |}.

(** ** The methods of the proxy that are type assertions on the writer *)

(** [http.Flusher] and [http.Hijacker], which a writer may be. *)
Class Extras (W : Type) := {
  rw_Flush : option (W → W);
  rw_Hijack : option (W → option W) }.
#[export] Instance server_extras : Extras server_response := {|
  rw_Flush := Some (λ r, if sr_hijacked r then r else sr_open r);
  rw_Hijack := Some (λ r, if sr_hijacked r then None
                          else Some (mkResp (sr_head r) (sr_code r) (sr_wrote r) (sr_body r) (sr_info r) true)) |}.

Section proxy.
Context {W : Type} `{!ResponseWriter W, !Extras W}.

Definition rec_Flush (rc : recorder) : recorder :=
  if wroteHeader rc then rc else mkRec 200 true (Body rc).

Definition proxy_Flush (p : ResponseWriterProxy W) : ResponseWriterProxy W :=
  mkProxyW (rec_Flush (pw_rec p))
    (match rw_Flush with Some flush => flush (pw_writer p) | None => pw_writer p end).

Inductive hijack_err := NotAHijacker | HijackFailed.
Definition proxy_Hijack (p : ResponseWriterProxy W) : gores hijack_err (ResponseWriterProxy W) :=
  match rw_Hijack with
  | None => Err NotAHijacker
  | Some hj => match hj (pw_writer p) with
               | Some w => Val (mkProxyW (pw_rec p) w)
               | None => Err HijackFailed
               end
  end.

(** [Response().StatusCode], which the access log takes. *)
Definition Response_code (p : ResponseWriterProxy W) : Z := Code (pw_rec p).
End proxy.

(** ** A handler as the calls it makes *)

Inductive op := OpWriteHeader (code : Z) | OpWrite (buf : string) | OpFlush.

Definition run_op (p : ResponseWriterProxy server_response) (o : op)
  : outcome (ResponseWriterProxy server_response) :=
  match o with
  | OpWriteHeader code => proxy_WriteHeader p code
  | OpWrite buf => Ret (proxy_Write p buf).1
  | OpFlush => Ret (proxy_Flush p)
  end.
Definition run_handler (head : bool) (ops : list op) : outcome (ResponseWriterProxy server_response) :=
  foldM run_op (NewWriterProxy (new_response head)) ops.

(** What holds for any handler: the client gets the body that was recorded, or none
    for HEAD, and its status is final; [st] says whether the recorded status is
    that of the client, or an informational one that was recorded instead. *)
Definition follows (head : bool) (st : option Z) (p : ResponseWriterProxy server_response) : Prop :=
  let '(mkProxyW rc w) := p in
  sr_head w = head ∧ sr_hijacked w = false ∧ sr_body w = (if head then "" else Body rc) ∧
  informational (sr_code w) = false ∧ (sr_wrote w = false → sr_code w = 200%Z) ∧
  match st with
  | None => wroteHeader rc = sr_wrote w ∧ Code rc = sr_code w
  | Some c => wroteHeader rc = true ∧ Code rc = c
  end.

(** The first call that the recorder takes a status from. *)
Definition op_status (wrote : bool) (o : op) : option Z :=
  match o with OpWriteHeader c => if negb wrote && informational c then Some c else None | _ => None end.

Lemma follows_op head st p o p' : follows head st p → run_op p o = Ret p' →
  follows head (match st with Some c => Some c | None => op_status (sr_wrote (pw_writer p)) o end) p' ∧
  wroteHeader (pw_rec p') = true.
Proof.
  destruct p as [[rcode rwrote rbody] [h code wrote body info hij]]. cbn.
  intros (-> & -> & -> & Hf & Hd & Hst). destruct o as [c|buf|]; cbn.
  - unfold proxy_WriteHeader, rec_WriteHeader. cbn. unfold sr_WriteHeader. cbn.
    destruct wrote; cbn.
    + destruct st as [c0|], Hst as [-> ->]; cbn; intros [= <-]; by split_and!.
    + destruct (bool_decide (100 ≤ c ≤ 999)%Z) eqn:Ev; cbn; [|done].
      destruct (informational c) eqn:Ei; cbn; destruct st as [c0|], Hst as [-> ->]; cbn;
        rewrite ?Ev; cbn; intros [= <-]; by split_and!.
  - unfold proxy_Write. cbn. unfold sr_Write, sr_open. cbn.
    destruct wrote; cbn.
    + destruct (bool_decide_reflect (buf = "")) as [->|Hb]; cbn; [|destruct (body_allowed code); cbn];
        intros [= <-]; destruct st as [c0|], Hst as [-> ->]; cbn; rewrite ?sapp_nil_r; by destruct head.
    + rewrite (Hd eq_refl) in *. destruct (bool_decide_reflect (buf = "")) as [->|Hb]; cbn;
        intros [= <-]; destruct st as [c0|], Hst as [-> ->]; cbn; rewrite ?sapp_nil_r; by destruct head.
  - unfold proxy_Flush, rec_Flush. cbn. unfold sr_open. cbn.
    destruct wrote; cbn; [|rewrite (Hd eq_refl) in *]; destruct st as [c0|], Hst as [-> ->]; cbn; intros [= <-]; by cbn.
Qed.

(** Once a status is recorded it stays. *)
Lemma follows_run head st ops p p' : follows head st p → wroteHeader (pw_rec p) = true →
  foldM run_op p ops = Ret p' → follows head st p'.
Proof.
  revert p. induction ops as [|o ops IH]; intros p Hf Hw; [by intros [= <-]|].
  intros (q & Hq & Hr)%bind_inv. destruct (follows_op _ _ _ _ _ Hf Hq) as [Hf' Hw'].
  apply (IH q); [|done..]. destruct st as [c|]; [done|]. destruct p as [rc w].
  destruct Hf as (_ & _ & _ & _ & _ & Hx & _). cbn in *. rewrite <-Hx, Hw in Hf'. by destruct o.
Qed.

(** C21: the log tells the truth: whatever a handler writes, in whatever pieces, with
    writes it is not allowed to make and with statuses set too late, the recorded
    status is the one that the client got, unless the first thing the handler does
    is to send an informational status, which is then recorded instead; and the
    recorded body is the one that the client got, or would have got for a request
    other than HEAD. *)
Theorem recorded_is_sent head ops p :
  run_handler head ops = Ret p →
  let early := match ops with
               | OpWriteHeader c :: _ => if informational c then Some c else None
               | _ => None
               end in
  match early with
  | None => Response_code p = sr_code (pw_writer p)
  | Some c => Response_code p = c ∧ informational (sr_code (pw_writer p)) = false
  end ∧
  sr_body (pw_writer p) = (if head then "" else Body (pw_rec p)).
Proof.
  intros Hrun early. unfold run_handler in Hrun.
  assert (Hf : follows head None (NewWriterProxy (new_response head))) by (by destruct head).
  assert (Hp : follows head early p).
  { destruct ops as [|o ops]; [by injection Hrun as <-|]. apply bind_inv in Hrun as (q & Hq & Hr).
    destruct (follows_op _ _ _ _ _ Hf Hq) as [Hf' Hw']. apply (follows_run head _ ops q); [|done..].
    by destruct o. }
  destruct p as [rc w]. destruct Hp as (_ & _ & Hb & Hi & _ & Hs). split; [|done].
  unfold Response_code. cbn. destruct early; naive_solver.
Qed.

Lemma recorded_is_sent_witness :
  ∃ p, run_handler false [OpWriteHeader 404; OpWrite "no"; OpWriteHeader 200; OpFlush; OpWrite "pe"] = Ret p
    ∧ Response_code p = sr_code (pw_writer p) ∧ sr_body (pw_writer p) = Body (pw_rec p) ∧ Body (pw_rec p) = "nope"
    ∧ log_level (Response_code p) = WarnLevel.
Proof.
  eexists. split; [reflexivity|].
  edestruct (recorded_is_sent false [OpWriteHeader 404; OpWrite "no"; OpWriteHeader 200; OpFlush; OpWrite "pe"])
    as (H1 & H2); [reflexivity|].
  split; [exact H1|]. split; [exact H2|]. split; reflexivity.
Defined.

(** An early hint hides the error that follows from the log. *)
Example early_hint_hides :
  ∃ p, run_handler false [OpWriteHeader 103; OpWriteHeader 500] = Ret p ∧
    log_level (Response_code p) = InfoLevel ∧ sr_code (pw_writer p) = 500%Z.
Proof. eexists. split; [reflexivity|]. by split. Qed.

(** A connection that was taken over is logged with the status 200, whatever is
    sent over it, when no status was written before. *)
Theorem hijacked_logged_200 head (ops : list op) p :
  Forall (λ o, o = OpFlush) ops → run_handler head ops = Ret p →
  ∃ p', proxy_Hijack p = Val p' ∧ Response_code p' = 200%Z.
Proof.
  intros Hops Hrun.
  assert (H : sr_hijacked (pw_writer p) = false ∧ Code (pw_rec p) = 200%Z).
  { unfold run_handler in Hrun.
    assert (Ha : sr_hijacked (pw_writer (NewWriterProxy (new_response head))) = false
                 ∧ Code (pw_rec (NewWriterProxy (new_response head))) = 200%Z) by done.
    revert Ha Hrun. generalize (NewWriterProxy (new_response head)).
    induction Hops as [|o ops -> _ IH]; intros q Hq; [by intros [= <-]|]. cbn. apply IH.
    destruct q as [[c [] b] [h0 c' [] b' i h]]; cbn in *; destruct Hq as [-> ->]; done. }
  destruct H as [Hh Hc]. unfold proxy_Hijack. cbn. rewrite Hh. eexists. split; [done|]. exact Hc.
Qed.

Lemma hijacked_logged_200_witness :
  ∃ p p', run_handler false [OpFlush] = Ret p ∧ proxy_Hijack p = Val p' ∧ Response_code p' = 200%Z.
Proof.
  destruct (run_handler false [OpFlush]) as [p|] eqn:E; [|done]. exists p.
  destruct (hijacked_logged_200 false [OpFlush] p) as (p' & H1 & H2); [by repeat constructor|exact E|].
  by exists p'.
Defined.
