(* ===== verification/TemplateCache.v ===== *)
(** * The templates of cloud projects and their cache
    ([commands/init_templating.go])

    The templates are a git repository in the home directory of the CLI, cloned
    once and then reset to the remote state.  The functions that templates may
    call are a map from names to functions of different types, from which the
    requirements of a template pick those from strings to booleans by a type
    assertion. *)

From stdpp Require Import base tactics option list gmap strings pretty.
From Stdlib Require Import ZArith Lia Ascii.
From S2P Require Import Prelude GoStrings FilePath Os Upsun Dotenv Templating Git.

Definition templatesGitRepository : string := "https://github.com/symfonycorp/cloud-templates.git".

(** [isValidURL]: [url_host] is [url.Parse] with the host of the result. *)
Definition isValidURL (url_host : string → option string) (toTest : string) : bool :=
  match url_host toTest with
  | None => false
  | Some host => negb (bool_decide (host = ""))
  end.

(** ** The cache *)

Inductive cache_err := UpdateErr (e : git_error) | CreateErr | FetchErr (e : git_error).

Definition cache_dir (w : os) : string := fjoin [home_dir w; "cache"; "templates"].

(** [git] as in [Git]; [can_mkdir]: [os.MkdirAll] of the parent. *)
Definition update_cache (git : list call → string * run_err) (can_mkdir : bool) (w : os) (h : list call)
  : list call * option cache_err :=
  let directory := cache_dir w in
  if is_dir w directory then
    match Fetch git h directory templatesGitRepository "master" with
    | (h, Some e) => (h, Some (UpdateErr e))
    | (h, None) =>
      match ResetHard git h directory "FETCH_HEAD" with
      | (h, Some e) => (h, Some (UpdateErr e))
      | (h, None) => (h, None)
      end
    end
  else if negb can_mkdir then (h, Some CreateErr)
  else match Clone git h templatesGitRepository directory with
       | (h, Some e) => (h, Some (FetchErr e))
       | (h, None) => (h, None)
       end.

Definition fetch_call (w : os) : call :=
  mkCall (cache_dir w) ["fetch"; templatesGitRepository; "master"] true.
Definition reset_call (w : os) : call := mkCall (cache_dir w) ["reset"; "--hard"; "FETCH_HEAD"] true.
Definition clone_call (w : os) : call :=
  mkCall (Dir (cache_dir w)) ["clone"; templatesGitRepository; cache_dir w] false.

Definition cache_plan (w : os) : list call :=
  if is_dir w (cache_dir w) then [fetch_call w; reset_call w] else [clone_call w].
Definition failed (r : run_err) : bool := match r with ExitError _ => true | _ => false end.

Lemma doExecGit_failed git h cwd args quiet :
  (doExecGit git h cwd args quiet).1 = h ++ [mkCall cwd args quiet]
  ∧ ((doExecGit git h cwd args quiet).2.2 = None ↔ failed (git (h ++ [mkCall cwd args quiet])).2 = false).
Proof. unfold doExecGit. by destruct (git _) as [out [|s|]]. Qed.

Lemma Fetch_spec git h w : ∃ e,
  Fetch git h (cache_dir w) templatesGitRepository "master" = (h ++ [fetch_call w], e)
  ∧ (e = None ↔ failed (git (h ++ [fetch_call w])).2 = false).
Proof.
  unfold Fetch, execGitQuiet. cbn [app bool_decide]. 
  destruct (doExecGit_failed git h (cache_dir w) ["fetch"; templatesGitRepository; "master"] true) as [H1 H2].
  destruct (doExecGit _ _ _ _ _) as [h' [out e]]. cbn in *. subst h'. by exists e.
Qed.

Lemma ResetHard_spec git h w : ∃ e,
  ResetHard git h (cache_dir w) "FETCH_HEAD" = (h ++ [reset_call w], e)
  ∧ (e = None ↔ failed (git (h ++ [reset_call w])).2 = false).
Proof.
  unfold ResetHard, execGitQuiet.
  destruct (doExecGit_failed git h (cache_dir w) ["reset"; "--hard"; "FETCH_HEAD"] true) as [H1 H2].
  destruct (doExecGit _ _ _ _ _) as [h' [out e]]. cbn in *. subst h'. by exists e.
Qed.

Lemma Clone_spec git h w : ∃ e,
  Clone git h templatesGitRepository (cache_dir w) = (h ++ [clone_call w], e)
  ∧ (e = None ↔ failed (git (h ++ [clone_call w])).2 = false).
Proof.
  unfold Clone, execGit.
  destruct (doExecGit_failed git h (Dir (cache_dir w)) ["clone"; templatesGitRepository; cache_dir w] false)
    as [H1 H2].
  destruct (doExecGit _ _ _ _ _) as [h' [out e]]. cbn in *. subst h'. by exists e.
Qed.

(** What git is asked to do: an existing cache is fetched and then, only if that
    went well, reset; a missing one is cloned; nothing else is run.  The update
    succeeds exactly when all of this was run and no call failed. *)
Theorem update_cache_calls git w h :
  ∃ l err, update_cache git true w h = (h ++ l, err)
    ∧ l `prefix_of` cache_plan w
    ∧ (err = None ↔ l = cache_plan w
         ∧ ∀ k c, (k ++ [c]) `prefix_of` l → failed (git (h ++ k ++ [c])).2 = false).
Proof.
  unfold update_cache, cache_plan. destruct (is_dir w (cache_dir w)).
  - destruct (Fetch_spec git h w) as (e1 & -> & H1). destruct e1 as [e1|].
    { exists [fetch_call w], (Some (UpdateErr e1)). split; [done|]. split; [by exists [reset_call w]|].
      split; [done|]. by intros [[=] _]. }
    destruct (ResetHard_spec git (h ++ [fetch_call w]) w) as (e2 & -> & H2).
    exists [fetch_call w; reset_call w], (UpdateErr <$> e2).
    split; [destruct e2; by rewrite <-(assoc_L (++))|]. split; [done|].
    rewrite <-(assoc_L (++)) in H2. split.
    + intros He. split; [done|]. intros k c Hk.
      destruct k as [|x [|y k]]; [|apply prefix_cons_inv_1 in Hk as Hx; apply prefix_cons_inv_2 in Hk..].
      * apply prefix_cons_inv_1 in Hk as ->. by apply H1.
      * subst x. apply prefix_cons_inv_1 in Hk as ->. apply H2. by destruct e2.
      * apply prefix_cons_inv_2 in Hk. by apply prefix_nil_inv, app_nil in Hk as [_ ?].
    + intros [_ Hk]. specialize (Hk [fetch_call w] (reset_call w) ltac:(done)). apply H2 in Hk. by subst e2.
  - cbn [negb]. destruct (Clone_spec git h w) as (e & -> & H). exists [clone_call w], (FetchErr <$> e).
    split; [by destruct e|]. split; [done|]. split.
    + intros He. split; [done|]. intros k c Hk. destruct k as [|x k].
      * apply prefix_cons_inv_1 in Hk as ->. apply H. by destruct e.
      * apply prefix_cons_inv_2 in Hk. by apply prefix_nil_inv, app_nil in Hk as [_ ?].
    + intros [_ Hk]. specialize (Hk [] (clone_call w) ltac:(done)). apply H in Hk. by subst e.
Qed.

Definition ex_cache_os : os := table_os ∅ {["/h/cache/templates" := None]} "/" "/h".
Example update_cache_ex :
  update_cache (λ h, ("", if bool_decide (length h = 1) then ExitError 128 else RunOk)) true ex_cache_os []
  = ([fetch_call ex_cache_os], Some (UpdateErr (GitExit 128))).
Proof. reflexivity. Qed.

(** ** The functions of the templates *)

(** The types of Go of the functions in the map. *)
Inductive tfunc :=
| StringBool (f : string → outcome bool)
| Strings (f : list string)
| StringStringBool (f : string → string → bool).

Section funcs.
Context (json_lock : string → option composerLock) (json_json : string → option composerJSON).
Context (at_least : string → string → option bool) (availablePHPExts : gmap string (list string)).
Context `{!RangeOrder}.

Definition getTemplateFuncs (w : os) (rootDirectory minorPHPVersion : string) : list (string * tfunc) :=
  [("file_exists", StringBool (λ file, Ret (exists_ w (fjoin [rootDirectory; file]))));
   ("has_composer_package",
    StringBool (λ pkg, Ret (hasComposerPackage json_lock json_json w rootDirectory pkg)));
   ("has_php_extension",
    StringBool (λ ext, Ret (hasPHPExtension json_lock json_json w rootDirectory ext)));
   ("php_extensions", Strings (phpExtensions json_lock json_json w rootDirectory));
   ("php_extension_available", StringStringBool (IsPhpExtensionAvailable availablePHPExts));
   ("php_at_least", StringBool (λ v, oget (at_least minorPHPVersion v)))].

(** [req.Check] as it is written: look-up and type assertion. *)
Definition Check (w : os) (directory minorPHPVersion : string) (req : configRequirement) : outcome bool :=
  match (list_to_map (getTemplateFuncs w directory minorPHPVersion) : gmap string tfunc) !! q_Type req with
  | Some (StringBool f) => f (q_Value req)
  | _ => Ret false
  end.

(** The requirements that [Templating] uses are those of the map: a requirement
    is met by one of the four functions of the right type; any other name, the
    two functions of another type included, is never met. *)
Theorem Check_by_name w directory minorPHPVersion req :
  Check w directory minorPHPVersion req = Check_ json_lock json_json at_least w directory minorPHPVersion req.
Proof.
  destruct req as [type value]. unfold Check, Check_, getTemplateFuncs. cbn [q_Type q_Value list_to_map foldr fst snd].
  destruct (decide (type = "file_exists")) as [->|H1]; [reflexivity|].
  destruct (decide (type = "has_composer_package")) as [->|H2]; [reflexivity|].
  destruct (decide (type = "has_php_extension")) as [->|H3]; [reflexivity|].
  destruct (decide (type = "php_at_least")) as [->|H4]; [reflexivity|].
  rewrite !bool_decide_false by done. rewrite !(lookup_insert_ne _ _ type) by done.
  destruct (decide (type = "php_extensions")) as [->|H5]; [reflexivity|].
  rewrite (lookup_insert_ne _ "php_extensions") by done.
  destruct (decide (type = "php_extension_available")) as [->|H6]; [reflexivity|].
  rewrite (lookup_insert_ne _ "php_extension_available"), (lookup_insert_ne _ "php_at_least") by done.
  by rewrite lookup_empty.
Qed.
End funcs.

(** ** Everything together *)

Section all.
Context (json_lock : string → option composerLock) (json_json : string → option composerJSON).
Context (at_least : string → string → option bool)
        (yaml_template : string → option (option configTemplate))
        (url_host : string → option string) (http_get : string → option string)
        (parse_ok : string → bool).
Context `{!RangeOrder}.

Definition getTemplates_call (git : list call → string * run_err) (can_mkdir : bool) (w : os)
    (read_dir : string → option (list dir_entry)) (product : CloudProduct)
    (rootDirectory chosen minorPHPVersion : string) (h : list call)
  : list call * outcome (gores templates_err (gmap string string)) :=
  let '(h, err) := update_cache git can_mkdir w h in
  (h, getTemplates json_lock json_json at_least yaml_template (isValidURL url_host) http_get parse_ok
        w (bool_decide (err = None)) read_dir product rootDirectory chosen minorPHPVersion).
End all.
