(* ===== verification/Tools.v ===== *)
(** * Composer and PIE as commands ([local/php/composer.go], [local/php/pie.go])

    [PhpExecutor] decides which program is run; here it is run, and the downloads
    are followed down to the answers of the network and the files they leave. *)

From stdpp Require Import base tactics option list gmap strings pretty.
From Stdlib Require Import ZArith Lia Ascii.
From S2P Require Import Prelude GoStrings FilePath Os PhpExecutor.

(** ** Results *)

Inductive tool_err := ExecErr (e : exec_err) | UnableToRun (command : string).
(** [ComposerResult] and [PieResult]. *)
Record ToolResult := mkResult { tr_code : Z; tr_error : option tool_err }.
Definition ExitCode (r : ToolResult) : Z := tr_code r.

Section run.
(** [e.Execute(false)]. *)
Context (execute : Executor → Z).

Definition run_tool (r : gores exec_err Executor) : ToolResult :=
  match r with
  | Err err => mkResult 1 (Some (ExecErr err))
  | Val e =>
    let ret := execute e in
    if bool_decide (ret ≠ 0)%Z then mkResult ret (Some (UnableToRun (CommandLine e)))
    else mkResult 0 None
  end.

(** [func Composer] and [func Pie] to their end. *)
Definition Composer_call (r : outcome (list download_effect * gores exec_err Executor)) : outcome ToolResult :=
  '(_, r) ← r; Ret (run_tool r).
Definition Pie (r : outcome (gores exec_err Executor)) : outcome ToolResult :=
  r ← r; Ret (run_tool r).

(** There is an error exactly when the exit code is not 0. *)
Theorem tool_error_code r : ExitCode (run_tool r) = 0%Z ↔ tr_error (run_tool r) = None.
Proof. unfold run_tool. destruct r as [e|err]; [|done]. by case_bool_decide. Qed.
End run.

(** ** Downloads *)

(** An answer of [http.Get]: the status is not looked at; [body_ok]: whether the
    body can be read to its end. *)
Record http_answer := mkAnswer { a_status : Z; a_body : string; a_body_ok : bool }.

Definition read_answer (answer : option http_answer) : option string :=
  a ← answer; if a_body_ok a then Some (a_body a) else None.
Definition downloadComposerInstaller (get : string → option http_answer) : option string :=
  read_answer (get "https://getcomposer.org/installer").
Definition downloadComposerInstallerSignature (get : string → option http_answer) : option string :=
  read_answer (get "https://composer.github.io/installer.sig").
Definition downloadPiePhar (get : string → option http_answer) : option string :=
  read_answer (get "https://github.com/php/pie/releases/latest/download/pie.phar").

(** ** PIE with the files it leaves *)

(** [downloadPie] on the files of the home directory. *)
Definition downloadPie_files (get : string → option http_answer) (can_mkdir can_write : string → bool)
    (files : gmap string string) (dir : string) : gmap string string * gores exec_err string :=
  if negb (can_mkdir dir) then (files, Err (MkdirErr dir)) else
  let path := fjoin [dir; "pie.phar"] in
  match files !! path with
  | Some _ => (files, Val path)
  | None =>
    match downloadPiePhar get with
    | None => (files, Err DownloadErr)
    | Some phar => if can_write path then (<[path := phar]> files, Val path) else (files, Err DownloadErr)
    end
  end.

(** It is the [downloadPie] of [PhpExecutor], with the answers read as there. *)
Theorem downloadPie_agrees get can_mkdir can_write files dir env wd home :
  (downloadPie_files get can_mkdir can_write files dir).2
  = downloadPie (λ url, read_answer (get url)) can_mkdir (table_os env (Some <$> files) wd home) can_write dir.
Proof.
  unfold downloadPie_files, downloadPie. destruct (can_mkdir dir); [|done]. cbn [negb].
  unfold exists_, table_os. cbn [stat]. rewrite lookup_fmap.
  destruct (files !! fjoin [dir; "pie.phar"]); [done|]. cbn [fmap option_fmap option_map].
  unfold downloadPiePhar. destruct (read_answer _); [|done]. by destruct (can_write _).
Qed.

(** Once something is there it is used for good: whatever the network answers,
    also an error page, is stored as the program, and later calls run it without
    asking again. *)
Theorem pie_download_sticks get get' can_mkdir can_write files dir a :
  can_mkdir dir = true → can_write (fjoin [dir; "pie.phar"]) = true →
  files !! fjoin [dir; "pie.phar"] = None →
  get "https://github.com/php/pie/releases/latest/download/pie.phar" = Some a → a_body_ok a = true →
  let '(files', r) := downloadPie_files get can_mkdir can_write files dir in
  r = Val (fjoin [dir; "pie.phar"]) ∧ files' !! fjoin [dir; "pie.phar"] = Some (a_body a)
  ∧ downloadPie_files get' can_mkdir can_write files' dir = (files', Val (fjoin [dir; "pie.phar"])).
Proof.
  intros Hm Hw Hf Hg Ha. unfold downloadPie_files at 1. rewrite Hm, Hf. cbn [negb].
  unfold downloadPiePhar, read_answer. rewrite Hg. cbn [mbind option_bind]. rewrite Ha, Hw.
  split; [done|]. rewrite lookup_insert_eq. split; [done|].
  unfold downloadPie_files. rewrite Hm. cbn [negb]. by rewrite lookup_insert_eq.
Qed.

Lemma pie_download_sticks_witness :
  let get := λ _, Some (mkAnswer 404 "Not Found" true) in
  let '(files', r) := downloadPie_files get (λ _, true) (λ _, true) ∅ "/h/pie" in
  r = Val (fjoin ["/h/pie"; "pie.phar"]) ∧ files' !! fjoin ["/h/pie"; "pie.phar"] = Some "Not Found"
  ∧ downloadPie_files (λ _, None) (λ _, true) (λ _, true) files' "/h/pie"
    = (files', Val (fjoin ["/h/pie"; "pie.phar"])).
Proof.
  exact (pie_download_sticks (λ _, Some (mkAnswer 404 "Not Found" true)) (λ _, None) (λ _, true) (λ _, true)
           ∅ "/h/pie" (mkAnswer 404 "Not Found" true) eq_refl eq_refl eq_refl eq_refl eq_refl).
Defined.
