(* ===== verification/PidNames.v ===== *)
(** * Names of pid files ([local/pid/pidfile.go], [local/sum.go])

    A project and its workers are named by the hexadecimal SHA-1 of a directory
    and of a command.  The hash is a parameter; what the paths need of it is that
    it gives twenty bytes, and that two inputs differ where the paths must. *)

From stdpp Require Import base tactics option list gmap strings pretty.
From Stdlib Require Import ZArith Lia Ascii.
From S2P Require Import Prelude GoStrings FilePath Os Pid.

(** [fmt.Sprintf("%x", _)] of bytes. *)
Definition hex_char (n : nat) : ascii := ascii_of_nat (if n <? 10 then 48 + n else 87 + n).
Fixpoint hex (b : list nat) : string :=
  match b with
  | [] => ""
  | x :: b => String (hex_char (x / 16 mod 16)) (String (hex_char (x mod 16)) (hex b))
  end.

Section names.
Context (sha1 : string → list nat).

(** [func name] of [pidfile.go] and [func Name] of [sum.go]. *)
Definition name (dir : string) : string := hex (sha1 dir).
Definition Name := name.
Definition PidFile_Name (p : PidFile) : string := name (p_Dir p).

Definition hash_ok : Prop := ∀ s, length (sha1 s) = 20 ∧ Forall (λ b, b < 256) (sha1 s).

Lemma hex_char_plain n : n < 16 → between 48 57 (hex_char n) || between 97 102 (hex_char n) = true.
Proof. intros H. do 16 (destruct n as [|n]; [done|]). lia. Qed.

Lemma hex_plain b : sforall (λ c, between 48 57 c || between 97 102 c) (hex b) = true.
Proof.
  induction b as [|x b IH]; [done|]. cbn [hex sforall]. rewrite IH, !hex_char_plain; [done|..];
    apply Nat.mod_upper_bound; lia.
Qed.

Lemma hex_length b : slen (hex b) = 2 * length b.
Proof. induction b as [|x b IH]; [done|]. cbn [hex slen length]. rewrite IH. lia. Qed.

Lemma hex_char_inj m n : m < 16 → n < 16 → hex_char m = hex_char n → m = n.
Proof.
  intros Hm Hn. do 16 (destruct m as [|m]; [do 16 (destruct n as [|n]; [by cbn|]); lia|]). lia.
Qed.

Lemma String_eq c s d t : String c s = String d t → c = d ∧ s = t.
Proof. by intros [= -> ->]. Qed.

(** Bytes are read back from their digits. *)
Lemma hex_inj a b : Forall (λ x, x < 256) a → Forall (λ x, x < 256) b → hex a = hex b → a = b.
Proof.
  intros Ha. revert b. induction Ha as [|x a Hx _ IH]; intros b Hb H; destruct Hb as [|y b Hy Hb]; try done.
  change (hex (x :: a)) with (String (hex_char (x / 16 mod 16)) (String (hex_char (x mod 16)) (hex a))) in H.
  change (hex (y :: b)) with (String (hex_char (y / 16 mod 16)) (String (hex_char (y mod 16)) (hex b))) in H.
  apply String_eq in H as [H1 [H2 H3]%String_eq].
  apply hex_char_inj in H1, H2; try (apply Nat.mod_upper_bound; lia).
  rewrite !(Nat.mod_small (_ / 16)) in H1 by (apply Nat.Div0.div_lt_upper_bound; lia).
  f_equal; [|by apply IH]. rewrite (Nat.div_mod_eq x 16), (Nat.div_mod_eq y 16). congruence.
Qed.

(** ** Where the files are *)

Lemma name_clean s suffix : hash_ok → lacks "/" suffix = true → clean_ok (name s +:+ suffix).
Proof.
  intros Hh Hs. destruct (Hh s) as [Hl _]. pose proof (hex_length (sha1 s)) as Hn. rewrite Hl in Hn.
  unfold name. split_and!.
  - unfold real_comp. apply negb_true_iff, bool_decide_eq_false_2. intros [E|E]; apply (f_equal slen) in E;
      rewrite slen_app in E; simpl in E; lia.
  - intros E. apply (f_equal slen) in E. rewrite slen_app in E. simpl in E. lia.
  - rewrite lacks_app, Hs, andb_true_r. generalize (hex_plain (sha1 s)). unfold lacks.
    generalize (hex (sha1 s)). intros t. induction t as [|c t IH]; [done|]. cbn [sforall].
    rewrite !andb_true_iff. intros [Hc Ht]. split; [|by apply IH]. apply negb_true_iff, Ascii.eqb_neq.
    by intros <-.
Qed.

Lemma fjoin_comps hs l : hs ≠ [] → l ≠ [] → Forall clean_ok hs → Forall clean_ok l →
  fjoin ((sep +:+ Join hs sep) :: l) = sep +:+ Join (hs ++ l) sep.
Proof.
  intros Hhs Hl Ch Cl. cbn [fjoin]. rewrite bool_decide_eq_false_2 by done.
  assert (E : Join ((sep +:+ Join hs sep) :: l) sep = sep +:+ Join (hs ++ l) sep).
  { rewrite Join_app by done. destruct l; [done|]. rewrite Join_cons2. by rewrite !sapp_assoc. }
  rewrite E. apply Clean_rooted. by apply Forall_app.
Qed.

Definition pid_comps (dir : string) (args : option (list string)) : list string :=
  match args with
  | None => ["var"; name dir +:+ ".pid"]
  | Some args => ["var"; name dir; name (Join args " ") +:+ ".pid"]
  end.

Lemma name_clean' s : hash_ok → clean_ok (name s).
Proof. intros Hh. rewrite <-(sapp_nil_r (name s)). by apply name_clean. Qed.

Lemma pid_comps_clean dir args : hash_ok → Forall clean_ok (pid_comps dir args).
Proof.
  intros Hh. assert (clean_ok "var") by (repeat split; done).
  destruct args; repeat constructor; try done; try apply name_clean; try apply name_clean'; done.
Qed.

Lemma pid_path_comps hs dir args : hash_ok → hs ≠ [] → Forall clean_ok hs →
  pid_path (sep +:+ Join hs sep) name dir args = sep +:+ Join (hs ++ pid_comps dir args) sep.
Proof.
  intros Hh Hne Hc. unfold pid_path. destruct args; apply fjoin_comps; try done;
    [apply (pid_comps_clean dir (Some l))|apply (pid_comps_clean dir None)]; done.
Qed.

Lemma rooted_inj l k : l ≠ [] → k ≠ [] → Forall clean_ok l → Forall clean_ok k →
  sep +:+ Join l sep = sep +:+ Join k sep → l = k.
Proof.
  intros Hl Hk Cl Ck H. apply (f_equal (λ s, Split s sep)) in H. rewrite !Split_rooted in H by done.
  destruct l, k; try done. injection H as -> ->. done.
Qed.

(** C39: nobody writes the pid file of somebody else: the pid file of a server is never
    that of a worker, and two pid files with the same path are those of the same
    directory and of the same command line, unless two different texts have the
    same hash. *)
Theorem pid_path_unique hs dir args dir' args' :
  hash_ok → hs ≠ [] → Forall clean_ok hs →
  pid_path (sep +:+ Join hs sep) name dir args = pid_path (sep +:+ Join hs sep) name dir' args' →
  sha1 dir = sha1 dir'
  ∧ match args, args' with
    | None, None => True
    | Some a, Some a' => sha1 (Join a " ") = sha1 (Join a' " ")
    | _, _ => False
    end.
Proof.
  intros Hh Hne Hc H. rewrite !pid_path_comps in H by done.
  apply rooted_inj in H; [|by destruct hs|by destruct hs|by apply Forall_app; auto using pid_comps_clean..].
  apply app_inv_head in H.
  assert (Hi : ∀ s t, name s = name t → sha1 s = sha1 t).
  { intros s t E. destruct (Hh s), (Hh t). by apply hex_inj. }
  destruct args, args'; cbn in H; try done.
  - injection H as H1 H2. split; [by apply Hi|]. apply Hi. by eapply sapp_inj_r.
  - injection H as H1. split; [|done]. apply Hi. by eapply sapp_inj_r.
Qed.
End names.

(** A toy hash: the bytes of the text, cut and filled to twenty. *)
Definition toy_hash (s : string) : list nat :=
  take 20 ((λ c, nat_of_ascii c) <$> String.list_ascii_of_string s) ++
  replicate (20 - length (take 20 ((λ c, nat_of_ascii c) <$> String.list_ascii_of_string s))) 0.

Lemma toy_hash_ok : hash_ok toy_hash.
Proof.
  intros s. unfold toy_hash. split.
  - rewrite length_app, length_replicate, length_take. lia.
  - apply Forall_app. split; [|by apply Forall_replicate; lia].
    apply Forall_take, Forall_fmap, Forall_true. intros c. apply nat_ascii_bounded.
Qed.

Lemma pid_path_unique_witness :
  pid_path "/h" (name toy_hash) "/p" (Some ["a b"; "c"]) = pid_path "/h" (name toy_hash) "/p" (Some ["a"; "b c"])
  ∧ toy_hash "/p" = toy_hash "/p" ∧ toy_hash (Join ["a b"; "c"] " ") = toy_hash (Join ["a"; "b c"] " ").
Proof.
  split; [reflexivity|].
  apply (pid_path_unique toy_hash ["h"] "/p" (Some ["a b"; "c"]) "/p" (Some ["a"; "b c"])).
  - apply toy_hash_ok.
  - done.
  - repeat constructor; done.
  - reflexivity.
Defined.
