(* ===== verification/EndToEnd.v ===== *)
(** * A request from the browser to PHP

    [Proxy], [Http] and [PhpServer] one behind the other: a domain is attached to a
    project and the browser asks the proxy for a page of it.  A plain request is
    passed to the web server of the project with the port the browser used in a
    header, and is served or redirected to HTTPS; for HTTPS the browser gets a
    tunnel, in which the request arrives as it was sent.  The web server then calls
    PHP. *)

From stdpp Require Import base tactics option list gmap strings pretty.
From Stdlib Require Import ZArith Lia Ascii.
From S2P Require Import Prelude GoStrings Utf8 FilePath Os Envs Proxy Http PhpExecutor PhpServer.

(** The proxy passes a plain request on over a connection of its own, from
    [remote]; [port] is the value of the header that its handler decided on. *)
Definition forwarded (remote port : string) (r : HttpRequest) : HttpRequest :=
  mkReq (r_Host r) (r_Path r) (r_RawQuery r) (r_Proto r) (<["X-Forwarded-Port" := [port]]> (r_Header r)) remote.
(** A tunnel passes bytes: only the address of the client changes. *)
Definition tunnelled (remote : string) (r : HttpRequest) : HttpRequest :=
  mkReq (r_Host r) (r_Path r) (r_RawQuery r) (r_Proto r) (r_Header r) remote.

(** [ProxyHandler] normalises the host before it calls [Handler]. *)
Definition normalized (r : HttpRequest) : HttpRequest :=
  mkReq (normalize_host (r_Host r)) (r_Path r) (r_RawQuery r) (r_Proto r) (r_Header r) (r_RemoteAddr r).

Inductive arrival := Handled (a : Http.reply) | Redirected (target : string) | NoTLSServer.
(** What the web server does with a request over plain TCP or over TLS, by the
    handlers that [Start] installed. *)
Definition accept (w : os) (s : Server) (rs : running_server) (callback : option (gmap string string → option string))
    (tls : bool) (r : HttpRequest) : arrival :=
  let handled := Handled (Handler w s callback (normalized r)) in
  if tls then if rs_https rs then handled else NoTLSServer
  else match rs_http rs with
       | ServeAll => handled
       | ServeForwardedOrRedirect =>
         match redirect_handler r with Some target => Redirected target | None => handled end
       end.

Lemma normalize_plain host : plain_host host = true → normalize_host host = host.
Proof. intros (H & _)%plain_host_spec. unfold normalize_host. by rewrite H. Qed.

Lemma server_name_plain host : plain_host host = true → server_name host = host.
Proof.
  unfold plain_host. rewrite !andb_true_iff. intros [[H _] _].
  unfold server_name, Split. by rewrite (split_char_lacks ":").
Qed.

(** The variables that tell a script how it was called. *)
Definition call_vars : list string :=
  ["HTTP_HOST"; "SERVER_NAME"; "X_FORWARDED_PORT"; "SCRIPT_NAME"; "PATH_INFO"; "REQUEST_METHOD"].

Lemma not_header k headers :
  (HasPrefix k "HTTP_" = false ∨ k = "HTTP_HOST") →
  List.find (header_sets k) (reverse headers) = None.
Proof.
  intros Hk. destruct (List.find _ _) as [kv|] eqn:E; [|done].
  apply header_sets_names in E as [H1 H2]. destruct Hk; congruence.
Qed.

Lemma call_vars_plain k : k ∈ call_vars → HasPrefix k "HTTP_" = false ∨ k = "HTTP_HOST".
Proof.
  intros Hk. unfold call_vars in Hk. rewrite !elem_of_cons, elem_of_nil in Hk.
  destruct Hk as [-> |[-> |[-> |[-> |[-> |[-> |[]]]]]]]; (by left) || by right.
Qed.

(** What a script is told of its call. *)
Definition script_sees (p : PhpServer) (env : Envs) (host port path method : string) : Prop :=
  env !! "HTTP_HOST" = Some host ∧ env !! "SERVER_NAME" = Some host ∧
  env !! "X_FORWARDED_PORT" = Some port ∧ env !! "SCRIPT_NAME" = Some (passthru p) ∧
  env !! "PATH_INFO" = Some path ∧ env !! "REQUEST_METHOD" = Some method.

Section page.
Context `{U : !Unicode} (w : os) (s : Server) (p : PhpServer).

Lemma generateEnv_plain vars headers q env :
  generateEnv w p vars headers q = Ret env →
  ∃ base, base_env w p q = Ret base ∧
    ∀ k, (HasPrefix k "HTTP_" = false ∨ k = "HTTP_HOST") → vars !! k = None → env !! k = base !! k.
Proof.
  intros (base & Hb & [= <-])%bind_inv. exists base. split; [done|]. intros k Hk Hv.
  rewrite header_fold, not_header by done. by apply lookup_union_r.
Qed.

Lemma Serve_env vars headers q env0 range rid wok env file :
  Serve w p vars headers q env0 range rid wok = Ret (Val (env, file)) →
  ∃ generated, generateEnv w p vars headers q = Ret generated ∧ env = generated ∪ env0.
Proof.
  unfold Serve. destruct (bool_decide _); [done|]. intros (generated & Hg & [= H])%bind_inv.
  exists generated. split; [done|]. destruct (ps_kind p); repeat case_match; congruence.
Qed.

Lemma base_env_page q base :
  Index (ToLowerRunes (r_Path (q_req q))) ".php" = None → base_env w p q = Ret base →
  base !! "HTTP_HOST" = Some (r_Host (q_req q)) ∧ base !! "SERVER_NAME" = None ∧
  base !! "X_FORWARDED_PORT" = None ∧ base !! "SCRIPT_NAME" = Some (passthru p) ∧
  base !! "PATH_INFO" = Some (r_Path (q_req q)) ∧ base !! "REQUEST_METHOD" = Some (q_Method q).
Proof.
  intros Hphp Hb. unfold base_env, script_split in Hb. rewrite Hphp, bind_Ret in Hb.
  destruct (remote_addr _) as [ra rp]. injection Hb as <-. by split_and!.
Qed.

(** A request for a page (no script in its path, no file there) that reaches
    [Handler] is one for PHP. *)
Lemma Serve_page r serve vars headers q range rid wok env file :
  q_req q = r → plain_host (r_Host r) = true → Forall (λ k, vars !! k = None) call_vars →
  Index (ToLowerRunes (r_Path r)) ".php" = None →
  (∀ isDir, stat w (static_path s (r_Path r)) = Found isDir → isDir = true) →
  serve (callback_env s r) = None →
  Serve w p vars headers q (callback_env s r) range rid wok = Ret (Val (env, file)) →
  let fwd := Header_Get (r_Header r) "X-Forwarded-Port" in
  Handler w s (Some serve) r = ToCallback (callback_env s r) ∧
  script_sees p env (r_Host r) (if bool_decide (fwd = "") then serverPort s else fwd) (r_Path r) (q_Method q).
Proof.
  intros <- Hplain Hvars Hphp Hst Hserve (generated & Hg & ->)%Serve_env fwd. split.
  - unfold Handler. rewrite Hserve.
    destruct (stat w _) as [isDir| |] eqn:E; rewrite ?andb_false_r; try done.
    rewrite (Hst isDir) by done. by rewrite andb_false_r.
  - apply generateEnv_plain in Hg as (base & Hb & Hg). rewrite Forall_forall in Hvars.
    assert (Hget : ∀ k, k ∈ call_vars → generated !! k = base !! k)
      by (intros k Hk; apply Hg; [by apply call_vars_plain|by apply Hvars]).
    destruct (base_env_page q base Hphp Hb) as (H1 & H2 & H3 & H4 & H5 & H6).
    assert (Hcall : ∀ k, k ∈ call_vars → (generated ∪ callback_env s (q_req q)) !! k
                           = base !! k ∪ callback_env s (q_req q) !! k)
      by (intros k Hk; by rewrite lookup_union, Hget).
    unfold script_sees. rewrite !Hcall by (apply (bool_decide_unpack _); exact I).
    rewrite H1, H2, H3, H4, H5, H6. unfold callback_env. rewrite (server_name_plain _ Hplain).
    by split_and!.
Qed.
End page.


(** ** A domain attached, a page asked for *)

Definition ex_http_server : running_server := mkRunning 8000 false false ServeForwardedOrRedirect true.
Definition ex_page : HttpRequest := mkReq "new.wip" "/blog" "page=2" "HTTP/1.1" ∅ "".
Definition ex_call : php_request := mkPhpReq (tunnelled "127.0.0.1:4242" ex_page) "GET" "/blog?page=2" true.

